(* ===== verification/_CoqProject ===== *)
-Q . S2P
Prelude.v
ByteUtils.v
Crc32.v
TextFormat.v
UsageText.v
FrameCodec.v
StreamExtractor.v
Floats.v
ApplicationPayload.v
Replay.v
NetworkServer.v
ServerSocket.v
CliParsing.v
PortDiagnostics.v
Logger.v
Timestamp.v
SignalProcessing.v
FloatRounding.v
TerminalUi.v
Sparkline.v
StationHealth.v
BlockingQueue.v
GroundStationOptions.v
PortCheck.v
Pipeline.v
PipelineInvariant.v
PipelineSpec.v
PipelineProgress.v
PipelineGuarantees.v
TelemetryOutput.v
StopController.v
OutputFile.v
GroundStationApp.v
StationInput.v
SimulatorOptions.v
Usage.v
Simulator.v
SimulatorApp.v
EndToEnd.v
StationMain.v
StationTerminal.v
SimulatorMain.v
SimulatorTerminal.v
JsCore.v
SearchId.v
Dom.v
JQuery.v
Page.v
SearchResultsPane.v
SearchData.v
SearchSections.v
SearchPanel.v
SearchPanelSpec.v
SearchIndex.v
DocMenu.v
DynSections.v
CodeFold.v
Tooltips.v
MenuPage.v
