(* ===== verification/Prelude.v ===== *)
(** * STGS: a telemetry ground station and its documentation pages

    The repository holds a C++ ground station, which receives, checks, reorders and exports the
    telemetry frames of satellites, and the JavaScript of its documentation pages
    ([src/docs/doxygen/html]), with a search over a generated index. This library models the core
    of both in Rocq and proves what it promises. This file is its root: the notations, tactics and
    lemmas that every component shares.

    ** The station

    Bytes come from a socket or a replay file, are cut into frames, decoded by several threads, put
    back into order and handed to the health monitor, the terminal and the output file.

    - [ByteUtils] is include/stgs/ByteUtils.hpp: the big-endian append and read functions. Bytes and
      unsigned integers are [Z] within their range; a [float] is its 32 bits.
    - [Crc32] is src/Crc32.cpp: the table and the loop. [crc32_is_iso_hdlc] compares them with the
      bitwise definition of CRC-32/ISO-HDLC; [crc32_detects_bursts] is the guarantee of the code for
      errors within four bytes.
    - [TextFormat] is what the sources use of the standard number formatting. [UsageText] holds the
      usage texts of the three programs and reads the rows of the options in them.
    - [FrameCodec] is src/FrameCodec.cpp: [encodeFrame], which may throw, and [decodeFrame], which
      returns a frame or a [FrameError]. Reading outside of a span is undefined in C++ and [None]
      here. The two are inverse to each other ([frame_round_trip], [frame_canonical]), decoding never
      reads outside, and a damaged frame is rejected.
    - [StreamExtractor] is the class [StreamFrameExtractor] of the same file. [feed_turn] is one turn
      of its [while (true)]; [feed] iterates it with a fuel above the size of the buffer, which
      [feed_terminates_bounded] shows to be enough. The frames do not depend on the fragments of the
      stream, a stream of encoded frames gives back the frames, and noise is skipped.
    - [Floats] is IEEE-754 arithmetic on the Standard Library's [SpecFloat], for the range checks of
      [ApplicationPayload] and the rates of [StationHealth].
    - [ApplicationPayload] is src/ApplicationPayload.cpp: the STGA text messages and signal blocks.
    - [Replay] is src/Replay.cpp: the STGF capture files, over a small model of the standard streams
      whose device is a parameter, and the reading loop of GroundStationInput.cpp. Its fuel is above
      the number of bytes left, and every entry takes some.
    - [StationHealth] is src/StationHealth.cpp: the sliding window and its thresholds. The decimal
      rendering of a double is a parameter; it only occurs in the text of a transition. The thresholds
      are stated apart from the code, on windows of samples ([degrading], [recovering]), and
      [health_follows_window] compares each sample of a run with them.
    - [BlockingQueue] is include/stgs/BlockingQueue.hpp. The mutex makes each call one step; [None]
      is a call that waits.
    - [NetworkServer] is the two loops of src/NetworkServerTcp.cpp and NetworkServerUdp.cpp. What the
      kernel answers to [poll()], [recv()] and [accept()] is an argument; a run gives the sequence of
      its effects (reads, callbacks, descriptors opened and closed). Clients do not disturb each
      other, every descriptor is closed, and the loop over the snapshot stays within the client list.
    - [ServerSocket] is the life of the socket around these loops, with src/NetworkServer.cpp: it is
      created, bound, put to listen and closed in a monad of state and exceptions, over the answers
      of the kernel, each of which may fail, [close()] too. [server_closes_descriptors] covers every way
      out.
    - [CliParsing] is include/stgs/CliParsing.hpp: numbers, ports and ranges. [std::from_chars] is
      modelled for the decimal case that is used, [std::strtod] is a parameter. [GroundStationOptions]
      is GroundStationOptions.cpp with its loop over the arguments; [parseArgs_valid] says what the
      options it returns satisfy.
    - [PortDiagnostics] is src/PortDiagnostics.cpp over the answers of the system calls; the search
      for a port and the scans have one turn of fuel more than the ports of the range.
    - [Logger] is src/Logger.cpp, [Timestamp] its [nowIso8601]: the calendar and the text of a time
      of the clock. [stamps_ordered] compares the order of the texts with that of the times.
    - [SignalProcessing] is src/SignalProcessing.cpp and its calls in GroundStationProcessing.cpp, in
      IEEE arithmetic; [sin], [cos], [log10] and [hypot] are parameters (record [libm]).
      [signal_processing_outcome] gives the two ends of a block; [PipelineGuarantees.loud_frame_ends_station]
      is what any block with the second one does to the station, and [loud_block_throws] such a block.
    - [FloatRounding] is the rounding of [SpecFloat]: what it makes of a mantissa, and from that which
      sums, differences and quotients of doubles are numbers.
    - [TelemetryOutput] is TelemetryOutput.cpp: the CSV and JSON documents and their escapes, over a
      device that may fail at every text. [output_complete_or_throws] shows that no failure is
      silent, [csv_document_round_trip] and [json_escape_round_trip] that readers get the data back.
    - [Pipeline] is GroundStationPipeline.cpp and GroundStationWorkers.cpp of apps/ground_station. A
      state holds where each thread is (main, decoders, writer), both queues, the running flag, the
      recorded error and the writer's own variables; [step] is the relation of the interleavings,
      each step ending at the next operation another thread can see. [consume] is the body of the
      writer's inner loop with the calls of GroundStationProcessing.cpp; the logger, the terminal and
      the output file are the class [Outputs], each of whose calls may throw. [run_sequentially] is
      the specification: one thread that decodes and consumes the frames in order.
    - [PipelineInvariant] holds the invariants and that each step keeps them (where each sequence is,
      what the queues hold, which thread closed what), [PipelineSpec] the refinement of the
      sequential program, [PipelineProgress] the measure and the absence of deadlock,
      [PipelineGuarantees] the theorems about the runs, with a scheduler that executes the threads.
      Among them are [pipeline_refines_sequential], [pipeline_works_in_order],
      [pipeline_errors_external], [pipeline_ends] and [pipeline_queues_bounded].

    - [GroundStationApp] is the start of GroundStationApp.cpp ([startup]: port, logger, monitor) and
      the configuration of the server. [StationInput] is GroundStationInput.cpp: the replay and the
      server as sources of the pipeline; [station_serves_network] goes from the socket to the outputs.
    - [TerminalUi] is src/TerminalUi.cpp: the texts written to the terminal, with the neutralisation of
      the ASCII controls of received texts ([remote_text_escapes_controls]) and the sparklines, which
      [Sparkline] shows to be drawn
      for every finite sample, whatever the roundings ([sparkline_total]).
      [PortCheck] is apps/port_check.cpp on top of it and of [PortDiagnostics].
    - [StopController] is PosixSignalStopController.cpp, the thread that waits for signals, whose failure
      leaves [run] behind the summary.
    - [OutputFile] is the instance of [Outputs] that the station runs with: logger, terminal and output
      file. [station_exports_accepted_frames] says what the file holds at the end of any run.
    - [StationMain] is apps/ground_station.cpp with [run] and [renderSummary]: all the ends of the
      process, from the command line on, with the controller of the signals. [station_summary_true] says
      that its exit status and its summary tell the truth.
    - [StationTerminal] is what the terminal shows: the search of a port and the start of
      GroundStationApp.cpp ([start_screens]), and the messages and the signals of the frames
      ([station_shows_payloads]).

    ** The simulator

    - [SimulatorOptions] is apps/satellite_simulator/SimulatorOptions.cpp, [Simulator] the frame
      factory, [sendAll] and the loop of SimulatorApp.cpp. The generator and the distributions of
      <random> are the class [Random], with the ranges of what they draw in [RandomLaws].
    - [Usage] compares the usage texts with the parsers of the three programs: unknown options, missing
      values and the defaults that are quoted ([usage_documents_parsers]).
    - [SimulatorApp] is the discovery of the port and the datagrams of SimulatorApp.cpp.
    - [EndToEnd] runs the simulator, its capture, the replay and the pipeline one after the other
      ([station_counts_simulation]).
    - [SimulatorMain] is apps/satellite_simulator.cpp with [run]: discovery, socket, transmission,
      capture and summary ([simulator_summary_true]), and the two programs on one network
      ([network_counts_simulation]; on a connection for corruptions that leave a frame its limits). [SimulatorTerminal] is what it shows in front of the
      transmission ([discovery_is_announced]).

    ** The documentation pages

    - [JsCore] is JavaScript strings as UTF-16 code units with the operations the scripts use;
      [toLowerCase] is an interface (class [LowerCase]) with the laws the theorems need.
    - [SearchId] is [convertToId] of search/search.js, an injective code that keeps prefixes.
    - [Dom] is the tree of a page, with its accessors; [Page] the state of the scripts, the monad
      their functions run in and the browser as a class ([Browser], [BrowserLaws]): its HTML parser,
      its layout and its focus.
    - [SearchResultsPane] is [createResults] and the object [SearchResults]: the rows, the search
      and the moves of the keyboard. The loops of the moves get the number of the rows as fuel.
    - [SearchData] is search/searchdata.js and the files search/all_*.js, [SearchSections] the files
      of the other ten sections, entry by entry.
    - [SearchPanel] is the object [SearchBox], [init_search], the timers and the loading of the
      index, with the events of the browser as a step relation; [SearchPanelSpec] shows the discipline
      of the timers, how closing resets the panel and the bounds of the filter; [SearchIndex] that the
      shipped index is complete for the search.
    - [JQuery] is the calls of jQuery that menu.js and dynsections.js make, on [Dom].
    - [DocMenu] is menudata.js and the markup of menu.js, with what a reader of this markup gets;
      [MenuPage] what [initMenu] and its handlers do to the tree of the page. The ends of the animations
      of the menu are events of their own, behind any others: the search box that scripts find is in the
      place of the layout, and seen unless the menu is closed too late ([search_box_found_is_shown]).
    - [DynSections] is dynsections.js on tables and folds, [CodeFold] the folds of code on the tree:
      the page that [init_codefold] makes refines the folds of [DynSections] ([codefold_refines]).
      [Tooltips] is the handler at the end of the file.

    ** Bounds

    Sizes are [std::size_t] in C++ and unbounded here: a container that fits in memory does not
    overflow them. The sequence numbers and counters of the pipeline are 64 bits wide and not
    wrapped, which no run of fewer than 2^64 frames notices. The fields of frames and payloads and
    the registers of the CRC are kept at their width. JavaScript numbers are only used as small
    integers and as pixel counts.

    ** What is not modelled

    The kernel, the delivery of signals and the clocks: what they answer are arguments.
    The mathematical functions, [std::strtod] and the rendering of floating-point numbers are
    parameters. The progress thread is left out: it only reads, and it may read the counters while
    the writer is between two of them, which is one step here. A callback of the server that throws
    is left out as well; the only one there is, [submit], does not. Times before 1970 have no stamp.
    jQuery, its menu plug-in and its tooltips are a library; of its animations there are the queue, the
    display of the menu at the beginning and the callback at the end, without the heights on the way;
    [init_codefold] is modelled for markers that have no special character of a regular expression.
    The trace lines of the decoders are only seen as calls that may throw. The tests and benchmarks
    of src/tests only run the parts above. *)

From Stdlib Require Export ZArith Lia.
From stdpp Require Export base decidable list list_numbers strings gmap.

#[export] Set Default Proof Using "Type".

Declare Scope stgs_scope.
Delimit Scope stgs_scope with stgs.
#[global] Open Scope Z_scope.

(** ** Results of fallible code *)

(** The standard exceptions the sources throw, with the text given to their constructor. *)
Inductive exn :=
  | invalid_argument (what : string)
  | runtime_error (what : string).

(** [ex.what()] *)
Definition what (e : exn) : string := match e with invalid_argument m | runtime_error m => m end.

#[export] Instance exn_eq_dec : EqDecision exn.
Proof. solve_decision. Defined.

(** A C++ function that may throw. *)
Inductive result (A : Type) :=
  | Ok (a : A)
  | Throw (e : exn).
Arguments Ok {A} _.
Arguments Throw {A} _.

#[export] Instance result_ret : MRet result := fun A a => Ok a.
#[export] Instance result_bind : MBind result :=
  fun A B f m => match m with Ok a => f a | Throw e => Throw e end.

(** [if (cond) { throw e; }] followed by the rest of the body. *)
Notation "'throw_if' c e ;; k" := (if c then Throw e else k)
  (at level 100, c at level 0, e at level 0, k at level 200, right associativity) : stgs_scope.
#[global] Open Scope stgs_scope.

Definition is_ok {A} (r : result A) : bool :=
  match r with Ok _ => true | Throw _ => false end.

(** ** Bytes and byte vectors *)

(** A [std::uint8_t] is an integer of [0, 256); a [ByteVector] is a list of them. *)
Abbreviation bytes := (list Z).

Definition is_byte (b : Z) : Prop := 0 <= b < 256.
Abbreviation bytes_ok := (Forall is_byte).

#[export] Instance is_byte_dec b : Decision (is_byte b).
Proof. unfold is_byte. apply _. Defined.

(** [container.size()]; the sources compare sizes as unsigned 64-bit numbers, which no container
    that fits in memory overflows. *)
Definition size {A} (l : list A) : Z := Z.of_nat (length l).

(** [bytes[i]] on a span: reading outside of it is undefined behaviour, [None] here. *)
Definition at_ (bs : bytes) (i : Z) : option Z := bs !! Z.to_nat i.

(** [span.subspan(first, count)], and the iterator ranges the sources copy. *)
Definition subspan (bs : bytes) (first count : Z) : bytes :=
  take (Z.to_nat count) (drop (Z.to_nat first) bs).

(** A fixed-width unsigned value. *)
Definition fits (w : Z) (v : Z) : Prop := 0 <= v < 2 ^ w.

(** ** Hint databases *)

Create HintDb stgs discriminated.
#[export] Hint Constants Opaque : stgs.
Create Rewrite HintDb stgs_size.

(** ** Tactics *)

(** Case analysis of every [if] and [match] of the goal, closing impossible branches. *)
Ltac break_ifs :=
  repeat match goal with
  | |- context [if ?c then _ else _] => destruct c eqn:?
  end.

(** Turn the boolean comparisons of the context into propositions. *)
Ltac reflect_Z :=
  repeat match goal with
  | H : (_ <? _) = true |- _ => apply Z.ltb_lt in H
  | H : (_ <? _) = false |- _ => apply Z.ltb_ge in H
  | H : (_ <=? _) = true |- _ => apply Z.leb_le in H
  | H : (_ <=? _) = false |- _ => apply Z.leb_gt in H
  | H : (_ >? _) = true |- _ => rewrite Z.gtb_ltb in H; apply Z.ltb_lt in H
  | H : (_ >? _) = false |- _ => rewrite Z.gtb_ltb in H; apply Z.ltb_ge in H
  | H : (_ >=? _) = true |- _ => rewrite Z.geb_leb in H; apply Z.leb_le in H
  | H : (_ >=? _) = false |- _ => rewrite Z.geb_leb in H; apply Z.leb_gt in H
  | H : (_ =? _) = true |- _ => apply Z.eqb_eq in H
  | H : (_ =? _) = false |- _ => apply Z.eqb_neq in H
  | H : negb _ = true |- _ => apply negb_true_iff in H
  | H : negb _ = false |- _ => apply negb_false_iff in H
  | H : _ || _ = false |- _ => apply orb_false_iff in H as [? ?]
  | H : _ && _ = true |- _ => apply andb_true_iff in H as [? ?]
  end.

(** Arithmetic with division and modulo by constants. *)
Ltac dlia := Z.div_mod_to_equations; lia.

(** Go on with the continuation of a defined value. *)
Lemma bind_Some_eq {A B} (f : A -> option B) (x : A) : Some x ≫= f = f x.
Proof. done. Qed.

Lemma bind_Ok_eq {A B} (f : A -> result B) (x : A) : Ok x ≫= f = f x.
Proof. done. Qed.

Ltac bind_some := rewrite ?bind_Some_eq, ?bind_Ok_eq; cbv beta.

(** Evaluate the decision procedure of a closed proposition. *)
Ltac decide_now := refine (bool_decide_unpack _ _); vm_compute; exact I.

(** Equality of integers bit by bit, for an index that is not negative. *)
Ltac by_bits i Hi := apply Z.bits_inj'; intros i Hi.

(** ** Lists *)

Lemma size_nonneg {A} (l : list A) : 0 <= size l.
Proof. unfold size. lia. Qed.

Lemma size_nil {A} : size (@nil A) = 0.
Proof. done. Qed.

Lemma size_cons {A} (x : A) l : size (x :: l) = 1 + size l.
Proof. unfold size. cbn [length]. lia. Qed.

Lemma size_app {A} (l k : list A) : size (l ++ k) = size l + size k.
Proof. unfold size. rewrite length_app. lia. Qed.

Lemma size_take {A} (l : list A) n : size (take n l) = Z.min (Z.of_nat n) (size l).
Proof. unfold size. rewrite length_take. lia. Qed.

Lemma size_drop {A} (l : list A) n : size (drop n l) = Z.max 0 (size l - Z.of_nat n).
Proof. unfold size. rewrite length_drop. lia. Qed.

Lemma size_fmap {A B} (f : A -> B) (l : list A) : size (f <$> l) = size l.
Proof. unfold size. by rewrite length_fmap. Qed.

#[export] Hint Rewrite @size_nil @size_cons @size_app @size_take @size_drop @size_fmap : stgs_size.
#[export] Hint Resolve size_nonneg : stgs.

Ltac size_lia :=
  autorewrite with stgs_size in *;
  repeat match goal with
  | |- context [size ?l] => lazymatch goal with
      | _ : 0 <= size l |- _ => fail | _ => pose proof (size_nonneg l) end
  | _ : context [size ?l] |- _ => lazymatch goal with
      | _ : 0 <= size l |- _ => fail | _ => pose proof (size_nonneg l) end
  end; lia.

Lemma subspan_size bs first count :
  0 <= first -> 0 <= count -> first + count <= size bs -> size (subspan bs first count) = count.
Proof. unfold subspan. intros. size_lia. Qed.

Lemma subspan_middle a b c :
  subspan (a ++ b ++ c) (size a) (size b) = b.
Proof.
  unfold subspan, size. rewrite !Nat2Z.id.
  by rewrite drop_app_length, take_app_length.
Qed.

Lemma bytes_ok_take n bs : bytes_ok bs -> bytes_ok (take n bs).
Proof. apply Forall_take. Qed.

Lemma bytes_ok_drop n bs : bytes_ok bs -> bytes_ok (drop n bs).
Proof. apply Forall_drop. Qed.

Lemma bytes_ok_app l k : bytes_ok (l ++ k) <-> bytes_ok l /\ bytes_ok k.
Proof. apply Forall_app. Qed.

Lemma bytes_ok_snoc l b : bytes_ok (l ++ [b]) <-> bytes_ok l /\ is_byte b.
Proof. rewrite bytes_ok_app, Forall_cons, Forall_nil. tauto. Qed.

Lemma at_inside bs i : 0 <= i < size bs -> is_Some (at_ bs i).
Proof. unfold at_, size. intros. apply lookup_lt_is_Some. lia. Qed.

Lemma at_is_byte bs i b : bytes_ok bs -> at_ bs i = Some b -> is_byte b.
Proof. unfold at_. intros H Hb. eapply Forall_lookup_1; eauto. Qed.

#[export] Hint Resolve bytes_ok_take bytes_ok_drop at_is_byte : stgs.

(** ** Machine integers *)

Lemma land_255 v : Z.land v 255 = v mod 256.
Proof. apply (Z.land_ones v 8). lia. Qed.

Lemma land_255_byte v : is_byte (Z.land v 255).
Proof. rewrite land_255. unfold is_byte. pose proof (Z.mod_pos_bound v 256). lia. Qed.

Lemma shiftr_div v k : 0 <= k -> Z.shiftr v k = v / 2 ^ k.
Proof. intros. by apply Z.shiftr_div_pow2. Qed.

(** Placing a value below a shifted one is an addition. *)
Lemma lor_shiftl_add a b k : 0 <= k -> 0 <= b < 2 ^ k -> Z.lor (Z.shiftl a k) b = a * 2 ^ k + b.
Proof.
  intros Hk Hb. assert (Hand : Z.land (Z.shiftl a k) b = 0).
  { by_bits i Hi. rewrite Z.land_spec, Z.shiftl_spec, Z.bits_0 by done.
    destruct (decide (i < k)); [by rewrite (Z.testbit_neg_r a) by lia|].
    rewrite <- (Z.mod_small b (2 ^ k)), Z.mod_pow2_bits_high by lia. apply andb_false_r. }
  rewrite <- Z.lxor_lor, <- Z.add_nocarry_lxor by done.
  by rewrite Z.shiftl_mul_pow2.
Qed.

Lemma testbit_above w v i : fits w v -> 0 <= w <= i -> Z.testbit v i = false.
Proof.
  unfold fits. intros Hv Hi. rewrite <- (Z.mod_small v (2 ^ w)) by done.
  apply Z.mod_pow2_bits_high. lia.
Qed.

Lemma fits_bits w v : 0 <= w -> 0 <= v -> (forall i, w <= i -> Z.testbit v i = false) -> fits w v.
Proof.
  intros Hw Hv Hb. unfold fits. split; [done|].
  replace v with (v mod 2 ^ w); [apply Z.mod_pos_bound; lia|].
  by_bits i Hi. destruct (decide (i < w)).
  - apply Z.mod_pow2_bits_low. lia.
  - rewrite Z.mod_pow2_bits_high by lia. symmetry. apply Hb. lia.
Qed.

Lemma fits_lxor w a b : 0 <= w -> fits w a -> fits w b -> fits w (Z.lxor a b).
Proof.
  intros Hw Ha Hb. apply fits_bits; [done|apply Z.lxor_nonneg; unfold fits in *; lia|].
  intros i Hi. rewrite Z.lxor_spec, !(testbit_above w) by (done || lia). done.
Qed.

Lemma fits_shiftr w v k : 0 <= k -> 0 <= w -> fits w v -> fits w (Z.shiftr v k).
Proof.
  intros Hk Hw Hv. apply fits_bits; [done|apply Z.shiftr_nonneg; unfold fits in *; lia|].
  intros i Hi. rewrite Z.shiftr_spec by lia. apply (testbit_above w); [done|lia].
Qed.

#[export] Hint Resolve land_255_byte fits_lxor fits_shiftr : stgs.
