(* ===== verification/ByteUtils.v ===== *)
(** Big-endian serialisation primitives of [include/stgs/ByteUtils.hpp].

    The append functions return the grown buffer. The read functions are partial: the header
    asks the caller to check the bounds, and reading outside of the span is [None]. A [float] is
    represented by its 32 bits, so [std::bit_cast] is the identity. *)

From S2P Require Import Prelude.

Definition ByteMask : Z := 255.

Definition appendU8 (out : bytes) (value : Z) : bytes := out ++ [value].

Definition appendU16BE (out : bytes) (value : Z) : bytes :=
  out ++ [Z.land (Z.shiftr value 8) ByteMask] ++ [Z.land value ByteMask].

Definition appendU32BE (out : bytes) (value : Z) : bytes :=
  out ++ [Z.land (Z.shiftr value 24) ByteMask] ++ [Z.land (Z.shiftr value 16) ByteMask]
      ++ [Z.land (Z.shiftr value 8) ByteMask] ++ [Z.land value ByteMask].

(** The loop of [appendU64BE] runs while [shift >= 0]: [n + 1] times from [shift = 8 * n]. *)
Fixpoint appendU64BE_loop (n : nat) (out : bytes) (value : Z) (shift : Z) : bytes :=
  let out := out ++ [Z.land (Z.shiftr value shift) ByteMask] in
  match n with
  | O => out
  | S n => appendU64BE_loop n out value (shift - 8)
  end.

Definition appendU64BE (out : bytes) (value : Z) : bytes := appendU64BE_loop 7 out value 56.

(** [value] is the bit pattern of the float. *)
Definition appendFloatBE (out : bytes) (value : Z) : bytes := appendU32BE out value.

Definition readU16BE (bs : bytes) (offset : Z) : option Z :=
  b0 ← at_ bs offset; b1 ← at_ bs (offset + 1);
  Some (Z.lor (Z.shiftl b0 8) b1).

Definition readU32BE (bs : bytes) (offset : Z) : option Z :=
  b0 ← at_ bs offset; b1 ← at_ bs (offset + 1);
  b2 ← at_ bs (offset + 2); b3 ← at_ bs (offset + 3);
  Some (Z.lor (Z.lor (Z.lor (Z.shiftl b0 24) (Z.shiftl b1 16)) (Z.shiftl b2 8)) b3).

(** [value << 8] drops the bits above the 64th. *)
Fixpoint readU64BE_loop (n : nat) (bs : bytes) (offset value : Z) : option Z :=
  match n with
  | O => Some value
  | S n => b ← at_ bs offset;
           readU64BE_loop n bs (offset + 1) (Z.lor (Z.shiftl value 8 mod 2 ^ 64) b)
  end.

Definition readU64BE (bs : bytes) (offset : Z) : option Z := readU64BE_loop 8 bs offset 0.

Definition readFloatBE (bs : bytes) (offset : Z) : option Z := readU32BE bs offset.

(** ** The bytes of a big-endian integer *)

(** [be n v] is the [n]-byte big-endian image of [v], and [of_be] its value. *)
Fixpoint be (n : nat) (v : Z) : bytes :=
  match n with
  | O => []
  | S n => be n (v / 256) ++ [v mod 256]
  end.

Definition of_be (bs : bytes) : Z := foldl (fun acc b => acc * 256 + b) 0 bs.

Lemma length_be n v : length (be n v) = n.
Proof. revert v. induction n; intros v; cbn [be]; [done|]. rewrite length_app, IHn. cbn. lia. Qed.

Lemma size_be n v : size (be n v) = Z.of_nat n.
Proof. unfold size. by rewrite length_be. Qed.

Lemma be_ok n v : bytes_ok (be n v).
Proof.
  revert v. induction n; intros v; cbn [be]; [constructor|].
  apply bytes_ok_app. split; [done|]. apply Forall_singleton. unfold is_byte. dlia.
Qed.

Lemma of_be_snoc bs b : of_be (bs ++ [b]) = of_be bs * 256 + b.
Proof. unfold of_be. by rewrite foldl_app. Qed.

Lemma of_be_be n v : fits (8 * Z.of_nat n) v -> of_be (be n v) = v.
Proof.
  revert v. induction n as [|n IH]; intros v Hv; unfold fits in *.
  - cbn in *. lia.
  - cbn [be]. rewrite of_be_snoc, IH; [dlia|].
    unfold fits. replace (8 * Z.of_nat (S n)) with (8 * Z.of_nat n + 8) in Hv by lia.
    rewrite Z.pow_add_r in Hv by lia. change (2 ^ 8) with 256 in Hv. dlia.
Qed.

Lemma of_be_bound bs : bytes_ok bs -> fits (8 * size bs) (of_be bs).
Proof.
  induction bs as [|b bs IH] using rev_ind; intros Hok; [done|].
  apply bytes_ok_snoc in Hok as [Hbs Hb].
  specialize (IH Hbs). rewrite of_be_snoc. unfold fits, is_byte in *.
  autorewrite with stgs_size. replace (8 * (size bs + (1 + 0))) with (8 * size bs + 8) by lia.
  rewrite Z.pow_add_r by (pose proof (size_nonneg bs); lia). change (2 ^ 8) with 256. lia.
Qed.

Lemma be_of_be bs : bytes_ok bs -> be (length bs) (of_be bs) = bs.
Proof.
  induction bs as [|b bs IH] using rev_ind; intros Hok; [done|].
  apply bytes_ok_snoc in Hok as [Hbs Hb]. unfold is_byte in Hb.
  rewrite length_app, Nat.add_1_r, of_be_snoc. cbn [be].
  replace ((of_be bs * 256 + b) / 256) with (of_be bs) by dlia.
  rewrite IH by done. do 2 f_equal. dlia.
Qed.

Lemma be_of_be_n n bs : length bs = n -> bytes_ok bs -> be n (of_be bs) = bs.
Proof. intros <-. apply be_of_be. Qed.

(** ** The append functions write the big-endian bytes *)

Lemma byte_of_shift v k : 0 <= k -> Z.land (Z.shiftr v k) ByteMask = v / 2 ^ k mod 256.
Proof. intros. unfold ByteMask. by rewrite land_255, shiftr_div. Qed.

Lemma byte_of v : Z.land v ByteMask = v mod 256.
Proof. apply land_255. Qed.

Ltac byte_div :=
  rewrite ?byte_of_shift, ?byte_of by lia; cbn [be app]; rewrite ?Z.div_div by lia; reflexivity.

Lemma appendU16BE_be out v : appendU16BE out v = out ++ be 2 v.
Proof. unfold appendU16BE. byte_div. Qed.

Lemma appendU32BE_be out v : appendU32BE out v = out ++ be 4 v.
Proof. unfold appendU32BE. byte_div. Qed.

Lemma appendU64BE_be out v : appendU64BE out v = out ++ be 8 v.
Proof.
  unfold appendU64BE. cbn [appendU64BE_loop Z.sub Z.add Z.opp Z.pos_sub].
  rewrite <- !app_assoc. f_equal. cbn [app]. rewrite !byte_of_shift by lia.
  change (2 ^ (56 - 8 - 8 - 8 - 8 - 8 - 8 - 8)) with 1. rewrite Z.div_1_r. byte_div.
Qed.

Lemma appendFloatBE_be out v : appendFloatBE out v = out ++ be 4 v.
Proof. apply appendU32BE_be. Qed.

(** ** The read functions return the value of the bytes *)

Lemma at_app_r pre bs i : 0 <= i -> at_ (pre ++ bs) (size pre + i) = at_ bs i.
Proof.
  intros. unfold at_, size. rewrite lookup_app_r by lia. f_equal. lia.
Qed.

Lemma at_app_hd pre b bs : at_ (pre ++ b :: bs) (size pre) = Some b.
Proof. rewrite <- (Z.add_0_r (size pre)), at_app_r by lia. done. Qed.

Lemma readU16BE_of_be pre bs post :
  length bs = 2%nat -> bytes_ok bs -> readU16BE (pre ++ bs ++ post) (size pre) = Some (of_be bs).
Proof.
  intros Hl Hok. destruct bs as [|b0 [|b1 [|]]]; try done.
  decompose_Forall. unfold readU16BE, is_byte in *.
  rewrite at_app_hd, at_app_r by lia. change (at_ ([b0; b1] ++ post) 1) with (Some b1).
  simpl. rewrite lor_shiftl_add by lia. reflexivity.
Qed.

Lemma readU32BE_of_be pre bs post :
  length bs = 4%nat -> bytes_ok bs -> readU32BE (pre ++ bs ++ post) (size pre) = Some (of_be bs).
Proof.
  intros Hl Hok. destruct bs as [|b0 [|b1 [|b2 [|b3 [|]]]]]; try done.
  decompose_Forall. unfold readU32BE, is_byte in *.
  rewrite at_app_hd, !at_app_r by lia.
  change (at_ ([b0; b1; b2; b3] ++ post) 1) with (Some b1).
  change (at_ ([b0; b1; b2; b3] ++ post) 2) with (Some b2).
  change (at_ ([b0; b1; b2; b3] ++ post) 3) with (Some b3).
  simpl.
  f_equal. rewrite (lor_shiftl_add b0 (Z.shiftl b1 16)), (Z.shiftl_mul_pow2 b1) by
    (rewrite ?Z.shiftl_mul_pow2 by lia; lia).
  replace (b0 * 2 ^ 24 + b1 * 2 ^ 16) with (Z.shiftl (b0 * 256 + b1) 16)
    by (rewrite Z.shiftl_mul_pow2; lia).
  rewrite (lor_shiftl_add _ (Z.shiftl b2 8)), (Z.shiftl_mul_pow2 b2) by
    (rewrite ?Z.shiftl_mul_pow2 by lia; lia).
  replace ((b0 * 256 + b1) * 2 ^ 16 + b2 * 2 ^ 8) with (Z.shiftl ((b0 * 256 + b1) * 256 + b2) 8)
    by (rewrite Z.shiftl_mul_pow2; lia).
  rewrite lor_shiftl_add by lia. reflexivity.
Qed.

Lemma readU64BE_loop_of_be pre bs post acc :
  bytes_ok bs -> 0 <= acc -> (acc + 1) * 256 ^ size bs <= 2 ^ 64 ->
  readU64BE_loop (length bs) (pre ++ bs ++ post) (size pre) acc
    = Some (foldl (fun acc b => acc * 256 + b) acc bs).
Proof.
  revert pre acc. induction bs as [|b bs IH]; intros pre acc Hok Hacc Hlt; [done|].
  apply Forall_cons in Hok as [Hb Hok]. unfold is_byte in Hb.
  cbn [length readU64BE_loop app]. rewrite at_app_hd. cbn [foldl]; simpl mbind.
  rewrite size_cons, Z.pow_add_r in Hlt by (try apply size_nonneg; lia).
  assert (0 < 256 ^ size bs) by (apply Z.pow_pos_nonneg; [lia|apply size_nonneg]).
  rewrite Z.shiftl_mul_pow2, Z.mod_small by nia.
  rewrite <- Z.shiftl_mul_pow2, lor_shiftl_add by lia. change (2 ^ 8) with 256.
  replace (size pre + 1) with (size (pre ++ [b])) by size_lia.
  rewrite (cons_middle b pre), app_assoc. apply IH; [done|lia|nia].
Qed.

Lemma readU64BE_of_be pre bs post :
  length bs = 8%nat -> bytes_ok bs -> readU64BE (pre ++ bs ++ post) (size pre) = Some (of_be bs).
Proof.
  intros Hl Hok. unfold readU64BE. rewrite <- Hl. apply readU64BE_loop_of_be; [done|lia|].
  unfold size. rewrite Hl. done.
Qed.

(** ** Round trips *)

Lemma readU16BE_be pre v post : fits 16 v -> readU16BE (pre ++ be 2 v ++ post) (size pre) = Some v.
Proof. intros. rewrite readU16BE_of_be, of_be_be by (done || apply length_be || apply be_ok). done. Qed.

Lemma readU32BE_be pre v post : fits 32 v -> readU32BE (pre ++ be 4 v ++ post) (size pre) = Some v.
Proof. intros. rewrite readU32BE_of_be, of_be_be by (done || apply length_be || apply be_ok). done. Qed.

Lemma readU64BE_be pre v post : fits 64 v -> readU64BE (pre ++ be 8 v ++ post) (size pre) = Some v.
Proof. intros. rewrite readU64BE_of_be, of_be_be by (done || apply length_be || apply be_ok). done. Qed.

Lemma appendU16BE_ok out v : bytes_ok out -> bytes_ok (appendU16BE out v).
Proof. intros. rewrite appendU16BE_be, bytes_ok_app. split; [done|apply be_ok]. Qed.

Lemma appendU32BE_ok out v : bytes_ok out -> bytes_ok (appendU32BE out v).
Proof. intros. rewrite appendU32BE_be, bytes_ok_app. split; [done|apply be_ok]. Qed.

#[export] Hint Resolve be_ok appendU16BE_ok appendU32BE_ok : stgs.
#[export] Hint Rewrite size_be : stgs_size.
