(* ===== verification/Crc32.v ===== *)
(** The CRC-32 of [src/Crc32.cpp]: the table, the byte-at-a-time loop, and what it is for.

    [crc32] follows the source. [Rocksoft] states the published parameters of the header
    (width 32, polynomial 0x04C11DB7, reflected input and output) as the usual most significant
    bit first division, and the file shows that both compute the same value. The last part is
    error detection: the register update is injective, so a message that differs from another
    in one window of four bytes has another checksum. *)

From S2P Require Import Prelude ByteUtils.

Definition Crc32Polynomial : Z := 0x04C11DB7.
Definition Crc32ReflectedPolynomial : Z := 0xEDB88320.
Definition Crc32InitialValue : Z := 0xFFFFFFFF.
Definition Crc32FinalXor : Z := 0xFFFFFFFF.
Definition Crc32Check123456789 : Z := 0xCBF43926.

Definition CrcTableEntryCount : nat := 256.
Definition BitsPerByte : nat := 8.
Definition LeastSignificantBitMask : Z := 1.
Definition LowByteMask : Z := 0xFF.

(** One turn of the inner loop of [makeTable]. *)
Definition crcBit (crc : Z) : Z :=
  if negb (Z.land crc LeastSignificantBitMask =? 0)
  then Z.lxor (Z.shiftr crc 1) Crc32ReflectedPolynomial
  else Z.shiftr crc 1.

Definition makeTable : list Z :=
  (fun i => Nat.iter BitsPerByte crcBit (Z.of_nat i)) <$> seq 0 CrcTableEntryCount.

Definition CrcTable : list Z := Eval vm_compute in makeTable.

Definition crcByte (crc byte : Z) : Z :=
  let index := Z.land (Z.lxor crc byte) LowByteMask in
  Z.lxor (Z.shiftr crc 8) (CrcTable !!! Z.to_nat index).

Definition crc32 (bs : bytes) : Z := Z.lxor (foldl crcByte Crc32InitialValue bs) Crc32FinalXor.

(** The [std::string_view] overload reads the characters as bytes. *)
Definition crc32_text (text : string) : Z :=
  crc32 ((fun c => Z.of_nat (Ascii.nat_of_ascii c)) <$> String.list_ascii_of_string text).

(** ** The published definition *)

Module Rocksoft.

(** The [w] low bits of [v] in the opposite order. *)
Fixpoint reflect (w : nat) (v : Z) : Z :=
  match w with
  | O => 0
  | S n => Z.lor (Z.shiftl (Z.land v 1) (Z.of_nat n)) (reflect n (Z.shiftr v 1))
  end.

(** One step of the division by the polynomial, most significant bit first. *)
Definition bit_step (reg : Z) : Z :=
  let shifted := Z.land (Z.shiftl reg 1) 0xFFFFFFFF in
  if Z.testbit reg 31 then Z.lxor shifted Crc32Polynomial else shifted.

Definition byte_step (reg byte : Z) : Z :=
  Nat.iter 8 bit_step (Z.lxor reg (Z.shiftl (reflect 8 byte) 24)).

Definition crc (bs : bytes) : Z :=
  Z.lxor (reflect 32 (foldl byte_step 0xFFFFFFFF bs)) 0xFFFFFFFF.

End Rocksoft.

(** ** The register update *)

Lemma CrcTable_makeTable : CrcTable = makeTable.
Proof. vm_compute. reflexivity. Qed.

Lemma land_1_odd v : negb (Z.land v LeastSignificantBitMask =? 0) = Z.testbit v 0.
Proof.
  unfold LeastSignificantBitMask. change 1 with (Z.ones 1). rewrite Z.land_ones by lia.
  rewrite Z.bit0_odd. change (2 ^ 1) with 2. rewrite Zmod_odd. by destruct (Z.odd v).
Qed.

Lemma crcBit_spec crc :
  crcBit crc = Z.lxor (Z.shiftr crc 1) (if Z.testbit crc 0 then Crc32ReflectedPolynomial else 0).
Proof.
  unfold crcBit. rewrite land_1_odd. destruct (Z.testbit crc 0); [done|]. by rewrite Z.lxor_0_r.
Qed.

Lemma crcBit_lxor a b : crcBit (Z.lxor a b) = Z.lxor (crcBit a) (crcBit b).
Proof.
  rewrite !crcBit_spec, Z.shiftr_lxor, Z.lxor_spec.
  by_bits i Hi. rewrite !Z.lxor_spec.
  destruct (Z.testbit a 0), (Z.testbit b 0); cbn [xorb]; rewrite ?Z.bits_0;
    repeat match goal with |- context [Z.testbit ?x i] => destruct (Z.testbit x i) end; done.
Qed.

Lemma iter_crcBit_lxor n a b :
  Nat.iter n crcBit (Z.lxor a b) = Z.lxor (Nat.iter n crcBit a) (Nat.iter n crcBit b).
Proof. induction n as [|n IH]; [done|]. by rewrite !Nat.iter_succ, IH, crcBit_lxor. Qed.

(** A value whose [n] low bits are zero is only shifted. *)
Lemma iter_crcBit_shiftl n a : Nat.iter n crcBit (Z.shiftl a (Z.of_nat n)) = a.
Proof.
  revert a. induction n as [|n IH]; intros a; [apply Z.shiftl_0_r|].
  rewrite Nat.iter_succ_r, crcBit_spec.
  rewrite Z.shiftl_spec_low, Z.lxor_0_r by lia.
  replace (Z.shiftr (Z.shiftl a (Z.of_nat (S n))) 1) with (Z.shiftl a (Z.of_nat n)).
  - apply IH.
  - by_bits i Hi. rewrite Z.shiftr_spec, !Z.shiftl_spec by lia. f_equal. lia.
Qed.

Lemma split_low a k : 0 <= k -> a = Z.lxor (a mod 2 ^ k) (Z.shiftl (Z.shiftr a k) k).
Proof.
  intros Hk. by_bits i Hi. rewrite Z.lxor_spec, Z.shiftl_spec by done.
  destruct (decide (i < k)).
  - rewrite Z.mod_pow2_bits_low, (Z.testbit_neg_r _ (i - k)) by lia. by rewrite xorb_false_r.
  - rewrite Z.mod_pow2_bits_high, Z.shiftr_spec by lia. cbn [xorb]. f_equal. lia.
Qed.

Lemma CrcTable_lookup i : 0 <= i < 256 -> CrcTable !!! Z.to_nat i = Nat.iter 8 crcBit i.
Proof.
  intros Hi. rewrite CrcTable_makeTable. unfold makeTable. apply list_lookup_total_correct.
  rewrite list_lookup_fmap, lookup_seq_lt by (unfold CrcTableEntryCount; lia).
  cbn [fmap option_fmap option_map]. unfold BitsPerByte. do 2 f_equal. lia.
Qed.

(** The table step is eight bit steps on the register xored with the byte. *)
Lemma crcByte_bits crc byte :
  is_byte byte -> crcByte crc byte = Nat.iter 8 crcBit (Z.lxor crc byte).
Proof.
  intros Hb. unfold crcByte, LowByteMask. rewrite land_255.
  rewrite CrcTable_lookup by (apply Z.mod_pos_bound; lia).
  assert (Hs : Z.shiftr crc 8 = Z.shiftr (Z.lxor crc byte) 8).
  { rewrite Z.shiftr_lxor, (shiftr_div byte), Z.div_small, Z.lxor_0_r by (done || lia). done. }
  rewrite Hs. generalize (Z.lxor crc byte) as x. intros x.
  rewrite (split_low x 8) at 3 by lia.
  rewrite iter_crcBit_lxor, (iter_crcBit_shiftl 8), Z.lxor_comm. done.
Qed.

Lemma crcBit_fits crc : fits 32 crc -> fits 32 (crcBit crc).
Proof.
  intros H. rewrite crcBit_spec. apply fits_lxor; [lia|by apply fits_shiftr|].
  destruct (Z.testbit crc 0); done.
Qed.

Lemma iter_crcBit_fits n crc : fits 32 crc -> fits 32 (Nat.iter n crcBit crc).
Proof. intros. induction n; [done|]. rewrite Nat.iter_succ. by apply crcBit_fits. Qed.

Lemma is_byte_fits32 b : is_byte b -> fits 32 b.
Proof. unfold is_byte, fits. lia. Qed.

Ltac fits32 :=
  repeat first [done | apply iter_crcBit_fits | apply fits_lxor; [lia| |] | by apply is_byte_fits32].

Lemma crcByte_fits crc byte : is_byte byte -> fits 32 crc -> fits 32 (crcByte crc byte).
Proof.
  intros Hb Hc. rewrite crcByte_bits by done.
  fits32.
Qed.

Lemma foldl_crcByte_fits crc bs :
  bytes_ok bs -> fits 32 crc -> fits 32 (foldl crcByte crc bs).
Proof.
  intros Hok. revert crc. induction Hok as [|b bs Hb _ IH]; intros crc Hc; [done|].
  cbn. apply IH, crcByte_fits; done.
Qed.

Lemma crc32_fits bs : bytes_ok bs -> fits 32 (crc32 bs).
Proof. intros. unfold crc32. apply fits_lxor; [lia|by apply foldl_crcByte_fits|done]. Qed.

(** ** Injectivity *)

(** The top bit of the polynomial is set, so the bit that leaves the register can be read back. *)
Lemma crcBit_top crc : fits 32 crc -> Z.testbit (crcBit crc) 31 = Z.testbit crc 0.
Proof.
  intros H. rewrite crcBit_spec, Z.lxor_spec, Z.shiftr_spec by lia.
  rewrite (testbit_above 32) by (done || lia). by destruct (Z.testbit crc 0).
Qed.

Lemma crcBit_inj a b : fits 32 a -> fits 32 b -> crcBit a = crcBit b -> a = b.
Proof.
  intros Ha Hb Heq. assert (H0 : Z.testbit a 0 = Z.testbit b 0).
  { rewrite <- !crcBit_top by done. by rewrite Heq. }
  rewrite !crcBit_spec, H0 in Heq. apply (f_equal (fun x => Z.lxor x
    (if Z.testbit b 0 then Crc32ReflectedPolynomial else 0))) in Heq.
  rewrite !Z.lxor_assoc, Z.lxor_nilpotent, !Z.lxor_0_r in Heq.
  by_bits i Hi. destruct (decide (i = 0)) as [->|]; [done|].
  replace i with (i - 1 + 1) by lia. rewrite <- !Z.shiftr_spec by lia. by rewrite Heq.
Qed.

Lemma iter_crcBit_inj n a b :
  fits 32 a -> fits 32 b -> Nat.iter n crcBit a = Nat.iter n crcBit b -> a = b.
Proof.
  intros Ha Hb. induction n as [|n IH]; [done|]. rewrite !Nat.iter_succ. intros Heq.
  apply IH, crcBit_inj; [by apply iter_crcBit_fits..|done].
Qed.

Lemma lxor_cancel_r a b c : Z.lxor a c = Z.lxor b c -> a = b.
Proof.
  intros H. apply (f_equal (fun x => Z.lxor x c)) in H.
  by rewrite !Z.lxor_assoc, Z.lxor_nilpotent, !Z.lxor_0_r in H.
Qed.

Lemma lxor_cancel_l a b c : Z.lxor c a = Z.lxor c b -> a = b.
Proof. rewrite !(Z.lxor_comm c). apply lxor_cancel_r. Qed.

(** Processing the same suffix keeps two registers apart. *)
Lemma foldl_crcByte_inj bs a b :
  bytes_ok bs -> fits 32 a -> fits 32 b -> foldl crcByte a bs = foldl crcByte b bs -> a = b.
Proof.
  intros Hok. revert a b. induction Hok as [|x bs Hx Hok IH]; intros a b Ha Hb Heq; [done|].
  cbn in Heq. apply IH in Heq; [|by apply crcByte_fits..].
  rewrite !crcByte_bits in Heq by done.
  apply iter_crcBit_inj, lxor_cancel_r in Heq; fits32.
Qed.

(** ** Error detection *)

(** The bytes of a window as the bits they occupy, first byte lowest. *)
Fixpoint le (bs : bytes) : Z :=
  match bs with
  | [] => 0
  | b :: bs => b + le bs * 256
  end.

Lemma le_bound bs : bytes_ok bs -> 0 <= le bs < 256 ^ size bs.
Proof.
  induction 1 as [|b bs Hb _ IH]; [done|]. cbn [le]. rewrite size_cons.
  rewrite Z.pow_add_r by (try apply size_nonneg; lia). unfold is_byte in Hb. lia.
Qed.

Lemma le_inj bs bs' :
  bytes_ok bs -> bytes_ok bs' -> length bs = length bs' -> le bs = le bs' -> bs = bs'.
Proof.
  intros Hok. revert bs'. induction Hok as [|b bs Hb Hbs IH]; intros [|b' bs'] Hok' Hl Heq; try done.
  apply Forall_cons in Hok' as [Hb' Hbs']. unfold is_byte in *. cbn [le length] in *.
  f_equal; [lia|]. apply IH; [done|lia|lia].
Qed.

Lemma le_cons_lxor b bs : is_byte b -> le (b :: bs) = Z.lxor b (Z.shiftl (le bs) 8).
Proof.
  intros Hb. cbn [le]. rewrite (split_low (b + le bs * 256) 8), shiftr_div by lia.
  change (2 ^ 8) with 256. unfold is_byte in Hb. do 2 f_equal; dlia.
Qed.

(** A window shifts into the register as if its bits were consumed one by one. *)
Lemma foldl_crcByte_window k r bs :
  bytes_ok bs ->
  foldl crcByte (Nat.iter (8 * k) crcBit r) bs =
  Nat.iter (8 * (k + length bs)) crcBit (Z.lxor r (Z.shiftl (le bs) (8 * Z.of_nat k))).
Proof.
  intros Hok. revert k r. induction Hok as [|b bs Hb Hbs IH]; intros k r.
  { cbn [foldl length le]. by rewrite Nat.add_0_r, Z.shiftl_0_l, Z.lxor_0_r. }
  assert (Hstep : crcByte (Nat.iter (8 * k) crcBit r) b
    = Nat.iter (8 * S k) crcBit (Z.lxor r (Z.shiftl b (8 * Z.of_nat k)))).
  { rewrite crcByte_bits by done. replace (8 * S k)%nat with (8 + 8 * k)%nat by lia.
    rewrite Nat.iter_add, (iter_crcBit_lxor (8 * k)). replace (8 * Z.of_nat k) with (Z.of_nat (8 * k)) by lia.
    by rewrite iter_crcBit_shiftl. }
  cbn [foldl length]. rewrite Hstep, IH, le_cons_lxor, Z.shiftl_lxor, Z.shiftl_shiftl by (done || lia).
  rewrite Z.lxor_assoc. replace (S k + length bs)%nat with (k + S (length bs))%nat by lia.
  replace (8 + 8 * Z.of_nat k) with (8 * Z.of_nat (S k)) by lia. done.
Qed.

Lemma foldl_crcByte_window_inj r w w' :
  fits 32 r -> bytes_ok w -> bytes_ok w' -> length w = length w' -> (length w <= 4)%nat ->
  foldl crcByte r w = foldl crcByte r w' -> w = w'.
Proof.
  intros Hr Hw Hw' Hl H4 Heq.
  assert (Hf : forall u, bytes_ok u -> (length u <= 4)%nat -> fits 32 (le u)).
  { intros u Hu Hlu. pose proof (le_bound u Hu). unfold fits.
    assert (256 ^ size u <= 256 ^ 4) by (apply Z.pow_le_mono_r; unfold size; lia). lia. }
  change r with (Nat.iter (8 * 0) crcBit r) in Heq. rewrite !foldl_crcByte_window, Hl in Heq by done.
  change (8 * Z.of_nat 0) with 0 in Heq. rewrite !Z.shiftl_0_r in Heq.
  apply iter_crcBit_inj, lxor_cancel_l, le_inj in Heq; try done; apply fits_lxor;
    (done || apply Hf; (done || lia)).
Qed.

Lemma crc32_window pre w w' post :
  bytes_ok pre -> bytes_ok w -> bytes_ok w' -> bytes_ok post ->
  length w = length w' -> (length w <= 4)%nat ->
  crc32 (pre ++ w ++ post) = crc32 (pre ++ w' ++ post) -> w = w'.
Proof.
  unfold crc32. intros Hpre Hw Hw' Hpost Hl H4 Heq. rewrite !foldl_app in Heq.
  assert (fits 32 Crc32InitialValue) by done.
  apply lxor_cancel_r, foldl_crcByte_inj, foldl_crcByte_window_inj in Heq;
    auto using foldl_crcByte_fits.
Qed.

(** ** The published definition *)

Section Reflection.
Import Rocksoft.

Lemma reflect_spec w v i :
  0 <= i -> Z.testbit (reflect w v) i = (i <? Z.of_nat w) && Z.testbit v (Z.of_nat w - 1 - i).
Proof.
  intros Hi. revert v i Hi. induction w as [|w IH]; intros v i Hi.
  { rewrite Z.bits_0. destruct (Z.ltb_spec i (Z.of_nat 0)); [lia|done]. }
  cbn [reflect]. rewrite Z.lor_spec, IH, Z.shiftl_spec by done.
  destruct (Z.ltb_spec i (Z.of_nat (S w))), (Z.ltb_spec i (Z.of_nat w)); try lia; cbn [andb].
  - rewrite (Z.testbit_neg_r _ (i - Z.of_nat w)), Z.shiftr_spec by lia. cbn [orb]. f_equal. lia.
  - replace (Z.of_nat (S w) - 1 - i) with 0 by lia. replace (i - Z.of_nat w) with 0 by lia.
    rewrite Z.land_spec, orb_false_r. apply andb_true_r.
  - change 1 with (Z.ones 1). rewrite Z.land_ones by lia.
    rewrite Z.mod_pow2_bits_high by lia. done.
Qed.

Lemma reflect_lxor w a b : reflect w (Z.lxor a b) = Z.lxor (reflect w a) (reflect w b).
Proof.
  by_bits i Hi. rewrite Z.lxor_spec, !reflect_spec, Z.lxor_spec by done.
  by destruct (i <? Z.of_nat w).
Qed.

Lemma reflect_reflect w v : fits (Z.of_nat w) v -> reflect w (reflect w v) = v.
Proof.
  intros Hv. by_bits i Hi. rewrite reflect_spec by done.
  destruct (Z.ltb_spec i (Z.of_nat w)); cbn [andb].
  - rewrite reflect_spec by lia. destruct (Z.ltb_spec (Z.of_nat w - 1 - i) (Z.of_nat w)); [|lia].
    cbn [andb]. f_equal. lia.
  - symmetry. apply (testbit_above (Z.of_nat w)); [done|lia].
Qed.

Lemma reflect_crcBit crc : fits 32 crc -> reflect 32 (crcBit crc) = bit_step (reflect 32 crc).
Proof.
  intros Hf. unfold bit_step. rewrite crcBit_spec, reflect_lxor, (reflect_spec 32 crc 31) by lia.
  change (Z.of_nat 32 - 1 - 31) with 0. cbn [Z.ltb Z.compare andb].
  assert (Hs : reflect 32 (Z.shiftr crc 1) = Z.land (Z.shiftl (reflect 32 crc) 1) 0xFFFFFFFF).
  { by_bits i Hi. change 0xFFFFFFFF with (Z.ones 32).
    rewrite Z.land_spec, Z.shiftl_spec, reflect_spec by done.
    destruct (Z.ltb_spec i (Z.of_nat 32)); cbn [andb].
    - rewrite Z.ones_spec_low, andb_true_r, Z.shiftr_spec by lia.
      destruct (decide (i = 0)) as [->|]; [by apply (testbit_above 32)|].
      rewrite reflect_spec by lia. destruct (Z.ltb_spec (i - 1) (Z.of_nat 32)); [|lia].
      cbn [andb]. f_equal. lia.
    - rewrite Z.ones_spec_high by lia. by rewrite andb_false_r. }
  rewrite Hs. change ((31 <? Z.of_nat 32)) with true. cbn [andb].
  destruct (Z.testbit crc 0); [done|]. by rewrite Z.lxor_0_r.
Qed.

Lemma reflect_iter_crcBit n crc :
  fits 32 crc -> reflect 32 (Nat.iter n crcBit crc) = Nat.iter n bit_step (reflect 32 crc).
Proof.
  intros Hf. induction n as [|n IH]; [done|].
  rewrite !Nat.iter_succ, reflect_crcBit, IH; [done|by apply iter_crcBit_fits].
Qed.

Lemma reflect_byte b : is_byte b -> reflect 32 b = Z.shiftl (reflect 8 b) 24.
Proof.
  intros Hb. by_bits i Hi. rewrite Z.shiftl_spec, reflect_spec by done.
  destruct (decide (i < 24)).
  - rewrite (Z.testbit_neg_r _ (i - 24)) by lia.
    rewrite (testbit_above 8 b) by (done || lia). apply andb_false_r.
  - rewrite reflect_spec by lia.
    destruct (Z.ltb_spec i (Z.of_nat 32)), (Z.ltb_spec (i - 24) (Z.of_nat 8)); try lia.
    cbn [andb]. f_equal. lia.
Qed.

Lemma reflect_foldl crc bs :
  bytes_ok bs -> fits 32 crc ->
  reflect 32 (foldl crcByte crc bs) = foldl byte_step (reflect 32 crc) bs.
Proof.
  intros Hok. revert crc. induction Hok as [|b bs Hb _ IH]; intros crc Hf; [done|].
  cbn [foldl]. rewrite IH by (by apply crcByte_fits). f_equal.
  rewrite crcByte_bits by exact Hb. rewrite reflect_iter_crcBit by fits32.
  unfold byte_step. rewrite reflect_lxor, (reflect_byte b Hb). reflexivity.
Qed.

End Reflection.

(** ** Properties *)

(** C27: the table-driven loop of [crc32] computes the CRC-32/ISO-HDLC the header announces, on
    every byte sequence: the division by 0x04C11DB7, most significant bit first, with reflected
    input and output and the two constants 0xFFFFFFFF. *)
Theorem crc32_is_iso_hdlc : forall bs, bytes_ok bs -> crc32 bs = Rocksoft.crc bs.
Proof.
  intros bs Hok. unfold crc32, Rocksoft.crc, Crc32FinalXor. f_equal.
  change 0xFFFFFFFF with (Rocksoft.reflect 32 Crc32InitialValue) at 1.
  rewrite <- reflect_foldl by done. symmetry. apply reflect_reflect.
  by apply foldl_crcByte_fits.
Qed.

Lemma crc32_is_iso_hdlc_witness :
  crc32 [49; 50; 51; 52; 53; 54; 55; 56; 57] = Rocksoft.crc [49; 50; 51; 52; 53; 54; 55; 56; 57]
  /\ crc32_text "123456789" = Crc32Check123456789.
Proof.
  split; [|vm_compute; reflexivity].
  apply crc32_is_iso_hdlc. decide_now.
Defined.

(** Any corruption confined to four consecutive bytes of a message changes its CRC. *)
Theorem crc32_detects_bursts : forall pre w w' post,
  bytes_ok (pre ++ w ++ post) -> bytes_ok w' -> length w = length w' -> (length w <= 4)%nat ->
  w <> w' -> crc32 (pre ++ w ++ post) <> crc32 (pre ++ w' ++ post).
Proof.
  intros pre w w' post Hok Hw' Hl H4 Hne Heq. apply Hne.
  rewrite !bytes_ok_app in Hok. destruct Hok as (? & ? & ?).
  by apply (crc32_window pre w w' post).
Qed.

Lemma crc32_detects_bursts_witness :
  crc32 ([1; 2] ++ [3; 4; 5; 6] ++ [7]) <> crc32 ([1; 2] ++ [3; 4; 5; 7] ++ [7]).
Proof.
  apply crc32_detects_bursts; decide_now.
Defined.
