(* ===== verification/TextFormat.v ===== *)
(** Integers as text, as [std::ostream] and [std::to_string] print them, and the reverse
    reading of [std::from_chars]. *)

From S2P Require Import Prelude.
From Stdlib Require Export Ascii.


(** ** Digits *)

(** The digits of [n] in base [b], most significant first; [fuel] bounds their number. *)
Fixpoint digits_loop (fuel : nat) (b n : Z) (acc : list Z) : list Z :=
  match fuel with
  | O => acc
  | S fuel => if n <? b then n :: acc else digits_loop fuel b (n / b) (n mod b :: acc)
  end.

(** A number below [2 ^ k] has at most [k] digits in any base. *)
Definition digits (b n : Z) : list Z := digits_loop (S (Z.to_nat (Z.log2 n))) b n [].

Definition of_digits (b : Z) (ds : list Z) : Z := foldl (fun acc d => acc * b + d) 0 ds.

Definition digit_char (d : Z) : ascii :=
  ascii_of_nat (Z.to_nat (if d <? 10 then d + 48 else d + 87)).

Definition char_code (c : ascii) : Z := Z.of_nat (nat_of_ascii c).

Definition string_of_chars (cs : list ascii) : string := String.string_of_list_ascii cs.
Definition chars_of_string (s : string) : list ascii := String.list_ascii_of_string s.

Definition show_base (b n : Z) : string := string_of_chars (digit_char <$> digits b n).

(** [oss << n] and [std::to_string(n)]. *)
Definition show_dec (n : Z) : string := show_base 10 n.

(** [oss << std::hex << n]. *)
Definition show_hex (n : Z) : string := show_base 16 n.

(** [oss << std::setw(w) << std::setfill(c) << s]. *)
Definition setw (w : nat) (fill : ascii) (s : string) : string :=
  string_of_chars (replicate (w - String.length s) fill) +:+ s.

(** The concatenation of texts, as [<<] writes them. *)
Definition concat_texts (texts : list string) : string := foldr String.append EmptyString texts.

(** ** Lemmas *)

Lemma digits_loop_app fuel b n acc :
  digits_loop fuel b n acc = digits_loop fuel b n [] ++ acc.
Proof.
  revert n acc. induction fuel as [|fuel IH]; intros n acc; cbn [digits_loop]; [done|].
  destruct (n <? b); [done|]. rewrite IH, (IH _ [_]), <- app_assoc. done.
Qed.

Lemma of_digits_snoc b ds d : of_digits b (ds ++ [d]) = of_digits b ds * b + d.
Proof. unfold of_digits. by rewrite foldl_app. Qed.

Lemma digits_loop_spec fuel b n :
  2 <= b -> 0 <= n -> n < 2 ^ Z.of_nat fuel -> (0 < fuel)%nat ->
  let ds := digits_loop fuel b n [] in
  of_digits b ds = n /\ Forall (fun d => 0 <= d < b) ds /\ ds <> [].
Proof.
  intros Hb. revert n. induction fuel as [|fuel IH]; intros n Hn Hlt Hf; [lia|].
  cbn [digits_loop]. destruct (Z.ltb_spec n b).
  { split; [done|]. split; [|done]. by apply Forall_singleton. }
  assert (Hfuel : (0 < fuel)%nat).
  { destruct fuel; [|lia]. cbn in Hlt. lia. }
  destruct (IH (n / b)) as (Hval & Hall & Hne); [apply Z.div_pos; lia| |done|].
  { apply Z.div_lt_upper_bound; [lia|]. rewrite Nat2Z.inj_succ, Z.pow_succ_r in Hlt by lia. nia. }
  rewrite digits_loop_app, of_digits_snoc, Hval.
  split; [rewrite (Z.div_mod n b) at 3; lia|]. split.
  - apply Forall_app. split; [done|]. apply Forall_cons. split; [|done].
    apply Z.mod_pos_bound. lia.
  - by destruct (digits_loop fuel b (n / b) []).
Qed.

Lemma digits_spec b n :
  2 <= b -> 0 <= n ->
  of_digits b (digits b n) = n /\ Forall (fun d => 0 <= d < b) (digits b n) /\ digits b n <> [].
Proof.
  intros Hb Hn. apply digits_loop_spec; try lia.
  rewrite Nat2Z.inj_succ, Z2Nat.id by apply Z.log2_nonneg.
  destruct (decide (n = 0)) as [->|]; [done|]. apply Z.log2_spec. lia.
Qed.

Lemma chars_string_chars cs : chars_of_string (string_of_chars cs) = cs.
Proof. apply String.list_ascii_of_string_of_list_ascii. Qed.

Lemma string_chars_string (t : string) : string_of_chars (chars_of_string t) = t.
Proof. apply String.string_of_list_ascii_of_string. Qed.

Lemma digit_char_code d : 0 <= d < 16 -> char_code (digit_char d) = if d <? 10 then d + 48 else d + 87.
Proof.
  intros Hd. unfold char_code, digit_char. rewrite nat_ascii_embedding.
  - destruct (d <? 10); lia.
  - destruct (Z.ltb_spec d 10); lia.
Qed.

(** The characters of a decimal number. *)
Lemma show_dec_chars n (P : ascii -> Prop) :
  0 <= n -> (forall c, 48 <= char_code c < 58 -> P c) -> Forall P (chars_of_string (show_dec n)).
Proof.
  intros Hn HP. unfold show_dec, show_base. rewrite chars_string_chars.
  destruct (digits_spec 10 n) as (_ & Hd & _); [lia|done|]. apply Forall_fmap.
  eapply Forall_impl; [exact Hd|]. intros d Hr. cbv beta in Hr. apply HP.
  rewrite digit_char_code by lia. rewrite (proj2 (Z.ltb_lt d 10)) by lia. lia.
Qed.

(** *** Texts *)

Lemma append_cons (x : ascii) (a b : string) : String x a +:+ b = String x (a +:+ b).
Proof. done. Qed.

Lemma append_assoc (a b c : string) : (a +:+ b) +:+ c = a +:+ (b +:+ c).
Proof. induction a as [|x a IH]; [done|]. by rewrite !append_cons, IH. Qed.

Lemma append_nil_r (a : string) : a +:+ EmptyString = a.
Proof. induction a as [|x a IH]; [done|]. by rewrite append_cons, IH. Qed.

Lemma chars_append (a b : string) : chars_of_string (a +:+ b) = chars_of_string a ++ chars_of_string b.
Proof.
  induction a as [|x a IH]; [done|]. rewrite append_cons. unfold chars_of_string in *.
  cbn [String.list_ascii_of_string app]. by rewrite IH.
Qed.

Lemma concat_texts_app a b : concat_texts (a ++ b) = concat_texts a +:+ concat_texts b.
Proof.
  induction a as [|x a IH]; [done|]. unfold concat_texts in *. cbn [app foldr]. by rewrite IH, append_assoc.
Qed.
