(* ===== verification/UsageText.v ===== *)
(** The usage texts of the three programs, as [printUsage()] writes them
    (apps/ground_station/GroundStationUsage.cpp, apps/satellite_simulator/SimulatorUsage.cpp,
    apps/port_check.cpp), and a reading of their rows; Usage compares them with the parsers. *)

From S2P Require Import Prelude TextFormat.

(** ** The texts *)

Definition station_usage : string := "Space Telemetry Ground Station

Usage:
  stgs_ground_station --udp --port 9000 [options]
  stgs_ground_station --tcp --port 9000 [options]
  stgs_ground_station --tcp --auto-port 9000:9010 [options]
  stgs_ground_station --replay frames.stgf [options]

Input:
  --udp                           Listen for one telemetry frame per UDP datagram.
  --tcp                           Listen for telemetry frames over a TCP byte stream.
  --bind <ipv4>                   Bind address, default 0.0.0.0.
  --port <port>                   Listening port, default 9000.
  --auto-port <a:b>               TCP only: select first locally bindable port in a bounded range.
  --replay <file>                 Replay frames from an STGF capture file.
  --replay-rate <fps>             Replay speed, 0 = as fast as possible.

Pipeline / output:
  --decoder-threads <n>           Parallel decoder workers, default 2.
  --queue-capacity <n>            Backpressure capacity per pipeline queue, default 1024.
  --output <file>                 Output file, default telemetry.csv.
  --output-format <csv|json>      Otherwise inferred from extension.
  --signal-filter <mode>          none, moving-average, sine-projection (default).
  --filter-window <odd-n>         Moving-average FIR window, default 5.

Health monitoring (demo thresholds, configurable):
  --disable-degraded
  --degraded-window <n>           Default 100 samples.
  --degraded-min-samples <n>      Default 20 samples.
  --degraded-rejection-rate <p>   NOMINAL -> DEGRADED, default 0.10.
  --degraded-recovery-rate <p>    DEGRADED -> NOMINAL, default 0.03.
  --degraded-critical-count <n>   Critical count to degrade, default 8.
  --recovery-critical-count <n>   Critical count allowed to recover, default 3.

Diagnostics:
  --log <file>                    Optional log file.
  --log-level <level>             trace, debug, info, warn, error.
  --verbose                       Log each decoded/rejected frame at debug level.
  --no-color                      Disable ANSI colors.
  --help                          Show this help.

Related command:
  stgs_port_check --host 127.0.0.1 --ports 9000:9010
".

Definition simulator_usage : string := "Satellite Telemetry Simulator

Usage:
  stgs_satellite_simulator --tcp --host 127.0.0.1 --port 9000 [options]
  stgs_satellite_simulator --tcp --host 127.0.0.1 --discover-ports 9000:9010 [options]
  stgs_satellite_simulator --udp --host 127.0.0.1 --port 9000 [options]
  stgs_satellite_simulator --output-file frames.stgf [options]

Payload modes (mutually exclusive):
  default                         Random binary payload.
  --message <text>                Send typed STGA text messages.
  --signal                        Send typed STGA sine-signal blocks.

Network / replay:
  --udp                           Send one STGS frame per UDP datagram.
  --tcp                           Send frames over a TCP byte stream.
  --host <ipv4>                   Destination host, default 127.0.0.1.
  --port <port>                   Destination port, default 9000.
  --discover-ports <a:b>          TCP loopback only: report ports then use first OPEN listener.
  --discovery-timeout-ms <ms>     Timeout per local TCP probe, default 200.
  --output-file <file>            Also write transmitted wire frames to an STGF replay.

Traffic:
  --count <n>                     Number of frames. Defaults: random=1000, message=1, signal=5.
  --rate <fps>                    Frames/second, 0 = as fast as possible. Default 100.
  --satellite <id>                Satellite ID (0..65535), default 42.
  --payload-size <bytes>          Random mode only, default 32, max 4096.
  --loss <p>                      Simulated drop probability [0,1].
  --corrupt <p>                   Corrupt bytes AFTER CRC with probability [0,1].
  --seed <n>                      Deterministic 32-bit RNG seed.

Signal mode:
  --sample-rate <hz>              Sampling rate, default 200 Hz.
  --signal-frequency <hz>         Sine frequency, default 5 Hz, strictly below Nyquist.
  --signal-amplitude <value>      Nominal amplitude, default 1.0.
  --signal-samples <n>            Samples per STGA block, default 256.
  --noise-stddev <value>          Gaussian noise sigma added BEFORE CRC, default 0.

Display:
  --no-color                      Disable ANSI colors.
  --help                          Show this help.
".

Definition check_usage : string := "STGS local TCP port diagnostics

Usage:
  stgs_port_check [--host 127.0.0.1] [--ports 9000:9010] [--timeout-ms 200]

Options:
  --host <ipv4>          Loopback target only. Default 127.0.0.1.
  --ports <a:b>          Inclusive range, at most 256 ports. Default 9000:9010.
  --timeout-ms <ms>      Timeout per port, 1..60000. Default 200.
  --no-color             Disable ANSI colors.
  --help                 Show this help.
".

(** ** The rows *)

(** A row documents an option: its name, whether an argument follows it, and the default it quotes. *)
Record usage_row := { row_name : string; row_valued : bool; row_default : option string }.

#[export] Instance usage_row_eq_dec : EqDecision usage_row.
Proof. solve_decision. Defined.

Definition newline_char : ascii := "010"%char.

(** The lines of a text. *)
Fixpoint lines_from (current cs : list ascii) : list (list ascii) :=
  match cs with
  | [] => [current]
  | c :: cs => if decide (c = newline_char) then current :: lines_from [] cs else lines_from (current ++ [c]) cs
  end.

Fixpoint take_word (cs : list ascii) : list ascii :=
  match cs with
  | [] => []
  | c :: cs => if decide (c = " "%char) then [] else c :: take_word cs
  end.

Fixpoint prefix_chars (p cs : list ascii) : option (list ascii) :=
  match p, cs with
  | [], _ => Some cs
  | x :: p, c :: cs => if decide (x = c) then prefix_chars p cs else None
  | _ :: _, [] => None
  end.

Fixpoint after_chars (p cs : list ascii) : option (list ascii) :=
  match prefix_chars p cs with
  | Some rest => Some rest
  | None => match cs with [] => None | _ :: cs => after_chars p cs end
  end.

(** A word without the full stop or the comma behind it. *)
Definition bare_word (cs : list ascii) : list ascii :=
  match reverse cs with
  | c :: rest => if decide (c = "."%char \/ c = ","%char) then reverse rest else cs
  | [] => []
  end.

Definition row_of_line (line : list ascii) : option usage_row :=
  rest ← prefix_chars (chars_of_string "  ") line;
  _ ← prefix_chars (chars_of_string "--") rest;
  let name := take_word rest in
  Some {| row_name := string_of_chars name;
          row_valued := match prefix_chars (chars_of_string " <") (drop (length name) rest) with Some _ => true | None => false end;
          row_default := (fun text => string_of_chars (bare_word (take_word text))) <$> after_chars (chars_of_string "efault ") line |}.

Definition usage_rows (text : string) : list usage_row := omap row_of_line (lines_from [] (chars_of_string text)).
