(* ===== verification/FrameCodec.v ===== *)
(** The STGS v1 frame: [include/stgs/TelemetryFrame.hpp], [include/stgs/FrameCodec.hpp] and the
    encoder and decoder of [src/FrameCodec.cpp].

    [decodeFrame] is partial only because reading outside of the span would be undefined
    behaviour ([None]); [decode_never_reads_outside] shows that it never happens. The stream
    extractor of the same source file is in [StreamExtractor]. *)

From S2P Require Import Prelude ByteUtils Crc32 TextFormat.

(** ** Wire layout *)

Definition FrameMagic : Z := 0x53544753.
Definition ProtocolVersion : Z := 1.

Definition U8WireSize : Z := 1.
Definition U16WireSize : Z := 2.
Definition U32WireSize : Z := 4.
Definition U64WireSize : Z := 8.
Definition Float32WireSize : Z := 4.

Definition MagicSize : Z := U32WireSize.
Definition MagicOffset : Z := 0.
Definition VersionOffset : Z := MagicOffset + U32WireSize.
Definition SatelliteIdOffset : Z := VersionOffset + U8WireSize.
Definition TimestampOffset : Z := SatelliteIdOffset + U16WireSize.
Definition TemperatureOffset : Z := TimestampOffset + U64WireSize.
Definition BatteryOffset : Z := TemperatureOffset + Float32WireSize.
Definition StatusOffset : Z := BatteryOffset + U8WireSize.
Definition PayloadLengthOffset : Z := StatusOffset + U8WireSize.
Definition HeaderSize : Z := PayloadLengthOffset + U16WireSize.
Definition CrcSize : Z := U32WireSize.
Definition MinFrameSize : Z := HeaderSize + CrcSize.
Definition MaxPayloadSize : Z := 4096.
Definition MaxFrameSize : Z := HeaderSize + MaxPayloadSize + CrcSize.
Definition MaxBatteryPercent : Z := 100.
Definition DefaultPayloadPreviewBytes : Z := 32.

(** ** Data *)

(** [enum class Status : std::uint8_t] holds any byte; these are its enumerators. *)
Definition Status_Nominal : Z := 0.
Definition Status_Warning : Z := 1.
Definition Status_Critical : Z := 2.
Definition Status_SafeMode : Z := 3.

(** [temperatureC] is the bit pattern of the float, [status] the value of the enumeration. *)
Record TelemetryFrame := {
  version : Z;
  satelliteId : Z;
  timestampMs : Z;
  temperatureC : Z;
  batteryPercent : Z;
  status : Z;
  payload : bytes
}.

Inductive FrameErrorCode :=
  | TooShort
  | BadMagic
  | UnsupportedVersion
  | PayloadTooLarge
  | LengthMismatch
  | BadCrc
  | InvalidTemperature
  | InvalidBattery
  | InvalidStatus.

Record FrameError := makeError { code : FrameErrorCode; message : string }.

(** [std::variant<TelemetryFrame, FrameError>]. *)
Abbreviation FrameParseResult := (TelemetryFrame + FrameError)%type.

#[export] Instance TelemetryFrame_eq_dec : EqDecision TelemetryFrame.
Proof. solve_decision. Defined.
#[export] Instance FrameErrorCode_eq_dec : EqDecision FrameErrorCode.
Proof. solve_decision. Defined.
#[export] Instance FrameError_eq_dec : EqDecision FrameError.
Proof. solve_decision. Defined.

(** What the C++ types guarantee of the fields. *)
Record frame_typed (f : TelemetryFrame) : Prop := {
  typed_version : is_byte (version f);
  typed_satelliteId : fits 16 (satelliteId f);
  typed_timestampMs : fits 64 (timestampMs f);
  typed_temperatureC : fits 32 (temperatureC f);
  typed_batteryPercent : is_byte (batteryPercent f);
  typed_status : is_byte (status f);
  typed_payload : bytes_ok (payload f)
}.

(** ** Text *)

Definition statusToString (status : Z) : string :=
  if status =? Status_Nominal then "NOMINAL"
  else if status =? Status_Warning then "WARNING"
  else if status =? Status_Critical then "CRITICAL"
  else if status =? Status_SafeMode then "SAFE_MODE"
  else "UNKNOWN".

Definition errorCodeToString (code : FrameErrorCode) : string :=
  match code with
  | TooShort => "TooShort"
  | BadMagic => "BadMagic"
  | UnsupportedVersion => "UnsupportedVersion"
  | PayloadTooLarge => "PayloadTooLarge"
  | LengthMismatch => "LengthMismatch"
  | BadCrc => "BadCrc"
  | InvalidTemperature => "InvalidTemperature"
  | InvalidBattery => "InvalidBattery"
  | InvalidStatus => "InvalidStatus"
  end.

Definition HexByteFieldWidth : nat := 2.
Definition HexCrc32FieldWidth : nat := 8.

(** The loop of [payloadToHex] over the displayed bytes; [first] is [i == 0]. *)
Fixpoint payloadToHex_loop (first : bool) (bs : bytes) : string :=
  match bs with
  | [] => ""
  | b :: bs => (if first then "" else " ") +:+ setw HexByteFieldWidth "0"%char (show_hex b)
                 +:+ payloadToHex_loop false bs
  end.

Definition payloadToHex (payload : bytes) (maxBytes : Z) : string :=
  let displayed := Z.min (size payload) maxBytes in
  payloadToHex_loop true (take (Z.to_nat displayed) payload) +:+
  (if size payload >? displayed then " ...(" +:+ show_dec (size payload) +:+ " bytes)" else "").

(** ** Encoding *)

(** [std::isfinite] on the bits: the exponent is not all ones. *)
Definition isfinite (bits : Z) : bool := negb (Z.land (Z.shiftr bits 23) 0xFF =? 0xFF).

Definition encodeFrame (f : TelemetryFrame) : result bytes :=
  throw_if (size (payload f) >? MaxPayloadSize) (invalid_argument "payload exceeds MaxPayloadSize") ;;
  throw_if (negb (version f =? ProtocolVersion)) (invalid_argument "unsupported protocol version") ;;
  throw_if (negb (isfinite (temperatureC f))) (invalid_argument "temperature must be finite") ;;
  throw_if (batteryPercent f >? MaxBatteryPercent)
    (invalid_argument "battery percent must be between 0 and 100") ;;
  let statusByte := status f in
  throw_if (statusByte >? Status_SafeMode) (invalid_argument "invalid status value") ;;
  let bytes := [] in
  let bytes := appendU32BE bytes FrameMagic in
  let bytes := appendU8 bytes (version f) in
  let bytes := appendU16BE bytes (satelliteId f) in
  let bytes := appendU64BE bytes (timestampMs f) in
  let bytes := appendFloatBE bytes (temperatureC f) in
  let bytes := appendU8 bytes (batteryPercent f) in
  let bytes := appendU8 bytes statusByte in
  let bytes := appendU16BE bytes (size (payload f) mod 2 ^ 16) in
  let bytes := bytes ++ payload f in
  let crc := crc32 bytes in
  let bytes := appendU32BE bytes crc in
  Ok bytes.

(** ** Decoding *)

Definition reject (c : FrameErrorCode) (msg : string) : option FrameParseResult :=
  Some (inr (makeError c msg)).

Definition lengthMismatchMessage (expectedSize actual : Z) : string :=
  "frame length mismatch: expected " +:+ show_dec expectedSize +:+ " bytes, got " +:+ show_dec actual.

Definition crcMismatchMessage (expectedCrc calculatedCrc : Z) : string :=
  "CRC mismatch: expected 0x" +:+ setw HexCrc32FieldWidth "0"%char (show_hex expectedCrc) +:+
  ", calculated 0x" +:+ setw HexCrc32FieldWidth "0"%char (show_hex calculatedCrc).

Definition decodeFrame (bs : bytes) : option FrameParseResult :=
  if size bs <? MinFrameSize
  then reject TooShort "frame is shorter than the minimum header + CRC size" else
  magic ← readU32BE bs MagicOffset;
  if negb (magic =? FrameMagic)
  then reject BadMagic "invalid frame magic; expected ASCII STGS" else
  version ← at_ bs VersionOffset;
  if negb (version =? ProtocolVersion)
  then reject UnsupportedVersion "unsupported protocol version" else
  payloadLength ← readU16BE bs PayloadLengthOffset;
  if payloadLength >? MaxPayloadSize
  then reject PayloadTooLarge "payload length exceeds configured maximum" else
  let expectedSize := HeaderSize + payloadLength + CrcSize in
  if negb (size bs =? expectedSize)
  then reject LengthMismatch (lengthMismatchMessage expectedSize (size bs)) else
  expectedCrc ← readU32BE bs (size bs - CrcSize);
  let calculatedCrc := crc32 (subspan bs 0 (size bs - CrcSize)) in
  if negb (expectedCrc =? calculatedCrc)
  then reject BadCrc (crcMismatchMessage expectedCrc calculatedCrc) else
  temperature ← readFloatBE bs TemperatureOffset;
  if negb (isfinite temperature)
  then reject InvalidTemperature "temperature field must be finite" else
  battery ← at_ bs BatteryOffset;
  if battery >? MaxBatteryPercent
  then reject InvalidBattery "battery percent is outside the 0..100 range" else
  statusByte ← at_ bs StatusOffset;
  if statusByte >? Status_SafeMode
  then reject InvalidStatus "status field contains an unknown value" else
  satelliteId ← readU16BE bs SatelliteIdOffset;
  timestampMs ← readU64BE bs TimestampOffset;
  Some (inl {| version := version; satelliteId := satelliteId; timestampMs := timestampMs;
               temperatureC := temperature; batteryPercent := battery; status := statusByte;
               payload := subspan bs HeaderSize payloadLength |}).

(** ** Fields of a byte string *)

(** A frame as the concatenation of its fields; [rest] is payload and checksum. *)
Definition layout (magic : bytes) (ver : Z) (sat ts temp : bytes) (bat st : Z) (len rest : bytes)
  : bytes :=
  magic ++ [ver] ++ sat ++ ts ++ temp ++ [bat] ++ [st] ++ len ++ rest.

(** The fields as [frame_typed] values. *)
Record parts_ok (magic : bytes) (ver : Z) (sat ts temp : bytes) (bat st : Z) (len : bytes) : Prop := {
  parts_magic : length magic = 4%nat /\ bytes_ok magic;
  parts_ver : is_byte ver;
  parts_sat : length sat = 2%nat /\ bytes_ok sat;
  parts_ts : length ts = 8%nat /\ bytes_ok ts;
  parts_temp : length temp = 4%nat /\ bytes_ok temp;
  parts_bat : is_byte bat;
  parts_st : is_byte st;
  parts_len : length len = 2%nat /\ bytes_ok len
}.

(** The checks of [encodeFrame]. *)
Definition encodable (f : TelemetryFrame) : bool :=
  (size (payload f) <=? MaxPayloadSize) && (version f =? ProtocolVersion) &&
  isfinite (temperatureC f) && (batteryPercent f <=? MaxBatteryPercent) &&
  (status f <=? Status_SafeMode).

(** The encoded frame without its checksum. *)
Definition wire (f : TelemetryFrame) : bytes :=
  layout (be 4 FrameMagic) (version f) (be 2 (satelliteId f)) (be 8 (timestampMs f))
    (be 4 (temperatureC f)) (batteryPercent f) (status f) (be 2 (size (payload f))) (payload f).

Lemma encodable_spec f :
  encodable f = true <->
  size (payload f) <= MaxPayloadSize /\ version f = ProtocolVersion /\
  isfinite (temperatureC f) = true /\ batteryPercent f <= MaxBatteryPercent /\
  status f <= Status_SafeMode.
Proof. unfold encodable. rewrite !andb_true_iff, !Z.leb_le, Z.eqb_eq. tauto. Qed.

Lemma gtb_le a b : a <= b -> (a >? b) = false.
Proof. intros. rewrite Z.gtb_ltb. by apply Z.ltb_ge. Qed.

Lemma encodeFrame_wire f :
  encodable f = true -> encodeFrame f = Ok (wire f ++ be 4 (crc32 (wire f))).
Proof.
  intros (Hp & Hv & Ht & Hb & Hs)%encodable_spec. unfold encodeFrame.
  rewrite !gtb_le, Hv, Ht by done. cbn [negb Z.eqb Pos.eqb ProtocolVersion].
  unfold appendU8. rewrite !appendU32BE_be, !appendU16BE_be, appendU64BE_be, ?appendFloatBE_be.
  rewrite Z.mod_small by (change MaxPayloadSize with 4096 in Hp; size_lia).
  rewrite <- !app_assoc. unfold wire, layout. by rewrite Hv.
Qed.

Lemma encodeFrame_ok f bs : encodeFrame f = Ok bs -> encodable f = true.
Proof.
  unfold encodeFrame. rewrite encodable_spec. break_ifs; try done. intros _. reflect_Z.
  by split_and!.
Qed.

Lemma parts_of_frame f :
  frame_typed f -> parts_ok (be 4 FrameMagic) (version f) (be 2 (satelliteId f))
    (be 8 (timestampMs f)) (be 4 (temperatureC f)) (batteryPercent f) (status f)
    (be 2 (size (payload f))).
Proof. intros []. split; rewrite ?length_be; auto using be_ok. Qed.

Lemma layout_split bs :
  bytes_ok bs -> HeaderSize <= size bs ->
  exists magic ver sat ts temp bat st len rest,
    parts_ok magic ver sat ts temp bat st len /\ bytes_ok rest /\
    bs = layout magic ver sat ts temp bat st len rest.
Proof.
  intros Hok Hs. change HeaderSize with 23 in Hs.
  do 23 (destruct bs as [|? bs]; [exfalso; revert Hs; unfold size; cbn [length]; lia|]).
  do 4 (apply Forall_cons in Hok as [? Hok]). exists [z; z0; z1; z2].
  do 1 (apply Forall_cons in Hok as [? Hok]). exists z3.
  do 2 (apply Forall_cons in Hok as [? Hok]). exists [z4; z5].
  do 8 (apply Forall_cons in Hok as [? Hok]). exists [z6; z7; z8; z9; z10; z11; z12; z13].
  do 4 (apply Forall_cons in Hok as [? Hok]). exists [z14; z15; z16; z17].
  do 2 (apply Forall_cons in Hok as [? Hok]). exists z18, z19.
  do 2 (apply Forall_cons in Hok as [? Hok]). exists [z20; z21], bs.
  split; [|by split]. split; try done; split; try done; repeat (apply Forall_cons; split; [done|]); done.
Qed.

Lemma readU16BE_at L off pre v post :
  L = pre ++ v ++ post -> off = size pre -> length v = 2%nat /\ bytes_ok v ->
  readU16BE L off = Some (of_be v).
Proof. intros -> -> []. by apply readU16BE_of_be. Qed.

Lemma readU32BE_at L off pre v post :
  L = pre ++ v ++ post -> off = size pre -> length v = 4%nat /\ bytes_ok v ->
  readU32BE L off = Some (of_be v).
Proof. intros -> -> []. by apply readU32BE_of_be. Qed.

Lemma readU64BE_at L off pre v post :
  L = pre ++ v ++ post -> off = size pre -> length v = 8%nat /\ bytes_ok v ->
  readU64BE L off = Some (of_be v).
Proof. intros -> -> []. by apply readU64BE_of_be. Qed.

Lemma byte_at L off pre b post :
  L = pre ++ [b] ++ post -> off = size pre -> at_ L off = Some b.
Proof. intros -> ->. apply at_app_hd. Qed.

(** Reading the field that follows [pre]. *)
Ltac field_at lem pre :=
  eapply (lem _ _ pre);
  [ unfold layout; rewrite <- ?app_assoc; reflexivity
  | unfold size; rewrite ?length_app; cbn [length];
    repeat match goal with H : length _ = _ /\ _ |- _ => rewrite (proj1 H); clear H end;
    reflexivity
  | try done .. ].

Lemma layout_reads magic ver sat ts temp bat st len rest :
  parts_ok magic ver sat ts temp bat st len ->
  let L := layout magic ver sat ts temp bat st len rest in
  readU32BE L MagicOffset = Some (of_be magic) /\ at_ L VersionOffset = Some ver /\
  readU16BE L SatelliteIdOffset = Some (of_be sat) /\
  readU64BE L TimestampOffset = Some (of_be ts) /\
  readFloatBE L TemperatureOffset = Some (of_be temp) /\
  at_ L BatteryOffset = Some bat /\ at_ L StatusOffset = Some st /\
  readU16BE L PayloadLengthOffset = Some (of_be len) /\
  size L = HeaderSize + size rest.
Proof.
  intros [Hm _ Hsat Hts Htemp _ _ Hlen]. cbn zeta. split_and!.
  - field_at readU32BE_at (@nil Z).
  - field_at byte_at magic.
  - field_at readU16BE_at (magic ++ [ver]).
  - field_at readU64BE_at (magic ++ [ver] ++ sat).
  - field_at readU32BE_at (magic ++ [ver] ++ sat ++ ts).
  - field_at byte_at (magic ++ [ver] ++ sat ++ ts ++ temp).
  - field_at byte_at (magic ++ [ver] ++ sat ++ ts ++ temp ++ [bat]).
  - field_at readU16BE_at (magic ++ [ver] ++ sat ++ ts ++ temp ++ [bat] ++ [st]).
  - unfold layout, size. rewrite !length_app. cbn [length].
    rewrite (proj1 Hm), (proj1 Hsat), (proj1 Hts), (proj1 Htemp), (proj1 Hlen).
    change HeaderSize with 23. lia.
Qed.

Lemma layout_app magic ver sat ts temp bat st len payload crc :
  layout magic ver sat ts temp bat st len (payload ++ crc)
  = layout magic ver sat ts temp bat st len payload ++ crc.
Proof. unfold layout. by rewrite <- !app_assoc. Qed.

Lemma subspan_prefix a b n : n = size a -> subspan (a ++ b) 0 n = a.
Proof. intros ->. unfold subspan, size. rewrite Nat2Z.id, drop_0. by rewrite take_app_length. Qed.

Lemma layout_payload magic ver sat ts temp bat st len payload crc :
  parts_ok magic ver sat ts temp bat st len ->
  subspan (layout magic ver sat ts temp bat st len (payload ++ crc)) HeaderSize (size payload) = payload.
Proof.
  intros Hp. pose proof (layout_reads _ _ _ _ _ _ _ _ [] Hp) as (_&_&_&_&_&_&_&_&Hs).
  replace HeaderSize with (size (layout magic ver sat ts temp bat st len [])) by size_lia.
  rewrite <- (app_nil_l (payload ++ crc)), layout_app. apply subspan_middle.
Qed.

(** The decoder on a byte string given by its fields. *)
Definition decode_parts (magic : bytes) (ver : Z) (sat ts temp : bytes) (bat st : Z)
    (len payload crc : bytes) : FrameParseResult :=
  let body := layout magic ver sat ts temp bat st len payload in
  let expectedSize := HeaderSize + of_be len + CrcSize in
  let actual := HeaderSize + size payload + CrcSize in
  if negb (of_be magic =? FrameMagic)
  then inr (makeError BadMagic "invalid frame magic; expected ASCII STGS")
  else if negb (ver =? ProtocolVersion)
  then inr (makeError UnsupportedVersion "unsupported protocol version")
  else if of_be len >? MaxPayloadSize
  then inr (makeError PayloadTooLarge "payload length exceeds configured maximum")
  else if negb (actual =? expectedSize)
  then inr (makeError LengthMismatch (lengthMismatchMessage expectedSize actual))
  else if negb (of_be crc =? crc32 body)
  then inr (makeError BadCrc (crcMismatchMessage (of_be crc) (crc32 body)))
  else if negb (isfinite (of_be temp))
  then inr (makeError InvalidTemperature "temperature field must be finite")
  else if bat >? MaxBatteryPercent
  then inr (makeError InvalidBattery "battery percent is outside the 0..100 range")
  else if st >? Status_SafeMode
  then inr (makeError InvalidStatus "status field contains an unknown value")
  else inl {| version := ver; satelliteId := of_be sat; timestampMs := of_be ts;
              temperatureC := of_be temp; batteryPercent := bat; status := st; payload := payload |}.

Lemma decodeFrame_parts magic ver sat ts temp bat st len payload crc :
  parts_ok magic ver sat ts temp bat st len -> length crc = 4%nat /\ bytes_ok crc ->
  decodeFrame (layout magic ver sat ts temp bat st len (payload ++ crc))
  = Some (decode_parts magic ver sat ts temp bat st len payload crc).
Proof.
  intros Hp Hcrc. pose proof (layout_reads _ _ _ _ _ _ _ _ (payload ++ crc) Hp) as
    (Rmagic & Rver & Rsat & Rts & Rtemp & Rbat & Rst & Rlen & Hsize).
  pose proof (layout_reads _ _ _ _ _ _ _ _ payload Hp) as (_&_&_&_&_&_&_&_&Hbody).
  assert (Hc : size crc = CrcSize) by (unfold size; by rewrite (proj1 Hcrc)).
  rewrite size_app, Hc in Hsize. unfold decodeFrame, decode_parts, reject.
  rewrite Hsize, (proj2 (Z.ltb_ge _ _)) by (unfold MinFrameSize; size_lia).
  rewrite Rmagic. bind_some. destruct (negb (of_be magic =? FrameMagic)); [done|].
  rewrite Rver. bind_some. destruct (negb (ver =? ProtocolVersion)); [done|].
  rewrite Rlen. bind_some. destruct (of_be len >? MaxPayloadSize); [done|].
  rewrite Z.add_assoc.
  destruct (Z.eqb_spec (HeaderSize + size payload + CrcSize) (HeaderSize + of_be len + CrcSize))
    as [Heq|]; cbn [negb]; [|done].
  rewrite layout_app, (subspan_prefix _ crc) by (rewrite Hbody; lia).
  rewrite (readU32BE_at _ (HeaderSize + size payload + CrcSize - CrcSize)
    (layout magic ver sat ts temp bat st len payload) crc []) by (rewrite ?app_nil_r; (done || lia)).
  bind_some. destruct (negb (_ =? crc32 _)); [done|].
  rewrite <- layout_app, Rtemp. bind_some. destruct (negb (isfinite _)); [done|].
  rewrite Rbat. bind_some. destruct (bat >? _); [done|].
  rewrite Rst. bind_some. destruct (st >? _); [done|].
  rewrite Rsat. bind_some. rewrite Rts. bind_some.
  replace (of_be len) with (size payload) by lia. by rewrite layout_payload.
Qed.

Lemma decodeFrame_short bs : size bs < MinFrameSize ->
  decodeFrame bs = reject TooShort "frame is shorter than the minimum header + CRC size".
Proof. intros. unfold decodeFrame. by rewrite (proj2 (Z.ltb_lt _ _)). Qed.

(** Splitting a byte string that is long enough into fields, payload and checksum. *)
Lemma frame_split bs :
  bytes_ok bs -> MinFrameSize <= size bs ->
  exists magic ver sat ts temp bat st len payload crc,
    parts_ok magic ver sat ts temp bat st len /\ bytes_ok payload /\
    (length crc = 4%nat /\ bytes_ok crc) /\
    bs = layout magic ver sat ts temp bat st len (payload ++ crc).
Proof.
  intros Hok Hs. change MinFrameSize with 27 in Hs.
  destruct (layout_split bs Hok) as (magic & ver & sat & ts & temp & bat & st & len & rest &
    Hp & Hrest & ->); [change HeaderSize with 23; lia|].
  pose proof (layout_reads _ _ _ _ _ _ _ _ rest Hp) as (_&_&_&_&_&_&_&_&Hl).
  rewrite Hl in Hs. change HeaderSize with 23 in Hs. unfold size in Hs.
  exists magic, ver, sat, ts, temp, bat, st, len,
    (take (length rest - 4) rest), (drop (length rest - 4) rest).
  rewrite take_drop. split_and!; auto using bytes_ok_take, bytes_ok_drop.
  rewrite length_drop. lia.
Qed.

Lemma decode_encode f bs :
  frame_typed f -> encodeFrame f = Ok bs -> decodeFrame bs = Some (inl f).
Proof.
  intros Hf Henc. pose proof (encodeFrame_ok _ _ Henc) as He. rewrite encodeFrame_wire in Henc by done.
  assert (bs = wire f ++ be 4 (crc32 (wire f))) as -> by congruence. clear Henc. apply encodable_spec in He as (Hp & Hv & Ht & Hb & Hs).
  pose proof (typed_payload _ Hf) as Hpay. set (crc := be 4 (crc32 (wire f))).
  assert (Hcrc : of_be crc = crc32 (wire f)).
  { apply of_be_be, crc32_fits. unfold wire, layout. rewrite !bytes_ok_app.
    pose proof (parts_of_frame f Hf) as []. destruct_and!.
    split_and!; repeat first [assumption | apply Forall_singleton]; done. }
  assert (Hl : of_be (be 2 (size (payload f))) = size (payload f)).
  { apply of_be_be. change MaxPayloadSize with 4096 in Hp. unfold fits. size_lia. }
  unfold wire at 1. rewrite <- layout_app.
  rewrite decodeFrame_parts; [|by apply parts_of_frame|by split; [apply length_be|apply be_ok]].
  unfold decode_parts. destruct Hf as [_ ? ? ? _ _ _].
  rewrite Hl, Hcrc, !of_be_be by done. fold (wire f).
  rewrite !gtb_le, Ht, Hv, !Z.eqb_refl by done. cbn [negb].
  rewrite <- Hv. by destruct f.
Qed.

Lemma decode_sound bs f :
  bytes_ok bs -> decodeFrame bs = Some (inl f) ->
  frame_typed f /\ encodable f = true /\ bs = wire f ++ be 4 (crc32 (wire f)).
Proof.
  intros Hok Hdec. destruct (Z.ltb_spec (size bs) MinFrameSize) as [Hs|Hs].
  { rewrite decodeFrame_short in Hdec by done. discriminate Hdec. }
  destruct (frame_split bs Hok Hs) as (magic & ver & sat & ts & temp & bat & st & len & pay & crc &
    Hp & Hpay & Hcrc & ->).
  rewrite decodeFrame_parts in Hdec by done. injection Hdec as Hdec. unfold decode_parts in Hdec.
  repeat match type of Hdec with
  | (if ?c then _ else _) = _ => destruct c eqn:?; [discriminate Hdec|]
  end.
  injection Hdec as <-. reflect_Z.
  assert (size pay = of_be len) as Hlen by (unfold HeaderSize, CrcSize in *; lia).
  destruct Hp as [[Hm1 Hm2] Hver [Hs1 Hs2] [Ht1 Ht2] [Hf1 Hf2] Hbat Hst [Hl1 Hl2]].
  destruct Hcrc as [Hc1 Hc2].
  assert (Hfit : forall b, bytes_ok b -> fits (8 * size b) (of_be b)) by apply of_be_bound.
  pose proof (Hfit sat Hs2) as F1. pose proof (Hfit ts Ht2) as F2. pose proof (Hfit temp Hf2) as F3.
  unfold size in F1, F2, F3. rewrite Hs1 in F1. rewrite Ht1 in F2. rewrite Hf1 in F3.
  split; [by constructor|]. split.
  { apply encodable_spec. rewrite <- Hlen in *. by split_and!. }
  assert (Hwire : wire {| version := ver; satelliteId := of_be sat; timestampMs := of_be ts;
      temperatureC := of_be temp; batteryPercent := bat; status := st; payload := pay |}
    = layout magic ver sat ts temp bat st len pay).
  { unfold wire. cbn [version satelliteId timestampMs temperatureC batteryPercent status payload].
    rewrite Hlen. match goal with H : of_be magic = _ |- _ => rewrite <- H end.
    by rewrite !be_of_be_n. }
  rewrite Hwire, layout_app. f_equal.
  match goal with H : of_be crc = _ |- _ => rewrite <- H end. by rewrite be_of_be_n.
Qed.

Lemma wire_ok f : frame_typed f -> bytes_ok (wire f).
Proof.
  intros Hf. pose proof (parts_of_frame f Hf) as []. destruct_and!.
  unfold wire, layout. rewrite !bytes_ok_app.
  split_and!; first [assumption | by apply Forall_singleton | apply Hf].
Qed.

Lemma wire_size f : frame_typed f -> size (wire f) = HeaderSize + size (payload f).
Proof. intros Hf. apply (layout_reads _ _ _ _ _ _ _ _ _ (parts_of_frame f Hf)). Qed.

Lemma encodeFrame_rejects f :
  encodable f = false -> exists msg, encodeFrame f = Throw (invalid_argument msg).
Proof.
  intros He. destruct (encodeFrame f) as [bs|e] eqn:Henc.
  - apply encodeFrame_ok in Henc. congruence.
  - unfold encodeFrame in Henc.
    repeat match type of Henc with
    | (if ?c then _ else _) = _ => destruct c; [injection Henc as <-; by eexists|]
    end. discriminate Henc.
Qed.

Lemma encode_bytes_ok f bs : frame_typed f -> encodeFrame f = Ok bs -> bytes_ok bs.
Proof.
  intros Hf Henc. pose proof (encodeFrame_ok _ _ Henc) as He. rewrite encodeFrame_wire in Henc by done.
  assert (bs = wire f ++ be 4 (crc32 (wire f))) as -> by congruence.
  apply bytes_ok_app. auto using wire_ok, be_ok.
Qed.

Lemma decodeFrame_is_Some bs : bytes_ok bs -> is_Some (decodeFrame bs).
Proof.
  intros Hok. destruct (Z.ltb_spec (size bs) MinFrameSize) as [Hs|Hs].
  - rewrite decodeFrame_short by done. by eexists.
  - destruct (frame_split bs Hok Hs) as (magic & ver & sat & ts & temp & bat & st & len & pay & crc &
      Hp & Hpay & Hcrc & ->). rewrite decodeFrame_parts by done. by eexists.
Qed.

(** A frame used by the witnesses: 25.5 degrees, a payload of three bytes. *)
Definition sample_frame : TelemetryFrame :=
  {| version := 1; satelliteId := 42; timestampMs := 1700000000123; temperatureC := 0x41CC0000;
     batteryPercent := 87; status := Status_Warning; payload := [0xDE; 0xAD; 0x00] |}.

Lemma sample_frame_typed : frame_typed sample_frame.
Proof. split; unfold fits; decide_now. Qed.

(** A burst of at most four bytes is detected. *)
Lemma burst_rejected f pre w w' post :
  frame_typed f -> encodeFrame f = Ok (pre ++ w ++ post) ->
  bytes_ok w' -> length w = length w' -> (length w <= 4)%nat -> w <> w' ->
  CrcSize <= size post \/ HeaderSize + size (payload f) <= size pre ->
  exists e, decodeFrame (pre ++ w' ++ post) = Some (inr e).
Proof.
  intros Hf Henc Hw' Hl H4 Hne Hpos.
  pose proof (encodeFrame_ok _ _ Henc) as He. rewrite encodeFrame_wire in Henc by done.
  assert (Hbs : wire f ++ be 4 (crc32 (wire f)) = pre ++ w ++ post) by congruence. clear Henc.
  assert (Hok : bytes_ok (pre ++ w ++ post)).
  { rewrite <- Hbs, bytes_ok_app. auto using wire_ok, be_ok. }
  rewrite !bytes_ok_app in Hok. destruct Hok as (Hpre & Hw & Hpost).
  assert (Hok' : bytes_ok (pre ++ w' ++ post)) by (by rewrite !bytes_ok_app).
  destruct (decodeFrame_is_Some _ Hok') as [[g|e] Hdec]; [exfalso|by exists e].
  destruct (decode_sound _ _ Hok' Hdec) as (Hg & Heg & Hbs').
  pose proof (f_equal size Hbs) as S1. pose proof (f_equal size Hbs') as S2.
  autorewrite with stgs_size in S1, S2. pose proof (f_equal Z.of_nat Hl) as Sl.
  fold (size w) (size w') in Sl.
  destruct (Z.leb_spec CrcSize (size post)) as [Hp|Hp].
  - rewrite <- (take_drop (length post - 4) post) in Hbs, Hbs'.
    set (p := take _ post) in *. set (c := drop _ post) in *.
    assert (length c = 4%nat) by (subst c; rewrite length_drop; unfold size, CrcSize, U32WireSize in *; lia).
    rewrite (app_assoc w), (app_assoc pre) in Hbs. rewrite (app_assoc w'), (app_assoc pre) in Hbs'.
    apply app_inj_2 in Hbs as [B1 C1]; [|rewrite length_be; lia].
    apply app_inj_2 in Hbs' as [B2 C2]; [|rewrite length_be; lia].
    apply Hne, (crc32_window pre w w' p); try done; [by apply bytes_ok_take|].
    rewrite <- B1, B2, <- (of_be_be 4 (crc32 (wire f))), <- (of_be_be 4 (crc32 (wire g)))
      by (apply crc32_fits, wire_ok; done). by rewrite C1, <- C2.
  - destruct Hpos as [|Hpos]; [lia|]. rewrite <- wire_size in Hpos by done.
    assert (Hpre' : pre = wire f ++ drop (length (wire f)) pre).
    { rewrite <- (take_drop (length (wire f)) pre) at 1. f_equal.
      apply (f_equal (take (length (wire f)))) in Hbs. rewrite take_app_length in Hbs.
      rewrite take_app_le in Hbs by (unfold size in Hpos; lia). by symmetry. }
    set (q := drop _ pre) in *. rewrite Hpre', <- app_assoc in Hbs, Hbs'.
    apply app_inv_head in Hbs. symmetry in Hbs'.
    assert (wire g = wire f /\ be 4 (crc32 (wire g)) = q ++ w' ++ post) as [Hwf Hc].
    { apply app_inj_2 in Hbs'; [by destruct_and!|]. rewrite length_be.
      apply (f_equal length) in Hbs. rewrite !length_app, length_be in Hbs.
      rewrite !length_app. lia. }
    rewrite Hwf, Hbs in Hc. apply app_inv_head, app_inj_1 in Hc as [? _]; done.
Qed.

(** ** Properties *)

(** C2: decoding what [encodeFrame] produced returns the frame that was encoded, for every frame
    the encoder accepts, and the encoded size is header, payload and checksum. *)
Theorem frame_round_trip : forall f,
  frame_typed f -> encodable f = true ->
  exists bs, encodeFrame f = Ok bs /\ decodeFrame bs = Some (inl f) /\
             size bs = HeaderSize + size (payload f) + CrcSize.
Proof.
  intros f Hf He. exists (wire f ++ be 4 (crc32 (wire f))).
  pose proof (encodeFrame_wire f He) as Henc. split; [done|].
  split; [by apply decode_encode|]. rewrite size_app, wire_size, size_be by done. done.
Qed.

Lemma frame_round_trip_witness :
  exists bs, encodeFrame sample_frame = Ok bs /\ decodeFrame bs = Some (inl sample_frame) /\
             size bs = HeaderSize + size (payload sample_frame) + CrcSize.
Proof. apply frame_round_trip; [exact sample_frame_typed|reflexivity]. Defined.

(** C3: a byte string that the decoder accepts is exactly the encoding of the frame it returns,
    so no two byte strings decode to the same frame and the decoded frame is well typed. *)
Theorem frame_canonical : forall bs f,
  bytes_ok bs -> decodeFrame bs = Some (inl f) -> encodeFrame f = Ok bs /\ frame_typed f.
Proof.
  intros bs f Hok Hdec. destruct (decode_sound bs f Hok Hdec) as (Hf & He & ->).
  split; [by apply encodeFrame_wire|done].
Qed.

Definition sample_bytes : bytes :=
  match encodeFrame sample_frame with Ok bs => bs | Throw _ => [] end.

Lemma frame_canonical_witness :
  encodeFrame sample_frame = Ok sample_bytes /\ frame_typed sample_frame.
Proof. apply frame_canonical; [decide_now|vm_compute; reflexivity]. Defined.

(** The decoder never reads outside of the bytes it was given, whatever they are: it always
    returns a frame or an error. *)
Theorem decode_never_reads_outside : forall bs, bytes_ok bs -> is_Some (decodeFrame bs).
Proof. apply decodeFrame_is_Some. Qed.

Lemma decode_never_reads_outside_witness : is_Some (decodeFrame [83; 84; 71; 83; 1]).
Proof. apply decode_never_reads_outside. decide_now. Defined.

(** C6: a frame hit by a burst of at most four bytes, before its checksum or inside it, is never
    accepted: the decoder reports an error. *)
Theorem corrupted_frame_rejected : forall f pre w w' post,
  frame_typed f -> encodeFrame f = Ok (pre ++ w ++ post) ->
  bytes_ok w' -> length w = length w' -> (length w <= 4)%nat -> w <> w' ->
  CrcSize <= size post \/ HeaderSize + size (payload f) <= size pre ->
  exists e, decodeFrame (pre ++ w' ++ post) = Some (inr e).
Proof. exact burst_rejected. Qed.

Lemma corrupted_frame_rejected_witness :
  exists e, decodeFrame (take 10 sample_bytes ++ [1; 2; 3; 4] ++ drop 14 sample_bytes)
    = Some (inr e).
Proof.
  apply (corrupted_frame_rejected sample_frame (take 10 sample_bytes)
    (take 4 (drop 10 sample_bytes))).
  - exact sample_frame_typed.
  - vm_compute. reflexivity.
  - decide_now.
  - reflexivity.
  - vm_compute. lia.
  - vm_compute. discriminate.
  - left. vm_compute. discriminate.
Defined.

(** [encodeFrame] either throws [std::invalid_argument], exactly on the frames outside of the
    protocol's bounds, or produces bytes whose number stays within the frame size bounds. *)
Theorem encode_total : forall f,
  frame_typed f ->
  (encodable f = false /\ exists msg, encodeFrame f = Throw (invalid_argument msg)) \/
  (encodable f = true /\ exists bs, encodeFrame f = Ok bs /\ bytes_ok bs /\
     MinFrameSize <= size bs <= MaxFrameSize).
Proof.
  intros f Hf. destruct (encodable f) eqn:He; [right|left; auto using encodeFrame_rejects].
  split; [done|]. eexists. split; [by apply encodeFrame_wire|].
  split; [apply bytes_ok_app; auto using wire_ok, be_ok|].
  apply encodable_spec in He as [Hp _]. unfold MinFrameSize, MaxFrameSize, CrcSize, U32WireSize.
  rewrite size_app, wire_size, size_be by done. pose proof (size_nonneg (payload f)). lia.
Qed.

Lemma encode_total_witness :
  (encodable sample_frame = false /\ exists msg, encodeFrame sample_frame = Throw (invalid_argument msg)) \/
  (encodable sample_frame = true /\ exists bs, encodeFrame sample_frame = Ok bs /\ bytes_ok bs /\
     MinFrameSize <= size bs <= MaxFrameSize).
Proof. apply encode_total. exact sample_frame_typed. Defined.
