(* ===== verification/StreamExtractor.v ===== *)
(** [StreamFrameExtractor] of [src/FrameCodec.cpp]: reassembling frames from a TCP stream.

    The state is the private [buffer_]. [feed_turn] is one turn of the [while (true)] of [feed],
    [feed] iterates it. The main results: the loop ends after at most [buffer_.size() + 1] turns,
    the result does not depend on how the stream was cut into fragments, a stream of encoded
    frames gives back these frames, and the bytes kept between two calls are bounded. *)

From S2P Require Import Prelude ByteUtils Crc32 TextFormat FrameCodec.

(** The private state of the extractor. *)
Record StreamFrameExtractor := { buffer_ : bytes }.

Definition magicBytes : bytes := appendU32BE [] FrameMagic.

(** [std::search]: the position of the first occurrence of [needle], the length of the
    haystack when there is none. *)
Fixpoint search (hay needle : bytes) : nat :=
  if decide (needle `prefix_of` hay) then O
  else match hay with
       | [] => O
       | _ :: hay => S (search hay needle)
       end.

(** What a turn of the loop does: return with this buffer, or go on with this buffer after
    possibly emitting a frame. *)
Inductive turn :=
  | Return (buffer : bytes)
  | Again (emitted : option bytes) (buffer : bytes).

Definition feed_turn (buffer : bytes) : option turn :=
  let it := search buffer magicBytes in
  if decide (it = length buffer) then
    if size buffer >? MagicSize - 1
    then Some (Return (drop (length buffer - Z.to_nat (MagicSize - 1)) buffer))
    else Some (Return buffer)
  else
    let buffer := if decide (it <> O) then drop it buffer else buffer in
    if size buffer <? HeaderSize then Some (Return buffer) else
    payloadLength ← readU16BE buffer PayloadLengthOffset;
    if payloadLength >? MaxPayloadSize then Some (Again None (drop 1 buffer)) else
    let frameSize := HeaderSize + payloadLength + CrcSize in
    if size buffer <? frameSize then Some (Return buffer) else
    Some (Again (Some (take (Z.to_nat frameSize) buffer)) (drop (Z.to_nat frameSize) buffer)).

(** The loop. [None] when a read is outside of the buffer or the fuel runs out; [feed_loop_total]
    shows that neither happens when the fuel exceeds the size of the buffer. *)
Fixpoint feed_loop (fuel : nat) (buffer : bytes) (frames : list bytes) : option (list bytes * bytes) :=
  match fuel with
  | O => None
  | S fuel =>
      t ← feed_turn buffer;
      match t with
      | Return buffer => Some (frames, buffer)
      | Again emitted buffer => feed_loop fuel buffer (frames ++ option_list emitted)
      end
  end.

Definition feed (self : StreamFrameExtractor) (bs : bytes)
  : option (list bytes * StreamFrameExtractor) :=
  let buffer := buffer_ self ++ bs in
  '(frames, buffer) ← feed_loop (S (length buffer)) buffer [];
  Some (frames, {| buffer_ := buffer |}).

Definition clear (self : StreamFrameExtractor) : StreamFrameExtractor := {| buffer_ := [] |}.

Definition bufferedBytes (self : StreamFrameExtractor) : Z := size (buffer_ self).

(** The extractor of a new connection. *)
Definition new_extractor : StreamFrameExtractor := {| buffer_ := [] |}.

(** Feeding a list of fragments one after the other, as the TCP server does. *)
Fixpoint feed_all (self : StreamFrameExtractor) (fragments : list bytes)
  : option (list bytes * StreamFrameExtractor) :=
  match fragments with
  | [] => Some ([], self)
  | bs :: fragments =>
      '(frames, self) ← feed self bs;
      '(frames', self) ← feed_all self fragments;
      Some (frames ++ frames', self)
  end.

(** ** Searching *)

Lemma search_le (hay needle : bytes) : (search hay needle <= length hay)%nat.
Proof. induction hay; cbn [search length]; case_decide; lia. Qed.

Lemma search_found (hay needle : bytes) :
  needle <> [] -> search hay needle <> length hay -> needle `prefix_of` drop (search hay needle) hay.
Proof.
  intros Hne. induction hay as [|x hay IH]; cbn [search length]; case_decide as Hp; try done.
  intros Hs. cbn [drop]. apply IH. lia.
Qed.

(** Every occurrence is at or after the position found. *)
Lemma search_first (hay needle : bytes) k :
  needle <> [] -> needle `prefix_of` drop k hay -> (search hay needle <= k)%nat.
Proof.
  intros Hne. revert k. induction hay as [|x hay IH]; intros k Hk; cbn [search].
  { case_decide; lia. }
  case_decide as Hp; [lia|]. destruct k as [|k]; [done|]. cbn [drop] in Hk.
  apply IH in Hk. lia.
Qed.

Lemma search_before (hay needle : bytes) k :
  needle <> [] -> needle `prefix_of` drop k hay ->
  (forall j, (j < k)%nat -> ~ needle `prefix_of` drop j hay) -> search hay needle = k.
Proof.
  intros Hne Hk Hlt. pose proof (search_first hay needle k Hne Hk).
  destruct (decide (search hay needle = k)) as [|Hn]; [done|].
  exfalso. apply (Hlt (search hay needle)); [lia|]. apply search_found; [done|].
  pose proof (prefix_length _ _ Hk) as Hl. rewrite length_drop in Hl.
  destruct needle; [done|]. cbn [length] in Hl. lia.
Qed.

Lemma search_drop k (hay needle : bytes) :
  needle <> [] -> (k <= search hay needle)%nat ->
  search (drop k hay) needle = (search hay needle - k)%nat.
Proof.
  intros Hne. revert k. induction hay as [|x hay IH]; intros k.
  { rewrite drop_nil. cbn [search]. case_decide; lia. }
  destruct k as [|k]; [cbn [drop]; intros; lia|]. cbn [drop search].
  case_decide as Hp; [lia|]. intros Hk. rewrite IH by lia. lia.
Qed.

(** An occurrence that fits in [hay] does not depend on what follows. *)
Lemma occurs_app (hay hay' needle : bytes) j :
  (j + length needle <= length hay)%nat ->
  needle `prefix_of` drop j (hay ++ hay') <-> needle `prefix_of` drop j hay.
Proof.
  intros Hl. rewrite drop_app_le by lia. split; [|apply prefix_app_r].
  intros [k Hk]. exists (take (length hay - j - length needle) k).
  apply (f_equal (take (length hay - j))) in Hk.
  rewrite take_app_length', take_app_ge in Hk by (rewrite ?length_drop; lia). done.
Qed.

(** Appending to the haystack does not move an occurrence already found. *)
Lemma search_app_found (hay hay' needle : bytes) :
  needle <> [] -> search hay needle <> length hay -> search (hay ++ hay') needle = search hay needle.
Proof.
  intros Hne Hs. pose proof (search_found hay needle Hne Hs) as Hf.
  pose proof (prefix_length _ _ Hf) as Hl. rewrite length_drop in Hl.
  pose proof (search_le hay needle).
  assert (0 < length needle)%nat by (destruct needle; [done|cbn; lia]).
  apply search_before; [done|apply occurs_app; [lia|done]|].
  intros j Hj Ho. apply occurs_app in Ho; [|lia].
  apply (search_first _ _ _ Hne) in Ho. lia.
Qed.

(** A new occurrence overlaps the end of what was already searched. *)
Lemma search_app_none (hay hay' needle : bytes) :
  needle <> [] -> search hay needle = length hay ->
  (length hay - (length needle - 1) <= search (hay ++ hay') needle)%nat.
Proof.
  intros Hne Hs. set (p := search (hay ++ hay') needle).
  destruct (decide (p = length (hay ++ hay'))) as [->|Hp]; [rewrite length_app; lia|].
  pose proof (search_found _ _ Hne Hp) as Hf. fold p in Hf.
  destruct (decide (p + length needle <= length hay)%nat) as [Hl|]; [|lia].
  apply occurs_app in Hf; [|done]. apply (search_first _ _ _ Hne) in Hf.
  assert (0 < length needle)%nat by (destruct needle; [done|cbn; lia]). lia.
Qed.

(** ** One turn *)

Lemma magicBytes_be : magicBytes = be 4 FrameMagic.
Proof. done. Qed.

Lemma magicBytes_nonempty : magicBytes <> [].
Proof. done. Qed.

Lemma feed_turn_nomagic buffer :
  search buffer magicBytes = length buffer ->
  feed_turn buffer = Some (Return (drop (length buffer - 3) buffer)).
Proof.
  intros Hs. unfold feed_turn. rewrite decide_True by done.
  change (Z.to_nat (MagicSize - 1)) with 3%nat. change (MagicSize - 1) with 3.
  destruct (Z.gtb_spec (size buffer) 3); [done|].
  replace (length buffer - 3)%nat with 0%nat by (unfold size in *; lia). by rewrite drop_0.
Qed.

(** A turn that found the magic works on the buffer from that position on. *)
Definition framed_turn (buffer : bytes) : option turn :=
  if size buffer <? HeaderSize then Some (Return buffer) else
  payloadLength ← readU16BE buffer PayloadLengthOffset;
  if payloadLength >? MaxPayloadSize then Some (Again None (drop 1 buffer)) else
  let frameSize := HeaderSize + payloadLength + CrcSize in
  if size buffer <? frameSize then Some (Return buffer) else
  Some (Again (Some (take (Z.to_nat frameSize) buffer)) (drop (Z.to_nat frameSize) buffer)).

Lemma feed_turn_magic buffer :
  search buffer magicBytes <> length buffer ->
  feed_turn buffer = framed_turn (drop (search buffer magicBytes) buffer).
Proof.
  intros Hs. unfold feed_turn. rewrite decide_False by done.
  destruct (decide (search buffer magicBytes = 0%nat)) as [->|]; [done|].
  by rewrite decide_True by done.
Qed.

(** Dropping bytes that precede every occurrence changes nothing, as long as the three bytes kept
    for a magic cut in two are not touched. *)
Lemma feed_turn_drop k buffer :
  (k <= search buffer magicBytes)%nat -> (k = 0 \/ k + 3 <= length buffer)%nat ->
  feed_turn (drop k buffer) = feed_turn buffer.
Proof.
  intros Hk H3. pose proof (search_drop k buffer _ magicBytes_nonempty Hk) as Hd.
  pose proof (search_le buffer magicBytes).
  destruct (decide (search buffer magicBytes = length buffer)) as [Hs|Hs].
  - rewrite !feed_turn_nomagic by (rewrite ?length_drop; lia).
    rewrite length_drop, drop_drop. do 3 f_equal. lia.
  - rewrite !feed_turn_magic by (rewrite ?length_drop; lia). rewrite drop_drop. f_equal.
    f_equal. lia.
Qed.

Lemma feed_turn_total buffer : bytes_ok buffer -> is_Some (feed_turn buffer).
Proof.
  intros Hok. destruct (decide (search buffer magicBytes = length buffer)) as [Hs|Hs].
  { rewrite feed_turn_nomagic by done. by eexists. }
  rewrite feed_turn_magic by done. unfold framed_turn.
  set (b := drop _ buffer). assert (Hb : bytes_ok b) by (by apply bytes_ok_drop).
  destruct (Z.ltb_spec (size b) HeaderSize); [by eexists|].
  destruct (layout_split b Hb) as (? & ? & ? & ? & ? & ? & ? & ? & rest & Hp & _ & ->); [done|].
  destruct (layout_reads _ _ _ _ _ _ _ _ rest Hp) as (_&_&_&_&_&_&_&->&_).
  bind_some. break_ifs; by eexists.
Qed.

(** ** The loop as a relation *)

(** [drains b fs b']: from buffer [b] the loop emits [fs] and returns with buffer [b']. *)
Inductive drains : bytes -> list bytes -> bytes -> Prop :=
  | drains_return b b' : feed_turn b = Some (Return b') -> drains b [] b'
  | drains_again b e b1 fs b' :
      feed_turn b = Some (Again e b1) -> drains b1 fs b' -> drains b (option_list e ++ fs) b'.

Lemma framed_again b e b1 :
  bytes_ok b -> framed_turn b = Some (Again e b1) ->
  HeaderSize <= size b /\
  exists payloadLength, readU16BE b PayloadLengthOffset = Some payloadLength /\ fits 16 payloadLength /\
    ((MaxPayloadSize < payloadLength /\ e = None /\ b1 = drop 1 b) \/
     (payloadLength <= MaxPayloadSize /\ HeaderSize + payloadLength + CrcSize <= size b /\
      e = Some (take (Z.to_nat (HeaderSize + payloadLength + CrcSize)) b) /\
      b1 = drop (Z.to_nat (HeaderSize + payloadLength + CrcSize)) b)).
Proof.
  intros Hok. unfold framed_turn. destruct (Z.ltb_spec (size b) HeaderSize) as [|Hs]; [done|].
  destruct (layout_split b Hok Hs) as (? & ? & ? & ? & ? & ? & ? & len & rest & Hp & _ & ->).
  destruct (layout_reads _ _ _ _ _ _ _ _ rest Hp) as (_&_&_&_&_&_&_&->&_). bind_some.
  intros H. split; [done|]. exists (of_be len). split; [done|]. split.
  { destruct (parts_len _ _ _ _ _ _ _ _ Hp) as [Hl Hlen].
    apply of_be_bound in Hlen. unfold size in Hlen. by rewrite Hl in Hlen. }
  destruct (Z.gtb_spec (of_be len) MaxPayloadSize); [left; by simplify_eq|right].
  match type of H with (if ?x <? ?y then _ else _) = _ => destruct (Z.ltb_spec x y) end;
    by simplify_eq.
Qed.

Lemma magic_inside b :
  search b magicBytes <> length b -> (search b magicBytes + 4 <= length b)%nat.
Proof.
  intros Hs. pose proof (prefix_length _ _ (search_found b _ magicBytes_nonempty Hs)) as Hl.
  rewrite length_drop in Hl. change (length magicBytes) with 4%nat in Hl. lia.
Qed.

Lemma feed_turn_again b e b1 :
  bytes_ok b -> feed_turn b = Some (Again e b1) -> (length b1 < length b)%nat /\ bytes_ok b1.
Proof.
  intros Hok Ht. destruct (decide (search b magicBytes = length b)) as [Hs|Hs].
  { rewrite feed_turn_nomagic in Ht by done. discriminate Ht. }
  rewrite feed_turn_magic in Ht by done.
  destruct (framed_again _ _ _ (bytes_ok_drop _ _ Hok) Ht) as (Hsz & n & _ & Hn & Hcase).
  unfold size in Hsz. rewrite length_drop in Hsz. change HeaderSize with 23 in Hsz.
  destruct Hcase as [(_ & _ & ->)|(_ & Hle & _ & ->)]; split; auto using bytes_ok_drop;
    rewrite !length_drop; unfold fits in Hn; change HeaderSize with 23; change CrcSize with 4; lia.
Qed.

Lemma feed_loop_drains fuel b acc :
  bytes_ok b -> (length b < fuel)%nat ->
  exists fs b', feed_loop fuel b acc = Some (acc ++ fs, b') /\ drains b fs b'.
Proof.
  revert b acc. induction fuel as [|fuel IH]; intros b acc Hok Hf; [lia|].
  destruct (feed_turn_total b Hok) as [[b'|e b1] Ht]; cbn [feed_loop]; rewrite Ht; bind_some.
  - exists [], b'. rewrite app_nil_r. split; [done|by constructor].
  - destruct (feed_turn_again _ _ _ Hok Ht) as [Hl Hok1].
    destruct (IH b1 (acc ++ option_list e) Hok1) as (fs & b' & -> & Hd); [lia|].
    exists (option_list e ++ fs), b'. rewrite app_assoc. split; [done|by econstructor].
Qed.

Lemma drains_det b fs b' fs2 b2 : drains b fs b' -> drains b fs2 b2 -> fs = fs2 /\ b' = b2.
Proof.
  intros H. revert fs2 b2. induction H as [b b' Ht|b e b1 fs b' Ht _ IH]; intros fs2 b2 H2;
    inversion H2 as [? ? Ht2|? ? ? ? ? Ht2 Hd]; subst; rewrite Ht in Ht2; simplify_eq; [done|].
  by destruct (IH _ _ Hd) as [-> ->].
Qed.

Lemma feed_loop_iff fuel b fs b' :
  bytes_ok b -> (length b < fuel)%nat -> feed_loop fuel b [] = Some (fs, b') <-> drains b fs b'.
Proof.
  intros Hok Hf. destruct (feed_loop_drains fuel b [] Hok Hf) as (fs0 & b0 & -> & Hd).
  cbn [app]. split; [intros; by simplify_eq|].
  intros Hd'. by destruct (drains_det _ _ _ _ _ Hd Hd') as [-> ->].
Qed.

Lemma feed_iff self bs fs self' :
  bytes_ok (buffer_ self) -> bytes_ok bs ->
  feed self bs = Some (fs, self') <-> drains (buffer_ self ++ bs) fs (buffer_ self').
Proof.
  intros Hb Hbs. unfold feed.
  rewrite <- (feed_loop_iff (S (length (buffer_ self ++ bs)))) by (rewrite ?bytes_ok_app; auto with lia).
  destruct (feed_loop _ _ _) as [[fs0 b0]|] eqn:E; cbn; [|by split].
  destruct self'; cbn. split; intros; by simplify_eq.
Qed.

Lemma drains_bytes_ok b fs b' : drains b fs b' -> bytes_ok b -> bytes_ok b'.
Proof.
  induction 1 as [b b' Ht|b e b1 fs b' Ht _ IH]; intros Hok.
  - destruct (decide (search b magicBytes = length b)) as [Hs|Hs].
    + rewrite feed_turn_nomagic in Ht by done. simplify_eq. auto with stgs.
    + rewrite feed_turn_magic in Ht by done. unfold framed_turn in Ht.
      destruct (_ <? _); [simplify_eq; auto with stgs|].
      destruct (readU16BE _ _); cbn in Ht; [|done].
      destruct (_ >? _); [done|]. destruct (_ <? _); [simplify_eq; auto with stgs|done].
  - by apply IH, (feed_turn_again b e b1).
Qed.

(** ** Fragmentation *)

Lemma drains_drop k b fs b' :
  (k <= search b magicBytes)%nat -> (k = 0 \/ k + 3 <= length b)%nat ->
  drains (drop k b) fs b' -> drains b fs b'.
Proof.
  intros Hk H3 Hd. pose proof (feed_turn_drop k b Hk H3) as Ht.
  inversion Hd; subst; [apply drains_return|eapply drains_again; [|done]]; congruence.
Qed.

Lemma at_app_l b c i v : at_ b i = Some v -> at_ (b ++ c) i = Some v.
Proof. apply lookup_app_l_Some. Qed.

Lemma readU16BE_app b c off v : readU16BE b off = Some v -> readU16BE (b ++ c) off = Some v.
Proof.
  unfold readU16BE. intros (b0 & H0 & H)%bind_Some. apply bind_Some in H as (b1 & H1 & <-).
  by rewrite (at_app_l _ _ _ _ H0), (at_app_l _ _ _ _ H1).
Qed.

(** A turn that goes on does the same with more bytes at the end of the buffer. *)
Lemma framed_turn_app b c e b1 :
  bytes_ok b -> framed_turn b = Some (Again e b1) -> framed_turn (b ++ c) = Some (Again e (b1 ++ c)).
Proof.
  intros Hok Ht. destruct (framed_again _ _ _ Hok Ht) as (Hs & n & Hr & Hn & Hcase).
  unfold framed_turn. pose proof (size_nonneg c). unfold fits in Hn.
  rewrite (readU16BE_app _ _ _ _ Hr), (proj2 (Z.ltb_ge _ _)) by size_lia. bind_some.
  destruct Hcase as [(Hgt & -> & ->)|(Hle & Hfit & -> & ->)].
  - rewrite (proj2 (Z.gtb_lt _ _)) by lia. do 2 f_equal. apply drop_app_le.
    unfold size in Hs. change HeaderSize with 23 in Hs. lia.
  - rewrite gtb_le by lia. rewrite (proj2 (Z.ltb_ge _ _)) by size_lia.
    unfold size in Hfit. rewrite take_app_le, drop_app_le by lia. done.
Qed.

Lemma feed_turn_app b c e b1 :
  bytes_ok b -> feed_turn b = Some (Again e b1) -> feed_turn (b ++ c) = Some (Again e (b1 ++ c)).
Proof.
  intros Hok Ht. destruct (decide (search b magicBytes = length b)) as [Hs|Hs].
  { rewrite feed_turn_nomagic in Ht by done. discriminate Ht. }
  pose proof (magic_inside b Hs) as Hin.
  rewrite feed_turn_magic in Ht by done.
  pose proof (search_app_found b c _ magicBytes_nonempty Hs) as Hsc.
  rewrite feed_turn_magic, Hsc, drop_app_le by (rewrite ?Hsc, ?length_app; lia).
  apply framed_turn_app; auto using bytes_ok_drop.
Qed.

(** The buffer kept by [feed] is the end of what was given, past everything searched. *)
Lemma feed_turn_return b b' :
  feed_turn b = Some (Return b') ->
  exists k, b' = drop k b /\
    ((search b magicBytes = length b /\ k = length b - 3)%nat \/
     (search b magicBytes = k /\ k + 4 <= length b)%nat).
Proof.
  intros Ht. destruct (decide (search b magicBytes = length b)) as [Hs|Hs].
  - rewrite feed_turn_nomagic in Ht by done. exists (length b - 3)%nat. simplify_eq. by auto.
  - pose proof (magic_inside b Hs). rewrite feed_turn_magic in Ht by done. unfold framed_turn in Ht.
    exists (search b magicBytes). split; [|by auto].
    destruct (_ <? _); [by simplify_eq|]. destruct (readU16BE _ _); cbn in Ht; [|done].
    destruct (_ >? _); [done|]. destruct (_ <? _); by simplify_eq.
Qed.

Lemma drains_app b fs b1 c gs b2 :
  bytes_ok b -> drains b fs b1 -> drains (b1 ++ c) gs b2 -> drains (b ++ c) (fs ++ gs) b2.
Proof.
  intros Hok Hd. induction Hd as [b b' Ht|b e b1 fs b' Ht _ IH]; intros Hc.
  - destruct (feed_turn_return _ _ Ht) as (k & -> & Hk). cbn [app].
    apply (drains_drop k).
    + destruct Hk as [[Hs ->]|[Hs Hl]].
      * apply (search_app_none b c _ magicBytes_nonempty Hs).
      * rewrite search_app_found by (done || lia). lia.
    + rewrite length_app. lia.
    + rewrite drop_app_le by lia. done.
  - rewrite <- app_assoc. eapply drains_again; [by apply feed_turn_app|].
    apply IH; [|done]. by apply (feed_turn_again b e b1).
Qed.

Lemma feed_total self bs :
  bytes_ok (buffer_ self) -> bytes_ok bs ->
  exists fs self', feed self bs = Some (fs, self') /\
    drains (buffer_ self ++ bs) fs (buffer_ self') /\ bytes_ok (buffer_ self').
Proof.
  intros Hb Hbs. assert (Hok : bytes_ok (buffer_ self ++ bs)) by (by apply bytes_ok_app).
  destruct (feed_loop_drains (S (length (buffer_ self ++ bs))) _ [] Hok) as (fs & b' & _ & Hd); [lia|].
  exists fs, {| buffer_ := b' |}. rewrite feed_iff by done.
  split_and!; [done..|]. by apply (drains_bytes_ok _ _ _ Hd).
Qed.

Lemma feed_all_drains self bs fragments :
  bytes_ok (buffer_ self) -> bytes_ok bs -> Forall bytes_ok fragments ->
  exists fs self', feed_all self (bs :: fragments) = Some (fs, self') /\
    drains (buffer_ self ++ bs ++ concat fragments) fs (buffer_ self').
Proof.
  intros Hb Hbs Hfr. revert self bs Hb Hbs.
  induction Hfr as [|bs2 fragments Hbs2 _ IH]; intros self bs Hb Hbs;
    destruct (feed_total self bs Hb Hbs) as (fs & self1 & Hf & Hd & Hok1).
  - exists fs, self1. cbn [feed_all concat]. rewrite Hf. simpl. by rewrite !app_nil_r.
  - destruct (IH self1 bs2 Hok1 Hbs2) as (gs & self2 & Hg & Hd2).
    exists (fs ++ gs), self2. cbn [feed_all] in *. rewrite Hf. simpl. rewrite Hg. split; [done|].
    cbn [concat]. rewrite app_assoc. eapply drains_app; [by apply bytes_ok_app|done|].
    by rewrite app_assoc in Hd2 |- *.
Qed.

(** ** What is emitted and what is kept *)

(** The errors that concern framing; the extractor never emits a frame with one of them. *)
Definition framing_error (c : FrameErrorCode) : bool :=
  match c with
  | TooShort | BadMagic | PayloadTooLarge | LengthMismatch => true
  | _ => false
  end.

(** A byte string that starts with the magic and has the size its header announces. *)
Definition framed (bs : bytes) : Prop :=
  bytes_ok bs /\ magicBytes `prefix_of` bs /\
  exists n, readU16BE bs PayloadLengthOffset = Some n /\ 0 <= n <= MaxPayloadSize /\
    size bs = HeaderSize + n + CrcSize.

Lemma framed_decodes bs r :
  framed bs -> decodeFrame bs = Some r ->
  match r with inl _ => True | inr e => framing_error (code e) = false end.
Proof.
  intros (Hok & [tl Hmagic] & n & Hr & Hn & Hs) Hdec.
  assert (MinFrameSize <= size bs) as Hmin by (unfold MinFrameSize; lia).
  destruct (frame_split bs Hok Hmin) as (magic & ver & sat & ts & temp & bat & st & len & pay & crc &
    Hp & Hpay & Hcrc & ->).
  destruct (layout_reads _ _ _ _ _ _ _ _ (pay ++ crc) Hp) as (_&_&_&_&_&_&_&Hlen&Hsize).
  rewrite Hlen in Hr. injection Hr as <-. rewrite Hsize, size_app in Hs.
  assert (Hc : size crc = CrcSize) by (unfold size; by rewrite (proj1 Hcrc)).
  rewrite decodeFrame_parts in Hdec by done. injection Hdec as <-. unfold decode_parts.
  assert (of_be magic = FrameMagic) as ->.
  { unfold layout in Hmagic. rewrite magicBytes_be in Hmagic.
    apply app_inj_1 in Hmagic as [-> _]; [|rewrite length_be; apply (parts_magic _ _ _ _ _ _ _ _ Hp)].
    by apply of_be_be. }
  rewrite Z.eqb_refl, gtb_le by lia. cbn [negb].
  replace (HeaderSize + size pay + CrcSize =? HeaderSize + of_be len + CrcSize) with true
    by (symmetry; apply Z.eqb_eq; lia).
  cbn [negb]. break_ifs; done.
Qed.

Lemma framed_turn_framed b e b1 :
  bytes_ok b -> magicBytes `prefix_of` b -> framed_turn b = Some (Again (Some e) b1) -> framed e.
Proof.
  intros Hok Hm Ht. destruct (framed_again _ _ _ Hok Ht) as (Hs & n & Hr & Hn & Hcase).
  destruct Hcase as [(_ & ? & _)|(Hle & Hfit & [= ->] & _)]; [done|].
  unfold fits in Hn. set (k := HeaderSize + n + CrcSize) in *.
  split; [by apply bytes_ok_take|]. split.
  - destruct Hm as [tl ->]. exists (take (Z.to_nat k - 4) tl).
    rewrite take_app_ge; [done|]. change (length magicBytes) with 4%nat.
    subst k. change HeaderSize with 23. change CrcSize with 4. lia.
  - exists n. split_and!; [|lia|done|].
    2: { rewrite size_take. subst k. change HeaderSize with 23 in *. change CrcSize with 4 in *. lia. }
    unfold readU16BE, at_ in *. rewrite !lookup_take_lt; [done|..];
      subst k; unfold size in *; change HeaderSize with 23 in *; change CrcSize with 4;
      change PayloadLengthOffset with 21; lia.
Qed.

Lemma drains_framed b fs b' : bytes_ok b -> drains b fs b' -> Forall framed fs.
Proof.
  intros Hok Hd. induction Hd as [|b e b1 fs b' Ht _ IH]; [constructor|].
  destruct (feed_turn_again _ _ _ Hok Ht) as [_ Hok1]. apply Forall_app. split; [|by apply IH].
  destruct e as [e|]; [|constructor]. apply Forall_singleton.
  destruct (decide (search b magicBytes = length b)) as [Hs|Hs].
  { rewrite feed_turn_nomagic in Ht by done. discriminate Ht. }
  rewrite feed_turn_magic in Ht by done.
  eapply framed_turn_framed; [|by apply search_found|done]. by apply bytes_ok_drop.
Qed.

Lemma drains_bounded b fs b' : bytes_ok b -> drains b fs b' -> size b' < MaxFrameSize.
Proof.
  intros Hok Hd. induction Hd as [b b' Ht|b e b1 fs b' Ht _ IH].
  2: { apply IH. by apply (feed_turn_again b e b1). }
  change MaxFrameSize with 4123. destruct (decide (search b magicBytes = length b)) as [Hs|Hs].
  - rewrite feed_turn_nomagic in Ht by done. simplify_eq. unfold size. rewrite length_drop. lia.
  - rewrite feed_turn_magic in Ht by done. unfold framed_turn in Ht.
    match type of Ht with context [?x <? HeaderSize] => destruct (Z.ltb_spec x HeaderSize) as [Hl|Hl] end;
      [simplify_eq; change HeaderSize with 23 in Hl; lia|].
    destruct (readU16BE _ _) as [n|]; cbn in Ht; [|done].
    destruct (Z.gtb_spec n MaxPayloadSize) as [|Hn]; [done|].
    match type of Ht with context [?x <? ?y] => destruct (Z.ltb_spec x y) as [Hy|Hy] end; [|done].
    simplify_eq. change HeaderSize with 23 in *. change CrcSize with 4 in Hy.
    change MaxPayloadSize with 4096 in Hn. lia.
Qed.

(** ** Encoded frames *)

Lemma encoded_layout f bs :
  encodeFrame f = Ok bs ->
  exists crc, length crc = 4%nat /\ bs = layout (be 4 FrameMagic) (version f) (be 2 (satelliteId f))
    (be 8 (timestampMs f)) (be 4 (temperatureC f)) (batteryPercent f) (status f)
    (be 2 (size (payload f))) (payload f ++ crc).
Proof.
  intros Henc. pose proof (encodeFrame_ok _ _ Henc) as He. rewrite encodeFrame_wire in Henc by done.
  assert (bs = wire f ++ be 4 (crc32 (wire f))) as -> by congruence.
  exists (be 4 (crc32 (wire f))). split; [apply length_be|]. unfold wire at 1. by rewrite layout_app.
Qed.

Lemma encoded_framed_turn f bs rest :
  frame_typed f -> encodeFrame f = Ok bs ->
  framed_turn (bs ++ rest) = Some (Again (Some bs) rest) /\ magicBytes `prefix_of` bs.
Proof.
  intros Hf Henc. pose proof (encodeFrame_ok _ _ Henc) as He.
  apply encodable_spec in He as [Hmax _]. destruct (encoded_layout _ _ Henc) as (crc & Hc & ->).
  split; [|by exists ([version f] ++ be 2 (satelliteId f) ++ be 8 (timestampMs f) ++
    be 4 (temperatureC f) ++ [batteryPercent f] ++ [status f] ++ be 2 (size (payload f)) ++
    payload f ++ crc)].
  rewrite <- layout_app, <- app_assoc. unfold framed_turn.
  pose proof (parts_of_frame f Hf) as Hp.
  destruct (layout_reads _ _ _ _ _ _ _ _ (payload f ++ crc ++ rest) Hp) as (_&_&_&_&_&_&_&->&Hs).
  destruct (layout_reads _ _ _ _ _ _ _ _ (payload f ++ crc) Hp) as (_&_&_&_&_&_&_&_&Hs').
  assert (Hsc : size crc = CrcSize) by (unfold size; by rewrite Hc).
  rewrite (proj2 (Z.ltb_ge _ _)) by (rewrite Hs; size_lia). bind_some.
  rewrite of_be_be by (unfold fits; change MaxPayloadSize with 4096 in Hmax; size_lia).
  rewrite gtb_le by done. rewrite (proj2 (Z.ltb_ge _ _)) by (rewrite Hs; size_lia).
  rewrite (app_assoc (payload f)), layout_app. do 3 f_equal.
  - f_equal. rewrite take_app_length'; [done|]. rewrite size_app, Hsc in Hs'. unfold size in *. lia.
  - rewrite drop_app_length'; [done|]. rewrite size_app, Hsc in Hs'. unfold size in *. lia.
Qed.

Lemma search_encoded noise f bs rest :
  frame_typed f -> encodeFrame f = Ok bs ->
  search (noise ++ magicBytes) magicBytes = length noise ->
  search (noise ++ bs ++ rest) magicBytes = length noise.
Proof.
  intros Hf Henc Hn. destruct (encoded_framed_turn f bs [] Hf Henc) as [_ [tl ->]].
  rewrite <- !app_assoc, app_assoc.
  rewrite search_app_found by (done || rewrite length_app, Hn; cbn; lia). done.
Qed.

Lemma drains_encoded noise f bs rest fs b' :
  frame_typed f -> encodeFrame f = Ok bs ->
  search (noise ++ magicBytes) magicBytes = length noise ->
  drains rest fs b' -> drains (noise ++ bs ++ rest) (bs :: fs) b'.
Proof.
  intros Hf Henc Hn Hd. pose proof (search_encoded noise f bs rest Hf Henc Hn) as Hs.
  destruct (encoded_framed_turn f bs rest Hf Henc) as [Ht [tl Htl]].
  change (bs :: fs) with (option_list (Some bs) ++ fs). eapply drains_again; [|done].
  rewrite feed_turn_magic, Hs, drop_app_length; [done|].
  rewrite Hs, !length_app, Htl, length_app. cbn. lia.
Qed.

Lemma drains_encoded_stream fs encoded :
  Forall2 (fun f bs => frame_typed f /\ encodeFrame f = Ok bs) fs encoded ->
  drains (concat encoded) encoded [].
Proof.
  induction 1 as [|f bs fs encoded [Hf Henc] _ IH]; [by apply drains_return|].
  cbn [concat]. by apply (drains_encoded [] f).
Qed.

(** ** Framed candidates *)

Lemma framed_again_whole bs rest :
  framed bs -> framed_turn (bs ++ rest) = Some (Again (Some bs) rest).
Proof.
  intros (Hok & _ & n & Hr & Hn & Hs). unfold framed_turn.
  rewrite (readU16BE_app _ _ _ _ Hr), size_app. pose proof (size_nonneg rest).
  rewrite (proj2 (Z.ltb_ge _ _)) by (change CrcSize with 4 in *; lia). bind_some.
  rewrite gtb_le by lia. rewrite (proj2 (Z.ltb_ge _ _)), <- Hs by lia.
  unfold size. by rewrite Nat2Z.id, take_app_length, drop_app_length.
Qed.

Lemma drains_framed_stream candidates : Forall framed candidates -> drains (concat candidates) candidates [].
Proof.
  induction 1 as [|bs candidates Hbs _ IH]; [by apply drains_return|]. cbn [concat].
  assert (Hs : search (bs ++ concat candidates) magicBytes = 0%nat).
  { apply search_before; [done| |lia]. rewrite drop_0. apply prefix_app_r. apply Hbs. }
  change (drains (bs ++ concat candidates) (option_list (Some bs) ++ candidates) []). eapply drains_again; [|done].
  rewrite feed_turn_magic, Hs, drop_0; [by apply framed_again_whole|].
  rewrite Hs, length_app. destruct Hbs as (_ & [tl ->] & _). rewrite length_app. cbn. lia.
Qed.

(** A change of an octet keeps the limits where it is neither in the magic nor in the length. *)
Lemma framed_insert bs i b :
  framed bs -> is_byte b -> (4 <= i)%nat -> i <> 21%nat -> i <> 22%nat -> framed (<[i := b]> bs).
Proof.
  intros (Hok & [tl Htl] & n & Hr & Hn & Hs) Hb Hi H21 H22. split; [by apply Forall_insert|]. split.
  - exists (<[(i - 4)%nat := b]> tl). rewrite Htl. by apply insert_app_r_alt.
  - exists n. split_and!; [|lia|lia|unfold size in *; by rewrite length_insert].
    unfold readU16BE, at_ in *. rewrite !list_lookup_insert_ne by (vm_compute; lia). exact Hr.
Qed.

Lemma encoded_is_framed f bs : frame_typed f -> encodeFrame f = Ok bs -> framed bs.
Proof.
  intros Hf Henc. destruct (encoded_framed_turn f bs [] Hf Henc) as [Ht Hm]. rewrite app_nil_r in Ht.
  eapply framed_turn_framed; [by eapply encode_bytes_ok|done|done].
Qed.

(** ** Properties *)

(** C38: [feed] always returns: whatever bytes arrive on the connection, the loop ends, every
    emitted candidate starts with the magic and has the size its header announces, and fewer than
    [MaxFrameSize] bytes stay buffered. *)
Theorem feed_terminates_bounded : forall self bs,
  bytes_ok (buffer_ self) -> bytes_ok bs ->
  exists frames self', feed self bs = Some (frames, self') /\
    Forall framed frames /\ bytes_ok (buffer_ self') /\ bufferedBytes self' < MaxFrameSize.
Proof.
  intros self bs Hb Hbs. destruct (feed_total self bs Hb Hbs) as (fs & self' & Hf & Hd & Hok).
  assert (bytes_ok (buffer_ self ++ bs)) by (by apply bytes_ok_app).
  exists fs, self'. split_and!; [done|by eapply drains_framed|done|by eapply drains_bounded].
Qed.

Lemma feed_terminates_bounded_witness :
  exists frames self', feed {| buffer_ := [83; 84] |} [71; 83; 1; 0] = Some (frames, self') /\
    Forall framed frames /\ bytes_ok (buffer_ self') /\ bufferedBytes self' < MaxFrameSize.
Proof. apply feed_terminates_bounded; decide_now. Defined.

(** A corruption of the length hides the frame behind it. *)
Lemma corrupted_length_hides :
  fst <$> feed new_extractor (<[22%nat := Z.lxor (nth 22 sample_bytes 0) 0x5A]> sample_bytes ++ sample_bytes) = Some [].
Proof. vm_compute. reflexivity. Qed.

(** C4: how the network cuts a TCP stream into fragments is irrelevant: feeding the fragments one
    by one yields the frames and the final buffer that feeding their concatenation yields. *)
Theorem feed_fragmentation_irrelevant : forall self bs fragments,
  bytes_ok (buffer_ self) -> bytes_ok bs -> Forall bytes_ok fragments ->
  feed_all self (bs :: fragments) = feed self (bs ++ concat fragments).
Proof.
  intros self bs fragments Hb Hbs Hfr.
  destruct (feed_all_drains self bs fragments Hb Hbs Hfr) as (fs & self' & -> & Hd).
  symmetry. apply feed_iff; [done|apply bytes_ok_app; split; [done|]|done].
  by apply Forall_concat.
Qed.

Lemma feed_fragmentation_irrelevant_witness :
  feed_all new_extractor [take 9 sample_bytes; drop 9 sample_bytes ++ [1; 83]; [84]]
  = feed new_extractor (take 9 sample_bytes ++ concat [drop 9 sample_bytes ++ [1; 83]; [84]]).
Proof. apply feed_fragmentation_irrelevant; decide_now. Defined.

(** C15: a new connection that receives the concatenation of encoded frames, cut anywhere, emits
    exactly these encodings in order and keeps nothing. *)
Theorem feed_recovers_stream : forall frames encoded bs fragments,
  Forall2 (fun f e => frame_typed f /\ encodeFrame f = Ok e) frames encoded ->
  bs ++ concat fragments = concat encoded -> bytes_ok bs -> Forall bytes_ok fragments ->
  feed_all new_extractor (bs :: fragments) = Some (encoded, new_extractor).
Proof.
  intros frames encoded bs fragments Henc Heq Hbs Hfr.
  destruct (feed_all_drains new_extractor bs fragments) as (fs & [b'] & Hf & Hd); [constructor|done..|].
  cbn [buffer_ new_extractor app] in Hd. rewrite Heq in Hd.
  pose proof (drains_encoded_stream _ _ Henc) as Hd'.
  destruct (drains_det _ _ _ _ _ Hd Hd') as [-> ->]. done.
Qed.

Lemma feed_recovers_stream_witness :
  feed_all new_extractor [take 3 sample_bytes; drop 3 sample_bytes ++ take 20 sample_bytes;
                          drop 20 sample_bytes]
  = Some ([sample_bytes; sample_bytes], new_extractor).
Proof.
  apply (feed_recovers_stream [sample_frame; sample_frame]); [|reflexivity|decide_now|decide_now].
  do 2 (apply Forall2_cons; split; [split; [exact sample_frame_typed|vm_compute; reflexivity]|]).
  constructor.
Defined.

(** After noise that contains no magic, not even one that overlaps the frame, the extractor
    resynchronises: the frame behind the noise is emitted and nothing is kept. *)
Theorem feed_resynchronises : forall noise f encoded,
  bytes_ok noise -> frame_typed f -> encodeFrame f = Ok encoded ->
  search (noise ++ magicBytes) magicBytes = length noise ->
  feed new_extractor (noise ++ encoded) = Some ([encoded], new_extractor).
Proof.
  intros noise f encoded Hn Hf Henc Hs. apply feed_iff.
  - constructor.
  - apply bytes_ok_app. split; [done|]. by apply (encode_bytes_ok f).
  - cbn [buffer_ new_extractor app].
    pose proof (drains_encoded noise f encoded [] [] [] Hf Henc Hs) as Hd.
    rewrite app_nil_r in Hd. by apply Hd, drains_return.
Qed.

Lemma feed_resynchronises_witness :
  feed new_extractor ([83; 84; 83; 84; 71; 0; 255] ++ sample_bytes) = Some ([sample_bytes], new_extractor).
Proof.
  apply (feed_resynchronises _ sample_frame); [decide_now|exact sample_frame_typed|..];
    vm_compute; reflexivity.
Defined.

(** A candidate emitted by the extractor is never rejected by the decoder for a framing
    reason; only its version, its checksum or its field values can be refused. *)
Theorem emitted_frames_are_framed : forall self bs frames self' e,
  bytes_ok (buffer_ self) -> bytes_ok bs -> feed self bs = Some (frames, self') -> e ∈ frames ->
  exists r, decodeFrame e = Some r /\
    match r with inl _ => True | inr err => framing_error (code err) = false end.
Proof.
  intros self bs frames self' e Hb Hbs Hf He.
  assert (bytes_ok (buffer_ self ++ bs)) by (by apply bytes_ok_app).
  apply feed_iff, drains_framed in Hf; [|done..].
  pose proof (proj1 (Forall_forall _ _) Hf e He) as Hfr.
  destruct (decodeFrame_is_Some e) as [r Hr]; [by destruct Hfr|].
  exists r. split; [done|]. by apply (framed_decodes e).
Qed.

Definition corrupted_sample : bytes := <[12%nat := 0]> sample_bytes.

Lemma emitted_frames_are_framed_witness :
  exists r, decodeFrame corrupted_sample = Some r /\
    match r with inl _ => True | inr err => framing_error (code err) = false end.
Proof.
  apply (emitted_frames_are_framed new_extractor corrupted_sample [corrupted_sample] new_extractor);
    [decide_now|decide_now|vm_compute; reflexivity|decide_now].
Defined.
