(* ===== verification/Floats.v ===== *)
(** IEEE-754 arithmetic of the sources' [float] and [double], on the Standard Library's
    executable specification of binary floating point.

    A [float] travels through the model as its 32 bits; [f32] is its value. A [double] is a
    [spec_float] with the parameters of binary64. *)

From S2P Require Import Prelude.
From Stdlib Require Export SpecFloat.

(** ** binary32 *)

Definition prec32 : Z := 24.
Definition emax32 : Z := 128.

(** The value of a bit pattern: sign, eight exponent bits, twenty-three fraction bits. *)
Definition f32 (bits : Z) : spec_float :=
  let s := Z.testbit bits 31 in
  let e := Z.land (Z.shiftr bits 23) 0xFF in
  let m := Z.land bits 0x7FFFFF in
  if e =? 0 then match m with Z.pos p => S754_finite s p (-149) | _ => S754_zero s end
  else if e =? 0xFF then match m with Z.pos _ => S754_nan | _ => S754_infinity s end
  else match m + 0x800000 with Z.pos p => S754_finite s p (e - 150) | _ => S754_nan end.

(** [static_cast<float>(n)] and [n.0F]. *)
Definition f32_of_Z (n : Z) : spec_float := binary_normalize prec32 emax32 n 0 false.

Definition f32_div : spec_float -> spec_float -> spec_float := SFdiv prec32 emax32.

(** ** binary64 *)

Definition prec64 : Z := 53.
Definition emax64 : Z := 1024.

(** [static_cast<double>(n)] and [n.0]. *)
Definition f64_of_Z (n : Z) : spec_float := binary_normalize prec64 emax64 n 0 false.

Definition f64_div : spec_float -> spec_float -> spec_float := SFdiv prec64 emax64.

(** The double nearest to [n / d], as the compiler reads a decimal literal. *)
Definition f64_literal (n d : Z) : spec_float := f64_div (f64_of_Z n) (f64_of_Z d).

(** [std::isfinite]. *)
Definition is_finite (x : spec_float) : bool :=
  match x with S754_zero _ | S754_finite _ _ _ => true | _ => false end.

(** ** Lemmas *)

Lemma SFcompare_swap x y : SFcompare y x = CompOpp <$> SFcompare x y.
Proof.
  destruct x as [s|s| |s m e], y as [s'|s'| |s' m' e']; try done; try by destruct s;
    try by destruct s'; try by destruct s, s'.
  cbn [SFcompare fmap option_fmap option_map].
  destruct s, s'; try done; rewrite (Z.compare_antisym e e'); destruct (e ?= e'); cbn [CompOpp];
    try done; f_equal; fold (Pos.compare m m') (Pos.compare m' m); rewrite (Pos.compare_antisym m m');
    by destruct (Pos.compare m m').
Qed.

(** Two comparable numbers are ordered one way or the other. *)
Lemma SFleb_or_ltb x y : is_finite x = true -> is_finite y = true -> SFleb x y = negb (SFltb y x).
Proof.
  intros Hx Hy. unfold SFleb, SFltb. rewrite (SFcompare_swap x y).
  destruct (SFcompare x y) as [[]|] eqn:E; try done.
  destruct x, y; cbn in E; try done; by repeat case_match.
Qed.

(** The comparison of doubles is transitive. *)
Lemma SFleb_trans_ltb x y z : SFleb x y = true -> SFleb y z = true -> SFltb z x = false.
Proof.
  unfold SFleb, SFltb.
  destruct x as [[]|[]| |[] m1 e1], y as [[]|[]| |[] m2 e2], z as [[]|[]| |[] m3 e3]; cbn; try done;
    destruct (Z.compare_spec e1 e2), (Z.compare_spec e2 e3), (Z.compare_spec e3 e1); subst; try done; try lia;
    change (Pos.compare_cont Eq) with Pos.compare;
    repeat match goal with |- context [Pos.compare ?a ?b] => destruct (Pos.compare_spec a b) end; subst; cbn; try done; lia.
Qed.
