(* ===== verification/ApplicationPayload.v ===== *)
(** The STGA application payloads of [src/ApplicationPayload.cpp]: text messages and signal blocks
    inside the payload of a frame.

    Floats are bit patterns, compared through their IEEE-754 value ([Floats]); a [std::string] is
    the list of its bytes. Decoding is partial like [decodeFrame], and total by
    [payload_decode_total]. *)

From S2P Require Import Prelude ByteUtils Crc32 TextFormat FrameCodec Floats.

Definition ApplicationPayloadMagic : Z := 0x53544741.
Definition ApplicationPayloadVersion : Z := 1.

Definition ApplicationCommonHeaderSize : Z := U32WireSize + U8WireSize + U8WireSize.
Definition TextMessageFixedWireSize : Z := ApplicationCommonHeaderSize + U32WireSize.
Definition SignalBlockFixedWireSize : Z :=
  ApplicationCommonHeaderSize + U16WireSize + Float32WireSize + Float32WireSize + U32WireSize
  + U16WireSize.
Definition SignalSampleWireSize : Z := Float32WireSize.
Definition MaxTextMessageBytes : Z := MaxPayloadSize - TextMessageFixedWireSize.
Definition MaxSignalSamplesPerPayload : Z :=
  (MaxPayloadSize - SignalBlockFixedWireSize) / SignalSampleWireSize.

Definition AppMagicOffset : Z := 0.
Definition AppVersionOffset : Z := AppMagicOffset + U32WireSize.
Definition AppKindOffset : Z := AppVersionOffset + U8WireSize.
Definition TextSequenceOffset : Z := ApplicationCommonHeaderSize.
Definition TextBodyOffset : Z := TextSequenceOffset + U32WireSize.
Definition SignalSampleRateOffset : Z := ApplicationCommonHeaderSize.
Definition SignalFrequencyOffset : Z := SignalSampleRateOffset + U16WireSize.
Definition SignalAmplitudeOffset : Z := SignalFrequencyOffset + Float32WireSize.
Definition SignalStartIndexOffset : Z := SignalAmplitudeOffset + Float32WireSize.
Definition SignalSampleCountOffset : Z := SignalStartIndexOffset + U32WireSize.
Definition SignalSamplesOffset : Z := SignalSampleCountOffset + U16WireSize.

(** ** Data *)

Inductive ApplicationPayloadKind := TextMessage | SignalBlock.

Definition kind_value (k : ApplicationPayloadKind) : Z :=
  match k with TextMessage => 1 | SignalBlock => 2 end.

Record TextMessagePayload := { sequence : Z; text : bytes }.

Record SignalBlockPayload := {
  sampleRateHz : Z;
  frequencyHz : Z;
  nominalAmplitude : Z;
  startSampleIndex : Z;
  samples : list Z
}.

Inductive ApplicationPayloadErrorCode :=
  | TruncatedHeader
  | AppUnsupportedVersion
  | UnknownKind
  | InvalidLength
  | InvalidSignalMetadata.

Record ApplicationPayloadError := makeAppError {
  app_code : ApplicationPayloadErrorCode;
  app_message : string
}.

(** [std::variant<std::monostate, TextMessagePayload, SignalBlockPayload, ApplicationPayloadError>]. *)
Inductive ApplicationPayloadParseResult :=
  | Monostate
  | ParsedText (m : TextMessagePayload)
  | ParsedSignal (s : SignalBlockPayload)
  | ParsedError (e : ApplicationPayloadError).

#[export] Instance ApplicationPayloadErrorCode_eq_dec : EqDecision ApplicationPayloadErrorCode.
Proof. solve_decision. Defined.
#[export] Instance TextMessagePayload_eq_dec : EqDecision TextMessagePayload.
Proof. solve_decision. Defined.
#[export] Instance SignalBlockPayload_eq_dec : EqDecision SignalBlockPayload.
Proof. solve_decision. Defined.

(** What the C++ types guarantee. *)
Definition text_typed (m : TextMessagePayload) : Prop := fits 32 (sequence m) /\ bytes_ok (text m).

Definition signal_typed (s : SignalBlockPayload) : Prop :=
  fits 16 (sampleRateHz s) /\ fits 32 (frequencyHz s) /\ fits 32 (nominalAmplitude s) /\
  fits 32 (startSampleIndex s) /\ Forall (fits 32) (samples s).

(** ** Helpers *)

Definition appendCommonHeader (out : bytes) (kind : ApplicationPayloadKind) : bytes :=
  let out := appendU32BE out ApplicationPayloadMagic in
  let out := appendU8 out ApplicationPayloadVersion in
  appendU8 out (kind_value kind).

Definition hasApplicationMagic (payload : bytes) : option bool :=
  if size payload >=? U32WireSize
  then magic ← readU32BE payload AppMagicOffset; Some (magic =? ApplicationPayloadMagic)
  else Some false.

Definition validSignalMetadata (sampleRateHz frequencyHz nominalAmplitude : Z) : bool :=
  if (sampleRateHz =? 0) || negb (isfinite frequencyHz) || negb (isfinite nominalAmplitude)
  then false
  else
    let nyquistHz := f32_div (f32_of_Z sampleRateHz) (f32_of_Z 2) in
    SFltb (f32_of_Z 0) (f32 frequencyHz) && SFltb (f32 frequencyHz) nyquistHz &&
    SFleb (f32_of_Z 0) (f32 nominalAmplitude).

(** ** Encoding *)

Definition encodeTextMessagePayload (message : TextMessagePayload) : result bytes :=
  throw_if (size (text message) >? MaxTextMessageBytes)
    (invalid_argument "text message exceeds STGS application payload capacity") ;;
  let payload := [] in
  let payload := appendCommonHeader payload TextMessage in
  let payload := appendU32BE payload (sequence message) in
  Ok (payload ++ text message).

Definition appendSamples (payload : bytes) (samples : list Z) : bytes :=
  foldl appendFloatBE payload samples.

Definition encodeSignalBlockPayload (signal : SignalBlockPayload) : result bytes :=
  throw_if (negb (validSignalMetadata (sampleRateHz signal) (frequencyHz signal) (nominalAmplitude signal)))
    (invalid_argument
      "signal metadata requires finite amplitude, sampleRate > 0 and 0 < frequency < Nyquist") ;;
  throw_if ((size (samples signal) >? MaxSignalSamplesPerPayload) || (size (samples signal) >? 65535))
    (invalid_argument "signal block contains too many samples for one STGS payload") ;;
  throw_if (negb (forallb isfinite (samples signal)))
    (invalid_argument "signal samples must all be finite") ;;
  let payload := [] in
  let payload := appendCommonHeader payload SignalBlock in
  let payload := appendU16BE payload (sampleRateHz signal) in
  let payload := appendFloatBE payload (frequencyHz signal) in
  let payload := appendFloatBE payload (nominalAmplitude signal) in
  let payload := appendU32BE payload (startSampleIndex signal) in
  let payload := appendU16BE payload (size (samples signal) mod 2 ^ 16) in
  Ok (appendSamples payload (samples signal)).

(** ** Decoding *)

Definition app_reject (c : ApplicationPayloadErrorCode) (msg : string)
  : option ApplicationPayloadParseResult := Some (ParsedError (makeAppError c msg)).

(** The loop over the samples: the samples read, or [None] inside at the first one that is not
    finite. *)
Fixpoint readSamples (n : nat) (payload : bytes) (i : Z) (acc : list Z) : option (option (list Z)) :=
  match n with
  | O => Some (Some acc)
  | S n =>
      let offset := SignalSamplesOffset + i * SignalSampleWireSize in
      sample ← readFloatBE payload offset;
      if negb (isfinite sample) then Some None
      else readSamples n payload (i + 1) (acc ++ [sample])
  end.

Definition decodeApplicationPayload (payload : bytes) : option ApplicationPayloadParseResult :=
  hasMagic ← hasApplicationMagic payload;
  if negb hasMagic then Some Monostate else
  if size payload <? ApplicationCommonHeaderSize
  then app_reject TruncatedHeader "STGA signature is present but the common header is truncated" else
  version ← at_ payload AppVersionOffset;
  if negb (version =? ApplicationPayloadVersion)
  then app_reject AppUnsupportedVersion "unsupported STGA application payload version" else
  rawKind ← at_ payload AppKindOffset;
  if rawKind =? kind_value TextMessage then
    if size payload <? TextBodyOffset
    then app_reject InvalidLength "text message payload is shorter than its fixed header" else
    seq ← readU32BE payload TextSequenceOffset;
    Some (ParsedText {| sequence := seq;
                        text := subspan payload TextBodyOffset (size payload - TextBodyOffset) |})
  else if rawKind =? kind_value SignalBlock then
    if size payload <? SignalSamplesOffset
    then app_reject InvalidLength "signal payload is shorter than its fixed header" else
    rate ← readU16BE payload SignalSampleRateOffset;
    freq ← readFloatBE payload SignalFrequencyOffset;
    ampl ← readFloatBE payload SignalAmplitudeOffset;
    start ← readU32BE payload SignalStartIndexOffset;
    sampleCount ← readU16BE payload SignalSampleCountOffset;
    let expectedSize := SignalSamplesOffset + sampleCount * SignalSampleWireSize in
    if negb (size payload =? expectedSize)
    then app_reject InvalidLength "signal sample count does not match the payload length" else
    if negb (validSignalMetadata rate freq ampl)
    then app_reject InvalidSignalMetadata
      "signal metadata requires finite amplitude, sampleRate > 0 and 0 < frequency < Nyquist" else
    read ← readSamples (Z.to_nat sampleCount) payload 0 [];
    match read with
    | None => app_reject InvalidSignalMetadata "signal payload contains a non-finite sample"
    | Some samples =>
        Some (ParsedSignal {| sampleRateHz := rate; frequencyHz := freq; nominalAmplitude := ampl;
                              startSampleIndex := start; samples := samples |})
    end
  else app_reject UnknownKind "unknown STGA application payload kind".

Definition applicationPayloadKindToString (kind : Z) : string :=
  if kind =? kind_value TextMessage then "TEXT_MESSAGE"
  else if kind =? kind_value SignalBlock then "SIGNAL_BLOCK" else "UNKNOWN".

Definition applicationPayloadErrorToString (code : ApplicationPayloadErrorCode) : string :=
  match code with
  | TruncatedHeader => "TruncatedHeader"
  | AppUnsupportedVersion => "UnsupportedVersion"
  | UnknownKind => "UnknownKind"
  | InvalidLength => "InvalidLength"
  | InvalidSignalMetadata => "InvalidSignalMetadata"
  end.

(** ** Lists of 32-bit words *)

Definition words (vs : list Z) : bytes := concat (be 4 <$> vs).

Lemma words_ok vs : bytes_ok (words vs).
Proof. apply Forall_concat, Forall_fmap, Forall_true. intros. apply be_ok. Qed.

Lemma size_words vs : size (words vs) = 4 * size vs.
Proof.
  induction vs as [|v vs IH]; [done|]. unfold words in *. cbn [fmap list_fmap concat].
  rewrite size_app, IH, size_be, size_cons. lia.
Qed.

Lemma words_cons v vs : words (v :: vs) = be 4 v ++ words vs.
Proof. done. Qed.

Lemma words_app vs ws : words (vs ++ ws) = words vs ++ words ws.
Proof. unfold words. by rewrite fmap_app, concat_app. Qed.

Lemma appendSamples_words payload vs : appendSamples payload vs = payload ++ words vs.
Proof.
  revert payload. induction vs as [|v vs IH]; intros payload; [by rewrite app_nil_r|].
  cbn [appendSamples foldl]. unfold appendSamples in IH. rewrite IH, appendFloatBE_be.
  by rewrite <- app_assoc.
Qed.

(** Cutting [n] bytes off. *)
Lemma split_at n bs :
  bytes_ok bs -> Z.of_nat n <= size bs ->
  exists a b, (length a = n /\ bytes_ok a) /\ bytes_ok b /\ bs = a ++ b.
Proof.
  intros Hok Hs. exists (take n bs), (drop n bs). rewrite take_drop.
  split_and!; auto with stgs. rewrite length_take. unfold size in Hs. lia.
Qed.

Lemma words_of_bytes n bs :
  bytes_ok bs -> size bs = 4 * Z.of_nat n ->
  exists vs, length vs = n /\ Forall (fits 32) vs /\ bs = words vs.
Proof.
  revert bs. induction n as [|n IH]; intros bs Hok Hs.
  { exists []. split_and!; [done|constructor|]. destruct bs; [done|]. size_lia. }
  destruct (split_at 4 bs Hok) as (a & b & [Ha Hoka] & Hokb & ->); [lia|].
  destruct (IH b Hokb) as (vs & Hl & Hf & ->).
  { rewrite size_app in Hs. unfold size in Hs at 1. rewrite Ha in Hs. lia. }
  exists (of_be a :: vs). split_and!; [cbn; lia| |].
  - apply Forall_cons. split; [|done]. pose proof (of_be_bound a Hoka) as H.
    unfold size in H. by rewrite Ha in H.
  - unfold words. cbn [fmap list_fmap concat]. by rewrite be_of_be_n.
Qed.

(** ** Layout *)

Definition header (ver kind : Z) (rest : bytes) : bytes :=
  be 4 ApplicationPayloadMagic ++ [ver] ++ [kind] ++ rest.

Definition signal_layout (rate freq ampl start count body : bytes) : bytes :=
  header ApplicationPayloadVersion (kind_value SignalBlock)
    (rate ++ freq ++ ampl ++ start ++ count ++ body).

Lemma size_header ver kind rest : size (header ver kind rest) = 6 + size rest.
Proof. unfold header. rewrite !size_app, size_be. size_lia. Qed.

Lemma hasApplicationMagic_header ver kind rest :
  hasApplicationMagic (header ver kind rest) = Some true.
Proof.
  unfold hasApplicationMagic. rewrite size_header, Z.geb_leb, (proj2 (Z.leb_le _ _))
    by (pose proof (size_nonneg rest); unfold U32WireSize; lia).
  rewrite (readU32BE_at _ AppMagicOffset [] (be 4 ApplicationPayloadMagic) ([ver] ++ [kind] ++ rest))
    by (done || by split; [|apply be_ok]).
  by rewrite of_be_be.
Qed.

Lemma hasApplicationMagic_total payload :
  bytes_ok payload ->
  exists b, hasApplicationMagic payload = Some b /\
    (b = true <-> exists rest, payload = be 4 ApplicationPayloadMagic ++ rest).
Proof.
  intros Hok. unfold hasApplicationMagic. rewrite Z.geb_leb.
  destruct (Z.leb_spec U32WireSize (size payload)) as [Hs|Hs].
  - change U32WireSize with (Z.of_nat 4) in Hs.
    destruct (split_at 4 payload Hok Hs) as (a & b & [Ha Hoka] & Hokb & ->).
    rewrite (readU32BE_at _ AppMagicOffset [] a b) by done. bind_some.
    eexists. split; [done|]. rewrite Z.eqb_eq. split.
    + intros Heq. exists b. f_equal. by rewrite <- (be_of_be_n 4 a Ha Hoka), Heq.
    + intros [rest Hrest]. apply app_inj_1 in Hrest as [-> _]; [|by rewrite length_be].
      by apply of_be_be.
  - exists false. split; [done|]. split; [done|]. intros [rest ->].
    unfold U32WireSize in Hs. rewrite size_app, size_be in Hs. size_lia.
Qed.

Lemma header_reads ver kind rest :
  at_ (header ver kind rest) AppVersionOffset = Some ver /\
  at_ (header ver kind rest) AppKindOffset = Some kind.
Proof. by split. Qed.

(** The decoder once the magic is known. *)
Lemma decode_header ver kind rest :
  decodeApplicationPayload (header ver kind rest) =
  (let payload := header ver kind rest in
   if negb (ver =? ApplicationPayloadVersion)
   then app_reject AppUnsupportedVersion "unsupported STGA application payload version"
   else if kind =? kind_value TextMessage then
     if size payload <? TextBodyOffset
     then app_reject InvalidLength "text message payload is shorter than its fixed header" else
     seq ← readU32BE payload TextSequenceOffset;
     Some (ParsedText {| sequence := seq;
                         text := subspan payload TextBodyOffset (size payload - TextBodyOffset) |})
   else if kind =? kind_value SignalBlock then
     if size payload <? SignalSamplesOffset
     then app_reject InvalidLength "signal payload is shorter than its fixed header" else
     rate ← readU16BE payload SignalSampleRateOffset;
     freq ← readFloatBE payload SignalFrequencyOffset;
     ampl ← readFloatBE payload SignalAmplitudeOffset;
     start ← readU32BE payload SignalStartIndexOffset;
     sampleCount ← readU16BE payload SignalSampleCountOffset;
     let expectedSize := SignalSamplesOffset + sampleCount * SignalSampleWireSize in
     if negb (size payload =? expectedSize)
     then app_reject InvalidLength "signal sample count does not match the payload length" else
     if negb (validSignalMetadata rate freq ampl)
     then app_reject InvalidSignalMetadata
       "signal metadata requires finite amplitude, sampleRate > 0 and 0 < frequency < Nyquist" else
     read ← readSamples (Z.to_nat sampleCount) payload 0 [];
     match read with
     | None => app_reject InvalidSignalMetadata "signal payload contains a non-finite sample"
     | Some samples =>
         Some (ParsedSignal {| sampleRateHz := rate; frequencyHz := freq; nominalAmplitude := ampl;
                               startSampleIndex := start; samples := samples |})
     end
   else app_reject UnknownKind "unknown STGA application payload kind").
Proof.
  unfold decodeApplicationPayload. rewrite hasApplicationMagic_header. bind_some. cbn [negb].
  rewrite (proj2 (Z.ltb_ge _ _)) by
    (rewrite size_header; pose proof (size_nonneg rest); change ApplicationCommonHeaderSize with 6; lia).
  destruct (header_reads ver kind rest) as [-> ->]. bind_some. done.
Qed.

Lemma decode_text seq body :
  length seq = 4%nat -> bytes_ok seq ->
  decodeApplicationPayload (header ApplicationPayloadVersion (kind_value TextMessage) (seq ++ body))
  = Some (ParsedText {| sequence := of_be seq; text := body |}).
Proof.
  intros Hl Hok. rewrite decode_header. cbn zeta. rewrite Z.eqb_refl. cbn [negb].
  rewrite Z.eqb_refl, size_header, size_app.
  assert (Hs : size seq = 4) by (unfold size; by rewrite Hl).
  rewrite (proj2 (Z.ltb_ge _ _)) by
    (rewrite Hs; pose proof (size_nonneg body); change TextBodyOffset with 10; lia).
  rewrite (readU32BE_at _ TextSequenceOffset (be 4 ApplicationPayloadMagic ++ [1] ++ [1]) seq body)
    by done.
  bind_some. do 3 f_equal. change TextBodyOffset with 10. rewrite Hs.
  replace (6 + (4 + size body) - 10) with (size body) by lia.
  pose proof (subspan_middle (be 4 ApplicationPayloadMagic ++ [1] ++ [1] ++ seq) body []) as H.
  rewrite app_nil_r, !size_app, Hs in H. change (size (be 4 _) + _) with 10 in H.
  rewrite <- !app_assoc in H. exact H.
Qed.

Lemma readSamples_words pre vs done acc :
  size pre = 22 -> Forall (fits 32) vs ->
  readSamples (length vs) (pre ++ words done ++ words vs) (size done) acc
  = Some (if forallb isfinite vs then Some (acc ++ vs) else None).
Proof.
  intros Hpre Hvs. revert done acc. induction Hvs as [|v vs Hv _ IH]; intros done acc.
  { cbn. by rewrite app_nil_r. }
  cbn [length readSamples forallb].
  assert (Hoff : SignalSamplesOffset + size done * SignalSampleWireSize = size (pre ++ words done)).
  { rewrite size_app, size_words, Hpre. change SignalSamplesOffset with 22.
    change SignalSampleWireSize with 4. lia. }
  rewrite Hoff, app_assoc, words_cons. unfold readFloatBE. rewrite readU32BE_be by done. bind_some.
  destruct (isfinite v); cbn [negb andb]; [|done].
  specialize (IH (done ++ [v]) (acc ++ [v])).
  rewrite size_app, size_cons, size_nil, Z.add_0_r, words_app in IH.
  rewrite words_cons, app_nil_r, <- !app_assoc in IH.
  rewrite <- !app_assoc. exact IH.
Qed.

(** The five fixed fields of a signal block, as byte strings. *)
Record signal_parts (rate freq ampl start count : bytes) : Prop := {
  sp_rate : length rate = 2%nat /\ bytes_ok rate;
  sp_freq : length freq = 4%nat /\ bytes_ok freq;
  sp_ampl : length ampl = 4%nat /\ bytes_ok ampl;
  sp_start : length start = 4%nat /\ bytes_ok start;
  sp_count : length count = 2%nat /\ bytes_ok count
}.

Lemma signal_reads rate freq ampl start count body :
  signal_parts rate freq ampl start count ->
  let L := signal_layout rate freq ampl start count body in
  readU16BE L SignalSampleRateOffset = Some (of_be rate) /\
  readFloatBE L SignalFrequencyOffset = Some (of_be freq) /\
  readFloatBE L SignalAmplitudeOffset = Some (of_be ampl) /\
  readU32BE L SignalStartIndexOffset = Some (of_be start) /\
  readU16BE L SignalSampleCountOffset = Some (of_be count) /\
  size L = SignalSamplesOffset + size body.
Proof.
  intros [Hr Hf Ha Hs Hc]. cbn zeta. unfold signal_layout, header, readFloatBE.
  set (h := be 4 ApplicationPayloadMagic ++ [ApplicationPayloadVersion] ++ [kind_value SignalBlock]).
  split_and!.
  - field_at readU16BE_at h.
  - field_at readU32BE_at (h ++ rate).
  - field_at readU32BE_at (h ++ rate ++ freq).
  - field_at readU32BE_at (h ++ rate ++ freq ++ ampl).
  - field_at readU16BE_at (h ++ rate ++ freq ++ ampl ++ start).
  - unfold size. rewrite !length_app. cbn [length].
    rewrite (proj1 Hr), (proj1 Hf), (proj1 Ha), (proj1 Hs), (proj1 Hc), length_be.
    change SignalSamplesOffset with 22. lia.
Qed.

Lemma decode_signal rate freq ampl start count vs :
  signal_parts rate freq ampl start count -> Forall (fits 32) vs ->
  decodeApplicationPayload (signal_layout rate freq ampl start count (words vs))
  = (if negb (size vs =? of_be count)
     then app_reject InvalidLength "signal sample count does not match the payload length" else
     if negb (validSignalMetadata (of_be rate) (of_be freq) (of_be ampl))
     then app_reject InvalidSignalMetadata
       "signal metadata requires finite amplitude, sampleRate > 0 and 0 < frequency < Nyquist" else
     if forallb isfinite vs
     then Some (ParsedSignal {| sampleRateHz := of_be rate; frequencyHz := of_be freq;
            nominalAmplitude := of_be ampl; startSampleIndex := of_be start; samples := vs |})
     else app_reject InvalidSignalMetadata "signal payload contains a non-finite sample").
Proof.
  intros Hp Hvs. destruct (signal_reads _ _ _ _ _ (words vs) Hp) as (R1 & R2 & R3 & R4 & R5 & Hs).
  unfold signal_layout in *. rewrite decode_header. cbn zeta. rewrite Z.eqb_refl. cbn [negb].
  replace (kind_value SignalBlock =? kind_value TextMessage) with false by done. rewrite Z.eqb_refl.
  rewrite (proj2 (Z.ltb_ge _ _)) by (rewrite Hs; pose proof (size_nonneg (words vs)); lia).
  rewrite R1, R2, R3, R4, R5. bind_some. rewrite Hs, size_words.
  change SignalSampleWireSize with 4.
  replace (SignalSamplesOffset + 4 * size vs =? SignalSamplesOffset + of_be count * 4)
    with (size vs =? of_be count) by (apply eq_true_iff_eq; rewrite !Z.eqb_eq; lia).
  destruct (Z.eqb_spec (size vs) (of_be count)) as [<-|]; cbn [negb]; [|done].
  destruct (negb (validSignalMetadata _ _ _)); [done|].
  pose proof (signal_reads _ _ _ _ _ [] Hp) as (_&_&_&_&_&Hpre). cbn zeta in Hpre.
  pose proof (readSamples_words (signal_layout rate freq ampl start count []) vs [] []) as Hread.
  change (words []) with (@nil Z) in Hread. rewrite !size_nil in Hread.
  assert (Hl : signal_layout rate freq ampl start count [] ++ [] ++ words vs
    = signal_layout rate freq ampl start count (words vs)).
  { unfold signal_layout, header. by rewrite <- !app_assoc. }
  rewrite Hl in Hread. unfold size. rewrite Nat2Z.id. unfold signal_layout in Hread.
  rewrite Hread by done. bind_some. by destruct (forallb isfinite vs).
Qed.

Definition signal_bytes (s : SignalBlockPayload) : bytes :=
  signal_layout (be 2 (sampleRateHz s)) (be 4 (frequencyHz s)) (be 4 (nominalAmplitude s))
    (be 4 (startSampleIndex s)) (be 2 (size (samples s))) (words (samples s)).

Definition text_bytes (m : TextMessagePayload) : bytes :=
  header ApplicationPayloadVersion (kind_value TextMessage) (be 4 (sequence m) ++ text m).

(** The conditions under which [encodeSignalBlockPayload] does not throw. *)
Definition signal_encodable (s : SignalBlockPayload) : bool :=
  validSignalMetadata (sampleRateHz s) (frequencyHz s) (nominalAmplitude s) &&
  (size (samples s) <=? MaxSignalSamplesPerPayload) && forallb isfinite (samples s).

Lemma signal_parts_of s :
  signal_parts (be 2 (sampleRateHz s)) (be 4 (frequencyHz s)) (be 4 (nominalAmplitude s))
    (be 4 (startSampleIndex s)) (be 2 (size (samples s))).
Proof. split; (split; [apply length_be|apply be_ok]). Qed.

Lemma encodeText_bytes m :
  encodeTextMessagePayload m =
  if size (text m) >? MaxTextMessageBytes
  then Throw (invalid_argument "text message exceeds STGS application payload capacity")
  else Ok (text_bytes m).
Proof.
  unfold encodeTextMessagePayload, appendCommonHeader, appendU8, text_bytes, header.
  rewrite !appendU32BE_be, <- !app_assoc. done.
Qed.

Lemma encodeSignal_bytes s :
  signal_encodable s = true -> encodeSignalBlockPayload s = Ok (signal_bytes s).
Proof.
  unfold signal_encodable. intros [[Hm Hl%Z.leb_le]%andb_true_iff Hf]%andb_true_iff.
  change MaxSignalSamplesPerPayload with 1018 in Hl.
  unfold encodeSignalBlockPayload. rewrite Hm, Hf. cbn [negb].
  rewrite !gtb_le by (change MaxSignalSamplesPerPayload with 1018; lia). cbn [orb].
  rewrite Z.mod_small by (pose proof (size_nonneg (samples s)); lia).
  rewrite appendSamples_words. unfold appendCommonHeader, appendU8, appendFloatBE.
  rewrite !appendU32BE_be, !appendU16BE_be, ?appendU32BE_be, <- !app_assoc. done.
Qed.

Lemma encodeSignal_ok s bs : encodeSignalBlockPayload s = Ok bs -> signal_encodable s = true.
Proof.
  unfold encodeSignalBlockPayload, signal_encodable. intros H.
  destruct (validSignalMetadata _ _ _); [|done]. cbn [negb] in H.
  destruct (Z.gtb_spec (size (samples s)) MaxSignalSamplesPerPayload); [done|].
  destruct (size (samples s) >? 65535); [done|]. cbn [orb] in H.
  destruct (forallb isfinite (samples s)); [|done]. rewrite andb_true_r.
  cbn [andb]. apply Z.leb_le. lia.
Qed.

(** Every payload is opaque, truncated, or a header with a body. *)
Lemma payload_cases payload :
  bytes_ok payload ->
  (decodeApplicationPayload payload = Some Monostate /\
     ~ exists rest, payload = be 4 ApplicationPayloadMagic ++ rest) \/
  (decodeApplicationPayload payload
     = app_reject TruncatedHeader "STGA signature is present but the common header is truncated" /\
     exists rest, payload = be 4 ApplicationPayloadMagic ++ rest) \/
  (exists ver kind rest, bytes_ok rest /\ payload = header ver kind rest).
Proof.
  intros Hok. destruct (hasApplicationMagic_total payload Hok) as (b & Hb & Hiff).
  destruct b.
  - destruct (proj1 Hiff eq_refl) as [rest ->]. right.
    apply bytes_ok_app in Hok as [_ Hrest].
    destruct rest as [|ver [|kind rest]]; [left|left|right; exists ver, kind, rest].
    + split; [done|by eexists].
    + split; [|by eexists]. unfold decodeApplicationPayload. rewrite Hb. bind_some. done.
    + by decompose_Forall_hyps.
  - left. split; [unfold decodeApplicationPayload; by rewrite Hb|].
    intros H. by apply Hiff in H.
Qed.

(** The two kinds of bodies. *)
Lemma text_cases rest :
  bytes_ok rest ->
  decodeApplicationPayload (header ApplicationPayloadVersion (kind_value TextMessage) rest)
    = app_reject InvalidLength "text message payload is shorter than its fixed header" \/
  exists seq body, (length seq = 4%nat /\ bytes_ok seq) /\ bytes_ok body /\ rest = seq ++ body.
Proof.
  intros Hok. destruct (Z.ltb_spec (size rest) 4) as [Hs|Hs].
  - left. rewrite decode_header. cbn zeta. rewrite !Z.eqb_refl. cbn [negb].
    rewrite (proj2 (Z.ltb_lt _ _)); [done|]. rewrite size_header. change TextBodyOffset with 10. lia.
  - right. by apply (split_at 4).
Qed.

Lemma signal_cases rest :
  bytes_ok rest ->
  (exists msg, decodeApplicationPayload (header ApplicationPayloadVersion (kind_value SignalBlock) rest)
    = app_reject InvalidLength msg) \/
  exists rate freq ampl start count vs, signal_parts rate freq ampl start count /\
    Forall (fits 32) vs /\ size vs = of_be count /\
    header ApplicationPayloadVersion (kind_value SignalBlock) rest
      = signal_layout rate freq ampl start count (words vs).
Proof.
  intros Hok. destruct (Z.ltb_spec (size rest) 16) as [Hs|Hs].
  { left. eexists. rewrite decode_header. cbn zeta. rewrite !Z.eqb_refl. cbn [negb].
    replace (kind_value SignalBlock =? kind_value TextMessage) with false by done.
    rewrite (proj2 (Z.ltb_lt _ _)); [done|]. rewrite size_header. change SignalSamplesOffset with 22. lia. }
  assert (Hlen : (16 <= length rest)%nat) by (unfold size in Hs; lia).
  destruct (split_at 2 rest Hok) as (rate & r1 & Hrate & Hok1 & ->); [lia|].
  rewrite length_app, (proj1 Hrate) in Hlen.
  destruct (split_at 4 r1 Hok1) as (freq & r2 & Hfreq & Hok2 & ->); [unfold size; lia|].
  rewrite length_app, (proj1 Hfreq) in Hlen.
  destruct (split_at 4 r2 Hok2) as (ampl & r3 & Hampl & Hok3 & ->); [unfold size; lia|].
  rewrite length_app, (proj1 Hampl) in Hlen.
  destruct (split_at 4 r3 Hok3) as (start & r4 & Hstart & Hok4 & ->); [unfold size; lia|].
  rewrite length_app, (proj1 Hstart) in Hlen.
  destruct (split_at 2 r4 Hok4) as (count & body & Hcount & Hbody & ->); [unfold size; lia|].
  assert (Hp : signal_parts rate freq ampl start count) by done.
  destruct (signal_reads _ _ _ _ _ body Hp) as (R1 & R2 & R3 & R4 & R5 & Hsize).
  destruct (decide (size body = of_be count * 4)) as [Heq|Hne].
  - right. assert (0 <= of_be count) by (apply (of_be_bound count), Hcount).
    destruct (words_of_bytes (Z.to_nat (of_be count)) body Hbody) as (vs & Hl & Hvs & ->); [lia|].
    exists rate, freq, ampl, start, count, vs. split_and!; [done..|unfold size; lia|done].
  - left. eexists. unfold signal_layout in *. rewrite decode_header. cbn zeta.
    rewrite !Z.eqb_refl. cbn [negb].
    replace (kind_value SignalBlock =? kind_value TextMessage) with false by done.
    rewrite (proj2 (Z.ltb_ge _ _)) by (rewrite Hsize; pose proof (size_nonneg body); lia).
    rewrite R1, R2, R3, R4, R5. bind_some. rewrite Hsize. change SignalSampleWireSize with 4.
    replace (_ =? _) with false by (symmetry; apply Z.eqb_neq; lia). done.
Qed.

Lemma fits_of_be n bs : length bs = n /\ bytes_ok bs -> fits (8 * Z.of_nat n) (of_be bs).
Proof. intros [<- Hok]. by apply of_be_bound. Qed.

(** ** Properties *)

(** What a payload that is decoded as a signal block is made of. *)
Lemma decoded_signal_parts bs s :
  bytes_ok bs -> decodeApplicationPayload bs = Some (ParsedSignal s) ->
  exists rate freq ampl start count, signal_parts rate freq ampl start count /\
    Forall (fits 32) (samples s) /\ size (samples s) = of_be count /\
    s = {| sampleRateHz := of_be rate; frequencyHz := of_be freq; nominalAmplitude := of_be ampl;
           startSampleIndex := of_be start; samples := samples s |} /\
    validSignalMetadata (of_be rate) (of_be freq) (of_be ampl) = true /\ forallb isfinite (samples s) = true.
Proof.
  intros Hok. destruct (payload_cases bs Hok) as [[-> _]|[[-> _]|(ver & kind & rest & Hrest & ->)]]; [done..|].
  destruct (decide (ver = ApplicationPayloadVersion)) as [->|Hv].
  2: { rewrite decode_header. cbn zeta. rewrite (proj2 (Z.eqb_neq _ _)) by done. done. }
  destruct (decide (kind = kind_value TextMessage)) as [->|Hk1];
    [|destruct (decide (kind = kind_value SignalBlock)) as [->|Hk2]].
  - destruct (text_cases rest Hrest) as [->|(seq & body & [Hl Hseq] & Hbody & ->)]; [done|].
    rewrite decode_text by done. done.
  - destruct (signal_cases rest Hrest) as [[msg ->]|(rate & freq & ampl & start & count & vs &
      Hp & Hvs & Hcount & ->)]; [done|].
    rewrite decode_signal by done. rewrite (proj2 (Z.eqb_eq _ _) Hcount). cbn [negb].
    destruct (validSignalMetadata _ _ _) eqn:Hm; [|done]. cbn [negb].
    destruct (forallb isfinite vs) eqn:Hf; [|done]. intros [= <-]. by exists rate, freq, ampl, start, count.
  - rewrite decode_header. cbn zeta. rewrite Z.eqb_refl, !(proj2 (Z.eqb_neq _ _)) by done. done.
Qed.

(** What is known of a signal block the decoder returns. *)
Lemma decoded_signal bs s :
  bytes_ok bs -> decodeApplicationPayload bs = Some (ParsedSignal s) ->
  fits 16 (sampleRateHz s) /\ fits 32 (startSampleIndex s) /\
  Forall (fits 32) (frequencyHz s :: samples s) /\
  validSignalMetadata (sampleRateHz s) (frequencyHz s) (nominalAmplitude s) = true /\
  forallb isfinite (samples s) = true.
Proof.
  intros Hok Hd. destruct (decoded_signal_parts bs s Hok Hd) as (rate & freq & ampl & start & count & Hp & Hvs & _ & -> & Hm & Hf).
  cbn [sampleRateHz frequencyHz nominalAmplitude startSampleIndex samples].
  destruct Hp as [H1 H2 H3 H4 H5]. apply fits_of_be in H1, H2, H4. split_and!; try done. by constructor.
Qed.

(** Its samples are counted on sixteen bits. *)
Lemma decoded_signal_size bs s :
  bytes_ok bs -> decodeApplicationPayload bs = Some (ParsedSignal s) -> size (samples s) < 2 ^ 16.
Proof.
  intros Hok Hd. destruct (decoded_signal_parts bs s Hok Hd) as (rate & freq & ampl & start & count & Hp & _ & -> & _).
  destruct Hp as [_ _ _ _ H5]. apply fits_of_be in H5. unfold fits in H5. lia.
Qed.

Definition sample_text : TextMessagePayload := {| sequence := 7; text := [72; 105; 0; 255] |}.

(** A text message that fits in a frame survives the transport: decoding its payload gives
    back the sequence number and every byte of the text. *)
Theorem text_payload_round_trip : forall m,
  text_typed m -> size (text m) <= MaxTextMessageBytes ->
  exists bs, encodeTextMessagePayload m = Ok bs /\
    decodeApplicationPayload bs = Some (ParsedText m) /\ size bs <= MaxPayloadSize.
Proof.
  intros m [Hseq Htext] Hs. exists (text_bytes m). rewrite encodeText_bytes, gtb_le by done.
  split; [done|]. unfold text_bytes. split.
  - rewrite decode_text by (apply length_be || apply be_ok). rewrite of_be_be by done. by destruct m.
  - rewrite size_header, size_app, size_be. unfold MaxTextMessageBytes in Hs.
    change TextMessageFixedWireSize with 10 in Hs. lia.
Qed.

Lemma text_payload_round_trip_witness :
  exists bs, encodeTextMessagePayload sample_text = Ok bs /\
    decodeApplicationPayload bs = Some (ParsedText sample_text) /\ size bs <= MaxPayloadSize.
Proof. apply text_payload_round_trip; [split; unfold fits; decide_now|decide_now]. Defined.

(** Four samples at 1000 Hz of a 50 Hz sine of amplitude 1. *)
Definition sample_signal : SignalBlockPayload :=
  {| sampleRateHz := 1000; frequencyHz := 0x42480000; nominalAmplitude := 0x3F800000;
     startSampleIndex := 96; samples := [0; 0x3E9E377A; 0x3F167918; 0x3F4F1BBD] |}.

(** A signal block accepted by the encoder survives the transport: metadata and samples are
    decoded bit for bit. *)
Theorem signal_payload_round_trip : forall s,
  signal_typed s -> signal_encodable s = true ->
  exists bs, encodeSignalBlockPayload s = Ok bs /\
    decodeApplicationPayload bs = Some (ParsedSignal s) /\ size bs <= MaxPayloadSize.
Proof.
  intros s (H1 & H2 & H3 & H4 & H5) He. exists (signal_bytes s).
  split; [by apply encodeSignal_bytes|]. pose proof (signal_parts_of s) as Hp.
  unfold signal_encodable in He. apply andb_true_iff in He as [[Hm Hl%Z.leb_le]%andb_true_iff Hf].
  change MaxSignalSamplesPerPayload with 1018 in Hl. pose proof (size_nonneg (samples s)).
  split.
  - unfold signal_bytes. rewrite decode_signal by done.
    rewrite !of_be_be by (done || unfold fits; lia).
    rewrite Z.eqb_refl, Hm, Hf. cbn [negb]. by destruct s.
  - unfold signal_bytes. destruct (signal_reads _ _ _ _ _ (words (samples s)) Hp) as (_&_&_&_&_&->).
    rewrite size_words. change SignalSamplesOffset with 22. change MaxPayloadSize with 4096. lia.
Qed.

Lemma signal_payload_round_trip_witness :
  exists bs, encodeSignalBlockPayload sample_signal = Ok bs /\
    decodeApplicationPayload bs = Some (ParsedSignal sample_signal) /\ size bs <= MaxPayloadSize.
Proof.
  apply signal_payload_round_trip; [unfold signal_typed, fits; decide_now|vm_compute; reflexivity].
Defined.

(** C25: inside a frame, a payload decoded as a message or as a signal is the one the matching
    encoder writes for that value: the application format has no second representation. *)
Theorem payload_canonical : forall bs,
  bytes_ok bs -> size bs <= MaxPayloadSize ->
  (forall m, decodeApplicationPayload bs = Some (ParsedText m) -> encodeTextMessagePayload m = Ok bs) /\
  (forall s, decodeApplicationPayload bs = Some (ParsedSignal s) -> encodeSignalBlockPayload s = Ok bs).
Proof.
  intros bs Hok Hmax.
  destruct (payload_cases bs Hok) as [[-> _]|[[-> _]|(ver & kind & rest & Hrest & ->)]]; [done..|].
  destruct (decide (ver = ApplicationPayloadVersion)) as [->|Hv].
  2: { rewrite decode_header. cbn zeta. rewrite (proj2 (Z.eqb_neq _ _)) by done. done. }
  destruct (decide (kind = kind_value TextMessage)) as [->|Hk1];
    [|destruct (decide (kind = kind_value SignalBlock)) as [->|Hk2]].
  - destruct (text_cases rest Hrest) as [->|(seq & body & [Hl Hseq] & Hbody & ->)]; [done|].
    rewrite decode_text by done. split; [|done]. intros m [= <-]. rewrite encodeText_bytes.
    cbn [text]. rewrite gtb_le.
    + unfold text_bytes. cbn [sequence text]. by rewrite be_of_be_n.
    + unfold MaxTextMessageBytes. rewrite size_header, size_app in Hmax. unfold size in Hmax at 1.
      rewrite Hl in Hmax. change TextMessageFixedWireSize with 10. lia.
  - destruct (signal_cases rest Hrest) as [[msg ->]|(rate & freq & ampl & start & count & vs &
      Hp & Hvs & Hcount & Heq)]; [done|]. rewrite Heq in Hmax |- *.
    destruct (signal_reads _ _ _ _ _ (words vs) Hp) as (_&_&_&_&_&Hsize).
    rewrite decode_signal, (proj2 (Z.eqb_eq _ _) Hcount) by done. cbn [negb].
    destruct (validSignalMetadata _ _ _) eqn:Hm; [|done]. cbn [negb].
    destruct (forallb isfinite vs) eqn:Hf; [|done]. split; [done|]. intros s [= <-].
    rewrite encodeSignal_bytes.
    + unfold signal_bytes. cbn [sampleRateHz frequencyHz nominalAmplitude startSampleIndex samples].
      rewrite Hcount. destruct Hp as [[??] [??] [??] [??] [??]]. by rewrite !be_of_be_n.
    + unfold signal_encodable. cbn [sampleRateHz frequencyHz nominalAmplitude samples].
      rewrite Hm, Hf, andb_true_r. apply Z.leb_le. rewrite Hsize, size_words in Hmax.
      change SignalSamplesOffset with 22 in Hmax. change MaxPayloadSize with 4096 in Hmax.
      change MaxSignalSamplesPerPayload with 1018. lia.
  - rewrite decode_header. cbn zeta. rewrite Z.eqb_refl, !(proj2 (Z.eqb_neq _ _)) by done. done.
Qed.

Definition sample_text_bytes : bytes := text_bytes sample_text.

Lemma payload_canonical_witness :
  encodeTextMessagePayload sample_text = Ok sample_text_bytes.
Proof.
  apply (payload_canonical sample_text_bytes); [decide_now|decide_now|vm_compute; reflexivity].
Defined.

(** The application decoder never reads outside of the payload, and a payload is left opaque
    exactly when it does not start with the STGA magic. *)
Theorem payload_decode_total : forall bs,
  bytes_ok bs ->
  exists r, decodeApplicationPayload bs = Some r /\
    (r = Monostate <-> ~ exists rest, bs = be 4 ApplicationPayloadMagic ++ rest).
Proof.
  intros bs Hok. destruct (payload_cases bs Hok) as [[-> Hno]|[[-> Hyes]|(ver & kind & rest & Hrest & ->)]].
  - exists Monostate. by split.
  - eexists. split; [done|]. split; [done|]. intros H. by destruct H.
  - assert (Hm : ~ ~ exists rest', header ver kind rest = be 4 ApplicationPayloadMagic ++ rest').
    { intros H. apply H. by eexists. }
    enough (exists r, decodeApplicationPayload (header ver kind rest) = Some r /\ r <> Monostate)
      as (r & Hr & Hne) by (exists r; split; [done|tauto]).
    destruct (decide (ver = ApplicationPayloadVersion)) as [->|Hv].
    2: { rewrite decode_header. cbn zeta. rewrite (proj2 (Z.eqb_neq _ _)) by done. by eexists. }
    destruct (decide (kind = kind_value TextMessage)) as [->|Hk1];
      [|destruct (decide (kind = kind_value SignalBlock)) as [->|Hk2]].
    + destruct (text_cases rest Hrest) as [->|(seq & body & [Hl Hseq] & Hbody & ->)]; [by eexists|].
      rewrite decode_text by done. by eexists.
    + destruct (signal_cases rest Hrest) as [[msg ->]|(? & ? & ? & ? & ? & vs & Hp & Hvs & _ & ->)];
        [by eexists|].
      rewrite decode_signal by done. break_ifs; by eexists.
    + rewrite decode_header. cbn zeta. rewrite Z.eqb_refl, !(proj2 (Z.eqb_neq _ _)) by done. by eexists.
Qed.

Lemma payload_decode_total_witness :
  exists r, decodeApplicationPayload [83; 84; 71; 65; 1] = Some r /\
    (r = Monostate <-> ~ exists rest, [83; 84; 71; 65; 1] = be 4 ApplicationPayloadMagic ++ rest).
Proof. apply payload_decode_total. decide_now. Defined.
