(* ===== verification/Replay.v ===== *)
(** The STGF replay files of [src/Replay.cpp]: [FrameFileWriter] and [FrameFileReader].

    The standard streams are modelled as far as the source uses them: [ofstream] hands each write
    to a device, which is a parameter (the disk), [ifstream] keeps the unread bytes with its
    [eofbit] and [failbit]. *)

From S2P Require Import Prelude ByteUtils Crc32 TextFormat FrameCodec.

Definition ReplayMagic : bytes := [83; 84; 71; 70].
Definition ReplayFormatVersion : Z := 1.
Definition ReplayLengthFieldSize : Z := U32WireSize.

Definition makeFileHeader : bytes := appendU32BE ReplayMagic ReplayFormatVersion.
Definition FileHeader : bytes := makeFileHeader.

(** ** Writing *)

(** The contents of the file so far and whether the stream is still good. *)
Record ofstream := { written : bytes; good : bool }.

Section Writer.

(** What the device does of a write to a file with some contents: its new contents, and whether
    the write succeeded. *)
Variable device : bytes -> bytes -> bytes * bool.

(** A write on a stream that is not good does nothing. *)
Definition ostream_write (out : ofstream) (data : bytes) : ofstream :=
  if good out
  then let '(contents, ok) := device (written out) data in {| written := contents; good := ok |}
  else out.

(** The constructor: [opened] is whether the file could be opened and truncated. *)
Definition FrameFileWriter (path : string) (opened : bool) : result ofstream :=
  throw_if (negb opened) (runtime_error ("failed to open replay output file: " +:+ path)) ;;
  let out := ostream_write {| written := []; good := true |} FileHeader in
  throw_if (negb (good out)) (runtime_error "failed while writing STGF replay header") ;;
  Ok out.

(** The stream changes even when an exception is thrown. *)
Definition writeFrame (out : ofstream) (frameBytes : bytes) : ofstream * result unit :=
  if (size frameBytes <? MinFrameSize) || (size frameBytes >? MaxFrameSize)
  then (out, Throw (runtime_error "refusing to write replay frame outside STGS frame size bounds"))
  else
    let length := appendU32BE [] (size frameBytes mod 2 ^ 32) in
    let out := ostream_write out length in
    let out := ostream_write out frameBytes in
    if negb (good out) then (out, Throw (runtime_error "failed while writing replay frame"))
    else (out, Ok tt).

(** [flush]: [flushed] is whether the device could take what the stream still buffered. *)
Definition flush (out : ofstream) (flushed : bool) : ofstream * result unit :=
  let out := {| written := written out; good := good out && flushed |} in
  if negb (good out) then (out, Throw (runtime_error "failed while flushing replay file"))
  else (out, Ok tt).

(** Writing the frames of a capture in order, up to the first exception. *)
Fixpoint writeFrames (out : ofstream) (frames : list bytes) : ofstream * result unit :=
  match frames with
  | [] => (out, Ok tt)
  | f :: frames =>
      let '(out, r) := writeFrame out f in
      match r with
      | Ok _ => writeFrames out frames
      | Throw e => (out, Throw e)
      end
  end.

End Writer.

(** ** Reading *)

Record ifstream := { unread : bytes; eofbit : bool; failbit : bool }.

(** [in.read(data, n)]: the bytes extracted ([gcount] is their number) and the new state. A
    stream that is not good extracts nothing; reaching the end sets both bits. *)
Definition istream_read (s : ifstream) (n : Z) : bytes * ifstream :=
  if eofbit s || failbit s
  then ([], {| unread := unread s; eofbit := eofbit s; failbit := true |})
  else if n <=? size (unread s)
  then (take (Z.to_nat n) (unread s),
        {| unread := drop (Z.to_nat n) (unread s); eofbit := false; failbit := false |})
  else (unread s, {| unread := []; eofbit := true; failbit := true |}).

Definition readExact (s : ifstream) (n : Z) : ifstream * result bytes :=
  let '(data, s) := istream_read s n in
  if negb (size data =? n) then (s, Throw (runtime_error "unexpected end of replay file"))
  else (s, Ok data).

(** The constructor; [contents] is [None] when the file cannot be opened. *)
Definition FrameFileReader (path : string) (contents : option bytes) : result ifstream :=
  match contents with
  | None => Throw (runtime_error ("failed to open replay input file: " +:+ path))
  | Some contents =>
      let '(s, header) :=
        readExact {| unread := contents; eofbit := false; failbit := false |} (size FileHeader) in
      header ← header;
      throw_if (negb (bool_decide (header = FileHeader)))
        (runtime_error "invalid or unsupported STGF replay file header") ;;
      Ok s
  end.

Definition readNext (s : ifstream) : ifstream * result (option bytes) :=
  let '(lengthBytes, s) := istream_read s ReplayLengthFieldSize in
  let bytesRead := size lengthBytes in
  if (bytesRead =? 0) && eofbit s then (s, Ok None)
  else if negb (bytesRead =? ReplayLengthFieldSize)
  then (s, Throw (runtime_error "truncated frame length in replay file"))
  else match readU32BE lengthBytes 0 with
       | None => (s, Ok None) (* not reached: the array has its four bytes *)
       | Some length =>
           if (length <? MinFrameSize) || (length >? MaxFrameSize)
           then (s, Throw (runtime_error "invalid replay frame length"))
           else let '(s, frame) := readExact s length in
                match frame with
                | Ok frame => (s, Ok (Some frame))
                | Throw e => (s, Throw e)
                end
       end.

(** The loop of [receiveReplay]: the frames read, and how it ended. [None] when the fuel runs
    out, which [readAll_total] excludes. *)
Fixpoint readAll (fuel : nat) (s : ifstream) : option (list bytes * result unit) :=
  match fuel with
  | O => None
  | S fuel =>
      match readNext s with
      | (_, Ok None) => Some ([], Ok tt)
      | (_, Throw e) => Some ([], Throw e)
      | (s, Ok (Some frame)) => '(frames, e) ← readAll fuel s; Some (frame :: frames, e)
      end
  end.

(** Reading a whole file. *)
Definition readFile (path : string) (contents : bytes) : option (list bytes * result unit) :=
  match FrameFileReader path (Some contents) with
  | Throw e => Some ([], Throw e)
  | Ok s => readAll (S (length contents)) s
  end.

(** ** Entries *)

(** A frame as it is stored: its length, then its bytes. *)
Definition entry (frame : bytes) : bytes := be 4 (size frame) ++ frame.

Definition frame_bounds (frame : bytes) : Prop :=
  bytes_ok frame /\ MinFrameSize <= size frame <= MaxFrameSize.

#[export] Instance frame_bounds_dec frame : Decision (frame_bounds frame).
Proof. unfold frame_bounds. apply _. Defined.

(** A device that stores everything it is given. *)
Definition healthy (contents data : bytes) : bytes * bool := (contents ++ data, true).

Definition reading (rest : bytes) : ifstream := {| unread := rest; eofbit := false; failbit := false |}.

Lemma istream_read_prefix a rest n :
  size a = n -> istream_read (reading (a ++ rest)) n = (a, reading rest).
Proof.
  intros <-. unfold istream_read. cbn [eofbit failbit unread reading orb].
  rewrite (proj2 (Z.leb_le _ _)) by size_lia. unfold size. rewrite Nat2Z.id.
  by rewrite take_app_length, drop_app_length.
Qed.

Lemma istream_read_short rest n :
  size rest < n ->
  istream_read (reading rest) n = (rest, {| unread := []; eofbit := true; failbit := true |}).
Proof.
  intros H. unfold istream_read. cbn [eofbit failbit unread reading orb].
  by rewrite (proj2 (Z.leb_gt _ _)).
Qed.

Lemma readExact_prefix a rest n : size a = n -> readExact (reading (a ++ rest)) n = (reading rest, Ok a).
Proof.
  intros Ha. unfold readExact. rewrite istream_read_prefix by done.
  by rewrite Ha, Z.eqb_refl.
Qed.

Lemma readExact_short rest n :
  size rest < n ->
  exists s, readExact (reading rest) n = (s, Throw (runtime_error "unexpected end of replay file")).
Proof.
  intros H. unfold readExact. rewrite istream_read_short by done.
  rewrite (proj2 (Z.eqb_neq _ _)) by lia. by eexists.
Qed.

Lemma FrameFileReader_header path rest :
  FrameFileReader path (Some (FileHeader ++ rest)) = Ok (reading rest).
Proof.
  unfold FrameFileReader. fold (reading (FileHeader ++ rest)).
  rewrite readExact_prefix by done. bind_some. by rewrite bool_decide_eq_true_2.
Qed.

Lemma readNext_entry frame rest :
  frame_bounds frame -> readNext (reading (entry frame ++ rest)) = (reading rest, Ok (Some frame)).
Proof.
  intros [Hok [Hmin Hmax]]. unfold readNext, entry. rewrite <- app_assoc.
  rewrite istream_read_prefix by (by rewrite size_be). rewrite size_be.
  change (Z.of_nat 4 =? 0) with false. change (Z.of_nat 4 =? ReplayLengthFieldSize) with true.
  cbn [andb negb]. change MinFrameSize with 27 in *. change MaxFrameSize with 4123 in *.
  rewrite (readU32BE_at (be 4 (size frame)) 0 [] (be 4 (size frame)) [])
    by (rewrite ?app_nil_r; (done || (split; [apply length_be|apply be_ok]))).
  rewrite of_be_be by (unfold fits; lia).
  rewrite (proj2 (Z.ltb_ge _ _)), gtb_le by lia. cbn [orb].
  by rewrite readExact_prefix.
Qed.

Lemma readNext_end : exists s, readNext (reading []) = (s, Ok None).
Proof. by eexists. Qed.

(** Cutting an entry anywhere inside it makes the reader throw. *)
Lemma readNext_truncated frame part rest :
  frame_bounds frame -> entry frame = part ++ rest -> part <> [] -> rest <> [] ->
  exists s msg, readNext (reading part) = (s, Throw (runtime_error msg)).
Proof.
  intros [Hok [Hmin Hmax]] Hcut Hpart Hrest. unfold readNext.
  change MinFrameSize with 27 in *. change MaxFrameSize with 4123 in *.
  destruct (Z.ltb_spec (size part) ReplayLengthFieldSize) as [Hs|Hs].
  - rewrite istream_read_short by done.
    rewrite (proj2 (Z.eqb_neq _ 0)) by (destruct part; [done|size_lia]). cbn [andb].
    rewrite (proj2 (Z.eqb_neq _ _)) by lia. cbn [negb]. by eexists _, _.
  - unfold ReplayLengthFieldSize, U32WireSize in Hs.
    assert (Hpre : exists p, part = be 4 (size frame) ++ p).
    { exists (drop 4 part). rewrite <- (take_drop 4 part) at 1. f_equal.
      apply (f_equal (take 4)) in Hcut. unfold entry in Hcut.
      rewrite take_app_length', take_app_le in Hcut by (rewrite ?length_be; unfold size in Hs; lia).
      by symmetry. }
    destruct Hpre as [p ->]. unfold entry in Hcut. rewrite <- app_assoc in Hcut.
    apply app_inv_head in Hcut.
    rewrite istream_read_prefix by (by rewrite size_be). rewrite size_be.
    change (Z.of_nat 4 =? 0) with false. change (Z.of_nat 4 =? ReplayLengthFieldSize) with true.
    cbn [andb negb].
    rewrite (readU32BE_at (be 4 (size frame)) 0 [] (be 4 (size frame)) [])
      by (rewrite ?app_nil_r; (done || (split; [apply length_be|apply be_ok]))).
    rewrite of_be_be by (unfold fits; lia).
    rewrite (proj2 (Z.ltb_ge _ _)), gtb_le by lia. cbn [orb].
    destruct (readExact_short p (size frame)) as [s ->]; [|by eexists _, _].
    rewrite Hcut, size_app. destruct rest; [done|]. size_lia.
Qed.

(** ** Whole files *)

Lemma entry_nonempty frame : entry frame <> [].
Proof. intros H. apply (f_equal size) in H. unfold entry in H. rewrite size_app, size_be in H. size_lia. Qed.

Lemma length_entry frame : (0 < length (entry frame))%nat.
Proof. pose proof (entry_nonempty frame). destruct (entry frame); [done|cbn; lia]. Qed.

(** Reading the entries of [frames], then whatever follows. *)
Lemma readAll_entries frames rest fuel :
  Forall frame_bounds frames ->
  readAll (length frames + fuel) (reading (concat (entry <$> frames) ++ rest)) =
  ('(more, e) ← readAll fuel (reading rest); Some (frames ++ more, e)).
Proof.
  induction 1 as [|f frames Hf _ IH]; cbn [length Nat.add fmap list_fmap concat app].
  { destruct (readAll fuel _) as [[? ?]|]; done. }
  cbn [readAll]. rewrite <- app_assoc, readNext_entry by done. rewrite IH.
  destruct (readAll fuel _) as [[? ?]|]; done.
Qed.

Lemma length_entries frames : (length frames <= length (concat (entry <$> frames)))%nat.
Proof.
  induction frames as [|f frames IH]; cbn [fmap list_fmap concat length]; [lia|].
  rewrite length_app. pose proof (length_entry f). lia.
Qed.

Lemma readFile_entries path frames rest e :
  Forall frame_bounds frames ->
  (forall fuel, (length rest < fuel)%nat -> readAll fuel (reading rest) = Some ([], e)) ->
  readFile path (FileHeader ++ concat (entry <$> frames) ++ rest) = Some (frames, e).
Proof.
  intros Hf Hrest. unfold readFile. rewrite FrameFileReader_header.
  pose proof (length_entries frames). set (n := S _).
  replace n with (length frames + (n - length frames))%nat
    by (subst n; rewrite !length_app; lia).
  rewrite readAll_entries, Hrest by (done || (subst n; rewrite !length_app; lia)).
  simpl. by rewrite app_nil_r.
Qed.

Lemma writeFrame_healthy c frame :
  frame_bounds frame ->
  writeFrame healthy {| written := c; good := true |} frame
  = ({| written := c ++ entry frame; good := true |}, Ok tt).
Proof.
  intros [Hok [Hmin Hmax]]. unfold writeFrame.
  rewrite (proj2 (Z.ltb_ge _ _)), gtb_le by lia. cbn [orb].
  change MaxFrameSize with 4123 in Hmax. pose proof (size_nonneg frame).
  rewrite Z.mod_small, appendU32BE_be by lia. unfold ostream_write, healthy. cbn.
  by rewrite <- app_assoc.
Qed.

Lemma writeFrames_healthy c frames :
  Forall frame_bounds frames ->
  writeFrames healthy {| written := c; good := true |} frames
  = ({| written := c ++ concat (entry <$> frames); good := true |}, Ok tt).
Proof.
  intros Hf. revert c. induction Hf as [|f frames Hf _ IH]; intros c.
  { cbn. by rewrite app_nil_r. }
  cbn [writeFrames]. rewrite writeFrame_healthy by done. cbn beta iota.
  rewrite IH. cbn [fmap list_fmap concat]. by rewrite <- app_assoc.
Qed.

Lemma istream_read_rest s n data s' :
  istream_read s n = (data, s') -> (length (unread s') <= length (unread s))%nat /\
  (data <> [] -> length (unread s') < length (unread s))%nat.
Proof.
  unfold istream_read. destruct (_ || _); [intros [= <- <-]; cbn; split; [lia|done]|].
  destruct (Z.leb_spec n (size (unread s))); intros [= <- <-]; cbn; rewrite ?length_drop.
  - split; [lia|]. intros Hne. assert (Z.to_nat n <> 0%nat) by (intros H0; rewrite H0 in Hne; done).
    unfold size in *. lia.
  - split; [lia|]. destruct (unread s); [done|cbn; lia].
Qed.

Lemma bytes_ok_istream_read s n data s' :
  istream_read s n = (data, s') -> bytes_ok (unread s) -> bytes_ok data /\ bytes_ok (unread s').
Proof.
  unfold istream_read. intros H Hok. destruct (_ || _); [simplify_eq; by split; [constructor|]|].
  destruct (_ <=? _); simplify_eq; cbn; auto with stgs.
Qed.

Lemma readNext_frame s s' frame :
  bytes_ok (unread s) -> readNext s = (s', Ok (Some frame)) ->
  frame_bounds frame /\ bytes_ok (unread s') /\ (length (unread s') < length (unread s))%nat.
Proof.
  intros Hok. unfold readNext, readExact.
  destruct (istream_read s ReplayLengthFieldSize) as [lb s1] eqn:R1.
  destruct (bytes_ok_istream_read _ _ _ _ R1 Hok) as [Hlb Hok1].
  destruct (istream_read_rest _ _ _ _ R1) as [Hle Hlt].
  destruct ((size lb =? 0) && eofbit s1); [done|].
  destruct (Z.eqb_spec (size lb) ReplayLengthFieldSize) as [Hs|]; [|done]. cbn [negb].
  destruct (readU32BE lb 0) as [len|]; [|done].
  destruct (Z.ltb_spec len MinFrameSize); [done|].
  destruct (Z.gtb_spec len MaxFrameSize); [done|]. cbn [orb].
  destruct (istream_read s1 len) as [fr s2] eqn:R2.
  destruct (bytes_ok_istream_read _ _ _ _ R2 Hok1) as [Hfr Hok2].
  destruct (istream_read_rest _ _ _ _ R2) as [Hle2 _].
  destruct (Z.eqb_spec (size fr) len) as [Hl|]; [|done]. cbn [negb]. intros [= <- <-].
  split; [by split; [|lia]|]. split; [done|].
  assert (Hne : lb <> []) by (intros ->; done).
  specialize (Hlt Hne). lia.
Qed.

Lemma readAll_total fuel s :
  bytes_ok (unread s) -> (length (unread s) < fuel)%nat ->
  exists frames e, readAll fuel s = Some (frames, e) /\ Forall frame_bounds frames.
Proof.
  revert s. induction fuel as [|fuel IH]; intros s Hok Hf; [lia|].
  cbn [readAll]. destruct (readNext s) as [s' [[frame|]|e]] eqn:Hr; [|by eexists _, _..].
  destruct (readNext_frame _ _ _ Hok Hr) as (Hb & Hok' & Hlt).
  destruct (IH s' Hok') as (frames & e & -> & Hall); [lia|].
  exists (frame :: frames), e. by split; [|constructor].
Qed.

(** ** Properties *)

Definition replay_frames : list bytes := [replicate 27 0; replicate 40 255].

(** C24: a capture written to a disk that does not fail is read back frame for frame, and reading
    it ends normally. *)
Theorem replay_round_trip : forall path frames,
  Forall frame_bounds frames ->
  exists out, FrameFileWriter healthy path true = Ok out /\
    exists out', writeFrames healthy out frames = (out', Ok tt) /\
      readFile path (written out') = Some (frames, Ok tt).
Proof.
  intros path frames Hf. eexists. split; [done|]. eexists.
  split; [by apply writeFrames_healthy|]. cbn [written].
  rewrite <- (app_nil_r (concat _)). apply readFile_entries; [done|].
  intros [|fuel] Hfuel; [cbn in Hfuel; lia|]. done.
Qed.

Lemma replay_round_trip_witness :
  exists out, FrameFileWriter healthy "capture.stgf" true = Ok out /\
    exists out', writeFrames healthy out replay_frames = (out', Ok tt) /\
      readFile "capture.stgf" (written out') = Some (replay_frames, Ok tt).
Proof. apply replay_round_trip. decide_now. Defined.

(** A capture cut inside an entry is never taken for a complete one: the frames before the
    cut are returned, then reading throws. *)
Theorem truncated_replay_throws : forall path frames frame part rest,
  Forall frame_bounds frames -> frame_bounds frame ->
  entry frame = part ++ rest -> part <> [] -> rest <> [] ->
  exists msg, readFile path (FileHeader ++ concat (entry <$> frames) ++ part)
    = Some (frames, Throw (runtime_error msg)).
Proof.
  intros path frames frame part rest Hfs Hf Hcut Hp Hr.
  destruct (readNext_truncated frame part rest Hf Hcut Hp Hr) as (s & msg & Hn).
  exists msg. apply readFile_entries; [done|].
  intros [|fuel] Hfuel; [lia|]. cbn [readAll]. by rewrite Hn.
Qed.

Lemma truncated_replay_throws_witness :
  exists msg, readFile "capture.stgf"
    (FileHeader ++ concat (entry <$> replay_frames) ++ take 9 (entry (replicate 27 1)))
    = Some (replay_frames, Throw (runtime_error msg)).
Proof.
  apply (truncated_replay_throws _ _ (replicate 27 1) _ (drop 9 (entry (replicate 27 1))));
    [decide_now|decide_now|by rewrite take_drop|done|done].
Defined.

(** Reading any file ends, and no frame outside of the STGS size bounds comes out of it,
    whatever lengths the file announces. *)
Theorem replay_reads_bounded_frames : forall path contents,
  bytes_ok contents ->
  exists frames e, readFile path contents = Some (frames, e) /\ Forall frame_bounds frames.
Proof.
  intros path contents Hok. unfold readFile, FrameFileReader.
  destruct (readExact _ _) as [s [header|e]] eqn:Hr; simpl mbind; [|by eexists _, _].
  destruct (negb _); [by eexists _, _|].
  unfold readExact in Hr. destruct (istream_read _ _) as [data s1] eqn:R1.
  destruct (bytes_ok_istream_read _ _ _ _ R1 Hok) as [_ Hok1].
  destruct (istream_read_rest _ _ _ _ R1) as [Hle _]. cbn [unread] in *.
  destruct (negb _); [done|]. injection Hr as <- _. apply readAll_total; [done|lia].
Qed.

Lemma replay_reads_bounded_frames_witness :
  exists frames e, readFile "x" (FileHeader ++ [255; 255; 255; 255; 1; 2; 3]) = Some (frames, e) /\
    Forall frame_bounds frames.
Proof. apply replay_reads_bounded_frames. decide_now. Defined.

(** The writer refuses a frame outside of the size bounds before touching the file, whatever
    the device does. *)
Theorem writer_refuses_out_of_bounds : forall device out frame,
  ~ MinFrameSize <= size frame <= MaxFrameSize ->
  exists msg, writeFrame device out frame = (out, Throw (runtime_error msg)).
Proof.
  intros device out frame Hb. unfold writeFrame.
  destruct (Z.ltb_spec (size frame) MinFrameSize); [by eexists|].
  destruct (Z.gtb_spec (size frame) MaxFrameSize); [by eexists|]. lia.
Qed.

Lemma writer_refuses_out_of_bounds_witness :
  exists msg, writeFrame healthy {| written := FileHeader; good := true |} [1; 2]
    = ({| written := FileHeader; good := true |}, Throw (runtime_error msg)).
Proof. apply writer_refuses_out_of_bounds. vm_compute. intros [H _]. by apply H. Defined.
