(* ===== verification/NetworkServer.v ===== *)
(** The receiving loops of src/NetworkServerTcp.cpp and src/NetworkServerUdp.cpp.

    The kernel is a script: what each [poll()], [recv()] and [accept()] answers. A descriptor is
    named by the number of its [accept()]; the kernel gives a number out again only after it was
    closed, so that an open descriptor names one connection. What the loops do is a trace: the
    callbacks with their frames, the log, and for the statements the descriptors that are opened
    and closed and the bytes that are read. *)

From S2P Require Import Prelude ByteUtils Crc32 TextFormat FrameCodec StreamExtractor.

(** ** Configuration *)

Inductive Transport := Udp | Tcp.

Definition DefaultTelemetryPort : Z := 9000.
Definition DefaultNetworkPollTimeoutMs : Z := 250.

Record NetworkConfig := {
  transport : Transport;
  bindAddress : string;
  port : Z;
  pollTimeoutMs : Z;
}.
Definition defaultNetworkConfig : NetworkConfig :=
  {| transport := Udp; bindAddress := "0.0.0.0"; port := DefaultTelemetryPort;
     pollTimeoutMs := DefaultNetworkPollTimeoutMs |}.

(** The constructor of [NetworkServer]: its checks, and the configuration it keeps. *)
Definition new_NetworkServer (config : NetworkConfig) : result NetworkConfig :=
  throw_if (port config =? 0) (invalid_argument "network port must be in the 1..65535 range") ;;
  throw_if (pollTimeoutMs config <=? 0) (invalid_argument "network poll timeout must be greater than zero") ;;
  Ok config.

(** ** The kernel *)

Inductive errno := EINTR | EAGAIN | EOther (number : Z).

(** [recv()]: the bytes, none at the end of the stream, or a failure. *)
Inductive recv_result := Received (bs : bytes) | RecvFailed (e : errno).

(** [accept()], and how [setNonBlocking] of the new descriptor ends. *)
Inductive accept_result := Accepted (setNonBlocking : result unit) | AcceptFailed (e : errno).

Record revents := { pollin : bool; pollhup : bool; pollerr : bool; pollnval : bool }.

(** [poll()]: what it reports of the listening socket and of each descriptor, and what the calls
    that follow answer. *)
Record ready := {
  listener_pollin : bool;
  polled : nat -> revents;
  recvs : nat -> list recv_result;
  accepts : list accept_result;
}.
Inductive poll_result := PollFailed (e : errno) | PollTimeout | PollReady (r : ready).

(** ** What the loops do *)

Inductive effect :=
  | Opened (fd : nat)
  | Read (fd : nat) (bs : bytes)
  | Callback (fd : nat) (frame : bytes)
  | Closed (fd : nat)
  | LogInfo (m : string)
  | LogWarning (m : string).

Section Loops.
Variable strerror : errno -> string.

(** ** TCP *)

Definition TcpReadBufferSize : Z := 8192.

Record TcpClient := { fd : nat; extractor : StreamFrameExtractor }.

(** The [while (true)] around [recv()]: the effects, the client and [removeClient]. [None] when the
    script ends, which is a loop that goes on. *)
Fixpoint drain_client (client : TcpClient) (script : list recv_result)
  : option (list effect * TcpClient * bool) :=
  match script with
  | [] => None
  | Received [] :: _ => Some ([], client, true)
  | Received bs :: script =>
      '(frames, ex) ← feed (extractor client) bs;
      '(tr, client', remove) ← drain_client {| fd := fd client; extractor := ex |} script;
      Some (Read (fd client) bs :: (Callback (fd client) <$> frames) ++ tr, client', remove)
  | RecvFailed EINTR :: script => drain_client client script
  | RecvFailed EAGAIN :: _ => Some ([], client, false)
  | RecvFailed e :: _ => Some ([LogWarning ("recv() failed: " +:+ strerror e)], client, true)
  end.

(** The body of the loop over the snapshot: [None] in the second component is [erase]. *)
Definition poll_client (r : ready) (ev : revents) (client : TcpClient)
  : option (list effect * option TcpClient) :=
  if negb (pollin ev || pollhup ev || pollerr ev || pollnval ev) then Some ([], Some client) else
  let removeClient := pollerr ev || pollnval ev in
  '(tr, client, removeClient) ←
    (if pollin ev || pollhup ev then
       '(tr, client, remove) ← drain_client client (recvs r (fd client));
       Some (tr, client, removeClient || remove)
     else Some ([], client, removeClient));
  let removeClient := removeClient || pollhup ev in
  Some (if removeClient then (tr ++ [LogInfo "TCP client disconnected"; Closed (fd client)], None)
        else (tr, Some client)).

(** The loop over the snapshot, [k] entries from its end: [pfds] are the descriptors that were
    polled. [None] also when an index is out of range. *)
Fixpoint poll_clients (r : ready) (pfds : list nat) (k : nat) (clients : list TcpClient)
  : option (list effect * list TcpClient) :=
  match k with
  | O => Some ([], clients)
  | S clientIndex =>
      polled_fd ← pfds !! clientIndex;
      client ← clients !! clientIndex;
      '(tr, client) ← poll_client r (polled r polled_fd) client;
      let clients := match client with
        | Some client => <[clientIndex := client]> clients
        | None => delete clientIndex clients
        end in
      '(tr', clients) ← poll_clients r pfds clientIndex clients;
      Some (tr ++ tr', clients)
  end.

(** The server: its clients and the number of the next [accept()]. *)
Record server := { clients : list TcpClient; next_fd : nat }.

(** The [while (true)] around [accept()]. *)
Fixpoint accept_clients (s : server) (script : list accept_result)
  : option (list effect * server * option exn) :=
  match script with
  | [] => None
  | Accepted (Ok _) :: script =>
      let s' := {| clients := clients s ++ [{| fd := next_fd s; extractor := new_extractor |}];
                   next_fd := S (next_fd s) |} in
      '(tr, s', e) ← accept_clients s' script;
      Some (Opened (next_fd s) :: LogInfo "TCP client connected" :: tr, s', e)
  | Accepted (Throw e) :: _ =>
      Some ([Opened (next_fd s); Closed (next_fd s)],
            {| clients := clients s; next_fd := S (next_fd s) |}, Some e)
  | AcceptFailed EAGAIN :: _ => Some ([], s, None)
  | AcceptFailed EINTR :: script => accept_clients s script
  | AcceptFailed e :: _ => Some ([LogWarning ("accept() failed: " +:+ strerror e)], s, None)
  end.

(** One turn of the loop of [runTcp]. *)
Definition tcp_turn (s : server) (p : poll_result) : option (list effect * server * option exn) :=
  match p with
  | PollFailed EINTR => Some ([], s, None)
  | PollFailed e => Some ([], s, Some (runtime_error ("poll() failed: " +:+ strerror e)))
  | PollTimeout => Some ([], s, None)
  | PollReady r =>
      let polledClientCount := length (clients s) in
      let pfds := fd <$> clients s in
      '(tr, cs) ← poll_clients r pfds polledClientCount (clients s);
      let s := {| clients := cs; next_fd := next_fd s |} in
      if listener_pollin r then
        '(tr', s, e) ← accept_clients s (accepts r);
        Some (tr ++ tr', s, e)
      else Some (tr, s, None)
  end.

(** [runTcp] once the socket listens, over the turns that begin before [running] is false, up to
    [clients.clear()]. An exception leaves the function: the destructor of [clients] closes the
    descriptors. [ServerSocket] has what is in front and behind. *)
Fixpoint tcp_loop (s : server) (polls : list poll_result) : option (list effect * option exn) :=
  match polls with
  | [] => Some (Closed ∘ fd <$> clients s, None)
  | p :: polls =>
      '(tr, s, e) ← tcp_turn s p;
      match e with
      | Some e => Some (tr ++ (Closed ∘ fd <$> clients s), Some e)
      | None => '(tr', e) ← tcp_loop s polls; Some (tr ++ tr', e)
      end
  end.

Definition runTcp (polls : list poll_result) : option (list effect * option exn) :=
  tcp_loop {| clients := []; next_fd := 0 |} polls.

(** ** UDP *)

(** One turn of [runUdp]: [poll()] with its [POLLIN], and [recvfrom()], which answers a datagram
    with its real size ([MSG_TRUNC]). *)
Inductive udp_poll := UdpPollFailed (e : errno) | UdpNothing | UdpReady (r : recv_result).

Definition udp_turn (p : udp_poll) : list effect * option exn :=
  match p with
  | UdpPollFailed EINTR | UdpNothing => ([], None)
  | UdpPollFailed e => ([], Some (runtime_error ("poll() failed: " +:+ strerror e)))
  | UdpReady (RecvFailed (EINTR | EAGAIN)) => ([], None)
  | UdpReady (RecvFailed e) => ([LogWarning ("recvfrom() failed: " +:+ strerror e)], None)
  | UdpReady (Received datagram) =>
      if size datagram >? MaxFrameSize
      then ([LogWarning "UDP datagram larger than MaxFrameSize was dropped without truncation processing"], None)
      else ([Callback 0 datagram], None)
  end.

(** The loop of [runUdp]. *)
Fixpoint runUdp (polls : list udp_poll) : list effect * option exn :=
  match polls with
  | [] => ([], None)
  | p :: polls =>
      match udp_turn p with
      | (tr, Some e) => (tr, Some e)
      | (tr, None) => let '(tr', e) := runUdp polls in (tr ++ tr', e)
      end
  end.

(** ** Traces *)

(** The bytes read from a descriptor, and the frames called back for it. *)
Definition reads (f : nat) (tr : list effect) : list bytes :=
  omap (fun e => match e with Read g bs => if decide (g = f) then Some bs else None | _ => None end) tr.
Definition callbacks (f : nat) (tr : list effect) : list bytes :=
  omap (fun e => match e with Callback g b => if decide (g = f) then Some b else None | _ => None end) tr.

(** The life of the descriptors: opened in the order of their numbers, used while they are open,
    closed once. [None] when something else happens. *)
Definition live (o : option (gset nat * nat)) (e : effect) : option (gset nat * nat) :=
  '(open, next) ← o;
  match e with
  | Opened f => if decide (f = next) then Some ({[f]} ∪ open, S next) else None
  | Read f _ | Callback f _ => if decide (f ∈ open) then Some (open, next) else None
  | Closed f => if decide (f ∈ open) then Some (open ∖ {[f]}, next) else None
  | LogInfo _ | LogWarning _ => Some (open, next)
  end.
Definition lifecycle (open : gset nat) (next : nat) (tr : list effect) : option (gset nat * nat) :=
  foldl live (Some (open, next)) tr.

(** ** The loop over the snapshot, without indices *)

(** Each client with the events of its own descriptor, the last one first. *)
Fixpoint serve (r : ready) (cs : list TcpClient) : option (list effect * list TcpClient) :=
  match cs with
  | [] => Some ([], [])
  | c :: cs =>
      '(tr, cs) ← serve r cs;
      '(tr', o) ← poll_client r (polled r (fd c)) c;
      Some (tr ++ tr', option_list o ++ cs)
  end.

Lemma serve_app r a b :
  serve r (a ++ b) =
  '(tr, b) ← serve r b; '(tr', a) ← serve r a; Some (tr ++ tr', a ++ b).
Proof.
  induction a as [|c a IH]; cbn [app serve].
  - destruct (serve r b) as [[tr b']|]; [|done]. simpl. by rewrite app_nil_r.
  - rewrite IH. destruct (serve r b) as [[tr b']|]; [|done]. simpl.
    destruct (serve r a) as [[tr' a']|]; [|done]. simpl.
    destruct (poll_client r _ c) as [[tr'' o]|]; [|done]. simpl. by rewrite !app_assoc.
Qed.

(** Serving the clients in front, after those behind are done. *)
Lemma poll_clients_spec r pfds front behind :
  (fd <$> front) `prefix_of` pfds ->
  poll_clients r pfds (length front) (front ++ behind) =
  '(tr, front) ← serve r front; Some (tr, front ++ behind).
Proof.
  revert behind. induction front as [|c front IH] using rev_ind; intros behind Hp; [done|].
  rewrite length_app, Nat.add_1_r, serve_app. cbn [poll_clients serve mbind option_bind].
  assert (Hfd : pfds !! length front = Some (fd c)).
  { eapply prefix_lookup_Some; [|exact Hp]. rewrite fmap_app, lookup_app_r by (by rewrite length_fmap).
    by rewrite length_fmap, Nat.sub_diag. }
  assert (Hp' : (fd <$> front) `prefix_of` pfds).
  { etrans; [|exact Hp]. rewrite fmap_app. by eexists. }
  rewrite Hfd. cbn [mbind option_bind]. rewrite <- app_assoc. cbn [app].
  rewrite list_lookup_middle by done. cbn [mbind option_bind].
  destruct (poll_client r (polled r (fd c)) c) as [[tr o]|]; cbn [mbind option_bind]; [|done].
  replace (match o with Some client => _ | None => _ end) with (front ++ option_list o ++ behind).
  - rewrite IH by done. destruct (serve r front) as [[tr' front']|]; cbn [mbind option_bind]; [|done].
    by rewrite app_nil_r, <- app_assoc.
  - destruct o as [c'|]; cbn [option_list app].
    + by rewrite insert_app_r_alt, Nat.sub_diag by done.
    + by rewrite delete_middle.
Qed.

(** ** What the trace of a client says *)

Lemma reads_app f a b : reads f (a ++ b) = reads f a ++ reads f b.
Proof. apply omap_app. Qed.

Lemma callbacks_app f a b : callbacks f (a ++ b) = callbacks f a ++ callbacks f b.
Proof. apply omap_app. Qed.

Lemma lifecycle_app open next a b :
  lifecycle open next (a ++ b) = '(open, next) ← lifecycle open next a; lifecycle open next b.
Proof.
  unfold lifecycle. rewrite foldl_app. destruct (foldl live _ a) as [[open' next']|]; [done|].
  induction b; [done|]. cbn [foldl live mbind option_bind]. done.
Qed.

Lemma lifecycle_cons open next e tr :
  lifecycle open next (e :: tr) = '(open, next) ← live (Some (open, next)) e; lifecycle open next tr.
Proof. apply (lifecycle_app open next [e] tr). Qed.

Lemma feed_all_app ex a b :
  feed_all ex (a ++ b) = '(f, ex) ← feed_all ex a; '(g, ex) ← feed_all ex b; Some (f ++ g, ex).
Proof.
  revert ex. induction a as [|bs a IH]; intros ex; cbn [app feed_all mbind option_bind].
  - by destruct (feed_all ex b) as [[g ex']|].
  - destruct (feed ex bs) as [[f ex1]|]; cbn [mbind option_bind]; [|done]. rewrite IH.
    destruct (feed_all ex1 a) as [[f' ex2]|]; cbn [mbind option_bind]; [|done].
    destruct (feed_all ex2 b) as [[g ex3]|]; cbn [mbind option_bind]; [|done]. by rewrite app_assoc.
Qed.

Lemma reads_callbacks f g frames : reads f (Callback g <$> frames) = [].
Proof. induction frames; [done|]. by cbn. Qed.

Lemma callbacks_callbacks f frames : callbacks f (Callback f <$> frames) = frames.
Proof.
  induction frames as [|b frames IH]; [done|]. rewrite fmap_cons. unfold callbacks in *.
  cbn [omap list_omap]. rewrite decide_True by done. by rewrite IH.
Qed.

Lemma callbacks_other f g frames : f <> g -> callbacks f (Callback g <$> frames) = [].
Proof.
  intros Hne. induction frames as [|b frames IH]; [done|]. rewrite fmap_cons. unfold callbacks in *.
  cbn [omap list_omap]. by rewrite decide_False.
Qed.

Lemma lifecycle_callbacks open next f frames :
  f ∈ open -> lifecycle open next (Callback f <$> frames) = Some (open, next).
Proof.
  intros Hf. induction frames as [|b frames IH]; [done|]. rewrite fmap_cons. unfold lifecycle in *.
  cbn [foldl live mbind option_bind]. by rewrite decide_True.
Qed.

(** [tr] is what serving the client does: it reads and calls back for the client only, the frames
    are those its extractor gives for the bytes, and the client goes on with this extractor. *)
Record served (c : TcpClient) (tr : list effect) (c' : TcpClient) : Prop := {
  srv_fd : fd c' = fd c;
  srv_feed : feed_all (extractor c) (reads (fd c) tr) = Some (callbacks (fd c) tr, extractor c');
  srv_other : forall f, f <> fd c -> reads f tr = [] /\ callbacks f tr = [];
  srv_live : forall open next, fd c ∈ open -> lifecycle open next tr = Some (open, next);
}.

Lemma served_nothing c : served c [] c.
Proof. by constructor. Qed.

Lemma served_warning c m : served c [LogWarning m] c.
Proof. by constructor. Qed.

Lemma served_read c bs frames ex tr c' :
  feed (extractor c) bs = Some (frames, ex) -> served {| fd := fd c; extractor := ex |} tr c' ->
  served c (Read (fd c) bs :: (Callback (fd c) <$> frames) ++ tr) c'.
Proof.
  intros Hf [H1 H2 H3 H4]. cbn [fd extractor] in *. constructor; [done|..].
  - change (Read (fd c) bs :: (Callback (fd c) <$> frames) ++ tr) with
      ([Read (fd c) bs] ++ (Callback (fd c) <$> frames) ++ tr).
    rewrite !reads_app, !callbacks_app, reads_callbacks, callbacks_callbacks.
    unfold reads at 1, callbacks at 1. cbn [omap list_omap app]. rewrite decide_True by done.
    cbn [app feed_all]. rewrite Hf. cbn [mbind option_bind]. by rewrite H2.
  - intros f Hne. destruct (H3 f Hne) as [Hr Hc].
    change (Read (fd c) bs :: (Callback (fd c) <$> frames) ++ tr) with
      ([Read (fd c) bs] ++ (Callback (fd c) <$> frames) ++ tr).
    rewrite !reads_app, !callbacks_app, reads_callbacks, callbacks_other, Hr, Hc by done.
    unfold reads, callbacks. cbn [omap list_omap app]. by rewrite decide_False.
  - intros open next Hin.
    rewrite lifecycle_cons. cbn [live mbind option_bind]. rewrite decide_True by done. cbn [mbind option_bind].
    rewrite lifecycle_app, lifecycle_callbacks by done. cbn [mbind option_bind]. by apply H4.
Qed.

Lemma drain_client_served c script tr c' rm :
  drain_client c script = Some (tr, c', rm) -> served c tr c'.
Proof.
  revert c tr c' rm. induction script as [|x script IH]; intros c tr c' rm; cbn [drain_client]; [done|].
  destruct x as [[|b bs]|[]].
  - intros [= <- <- <-]. apply served_nothing.
  - destruct (feed _ _) as [[frames ex]|] eqn:Hf; cbn [mbind option_bind]; [|done].
    destruct (drain_client _ script) as [[[tr1 c1] rm1]|] eqn:Hd; cbn [mbind option_bind]; [|done].
    intros [= <- <- <-]. eapply served_read; [exact Hf|]. by eapply IH.
  - apply IH.
  - intros [= <- <- <-]. apply served_nothing.
  - intros [= <- <- <-]. apply served_warning.
Qed.

(** Serving a client ends with the client, or with its descriptor closed. *)
Lemma poll_client_served r ev c tr o :
  poll_client r ev c = Some (tr, o) ->
  match o with
  | Some c' => served c tr c'
  | None => exists tr1 c', tr = tr1 ++ [LogInfo "TCP client disconnected"; Closed (fd c')] /\ served c tr1 c'
  end.
Proof.
  unfold poll_client. destruct (negb _); [intros [= <- <-]; apply served_nothing|].
  destruct (_ || _); cbn [mbind option_bind].
  - destruct (drain_client _ _) as [[[tr1 c1] rm]|] eqn:Hd; cbn [mbind option_bind]; [|done].
    apply drain_client_served in Hd. destruct (_ || _); intros [= <- <-]; [by exists tr1, c1|done].
  - destruct (_ || _); intros [= <- <-]; [|apply served_nothing].
    exists [], c. split; [done|apply served_nothing].
Qed.


(** ** The invariant of the server *)

(** After the trace [tr], begun with nothing open: the open descriptors are those of the clients,
    each client holds the extractor of its own connection, what was called back for a descriptor is
    what one extractor gives for its bytes, and descriptors not yet accepted were not used. *)
Record sound (s : server) (tr : list effect) : Prop := {
  snd_live : lifecycle ∅ 0 tr = Some (list_to_set (fd <$> clients s), next_fd s);
  snd_nodup : NoDup (fd <$> clients s);
  snd_known : forall c, c ∈ clients s -> (fd c < next_fd s)%nat;
  snd_held : forall c, c ∈ clients s ->
    feed_all new_extractor (reads (fd c) tr) = Some (callbacks (fd c) tr, extractor c);
  snd_extracted : forall f, exists ex, feed_all new_extractor (reads f tr) = Some (callbacks f tr, ex);
  snd_unused : forall f, (next_fd s <= f)%nat -> reads f tr = [] /\ callbacks f tr = [];
}.

Lemma sound_start : sound {| clients := []; next_fd := 0 |} [].
Proof.
  constructor; cbn [clients next_fd]; try done; [apply NoDup_nil_2|..]; try (intros c Hc; by apply not_elem_of_nil in Hc).
  intros f. by exists new_extractor.
Qed.

Lemma fd_not_elsewhere (front behind : list TcpClient) c d :
  NoDup (fd <$> front ++ c :: behind) -> d ∈ front ++ behind -> fd d <> fd c.
Proof.
  rewrite fmap_app, fmap_cons. intros Hnd Hd Heq.
  apply NoDup_app in Hnd as (_ & Hdis & Hnd). apply NoDup_cons in Hnd as [Hnot _].
  apply elem_of_app in Hd as [Hd|Hd]; apply (list_elem_of_fmap_2 fd) in Hd; rewrite Heq in Hd; [|done].
  apply (Hdis _ Hd). by left.
Qed.

Lemma quiet_trace (s : server) tr tr' :
  (forall f, reads f tr' = []) -> (forall f, callbacks f tr' = []) ->
  lifecycle (list_to_set (fd <$> clients s)) (next_fd s) tr' = Some (list_to_set (fd <$> clients s), next_fd s) ->
  sound s tr -> sound s (tr ++ tr').
Proof.
  intros Hr Hc Hl [H1 H2 H3 H4 H5 H6]. constructor; try done.
  - rewrite lifecycle_app, H1. done.
  - intros c Hin. rewrite reads_app, callbacks_app, Hr, Hc, !app_nil_r. by apply H4.
  - intros f. rewrite reads_app, callbacks_app, Hr, Hc, !app_nil_r. apply H5.
  - intros f Hf. rewrite reads_app, callbacks_app, Hr, Hc, !app_nil_r. by apply H6.
Qed.

Lemma sound_served front behind c c' n tr tr' :
  sound {| clients := front ++ c :: behind; next_fd := n |} tr -> served c tr' c' ->
  sound {| clients := front ++ c' :: behind; next_fd := n |} (tr ++ tr').
Proof.
  intros [H1 H2 H3 H4 H5 H6] [S1 S2 S3 S4]. cbn [clients next_fd] in *.
  assert (Hfds : fd <$> front ++ c' :: behind = fd <$> front ++ c :: behind).
  { by rewrite !fmap_app, !fmap_cons, S1. }
  assert (Hc : c ∈ front ++ c :: behind) by (apply elem_of_app; right; by left).
  pose proof (H4 c Hc) as Hheld.
  assert (Hserved : feed_all new_extractor (reads (fd c) (tr ++ tr')) = Some (callbacks (fd c) (tr ++ tr'), extractor c')).
  { rewrite reads_app, callbacks_app, feed_all_app, Hheld. cbn [mbind option_bind]. rewrite S2. done. }
  assert (Hothers : forall f, f <> fd c -> reads f (tr ++ tr') = reads f tr /\ callbacks f (tr ++ tr') = callbacks f tr).
  { intros f Hne. destruct (S3 f Hne) as [Hr Hcb]. by rewrite reads_app, callbacks_app, Hr, Hcb, !app_nil_r. }
  assert (Hin : forall d, d ∈ front ++ c' :: behind -> d = c' \/ d ∈ front ++ behind).
  { intros d. rewrite !elem_of_app, elem_of_cons. tauto. }
  constructor; cbn [clients next_fd].
  - rewrite lifecycle_app, H1, Hfds. cbn [mbind option_bind]. apply S4.
    apply elem_of_list_to_set. by apply (list_elem_of_fmap_2 fd).
  - by rewrite Hfds.
  - intros d [->|Hd]%Hin; [rewrite S1; by apply H3|]. apply H3.
    apply elem_of_app in Hd as [Hd|Hd]; apply elem_of_app; [by left|right; by right].
  - intros d [->|Hd]%Hin; [by rewrite S1|].
    destruct (Hothers (fd d)) as [-> ->]; [by eapply fd_not_elsewhere|]. apply H4.
    apply elem_of_app in Hd as [Hd|Hd]; apply elem_of_app; [by left|right; by right].
  - intros f. destruct (decide (f = fd c)) as [->|Hne]; [by eexists|].
    destruct (Hothers f Hne) as [-> ->]. apply H5.
  - intros f Hf. specialize (H3 c Hc). destruct (Hothers f) as [-> ->]; [lia|]. by apply H6.
Qed.

Lemma sound_close front behind c n tr :
  sound {| clients := front ++ c :: behind; next_fd := n |} tr ->
  sound {| clients := front ++ behind; next_fd := n |} (tr ++ [LogInfo "TCP client disconnected"; Closed (fd c)]).
Proof.
  intros [H1 H2 H3 H4 H5 H6]. cbn [clients next_fd] in *.
  assert (Hin : forall d, d ∈ front ++ behind -> d ∈ front ++ c :: behind).
  { intros d. rewrite !elem_of_app, elem_of_cons. tauto. }
  assert (Hnot : fd c ∉ (fd <$> front ++ behind)).
  { intros (d & Heq & Hd)%list_elem_of_fmap. symmetry in Heq. revert Heq. by eapply fd_not_elsewhere. }
  constructor; cbn [clients next_fd].
  - rewrite lifecycle_app, H1. cbn [mbind option_bind].
    unfold lifecycle. cbn [foldl live mbind option_bind]. rewrite decide_True.
    2: { apply elem_of_list_to_set, (list_elem_of_fmap_2 fd), elem_of_app. right. by left. }
    do 2 f_equal. rewrite !fmap_app, !fmap_cons in *.
    rewrite !list_to_set_app_L, list_to_set_cons. apply set_eq. intros x.
    rewrite elem_of_app in Hnot. clear -Hnot. set_solver.
  - rewrite fmap_app, fmap_cons in H2. rewrite fmap_app.
    rewrite <- Permutation_middle in H2. by apply NoDup_cons in H2 as [_ ?].
  - intros d Hd. by apply H3, Hin.
  - intros d Hd. rewrite reads_app, callbacks_app, !app_nil_r. by apply H4, Hin.
  - intros f. rewrite reads_app, callbacks_app, !app_nil_r. apply H5.
  - intros f Hf. rewrite reads_app, callbacks_app, !app_nil_r. by apply H6.
Qed.

Lemma sound_open cs n tr :
  sound {| clients := cs; next_fd := n |} tr ->
  sound {| clients := cs ++ [{| fd := n; extractor := new_extractor |}]; next_fd := S n |}
    (tr ++ [Opened n; LogInfo "TCP client connected"]).
Proof.
  intros [H1 H2 H3 H4 H5 H6]. cbn [clients next_fd] in *.
  constructor; cbn [clients next_fd].
  - rewrite lifecycle_app, H1. unfold lifecycle. cbn [foldl live mbind option_bind].
    rewrite decide_True by done. cbn [mbind option_bind]. do 2 f_equal.
    rewrite fmap_app, list_to_set_app_L. cbn [fmap list_fmap fd list_to_set]. clear. set_solver.
  - rewrite fmap_app. apply NoDup_app. split; [done|]. split; [|apply NoDup_singleton].
    intros f (c & -> & Hc)%list_elem_of_fmap Hn%list_elem_of_singleton. apply H3 in Hc. cbn in Hn. lia.
  - intros c [Hc|Hc]%elem_of_app; [apply H3 in Hc; lia|]. apply list_elem_of_singleton in Hc as ->. cbn. lia.
  - intros c [Hc|Hc]%elem_of_app; rewrite reads_app, callbacks_app, !app_nil_r; [by apply H4|].
    apply list_elem_of_singleton in Hc as ->. cbn [fd extractor]. destruct (H6 n) as [-> ->]; [lia|done].
  - intros f. rewrite reads_app, callbacks_app, !app_nil_r. apply H5.
  - intros f Hf. rewrite reads_app, callbacks_app, !app_nil_r. apply H6. lia.
Qed.

(** A descriptor that is closed because [setNonBlocking] failed. *)
Lemma sound_refused cs n tr :
  sound {| clients := cs; next_fd := n |} tr ->
  sound {| clients := cs; next_fd := S n |} (tr ++ [Opened n; Closed n]).
Proof.
  intros [H1 H2 H3 H4 H5 H6]. cbn [clients next_fd] in *.
  constructor; cbn [clients next_fd]; try done.
  - rewrite lifecycle_app, H1. unfold lifecycle. cbn [foldl live mbind option_bind].
    rewrite decide_True by done. cbn [mbind option_bind]. rewrite decide_True by (clear; set_solver).
    do 2 f_equal. assert (Hn : n ∉ (fd <$> cs)).
    { intros (c & -> & Hc)%list_elem_of_fmap. apply H3 in Hc. lia. }
    clear -Hn. apply set_eq. intros x. rewrite elem_of_difference, elem_of_union, elem_of_singleton.
    split; [tauto|]. intros Hx. split; [by right|]. intros ->. by apply elem_of_list_to_set in Hx.
  - intros c Hc. apply H3 in Hc. lia.
  - intros c Hc. rewrite reads_app, callbacks_app, !app_nil_r. by apply H4.
  - intros f. rewrite reads_app, callbacks_app, !app_nil_r. apply H5.
  - intros f Hf. rewrite reads_app, callbacks_app, !app_nil_r. apply H6. lia.
Qed.

(** Serving one client among the others. *)
Lemma sound_poll_client front behind n tr r ev c tr' o :
  sound {| clients := front ++ c :: behind; next_fd := n |} tr ->
  poll_client r ev c = Some (tr', o) ->
  sound {| clients := front ++ option_list o ++ behind; next_fd := n |} (tr ++ tr').
Proof.
  intros Hs Hp%poll_client_served. destruct o as [c'|]; cbn [option_list app].
  - by eapply sound_served.
  - destruct Hp as (tr1 & c' & -> & Hd). rewrite (app_assoc tr). apply sound_close. by eapply sound_served.
Qed.

Lemma sound_serve front behind n tr r tr' cs :
  sound {| clients := front ++ behind; next_fd := n |} tr -> serve r front = Some (tr', cs) ->
  sound {| clients := cs ++ behind; next_fd := n |} (tr ++ tr').
Proof.
  revert behind tr tr' cs. induction front as [|c front IH] using rev_ind; intros behind tr tr' cs Hs.
  { intros [= <- <-]. by rewrite app_nil_r. }
  rewrite serve_app. cbn [serve mbind option_bind].
  destruct (poll_client r _ c) as [[tr1 o]|] eqn:Hp; cbn [mbind option_bind]; [|done].
  destruct (serve r front) as [[tr2 front']|] eqn:Hf; cbn [mbind option_bind]; [|done].
  intros [= <- <-]. rewrite !app_nil_r, (app_assoc tr).
  rewrite <- app_assoc in Hs. cbn [app] in Hs. rewrite <- (app_assoc front').
  eapply IH; [|done]. by eapply sound_poll_client.
Qed.

Lemma sound_accept_clients s tr script tr' s' e :
  sound s tr -> accept_clients s script = Some (tr', s', e) -> sound s' (tr ++ tr').
Proof.
  revert s tr tr' s' e. induction script as [|x script IH]; intros [cs n] tr tr' s' e Hs; cbn [accept_clients]; [done|].
  destruct x as [[u|ex]|[]].
  - destruct (accept_clients _ script) as [[[tr1 s1] e1]|] eqn:Ha; cbn [mbind option_bind]; [|done].
    intros [= <- <- <-]. cbn [next_fd clients] in *.
    change (Opened n :: LogInfo "TCP client connected" :: tr1) with
      ([Opened n; LogInfo "TCP client connected"] ++ tr1).
    rewrite app_assoc. eapply IH; [|done]. by apply sound_open.
  - intros [= <- <- <-]. by apply sound_refused.
  - by apply IH.
  - intros [= <- <- <-]. by rewrite app_nil_r.
  - intros [= <- <- <-]. by apply quiet_trace.
Qed.


Lemma sound_tcp_turn s tr p tr' s' e :
  sound s tr -> tcp_turn s p = Some (tr', s', e) -> sound s' (tr ++ tr').
Proof.
  intros Hs. unfold tcp_turn. destruct p as [[]| |r];
    try (intros [= <- <- <-]; by rewrite app_nil_r).
  destruct s as [cs n]. cbn [clients next_fd].
  replace (poll_clients r (fd <$> cs) (length cs) cs) with (poll_clients r (fd <$> cs) (length cs) (cs ++ []))
    by by rewrite app_nil_r.
  rewrite poll_clients_spec by done.
  destruct (serve r cs) as [[tr1 cs']|] eqn:Hsv; cbn [mbind option_bind]; [|done].
  rewrite app_nil_r.
  assert (H1 : sound {| clients := cs'; next_fd := n |} (tr ++ tr1)).
  { replace cs' with (cs' ++ []) by apply app_nil_r. eapply sound_serve; [|done]. by rewrite app_nil_r. }
  destruct (listener_pollin r); [|by intros [= <- <- <-]].
  destruct (accept_clients _ _) as [[[tr2 s2] e2]|] eqn:Ha; cbn [mbind option_bind]; [|done].
  intros [= <- <- <-]. rewrite app_assoc. by eapply sound_accept_clients.
Qed.

(** The destructor of the vector. *)
Lemma lifecycle_close_all (cs : list TcpClient) n :
  NoDup (fd <$> cs) -> lifecycle (list_to_set (fd <$> cs)) n (Closed ∘ fd <$> cs) = Some (∅, n).
Proof.
  induction cs as [|c cs IH]; [done|]. rewrite !fmap_cons. intros [Hnot Hnd]%NoDup_cons.
  rewrite lifecycle_cons. cbn [live mbind option_bind list_to_set compose].
  rewrite decide_True by (clear; set_solver). cbn [mbind option_bind].
  replace (({[fd c]} ∪ list_to_set (fd <$> cs)) ∖ {[fd c]}) with (list_to_set (fd <$> cs) : gset nat); [by apply IH|].
  clear -Hnot. apply set_eq. intros x. rewrite elem_of_difference, elem_of_union, elem_of_singleton.
  split; [|tauto]. intros Hx. split; [by right|]. intros ->. by apply elem_of_list_to_set in Hx.
Qed.

Lemma quiet_close_all (cs : list TcpClient) f :
  reads f (Closed ∘ fd <$> cs) = [] /\ callbacks f (Closed ∘ fd <$> cs) = [].
Proof. induction cs; [done|]. by cbn. Qed.

Lemma sound_tcp_loop s tr polls tr' e :
  sound s tr -> tcp_loop s polls = Some (tr', e) ->
  (exists n, lifecycle ∅ 0 (tr ++ tr') = Some (∅, n)) /\
  (forall f, exists ex, feed_all new_extractor (reads f (tr ++ tr')) = Some (callbacks f (tr ++ tr'), ex)).
Proof.
  revert s tr tr' e. induction polls as [|p polls IH]; intros s tr tr' e Hs; cbn [tcp_loop].
  - intros [= <- <-]. destruct Hs as [H1 H2 H3 H4 H5 H6]. split.
    + exists (next_fd s). rewrite lifecycle_app, H1. cbn [mbind option_bind]. by rewrite lifecycle_close_all.
    + intros f. destruct (quiet_close_all (clients s) f) as [Hr Hc].
      rewrite !reads_app, !callbacks_app, Hr, Hc, !app_nil_r. apply H5.
  - destruct (tcp_turn s p) as [[[tr1 s1] e1]|] eqn:Ht; cbn [mbind option_bind]; [|done].
    apply (sound_tcp_turn _ tr) in Ht; [|done]. destruct e1 as [e1|].
    + intros [= <- <-]. destruct Ht as [H1 H2 H3 H4 H5 H6]. split.
      * exists (next_fd s1). rewrite app_assoc, lifecycle_app, H1. cbn [mbind option_bind].
        by rewrite lifecycle_close_all.
      * intros f. destruct (quiet_close_all (clients s1) f) as [Hr Hc].
        rewrite app_assoc, reads_app, callbacks_app, Hr, Hc, !app_nil_r. apply H5.
    + destruct (tcp_loop s1 polls) as [[tr2 e2]|] eqn:Hl; cbn [mbind option_bind]; [|done].
      intros [= <- <-]. rewrite app_assoc. by eapply IH.
Qed.

(** ** The loops end *)

(** A kernel whose scripts end: a [recv()] loop gets to the end of the stream, to [EAGAIN] or to an
    error, an [accept()] loop to a failure other than [EINTR]. What is received are bytes. *)
Definition recv_final (x : recv_result) : bool :=
  match x with Received (_ :: _) | RecvFailed EINTR => false | _ => true end.
Definition accept_final (x : accept_result) : bool :=
  match x with Accepted (Ok _) | AcceptFailed EINTR => false | _ => true end.
Definition received_ok (x : recv_result) : Prop :=
  match x with Received bs => bytes_ok bs | _ => True end.

#[export] Instance received_ok_dec x : Decision (received_ok x).
Proof. destruct x; apply _. Defined.

Definition answers (p : poll_result) : Prop :=
  match p with
  | PollReady r =>
      (forall f, Forall received_ok (recvs r f) /\ existsb recv_final (recvs r f) = true) /\
      existsb accept_final (accepts r) = true
  | _ => True
  end.

Definition holds_bytes (c : TcpClient) : Prop := bytes_ok (buffer_ (extractor c)).

Lemma drain_client_total c script :
  holds_bytes c -> Forall received_ok script -> existsb recv_final script = true ->
  exists tr c' rm, drain_client c script = Some (tr, c', rm) /\ holds_bytes c'.
Proof.
  revert c. induction script as [|x script IH]; intros c Hc Hr He; [done|].
  apply Forall_cons in Hr as [Hx Hr]. cbn [existsb] in He. cbn [drain_client].
  destruct x as [[|b bs]|[]]; cbn [recv_final orb] in He; eauto.
  destruct (feed_total _ (b :: bs) Hc Hx) as (fs & ex & -> & _ & Hok). cbn [mbind option_bind].
  destruct (IH {| fd := fd c; extractor := ex |}) as (tr & c' & rm & -> & Hc'); [done..|].
  cbn [mbind option_bind]. eauto.
Qed.

Lemma poll_client_total r ev c :
  holds_bytes c -> answers (PollReady r) ->
  exists tr o, poll_client r ev c = Some (tr, o) /\ Forall holds_bytes (option_list o).
Proof.
  intros Hc [Hr _]. unfold poll_client. destruct (negb _); [eexists _, _; split; [done|by constructor]|].
  destruct (_ || _).
  - destruct (drain_client_total c (recvs r (fd c)) Hc) as (tr & c' & rm & -> & Hc'); [apply Hr..|].
    cbn [mbind option_bind]. destruct (_ || _); eexists _, _; split; try done; by repeat constructor.
  - cbn [mbind option_bind]. destruct (_ || _); eexists _, _; split; try done; by repeat constructor.
Qed.

Lemma serve_total r cs :
  Forall holds_bytes cs -> answers (PollReady r) ->
  exists tr cs', serve r cs = Some (tr, cs') /\ Forall holds_bytes cs'.
Proof.
  intros Hcs Hr. induction Hcs as [|c cs Hc _ (tr & cs' & IH & Hcs')]; [by exists [], []|].
  cbn [serve]. rewrite IH. cbn [mbind option_bind].
  destruct (poll_client_total r (polled r (fd c)) c Hc Hr) as (tr' & o & -> & Ho).
  eexists _, _. split; [done|]. by apply Forall_app.
Qed.

Lemma accept_clients_total s script :
  Forall holds_bytes (clients s) -> existsb accept_final script = true ->
  exists tr s' e, accept_clients s script = Some (tr, s', e) /\ Forall holds_bytes (clients s').
Proof.
  revert s. induction script as [|x script IH]; intros s Hs He; [done|].
  cbn [existsb] in He. cbn [accept_clients].
  destruct x as [[[]|e]|[]]; cbn [accept_final orb] in He; eauto 10.
  edestruct IH as (tr & s' & e & -> & Hs'); [|done|cbn [mbind option_bind]; eauto].
  cbn [clients]. apply Forall_app. split; [done|]. repeat constructor.
Qed.

Lemma tcp_turn_total s p :
  Forall holds_bytes (clients s) -> answers p ->
  exists tr s' e, tcp_turn s p = Some (tr, s', e) /\ Forall holds_bytes (clients s').
Proof.
  intros Hs Hp. unfold tcp_turn. destruct p as [[]| |r]; eauto 10.
  pose proof (poll_clients_spec r (fd <$> clients s) (clients s) []) as Heq. rewrite app_nil_r in Heq.
  rewrite Heq by done. destruct (serve_total r _ Hs Hp) as (tr & cs & -> & Hcs). cbn [mbind option_bind].
  rewrite app_nil_r. destruct (listener_pollin r); [|eauto 10].
  destruct (accept_clients_total {| clients := cs; next_fd := next_fd s |} (accepts r)) as (tr' & s' & e & -> & Hs');
    [done|apply Hp|]. cbn [mbind option_bind]. eauto 10.
Qed.

Lemma tcp_loop_total s polls :
  Forall holds_bytes (clients s) -> Forall answers polls -> is_Some (tcp_loop s polls).
Proof.
  intros Hs Hp. revert s Hs. induction Hp as [|p polls Hp _ IH]; intros s Hs; [done|].
  cbn [tcp_loop]. destruct (tcp_turn_total s p Hs Hp) as (tr & s' & e & -> & Hs'). cbn [mbind option_bind].
  destruct e; [done|]. destruct (IH s' Hs') as [[tr' e] ->]. done.
Qed.

(** ** Properties *)

(** The candidates of a stream of them, however it was cut. *)
Lemma framed_stream candidates fragments fs ex :
  Forall framed candidates -> concat fragments = concat candidates ->
  feed_all new_extractor fragments = Some (fs, ex) -> fs = candidates.
Proof.
  intros Hc Heq Hf.
  assert (Hok : Forall bytes_ok fragments).
  { apply Forall_concat. rewrite Heq. apply Forall_concat. by eapply Forall_impl; [done|intros ? []]. }
  pose proof (drains_framed_stream _ Hc) as Hd. destruct fragments as [|bs fragments].
  - injection Hf as <- <-. cbn [concat] in Heq. destruct Hc as [|c candidates (_ & [tl ->] & _) _]; [done|].
    discriminate Heq.
  - apply Forall_cons in Hok as [Hbs Hfr].
    destruct (feed_all_drains new_extractor bs fragments) as (gs & self' & Hg & Hd'); [constructor|done..|].
    rewrite Hf in Hg. injection Hg as <- <-.
    cbn [buffer_ new_extractor app concat] in *. rewrite Heq in Hd'.
    by destruct (drains_det _ _ _ _ _ Hd Hd') as [-> _].
Qed.

Lemma encoded_framed frames encoded :
  Forall2 (fun f e => frame_typed f /\ encodeFrame f = Ok e) frames encoded -> Forall framed encoded.
Proof. induction 1 as [|f e frames encoded [Hf He] _ IH]; constructor; [by eapply encoded_is_framed|done]. Qed.

(** The frames of a stream of encoded frames. *)
Lemma stream_frames frames encoded fragments fs ex :
  Forall2 (fun f e => frame_typed f /\ encodeFrame f = Ok e) frames encoded ->
  concat fragments = concat encoded ->
  feed_all new_extractor fragments = Some (fs, ex) -> fs = encoded.
Proof. intros Henc. apply framed_stream. by eapply encoded_framed. Qed.

(** C7: the clients of the TCP server do not disturb each other. Whatever [poll()], [recv()] and
    [accept()] answer, in whatever order the clients come, send and go, the frames called back for a
    connection are those that one extractor gives for the bytes of this connection; a connection that
    carried a sequence of encoded frames has all of them called back, once and in order. *)
Theorem tcp_clients_isolated : forall polls tr e f,
  runTcp polls = Some (tr, e) ->
  (exists ex, feed_all new_extractor (reads f tr) = Some (callbacks f tr, ex)) /\
  (forall frames encoded,
     Forall2 (fun f e => frame_typed f /\ encodeFrame f = Ok e) frames encoded ->
     concat (reads f tr) = concat encoded -> callbacks f tr = encoded).
Proof.
  intros polls tr e f Hrun. destruct (sound_tcp_loop _ [] _ _ _ sound_start Hrun) as [_ Hf].
  destruct (Hf f) as [ex Hex]. split; [by exists ex|]. intros frames encoded Henc Heq.
  by eapply stream_frames.
Qed.

(** The TCP server uses its descriptors well. On every run, those that end with an exception
    too, a descriptor is read, and called back for, only while it is open, none is closed twice and
    none stays open; and the run gives a result: no index of the loop over the snapshot is out of the
    list of the clients, whatever was removed before, and the loops end when the kernel's answers do. *)
Theorem tcp_descriptors_closed : forall polls,
  Forall answers polls ->
  exists tr e n, runTcp polls = Some (tr, e) /\ lifecycle ∅ 0 tr = Some (∅, n).
Proof.
  intros polls Hp.
  destruct (tcp_loop_total {| clients := []; next_fd := 0 |} polls) as [[tr e] Hrun]; [constructor|done|].
  destruct (sound_tcp_loop _ [] _ _ _ sound_start Hrun) as [[n Hn] _]. by exists tr, e, n.
Qed.

(** The datagrams that [recvfrom()] delivers before [poll()] fails. *)
Fixpoint datagrams (polls : list udp_poll) : list bytes :=
  match polls with
  | [] => []
  | UdpReady (Received datagram) :: polls => datagram :: datagrams polls
  | UdpPollFailed (EAGAIN | EOther _) :: _ => []
  | _ :: polls => datagrams polls
  end.

(** Each datagram of at most [MaxFrameSize] bytes is called back as it is, in the order of arrival,
    and no other; only a failure of [poll()] ends the loop. *)
Lemma runUdp_callbacks polls :
  callbacks 0 (fst (runUdp polls)) = filter (fun d => size d <= MaxFrameSize) (datagrams polls).
Proof.
  induction polls as [|p polls IH]; [done|]. cbn [runUdp datagrams].
  destruct p as [[]| |[d|[]]]; cbn [udp_turn]; try done;
    destruct (runUdp polls) as [tr e]; cbn [fst] in *; rewrite ?callbacks_app, ?IH; try done.
  destruct (size d >? MaxFrameSize) eqn:Hd; cbn [fst]; rewrite callbacks_app, IH, filter_cons.
  - by rewrite decide_False by lia.
  - by rewrite decide_True by lia.
Qed.

End Loops.

(** Two clients: the second one sends a frame in two pieces around a frame of the first. *)
Definition sample_events := {| pollin := true; pollhup := false; pollerr := false; pollnval := false |}.
Definition sample_connect : poll_result := PollReady {|
  listener_pollin := true; polled := fun _ => sample_events; recvs := fun _ => [RecvFailed EAGAIN];
  accepts := [Accepted (Ok tt); Accepted (Ok tt); AcceptFailed EAGAIN] |}.
Definition sample_read (a b : bytes) : poll_result := PollReady {|
  listener_pollin := false; polled := fun _ => sample_events;
  recvs := fun f => if decide (f = 0%nat) then [Received a; RecvFailed EAGAIN]
                    else [RecvFailed EINTR; Received b; Received []];
  accepts := [AcceptFailed EAGAIN] |}.
Definition sample_polls : list poll_result :=
  [sample_connect; PollFailed EINTR; sample_read (take 7 sample_bytes) sample_bytes; PollTimeout;
   sample_read (drop 7 sample_bytes) []].
Definition sample_run : list effect * option exn := default ([], None) (runTcp (fun _ => "error"%string) sample_polls).

Lemma tcp_clients_isolated_witness :
  callbacks 0 (fst sample_run) = [sample_bytes] /\ callbacks 1 (fst sample_run) = [sample_bytes].
Proof.
  split.
  - apply (tcp_clients_isolated (fun _ => "error"%string) sample_polls (fst sample_run) (snd sample_run) 0%nat)
      with (frames := [sample_frame]); [vm_compute; reflexivity| |vm_compute; reflexivity].
    apply Forall2_cons; split; [split; [exact sample_frame_typed|vm_compute; reflexivity]|constructor].
  - vm_compute. reflexivity.
Defined.

Lemma tcp_descriptors_closed_witness :
  exists tr e n, runTcp (fun _ => "error"%string) sample_polls = Some (tr, e) /\ lifecycle ∅ 0 tr = Some (∅, n).
Proof.
  apply tcp_descriptors_closed.
  repeat (apply Forall_cons; split); try exact I; try apply Forall_nil; split; try reflexivity;
    intros f; cbn [recvs sample_connect sample_read]; try case_decide; split; try reflexivity; decide_now.
Defined.
