(* ===== verification/ServerSocket.v ===== *)
(** The life of the listening socket: src/NetworkServer.cpp, and what src/NetworkServerTcp.cpp and
    src/NetworkServerUdp.cpp do in front of and behind the loops of [NetworkServer].

    Every system call has its answer in a [kernel]; [errno] is part of the state, as the calls set
    it and the messages of the exceptions read it. *)

From S2P Require Import Prelude ByteUtils Crc32 TextFormat FrameCodec StreamExtractor NetworkServer.

(** ** The kernel and the process *)

(** A call answers [-1] with [errno] set, [Failed], or what it is documented to return, which is not
    negative. *)
Inductive answer := Returned (v : N) | Failed (e : errno).
#[global] Arguments Returned v%_N_scope.

(** [loop] is what the calls of the loop answer, for the transport of the configuration. *)
Record kernel := {
  sys_socket : answer;
  sys_setsockopt : answer;
  sys_inet_pton : string -> option Z;
  sys_bind : answer;
  sys_getfl : answer;
  sys_setfl : answer;
  sys_listen : answer;
  sys_close : Z -> answer;
  tcp_polls : list poll_result;
  udp_polls : list udp_poll;
}.

Inductive sys_effect :=
  | SocketOpened (fd : Z)
  | SocketClosed (fd : Z)
  | Loop (e : effect).

(** The members of the server that change, [errno], and what was done. *)
Record world := {
  serverFd_ : Z;
  stopRequested_ : bool;
  errno_ : errno;
  trace : list sys_effect;
}.

Definition set_serverFd (fd : Z) (w : world) : world :=
  {| serverFd_ := fd; stopRequested_ := stopRequested_ w; errno_ := errno_ w; trace := trace w |}.
Definition set_stop (b : bool) (w : world) : world :=
  {| serverFd_ := serverFd_ w; stopRequested_ := b; errno_ := errno_ w; trace := trace w |}.
Definition set_errno (e : errno) (w : world) : world :=
  {| serverFd_ := serverFd_ w; stopRequested_ := stopRequested_ w; errno_ := e; trace := trace w |}.
Definition emit (tr : list sys_effect) (w : world) : world :=
  {| serverFd_ := serverFd_ w; stopRequested_ := stopRequested_ w; errno_ := errno_ w; trace := trace w ++ tr |}.

(** A function that may throw and changes the process. [None] when a script of the kernel ends
    within a turn of a loop, which goes on then. *)
Definition M (A : Type) : Type := world -> option (result A * world).
#[export] Instance M_ret : MRet M := fun A a w => Some (Ok a, w).
#[export] Instance M_bind : MBind M := fun A B f m w =>
  '(r, w) ← m w;
  match r with Ok a => f a w | Throw e => Some (Throw e, w) end.

Definition throw {A} (e : exn) : M A := fun w => Some (Throw e, w).
Definition modify (f : world -> world) : M unit := fun w => Some (Ok tt, f w).
Definition gets {A} (f : world -> A) : M A := fun w => Some (Ok (f w), w).

(** [c] on the way out of an exception: a destructor, or [catch (...)] with [throw;]. *)
Definition on_throw {A} (c : M unit) (m : M A) : M A := fun w =>
  '(r, w) ← m w;
  match r with
  | Ok a => Some (Ok a, w)
  | Throw e => '(_, w) ← c w; Some (Throw e, w)
  end.

Section Server.
Variable strerror : errno -> string.
Variable config : NetworkConfig.

Section Calls.
Variable k : kernel.

(** A call, with the exception of its failure. *)
Definition call (a : answer) (what : string) : M Z :=
  match a with
  | Returned v => mret (Z.of_N v)
  | Failed e =>
      _ ← modify (set_errno e);
      err ← gets errno_;
      throw (runtime_error (what +:+ strerror err))
  end.

(** ** [NetworkServer.cpp] *)

(** [closeFd] *)
Definition closeFd (fd : Z) : M Z :=
  if 0 <=? fd then
    _ ← modify (emit [SocketClosed fd]);
    _ ← modify (match sys_close k fd with Failed e => set_errno e | Returned _ => id end);
    mret (-1)
  else mret fd.

Definition closeServerSocket : M unit :=
  fd ← gets serverFd_; fd ← closeFd fd; modify (set_serverFd fd).

Definition makeAddress (address : string) : result Z :=
  match sys_inet_pton k address with
  | Some a => Ok a
  | None => Throw (runtime_error ("invalid IPv4 bind address: " +:+ address))
  end.

(** A [ScopedFd] over the rest of a function that ends with its [release()]. *)
Definition scoped (fd : Z) (m : M unit) : M Z :=
  _ ← on_throw (_ ← closeFd fd; mret tt) m; mret fd.

Definition socket : M Z :=
  fd ← call (sys_socket k) "socket() failed: ";
  _ ← modify (emit [SocketOpened fd]); mret fd.

(** The descriptor of a failed call is negative and is not closed. *)
Definition createBoundSocket : M Z :=
  fd ← socket;
  scoped fd
    (_ ← call (sys_setsockopt k) "setsockopt(SO_REUSEADDR) failed: ";
     match makeAddress (bindAddress config) with
     | Throw e => throw e
     | Ok _ =>
         _ ← call (sys_bind k) ("bind() failed on " +:+ bindAddress config +:+ ":" +:+
                                show_dec (port config) +:+ ": ");
         mret tt
     end).

(** ** The transports *)

Definition setNonBlocking : M unit :=
  _ ← call (sys_getfl k) "fcntl(F_GETFL) failed: ";
  _ ← call (sys_setfl k) "fcntl(F_SETFL) failed: ";
  mret tt.

Definition log_info (m : string) : M unit := modify (emit [Loop (LogInfo m)]).

(** The loop, of which an exception leaves the function. *)
Definition loop (l : option (list effect * option exn)) : M unit := fun w =>
  '(tr, e) ← l;
  Some (match e with Some e => Throw e | None => Ok tt end, emit (Loop <$> tr) w).

(** The socket is closed before [errno] is read for the message. *)
Definition listen : M unit :=
  match sys_listen k with
  | Returned _ => mret tt
  | Failed e =>
      _ ← modify (set_errno e);
      _ ← closeServerSocket;
      err ← gets errno_;
      throw (runtime_error ("listen() failed: " +:+ strerror err))
  end.

Definition runTcp : M unit :=
  fd ← createBoundSocket;
  _ ← modify (set_serverFd fd);
  _ ← setNonBlocking;
  _ ← listen;
  _ ← log_info ("TCP receiver listening on " +:+ bindAddress config +:+ ":" +:+ show_dec (port config));
  _ ← loop (NetworkServer.runTcp strerror (tcp_polls k));
  _ ← closeServerSocket;
  log_info "TCP receiver stopped".

Definition runUdp : M unit :=
  fd ← createBoundSocket;
  _ ← modify (set_serverFd fd);
  _ ← log_info ("UDP receiver listening on " +:+ bindAddress config +:+ ":" +:+ show_dec (port config));
  _ ← loop (Some (NetworkServer.runUdp strerror (udp_polls k)));
  _ ← closeServerSocket;
  log_info "UDP receiver stopped".

Definition run : M unit :=
  _ ← modify (set_stop false);
  on_throw closeServerSocket
    match transport config with
    | Udp => runUdp
    | Tcp => runTcp
    end.

Definition stop : M unit := modify (set_stop true).

(** [~NetworkServer] *)
Definition destroy : M unit := _ ← stop; closeServerSocket.

End Calls.

(** ** What is promised *)

(** The listening socket over a trace: one at a time, which the loop uses only while it is open, and
    which is closed once. [None] when something else happens. *)
Definition owns (o : option (option Z)) (e : sys_effect) : option (option Z) :=
  held ← o;
  match e, held with
  | SocketOpened fd, None => Some (Some fd)
  | SocketClosed fd, Some fd' => if decide (fd = fd') then Some None else None
  | Loop (LogInfo _ | LogWarning _), _ => Some held
  | Loop _, Some _ => Some held
  | _, _ => None
  end.
Definition owned (tr : list sys_effect) : option (option Z) := foldl owns (Some None) tr.

Definition loop_effects (tr : list sys_effect) : list effect :=
  omap (fun e => match e with Loop e => Some e | _ => None end) tr.

(** What the loop does, without the log. *)
Definition is_log (e : effect) : bool := match e with LogInfo _ | LogWarning _ => true | _ => false end.
Definition traffic (tr : list effect) : list effect := filter (fun e => is_log e = false) tr.

Fixpoint first {A} (l : list (option A)) : option A :=
  match l with [] => None | Some a :: _ => Some a | None :: l => first l end.

(** The calls in their order, each with the exception of its failure. The one of [listen()] has the
    error of the [close()] in front of the message where that fails too. *)
Definition failed (a : answer) (what : string) : option exn :=
  match a with Failed e => Some (runtime_error (what +:+ strerror e)) | Returned _ => None end.

Definition bound_setup (k : kernel) : list (option exn) :=
  [failed (sys_socket k) "socket() failed: ";
   failed (sys_setsockopt k) "setsockopt(SO_REUSEADDR) failed: ";
   match sys_inet_pton k (bindAddress config) with
   | Some _ => None
   | None => Some (runtime_error ("invalid IPv4 bind address: " +:+ bindAddress config))
   end;
   failed (sys_bind k) ("bind() failed on " +:+ bindAddress config +:+ ":" +:+ show_dec (port config) +:+ ": ")].
Definition listen_failed (k : kernel) (fd : Z) : option exn :=
  match sys_listen k with
  | Returned _ => None
  | Failed e =>
      Some (runtime_error ("listen() failed: " +:+
                           strerror (match sys_close k fd with Failed e' => e' | Returned _ => e end)))
  end.
Definition listening_fd (k : kernel) : Z := match sys_socket k with Returned fd => Z.of_N fd | Failed _ => -1 end.
Definition transport_setup (k : kernel) : list (option exn) :=
  match transport config with
  | Udp => []
  | Tcp => [failed (sys_getfl k) "fcntl(F_GETFL) failed: "; failed (sys_setfl k) "fcntl(F_SETFL) failed: ";
            listen_failed k (listening_fd k)]
  end.
Definition first_failure (k : kernel) : option exn := first (bound_setup k ++ transport_setup k).

Definition loop_result (k : kernel) : option (list effect * option exn) :=
  match transport config with
  | Udp => Some (NetworkServer.runUdp strerror (udp_polls k))
  | Tcp => NetworkServer.runTcp strerror (tcp_polls k)
  end.

(** In each turn of the loop of TCP the script says how the [recv()] and [accept()] loops of the turn
    end. (A script that stops before is a turn that is not over.) *)
Definition answered (k : kernel) : Prop :=
  match transport config with Tcp => Forall answers (tcp_polls k) | Udp => True end.

Lemma owns_loop fd tr : foldl owns (Some (Some fd)) (Loop <$> tr) = Some (Some fd).
Proof. induction tr as [|e tr IH]; [done|]. rewrite fmap_cons. cbn [foldl]. by destruct e. Qed.

Lemma loop_effects_app a b : loop_effects (a ++ b) = loop_effects a ++ loop_effects b.
Proof. apply omap_app. Qed.

Lemma traffic_app a b : traffic (a ++ b) = traffic a ++ traffic b.
Proof. apply filter_app. Qed.

Lemma lifecycle_traffic open next tr : lifecycle open next (traffic tr) = lifecycle open next tr.
Proof.
  unfold lifecycle. generalize (Some (open, next)). induction tr as [|e tr IH]; intros o; [done|].
  unfold traffic in *. rewrite filter_cons. destruct e; cbn [is_log]; rewrite ?decide_True, ?decide_False by done;
    cbn [foldl]; rewrite IH; try done; by destruct o as [[]|].
Qed.

Lemma loop_effects_loop tr : loop_effects (Loop <$> tr) = tr.
Proof. induction tr as [|e tr IH]; [done|]. rewrite fmap_cons. unfold loop_effects in *. cbn. by rewrite IH. Qed.

(** ** Running the functions *)

(** [m] ends with [r] in every process whose server holds [fd]: the server holds [fd'] then, and
    [tr] was done. *)
Definition does {A} (m : M A) (fd : Z) (r : result A) (fd' : Z) (tr : list sys_effect) : Prop :=
  forall w, serverFd_ w = fd -> exists w', m w = Some (r, w') /\ serverFd_ w' = fd' /\ trace w' = trace w ++ tr.

Lemma does_ret {A} (a : A) fd : does (mret a) fd (Ok a) fd [].
Proof. intros w Hw. exists w. by rewrite app_nil_r. Qed.

Lemma does_throw {A} e fd : does (@throw A e) fd (Throw e) fd [].
Proof. intros w Hw. exists w. by rewrite app_nil_r. Qed.

Lemma does_bind {A B} (m : M A) (f : A -> M B) fd a fd1 tr1 r fd2 tr2 :
  does m fd (Ok a) fd1 tr1 -> does (f a) fd1 r fd2 tr2 -> does (m ≫= f) fd r fd2 (tr1 ++ tr2).
Proof.
  intros Hm Hf w Hw. destruct (Hm w Hw) as (w1 & He & H1 & Ht). destruct (Hf w1 H1) as (w2 & He' & H2 & Ht').
  exists w2. unfold mbind, M_bind. rewrite He. split; [done|]. split; [done|]. by rewrite Ht', Ht, app_assoc.
Qed.

Lemma does_bind_throw {A B} (m : M A) (f : A -> M B) fd e fd1 tr :
  does m fd (Throw e) fd1 tr -> does (m ≫= f) fd (Throw e) fd1 tr.
Proof.
  intros Hm w Hw. destruct (Hm w Hw) as (w1 & He & H1 & Ht). exists w1. unfold mbind, M_bind. by rewrite He.
Qed.

Lemma does_on_throw {A} (c : M unit) (m : M A) fd r fd1 tr1 fd2 tr2 :
  does m fd r fd1 tr1 ->
  match r with Ok _ => fd2 = fd1 /\ tr2 = [] | Throw _ => does c fd1 (Ok tt) fd2 tr2 end ->
  does (on_throw c m) fd r fd2 (tr1 ++ tr2).
Proof.
  intros Hm Hc w Hw. destruct (Hm w Hw) as (w1 & He & H1 & Ht). unfold on_throw. rewrite He.
  cbn [mbind option_bind]. destruct r as [a|e].
  - destruct Hc as [-> ->]. exists w1. by rewrite app_nil_r.
  - destruct (Hc w1 H1) as (w2 & -> & H2 & Ht2). exists w2. split; [done|]. split; [done|]. by rewrite Ht2, Ht, app_assoc.
Qed.

Lemma does_emit tr fd : does (modify (emit tr)) fd (Ok tt) fd tr.
Proof. intros w Hw. by eexists. Qed.

Lemma does_set_serverFd fd fd' : does (modify (set_serverFd fd')) fd (Ok tt) fd' [].
Proof. intros w Hw. eexists. split; [done|]. split; [done|]. symmetry. apply app_nil_r. Qed.

Definition thrown {A} (o : option exn) (a : A) : result A := match o with Some e => Throw e | None => Ok a end.

Lemma does_call a what fd :
  does (call a what) fd (thrown (failed a what) (match a with Returned v => Z.of_N v | Failed _ => 0 end)) fd [].
Proof.
  destruct a as [v|e]; [apply does_ret|]. intros w Hw. eexists. split; [done|]. split; [done|].
  symmetry. apply app_nil_r.
Qed.

Lemma does_set_stop b fd : does (modify (set_stop b)) fd (Ok tt) fd [].
Proof. intros w Hw. eexists. split; [done|]. split; [done|]. symmetry. apply app_nil_r. Qed.

Section Kernel.
Context (k : kernel).

(** Whether [close()] fails or not. *)
Lemma does_closeFd fd0 fd : 0 <= fd -> does (closeFd k fd) fd0 (Ok (-1)) fd0 [SocketClosed fd].
Proof.
  intros Hfd w Hw. unfold closeFd. rewrite (proj2 (Z.leb_le _ _) Hfd).
  destruct (sys_close k fd); by eexists.
Qed.

Lemma does_closeServerSocket fd : 0 <= fd -> does (closeServerSocket k) fd (Ok tt) (-1) [SocketClosed fd].
Proof.
  intros Hfd w Hw. destruct (does_closeFd fd fd Hfd w Hw) as (w1 & He & H1 & Ht).
  exists (set_serverFd (-1) w1). unfold closeServerSocket, gets. cbn [mbind M_bind option_bind].
  unfold mbind, M_bind. cbn [mbind option_bind]. rewrite Hw, He. done.
Qed.

(** Nothing is closed twice. *)
Lemma does_closeServerSocket_again : does (closeServerSocket k) (-1) (Ok tt) (-1) [].
Proof.
  intros w Hw. exists w. unfold closeServerSocket, gets, closeFd, mbind, M_bind. cbn [mbind option_bind].
  rewrite Hw. cbn. rewrite app_nil_r. split; [|done]. destruct w; cbn in *. by subst.
Qed.

(** ** Getting a bound socket *)

Lemma does_socket fd0 :
  match sys_socket k with
  | Returned fd => does (socket k) fd0 (Ok (Z.of_N fd)) fd0 [SocketOpened (Z.of_N fd)]
  | Failed e => does (socket k) fd0 (Throw (runtime_error ("socket() failed: " +:+ strerror e))) fd0 []
  end.
Proof.
  unfold socket. pose proof (does_call (sys_socket k) "socket() failed: " fd0) as Hcall.
  destruct (sys_socket k) as [fd|e].
  - apply (does_bind _ _ _ (Z.of_N fd) fd0 [] _ _ [SocketOpened (Z.of_N fd)]); [done|].
    apply (does_bind _ _ _ tt fd0 [SocketOpened (Z.of_N fd)] _ _ []); [apply does_emit|apply does_ret].
  - by apply does_bind_throw.
Qed.

(** Without a failure there is an open descriptor; with one nothing is left open. *)
Lemma does_createBoundSocket fd0 :
  match first (bound_setup k) with
  | None => 0 <= listening_fd k /\
      does (createBoundSocket k) fd0 (Ok (listening_fd k)) fd0 [SocketOpened (listening_fd k)]
  | Some e => exists tr, does (createBoundSocket k) fd0 (Throw e) fd0 tr /\ owned tr = Some None /\ loop_effects tr = []
  end.
Proof.
  pose proof (does_socket fd0) as Hsocket. unfold bound_setup, createBoundSocket, listening_fd.
  destruct (sys_socket k) as [v|e]; cbn [failed]; last first.
  { cbn [first]. exists []. split; [by apply does_bind_throw|done]. }
  pose proof (N2Z.is_nonneg v) as Hfd. set (fd := Z.of_N v) in *.
  set (m := _ ≫= _ : M unit).
  assert (Hm : forall r, does m fd0 r fd0 [] ->
    match r with
    | Ok _ => does (scoped k fd m) fd0 (Ok fd) fd0 []
    | Throw e => does (scoped k fd m) fd0 (Throw e) fd0 [SocketClosed fd]
    end).
  { intros [[]|e] Hr; unfold scoped.
    - apply (does_bind _ _ _ tt fd0 [] _ _ []); [|apply does_ret].
      by apply (does_on_throw _ _ _ _ fd0 [] fd0 []).
    - apply does_bind_throw. apply (does_on_throw _ _ _ _ fd0 [] fd0 [SocketClosed fd]); [done|].
      apply (does_bind _ _ _ (-1) fd0 [SocketClosed fd] _ _ []); [by apply does_closeFd|apply does_ret]. }
  set (f1 := failed (sys_setsockopt k) _). set (f2 := match sys_inet_pton k _ with Some _ => _ | None => _ end).
  set (f3 := failed (sys_bind k) _).
  assert (Hr : does m fd0 (thrown (first [f1; f2; f3]) tt) fd0 []).
  { subst m. pose proof (does_call (sys_setsockopt k) "setsockopt(SO_REUSEADDR) failed: " fd0) as H1. fold f1 in H1.
    destruct f1 as [e|]; cbn [thrown first] in *; [by apply does_bind_throw|].
    eapply (does_bind _ _ _ _ fd0 [] _ _ []); [done|]. unfold makeAddress. subst f2.
    destruct (sys_inet_pton k (bindAddress config)) as [a|]; cbn [thrown first]; [|apply does_throw].
    pose proof (does_call (sys_bind k) ("bind() failed on " +:+ bindAddress config +:+ ":" +:+ show_dec (port config) +:+ ": ") fd0) as H3.
    fold f3 in H3. destruct f3 as [e|]; cbn [thrown first] in *; [by apply does_bind_throw|].
    eapply (does_bind _ _ _ _ fd0 [] _ _ []); [done|]. apply does_ret. }
  apply Hm in Hr. change (first (None :: ?l)) with (first l). destruct (first [f1; f2; f3]) as [e|]; cbn [thrown] in Hr.
  - exists [SocketOpened fd; SocketClosed fd].
    split; [by apply (does_bind _ _ _ fd fd0 [SocketOpened fd] _ _ [SocketClosed fd])|].
    unfold owned. cbn [foldl owns mbind option_bind]. by rewrite decide_True.
  - split; [done|]. by apply (does_bind _ _ _ fd fd0 [SocketOpened fd] _ _ []).
Qed.

(** ** The whole run *)

Lemma first_app {A} (a b : list (option A)) : first (a ++ b) = match first a with Some x => Some x | None => first b end.
Proof. induction a as [|[x|] a IH]; [done|done|]. apply IH. Qed.

(** What is done once there is a bound socket: the loop, where the rest of the setup does not fail. *)
Definition transport_result (k : kernel) (l : option (list effect * option exn)) : result unit :=
  match first (transport_setup k) with
  | Some e => Throw e
  | None => match l with Some (_, e) => thrown e tt | None => Ok tt end
  end.

Definition transport_heard (k : kernel) (l : option (list effect * option exn)) : list effect :=
  match first (transport_setup k) with
  | Some _ => []
  | None => match l with Some (tr, _) => traffic tr | None => [] end
  end.

Lemma does_loop l tr e fd : l = Some (tr, e) -> does (loop l) fd (thrown e tt) fd (Loop <$> tr).
Proof. intros -> w Hw. eexists. split; [by destruct e|done]. Qed.

Lemma does_setNonBlocking fd :
  does (setNonBlocking k) fd
    (thrown (first [failed (sys_getfl k) "fcntl(F_GETFL) failed: "; failed (sys_setfl k) "fcntl(F_SETFL) failed: "]) tt)
    fd [].
Proof.
  unfold setNonBlocking. pose proof (does_call (sys_getfl k) "fcntl(F_GETFL) failed: " fd) as H1.
  destruct (failed (sys_getfl k) _) as [e|]; cbn [thrown first] in *; [by apply does_bind_throw|].
  eapply (does_bind _ _ _ _ fd [] _ _ []); [done|].
  pose proof (does_call (sys_setfl k) "fcntl(F_SETFL) failed: " fd) as H2.
  destruct (failed (sys_setfl k) _) as [e|]; cbn [thrown first] in *; [by apply does_bind_throw|].
  eapply (does_bind _ _ _ _ fd [] _ _ []); [done|]. apply does_ret.
Qed.

(** The message is about [listen()], unless [close()] fails too. *)
Lemma does_listen fd :
  0 <= fd ->
  match listen_failed k fd with
  | Some e => does (listen k) fd (Throw e) (-1) [SocketClosed fd]
  | None => does (listen k) fd (Ok tt) fd []
  end.
Proof.
  intros Hfd. unfold listen, listen_failed. destruct (sys_listen k) as [v|e]; [apply does_ret|].
  intros [fd' b err tr] Hw. cbn in Hw. subst fd'.
  unfold closeServerSocket, closeFd. cbv [mbind M_bind modify gets throw option_bind set_errno serverFd_].
  rewrite (proj2 (Z.leb_le _ _) Hfd). destruct (sys_close k fd); by eexists.
Qed.

(** [m], which begins with the listening socket [fd], closes it or leaves it to [run]; the loop does
    [heard] in it. *)
Definition leaves (m : M unit) (fd : Z) (r : result unit) (heard : list effect) : Prop :=
  exists fd' tr, does m fd r fd' tr /\ traffic (loop_effects tr) = heard /\
    foldl owns (Some (Some fd)) tr = Some (if decide (fd' = fd) then Some fd else None) /\
    (fd' = -1 \/ fd' = fd /\ is_ok r = false).

Lemma serve_leaves listening stopped l tr e fd :
  0 <= fd -> l = Some (tr, e) ->
  leaves (_ ← log_info listening; _ ← loop l; _ ← closeServerSocket k; log_info stopped) fd (thrown e tt) (traffic tr).
Proof.
  intros Hfd Hl. pose proof (does_loop _ tr e fd Hl) as Hloop. clear Hl. destruct e as [e|]; cbn [thrown] in *.
  - exists fd, ([Loop (LogInfo listening)] ++ (Loop <$> tr)). split; [|split; [|split]].
    + eapply (does_bind _ _ _ _ fd); [apply does_emit|]. by apply does_bind_throw.
    + by rewrite loop_effects_app, loop_effects_loop, traffic_app.
    + rewrite foldl_app, decide_True by done. apply owns_loop.
    + by right.
  - exists (-1), ([Loop (LogInfo listening)] ++ (Loop <$> tr) ++ [SocketClosed fd] ++ [Loop (LogInfo stopped)]).
    split; [|split; [|split]].
    + eapply (does_bind _ _ _ _ fd); [apply does_emit|]. eapply (does_bind _ _ _ _ fd); [done|].
      eapply (does_bind _ _ _ _ (-1)); [by apply does_closeServerSocket|apply does_emit].
    + rewrite !loop_effects_app, loop_effects_loop, !traffic_app. apply app_nil_r.
    + rewrite !foldl_app, decide_False by lia. change (foldl owns (Some (Some fd)) [Loop (LogInfo listening)]) with (Some (Some fd)).
      rewrite owns_loop. cbn [foldl owns mbind option_bind]. by rewrite decide_True.
    + by left.
Qed.

Lemma leaves_bind {A} (m : M A) (f : A -> M unit) fd a r heard :
  does m fd (Ok a) fd [] -> leaves (f a) fd r heard -> leaves (m ≫= f) fd r heard.
Proof.
  intros Hm (fd' & tr & Hd & H). exists fd', tr. split; [|done]. by apply (does_bind _ _ _ a fd [] _ _ tr).
Qed.

Lemma tcp_leaves fd :
  transport config = Tcp -> answered k -> 0 <= fd -> fd = listening_fd k ->
  leaves (_ ← setNonBlocking k; _ ← listen k;
          _ ← log_info ("TCP receiver listening on " +:+ bindAddress config +:+ ":" +:+ show_dec (port config));
          _ ← loop (NetworkServer.runTcp strerror (tcp_polls k));
          _ ← closeServerSocket k;
          log_info "TCP receiver stopped") fd
    (transport_result k (NetworkServer.runTcp strerror (tcp_polls k)))
    (transport_heard k (NetworkServer.runTcp strerror (tcp_polls k))).
Proof.
  intros Ht Hans Hfd Heq. unfold answered in Hans. unfold transport_result, transport_heard, transport_setup.
  rewrite Ht in *. rewrite <- Heq. pose proof (does_setNonBlocking fd) as Hnb.
  set (f1 := failed (sys_getfl k) _) in *. set (f2 := failed (sys_setfl k) _) in *.
  change (first [f1; f2; ?f3]) with (first ([f1; f2] ++ [f3])). rewrite first_app.
  destruct (first [f1; f2]) as [e|]; cbn [thrown] in Hnb.
  { exists fd, []. split; [by apply does_bind_throw|]. split; [done|]. rewrite decide_True by done.
    split; [done|]. by right. }
  apply (leaves_bind _ _ _ tt); [done|].
  pose proof (does_listen fd Hfd) as Hl. cbn [first]. destruct (listen_failed k fd) as [e|].
  { exists (-1), [SocketClosed fd]. split; [by apply does_bind_throw|]. split; [done|].
    rewrite decide_False by lia. split; [|by left]. cbn [foldl owns mbind option_bind]. by rewrite decide_True. }
  apply (leaves_bind _ _ _ tt); [done|].
  destruct (tcp_loop_total strerror {| clients := []; next_fd := 0 |} (tcp_polls k)) as [[tr e] Hrun];
    [constructor|done|].
  fold (NetworkServer.runTcp strerror (tcp_polls k)) in Hrun. rewrite Hrun. by apply serve_leaves.
Qed.

Lemma udp_leaves fd :
  transport config = Udp -> 0 <= fd ->
  leaves (_ ← log_info ("UDP receiver listening on " +:+ bindAddress config +:+ ":" +:+ show_dec (port config));
          _ ← loop (Some (NetworkServer.runUdp strerror (udp_polls k)));
          _ ← closeServerSocket k;
          log_info "UDP receiver stopped") fd
    (transport_result k (Some (NetworkServer.runUdp strerror (udp_polls k))))
    (transport_heard k (Some (NetworkServer.runUdp strerror (udp_polls k)))).
Proof.
  intros Ht Hfd. unfold transport_result, transport_heard, transport_setup. rewrite Ht. cbn [first].
  destruct (NetworkServer.runUdp strerror (udp_polls k)) as [tr e]. by apply serve_leaves.
Qed.

(** What [run] does, without its [catch]. *)
Definition run_result (k : kernel) : result unit :=
  match first_failure k with
  | Some e => Throw e
  | None => match loop_result k with Some (_, e) => thrown e tt | None => Ok tt end
  end.

Definition run_heard (k : kernel) : list effect :=
  match first_failure k with
  | Some e => []
  | None => match loop_result k with Some (tr, _) => traffic tr | None => [] end
  end.

Lemma server_leaves (rest : Z -> M unit) :
  (forall fd, 0 <= fd -> fd = listening_fd k -> leaves (rest fd) fd (transport_result k (loop_result k)) (transport_heard k (loop_result k))) ->
  exists tr, does (on_throw (closeServerSocket k) (fd ← createBoundSocket k; _ ← modify (set_serverFd fd); rest fd))
      (-1) (run_result k) (-1) tr /\ owned tr = Some None /\ traffic (loop_effects tr) = run_heard k.
Proof.
  intros Hrest. unfold run_result, run_heard, first_failure. rewrite first_app.
  pose proof (does_createBoundSocket (-1)) as Hb. destruct (first (bound_setup k)) as [e|].
  - destruct Hb as (tr & Hd & Ho & Hl). exists (tr ++ []). split; [|rewrite app_nil_r; split; [done|]].
    + eapply does_on_throw; [by apply does_bind_throw|]. apply does_closeServerSocket_again.
    + by rewrite Hl.
  - destruct Hb as [Hfd Hd]. set (fd := listening_fd k) in *. destruct (Hrest fd Hfd eq_refl) as (fd' & tr & Hr & Hc & Ho & Hfd').
    fold (transport_result k (loop_result k)) (transport_heard k (loop_result k)).
    assert (Hm : does (fd ← createBoundSocket k; _ ← modify (set_serverFd fd); rest fd) (-1)
      (transport_result k (loop_result k)) fd' ([SocketOpened fd] ++ tr)).
    { eapply (does_bind _ _ _ _ (-1)); [done|]. eapply (does_bind _ _ _ _ fd [] _ _ tr); [apply does_set_serverFd|done]. }
    assert (Hopen : owned ([SocketOpened fd] ++ tr) = Some (if decide (fd' = fd) then Some fd else None)) by done.
    assert (Hloop : forall b, loop_effects b = [] ->
      traffic (loop_effects (([SocketOpened fd] ++ tr) ++ b)) = transport_heard k (loop_result k)).
    { intros b Hb. rewrite !loop_effects_app, Hb, app_nil_r. exact Hc. }
    destruct Hfd' as [->|[-> Herr]].
    + exists (([SocketOpened fd] ++ tr) ++ []). rewrite decide_False in Hopen by lia.
      split; [|split; [by rewrite app_nil_r|by apply Hloop]].
      eapply does_on_throw; [done|]. destruct (transport_result _ _); [done|]. apply does_closeServerSocket_again.
    + exists (([SocketOpened fd] ++ tr) ++ [SocketClosed fd]). rewrite decide_True in Hopen by done.
      split; [|split; [|by apply Hloop]].
      * eapply does_on_throw; [done|]. destruct (transport_result _ _); [done|]. by apply does_closeServerSocket.
      * unfold owned in *. rewrite foldl_app, Hopen. cbn [foldl owns mbind option_bind]. by rewrite decide_True.
Qed.

Lemma does_run : answered k -> exists tr, does (run k) (-1) (run_result k) (-1) tr /\ owned tr = Some None /\ traffic (loop_effects tr) = run_heard k.
Proof.
  intros Hans. assert (H : exists tr, does (on_throw (closeServerSocket k) match transport config with Udp => runUdp k | Tcp => runTcp k end)
    (-1) (run_result k) (-1) tr /\ owned tr = Some None /\ traffic (loop_effects tr) = run_heard k).
  { destruct (transport config) eqn:Ht.
    - apply (server_leaves (fun fd =>
        _ ← log_info ("UDP receiver listening on " +:+ bindAddress config +:+ ":" +:+ show_dec (port config));
        _ ← loop (Some (NetworkServer.runUdp strerror (udp_polls k)));
        _ ← closeServerSocket k;
        log_info "UDP receiver stopped")).
      intros fd Hfd _. unfold loop_result. rewrite Ht. by apply udp_leaves.
    - apply (server_leaves (fun fd =>
        _ ← setNonBlocking k; _ ← listen k;
        _ ← log_info ("TCP receiver listening on " +:+ bindAddress config +:+ ":" +:+ show_dec (port config));
        _ ← loop (NetworkServer.runTcp strerror (tcp_polls k));
        _ ← closeServerSocket k;
        log_info "TCP receiver stopped")).
      intros fd Hfd Heq. unfold loop_result. rewrite Ht. by apply tcp_leaves. }
  destruct H as (tr & Hd & H). exists tr. split; [|done]. unfold run.
  eapply (does_bind _ _ _ _ (-1) [] _ _ tr); [apply does_set_stop|exact Hd].
Qed.

End Kernel.

(** ** Properties *)

(** What a run does with the clients of TCP. *)
Lemma run_heard_closed k :
  transport config = Tcp -> exists n, lifecycle ∅ 0 (run_heard k) = Some (∅, n).
Proof.
  intros Ht. unfold run_heard, loop_result. rewrite Ht. destruct (first_failure k); [by exists 0%nat|].
  destruct (NetworkServer.runTcp _ _) as [[tr e]|] eqn:Hrun; [|by exists 0%nat].
  destruct (sound_tcp_loop strerror _ [] _ _ _ sound_start Hrun) as [[n Hn] _]. exists n. by rewrite lifecycle_traffic.
Qed.

(** C21: on every run of the server, whichever calls of its life fail, [close()] too, the listening
    socket that was opened is closed exactly once, the loop uses it only while it is open, and so it
    is with the descriptors of the clients; afterwards the destructor closes nothing. The run ends
    with the exception of the first call that failed, behind which the loop is not entered (the
    message of a failed [listen()] is that of the [close()] behind it if this fails as well), or with
    what the loop ends with. For TCP the script of answers has the end of every [recv()] and
    [accept()] loop that it begins. *)
Theorem server_closes_descriptors : forall k w,
  answered k -> serverFd_ w = -1 ->
  exists w' tr,
    run k w = Some (run_result k, w') /\ trace w' = trace w ++ tr /\
    owned tr = Some None /\ traffic (loop_effects tr) = run_heard k /\
    (transport config = Tcp -> exists n, lifecycle ∅ 0 (loop_effects tr) = Some (∅, n)) /\
    exists w'', destroy k w' = Some (Ok tt, w'') /\ trace w'' = trace w'.
Proof.
  intros k w Hans Hw. destruct (does_run k Hans) as (tr & Hd & Ho & Hc).
  destruct (Hd w Hw) as (w' & Hrun & Hw' & Ht). exists w', tr. do 4 (split; [done|]).
  split; [intros Htcp; rewrite <- lifecycle_traffic, Hc; by apply run_heard_closed|].
  assert (Hdes : does (destroy k) (-1) (Ok tt) (-1) []).
  { eapply (does_bind _ _ _ _ (-1) [] _ _ []); [apply does_set_stop|apply does_closeServerSocket_again]. }
  destruct (Hdes w' Hw') as (w'' & He & _ & Ht'). exists w''. by rewrite Ht', app_nil_r.
Qed.

End Server.

(** ** Witnesses *)

Definition sample_config (t : Transport) : NetworkConfig :=
  {| transport := t; bindAddress := "127.0.0.1"; port := 9000; pollTimeoutMs := 250 |}.

(** The connections of [sample_polls], with the answer of [listen()] and of [close()]. *)
Definition sample_kernel (listens closes : answer) : kernel := {|
  sys_socket := Returned 5; sys_setsockopt := Returned 0;
  sys_inet_pton := fun a => if bool_decide (a = "127.0.0.1"%string) then Some 0x7F000001 else None;
  sys_bind := Returned 0; sys_getfl := Returned 2; sys_setfl := Returned 0; sys_listen := listens;
  sys_close := fun _ => closes; tcp_polls := sample_polls; udp_polls := [] |}.

Definition idle : world := {| serverFd_ := -1; stopRequested_ := true; errno_ := EOther 0; trace := [] |}.
Definition sample_strerror (e : errno) : string :=
  match e with EINTR => "interrupted" | EAGAIN => "again" | EOther n => show_dec n end.

Lemma sample_answered listens closes : answered (sample_config Tcp) (sample_kernel listens closes).
Proof.
  unfold answered. cbn [transport sample_config tcp_polls sample_kernel].
  repeat (apply Forall_cons; split); try exact I; try apply Forall_nil; split; try reflexivity;
    intros f; cbn [recvs sample_connect sample_read]; try case_decide; split; try reflexivity; decide_now.
Qed.

(** A run whose [close()] fails. *)
Lemma server_closes_descriptors_witness :
  let k := sample_kernel (Returned 0) (Failed (EOther 5)) in
  exists w' tr,
    run sample_strerror (sample_config Tcp) k idle = Some (Ok tt, w') /\
    trace w' = [] ++ tr /\ owned tr = Some None /\
    traffic (loop_effects tr) = run_heard sample_strerror (sample_config Tcp) k /\
    (Tcp = Tcp -> exists n, lifecycle ∅ 0 (loop_effects tr) = Some (∅, n)) /\
    exists w'', destroy k w' = Some (Ok tt, w'') /\ trace w'' = trace w'.
Proof.
  apply (server_closes_descriptors sample_strerror (sample_config Tcp)
    (sample_kernel (Returned 0) (Failed (EOther 5))) idle).
  - apply sample_answered.
  - reflexivity.
Defined.

(** When [listen()] fails and [close()] does too, the message is about [close()]. *)
Lemma listen_errno_lost :
  fst <$> run sample_strerror (sample_config Tcp) (sample_kernel (Failed (EOther 98)) (Failed (EOther 5))) idle
  = Some (Throw (runtime_error "listen() failed: 5")).
Proof. vm_compute. reflexivity. Qed.
