(* ===== verification/CliParsing.v ===== *)
(** [include/stgs/CliParsing.hpp]: the strict reading of the values of a command line.

    [parseUnsigned] accepts exactly the decimal integers of its range, [parsePortRange] gives only
    valid ranges and reads back what is printed. [std::strtod] is a parameter, universally
    quantified: the checks that follow it do not trust it. *)

From S2P Require Import Prelude TextFormat Floats.

(** A value that throws does not continue. *)
Lemma bind_Ok {A B} (m : result A) (f : A -> result B) b :
  m ≫= f = Ok b -> exists a, m = Ok a /\ f a = Ok b.
Proof. destruct m as [a|e]; [|done]. intros H. by exists a. Qed.

Ltac bind_inv :=
  repeat match goal with
  | H : _ ≫= _ = Ok _ |- _ => apply bind_Ok in H as (? & ? & H)
  end.

(** ** Views of characters *)

Definition u16_max : Z := 65535.
Definition u64_max : Z := 18446744073709551615.

(** [value.find(c)]: [None] is [npos]. *)
Fixpoint find_char (c : ascii) (value : string) : option nat :=
  match value with
  | EmptyString => None
  | String d value => if decide (d = c) then Some O else S <$> find_char c value
  end.

(** [value.substr(0, n)] and [value.substr(n)]. *)
Fixpoint str_take (n : nat) (value : string) : string :=
  match n, value with
  | S n, String c value => String c (str_take n value)
  | _, _ => EmptyString
  end.
Fixpoint str_drop (n : nat) (value : string) : string :=
  match n, value with
  | S n, String _ value => str_drop n value
  | _, _ => value
  end.

(** [std::from_chars] in base 10 for [unsigned long long]: the longest beginning of digits. *)
Definition digit_value (c : ascii) : option Z :=
  if (48 <=? char_code c) && (char_code c <=? 57) then Some (char_code c - 48) else None.

Fixpoint digits_prefix (cs : list ascii) : list Z * list ascii :=
  match cs with
  | [] => ([], [])
  | c :: cs =>
      match digit_value c with
      | Some d => let '(ds, rest) := digits_prefix cs in (d :: ds, rest)
      | None => ([], c :: cs)
      end
  end.

Inductive errc := errc_ok | invalid_argument_errc | result_out_of_range.

(** [result.ec], the number, and what is left behind [result.ptr]. *)
Definition from_chars (cs : list ascii) : errc * Z * list ascii :=
  let '(ds, rest) := digits_prefix cs in
  match ds with
  | [] => (invalid_argument_errc, 0, cs)
  | _ => if of_digits 10 ds >? u64_max then (result_out_of_range, 0, rest)
         else (errc_ok, of_digits 10 ds, rest)
  end.

(** ** Integers *)

(** [parseUnsigned<UInt>], with [UIntMax] the greatest value of [UInt]. *)
Definition parseUnsigned (UIntMax : Z) (value name : string) (minimum maximum : Z) : result Z :=
  throw_if (bool_decide (value = "")) (runtime_error (name +:+ " requires a decimal integer")) ;;
  let '(ec, parsed, rest) := from_chars (chars_of_string value) in
  throw_if (match ec, rest with errc_ok, [] => false | _, _ => true end)
    (runtime_error (name +:+ " contains an invalid integer: " +:+ value)) ;;
  throw_if (parsed >? UIntMax) (runtime_error (name +:+ " exceeds the target integer range")) ;;
  let converted := parsed in
  throw_if ((converted <? minimum) || (converted >? maximum))
    (runtime_error (name +:+ " is outside the allowed range")) ;;
  Ok converted.

(** ** Ranges of ports *)

Definition MinimumNetworkPort : Z := 1.
Definition MaximumNetworkPort : Z := u16_max.

Record PortRange := { first : Z; last : Z }.

Definition valid (r : PortRange) : bool := (first r >=? MinimumNetworkPort) && (last r >=? first r).

Definition count (r : PortRange) : Z := if negb (valid r) then 0 else last r - first r + 1.

Definition parsePort (value name : string) : result Z :=
  parseUnsigned u16_max value name MinimumNetworkPort MaximumNetworkPort.

Definition parsePortRange (value name : string) : result PortRange :=
  match find_char ":" value with
  | None => port ← parsePort value name; Ok {| first := port; last := port |}
  | Some separator =>
      throw_if (match find_char ":" (str_drop (S separator) value) with Some _ => true | None => false end)
        (runtime_error (name +:+ " must use start:end syntax")) ;;
      first ← parsePort (str_take separator value) name;
      last ← parsePort (str_drop (S separator) value) name;
      throw_if (first >? last) (runtime_error (name +:+ " start port cannot exceed end port")) ;;
      Ok {| first := first; last := last |}
  end.

(** ** Numbers *)

(** What [strtod] answers: the number, where it stopped, and whether [errno] is [ERANGE]. *)
Record strtod_result := { parsed_double : spec_float; parsed_length : nat; erange : bool }.

Section Doubles.
Variable strtod : string -> strtod_result.

Definition parseFiniteDouble (value name : string) : result spec_float :=
  throw_if (bool_decide (value = "")) (runtime_error (name +:+ " requires a number")) ;;
  let r := strtod value in
  throw_if (erange r || (parsed_length r =? 0)%nat || negb (parsed_length r =? String.length value)%nat
            || negb (is_finite (parsed_double r)))
    (runtime_error (name +:+ " contains an invalid finite number: " +:+ value)) ;;
  Ok (parsed_double r).

Definition parseProbability (value name : string) : result spec_float :=
  parsed ← parseFiniteDouble value name;
  throw_if (SFltb parsed (f64_of_Z 0) || SFltb (f64_of_Z 1) parsed)
    (runtime_error (name +:+ " must be between 0 and 1")) ;;
  Ok parsed.

Lemma parseFiniteDouble_finite value name x : parseFiniteDouble value name = Ok x -> is_finite x = true.
Proof.
  unfold parseFiniteDouble. break_ifs; try done. reflect_Z. intros [= <-].
  by repeat match goal with H : negb _ = false |- _ => apply negb_false_iff in H end.
Qed.

(** A finite number of the unit interval. *)
Definition probability (x : spec_float) : Prop :=
  is_finite x = true /\ SFltb x (f64_of_Z 0) = false /\ SFltb (f64_of_Z 1) x = false.

Lemma parseProbability_probability value name x : parseProbability value name = Ok x -> probability x.
Proof.
  unfold parseProbability. destruct (parseFiniteDouble value name) as [y|] eqn:Hy; bind_some; [|done].
  apply parseFiniteDouble_finite in Hy. destruct (_ || _) eqn:Hb; [done|]. intros [= <-].
  by apply orb_false_iff in Hb.
Qed.
End Doubles.

(** ** Lemmas *)

Lemma digit_value_code c d : digit_value c = Some d -> 0 <= d < 10 /\ char_code c = d + 48.
Proof. unfold digit_value. destruct (_ && _) eqn:H; [|done]. intros [= <-]. reflect_Z. lia. Qed.

Lemma digit_value_char d : 0 <= d < 10 -> digit_value (digit_char d) = Some d.
Proof.
  intros Hd. unfold digit_value. rewrite digit_char_code by lia.
  rewrite (proj2 (Z.ltb_lt d 10)) by lia.
  rewrite (proj2 (Z.leb_le 48 (d + 48))), (proj2 (Z.leb_le (d + 48) 57)) by lia. cbn [andb]. f_equal. lia.
Qed.

Lemma digits_prefix_all cs ds : digits_prefix cs = (ds, []) <-> mapM digit_value cs = Some ds.
Proof.
  revert ds. induction cs as [|c cs IH]; intros ds; cbn.
  - split; by intros [= <-].
  - destruct (digit_value c) as [d|]; cbn [mbind option_bind]; [|done].
    destruct (digits_prefix cs) as [ds' rest]. split.
    + intros [= <- ->]. by rewrite (proj1 (IH ds') eq_refl).
    + destruct (mapM digit_value cs) as [ds2|]; cbn [mbind option_bind]; [|done].
      intros [= <-]. pose proof (proj2 (IH ds2) eq_refl) as [= -> ->]. done.
Qed.

Lemma from_chars_whole cs v :
  from_chars cs = (errc_ok, v, []) <->
  exists ds, ds <> [] /\ mapM digit_value cs = Some ds /\ of_digits 10 ds = v /\ v <= u64_max.
Proof.
  unfold from_chars. destruct (digits_prefix cs) as [ds rest] eqn:Hp. split.
  - destruct ds as [|d ds]; [done|]. destruct (_ >? _) eqn:Hm; [done|]. intros [= <- ->].
    apply digits_prefix_all in Hp. exists (d :: ds). split_and!; try done. reflect_Z. lia.
  - intros (ds' & Hne & Hm & <- & Hmax). apply digits_prefix_all in Hm. rewrite Hp in Hm. injection Hm as -> ->.
    destruct ds'; [done|]. by rewrite (Z.gtb_ltb _ u64_max), (proj2 (Z.ltb_ge _ _)) by done.
Qed.

(** A string of decimal digits, with the number it writes. *)
Definition decimal (value : string) (v : Z) : Prop :=
  exists ds, ds <> [] /\ mapM digit_value (chars_of_string value) = Some ds /\ of_digits 10 ds = v.

Lemma decimal_det value v w : decimal value v -> decimal value w -> v = w.
Proof. intros (ds & _ & H & <-) (es & _ & H' & <-). congruence. Qed.

Lemma parseUnsigned_iff UIntMax value name minimum maximum v :
  UIntMax <= u64_max ->
  parseUnsigned UIntMax value name minimum maximum = Ok v <->
  decimal value v /\ v <= UIntMax /\ minimum <= v <= maximum.
Proof.
  intros HM. unfold parseUnsigned. case_bool_decide as He.
  { subst. split; [done|]. intros [(ds & Hne & Hd & _) _]. by injection Hd as <-. }
  split.
  - destruct (from_chars (chars_of_string value)) as [[ec p] rest] eqn:Hw.
    destruct ec, rest; try done. destruct (p >? UIntMax) eqn:H1, ((p <? minimum) || (p >? maximum)) eqn:H2; try done.
    intros [= <-]. reflect_Z. destruct (proj1 (from_chars_whole _ _) Hw) as (ds & ? & ? & ? & ?).
    split; [by exists ds|]. lia.
  - intros [(ds & Hne & Hd & Hv) Hr]. assert (Heq : from_chars (chars_of_string value) = (errc_ok, v, [])).
    { apply from_chars_whole. exists ds. split_and!; try done. lia. }
    rewrite Heq.
    rewrite !Z.gtb_ltb, (proj2 (Z.ltb_ge UIntMax v)), (proj2 (Z.ltb_ge v minimum)), (proj2 (Z.ltb_ge maximum v)) by lia.
    done.
Qed.

Lemma show_dec_decimal n : 0 <= n -> decimal (show_dec n) n.
Proof.
  intros Hn. destruct (digits_spec 10 n) as (Hv & Hr & Hne); [lia|done|].
  exists (digits 10 n). split_and!; [done| |done].
  unfold show_dec, show_base. rewrite chars_string_chars. apply mapM_fmap_Forall_Some.
  eapply Forall_impl; [exact Hr|]. intros d Hd. by apply digit_value_char.
Qed.

(** *** Ranges *)

Lemma find_char_none c s : Forall (fun d => d <> c) (chars_of_string s) -> find_char c s = None.
Proof.
  induction s as [|d s IH]; [done|]. cbn [chars_of_string String.list_ascii_of_string].
  intros [Hd Hs]%Forall_cons. cbn [find_char]. rewrite decide_False, IH by done. done.
Qed.

(** Cutting at the first separator. *)
Lemma cut_app c a b :
  Forall (fun d => d <> c) (chars_of_string a) ->
  exists n, find_char c (a +:+ String c b) = Some n /\
    str_take n (a +:+ String c b) = a /\ str_drop (S n) (a +:+ String c b) = b.
Proof.
  induction a as [|d a IH].
  - intros _. exists O. change ("" +:+ String c b) with (String c b).
    cbn [find_char str_take str_drop]. by rewrite decide_True.
  - intros [Hd Ha]%Forall_cons. destruct (IH Ha) as (n & Hf & Ht & Hdr). exists (S n).
    change (String d a +:+ String c b) with (String d (a +:+ String c b)).
    cbn [find_char str_take]. rewrite decide_False, Hf, Ht by done. done.
Qed.

Lemma decimal_no_colon value v :
  decimal value v -> Forall (fun d => d <> ":"%char) (chars_of_string value).
Proof.
  intros (ds & _ & H & _). apply mapM_Some in H. induction H as [|c d cs ds Hc _ IH]; constructor; [|done].
  intros ->. done.
Qed.

Lemma parsePort_iff value name v : parsePort value name = Ok v <-> decimal value v /\ 1 <= v <= u16_max.
Proof.
  unfold parsePort. rewrite parseUnsigned_iff by done. unfold MinimumNetworkPort, MaximumNetworkPort.
  split; intros [H ?]; (split; [done|lia]).
Qed.

(** The range that a string writes. *)
Inductive writes_range : string -> PortRange -> Prop :=
  | writes_port value p : decimal value p -> writes_range value {| first := p; last := p |}
  | writes_pair a b p q : decimal a p -> decimal b q ->
      writes_range (a +:+ String ":" b) {| first := p; last := q |}.

Lemma find_char_cut c value n :
  find_char c value = Some n -> value = str_take n value +:+ String c (str_drop (S n) value).
Proof.
  revert n. induction value as [|d value IH]; intros n; cbn [find_char]; [done|].
  case_decide as Hd; [by intros [= <-]; subst|].
  destruct (find_char c value) as [m|]; [|done]. intros [= <-].
  cbn [str_take str_drop]. change (String d ?a +:+ ?b) with (String d (a +:+ b)). f_equal. by apply IH.
Qed.

Lemma parsePortRange_iff value name r :
  parsePortRange value name = Ok r <-> writes_range value r /\ valid r = true /\ last r <= u16_max.
Proof.
  unfold valid, MinimumNetworkPort. rewrite andb_true_iff, !Z.geb_leb, !Z.leb_le. split.
  - unfold parsePortRange. destruct (find_char ":" value) as [n|] eqn:Hf.
    + destruct (find_char _ (str_drop _ _)); [done|].
      destruct (parsePort (str_take n value) name) as [p|] eqn:Hp; bind_some; [|done].
      destruct (parsePort (str_drop (S n) value) name) as [q|] eqn:Hq; bind_some; [|done].
      destruct (p >? q) eqn:Hpq; [done|]. intros [= <-]. reflect_Z.
      apply parsePort_iff in Hp as [Hp ?], Hq as [Hq ?]. cbn [first last].
      split; [|lia]. rewrite (find_char_cut _ _ _ Hf). by constructor.
    + destruct (parsePort value name) as [p|] eqn:Hp; bind_some; [|done].
      intros [= <-]. apply parsePort_iff in Hp as [Hp ?]. cbn [first last]. split; [by constructor|lia].
  - intros (Hw & Hv & Hl). unfold parsePortRange. destruct Hw as [value p Hp|a b p q Hp Hq]; cbn [first last] in *.
    + rewrite (find_char_none _ _ (decimal_no_colon _ _ Hp)).
      by rewrite (proj2 (parsePort_iff _ _ p)) by (split; [done|lia]).
    + destruct (cut_app ":" a b (decimal_no_colon _ _ Hp)) as (n & -> & -> & ->).
      rewrite (find_char_none _ _ (decimal_no_colon _ _ Hq)).
      rewrite (proj2 (parsePort_iff a name p)) by (split; [done|lia]).
      rewrite (proj2 (parsePort_iff b name q)) by (split; [done|lia]). bind_some.
      by rewrite Z.gtb_ltb, (proj2 (Z.ltb_ge q p)) by lia.
Qed.

(** ** Properties *)

(** [parseUnsigned] accepts exactly the decimal integers of the given range, whatever their
    length: a sign, a blank, a suffix, an empty string and a number that overflows are refused, each
    with a [runtime_error]; and it reads back every number that is printed. *)
Theorem parseUnsigned_exact : forall UIntMax value name minimum maximum,
  0 <= minimum -> maximum <= UIntMax <= u64_max ->
  (forall v, parseUnsigned UIntMax value name minimum maximum = Ok v <->
             decimal value v /\ minimum <= v <= maximum) /\
  (forall v, minimum <= v <= maximum ->
             parseUnsigned UIntMax (show_dec v) name minimum maximum = Ok v) /\
  (forall e, parseUnsigned UIntMax value name minimum maximum = Throw e -> exists m, e = runtime_error m).
Proof.
  intros UIntMax value name minimum maximum Hmin Hmax. split_and!.
  - intros v. rewrite parseUnsigned_iff by lia. split; [tauto|]. intros [H ?]. split; [done|lia].
  - intros v Hv. apply parseUnsigned_iff; [lia|]. split; [apply show_dec_decimal; lia|lia].
  - intros e. unfold parseUnsigned. destruct (from_chars _) as [[ec p] rest].
    break_ifs; intros H; simplify_eq; eauto.
Qed.

Lemma parseUnsigned_exact_witness :
  parseUnsigned u16_max (show_dec 9000) "--port" 1 65535 = Ok 9000 /\
  parseUnsigned u16_max "65536" "--port" 1 65535 <> Ok 65536 /\
  parseUnsigned u16_max "00080" "--port" 1 65535 = Ok 80.
Proof.
  assert (Hr : 0 <= 1 /\ 65535 <= u16_max <= u64_max) by (split; [lia|split; [reflexivity|done]]).
  destruct Hr as [H1 H2]. split_and!.
  - apply (parseUnsigned_exact u16_max "" "--port" 1 65535 H1 H2). lia.
  - intros H. apply (parseUnsigned_exact u16_max _ "--port" 1 65535 H1 H2) in H. lia.
  - apply (parseUnsigned_exact u16_max _ "--port" 1 65535 H1 H2). split; [|lia].
    exists [0; 0; 0; 8; 0]. split_and!; [done|reflexivity|reflexivity].
Defined.

(** [parsePortRange] accepts exactly the ports and the pairs of ports that write a valid range:
    its bounds are in 1..65535 and in order, so that [count] does not underflow; and it reads back
    every valid range that is printed. *)
Theorem port_range_exact : forall value name r,
  (parsePortRange value name = Ok r <-> writes_range value r /\ valid r = true /\ last r <= u16_max) /\
  (parsePortRange value name = Ok r -> 1 <= first r <= last r /\ last r <= 65535 /\ count r = last r - first r + 1) /\
  (valid r = true /\ last r <= u16_max ->
     parsePortRange (show_dec (first r) +:+ String ":" (show_dec (last r))) name = Ok r).
Proof.
  intros value name r. split_and!; [apply parsePortRange_iff|..].
  - intros (_ & Hv & Hl)%parsePortRange_iff. unfold count. rewrite Hv.
    unfold valid, MinimumNetworkPort in Hv. reflect_Z. unfold u16_max in Hl. cbn [negb]. lia.
  - intros [Hv Hl]. apply parsePortRange_iff. split_and!; [|done..].
    unfold valid, MinimumNetworkPort in Hv. reflect_Z.
    destruct r as [p q]. cbn [first last] in *. constructor; apply show_dec_decimal; lia.
Qed.

Lemma port_range_exact_witness :
  parsePortRange "9000:9005" "--auto-port" = Ok {| first := 9000; last := 9005 |} /\
  (exists e, parsePortRange "9005:9000" "--auto-port" = Throw e).
Proof.
  split; [|eexists; vm_compute; reflexivity].
  apply (port_range_exact "" "--auto-port" {| first := 9000; last := 9005 |}).
  split; [reflexivity|done].
Defined.
