(* ===== verification/PortDiagnostics.v ===== *)
(** [src/PortDiagnostics.cpp]: the probes of local ports and the search for a free one.

    What the system answers is the record [system]: one answer per call, by the port for the calls
    that concern a port. The loops over a range count on 32 bits; [port_loop_seq] shows that they
    visit the ports of the range once, in order, the last port 65535 included. *)

From S2P Require Import Prelude Floats CliParsing.

Definition MaxDiagnosticPortCount : Z := 256.
Definition MaximumPortProbeTimeout : Z := 60000.
Definition DefaultPortProbeTimeout : Z := 200.

Inductive PortTransport := PortTcp | PortUdp.
Inductive TcpPortState := StateOpen | StateClosed | StateTimeout | StateError.

#[export] Instance TcpPortState_eq_dec : EqDecision TcpPortState.
Proof. solve_decision. Defined.

Record TcpPortProbeResult := {
  probe_port : Z;
  probe_state : TcpPortState;
  latencyMs : spec_float;
  probe_detail : string;
}.

Record LocalPortAvailability := { local_port : Z; available : bool; local_detail : string }.

(** The error numbers the sources tell apart. *)
Inductive port_errno := EINPROGRESS | ECONNREFUSED | EADDRINUSE | EPortOther (number : Z).

#[export] Instance port_errno_eq_dec : EqDecision port_errno.
Proof. solve_decision. Defined.

(** A call that succeeds, or fails with a number. *)
Abbreviation call A := (A + port_errno)%type.

(** The answers of the system: the address of a text in host order, [socket()], the two [fcntl()]
    as one, [connect()], [poll()] with the number of ready descriptors, [getsockopt(SO_ERROR)] with
    the pending error, [bind()], and the milliseconds between two readings of the clock. *)
Record system := {
  inet_pton : string -> option Z;
  sys_socket : Z -> PortTransport -> call unit;
  sys_fcntl : Z -> bool;
  sys_connect : Z -> call unit;
  sys_poll : Z -> call bool;
  sys_so_error : Z -> call (option port_errno);
  sys_bind : Z -> PortTransport -> call unit;
  sys_elapsed : Z -> spec_float;
  sys_strerror : port_errno -> string;
}.

Section Diagnostics.
Variable sys : system.

Definition Ipv4LoopbackMask : Z := 0xFF000000.
Definition Ipv4LoopbackPrefix : Z := 0x7F000000.

Definition isLoopbackIpv4 (host : string) : bool :=
  if bool_decide (host = "localhost") then true else
  match inet_pton sys host with
  | None => false
  | Some hostOrder => Z.land hostOrder Ipv4LoopbackMask =? Ipv4LoopbackPrefix
  end.

(** [makeAddress]: it throws inside of the [try] blocks, [Some] is the text of the exception. *)
Definition makeAddress (address : string) : option string :=
  match inet_pton sys address with
  | Some _ => None
  | None => Some ("invalid IPv4 address: " +:+ address)
  end.

Definition validateDiagnosticPort (port : Z) : result unit :=
  throw_if (port <? MinimumNetworkPort)
    (invalid_argument "diagnostic port must be in the user network-port range") ;;
  Ok tt.

Definition validateDiagnosticRange (range : PortRange) : result unit :=
  throw_if ((first range <? MinimumNetworkPort) || (last range <? MinimumNetworkPort) || (first range >? last range))
    (invalid_argument "diagnostic port range is invalid") ;;
  throw_if (count range >? MaxDiagnosticPortCount)
    (invalid_argument "port diagnostic range exceeds MaxDiagnosticPortCount") ;;
  Ok tt.

(** The [try] block of [probeTcpPort] and its handler: the state and the detail. *)
Definition classify (host : string) (port : Z) : TcpPortState * string :=
  if negb (sys_fcntl sys port) then (StateError, "failed to configure non-blocking probe socket"%string) else
  match makeAddress host with
  | Some what => (StateError, what)
  | None =>
      match sys_connect sys port with
      | inl _ => (StateOpen, "TCP listener accepted the connection"%string)
      | inr EINPROGRESS =>
          match sys_poll sys port with
          | inl false => (StateTimeout, "connection attempt timed out"%string)
          | inr e => (StateError, ("poll(): " +:+ sys_strerror sys e))
          | inl true =>
              match sys_so_error sys port with
              | inr e => (StateError, ("getsockopt(SO_ERROR): " +:+ sys_strerror sys e))
              | inl None => (StateOpen, "TCP listener accepted the connection"%string)
              | inl (Some ECONNREFUSED) => (StateClosed, "connection refused"%string)
              | inl (Some e) => (StateError, sys_strerror sys e)
              end
          end
      | inr ECONNREFUSED => (StateClosed, "connection refused"%string)
      | inr e => (StateError, sys_strerror sys e)
      end
  end.

Definition probeTcpPort (host : string) (port timeout : Z) : result TcpPortProbeResult :=
  throw_if (negb (isLoopbackIpv4 host))
    (invalid_argument "port diagnostics are intentionally restricted to IPv4 loopback") ;;
  _ ← validateDiagnosticPort port;
  throw_if ((timeout <=? 0) || (timeout >? MaximumPortProbeTimeout))
    (invalid_argument "port probe timeout must be in the 1..60000 ms range") ;;
  let normalizedHost := if bool_decide (host = "localhost") then "127.0.0.1"%string else host in
  match sys_socket sys port PortTcp with
  | inr e => Ok {| probe_port := port; probe_state := StateError; latencyMs := S754_zero false;
                   probe_detail := "socket(): " +:+ sys_strerror sys e |}
  | inl _ =>
      let '(state, detail) := classify normalizedHost port in
      Ok {| probe_port := port; probe_state := state; latencyMs := sys_elapsed sys port; probe_detail := detail |}
  end.

Definition checkLocalPortAvailability (bindAddress : string) (port : Z) (transport : PortTransport)
  : result LocalPortAvailability :=
  _ ← validateDiagnosticPort port;
  let busy detail := Ok {| local_port := port; available := false; local_detail := detail |} in
  match sys_socket sys port transport with
  | inr e => busy ("socket(): " +:+ sys_strerror sys e)
  | inl _ =>
      match makeAddress bindAddress with
      | Some what => busy what
      | None =>
          match sys_bind sys port transport with
          | inl _ => Ok {| local_port := port; available := true; local_detail := "available for bind" |}
          | inr EADDRINUSE => busy "already in use"%string
          | inr e => busy ("bind(): " +:+ sys_strerror sys e)
          end
      end
  end.

(** [for (std::uint32_t port = first; port <= last; ++port)] over a body that may throw and may
    leave the loop with a value; [acc] is what it collects. [None] when the fuel runs out. *)
Fixpoint port_loop {A B} (body : Z -> result (A * option B)) (fuel : nat) (port last : Z) (acc : list A)
  : option (result (list A * option B)) :=
  match fuel with
  | O => None
  | S fuel =>
      if port <=? last then
        match body (port mod 2 ^ 16) with
        | Throw e => Some (Throw e)
        | Ok (a, Some b) => Some (Ok (acc ++ [a], Some b))
        | Ok (a, None) => port_loop body fuel ((port + 1) mod 2 ^ 32) last (acc ++ [a])
        end
      else Some (Ok (acc, None))
  end.

(** One turn more than the ports of the range. *)
Definition range_fuel (range : PortRange) : nat := Z.to_nat (last range - first range + 2).

Definition scanTcpPorts (host : string) (range : PortRange) (timeout : Z)
  : option (result (list TcpPortProbeResult)) :=
  if negb (isLoopbackIpv4 host)
  then Some (Throw (invalid_argument "port scan is intentionally restricted to IPv4 loopback")) else
  match validateDiagnosticRange range with
  | Throw e => Some (Throw e)
  | Ok _ =>
      r ← port_loop (B := unit) (fun port => r ← probeTcpPort host port timeout; Ok (r, None))
            (range_fuel range) (first range) (last range) [];
      Some ('(results, _) ← r; Ok results)
  end.

(** The report, which the caller may leave out, and the port. *)
Definition findFirstAvailableLocalPort (bindAddress : string) (range : PortRange) (transport : PortTransport)
  : option (result (list LocalPortAvailability * option Z)) :=
  match validateDiagnosticRange range with
  | Throw e => Some (Throw e)
  | Ok _ =>
      port_loop
        (fun port => result ← checkLocalPortAvailability bindAddress port transport;
                     Ok (result, if available result then Some port else None))
        (range_fuel range) (first range) (last range) []
  end.

Definition tcpPortStateToString (state : TcpPortState) : string :=
  match state with
  | StateOpen => "OPEN" | StateClosed => "CLOSED" | StateTimeout => "TIMEOUT" | StateError => "ERROR"
  end.

(** ** The loop *)

(** The body on each port in turn, until it throws or leaves. *)
Fixpoint visit {A B} (body : Z -> result (A * option B)) (ports : list Z) : result (list A * option B) :=
  match ports with
  | [] => Ok ([], None)
  | port :: ports =>
      '(a, b) ← body port;
      match b with
      | Some b => Ok ([a], Some b)
      | None => '(rest, b) ← visit body ports; Ok (a :: rest, b)
      end
  end.

Lemma port_loop_seq {A B} (body : Z -> result (A * option B)) n port last acc fuel :
  1 <= port -> last <= u16_max -> Z.of_nat n = last - port + 1 -> (n < fuel)%nat ->
  port_loop body fuel port last acc =
  Some ('(found, b) ← visit body (seqZ port (Z.of_nat n)); Ok (acc ++ found, b)).
Proof.
  unfold u16_max. revert port acc fuel. induction n as [|n IH]; intros port acc fuel Hp Hl Hn Hf;
    (destruct fuel as [|fuel]; [lia|]); cbn [port_loop].
  - rewrite (proj2 (Z.leb_gt port last)) by lia.
    rewrite seqZ_nil by lia. cbn [visit]. bind_some. by rewrite app_nil_r.
  - rewrite (proj2 (Z.leb_le port last)) by lia.
    rewrite seqZ_cons by lia. replace (Z.pred (Z.of_nat (S n))) with (Z.of_nat n) by lia. cbn [visit].
    rewrite (Z.mod_small port) by lia.
    destruct (body port) as [[a [b|]]|e]; bind_some; [done| |done].
    rewrite (Z.mod_small (port + 1)), IH by lia. replace (Z.succ port) with (port + 1) by lia.
    destruct (visit body _) as [[found b]|e]; bind_some; [|done]. by rewrite <- app_assoc.
Qed.

Lemma validateDiagnosticRange_ok range u :
  validateDiagnosticRange range = Ok u ->
  1 <= first range <= last range /\ last range - first range < MaxDiagnosticPortCount.
Proof.
  unfold validateDiagnosticRange, MinimumNetworkPort. destruct (_ || _) eqn:H1; [done|].
  destruct (count range >? _) eqn:H2; [done|]. intros _. reflect_Z.
  unfold count, valid, MinimumNetworkPort in H2.
  destruct ((first range >=? 1) && (last range >=? first range)) eqn:H3; cbn [negb] in H2; [lia|].
  apply andb_false_iff in H3. rewrite !Z.geb_leb, !Z.leb_gt in H3. lia.
Qed.

(** The ports of a range. *)
Definition ports (range : PortRange) : list Z := seqZ (first range) (last range - first range + 1).

Lemma range_loop {A B} (body : Z -> result (A * option B)) range u :
  validateDiagnosticRange range = Ok u -> last range <= u16_max ->
  port_loop body (range_fuel range) (first range) (last range) [] = Some (visit body (ports range)).
Proof.
  intros Hv%validateDiagnosticRange_ok Hl.
  rewrite (port_loop_seq body (Z.to_nat (last range - first range + 1))) by (unfold range_fuel; lia).
  rewrite Z2Nat.id by lia. fold (ports range). by destruct (visit body (ports range)) as [[found b]|e].
Qed.

Lemma probeTcpPort_port host port timeout r :
  probeTcpPort host port timeout = Ok r ->
  probe_port r = port /\ isLoopbackIpv4 host = true /\ 0 < timeout <= MaximumPortProbeTimeout.
Proof.
  unfold probeTcpPort. destruct (isLoopbackIpv4 host); cbn [negb]; [|done].
  destruct (validateDiagnosticPort port); bind_some; [|done]. destruct (_ || _) eqn:Ht; [done|]. reflect_Z.
  destruct (sys_socket sys port PortTcp); [|by intros [= <-]].
  destruct (classify _ _). intros [= <-]. cbn [probe_port]. split_and!; [done|done|lia|lia].
Qed.

Lemma check_total bindAddress port transport :
  1 <= port ->
  exists a, checkLocalPortAvailability bindAddress port transport = Ok a /\ local_port a = port.
Proof.
  intros Hp. unfold checkLocalPortAvailability, validateDiagnosticPort, MinimumNetworkPort.
  rewrite (proj2 (Z.ltb_ge port 1)) by lia. bind_some.
  repeat case_match; eauto.
Qed.

(** Whether a port can be bound. *)
Definition bindable (bindAddress : string) (transport : PortTransport) (port : Z) : Prop :=
  exists detail, checkLocalPortAvailability bindAddress port transport =
    Ok {| local_port := port; available := true; local_detail := detail |}.

Lemma visit_first bindAddress transport ps :
  Forall (fun p => 1 <= p) ps ->
  exists report found,
    visit (fun port => result ← checkLocalPortAvailability bindAddress port transport;
                       Ok (result, if available result then Some port else None)) ps = Ok (report, found) /\
    (local_port <$> report) `prefix_of` ps /\
    match found with
    | Some p => exists before behind, ps = before ++ p :: behind /\ bindable bindAddress transport p /\
                Forall (fun q => ~ bindable bindAddress transport q) before /\
                local_port <$> report = before ++ [p]
    | None => Forall (fun q => ~ bindable bindAddress transport q) ps /\ local_port <$> report = ps
    end.
Proof.
  induction 1 as [|p ps Hp _ IH].
  - exists [], None. by split_and!.
  - cbn [visit]. destruct (check_total bindAddress p transport Hp) as (a & Ha & Hport).
    rewrite Ha. bind_some. destruct (available a) eqn:Hav.
    + exists [a], (Some p). cbn [fmap list_fmap]. rewrite Hport. split_and!; [done|by exists ps|].
      exists [], ps. split_and!; try done. destruct a as [lp av d]. cbn in *. subst. by exists d.
    + destruct IH as (report & found & -> & Hpre & Hf). bind_some.
      exists (a :: report), found. cbn [fmap list_fmap]. rewrite Hport.
      assert (Hnot : ~ bindable bindAddress transport p).
      { intros [d Hd]. rewrite Ha in Hd. injection Hd as ->. done. }
      split_and!; [done|by apply prefix_cons|]. destruct found as [q|].
      * destruct Hf as (before & behind & -> & Hq & Hb & Heq). exists (p :: before), behind.
        rewrite Heq. split_and!; try done. by constructor.
      * destruct Hf as [Hb Heq]. rewrite Heq. split; [by constructor|done].
Qed.

Lemma auto_port_search bindAddress range transport :
  valid range = true -> last range <= u16_max -> count range <= MaxDiagnosticPortCount ->
  exists report found,
    findFirstAvailableLocalPort bindAddress range transport = Some (Ok (report, found)) /\
    match found with
    | Some p => exists before behind,
        ports range = before ++ p :: behind /\ bindable bindAddress transport p /\
        Forall (fun q => ~ bindable bindAddress transport q) before /\
        local_port <$> report = before ++ [p]
    | None => Forall (fun q => ~ bindable bindAddress transport q) (ports range) /\
              local_port <$> report = ports range
    end.
Proof.
  intros Hv Hl Hc.
  assert (Hr : validateDiagnosticRange range = Ok tt).
  { unfold validateDiagnosticRange. unfold valid, MinimumNetworkPort in *. reflect_Z.
    rewrite !Z.gtb_ltb, (proj2 (Z.ltb_ge (first range) 1)), (proj2 (Z.ltb_ge (last range) 1)),
      (proj2 (Z.ltb_ge (last range) (first range))), (proj2 (Z.ltb_ge MaxDiagnosticPortCount (count range))) by lia.
    done. }
  unfold findFirstAvailableLocalPort. rewrite Hr, (range_loop _ _ tt) by done.
  destruct (visit_first bindAddress transport (ports range)) as (report & found & -> & _ & Hf).
  { apply validateDiagnosticRange_ok in Hr. apply Forall_forall. intros p [Hp _]%elem_of_seqZ. lia. }
  by exists report, found.
Qed.

(** ** Properties *)

(** [--auto-port] takes the first port of the range that can be bound: the search gives a result
    on every valid range, also up to the last port 65535, the port it returns is bindable and no
    earlier one is, it returns none only when none is bindable, and the report shows exactly the
    ports that were tried, in order. *)
Theorem auto_port_is_first_bindable : forall bindAddress range transport,
  valid range = true -> last range <= u16_max -> count range <= MaxDiagnosticPortCount ->
  exists report found,
    findFirstAvailableLocalPort bindAddress range transport = Some (Ok (report, found)) /\
    match found with
    | Some p => exists before behind,
        ports range = before ++ p :: behind /\ bindable bindAddress transport p /\
        Forall (fun q => ~ bindable bindAddress transport q) before /\
        local_port <$> report = before ++ [p]
    | None => Forall (fun q => ~ bindable bindAddress transport q) (ports range) /\
              local_port <$> report = ports range
    end.
Proof. exact auto_port_search. Qed.

(** A scan that ends well probed every port of the range once, in order, on the loopback only. *)
Lemma scan_covers_range host range timeout rs :
  last range <= u16_max -> scanTcpPorts host range timeout = Some (Ok rs) ->
  probe_port <$> rs = ports range /\ isLoopbackIpv4 host = true /\ size rs <= MaxDiagnosticPortCount.
Proof.
  intros Hl. unfold scanTcpPorts. destruct (isLoopbackIpv4 host) eqn:Hh; cbn [negb]; [|done].
  destruct (validateDiagnosticRange range) as [u|] eqn:Hv; [|done]. rewrite (range_loop _ _ u) by done. bind_some.
  destruct (visit _ _) as [[found b]|] eqn:Hvis; bind_some; [|done]. intros [= <-].
  assert (Hm : probe_port <$> found = ports range).
  { revert found b Hvis. induction (ports range) as [|p ps IH]; intros found b; cbn [visit].
    - by intros [= <- <-].
    - destruct (probeTcpPort host p timeout) as [r|] eqn:Hr; bind_some; [|done].
      destruct (visit _ ps) as [[found' b']|] eqn:E; bind_some; [|done]. intros [= <- <-].
      apply probeTcpPort_port in Hr as [Hr _]. rewrite fmap_cons, Hr. f_equal. by eapply IH. }
  split_and!; [done|done|]. rewrite <- (size_fmap probe_port), Hm. unfold ports, size. rewrite length_seqZ.
  apply validateDiagnosticRange_ok in Hv. lia.
Qed.

End Diagnostics.

(** A system where port 9001 is the first free one. *)
Definition sample_system : system := {|
  inet_pton := fun host => if bool_decide (host = "127.0.0.1") then Some 0x7F000001 else None;
  sys_socket := fun _ _ => inl tt; sys_fcntl := fun _ => true; sys_connect := fun _ => inr ECONNREFUSED;
  sys_poll := fun _ => inl false; sys_so_error := fun _ => inl None;
  sys_bind := fun port _ => if port =? 9000 then inr EADDRINUSE else inl tt;
  sys_elapsed := fun _ => S754_zero false; sys_strerror := fun _ => "error" |}.

Lemma auto_port_is_first_bindable_witness :
  findFirstAvailableLocalPort sample_system "127.0.0.1" {| first := 9000; last := 9002 |} PortTcp =
    Some (Ok ([{| local_port := 9000; available := false; local_detail := "already in use" |};
               {| local_port := 9001; available := true; local_detail := "available for bind" |}], Some 9001)) /\
  exists report found,
    findFirstAvailableLocalPort sample_system "127.0.0.1" {| first := 65534; last := 65535 |} PortTcp =
    Some (Ok (report, found)).
Proof.
  split; [vm_compute; reflexivity|].
  destruct (auto_port_is_first_bindable sample_system "127.0.0.1" {| first := 65534; last := 65535 |} PortTcp)
    as (report & found & H & _); [reflexivity|done|vm_compute; discriminate|].
  exists report, found. exact H.
Defined.
