(* ===== verification/Logger.v ===== *)
(** [src/Logger.cpp]: the levels of the log and where a line goes.

    The mutex makes [log] one step. The clock is an argument: [now] is what [nowIso8601] ([Timestamp])
    returns for this call. The console streams and the file are the lists of the lines written to them. *)

From S2P Require Import Prelude.

Inductive LogLevel := Trace | Debug | Info | Warning | Error.

#[export] Instance LogLevel_eq_dec : EqDecision LogLevel.
Proof. solve_decision. Defined.

(** The value of the enumerator. *)
Definition level_value (level : LogLevel) : Z :=
  match level with Trace => 0 | Debug => 1 | Info => 2 | Warning => 3 | Error => 4 end.

Definition logLevelToString (level : LogLevel) : string :=
  match level with
  | Trace => "TRACE" | Debug => "DEBUG" | Info => "INFO" | Warning => "WARN" | Error => "ERROR"
  end.

Definition parseLogLevel (value : string) : option LogLevel :=
  if bool_decide (value = "trace") then Some Trace else
  if bool_decide (value = "debug") then Some Debug else
  if bool_decide (value = "info") then Some Info else
  if bool_decide (value = "warning") || bool_decide (value = "warn") then Some Warning else
  if bool_decide (value = "error") then Some Error else None.

(** The logger, with what was written so far. [file_] is [None] when the stream is not usable,
    because no file was given or because a write failed. *)
Record Logger := {
  minLevel_ : LogLevel;
  file_ : option (list string);
  cout : list string;
  cerr : list string;
}.

(** The constructor: [opens] says whether the file could be opened for appending. *)
Definition new_Logger (filePath : option string) (opens : bool) (minLevel : LogLevel) : result Logger :=
  throw_if (match filePath with Some _ => negb opens | None => false end)
    (runtime_error ("failed to open log file: " +:+ default "" filePath)) ;;
  Ok {| minLevel_ := minLevel; file_ := (fun _ => []) <$> filePath; cout := []; cerr := [] |}.

Definition setMinLevel (l : Logger) (level : LogLevel) : Logger :=
  {| minLevel_ := level; file_ := file_ l; cout := cout l; cerr := cerr l |}.

(** [log]; [writes] says whether the file takes the line. *)
Definition log (now : string) (writes : bool) (l : Logger) (level : LogLevel) (message : string) : Logger :=
  if level_value level <? level_value (minLevel_ l) then l else
  let line := now +:+ " [" +:+ logLevelToString level +:+ "] " +:+ message in
  let '(out, err) :=
    if level_value level >=? level_value Warning then (cout l, cerr l ++ [line]) else (cout l ++ [line], cerr l) in
  {| minLevel_ := minLevel_ l;
     file_ := lines ← file_ l; if writes then Some (lines ++ [line]) else None;
     cout := out; cerr := err |}.

(** A level that the command line names is the level the log shows, and the names are read back. *)
Definition level_name (level : LogLevel) : string :=
  match level with
  | Trace => "trace" | Debug => "debug" | Info => "info" | Warning => "warning" | Error => "error"
  end.

Lemma parseLogLevel_name level : parseLogLevel (level_name level) = Some level.
Proof. by destruct level. Qed.

(** A line reaches the console exactly when its level does, one stream only, and the file gets every
    line the console gets as long as it can be written. *)
Lemma log_once now l level message file :
  file_ l = Some file ->
  let l' := log now true l level message in
  exists lines, size lines = (if level_value level <? level_value (minLevel_ l) then 0 else 1) /\
    file_ l' = Some (file ++ lines) /\ minLevel_ l' = minLevel_ l /\
    (if level_value level >=? level_value Warning
     then cerr l' = cerr l ++ lines /\ cout l' = cout l
     else cout l' = cout l ++ lines /\ cerr l' = cerr l).
Proof.
  intros Hf. unfold log. cbv zeta. destruct (_ <? _).
  - exists []. rewrite !app_nil_r. by destruct (_ >=? _).
  - eexists [_]. destruct (_ >=? _); cbn [file_ minLevel_ cout cerr]; rewrite Hf; cbn [mbind option_bind]; done.
Qed.
