(* ===== verification/Timestamp.v ===== *)
(** [nowIso8601] of src/Logger.cpp: the stamps of the log, from the nanoseconds of the clock since
    1970. [gmtime_r] is the Gregorian calendar; times before 1970 are left out. *)

From S2P Require Import Prelude TextFormat.

(** ** [gmtime_r] *)

Definition leap (y : Z) : bool := (y mod 4 =? 0) && (negb (y mod 100 =? 0) || (y mod 400 =? 0)).
Definition year_days (y : Z) : Z := if leap y then 366 else 365.
Definition month_days (y : Z) : list Z := [31; if leap y then 29 else 28; 31; 30; 31; 30; 31; 31; 30; 31; 30; 31].

(** The year of a day counted from the beginning of [y], and the day of this year. *)
Fixpoint year_of (fuel : nat) (y n : Z) : Z * Z :=
  match fuel with
  | O => (y, n)
  | S fuel => if n <? year_days y then (y, n) else year_of fuel (y + 1) (n - year_days y)
  end.

(** The month, from [m] on, and the day of the month. *)
Fixpoint month_of (lengths : list Z) (m n : Z) : Z * Z :=
  match lengths with
  | [] => (m, n)
  | l :: lengths => if n <? l then (m, n) else month_of lengths (m + 1) (n - l)
  end.

Record tm := { tm_year : Z; tm_mon : Z; tm_mday : Z; tm_hour : Z; tm_min : Z; tm_sec : Z }.

(** No year is shorter than 365 days. The year is the one that is shown, the month counts from 1. *)
Definition gmtime (time : Z) : tm :=
  let minutes := time / 60 in
  let hours := minutes / 60 in
  let days := hours / 24 in
  let '(y, yday) := year_of (S (Z.to_nat (days / 365))) 1970 days in
  let '(m, d) := month_of (month_days y) 1 yday in
  {| tm_year := y; tm_mon := m; tm_mday := d + 1; tm_hour := hours mod 24; tm_min := minutes mod 60; tm_sec := time mod 60 |}.

(** ** The text *)

Definition padded (w : nat) (n : Z) : string := setw w "0" (show_dec n).

(** [std::put_time(&tm, "%Y-%m-%dT%H:%M:%S")] *)
Definition put_time (t : tm) : string :=
  show_dec (tm_year t) +:+ "-" +:+ padded 2 (tm_mon t) +:+ "-" +:+ padded 2 (tm_mday t) +:+ "T" +:+
  padded 2 (tm_hour t) +:+ ":" +:+ padded 2 (tm_min t) +:+ ":" +:+ padded 2 (tm_sec t).

Definition MillisecondsPerSecond : Z := 1000.
Definition MillisecondFieldWidth : nat := 3.

(** [now] is the count of nanoseconds of [system_clock]. *)
Definition nowIso8601 (now : Z) : string :=
  let time := Z.quot now 1000000000 in
  let ms := Z.rem (Z.quot now 1000000) MillisecondsPerSecond in
  put_time (gmtime time) +:+ "." +:+ padded MillisecondFieldWidth ms +:+ "Z".

(** ** The order of texts *)

(** [operator<] of [std::string], on the codes of the characters. *)
Fixpoint before (a b : list Z) : bool :=
  match a, b with
  | _, [] => false
  | [], _ :: _ => true
  | x :: a, y :: b => (x <? y) || (x =? y) && before a b
  end.
Definition codes (s : string) : list Z := char_code <$> chars_of_string s.

Lemma before_app a b x y :
  length a = length b -> before (a ++ x) (b ++ y) = before a b || bool_decide (a = b) && before x y.
Proof.
  revert b. induction a as [|c a IH]; intros [|d b] Hl; try done. cbn [app before].
  rewrite IH by (by injection Hl). destruct (Z.ltb_spec c d), (Z.eqb_spec c d) as [->|Hne]; try lia; cbn [orb andb]; try done.
  - rewrite !andb_false_r || idtac. f_equal. f_equal. apply bool_decide_ext. split; [by intros ->|by intros [= ->]].
  - rewrite bool_decide_eq_false_2; [done|]. congruence.
Qed.

Lemma before_irrefl a : before a a = false.
Proof. induction a as [|x a IH]; [done|]. cbn. rewrite Z.ltb_irrefl, Z.eqb_refl. done. Qed.

(** ** Fields of a fixed width *)

(** The order of two numbers, or of what follows them when they are equal. *)
Definition lex (n m : Z) (rest : bool) : bool := (n <? m) || (n =? m) && rest.

Definition is_field (w : nat) (n : Z) (cs : list Z) : Prop :=
  exists ds, cs = (fun d => d + 48) <$> ds /\ length ds = w /\ of_digits 10 ds = n /\ Forall (fun d => 0 <= d < 10) ds.

Lemma of_digits_cons b d ds : of_digits b (d :: ds) = d * b ^ size ds + of_digits b ds.
Proof.
  induction ds as [|e ds IH] using rev_ind; [rewrite size_nil, Z.pow_0_r; unfold of_digits; cbn; lia|].
  change (d :: ds ++ [e]) with ((d :: ds) ++ [e]). rewrite !of_digits_snoc, IH, size_app.
  change (size [e]) with 1. pose proof (size_nonneg ds). rewrite Z.pow_add_r, Z.pow_1_r by lia. ring.
Qed.

Lemma of_digits_range ds : Forall (fun d => 0 <= d < 10) ds -> 0 <= of_digits 10 ds < 10 ^ size ds.
Proof.
  induction 1 as [|d ds Hd _ IH]; [by split|].
  rewrite of_digits_cons, size_cons. pose proof (size_nonneg ds). rewrite Z.pow_add_r, Z.pow_1_r by lia. nia.
Qed.

Lemma before_codes ds es : before ((fun d => d + 48) <$> ds) ((fun d => d + 48) <$> es) = before ds es.
Proof.
  revert es. induction ds as [|d ds IH]; intros [|e es]; try done. rewrite !fmap_cons. cbn [before]. rewrite IH.
  f_equal; [|f_equal]; [destruct (Z.ltb_spec d e); [apply Z.ltb_lt|apply Z.ltb_ge]; lia|].
  destruct (Z.eqb_spec d e); [apply Z.eqb_eq|apply Z.eqb_neq]; lia.
Qed.

(** Digits of the same length are ordered as their numbers. *)
Lemma digits_before ds es :
  length ds = length es -> Forall (fun d => 0 <= d < 10) ds -> Forall (fun d => 0 <= d < 10) es ->
  before ds es = (of_digits 10 ds <? of_digits 10 es) /\ (of_digits 10 ds = of_digits 10 es -> ds = es).
Proof.
  intros Hl Hds. revert es Hl. induction Hds as [|d ds Hd Hds IH]; intros [|e es] Hl Hes; try done. cbn [length] in Hl.
  inversion Hes as [|? ? He Hes']; subst. destruct (IH es) as [IH1 IH2]; [lia|done|].
  cbn [before]. rewrite IH1, !of_digits_cons. pose proof (of_digits_range _ Hds) as R. pose proof (of_digits_range _ Hes') as R'.
  assert (Hs : size ds = size es) by (unfold size; lia). rewrite Hs in *. split.
  - destruct (Z.ltb_spec d e), (Z.eqb_spec d e), (Z.ltb_spec (of_digits 10 ds) (of_digits 10 es)); cbn [orb andb]; symmetry;
      first [apply Z.ltb_lt; nia | apply Z.ltb_ge; nia].
  - intros Heq. assert (d = e) as -> by nia. f_equal. apply IH2. lia.
Qed.

Lemma field_before w n m a b x y :
  is_field w n a -> is_field w m b -> before (a ++ x) (b ++ y) = lex n m (before x y).
Proof.
  intros (ds & -> & Hl & <- & Hd) (es & -> & Hl' & <- & He). unfold lex.
  rewrite before_app by (rewrite !length_fmap; lia). rewrite before_codes.
  destruct (digits_before ds es) as [-> Heq]; [lia|done|done|]. f_equal. f_equal.
  destruct (Z.eqb_spec (of_digits 10 ds) (of_digits 10 es)) as [E|E].
  - apply bool_decide_eq_true_2. by rewrite Heq.
  - apply bool_decide_eq_false_2. intros Hf. apply E. f_equal. revert Hf. apply list_fmap_eq_inj. intros u v Huv. lia.
Qed.

Lemma of_digits_zeros k ds : of_digits 10 (replicate k 0 ++ ds) = of_digits 10 ds.
Proof. induction k as [|k IH]; [done|]. cbn [replicate app]. rewrite of_digits_cons, IH. lia. Qed.

Lemma digits_short w n fuel : 0 <= n < 10 ^ Z.of_nat (S w) -> (length (digits_loop fuel 10 n []) <= S w)%nat.
Proof.
  revert w n. induction fuel as [|fuel IH]; intros w n Hn; cbn [digits_loop]; [cbn; lia|].
  destruct (Z.ltb_spec n 10); [cbn; lia|]. destruct w as [|w]; [change (10 ^ Z.of_nat 1) with 10 in Hn; lia|].
  rewrite digits_loop_app, length_app. cbn [length].
  assert (Hlt : 0 <= n / 10 < 10 ^ Z.of_nat (S w)).
  { split; [apply Z.div_pos; lia|]. apply Z.div_lt_upper_bound; [lia|].
    rewrite (Nat2Z.inj_succ (S w)), Z.pow_succ_r in Hn by lia. lia. }
  specialize (IH w (n / 10) Hlt). lia.
Qed.

Lemma digit_codes ds :
  Forall (fun d => 0 <= d < 10) ds -> char_code <$> (digit_char <$> ds) = (fun d => d + 48) <$> ds.
Proof.
  induction 1 as [|d ds Hd _ IH]; [done|]. rewrite !fmap_cons, IH, digit_char_code by lia.
  by rewrite (proj2 (Z.ltb_lt d 10)) by lia.
Qed.

Lemma length_string_of_chars cs : String.length (string_of_chars cs) = length cs.
Proof. induction cs as [|c cs IH]; [done|]. cbn. by f_equal. Qed.

Lemma codes_append a b : codes (a +:+ b) = codes a ++ codes b.
Proof. unfold codes. by rewrite chars_append, fmap_app. Qed.

Lemma padded_field w n : 0 <= n < 10 ^ Z.of_nat (S w) -> is_field (S w) n (codes (padded (S w) n)).
Proof.
  intros Hn. destruct (digits_spec 10 n) as (Hv & Hall & _); [lia|lia|].
  assert (Hlen : (length (digits 10 n) <= S w)%nat) by (by apply digits_short).
  exists (replicate (S w - length (digits 10 n)) 0 ++ digits 10 n). unfold padded, setw, show_dec, show_base.
  rewrite length_string_of_chars, length_fmap, codes_append. unfold codes at 1 2. rewrite !chars_string_chars, digit_codes by done.
  split_and!; [|rewrite length_app, length_replicate; lia|by rewrite of_digits_zeros|].
  - rewrite fmap_app. f_equal. by rewrite !fmap_replicate.
  - apply Forall_app. split; [|done]. apply Forall_replicate. lia.
Qed.

Lemma year_field n : 1000 <= n < 10000 -> is_field 4 n (codes (show_dec n)).
Proof.
  intros Hn. destruct (padded_field 3 n) as (ds & H & Hr); [change (10 ^ Z.of_nat 4) with 10000; lia|].
  exists ds. split; [|done]. rewrite <- H. unfold padded, setw.
  assert (Hl : String.length (show_dec n) = 4%nat); [|by rewrite Hl].
  unfold show_dec, show_base. rewrite length_string_of_chars, length_fmap.
  destruct (digits_spec 10 n) as (Hv & Hall & _); [lia|lia|].
  pose proof (digits_short 3 n (S (Z.to_nat (Z.log2 n)))) as Hle.
  specialize (Hle ltac:(change (10 ^ Z.of_nat 4) with 10000; lia)). fold (digits 10 n) in Hle.
  pose proof (of_digits_range _ Hall) as R. rewrite Hv in R. unfold size in R.
  assert (3 < Z.of_nat (length (digits 10 n))); [|lia]. apply (Z.pow_lt_mono_r_iff 10); lia.
Qed.

(** ** The order of times *)

Ltac lex_cases :=
  unfold lex; repeat match goal with
  | |- context [?a <? ?b] => destruct (Z.ltb_spec a b)
  | |- context [?a =? ?b] => destruct (Z.eqb_spec a b)
  end; cbn [orb andb]; try done; exfalso.

Lemma lex_split k n m rest :
  0 < k -> lex n m rest = lex (n / k) (m / k) (lex (n mod k) (m mod k) rest).
Proof.
  intros Hk. pose proof (Z.div_mod n k). pose proof (Z.div_mod m k).
  pose proof (Z.mod_pos_bound n k Hk). pose proof (Z.mod_pos_bound m k Hk).
  set (q := n / k) in *. set (r := n mod k) in *. set (q' := m / k) in *. set (r' := m mod k) in *. lex_cases; nia.
Qed.

Lemma lex_ext n m r r' : (n = m -> r = r') -> lex n m r = lex n m r'.
Proof. intros H. unfold lex. destruct (Z.eqb_spec n m) as [E|]; [by rewrite (H E)|done]. Qed.

Lemma lex_succ n m rest : lex (n + 1) (m + 1) rest = lex n m rest.
Proof. lex_cases; lia. Qed.

(** The days before the year [y], from a fixed day on. *)
Definition days_before (y : Z) : Z := 365 * y + (y - 1) / 4 - (y - 1) / 100 + (y - 1) / 400.

Lemma days_before_succ y : days_before (y + 1) = days_before y + year_days y.
Proof.
  unfold days_before, year_days, leap. replace (y + 1 - 1) with y by lia.
  destruct (Z.eqb_spec (y mod 4) 0), (Z.eqb_spec (y mod 100) 0), (Z.eqb_spec (y mod 400) 0); cbn [andb orb negb]; Z.to_euclidean_division_equations; lia.
Qed.

Lemma days_before_mono y y' : y <= y' -> days_before y + 365 * (y' - y) <= days_before y'.
Proof.
  intros Hy. assert (H : forall k, 0 <= k -> days_before y + 365 * k <= days_before (y + k)).
  - apply natlike_ind; [by rewrite !Z.add_0_r|]. intros k Hk IH.
    rewrite <- Z.add_1_r, Z.add_assoc, days_before_succ. unfold year_days. destruct (leap _); lia.
  - specialize (H (y' - y)). rewrite Zplus_minus in H. lia.
Qed.

Lemma year_of_spec fuel y n :
  0 <= n < 365 * Z.of_nat fuel ->
  let '(y', r) := year_of fuel y n in y <= y' /\ 0 <= r < year_days y' /\ n = days_before y' - days_before y + r.
Proof.
  revert y n. induction fuel as [|fuel IH]; intros y n Hn; [lia|]. cbn [year_of].
  destruct (Z.ltb_spec n (year_days y)); [lia|].
  assert (365 <= year_days y) by (unfold year_days; destruct (leap y); lia).
  specialize (IH (y + 1) (n - year_days y) ltac:(lia)). destruct (year_of fuel (y + 1) (n - year_days y)) as [y' r].
  rewrite days_before_succ in IH. lia.
Qed.

Definition date_of (days : Z) : Z * Z := year_of (S (Z.to_nat (days / 365))) 1970 days.

Lemma date_of_spec n :
  0 <= n -> let '(y, r) := date_of n in 1970 <= y /\ 0 <= r < year_days y /\ n = days_before y - days_before 1970 + r.
Proof.
  intros Hn. apply year_of_spec. pose proof (Z.div_mod n 365). pose proof (Z.mod_pos_bound n 365).
  rewrite Nat2Z.inj_succ, Z2Nat.id by (apply Z.div_pos; lia). lia.
Qed.

Lemma year_before y y' r : y < y' -> 0 <= r < year_days y -> days_before y + r < days_before y'.
Proof. intros Hy Hr. pose proof (days_before_mono (y + 1) y'). rewrite days_before_succ in *. lia. Qed.

Lemma date_of_lex n m rest :
  0 <= n -> 0 <= m ->
  lex n m rest = lex (date_of n).1 (date_of m).1 (lex (date_of n).2 (date_of m).2 rest).
Proof.
  intros Hn Hm. pose proof (date_of_spec n Hn) as H. pose proof (date_of_spec m Hm) as H'.
  destruct (date_of n) as [y r], (date_of m) as [y' r']. cbn [fst snd].
  destruct H as (_ & Hr & ->), H' as (_ & Hr' & ->).
  destruct (Z.lt_trichotomy y y') as [Hl|[<-|Hl]].
  - pose proof (year_before y y' r Hl Hr). lex_cases; lia.
  - lex_cases; lia.
  - pose proof (year_before y' y r' Hl Hr'). lex_cases; lia.
Qed.

Lemma date_of_year n : 0 <= n < 2932897 -> 1970 <= (date_of n).1 < 10000.
Proof.
  intros Hn. pose proof (date_of_spec n) as H. destruct (date_of n) as [y r]. cbn [fst].
  destruct H as (Hy & Hr & Hd); [lia|]. split; [done|]. destruct (Z.lt_ge_cases y 10000) as [|Hge]; [done|].
  pose proof (days_before_mono 10000 y Hge). change (days_before 10000) with 3652424 in *. change (days_before 1970) with 719527 in *. lia.
Qed.

Definition total : list Z -> Z := foldr Z.add 0.

Lemma month_of_spec lengths m n :
  0 <= n < total lengths -> Forall (fun l => l <= 31) lengths ->
  let '(m', d) := month_of lengths m n in m <= m' < m + size lengths /\ 0 <= d < 31.
Proof.
  revert m n. induction lengths as [|l lengths IH]; intros m n Hn Hl; [cbn in Hn; lia|].
  inversion Hl as [|? ? H Hl']; subst. cbn [month_of]. rewrite size_cons. pose proof (size_nonneg lengths).
  destruct (Z.ltb_spec n l); [lia|]. cbn [total foldr] in Hn. fold (total lengths) in Hn.
  specialize (IH (m + 1) (n - l) ltac:(lia) Hl'). destruct (month_of lengths (m + 1) (n - l)). lia.
Qed.

Lemma month_of_ge lengths m n : m <= (month_of lengths m n).1.
Proof.
  revert m n. induction lengths as [|l lengths IH]; intros m n; cbn [month_of]; [cbn; lia|].
  destruct (n <? l); [cbn; lia|]. specialize (IH (m + 1) (n - l)). lia.
Qed.

Lemma month_of_lex lengths m n n' rest :
  lex n n' rest = lex (month_of lengths m n).1 (month_of lengths m n').1 (lex (month_of lengths m n).2 (month_of lengths m n').2 rest).
Proof.
  revert m n n'. induction lengths as [|l lengths IH]; intros m n n'; cbn [month_of].
  - cbn [fst snd]. lex_cases; lia.
  - pose proof (month_of_ge lengths (m + 1) (n - l)). pose proof (month_of_ge lengths (m + 1) (n' - l)).
    destruct (Z.ltb_spec n l), (Z.ltb_spec n' l); [cbn [fst snd]; lex_cases; lia| | |].
    + cbn [fst snd]. lex_cases; lia.
    + cbn [fst snd]. lex_cases; lia.
    + rewrite <- IH. lex_cases; lia.
Qed.

Lemma total_month_days y : total (month_days y) = year_days y.
Proof. unfold month_days, year_days. by destruct (leap y). Qed.

Lemma month_days_short y : Forall (fun l => l <= 31) (month_days y).
Proof. unfold month_days. repeat constructor; destruct (leap y); lia. Qed.

(** ** The stamps *)

Lemma gmtime_eq time :
  gmtime time =
  let days := time / 60 / 60 / 24 in
  let y := (date_of days).1 in
  let md := month_of (month_days y) 1 (date_of days).2 in
  {| tm_year := y; tm_mon := md.1; tm_mday := md.2 + 1; tm_hour := time / 60 / 60 mod 24; tm_min := time / 60 mod 60; tm_sec := time mod 60 |}.
Proof.
  unfold gmtime. cbv zeta. fold (date_of (time / 60 / 60 / 24)). destruct (date_of _) as [y r]. cbn [fst snd].
  by destruct (month_of (month_days y) 1 r).
Qed.

Lemma before_sep a x y : before (a ++ x) (a ++ y) = before x y.
Proof. by rewrite before_app, before_irrefl, bool_decide_eq_true_2. Qed.

(** The fields of a second lie in their ranges. *)
Lemma gmtime_ranges time :
  0 <= time < 253402300800 ->
  let t := gmtime time in
  1970 <= tm_year t < 10000 /\ 0 <= tm_mon t < 100 /\ 0 <= tm_mday t < 100 /\
  0 <= tm_hour t < 100 /\ 0 <= tm_min t < 100 /\ 0 <= tm_sec t < 100.
Proof.
  intros Ht. rewrite gmtime_eq. cbv zeta. cbn [tm_year tm_mon tm_mday tm_hour tm_min tm_sec].
  set (days := time / 60 / 60 / 24).
  assert (Hdays : 0 <= days < 2932897) by (unfold days; Z.to_euclidean_division_equations; lia).
  pose proof (date_of_year days Hdays) as Hy. pose proof (date_of_spec days) as Hd. destruct (date_of days) as [y r]. cbn [fst snd] in *.
  destruct Hd as (_ & Hr & _); [lia|].
  pose proof (month_of_spec (month_days y) 1 r) as Hm. rewrite total_month_days in Hm.
  specialize (Hm Hr (month_days_short y)). destruct (month_of (month_days y) 1 r) as [m d]. cbn [fst snd].
  change (size (month_days y)) with 12 in Hm.
  pose proof (Z.mod_pos_bound (time / 60 / 60) 24). pose proof (Z.mod_pos_bound (time / 60) 60). pose proof (Z.mod_pos_bound time 60).
  lia.
Qed.

Lemma put_time_before a b x y :
  0 <= a < 253402300800 -> 0 <= b < 253402300800 ->
  before (codes (put_time (gmtime a)) ++ x) (codes (put_time (gmtime b)) ++ y) = lex a b (before x y).
Proof.
  intros Ha Hb. pose proof (gmtime_ranges a Ha) as Ra. pose proof (gmtime_ranges b Hb) as Rb. cbv zeta in Ra, Rb.
  assert (H2 : 10 ^ Z.of_nat 2 = 100) by done. destruct Ra as (?&?&?&?&?&?), Rb as (?&?&?&?&?&?).
  unfold put_time. rewrite !codes_append, <- !app_assoc.
  rewrite (field_before 4 _ _ _ _ _ _ (year_field (tm_year (gmtime a)) ltac:(lia)) (year_field (tm_year (gmtime b)) ltac:(lia))).
  repeat rewrite before_sep || (erewrite (field_before 2) by (apply padded_field; rewrite H2; lia)).
  rewrite !gmtime_eq. cbv zeta. cbn [tm_year tm_mon tm_mday tm_hour tm_min tm_sec].
  rewrite (lex_split 60 a b), (lex_split 60 (a / 60)), (lex_split 24 (a / 60 / 60)) by lia.
  rewrite (date_of_lex (a / 60 / 60 / 24)) by (repeat apply Z.div_pos; lia).
  apply lex_ext. intros ->. rewrite lex_succ. symmetry. apply month_of_lex.
Qed.

(** C39: up to the end of the year 9999, the stamps of the log are ordered as texts exactly as their
    times are, to the millisecond: sorting the lines of a log sorts them by time, across the ends of
    minutes, days, months of every length, leap years and centuries. *)
Theorem stamps_ordered a b :
  0 <= a < 253402300800 * 1000000000 -> 0 <= b < 253402300800 * 1000000000 ->
  before (codes (nowIso8601 a)) (codes (nowIso8601 b)) = (a / 1000000 <? b / 1000000).
Proof.
  intros Ha Hb. unfold nowIso8601. rewrite !Z.quot_div_nonneg, !Z.rem_mod_nonneg by (try apply Z.div_pos; done || lia).
  rewrite !codes_append, put_time_before by (Z.to_euclidean_division_equations; lia).
  assert (Hms : forall n, 0 <= n mod MillisecondsPerSecond < 10 ^ Z.of_nat 3) by (intros n; apply Z.mod_pos_bound; done).
  rewrite before_sep, (field_before 3 _ _ _ _ _ _ (padded_field 2 _ (Hms _)) (padded_field 2 _ (Hms _))), before_irrefl.
  assert (Hs : forall n, n / 1000000000 = n / 1000000 / MillisecondsPerSecond) by (intros n; by rewrite Z.div_div).
  rewrite !Hs, <- lex_split by done. unfold lex. by rewrite andb_false_r, orb_false_r.
Qed.

Lemma stamps_ordered_witness :
  before (codes (nowIso8601 951782399999000000)) (codes (nowIso8601 951782400000000000)) = true /\
  nowIso8601 951782399999000000 = "2000-02-28T23:59:59.999Z"%string /\ nowIso8601 951782400000000000 = "2000-02-29T00:00:00.000Z"%string.
Proof. split; [rewrite stamps_ordered by lia; done|]. split; vm_compute; reflexivity. Defined.

Example epoch : nowIso8601 0 = "1970-01-01T00:00:00.000Z"%string.
Proof. vm_compute. reflexivity. Qed.
Example leap_day : nowIso8601 1709251199999123456 = "2024-02-29T23:59:59.999Z"%string.
Proof. vm_compute. reflexivity. Qed.
