(* ===== verification/SignalProcessing.v ===== *)
(** [src/SignalProcessing.cpp]: the filters of the received signal blocks and their metrics.

    A [float] or a [double] is its value as a [spec_float]; a [float] is widened exactly and a
    [double] is rounded to nearest. The functions of the mathematical library that IEEE-754 does not
    define ([sin], [cos], [hypot], [log10]) are the record [libm]; [std::sqrt] is the correctly
    rounded square root. [None] is an index out of a span. *)

From S2P Require Import Prelude ByteUtils FrameCodec Floats ApplicationPayload.

Inductive SignalFilterMode := NoFilter | MovingAverage | SineProjection.

Definition signalFilterModeToString (mode : SignalFilterMode) : string :=
  match mode with
  | NoFilter => "none" | MovingAverage => "moving-average" | SineProjection => "sine-projection"
  end.

Record SignalMetrics := {
  rawRms : spec_float;
  filteredRms : spec_float;
  residualNoiseRms : spec_float;
  estimatedSnrDb : spec_float;
  estimatedAmplitude : spec_float;
}.

Record libm := {
  sin_ : spec_float -> spec_float;
  cos_ : spec_float -> spec_float;
  hypot_ : spec_float -> spec_float -> spec_float;
  log10_ : spec_float -> spec_float;
}.

(** ** Arithmetic *)

Definition f64_add : spec_float -> spec_float -> spec_float := SFadd prec64 emax64.
Definition f64_sub : spec_float -> spec_float -> spec_float := SFsub prec64 emax64.
Definition f64_mul : spec_float -> spec_float -> spec_float := SFmul prec64 emax64.
Definition f64_sqrt : spec_float -> spec_float := SFsqrt prec64 emax64.

(** [static_cast<double>(x)] for a [float], and [static_cast<float>(x)] for a [double]. *)
Definition widen (x : spec_float) : spec_float :=
  match x with S754_finite s m e => binary_round prec64 emax64 s m e | _ => x end.
Definition narrow (x : spec_float) : spec_float :=
  match x with S754_finite s m e => binary_round prec32 emax32 s m e | _ => x end.

Definition zero64 : spec_float := S754_zero false.

(** [std::numbers::pi_v<double>] and [2.0 * pi]. *)
Definition pi64 : spec_float := S754_finite false 7074237752028440 (-51).
Definition TwoPi : spec_float := f64_mul (f64_of_Z 2) pi64.

(** ** Validation *)

Definition not_finite_error : exn := invalid_argument "signal processing requires finite samples".

Definition validateFiniteSamples (samples : list spec_float) : result unit :=
  throw_if (existsb (fun x => negb (is_finite x)) samples) not_finite_error ;; Ok tt.

Definition validateProjectionMetadata (sampleRateHz : Z) (frequencyHz : spec_float) : result unit :=
  throw_if ((sampleRateHz =? 0) || negb (is_finite frequencyHz))
    (invalid_argument "invalid signal metadata for sine projection") ;;
  let nyquistHz := f32_div (f32_of_Z sampleRateHz) (f32_of_Z 2) in
  throw_if (SFleb frequencyHz (f32_of_Z 0) || SFleb nyquistHz frequencyHz)
    (invalid_argument "sine projection frequency must be strictly between 0 and Nyquist") ;;
  Ok tt.

(** ** The moving average *)

(** The inner loop, over the indices from [begin] to [end]. *)
Definition window_sum (samples : list spec_float) (begin end_ : nat) : option spec_float :=
  foldl (fun sum j => sum ← sum; x ← samples !! j; Some (f64_add sum (widen x)))
    (Some zero64) (seq begin (end_ - begin)).

Definition movingAverageFilter (samples : list spec_float) (windowSize : Z)
  : option (result (list spec_float)) :=
  if (windowSize =? 0) || (windowSize mod 2 =? 0)
  then Some (Throw (invalid_argument "moving-average window must be a positive odd number")) else
  match validateFiniteSamples samples with
  | Throw e => Some (Throw e)
  | Ok _ =>
      if (length samples =? 0)%nat || (windowSize =? 1) then Some (Ok samples) else
      let radius := Z.to_nat (windowSize / 2) in
      filtered ← mapM (fun i =>
        let begin := if (radius <? i)%nat then (i - radius)%nat else O in
        let end_ := Nat.min (length samples) (i + radius + 1) in
        sum ← window_sum samples begin end_;
        Some (narrow (f64_div sum (f64_of_Z (Z.of_nat (end_ - begin)))))) (seq 0 (length samples));
      Some (Ok filtered)
  end.

Section Math.
Variable math : libm.

(** ** The sine projection *)

Record ProjectionCoefficients := {
  dc : spec_float;
  sinCoefficient : spec_float;
  cosCoefficient : spec_float;
}.
Definition no_coefficients : ProjectionCoefficients :=
  {| dc := zero64; sinCoefficient := zero64; cosCoefficient := zero64 |}.

Definition omega (sampleRateHz : Z) (frequencyHz : spec_float) : spec_float :=
  f64_div (f64_mul TwoPi (widen frequencyHz)) (f64_of_Z sampleRateHz).

(** [omega * static_cast<double>(startSampleIndex + i)], the index on 64 bits. *)
Definition phase (sampleRateHz : Z) (frequencyHz : spec_float) (startSampleIndex : Z) (i : nat) : spec_float :=
  f64_mul (omega sampleRateHz frequencyHz) (f64_of_Z ((startSampleIndex + Z.of_nat i) mod 2 ^ 64)).

(** The loop of [estimateProjection], from the index [i]: the three sums. *)
Fixpoint project (ph : nat -> spec_float) (i : nat) (samples : list spec_float)
    (acc : spec_float * spec_float * spec_float) : spec_float * spec_float * spec_float :=
  match samples with
  | [] => acc
  | x :: samples =>
      let '(sum, sinProjection, cosProjection) := acc in
      project ph (S i) samples
        (f64_add sum (widen x), f64_add sinProjection (f64_mul (widen x) (sin_ math (ph i))),
         f64_add cosProjection (f64_mul (widen x) (cos_ math (ph i))))
  end.

Definition estimateProjection (samples : list spec_float) (sampleRateHz : Z) (frequencyHz : spec_float)
    (startSampleIndex : Z) : result ProjectionCoefficients :=
  if (length samples =? 0)%nat then Ok no_coefficients else
  _ ← validateProjectionMetadata sampleRateHz frequencyHz;
  _ ← validateFiniteSamples samples;
  let '(sum, sinProjection, cosProjection) :=
    project (phase sampleRateHz frequencyHz startSampleIndex) 0 samples (zero64, zero64, zero64) in
  let count := f64_of_Z (size samples) in
  Ok {| dc := f64_div sum count;
        sinCoefficient := f64_div (f64_mul (f64_of_Z 2) sinProjection) count;
        cosCoefficient := f64_div (f64_mul (f64_of_Z 2) cosProjection) count |}.

Definition sineProjectionFilter (samples : list spec_float) (sampleRateHz : Z) (frequencyHz : spec_float)
    (startSampleIndex : Z) : result (list spec_float) :=
  coefficients ← estimateProjection samples sampleRateHz frequencyHz startSampleIndex;
  Ok (imap (fun i _ =>
        let ph := phase sampleRateHz frequencyHz startSampleIndex i in
        narrow (f64_add (f64_add (dc coefficients) (f64_mul (sinCoefficient coefficients) (sin_ math ph)))
                        (f64_mul (cosCoefficient coefficients) (cos_ math ph)))) samples).

(** ** The metrics *)

Definition sum_squares (xs : list spec_float) : spec_float :=
  foldl (fun sum x => f64_add sum (f64_mul x x)) zero64 xs.

Definition rootMeanSquare (samples : list spec_float) : spec_float :=
  if (length samples =? 0)%nat then zero64
  else f64_sqrt (f64_div (sum_squares (widen <$> samples)) (f64_of_Z (size samples))).

Definition DecibelsPerAmplitudeDecade : spec_float := f64_of_Z 20.
(** The double nearest to [1.0e-12]. *)
Definition NumericalZeroEpsilon : spec_float := f64_literal 1 (10 ^ 12).

Definition computeSignalMetrics (raw filtered : list spec_float) (sampleRateHz : Z) (frequencyHz : spec_float)
    (startSampleIndex : Z) : result SignalMetrics :=
  throw_if (negb (length raw =? length filtered)%nat)
    (invalid_argument "raw and filtered signal sizes must match") ;;
  _ ← validateProjectionMetadata sampleRateHz frequencyHz;
  _ ← validateFiniteSamples raw;
  _ ← validateFiniteSamples filtered;
  let rawRms := rootMeanSquare raw in
  let filteredRms := rootMeanSquare filtered in
  let residualNoiseRms :=
    if (length raw =? 0)%nat then zero64
    else f64_sqrt (f64_div (sum_squares (zip_with (fun r f => f64_sub (widen r) (widen f)) raw filtered))
                           (f64_of_Z (size raw))) in
  coefficients ← estimateProjection raw sampleRateHz frequencyHz startSampleIndex;
  let estimatedAmplitude := hypot_ math (sinCoefficient coefficients) (cosCoefficient coefficients) in
  let estimatedSnrDb :=
    if SFleb residualNoiseRms NumericalZeroEpsilon then S754_infinity false
    else if SFleb filteredRms NumericalZeroEpsilon then S754_infinity true
    else f64_mul DecibelsPerAmplitudeDecade (log10_ math (f64_div filteredRms residualNoiseRms)) in
  Ok {| rawRms := rawRms; filteredRms := filteredRms; residualNoiseRms := residualNoiseRms;
        estimatedSnrDb := estimatedSnrDb; estimatedAmplitude := estimatedAmplitude |}.

(** ** The treatment of a received block *)

(** The [switch] of [processApplicationPayload] and the call that follows it
    (apps/ground_station/GroundStationProcessing.cpp), on the bits of the payload. *)
Definition filterSignal (mode : SignalFilterMode) (movingAverageWindow : Z) (signal : SignalBlockPayload)
  : option (result (list spec_float)) :=
  let samples := f32 <$> ApplicationPayload.samples signal in
  match mode with
  | NoFilter => Some (Ok samples)
  | MovingAverage => movingAverageFilter samples movingAverageWindow
  | SineProjection =>
      Some (sineProjectionFilter samples (sampleRateHz signal) (f32 (frequencyHz signal)) (startSampleIndex signal))
  end.

Definition processSignal (mode : SignalFilterMode) (movingAverageWindow : Z) (signal : SignalBlockPayload)
  : option (result (list spec_float * SignalMetrics)) :=
  filtered ← filterSignal mode movingAverageWindow signal;
  Some (filtered ← filtered;
        metrics ← computeSignalMetrics (f32 <$> ApplicationPayload.samples signal) filtered
                    (sampleRateHz signal) (f32 (frequencyHz signal)) (startSampleIndex signal);
        Ok (filtered, metrics)).
End Math.

(** ** Validation, on the bits *)

Lemma f32_finite bits : 0 <= bits -> is_finite (f32 bits) = isfinite bits.
Proof.
  intros Hb. unfold f32, isfinite.
  assert (Hm : 0 <= Z.land bits 0x7FFFFF) by (apply Z.land_nonneg; by left).
  destruct (_ =? 0) eqn:H0.
  - reflect_Z. rewrite H0. by destruct (Z.land bits 0x7FFFFF).
  - destruct (_ =? 0xFF); [by destruct (Z.land bits 0x7FFFFF)|].
    by destruct (Z.land bits 0x7FFFFF + 0x800000) eqn:E; [lia| |lia].
Qed.

(** Half of every sample rate is a finite number: all of them are computed. *)
Lemma nyquist_finite rate :
  fits 16 rate -> rate <> 0 -> is_finite (f32_div (f32_of_Z rate) (f32_of_Z 2)) = true.
Proof.
  intros Hr Hne. unfold fits in Hr.
  assert (H : forallb (fun h => forallb (fun l => (h * 256 + l =? 0) ||
                is_finite (f32_div (f32_of_Z (h * 256 + l)) (f32_of_Z 2))) (seqZ 0 256)) (seqZ 0 256) = true)
    by (vm_compute; reflexivity).
  rewrite forallb_forall in H. specialize (H (rate / 256)). rewrite forallb_forall in H.
  specialize (H ltac:(apply list_elem_of_In, elem_of_seqZ; dlia) (rate mod 256)
                ltac:(apply list_elem_of_In, elem_of_seqZ; dlia)).
  replace (rate / 256 * 256 + rate mod 256) with rate in H by dlia.
  by rewrite (proj2 (Z.eqb_neq rate 0)) in H by done.
Qed.

(** The metadata the decoder accepts are those the projection accepts. *)
Lemma metadata_accepted rate freq ampl :
  fits 16 rate -> 0 <= freq -> validSignalMetadata rate freq ampl = true ->
  validateProjectionMetadata rate (f32 freq) = Ok tt.
Proof.
  intros Hr Hf. unfold validSignalMetadata, validateProjectionMetadata.
  destruct (rate =? 0) eqn:H0; [done|]. cbn [orb]. reflect_Z.
  rewrite f32_finite by done. destruct (isfinite freq) eqn:Hfin; [|done]. cbn [orb negb].
  destruct (negb (isfinite ampl)); [done|].
  intros [[H1 H2]%andb_true_iff _]%andb_true_iff.
  rewrite !SFleb_or_ltb, H1, H2 by (done || (by rewrite f32_finite) || by apply nyquist_finite). done.
Qed.

Lemma samples_accepted samples :
  Forall (fits 32) samples -> forallb isfinite samples = true ->
  validateFiniteSamples (f32 <$> samples) = Ok tt.
Proof.
  intros Hs Hf. unfold validateFiniteSamples.
  assert (H : existsb (fun x => negb (is_finite x)) (f32 <$> samples) = false); [|by rewrite H].
  induction Hs as [|x samples Hx _ IH]; [done|]. cbn [forallb] in Hf. apply andb_true_iff in Hf as [Hfx Hf].
  rewrite fmap_cons. cbn [existsb]. rewrite f32_finite, Hfx, IH; [done|done|unfold fits in Hx; lia].
Qed.

(** ** The moving average, without indices *)

(** The mean of some samples, as the filter computes it: in double precision, from left to right. *)
Definition mean (xs : list spec_float) : spec_float :=
  narrow (f64_div (foldl (fun sum x => f64_add sum (widen x)) zero64 xs) (f64_of_Z (size xs))).

(** The samples at a distance of at most [radius] from the index [i]. *)
Definition around (radius i : nat) (samples : list spec_float) : list spec_float :=
  take (i + radius + 1 - (i - radius)) (drop (i - radius) samples).

Lemma window_sum_slice samples begin n :
  (begin + n <= length samples)%nat ->
  window_sum samples begin (begin + n) =
  Some (foldl (fun sum x => f64_add sum (widen x)) zero64 (take n (drop begin samples))).
Proof.
  unfold window_sum. replace (begin + n - begin)%nat with n by lia. generalize zero64.
  revert begin. induction n as [|n IH]; intros begin acc Hn; [done|].
  destruct (lookup_lt_is_Some_2 samples begin) as [x Hx]; [lia|].
  rewrite (drop_S _ x) by done. cbn [seq foldl take mbind option_bind]. rewrite Hx. cbn [mbind option_bind].
  apply IH. lia.
Qed.

Lemma mapM_total {A B} (f : A -> option B) (g : A -> B) xs :
  Forall (fun x => f x = Some (g x)) xs -> mapM f xs = Some (g <$> xs).
Proof. induction 1 as [|x xs Hx _ IH]; [done|]. cbn. by rewrite Hx, IH. Qed.

Lemma movingAverage_spec samples radius :
  validateFiniteSamples samples = Ok tt -> (0 < radius)%nat -> samples <> [] ->
  movingAverageFilter samples (2 * Z.of_nat radius + 1) =
  Some (Ok ((fun i => mean (around radius i samples)) <$> seq 0 (length samples))).
Proof.
  intros Hv Hr Hne. unfold movingAverageFilter.
  rewrite (proj2 (Z.eqb_neq (2 * Z.of_nat radius + 1) 0)), (proj2 (Z.eqb_neq (_ mod 2) 0)) by dlia.
  cbn [orb]. rewrite Hv, (proj2 (Nat.eqb_neq (length samples) 0)) by (by destruct samples).
  rewrite (proj2 (Z.eqb_neq (2 * Z.of_nat radius + 1) 1)) by lia. cbn [orb].
  replace (Z.to_nat ((2 * Z.of_nat radius + 1) / 2)) with radius by dlia.
  rewrite (mapM_total _ (fun i => mean (around radius i samples))); [done|].
  apply Forall_forall. intros i Hi%elem_of_seq.
  replace (if (radius <? i)%nat then (i - radius)%nat else 0%nat) with (i - radius)%nat
    by (destruct (Nat.ltb_spec radius i); lia).
  set (n := (length samples `min` (i + radius + 1) - (i - radius))%nat).
  replace (length samples `min` (i + radius + 1))%nat with (i - radius + n)%nat by (unfold n; lia).
  rewrite window_sum_slice by (unfold n; lia). cbn [mbind option_bind]. unfold mean, around.
  replace (take (i + radius + 1 - (i - radius)) (drop (i - radius) samples)) with (take n (drop (i - radius) samples)).
  - do 3 f_equal. replace (i - radius + n - (i - radius))%nat with n by lia.
    unfold size. rewrite length_take, length_drop. f_equal. unfold n. lia.
  - destruct (decide (i + radius + 1 <= length samples)%nat).
    + f_equal. unfold n. lia.
    + rewrite !take_ge; [done|rewrite length_drop; lia|rewrite length_drop; unfold n; lia].
Qed.

(** ** Properties *)

Section Outcome.
Variable math : libm.

(** What the decoder guarantees of a block. *)
Definition block_ok (s : SignalBlockPayload) : Prop :=
  validateProjectionMetadata (sampleRateHz s) (f32 (frequencyHz s)) = Ok tt /\
  validateFiniteSamples (f32 <$> samples s) = Ok tt.

Lemma decoded_block_ok payload s :
  bytes_ok payload -> decodeApplicationPayload payload = Some (ParsedSignal s) -> block_ok s.
Proof.
  intros Hok Hd. destruct (decoded_signal payload s Hok Hd) as (Hr & _ & [Hf Hs]%Forall_cons & Hm & Hfin).
  split; [|by apply samples_accepted]. eapply metadata_accepted; [done|unfold fits in Hf; lia|exact Hm].
Qed.

Lemma estimate_ok s : block_ok s ->
  exists c, estimateProjection math (f32 <$> samples s) (sampleRateHz s) (f32 (frequencyHz s)) (startSampleIndex s) = Ok c.
Proof.
  intros [Hm Hs]. unfold estimateProjection. destruct (_ =? 0)%nat; [eauto|].
  rewrite Hm, Hs. bind_some. destruct (project _ _ _ _ _) as [[a b] c]. eauto.
Qed.

(** Every filter gives as many samples as it gets. *)
Lemma filterSignal_ok mode window s :
  block_ok s -> 0 < window -> window mod 2 = 1 ->
  exists filtered, filterSignal math mode window s = Some (Ok filtered) /\ length filtered = length (samples s).
Proof.
  intros Hb Hw Hodd. destruct mode; cbn [filterSignal].
  - eexists. split; [done|]. apply length_fmap.
  - destruct Hb as [_ Hs].
    assert (Hshort : (samples s = [] \/ window = 1) \/ (samples s <> [] /\ 1 < window)).
    { destruct (samples s); [by left; left|]. destruct (decide (window = 1)); [by left; right|].
      right. split; [done|lia]. }
    destruct Hshort as [Hshort|[Hne Hw1]].
    + exists (f32 <$> samples s). split; [|apply length_fmap]. unfold movingAverageFilter.
      rewrite (proj2 (Z.eqb_neq window 0)), (proj2 (Z.eqb_neq (window mod 2) 0)) by lia. cbn [orb].
      rewrite Hs. destruct Hshort as [->| ->]; [done|]. by rewrite orb_true_r.
    + replace window with (2 * Z.of_nat (Z.to_nat (window / 2)) + 1) by dlia.
      rewrite movingAverage_spec by (done || dlia || (intros H; by apply fmap_nil_inv in H)).
      eexists. split; [done|]. by rewrite length_fmap, length_seq, length_fmap.
  - destruct (estimate_ok s Hb) as [c Hc]. unfold sineProjectionFilter. rewrite Hc. bind_some.
    eexists. split; [done|]. by rewrite length_imap, length_fmap.
Qed.

(** The metrics of a filtered block fail for one reason only. *)
Lemma metrics_outcome s filtered :
  block_ok s -> length filtered = length (samples s) ->
  if forallb is_finite filtered
  then exists m, computeSignalMetrics math (f32 <$> samples s) filtered (sampleRateHz s) (f32 (frequencyHz s))
                   (startSampleIndex s) = Ok m
  else computeSignalMetrics math (f32 <$> samples s) filtered (sampleRateHz s) (f32 (frequencyHz s))
                   (startSampleIndex s) = Throw not_finite_error.
Proof.
  intros Hb Hl. destruct (estimate_ok s Hb) as [c Hc]. destruct Hb as [Hm Hs].
  unfold computeSignalMetrics. rewrite length_fmap, Hl, Nat.eqb_refl, Hm, Hs. cbn [negb]. bind_some.
  assert (Hv : existsb (fun x => negb (is_finite x)) filtered = negb (forallb is_finite filtered)).
  { clear. induction filtered as [|x xs IH]; [done|]. cbn [existsb forallb]. by rewrite IH, negb_andb. }
  unfold validateFiniteSamples. rewrite Hv. destruct (forallb is_finite filtered); cbn [negb]; [|done].
  bind_some. rewrite Hc. bind_some. eauto.
Qed.
(** A decoded block that a filter makes overflow is refused. *)
Lemma overflow_refused mode window payload s filtered :
  bytes_ok payload -> decodeApplicationPayload payload = Some (ParsedSignal s) -> 0 < window -> window mod 2 = 1 ->
  filterSignal math mode window s = Some (Ok filtered) -> forallb is_finite filtered = false ->
  processSignal math mode window s = Some (Throw not_finite_error).
Proof.
  intros Hok Hd Hw Hodd Hf Hfin. pose proof (decoded_block_ok payload s Hok Hd) as Hb.
  destruct (filterSignal_ok mode window s Hb Hw Hodd) as (filtered' & Hf' & Hl). rewrite Hf in Hf'. injection Hf' as <-.
  pose proof (metrics_outcome s filtered Hb Hl) as Hm. rewrite Hfin in Hm. unfold processSignal. rewrite Hf. bind_some.
  by rewrite Hm.
Qed.
End Outcome.

(** C29: the treatment of a signal block that was decoded from a frame never reads out of its samples
    and has two ends: as many filtered samples as there were, with their metrics; or, when some
    filtered sample is not a finite number, the exception of [validateFiniteSamples]. The exception
    cannot happen without a filter. Nothing else in the block makes the filters or the metrics
    throw, whatever the mathematical library computes. *)
Theorem signal_processing_outcome : forall math mode window payload s,
  bytes_ok payload -> decodeApplicationPayload payload = Some (ParsedSignal s) ->
  0 < window -> window mod 2 = 1 ->
  exists filtered, filterSignal math mode window s = Some (Ok filtered) /\
    length filtered = length (samples s) /\
    (if forallb is_finite filtered
     then exists m, processSignal math mode window s = Some (Ok (filtered, m))
     else processSignal math mode window s = Some (Throw not_finite_error) /\ mode <> NoFilter).
Proof.
  intros math mode window payload s Hok Hd Hw Hodd. pose proof (decoded_block_ok payload s Hok Hd) as Hb.
  destruct (filterSignal_ok math mode window s Hb Hw Hodd) as (filtered & Hf & Hl).
  exists filtered. split_and!; [done|done|]. pose proof (metrics_outcome math s filtered Hb Hl) as Hm.
  unfold processSignal. rewrite Hf. bind_some. destruct (forallb is_finite filtered) eqn:Hfin.
  - destruct Hm as [m ->]. bind_some. eauto.
  - rewrite Hm. split; [done|]. intros ->. injection Hf as <-.
    destruct (decoded_signal payload s Hok Hd) as (_ & _ & [_ Hs]%Forall_cons & _ & Hsf).
    assert (H : forallb is_finite (f32 <$> samples s) = true); [|congruence].
    clear -Hs Hsf. induction Hs as [|x xs Hx _ IH]; [done|]. cbn [forallb] in Hsf.
    apply andb_true_iff in Hsf as [Hfx Hsf]. rewrite fmap_cons. cbn [forallb].
    rewrite f32_finite, Hfx, IH by (done || (unfold fits in Hx; lia)). done.
Qed.

(** A library with the values of [sin] and [cos] at zero. *)
Definition sample_math : libm :=
  {| sin_ := fun x => x; cos_ := fun _ => f64_of_Z 1; hypot_ := fun x _ => x; log10_ := fun x => x |}.

Definition sample_signal_bytes : bytes := signal_bytes sample_signal.

Lemma signal_processing_outcome_witness :
  exists filtered, filterSignal sample_math MovingAverage 3 sample_signal = Some (Ok filtered) /\
    length filtered = 4%nat.
Proof.
  destruct (signal_processing_outcome sample_math MovingAverage 3 sample_signal_bytes sample_signal)
    as (filtered & H1 & H2 & _); [decide_now|vm_compute; reflexivity|lia|reflexivity|].
  exists filtered. split; [exact H1|exact H2].
Defined.

(** The moving average is the mean of the samples within half a window: at each index the
    output is the mean, in double precision, of exactly the samples that exist at a distance of at
    most half the window, without a sample outside of the block and without padding. *)
Theorem moving_average_is_windowed_mean : forall samples radius,
  forallb is_finite samples = true -> (0 < radius)%nat -> samples <> [] ->
  exists filtered, movingAverageFilter samples (2 * Z.of_nat radius + 1) = Some (Ok filtered) /\
    length filtered = length samples /\
    forall i, (i < length samples)%nat ->
      filtered !! i = Some (mean (around radius i samples)) /\
      (forall j x, (around radius i samples) !! j = Some x <->
                   samples !! (i - radius + j)%nat = Some x /\ (i - radius + j <= i + radius)%nat).
Proof.
  intros samples radius Hf Hr Hne. eexists. split.
  - apply movingAverage_spec; [|done|done]. unfold validateFiniteSamples.
    assert (Hv : existsb (fun x => negb (is_finite x)) samples = false); [|by rewrite Hv].
    clear -Hf. induction samples as [|x xs IH]; [done|]. cbn [forallb existsb] in *.
    apply andb_true_iff in Hf as [-> Hf]. by apply IH.
  - split; [by rewrite length_fmap, length_seq|]. intros i Hi. split.
    + rewrite list_lookup_fmap, lookup_seq_lt by done. done.
    + intros j x. unfold around. rewrite lookup_take_Some, lookup_drop. split; intros [H1 H2]; (split; [done|lia]).
Qed.

Lemma moving_average_is_windowed_mean_witness :
  exists filtered, movingAverageFilter (f32_of_Z <$> [3; 6; 9; 30]) 3 = Some (Ok filtered) /\
    length filtered = 4%nat /\ filtered = [f32 0x40900000; f32_of_Z 6; f32_of_Z 15; f32 0x419C0000].
Proof.
  destruct (moving_average_is_windowed_mean (f32_of_Z <$> [3; 6; 9; 30]) 1) as (filtered & H & Hl & _);
    [vm_compute; reflexivity|lia|done|].
  exists filtered. split; [exact H|]. split; [exact Hl|].
  vm_compute in H. injection H as <-. reflexivity.
Defined.

(** ** A block that stops the station *)

(** One sample, the greatest [float], at the index zero. The encoder of the simulator accepts it. *)
Definition loud_signal : SignalBlockPayload :=
  {| sampleRateHz := 1000; frequencyHz := 0x42480000; nominalAmplitude := 0x3F800000;
     startSampleIndex := 0; samples := [0x7F7FFFFF] |}.

Definition loud_payload : bytes := signal_bytes loud_signal.

Lemma loud_payload_accepted :
  encodeSignalBlockPayload loud_signal = Ok loud_payload /\
  decodeApplicationPayload loud_payload = Some (ParsedSignal loud_signal).
Proof. split; vm_compute; reflexivity. Qed.

(** A signal block that both ends of the protocol accept makes the default filter of the station
    throw: with the exact values [sin 0 = 0] and [cos 0 = 1] the projection of a block whose only
    sample is the greatest [float] is three times this number, which no [float] holds, and
    [computeSignalMetrics] refuses it. The exception is not caught before the writer's thread. *)
Lemma loud_block_throws math window :
  sin_ math (S754_zero false) = S754_zero false -> cos_ math (S754_zero false) = f64_of_Z 1 ->
  processSignal math SineProjection window loud_signal = Some (Throw not_finite_error).
Proof.
  intros Hs Hc.
  unfold processSignal, filterSignal, sineProjectionFilter, estimateProjection.
  set (ph := phase _ _ _).
  assert (Hph : ph 0%nat = S754_zero false) by (vm_compute; reflexivity).
  cbn [ApplicationPayload.samples loud_signal fmap list_fmap length Nat.eqb project imap].
  rewrite Hph, Hs, Hc. vm_compute. reflexivity.
Qed.
