(* ===== verification/FloatRounding.v ===== *)
(** The rounding of [SpecFloat]: what [binary_round_aux] makes of a mantissa that is not negative is
    zero, an infinity or a number whose mantissa has at most [prec] digits, and never a NaN; it is a
    number as long as the exponent stays below [emax - prec], and its magnitude passes the exact one by
    at most a unit of the last place. From this follows which additions, subtractions and divisions of
    doubles are not NaN, and that a finite [float] stays far from the largest double. *)

From S2P Require Import Prelude Floats SignalProcessing.

(** ** Digits *)

Lemma digits2_bounds (p : positive) : 2 ^ (Z.pos (digits2_pos p) - 1) <= Z.pos p < 2 ^ Z.pos (digits2_pos p).
Proof.
  induction p as [p IH|p IH|]; [| |done]; cbn [digits2_pos]; rewrite Pos2Z.inj_succ;
    replace (Z.succ (Z.pos (digits2_pos p)) - 1) with (Z.succ (Z.pos (digits2_pos p) - 1)) by lia;
    rewrite !Z.pow_succ_r by lia; lia.
Qed.

(** A bound on the number bounds its digits. *)
Lemma Zdigits2_le m n : 0 <= m < 2 ^ n -> 0 <= n -> Zdigits2 m <= n.
Proof.
  intros Hm Hn. destruct m as [|p|p]; [done| |lia]. cbn [Zdigits2]. pose proof (digits2_bounds p) as [Hd _].
  destruct (Z.le_gt_cases (Z.pos (digits2_pos p)) n) as [|Hlt]; [done|].
  pose proof (Z.pow_le_mono_r 2 n (Z.pos (digits2_pos p) - 1)). lia.
Qed.

(** ** Shifts *)

Lemma iter_pos_nat {A} (f : A -> A) n x : iter_pos f n x = Nat.iter (Pos.to_nat n) f x.
Proof.
  revert x. induction n as [n IH|n IH|]; intros x; cbn [iter_pos]; [| |done];
    rewrite !IH, <- Nat.iter_add; [rewrite Pos2Nat.inj_xI, Nat.iter_succ_r|rewrite Pos2Nat.inj_xO];
    by replace (2 * Pos.to_nat n)%nat with (Pos.to_nat n + Pos.to_nat n)%nat by lia.
Qed.

Lemma shr_1_half mrs : 0 <= shr_m mrs -> shr_m (shr_1 mrs) = shr_m mrs / 2.
Proof.
  destruct mrs as [m r s]. cbn [shr_m]. intros Hm.
  destruct m as [|[p|p|]|p]; [done| | |done|lia]; cbn [shr_1 shr_m].
  - rewrite Pos2Z.inj_xI. apply (Z.div_unique _ _ _ 1); lia.
  - rewrite Pos2Z.inj_xO. apply (Z.div_unique _ _ _ 0); lia.
Qed.

Lemma shr_iter mrs n : 0 <= shr_m mrs -> shr_m (Nat.iter n shr_1 mrs) = shr_m mrs / 2 ^ Z.of_nat n.
Proof.
  intros Hm. induction n as [|n IH]; [by rewrite Z.div_1_r|].
  cbn [Nat.iter nat_rect]. fold (Nat.iter n shr_1 mrs). assert (HP : 0 < 2 ^ Z.of_nat n) by lia.
  rewrite shr_1_half by (rewrite IH; apply Z.div_pos; lia).
  rewrite IH, Nat2Z.inj_succ, Z.pow_succ_r, (Z.mul_comm 2) by lia. by rewrite Z.div_div by lia.
Qed.

Section Rounding.
Context (prec emax : Z) (Hprec : 0 < prec).

Abbreviation emin := (SpecFloat.emin prec emax).
Abbreviation fexp := (SpecFloat.fexp prec emax).
Abbreviation shr_fexp := (SpecFloat.shr_fexp prec emax).
Abbreviation round_aux := (SpecFloat.binary_round_aux prec emax).

(** The places that a rounding drops. *)
Definition dropped (m e : Z) : Z := Z.max 0 (fexp (Zdigits2 m + e) - e).

Lemma shr_fexp_spec m e l : 0 <= m ->
  exists mrs, shr_fexp m e l = (mrs, e + dropped m e) /\ shr_m mrs = m / 2 ^ dropped m e.
Proof.
  intros Hm. unfold SpecFloat.shr_fexp, dropped, shr.
  assert (Hr : shr_m (shr_record_of_loc m l) = m) by by destruct l as [|[]].
  destruct (fexp (Zdigits2 m + e) - e) as [|p|p]; cbn [Z.max Z.compare]; eexists; (split; [f_equal; lia|]).
  - by rewrite Hr, Z.div_1_r.
  - rewrite iter_pos_nat, shr_iter, Hr by lia. by rewrite positive_nat_Z.
  - by rewrite Hr, Z.div_1_r.
Qed.

(** What is left has at most [prec] digits, and does not vanish above the smallest exponent. *)
Lemma shifted_bounds m e : 0 <= m ->
  0 <= m / 2 ^ dropped m e < 2 ^ prec /\ (0 < m -> emin < Zdigits2 m + e -> 0 < m / 2 ^ dropped m e).
Proof using Hprec.
  intros Hm. assert (HP : 0 < 2 ^ dropped m e) by (apply Z.pow_pos_nonneg; unfold dropped; lia). split.
  - split; [apply Z.div_pos; lia|]. apply Z.div_lt_upper_bound; [done|]. rewrite <- Z.pow_add_r by (unfold dropped; lia).
    destruct m as [|p|p]; [apply Z.pow_pos_nonneg; unfold dropped; lia| |lia].
    pose proof (digits2_bounds p) as [_ Hp]. eapply Z.lt_le_trans; [exact Hp|]. apply Z.pow_le_mono_r; [done|].
    unfold dropped, SpecFloat.fexp. cbn [Zdigits2]. lia.
  - intros Hm' He. destruct m as [|p|p]; [lia| |lia]. pose proof (digits2_bounds p) as [Hp _].
    apply Z.div_str_pos. split; [done|]. etransitivity; [|exact Hp]. apply Z.pow_le_mono_r; [done|].
    unfold dropped, SpecFloat.fexp in *. cbn [Zdigits2] in *. lia.
Qed.

Lemma round_nearest_even_bounds m l : m <= round_nearest_even m l <= m + 1.
Proof. destruct l as [|[]]; cbn; try case_match; lia. Qed.

(** A rounding in one: the mantissa that is left, the one a unit may be added to, and the exponents. *)
Lemma round_aux_spec s m e l : 0 <= m ->
  exists m1 m2 e2, m / 2 ^ dropped m e <= m1 <= m / 2 ^ dropped m e + 1 /\
    m2 = m1 / 2 ^ dropped m1 (e + dropped m e) /\ e2 = e + dropped m e + dropped m1 (e + dropped m e) /\
    0 <= m2 < 2 ^ prec /\
    round_aux s m e l = match m2 with
                        | 0 => S754_zero s
                        | Z.pos p => if e2 <=? emax - prec then S754_finite s p e2 else S754_infinity s
                        | _ => S754_nan
                        end.
Proof using Hprec.
  intros Hm. unfold SpecFloat.binary_round_aux. destruct (shr_fexp_spec m e l Hm) as (mrs & -> & Hs).
  set (m1 := round_nearest_even (shr_m mrs) (loc_of_shr_record mrs)).
  pose proof (round_nearest_even_bounds (shr_m mrs) (loc_of_shr_record mrs)) as Hr. fold m1 in Hr.
  rewrite Hs in Hr. destruct (shifted_bounds m e Hm) as [[H0 _] _].
  destruct (shr_fexp_spec m1 (e + dropped m e) loc_Exact ltac:(lia)) as (mrs2 & -> & Hs2).
  destruct (shifted_bounds m1 (e + dropped m e) ltac:(lia)) as [Hb _].
  exists m1, (shr_m mrs2), (e + dropped m e + dropped m1 (e + dropped m e)). split_and!; try lia; [done..|].
  by rewrite Hs2.
Qed.

(** At most one place more is dropped after the first rounding, when a unit was added to [2 ^ prec - 1]. *)
Lemma dropped_again m e m1 : 0 <= m -> m / 2 ^ dropped m e <= m1 <= m / 2 ^ dropped m e + 1 ->
  emin <= e + dropped m e -> 0 <= dropped m1 (e + dropped m e) <= 1.
Proof using Hprec.
  intros Hm Hm1 He. destruct (shifted_bounds m e Hm) as [Hb _].
  pose proof (Zdigits2_le m1 (prec + 1)) as Hd. rewrite Z.pow_add_r in Hd by lia. specialize (Hd ltac:(lia) ltac:(lia)).
  revert Hd He. generalize (e + dropped m e) as e'. intros e' Hd He. unfold dropped, SpecFloat.fexp. lia.
Qed.

Lemma exponent_emin m e : emin <= e + dropped m e.
Proof. unfold dropped, SpecFloat.fexp. lia. Qed.

(** The result is a number below [2 ^ prec] or an infinity. *)
Definition rounded_number (x : spec_float) : Prop :=
  match x with
  | S754_nan => False
  | S754_finite _ m e => Z.pos m < 2 ^ prec /\ e <= emax - prec
  | _ => True
  end.

Lemma round_aux_number s m e l : 0 <= m -> rounded_number (round_aux s m e l).
Proof using Hprec.
  intros Hm. destruct (round_aux_spec s m e l Hm) as (m1 & m2 & e2 & _ & _ & _ & Hb & ->).
  destruct m2; [done| |lia]. case_match eqn:E; [|done]. apply Z.leb_le in E. cbn. lia.
Qed.

(** The exponent of the result, and that the result is not an infinity when that exponent is small. *)
Lemma round_aux_small s m e l k : 0 <= m -> e <= k -> Zdigits2 m + e - prec <= k -> emin <= k -> k + 1 <= emax - prec ->
  match round_aux s m e l with
  | S754_zero _ => True
  | S754_finite _ m' e' => Z.pos m' < 2 ^ prec /\ e' <= k + 1
  | _ => False
  end.
Proof using Hprec.
  intros Hm H1 H2 H3 H4. destruct (round_aux_spec s m e l Hm) as (m1 & m2 & e2 & Hm1 & _ & He2 & Hb & ->).
  pose proof (dropped_again m e m1 Hm Hm1 (exponent_emin m e)) as Hd.
  assert (He : e + dropped m e <= k) by (unfold dropped, SpecFloat.fexp; lia).
  destruct m2; [done| |lia]. rewrite (proj2 (Z.leb_le _ _)) by lia. split; lia.
Qed.

(** It is not zero above the smallest exponent. *)
Lemma round_aux_nonzero s m e l s' : 0 < m -> emin < Zdigits2 m + e -> round_aux s m e l <> S754_zero s'.
Proof using Hprec.
  intros Hm He. destruct (round_aux_spec s m e l ltac:(lia)) as (m1 & m2 & e2 & Hm1 & -> & He2 & Hb & ->).
  destruct (shifted_bounds m e ltac:(lia)) as [_ H0]. specialize (H0 Hm He).
  destruct (shifted_bounds m1 (e + dropped m e) ltac:(lia)) as [_ H0'].
  assert (Hd : emin < Zdigits2 m1 + (e + dropped m e)).
  { pose proof (exponent_emin m e). destruct m1 as [|p|p]; [lia|cbn [Zdigits2]; lia|lia]. }
  specialize (H0' ltac:(lia) Hd). case_match; [lia| |done]. by case_match.
Qed.

End Rounding.

(** ** Doubles *)

(** A number of doubles with a mantissa of at most 53 digits and an exponent of at most [k]. *)
Definition small (k : Z) (x : spec_float) : Prop :=
  match x with
  | S754_zero _ => True
  | S754_finite _ m e => Z.pos m < 2 ^ 53 /\ e <= k
  | _ => False
  end.

(** The finite values of a [float]. *)
Definition float_value (x : spec_float) : Prop :=
  match x with
  | S754_zero _ => True
  | S754_finite _ m e => Z.pos m < 2 ^ 24 /\ e <= 104
  | _ => False
  end.

Definition number (x : spec_float) : Prop := x <> S754_nan.

Lemma rounded_number_number prec emax x : rounded_number prec emax x -> number x.
Proof. by destruct x. Qed.

Lemma pos_iter_xO p n : Z.pos (Pos.iter xO p n) = Z.pos p * 2 ^ Z.pos n.
Proof.
  induction n as [|n IH] using Pos.peano_ind; [rewrite Z.pow_1_r; cbn; lia|].
  rewrite Pos.iter_succ, Pos2Z.inj_succ, Z.pow_succ_r by lia.
  change (Z.pos (Pos.iter xO p n)~0) with (2 * Z.pos (Pos.iter xO p n)). rewrite IH. ring.
Qed.

(** Aligning keeps the value. *)
Lemma shl_align_spec m e e' :
  let '(m', e2) := shl_align m e e' in e2 = Z.min e e' /\ Z.pos m' = Z.pos m * 2 ^ (e - e2).
Proof.
  unfold shl_align. destruct (e' - e) as [|p|p] eqn:E.
  1, 2: split; [lia|]; by rewrite Z.sub_diag, Z.mul_1_r.
  split; [lia|]. rewrite pos_iter_xO. do 2 f_equal. lia.
Qed.

Lemma Zdigits2_shift p n : 0 <= n -> forall q, Z.pos q = Z.pos p * 2 ^ n -> Zdigits2 (Z.pos q) <= Z.pos (digits2_pos p) + n.
Proof.
  intros Hn q Hq. apply Zdigits2_le; [|lia]. split; [lia|]. rewrite Hq, Z.pow_add_r by lia.
  pose proof (digits2_bounds p). apply Z.mul_lt_mono_pos_r; [lia|]. lia.
Qed.

Lemma binary_round_small s m e k :
  Z.pos (digits2_pos m) + e - 53 <= k -> -1074 <= k -> k + 1 <= 971 -> small (k + 1) (binary_round prec64 emax64 s m e).
Proof.
  intros H1 H2 H3. unfold binary_round.
  pose proof (shl_align_spec m e (fexp prec64 emax64 (Z.pos (digits2_pos m) + e))) as Ha.
  destruct (shl_align _ _ _) as [m' e2]. destruct Ha as [He Hm].
  assert (He2 : e2 <= e) by lia. pose proof (Zdigits2_shift m (e - e2) ltac:(lia) m' Hm) as Hd.
  pose proof (round_aux_small prec64 emax64 ltac:(done) s (Z.pos m') e2 loc_Exact k) as Hr.
  unfold fexp, emin, prec64, emax64 in *. specialize (Hr ltac:(lia) ltac:(lia) ltac:(lia) ltac:(lia) ltac:(lia)).
  unfold small. by destruct (binary_round_aux _ _ _ _ _ _).
Qed.

Lemma binary_round_number s m e : number (binary_round prec64 emax64 s m e).
Proof.
  unfold binary_round. destruct (shl_align _ _ _) as [m' e2].
  eapply rounded_number_number. by apply round_aux_number.
Qed.

Lemma binary_normalize_small z e s k n :
  Z.abs z < 2 ^ n -> 0 <= n -> n + e - 53 <= k -> -1074 <= k -> k + 1 <= 971 -> small (k + 1) (binary_normalize prec64 emax64 z e s).
Proof.
  intros Hz Hn H1 H2 H3. destruct z as [|p|p]; [done|..]; cbn [binary_normalize];
    (apply binary_round_small; [|lia..]; pose proof (Zdigits2_le (Z.pos p) n); cbn [Zdigits2] in *; lia).
Qed.

Lemma binary_normalize_number z e s : number (binary_normalize prec64 emax64 z e s).
Proof. destruct z; [done|..]; apply binary_round_number. Qed.

(** A [float] that is a number is a double far below the largest one. *)
Lemma widen_small x : float_value x -> small 76 (widen x).
Proof.
  destruct x as [| | |s m e]; try done. intros [Hm He]. cbn [widen]. apply (binary_round_small _ _ _ 75); [|lia..].
  pose proof (Zdigits2_le (Z.pos m) 24 ltac:(lia)). cbn [Zdigits2] in *. lia.
Qed.

Lemma small_finite k x : small k x -> is_finite x = true.
Proof. by destruct x. Qed.

Lemma finite_number x : is_finite x = true -> number x.
Proof. by destruct x. Qed.

(** What is added to a number, finite or not, does not make it a NaN as long as it is finite. *)
Lemma add_number x y : number x -> is_finite y = true -> number (f64_add x y).
Proof.
  destruct x as [s|s| |s m e], y as [s'|s'| |s' m' e']; try done; intros _ _; cbn [f64_add SFadd];
    [by destruct s, s'|]. apply binary_normalize_number.
Qed.

Lemma sub_number x y : number x -> is_finite y = true -> number (f64_sub x y).
Proof.
  destruct x as [s|s| |s m e], y as [s'|s'| |s' m' e']; try done; intros _ _; cbn [f64_sub SFsub];
    [by destruct s, s'|]. apply binary_normalize_number.
Qed.

Lemma cond_Zopp_abs s z : Z.abs (cond_Zopp s z) = Z.abs z.
Proof. destruct s; cbn; lia. Qed.

(** The difference of two numbers that are far from the largest one is finite. *)
Lemma sub_small k x y : 0 <= k <= 900 -> small k x -> small k y -> small (k + 2) (f64_sub x y).
Proof.
  intros Hk. destruct x as [s|s| |s m e], y as [s'|s'| |s' m' e']; try done; cbn [f64_sub SFsub small].
  - by destruct s, s'.
  - intros _ ?. cbn. lia.
  - intros ? _. cbn. lia.
  - intros [Hm He] [Hm' He']. set (ez := Z.min e e'). assert (Hz : ez <= e /\ ez <= e') by (unfold ez; lia).
    pose proof (shl_align_spec m e ez) as Hx. pose proof (shl_align_spec m' e' ez) as Hy.
    destruct (shl_align m e ez) as [n e2], (shl_align m' e' ez) as [n' e2']. destruct Hx as [-> Hn], Hy as [-> Hn']. cbn [fst].
    rewrite Z.min_r in Hn, Hn' by lia.
    replace (k + 2) with (k + 1 + 1) by lia. apply (binary_normalize_small _ _ _ _ (54 + k - ez)); [|lia..].
    replace (54 + k - ez) with (1 + (53 + (k - ez))) by lia. rewrite Z.pow_add_r, Z.pow_1_r by lia.
    assert (Hb : forall p i, Z.pos p < 2 ^ 53 -> ez <= i -> i <= k -> Z.pos p * 2 ^ (i - ez) < 2 ^ (53 + (k - ez))).
    { intros p i Hp H1 H2. rewrite Z.pow_add_r by lia.
      pose proof (Z.pow_le_mono_r 2 (i - ez) (k - ez)). pose proof (Z.pow_pos_nonneg 2 (i - ez)). nia. }
    pose proof (Hb m e Hm ltac:(lia) He). pose proof (Hb m' e' Hm' ltac:(lia) He').
    rewrite <- (cond_Zopp_abs s), <- (cond_Zopp_abs s'). destruct s, s'; cbn [cond_Zopp]; lia.
Qed.

(** A quotient by a finite number other than zero. *)
Lemma div_rounded x s m e : number x -> rounded_number 53 1024 (f64_div x (S754_finite s m e)).
Proof.
  destruct x as [s'|s'| |s' m' e']; try done. intros _. unfold f64_div. cbn [SFdiv]. unfold SFdiv_core_binary.
  set (n := match _ with Z0 => _ | Zpos _ => _ | Zneg _ => _ end).
  assert (Hn : 0 <= n) by (unfold n; case_match; [lia|apply Z.shiftl_nonneg; lia|lia]).
  pose proof (Z_div_mod n (Z.pos m) ltac:(lia)) as Hd. destruct (Z.div_eucl n (Z.pos m)) as [q r].
  apply (round_aux_number prec64 emax64); [done|]. nia.
Qed.

(** The double of a count. *)
Lemma count_finite n : 0 < n < 2 ^ 64 -> exists m e, f64_of_Z n = S754_finite false m e.
Proof.
  intros Hn. destruct n as [|p|p]; [lia| |lia]. unfold f64_of_Z.
  pose proof (binary_normalize_small (Z.pos p) 0 false 11 64 ltac:(lia) ltac:(lia) ltac:(lia) ltac:(lia) ltac:(lia)) as Hs.
  cbn [binary_normalize] in *. unfold binary_round in *.
  pose proof (shl_align_spec p 0 (fexp prec64 emax64 (Z.pos (digits2_pos p) + 0))) as Ha.
  destruct (shl_align _ _ _) as [m' e2]. destruct Ha as [He Hm].
  destruct (round_aux_spec prec64 emax64 ltac:(done) false (Z.pos m') e2 loc_Exact ltac:(lia))
    as (m1 & m2 & e' & _ & _ & _ & Hb & Hr).
  pose proof (round_aux_nonzero prec64 emax64 ltac:(done) false (Z.pos m') e2 loc_Exact false ltac:(lia)) as Hz.
  assert (He2 : emin prec64 emax64 < Zdigits2 (Z.pos m') + e2).
  { cbn [Zdigits2]. unfold fexp, emin, prec64, emax64 in *. lia. }
  specialize (Hz He2). rewrite Hr in *. destruct m2 as [|q|q]; [done| |lia].
  case_match; [by eexists _, _|done].
Qed.
