(* ===== verification/TerminalUi.v ===== *)
(** [src/TerminalUi.cpp]: what the station and the tools write to the terminal.

    The text of a call is a string; the terminal, its environment and its width are arguments, and so
    is the rendering of a number with a fixed precision. The ASCII controls of a received text are escaped
    ([remote_text_escapes_controls]), and the columns of a signal cut its samples without a gap or an
    overlap ([sparkline_columns]). *)

From S2P Require Import Prelude TextFormat Floats SignalProcessing.

(** ** Constants *)

Definition SgrReset : string := "0".
Definition SgrBold : string := "1".
Definition SgrDim : string := "2".
Definition SgrRed : string := "31".
Definition SgrGreen : string := "32".
Definition SgrYellow : string := "33".
Definition SgrMagenta : string := "35".
Definition SgrCyan : string := "36".

Definition FallbackTerminalWidth : Z := 100.
Definition SectionDecorationReserve : Z := 12.
Definition MinimumSectionRuleLength : Z := 20.
Definition MaximumSectionRuleLength : Z := 72.
Definition SignalLabelReserve : Z := 28.
Definition SignalFallbackColumns : Z := 40.
Definition MinimumSignalColumns : Z := 24.
Definition MaximumSignalColumns : Z := 96.
Definition SparklineLevelCount : Z := 8.
Definition FlatSignalNormalizedLevel : spec_float := f64_literal 1 2.
Definition AsciiEscape : Z := 0x1B.
Definition AsciiControlUpperExclusive : Z := 0x20.
Definition AsciiDelete : Z := 0x7F.
Definition EscapedByteHexWidth : nat := 2.
Definition DefaultMetricPrecision : Z := 3.
Definition SignalMetadataPrecision : Z := 2.

Definition line_feed : string := String "010" EmptyString.

(** ** The terminal *)

Record TerminalUi := { interactive_ : bool; colorsEnabled_ : bool; unicodeEnabled_ : bool }.

Inductive TerminalStatus := StatusInfo | StatusSuccess | StatusWarning | StatusError.

(** [value.find(text) != npos] *)
Definition contains (value text : string) : bool :=
  match String.index 0 text value with Some _ => true | None => false end.

Definition is_empty_text (s : option string) : bool :=
  match s with None | Some EmptyString => true | _ => false end.

(** [getenv] is the argument. *)
Definition terminalLooksUnicodeCapable (getenv : string -> option string) : bool :=
  let locale := getenv "LC_ALL"%string in
  let locale := if is_empty_text locale then getenv "LC_CTYPE"%string else locale in
  let locale := if is_empty_text locale then getenv "LANG"%string else locale in
  match locale with
  | None => true
  | Some value => contains value "UTF-8" || contains value "utf8" || contains value "UTF8"
  end.

Definition new_TerminalUi (isatty : bool) (getenv : string -> option string) (allowColor : bool) : TerminalUi :=
  let dumbTerminal := bool_decide (getenv "TERM"%string = Some "dumb"%string) in
  let noColor := match getenv "NO_COLOR"%string with Some _ => true | None => false end in
  {| interactive_ := isatty;
     colorsEnabled_ := isatty && allowColor && negb dumbTerminal && negb noColor;
     unicodeEnabled_ := isatty && terminalLooksUnicodeCapable getenv |}.

Section Terminal.
Variable ui : TerminalUi.
(** The columns that [ioctl()] answers, when it does. *)
Variable ws_col : option Z.

Definition width : Z :=
  match ws_col with
  | Some columns => if interactive_ ui && (columns >? 0) then columns else FallbackTerminalWidth
  | None => FallbackTerminalWidth
  end.

Definition escape : string := String "027" EmptyString.

Definition style (text sgrCode : string) : string :=
  if negb (colorsEnabled_ ui) then text
  else escape +:+ "[" +:+ sgrCode +:+ "m" +:+ text +:+ escape +:+ "[" +:+ SgrReset +:+ "m".

Definition section (title : string) : string :=
  let available := if width >? SectionDecorationReserve
                   then width - SectionDecorationReserve else MinimumSectionRuleLength in
  let ruleLength := Z.min available MaximumSectionRuleLength in
  line_feed +:+ style ("[ " +:+ title +:+ " ]") SgrBold +:+ line_feed +:+
  style (string_of_chars (replicate (Z.to_nat ruleLength) "-"%char)) SgrDim +:+ line_feed.

Definition keyValue (key value : string) : string :=
  "  " +:+ style key SgrCyan +:+ ": " +:+ value +:+ line_feed.

Definition statusLine (status : TerminalStatus) (subject detail : string) : string :=
  let '(label, color) := match status with
    | StatusInfo => ("INFO"%string, SgrCyan)
    | StatusSuccess => ("OK"%string, SgrGreen)
    | StatusWarning => ("WARN"%string, SgrYellow)
    | StatusError => ("ERR"%string, SgrRed)
    end in
  "  " +:+ style ("[" +:+ label +:+ "]") color +:+ " " +:+ subject +:+
  (match detail with EmptyString => EmptyString | _ => " - " +:+ detail end) +:+ line_feed.

(** ** Messages *)

Definition upper_char (c : ascii) : ascii :=
  if (97 <=? char_code c) && (char_code c <=? 122) then ascii_of_nat (Z.to_nat (char_code c - 32)) else c.

(** [std::uppercase << std::hex << std::setw(2) << std::setfill('0')] *)
Definition escaped_byte (ch : Z) : string :=
  setw EscapedByteHexWidth "0" (string_of_chars (upper_char <$> chars_of_string (show_hex ch))).

Definition sanitize_char (raw : ascii) : string :=
  let ch := char_code raw in
  if ch =? 10 then "\n" else
  if ch =? 13 then "\r" else
  if ch =? 9 then "\t" else
  if ch =? AsciiEscape then "\x1B" else
  if (ch <? AsciiControlUpperExclusive) || (ch =? AsciiDelete) then "\x" +:+ escaped_byte ch
  else String raw EmptyString.

Definition sanitizeRemoteText (text : string) : string :=
  concat_texts (sanitize_char <$> chars_of_string text).

Definition double_quote : string := String "034" EmptyString.

Definition receivedMessage (satelliteId sequence : Z) (text : string) : string :=
  style "[MESSAGE]" SgrMagenta +:+
  (" sat=" +:+ show_dec satelliteId +:+ " seq=" +:+ show_dec sequence +:+
   " text=" +:+ double_quote +:+ sanitizeRemoteText text +:+ double_quote) +:+ line_feed.

(** ** Signals *)

(** [std::minmax_element] over numbers: the first smallest and the last largest. *)
Definition minmax_element (x : spec_float) (xs : list spec_float) : spec_float * spec_float :=
  foldl (fun '(lo, hi) y => (if SFltb y lo then y else lo, if SFltb y hi then hi else y)) (x, x) xs.

(** [std::numeric_limits<double>::epsilon()] *)
Definition epsilon : spec_float := f64_literal 1 (2 ^ 52).

(** [std::clamp] *)
Definition clamp (v lo hi : spec_float) : spec_float :=
  if SFltb v lo then lo else if SFltb hi v then hi else v.

(** [std::lround]: the nearest integer, halves away from zero; undefined on what is not a number. *)
Definition lround (x : spec_float) : option Z :=
  match x with
  | S754_zero _ => Some 0
  | S754_finite s m e =>
      let a := if 0 <=? e then Z.pos m * 2 ^ e else (Z.pos m * 2 + 2 ^ (- e)) / (2 * 2 ^ (- e)) in
      Some (if s then - a else a)
  | _ => None
  end.

Definition unicodeLevels : list string :=
  (fun last => string_of_chars (ascii_of_nat <$> [226; 150; last]%nat)) <$>
  [129; 130; 131; 132; 133; 134; 135; 136]%nat.
Definition asciiLevels : list string := ["."; "_"; "-"; "~"; "="; "+"; "*"; "#"]%string.

(** The cell of a column with this average; [None] is an access outside of the levels. *)
Definition sparkline_cell (unicode : bool) (minimum range average : spec_float) : option string :=
  let normalized :=
    if SFleb range epsilon then FlatSignalNormalizedLevel
    else clamp (f64_div (f64_sub average minimum) range) (f64_of_Z 0) (f64_of_Z 1) in
  level ← lround (f64_mul normalized (f64_of_Z (SparklineLevelCount - 1)));
  if level <? 0 then None else (if unicode then unicodeLevels else asciiLevels) !! Z.to_nat level.

(** The samples of a column. *)
Definition column_begin (size_ columns column : nat) : nat := (column * size_ / columns)%nat.
Definition column_end (size_ columns column : nat) : nat :=
  Nat.max (column_begin size_ columns column + 1) (column_begin size_ columns (column + 1)).

Definition sparkline (samples : list spec_float) (columns : nat) (unicode : bool) : option string :=
  match samples, columns with
  | [], _ | _, O => Some EmptyString
  | x :: xs, _ =>
      let '(lo, hi) := minmax_element x xs in
      let minimum := widen lo in
      let range := f64_sub (widen hi) minimum in
      let outputColumns := Nat.min columns (length samples) in
      cells ← mapM (fun column =>
          let begin := column_begin (length samples) outputColumns column in
          let end_ := column_end (length samples) outputColumns column in
          sum ← window_sum samples begin end_;
          sparkline_cell unicode minimum range (f64_div sum (f64_of_Z (Z.of_nat (end_ - begin)))))
        (seq 0 outputColumns);
      Some (concat_texts cells)
  end.

(** [<< std::fixed << std::setprecision(precision)] of a [double]. *)
Variable show_fixed : Z -> spec_float -> string.

Definition formatNumber (value : spec_float) (precision : Z) : string :=
  match value with
  | S754_infinity s => if s then "-inf" else "+inf"
  | _ => show_fixed precision value
  end.

Definition signal_columns : Z :=
  Z.min MaximumSignalColumns (Z.max MinimumSignalColumns
    (if width >? SignalLabelReserve then width - SignalLabelReserve else SignalFallbackColumns)).

(** The four lines of a signal; [None] when a sparkline is undefined. *)
Definition receivedSignal (satelliteId sampleRateHz : Z) (frequencyHz nominalAmplitude : spec_float)
    (raw filtered : list spec_float) (metrics : SignalMetrics) (filterMode : SignalFilterMode) : option string :=
  let columns := Z.to_nat signal_columns in
  raw_line ← sparkline raw columns (unicodeEnabled_ ui);
  filtered_line ← sparkline filtered columns (unicodeEnabled_ ui);
  Some (style "[SIGNAL]" SgrYellow +:+ " sat=" +:+ show_dec satelliteId +:+
        " samples=" +:+ show_dec (size raw) +:+ " fs=" +:+ show_dec sampleRateHz +:+ "Hz" +:+
        " f=" +:+ formatNumber (widen frequencyHz) SignalMetadataPrecision +:+ "Hz" +:+
        " nominal_amp=" +:+ formatNumber (widen nominalAmplitude) SignalMetadataPrecision +:+
        " filter=" +:+ signalFilterModeToString filterMode +:+ line_feed +:+
        "  " +:+ style "raw     " SgrDim +:+ raw_line +:+ line_feed +:+
        "  " +:+ style "filtered" SgrGreen +:+ " " +:+ filtered_line +:+ line_feed +:+
        "  metrics: raw_rms=" +:+ formatNumber (rawRms metrics) DefaultMetricPrecision +:+
        " filtered_rms=" +:+ formatNumber (filteredRms metrics) DefaultMetricPrecision +:+
        " residual_noise_rms=" +:+ formatNumber (residualNoiseRms metrics) DefaultMetricPrecision +:+
        " est_amp=" +:+ formatNumber (estimatedAmplitude metrics) DefaultMetricPrecision +:+
        " est_snr_db=" +:+ formatNumber (estimatedSnrDb metrics) SignalMetadataPrecision +:+ line_feed).

End Terminal.

(** ** What remote texts can do *)

(** Not a control character of ASCII, that is C0 or DEL. (The bytes from 0x80 on are not ASCII.) *)
Definition ascii_control (c : ascii) : Prop := char_code c < 32 \/ char_code c = 127.
Definition control_free (text : string) : Prop := Forall (fun c => ~ ascii_control c) (chars_of_string text).

#[local] Instance ascii_control_dec c : Decision (ascii_control c).
Proof. unfold ascii_control. apply _. Defined.

(** How a received character is shown: the control characters of ASCII as an escape of visible ones,
    the others, those above ASCII too, as they are. *)
Definition hex_digit (n : Z) : ascii := nth (Z.to_nat n) (chars_of_string "0123456789ABCDEF") "0"%char.
Inductive escaped (c : ascii) : string -> Prop :=
  | as_it_is : ~ ascii_control c -> escaped c (String c EmptyString)
  | as_line_feed : char_code c = 10 -> escaped c "\n"
  | as_return : char_code c = 13 -> escaped c "\r"
  | as_tab : char_code c = 9 -> escaped c "\t"
  | as_number : ascii_control c -> char_code c ∉ [9; 10; 13] ->
      escaped c ("\x" +:+ String (hex_digit (char_code c / 16)) (String (hex_digit (char_code c mod 16)) EmptyString)).

Lemma control_free_append a b : control_free (a +:+ b) <-> control_free a /\ control_free b.
Proof. unfold control_free. by rewrite chars_append, Forall_app. Qed.

Lemma control_free_concat texts : Forall control_free texts -> control_free (concat_texts texts).
Proof.
  induction 1 as [|text texts Ht _ IH]; [constructor|].
  change (concat_texts (text :: texts)) with (text +:+ concat_texts texts). by apply control_free_append.
Qed.

Lemma show_dec_control_free n : 0 <= n -> control_free (show_dec n).
Proof. intros Hn. apply show_dec_chars; [done|]. intros c Hc. unfold ascii_control. lia. Qed.

(** The text of each of the 256 characters. *)
Lemma sanitize_char_table c :
  sanitize_char c =
    (if decide (char_code c = 10) then "\n" else if decide (char_code c = 13) then "\r" else
     if decide (char_code c = 9) then "\t" else
     if decide (ascii_control c)
     then "\x" +:+ String (hex_digit (char_code c / 16)) (String (hex_digit (char_code c mod 16)) EmptyString)
     else String c EmptyString)%string /\
  bool_decide (control_free (sanitize_char c)) = true.
Proof. destruct c as [[] [] [] [] [] [] [] []]; split; vm_compute; reflexivity. Qed.

Lemma sanitize_char_escaped c : escaped c (sanitize_char c).
Proof.
  rewrite (proj1 (sanitize_char_table c)). repeat case_decide; [by constructor..| |by constructor].
  constructor; [done|]. rewrite !not_elem_of_cons. split_and!; try done. apply not_elem_of_nil.
Qed.

Lemma sanitize_control_free text : control_free (sanitizeRemoteText text).
Proof.
  apply control_free_concat, Forall_fmap, Forall_forall. intros c _.
  destruct (sanitize_char_table c) as [_ H]. by apply bool_decide_eq_true in H.
Qed.

(** C31: the control characters of ASCII in a received text do not reach the terminal. Whatever the
    bytes of the message are, what [receivedMessage] writes is its label, in its own style, and one
    line without a character below 0x20 and without DEL: no ESC, no second line, no bell; without
    colours the label has none either. Each byte of the text is shown by its own piece of the line:
    LF, CR and TAB by their letters, the other controls by two hexadecimal digits, and every other
    byte as it is. That holds for the bytes from 0x80 on as well, which are not judged: a control
    character of ISO 6429 in UTF-8 passes ([c1_controls_pass]). *)
Theorem remote_text_escapes_controls : forall ui satelliteId sequence text,
  0 <= satelliteId -> 0 <= sequence ->
  exists pieces,
    let line := " sat=" +:+ show_dec satelliteId +:+ " seq=" +:+ show_dec sequence +:+
                " text=" +:+ double_quote +:+ concat_texts pieces +:+ double_quote in
    receivedMessage ui satelliteId sequence text = style ui "[MESSAGE]" SgrMagenta +:+ line +:+ line_feed /\
    control_free line /\ Forall2 escaped (chars_of_string text) pieces /\
    (colorsEnabled_ ui = false -> control_free (style ui "[MESSAGE]" SgrMagenta)).
Proof.
  intros ui satelliteId sequence text H1 H2. exists (sanitize_char <$> chars_of_string text).
  cbv zeta. split; [done|]. split_and!.
  - rewrite !control_free_append. pose proof (sanitize_control_free text).
    pose proof (show_dec_control_free satelliteId H1). pose proof (show_dec_control_free sequence H2).
    split_and!; try done; decide_now.
  - apply Forall2_fmap_r, Forall_Forall2_diag, Forall_true. apply sanitize_char_escaped.
  - intros Hc. unfold style. rewrite Hc. decide_now.
Qed.

Lemma remote_text_escapes_controls_witness :
  let ui := {| interactive_ := true; colorsEnabled_ := false; unicodeEnabled_ := true |} in
  let e_acute := String "195" (String "169" EmptyString) in
  let attack := String "027" "[2J" +:+ line_feed +:+ e_acute in
  (exists pieces,
    receivedMessage ui 42 7 attack =
      "[MESSAGE]" +:+ (" sat=42 seq=7 text=" +:+ double_quote +:+ concat_texts pieces +:+ double_quote) +:+ line_feed /\
    Forall2 escaped (chars_of_string attack) pieces) /\
  receivedMessage ui 42 7 attack =
    "[MESSAGE] sat=42 seq=7 text=" +:+ double_quote +:+ "\x1B[2J\n" +:+ e_acute +:+ double_quote +:+ line_feed.
Proof.
  intros ui e_acute attack. split; [|vm_compute; reflexivity].
  destruct (remote_text_escapes_controls ui 42 7 attack) as (pieces & H & _ & Hp & _); [lia|lia|].
  exists pieces. split; [exact H|exact Hp].
Defined.

(** The control characters of ISO 6429 above 0x7F, such as U+009B in UTF-8, are left alone. *)
Lemma c1_controls_pass :
  let csi := String "194" (String "155" EmptyString) in sanitizeRemoteText csi = csi.
Proof. vm_compute. reflexivity. Qed.

(** ** The columns of a signal *)

(** The samples of a column, as a list. *)
Definition column_samples (samples : list spec_float) (columns column : nat) : list spec_float :=
  let begin := column_begin (length samples) columns column in
  take (column_end (length samples) columns column - begin) (drop begin samples).

Lemma column_end_next n columns column :
  (0 < columns <= n)%nat ->
  column_end n columns column = column_begin n columns (column + 1) /\
  (column_begin n columns column < column_begin n columns (column + 1))%nat.
Proof.
  intros Hk. unfold column_end, column_begin.
  assert (H : (column * n / columns + 1 <= (column + 1) * n / columns)%nat).
  { rewrite <- Nat.div_add by lia. apply Nat.Div0.div_le_mono. nia. }
  lia.
Qed.

Lemma column_begin_last n columns : (0 < columns)%nat -> column_begin n columns columns = n.
Proof. intros Hk. unfold column_begin. rewrite Nat.mul_comm. apply Nat.div_mul. lia. Qed.

Lemma column_begin_mono n columns a b :
  (0 < columns <= n)%nat -> (a <= b)%nat -> (column_begin n columns a <= column_begin n columns b)%nat.
Proof. intros Hk Hab. unfold column_begin. apply Nat.Div0.div_le_mono. nia. Qed.

Lemma mapM_fmap {A B C} (f : B -> option C) (g : A -> B) l : mapM f (g <$> l) = mapM (f ∘ g) l.
Proof. induction l as [|x l IH]; [done|]. cbn. by rewrite <- IH. Qed.

Lemma concat_columns samples columns j :
  (0 < columns <= length samples)%nat ->
  concat (column_samples samples columns <$> seq 0 j) = take (column_begin (length samples) columns j) samples.
Proof.
  intros Hk. induction j as [|j IH]; [unfold column_begin; by rewrite Nat.Div0.div_0_l|].
  rewrite seq_S, fmap_app, concat_app, IH. cbn [fmap list_fmap concat]. rewrite app_nil_r.
  replace (0 + j)%nat with j by lia. replace (S j) with (j + 1)%nat by lia.
  unfold column_samples. destruct (column_end_next (length samples) columns j Hk) as [-> Hlt].
  set (a := column_begin _ _ j) in *. set (b := column_begin _ _ (j + 1)) in *.
  rewrite take_take_drop. f_equal. lia.
Qed.

(** A sparkline shows every sample once. The columns, no more than asked for and no more than the
    samples, cut the samples into consecutive pieces, none of them empty; the cell of a column shows
    the mean of its piece, and no index leaves the samples. *)
Theorem sparkline_columns : forall x xs columns unicode,
  (0 < columns)%nat ->
  let samples := x :: xs in
  let '(lo, hi) := minmax_element x xs in
  exists pieces, concat pieces = samples /\ length pieces = Nat.min columns (length samples) /\
    Forall (fun piece => piece <> []) pieces /\
    sparkline samples columns unicode =
      (cells ← mapM (fun piece => sparkline_cell unicode (widen lo) (f64_sub (widen hi) (widen lo))
                  (f64_div (foldl (fun sum y => f64_add sum (widen y)) zero64 piece) (f64_of_Z (size piece)))) pieces;
       Some (concat_texts cells)).
Proof.
  intros x xs columns unicode Hc samples. destruct (minmax_element x xs) as [lo hi] eqn:Hm.
  set (k := Nat.min columns (length samples)). assert (Hk : (0 < k <= length samples)%nat) by (unfold k; cbn; lia).
  exists (column_samples samples k <$> seq 0 k).
  assert (Hb : forall c, (c < k)%nat -> (column_begin (length samples) k c < column_begin (length samples) k (c + 1) <= length samples)%nat).
  { intros c Hck. split; [by apply column_end_next|].
    transitivity (column_begin (length samples) k k); [apply column_begin_mono; lia|].
    by rewrite column_begin_last by lia. }
  assert (Hlen : forall c, (c < k)%nat -> length (column_samples samples k c) =
      (column_begin (length samples) k (c + 1) - column_begin (length samples) k c)%nat).
  { intros c Hck. unfold column_samples. rewrite (proj1 (column_end_next _ k c Hk)), length_take, length_drop.
    specialize (Hb c Hck). lia. }
  split_and!.
  - rewrite concat_columns, column_begin_last by lia. apply take_ge. lia.
  - by rewrite length_fmap, length_seq.
  - apply Forall_fmap, Forall_forall. intros c Hi%elem_of_seq. intros He.
    specialize (Hlen c ltac:(lia)). specialize (Hb c ltac:(lia)). cbv beta in He. rewrite He, length_nil in Hlen. lia.
  - change (sparkline (x :: xs) columns unicode) with (sparkline samples columns unicode). unfold sparkline.
    unfold samples at 1. rewrite Hm. fold k. destruct columns as [|columns]; [lia|].
    rewrite mapM_fmap. f_equal. apply Forall_mapM_ext, Forall_forall. intros c Hi%elem_of_seq.
    specialize (Hb c ltac:(lia)). specialize (Hlen c ltac:(lia)). cbn [compose].
    unfold column_samples in *. rewrite (proj1 (column_end_next _ k c Hk)) in *.
    set (a := column_begin _ _ c) in *. set (b := column_begin _ _ (c + 1)) in *.
    replace (window_sum samples a b) with (window_sum samples a (a + (b - a))) by (f_equal; lia).
    rewrite window_sum_slice by lia. cbn [mbind option_bind]. unfold size. by rewrite Hlen.
Qed.

Lemma sparkline_columns_witness :
  let samples : list spec_float := f32_of_Z <$> [0; 1; 2; 3; 4; 5; 6] in
  sparkline samples 3 false = Some "_~*"%string /\
  exists pieces, concat pieces = samples /\ length pieces = 3%nat.
Proof.
  intros samples. split; [vm_compute; reflexivity|].
  destruct (sparkline_columns (f32_of_Z 0) (f32_of_Z <$> [1; 2; 3; 4; 5; 6]%Z) 3 false ltac:(lia)) as (pieces & H1 & H2 & _).
  exists pieces. split; [exact H1|exact H2].
Defined.
