(* ===== verification/Sparkline.v ===== *)
(** Sparklines of numbers are always drawn: the level of a cell is one of the eight that there are,
    whatever the rounding of the sums, the range and the quotient ([TerminalUi.cpp]). So every signal
    that the station has processed can be shown ([processed_signal_is_shown]). *)

From S2P Require Import Prelude ByteUtils TextFormat Floats ApplicationPayload FrameCodec SignalProcessing TerminalUi FloatRounding.

(** ** The level of a cell *)

Definition seven : spec_float := S754_finite false (2 ^ 50 * 7) (-50).

Lemma seven_of_Z : f64_of_Z (SparklineLevelCount - 1) = seven.
Proof. vm_compute. reflexivity. Qed.

(** A double that is not above 1 ([SFcompare] goes by the exponents; the one of 1 is -52). *)
Definition unit_double (m : positive) (e : Z) : Prop := e = -52 /\ Z.pos m <= 2 ^ 52 \/ e <= -53 /\ Z.pos m < 2 ^ 53.

Lemma unit_bound m e : Z.pos m < 2 ^ 53 -> SFltb (f64_of_Z 1) (S754_finite false m e) = false -> unit_double m e.
Proof.
  intros Hm. replace (f64_of_Z 1) with (S754_finite false (2 ^ 52) (-52)) by (vm_compute; reflexivity).
  unfold SFltb, unit_double. cbn [SFcompare]. destruct (Z.compare_spec (-52) e) as [He|He|He]; [|done|right; lia].
  fold (Pos.compare (2 ^ 52) m). destruct (Pos.compare_spec (2 ^ 52) m); [left; lia|done|left; lia].
Qed.

(** Rounding to the nearest integer. *)
Lemma lround_le m e n : e < 0 -> Z.pos m <= n * 2 ^ (- e) + 1 -> 2 < 2 ^ (- e) -> 0 <= n ->
  exists level, lround (S754_finite false m e) = Some level /\ 0 <= level <= n.
Proof.
  intros He Hm H2 Hn. cbn [lround]. rewrite (proj2 (Z.leb_gt 0 e)) by lia. eexists. split; [done|].
  split; [apply Z.div_pos; lia|]. apply Z.lt_succ_r, Z.div_lt_upper_bound; lia.
Qed.

(** Seven times a number of the unit interval. *)
Lemma scaled_level m e : unit_double m e ->
  exists level, lround (f64_mul (S754_finite false m e) seven) = Some level /\ 0 <= level <= 7.
Proof.
  intros Hu. unfold f64_mul, seven. cbn [SFmul xorb]. set (n := Z.pos (m * (2 ^ 50 * 7))). set (ex := e + -50).
  assert (Hn : n = Z.pos m * (2 ^ 50 * 7)) by (unfold n; lia).
  assert (Hn0 : 0 <= n) by lia.
  assert (Hd : Zdigits2 n + ex <= 3).
  { assert (H : Zdigits2 n <= 3 - ex); [apply Zdigits2_le; [|unfold ex, unit_double in *; lia]|lia]. split; [done|].
    destruct Hu as [[-> Hm]|[He Hm]]; [unfold ex; lia|].
    apply (Z.lt_le_trans _ (2 ^ 106)); [lia|]. apply Z.pow_le_mono_r; unfold ex; lia. }
  assert (Hv : n <= 7 * 2 ^ (- ex)).
  { destruct Hu as [[-> Hm]|[He Hm]]; [unfold ex; lia|].
    apply (Z.le_trans _ (7 * 2 ^ 103)); [lia|]. apply Z.mul_le_mono_nonneg_l; [lia|].
    apply Z.pow_le_mono_r; unfold ex; lia. }
  assert (Hex : ex <= -102) by (unfold ex, unit_double in *; lia).
  destruct (round_aux_spec prec64 emax64 ltac:(done) false n ex loc_Exact Hn0) as (m1 & m2 & e2 & Hm1 & Hm2 & He2 & Hb & ->).
  pose proof (dropped_again prec64 emax64 ltac:(done) n ex m1 Hn0 Hm1 (exponent_emin _ _ _ _)) as Hd1.
  assert (Hd0 : 0 <= dropped prec64 emax64 n ex /\ ex + dropped prec64 emax64 n ex <= -50)
    by (unfold dropped, fexp, emin, prec64, emax64 in *; lia).
  set (d0 := dropped _ _ n ex) in *. set (d1 := dropped _ _ m1 _) in *.
  destruct m2 as [|p|p]; [exists 0; done| |lia]. rewrite (proj2 (Z.leb_le e2 _)) by (unfold emax64, prec64; lia).
  assert (HP : 0 < 2 ^ d0 /\ 0 < 2 ^ d1) by (split; apply Z.pow_pos_nonneg; lia).
  apply lround_le; [lia| |apply (Z.pow_lt_mono_r 2 1); lia|lia].
  assert (H1 : n / 2 ^ d0 <= 7 * 2 ^ (- ex - d0)).
  { apply Z.div_le_upper_bound; [lia|]. rewrite (Z.mul_comm (2 ^ d0)), <- Z.mul_assoc, <- Z.pow_add_r by lia.
    by replace (- ex - d0 + d0) with (- ex) by lia. }
  assert (H2 : 2 ^ (- ex - d0) = 2 ^ (- e2) * 2 ^ d1) by (rewrite <- Z.pow_add_r by lia; f_equal; lia).
  rewrite Hm2. apply Z.div_le_upper_bound; [lia|]. nia.
Qed.

(** The level of a clamped number. *)
Lemma clamped_level v : rounded_number 53 1024 v ->
  exists level, lround (f64_mul (clamp v (f64_of_Z 0) (f64_of_Z 1)) (f64_of_Z (SparklineLevelCount - 1))) = Some level /\
    0 <= level <= 7.
Proof.
  intros Hv. rewrite seven_of_Z. unfold clamp.
  destruct (SFltb v (f64_of_Z 0)) eqn:H0; [by exists 0|].
  destruct (SFltb (f64_of_Z 1) v) eqn:H1; [exists 7; split; [by vm_compute|lia]|].
  destruct v as [s|[]| |[] m e]; try done; [by exists 0|]. apply scaled_level, unit_bound; [apply Hv|done].
Qed.

Lemma level_cell (unicode : bool) level : 0 <= level <= 7 ->
  exists cell, (if level <? 0 then None else (if unicode then unicodeLevels else asciiLevels) !! Z.to_nat level) = Some cell /\
    cell ∈ (if unicode then unicodeLevels else asciiLevels).
Proof.
  intros Hl. rewrite (proj2 (Z.ltb_ge level 0)) by lia.
  destruct (lookup_lt_is_Some_2 (if unicode then unicodeLevels else asciiLevels) (Z.to_nat level)) as [cell Hc];
    [|exists cell; split; [done|by eapply list_elem_of_lookup_2]].
  replace (length (if unicode then unicodeLevels else asciiLevels)) with 8%nat by (by destruct unicode). lia.
Qed.

(** ** The cells *)

Lemma sparkline_cell_total unicode lo hi average : float_value lo -> float_value hi -> number average ->
  exists cell, sparkline_cell unicode (widen lo) (f64_sub (widen hi) (widen lo)) average = Some cell /\
    cell ∈ (if unicode then unicodeLevels else asciiLevels).
Proof.
  intros Hlo%widen_small Hhi%widen_small Ha. unfold sparkline_cell.
  pose proof (sub_small 76 _ _ ltac:(lia) Hhi Hlo) as Hr.
  set (range := f64_sub (widen hi) (widen lo)) in *.
  assert (Hlevel : exists level, lround (f64_mul (if SFleb range epsilon then FlatSignalNormalizedLevel
      else clamp (f64_div (f64_sub average (widen lo)) range) (f64_of_Z 0) (f64_of_Z 1))
      (f64_of_Z (SparklineLevelCount - 1))) = Some level /\ 0 <= level <= 7).
  { destruct (SFleb range epsilon) eqn:E; [exists 4; split; [by vm_compute|lia]|].
    destruct range as [[]| | |s m e]; try done. apply clamped_level, div_rounded, sub_number; [done|].
    by eapply small_finite. }
  destruct Hlevel as (level & -> & Hl). cbn [mbind option_bind]. by apply level_cell.
Qed.

Lemma sum_number xs : Forall float_value xs -> number (foldl (fun sum y => f64_add sum (widen y)) zero64 xs).
Proof.
  intros Hxs. assert (H0 : number zero64) by done. revert H0. generalize zero64.
  induction Hxs as [|x xs Hx _ IH]; intros sum Hs; [done|]. cbn [foldl]. apply IH, add_number; [done|].
  eapply small_finite. by apply widen_small.
Qed.

Lemma average_number xs : Forall float_value xs -> xs <> [] -> size xs < 2 ^ 64 ->
  number (f64_div (foldl (fun sum y => f64_add sum (widen y)) zero64 xs) (f64_of_Z (size xs))).
Proof.
  intros Hxs Hne Hs. destruct (count_finite (size xs)) as (m & e & ->).
  { destruct xs; [done|]. unfold size in *. cbn [length] in *. lia. }
  eapply rounded_number_number, div_rounded. by apply sum_number.
Qed.

Lemma minmax_element_values (P : spec_float -> Prop) x xs : P x -> Forall P xs ->
  P (minmax_element x xs).1 /\ P (minmax_element x xs).2.
Proof.
  intros Hx Hxs. unfold minmax_element.
  assert (H : P (x, x).1 /\ P (x, x).2) by done. revert H. generalize (x, x).
  induction Hxs as [|y ys Hy _ IH]; intros [lo hi] [Hlo Hhi]; [done|]. cbn [foldl]. apply IH.
  cbn. by split; case_match.
Qed.

Lemma Forall_concat_in {A} (P : A -> Prop) (pieces : list (list A)) piece :
  Forall P (concat pieces) -> piece ∈ pieces -> Forall P piece.
Proof. induction 2 as [|p ps Hp IH]; cbn [concat] in *; apply Forall_app in H as [? ?]; auto. Qed.

Lemma length_concat_in {A} (pieces : list (list A)) piece : piece ∈ pieces -> (length piece <= length (concat pieces))%nat.
Proof. induction 1 as [|p ps Hp IH]; cbn [concat]; rewrite length_app; lia. Qed.

Lemma mapM_exists {A B} (f : A -> option B) (P : B -> Prop) l :
  Forall (fun x => exists y, f x = Some y /\ P y) l ->
  exists k, mapM f l = Some k /\ Forall2 (fun x y => f x = Some y /\ P y) l k.
Proof.
  induction 1 as [|x l (y & Hy & HP) _ (k & Hk & Hf)]; [by exists []|].
  exists (y :: k). split; [|by constructor]. cbn. by rewrite Hy, Hk.
Qed.

(** The cells of pieces that make up the samples. *)
Lemma cells_exist samples lo hi pieces (unicode : bool) :
  Forall float_value samples -> float_value lo -> float_value hi -> size samples < 2 ^ 64 ->
  concat pieces = samples -> Forall (fun piece => piece <> []) pieces ->
  let f piece := sparkline_cell unicode (widen lo) (f64_sub (widen hi) (widen lo))
       (f64_div (foldl (fun sum y => f64_add sum (widen y)) zero64 piece) (f64_of_Z (size piece))) in
  exists cells, mapM f pieces = Some cells /\
    Forall2 (fun piece cell => f piece = Some cell /\ cell ∈ (if unicode then unicodeLevels else asciiLevels)) pieces cells.
Proof.
  intros Hv Hlo Hhi Hs <- Hne f. apply (mapM_exists f). apply Forall_forall. intros piece Hp.
  apply sparkline_cell_total; [done..|].
  apply average_number; [by eapply Forall_concat_in|by eapply Forall_forall in Hne|].
  pose proof (length_concat_in _ _ Hp). unfold size in *. lia.
Qed.

Lemma sparkline_defined samples columns unicode :
  Forall float_value samples -> size samples < 2 ^ 64 -> exists text, sparkline samples columns unicode = Some text.
Proof.
  intros Hv Hs. destruct samples as [|x xs]; [by eexists|]. destruct columns as [|n]; [by eexists|].
  pose proof (sparkline_columns x xs (S n) unicode ltac:(lia)) as Hp. cbv zeta in Hp.
  apply Forall_cons in Hv as Hx. destruct Hx as [Hx Hxs]. pose proof (minmax_element_values _ _ _ Hx Hxs) as [Hlo Hhi].
  destruct (minmax_element x xs) as [lo hi]. destruct Hp as (pieces & Hcat & _ & Hne & ->).
  destruct (cells_exist (x :: xs) lo hi pieces unicode Hv Hlo Hhi Hs Hcat Hne) as (cells & -> & _). by eexists.
Qed.

(** C32: a sparkline of numbers is always drawn. The columns, no more than asked for and no more than
    the samples, cut the samples into consecutive pieces, none of them empty; the cell of a column is
    that of the mean of its piece, and it exists: however the sums, the difference of the extremes and
    the quotient are rounded, nothing is a NaN and the index of the level stays in 0..7. *)
Theorem sparkline_total : forall samples columns unicode,
  Forall float_value samples -> size samples < 2 ^ 64 -> (0 < columns)%nat -> samples <> [] ->
  exists lo hi pieces cells, lo ∈ samples /\ hi ∈ samples /\
    concat pieces = samples /\ length pieces = Nat.min columns (length samples) /\
    Forall (fun piece => piece <> []) pieces /\
    Forall2 (fun piece cell => sparkline_cell unicode (widen lo) (f64_sub (widen hi) (widen lo))
               (f64_div (foldl (fun sum y => f64_add sum (widen y)) zero64 piece) (f64_of_Z (size piece))) = Some cell /\
             cell ∈ (if unicode then unicodeLevels else asciiLevels)) pieces cells /\
    sparkline samples columns unicode = Some (concat_texts cells).
Proof.
  intros samples columns unicode Hv Hs Hc Hne. destruct samples as [|x xs]; [done|].
  pose proof (sparkline_columns x xs columns unicode Hc) as Hp. cbv zeta in Hp.
  assert (Hm : forall P : spec_float -> Prop, Forall P (x :: xs) -> P (minmax_element x xs).1 /\ P (minmax_element x xs).2).
  { intros P [Hx Hxs]%Forall_cons. by apply minmax_element_values. }
  destruct (minmax_element x xs) as [lo hi]. destruct Hp as (pieces & Hcat & Hlen & Hpne & ->).
  destruct (Hm _ Hv) as [Hlo Hhi]. destruct (Hm (.∈ x :: xs)) as [Hlo' Hhi']; [by apply Forall_forall|].
  destruct (cells_exist (x :: xs) lo hi pieces unicode Hv Hlo Hhi Hs Hcat Hpne) as (cells & Hcells & Hall).
  exists lo, hi, pieces, cells. split_and!; try done. by rewrite Hcells.
Qed.

(** The greatest [float] and its opposite, in two columns: the difference of the extremes is no [float]. *)
Lemma sparkline_total_witness :
  let samples := [f32 0x7F7FFFFF; f32 0xFF7FFFFF; f32 0xFF7FFFFF] in
  exists cells, length cells = 2%nat /\ sparkline samples 2 false = Some (concat_texts cells) /\
    sparkline samples 2 false = Some "#."%string.
Proof.
  intros samples. destruct (sparkline_total samples 2 false) as (lo & hi & pieces & cells & _ & _ & _ & Hl & _ & Hall & H).
  - repeat (apply Forall_cons; split; [vm_compute; split; [reflexivity|discriminate]|]). apply Forall_nil_2.
  - vm_compute. reflexivity.
  - lia.
  - discriminate.
  - exists cells. split; [rewrite <- (Forall2_length _ _ _ Hall), Hl; reflexivity|]. split; [exact H|vm_compute; reflexivity].
Defined.

(** ** The signals of the station *)

Lemma f32_value bits : fits 32 bits -> is_finite (f32 bits) = true -> float_value (f32 bits).
Proof.
  intros Hb. unfold f32.
  assert (Hm : 0 <= Z.land bits 0x7FFFFF < 2 ^ 23).
  { change 0x7FFFFF with (Z.ones 23). rewrite Z.land_ones by lia. apply Z.mod_pos_bound. lia. }
  assert (He : 0 <= Z.land (Z.shiftr bits 23) 0xFF < 2 ^ 8).
  { change 0xFF with (Z.ones 8). rewrite Z.land_ones by lia. apply Z.mod_pos_bound. lia. }
  destruct (_ =? 0) eqn:E0.
  - intros _. destruct (Z.land bits 0x7FFFFF); [done| |done]. cbn. lia.
  - destruct (_ =? 255) eqn:E1; [by destruct (Z.land bits 0x7FFFFF)|]. apply Z.eqb_neq in E1. intros _.
    destruct (Z.land bits 0x7FFFFF + 0x800000) eqn:E; [lia| |lia]. cbn. lia.
Qed.

Lemma narrow_value x : is_finite (narrow x) = true -> float_value (narrow x).
Proof.
  destruct x as [s|s| |s m e]; try done. cbn [narrow]. unfold binary_round. destruct (shl_align _ _ _) as [m' e'].
  pose proof (round_aux_number prec32 emax32 ltac:(done) s (Z.pos m') e' loc_Exact ltac:(lia)) as H.
  by destruct (binary_round_aux _ _ _ _ _ _).
Qed.

(** A finite sample is a value of a [float]. *)
Definition float_sample (x : spec_float) : Prop := is_finite x = true -> float_value x.

Lemma narrow_sample x : float_sample (narrow x).
Proof. intros H. by apply narrow_value. Qed.

Lemma raw_samples_values bits : Forall (fits 32) bits -> Forall float_sample (f32 <$> bits).
Proof. intros Hb. apply Forall_fmap. eapply Forall_impl; [exact Hb|]. intros b Hf Hfin. by apply f32_value. Qed.

Lemma imap_Forall {A B} (P : B -> Prop) (f : nat -> A -> B) l : (forall i x, P (f i x)) -> Forall P (imap f l).
Proof. intros H. revert f H. induction l as [|x l IH]; intros f H; [done|]. cbn. constructor; [done|]. apply IH. intros. apply H. Qed.

Lemma filterSignal_samples math mode window s filtered :
  Forall (fits 32) (samples s) -> filterSignal math mode window s = Some (Ok filtered) -> Forall float_sample filtered.
Proof.
  intros Hs. destruct mode; cbn [filterSignal].
  - intros [= <-]. by apply raw_samples_values.
  - unfold movingAverageFilter. destruct (_ || _); [done|]. destruct (validateFiniteSamples _) as [[]|e]; [|done].
    destruct (_ || _); [intros [= <-]; by apply raw_samples_values|].
    destruct (mapM _ _) as [l|] eqn:Hm; [|done]. cbn [mbind option_bind]. intros [= <-].
    apply mapM_Some in Hm. clear -Hm. induction Hm as [|i y l1 l2 Hy _ IH]; constructor; [|done].
    destruct (window_sum _ _ _) as [sum|]; [|done]. cbn [mbind option_bind] in Hy. injection Hy as <-. apply narrow_sample.
  - intros [= H]. unfold sineProjectionFilter in H. destruct (estimateProjection _ _ _ _ _) as [c|e]; [|done].
    rewrite bind_Ok_eq in H. cbv beta in H. injection H as <-. apply imap_Forall. intros. apply narrow_sample.
Qed.

Lemma finite_samples_values xs : Forall float_sample xs -> validateFiniteSamples xs = Ok tt -> Forall float_value xs.
Proof.
  unfold validateFiniteSamples. induction 1 as [|x xs Hx _ IH]; [done|]. cbn [existsb].
  destruct (is_finite x) eqn:E; [|done]. intros H. constructor; [by apply Hx|by apply IH].
Qed.

(** The signals that the station has processed are drawn, in any terminal. *)
Lemma processed_signal_is_shown math mode window payload s filtered metrics ui ws_col show_fixed satellite :
  bytes_ok payload -> decodeApplicationPayload payload = Some (ParsedSignal s) -> 0 < window -> window mod 2 = 1 ->
  processSignal math mode window s = Some (Ok (filtered, metrics)) ->
  exists text, receivedSignal ui ws_col show_fixed satellite (sampleRateHz s) (f32 (frequencyHz s))
                 (f32 (nominalAmplitude s)) (f32 <$> samples s) filtered metrics mode = Some text.
Proof.
  intros Hok Hd Hw Hodd Hp. pose proof (decoded_block_ok payload s Hok Hd) as Hb.
  pose proof (decoded_signal_size payload s Hok Hd) as Hsize.
  destruct (decoded_signal payload s Hok Hd) as (_ & _ & [_ Hs]%Forall_cons & _ & _).
  destruct (filterSignal_ok math mode window s Hb Hw Hodd) as (filtered' & Hf & Hl).
  unfold processSignal in Hp. rewrite Hf in Hp. cbn [mbind option_bind] in Hp. rewrite bind_Ok_eq in Hp.
  pose proof (metrics_outcome math s filtered' Hb Hl) as Hm.
  destruct (forallb is_finite filtered') eqn:Hfin; [destruct Hm as [m Hm]|]; rewrite Hm in Hp; [|done].
  injection Hp as <- <-.
  assert (Hv : Forall float_value filtered').
  { pose proof (filterSignal_samples _ _ _ _ _ Hs Hf) as Hfs. clear -Hfs Hfin.
    induction Hfs as [|x xs Hx _ IH]; [done|]. cbn [forallb] in Hfin. apply andb_true_iff in Hfin as [H1 H2].
    constructor; [by apply Hx|by apply IH]. }
  assert (Hraw : Forall float_value (f32 <$> samples s)) by (apply finite_samples_values; [by apply raw_samples_values|apply Hb]).
  unfold receivedSignal.
  destruct (sparkline_defined (f32 <$> samples s) (Z.to_nat (signal_columns ui ws_col)) (unicodeEnabled_ ui) Hraw) as [t1 ->].
  { unfold size in *. rewrite length_fmap. lia. }
  destruct (sparkline_defined filtered' (Z.to_nat (signal_columns ui ws_col)) (unicodeEnabled_ ui) Hv) as [t2 ->].
  { unfold size in *. rewrite Hl. lia. }
  by eexists.
Qed.
