(* ===== verification/StationHealth.v ===== *)
(** The health monitor of [src/StationHealth.cpp]: a sliding window of the last samples and two
    pairs of thresholds that move the station between its two states. Rates are doubles. *)

From S2P Require Import Prelude TextFormat FrameCodec Floats.

Inductive StationState := Nominal | Degraded.

#[export] Instance StationState_eq_dec : EqDecision StationState.
Proof. solve_decision. Defined.

Record StationHealthConfig := {
  enabled : bool;
  windowSize : Z;
  minSamples : Z;
  degradedRejectionRate : spec_float;
  recoveryRejectionRate : spec_float;
  criticalFramesForDegraded : Z;
  criticalFramesForRecovery : Z;
}.

(** [StationHealthConfig{}] *)
Definition default_config : StationHealthConfig :=
  {| enabled := true; windowSize := 100; minSamples := 20;
     degradedRejectionRate := f64_literal 10 100; recoveryRejectionRate := f64_literal 3 100;
     criticalFramesForDegraded := 8; criticalFramesForRecovery := 3 |}.

Record StationHealthSnapshot := {
  snap_state : StationState;
  snap_samples : Z;
  snap_rejected : Z;
  snap_critical : Z;
  rejectionRate : spec_float;
}.

Record StationStateTransition := {
  from : StationState;
  to : StationState;
  trans_snapshot : StationHealthSnapshot;
  reason : string;
}.

Record Sample := { sample_rejected : bool; sample_critical : bool }.

Record StationHealthMonitor := { config : StationHealthConfig; samples : list Sample; state : StationState }.

Definition isCriticalTelemetry (frame : TelemetryFrame) : bool :=
  (status frame =? Status_Critical) || (status frame =? Status_SafeMode).

Definition f64_zero : spec_float := f64_of_Z 0.
Definition f64_one : spec_float := f64_of_Z 1.

(** The constructor. *)
Definition new_StationHealthMonitor (c : StationHealthConfig) : result StationHealthMonitor :=
  throw_if (windowSize c =? 0)
    (invalid_argument "station health window size must be greater than zero") ;;
  throw_if (minSamples c =? 0)
    (invalid_argument "station health minimum sample count must be greater than zero") ;;
  throw_if (minSamples c >? windowSize c)
    (invalid_argument "station health minimum sample count cannot exceed window size") ;;
  throw_if (SFltb (degradedRejectionRate c) f64_zero || SFltb f64_one (degradedRejectionRate c))
    (invalid_argument "degraded rejection rate must be between 0 and 1") ;;
  throw_if (SFltb (recoveryRejectionRate c) f64_zero || SFltb f64_one (recoveryRejectionRate c))
    (invalid_argument "recovery rejection rate must be between 0 and 1") ;;
  throw_if (SFltb (degradedRejectionRate c) (recoveryRejectionRate c))
    (invalid_argument "recovery rejection rate cannot exceed degraded rejection rate") ;;
  throw_if (criticalFramesForDegraded c =? 0)
    (invalid_argument "critical frame degradation threshold must be greater than zero") ;;
  throw_if (criticalFramesForDegraded c >? windowSize c)
    (invalid_argument "critical frame degradation threshold cannot exceed window size") ;;
  throw_if (criticalFramesForRecovery c >=? criticalFramesForDegraded c)
    (invalid_argument "critical frame recovery threshold must be lower than degradation threshold") ;;
  Ok {| config := c; samples := []; state := Nominal |}.

Definition count_if (p : Sample -> bool) (l : list Sample) : Z :=
  foldl (fun n s => if p s then n + 1 else n) 0 l.

Definition makeSnapshotLocked (m : StationHealthMonitor) : StationHealthSnapshot :=
  let n := size (samples m) in
  let r := count_if sample_rejected (samples m) in
  {| snap_state := state m; snap_samples := n; snap_rejected := r;
     snap_critical := count_if sample_critical (samples m);
     rejectionRate := if n >? 0 then f64_div (f64_of_Z r) (f64_of_Z n) else f64_zero |}.

Section Monitor.

(** [oss << x] for a double. *)
Variable show_double : spec_float -> string.

Definition transitionReasonLocked (c : StationHealthConfig) (s : StationHealthSnapshot)
    (target : StationState) : string :=
  match target with
  | Degraded =>
      if SFleb (degradedRejectionRate c) (rejectionRate s)
      then "rejection rate " +:+ show_double (rejectionRate s) +:+
           " exceeded threshold " +:+ show_double (degradedRejectionRate c)
      else "critical telemetry count " +:+ show_dec (snap_critical s) +:+
           " reached threshold " +:+ show_dec (criticalFramesForDegraded c)
  | Nominal =>
      "rejection rate " +:+ show_double (rejectionRate s) +:+
      " <= recovery threshold " +:+ show_double (recoveryRejectionRate c) +:+
      " and critical count " +:+ show_dec (snap_critical s) +:+
      " <= recovery threshold " +:+ show_dec (criticalFramesForRecovery c)
  end.

(** [while (samples_.size() > windowSize) samples_.pop_front();] *)
Fixpoint trim (w : Z) (l : list Sample) : list Sample :=
  match l with
  | [] => []
  | _ :: l' => if size l >? w then trim w l' else l
  end.

(** The choice of the next state. *)
Definition target_state (c : StationHealthConfig) (s : StationHealthSnapshot) (st : StationState)
  : StationState :=
  match st with
  | Nominal =>
      if SFleb (degradedRejectionRate c) (rejectionRate s) ||
         (snap_critical s >=? criticalFramesForDegraded c)
      then Degraded else Nominal
  | Degraded =>
      if SFleb (rejectionRate s) (recoveryRejectionRate c) &&
         (snap_critical s <=? criticalFramesForRecovery c)
      then Nominal else Degraded
  end.

Definition recordSample (m : StationHealthMonitor) (sample : Sample)
  : StationHealthMonitor * option StationStateTransition :=
  let c := config m in
  if negb (enabled c) then (m, None) else
  let m := {| config := c; samples := trim (windowSize c) (samples m ++ [sample]); state := state m |} in
  let snapshot := makeSnapshotLocked m in
  if snap_samples snapshot <? minSamples c then (m, None) else
  let target := target_state c snapshot (state m) in
  if bool_decide (target = state m) then (m, None) else
  ({| config := c; samples := samples m; state := target |},
   Some {| from := state m; to := target;
           trans_snapshot := {| snap_state := target; snap_samples := snap_samples snapshot;
                                snap_rejected := snap_rejected snapshot;
                                snap_critical := snap_critical snapshot;
                                rejectionRate := rejectionRate snapshot |};
           reason := transitionReasonLocked c snapshot target |}).

Definition recordDecoded (m : StationHealthMonitor) (frame : TelemetryFrame) :=
  recordSample m {| sample_rejected := false; sample_critical := isCriticalTelemetry frame |}.

Definition recordRejected (m : StationHealthMonitor) :=
  recordSample m {| sample_rejected := true; sample_critical := false |}.

Definition snapshot (m : StationHealthMonitor) : StationHealthSnapshot := makeSnapshotLocked m.

(** A run of samples, with the transitions it reports. *)
Fixpoint record_all (m : StationHealthMonitor) (xs : list Sample)
  : StationHealthMonitor * list (option StationStateTransition) :=
  match xs with
  | [] => (m, [])
  | x :: xs =>
      let '(m, t) := recordSample m x in
      let '(m, ts) := record_all m xs in (m, t :: ts)
  end.

End Monitor.

Definition stationStateToString (st : StationState) : string :=
  match st with Nominal => "NOMINAL" | Degraded => "DEGRADED" end.

(** ** The window *)

(** The last [w] elements. *)
Definition last_n (w : Z) (l : list Sample) : list Sample := drop (length l - Z.to_nat w) l.

Lemma trim_last_n w l : 0 <= w -> trim w l = last_n w l.
Proof.
  intros Hw. induction l as [|x l IH]; [done|]. cbn [trim]. unfold last_n in *.
  destruct (Z.gtb_spec (size (x :: l)) w) as [Hgt|Hle]; unfold size in *; cbn [length] in *.
  - rewrite IH. replace (S (length l) - Z.to_nat w)%nat with (S (length l - Z.to_nat w)) by lia. done.
  - by replace (S (length l) - Z.to_nat w)%nat with 0%nat by lia.
Qed.

Lemma last_n_snoc w l x : 0 < w -> last_n w (last_n w l ++ [x]) = last_n w (l ++ [x]).
Proof.
  intros Hw. unfold last_n. rewrite !length_app, !length_drop. cbn [length].
  rewrite <- !drop_app_le by lia. rewrite drop_drop. f_equal. lia.
Qed.

Lemma size_last_n w l : 0 <= w -> size (last_n w l) = Z.min w (size l).
Proof. intros Hw. unfold last_n, size. rewrite length_drop. lia. Qed.

Lemma count_if_filter p l : count_if p l = size (filter (fun s => p s = true) l).
Proof.
  unfold count_if.
  assert (H : forall n, foldl (fun n s => if p s then n + 1 else n) n l
                        = n + size (filter (fun s => p s = true) l)); [|by rewrite H].
  induction l as [|s l IH]; intros n; [rewrite filter_nil, size_nil; cbn; lia|].
  cbn [foldl]. rewrite IH. rewrite filter_cons. destruct (p s) eqn:Hp.
  - rewrite decide_True by done. rewrite size_cons. lia.
  - by rewrite decide_False.
Qed.

(** ** What is promised *)

(** The thresholds on a window of samples, as the documentation states them: the rejection rate of the
    window or its critical telemetry degrade the station; it recovers when both are low again. *)
Definition rejected_in (w : list Sample) : Z := size (filter (fun s => sample_rejected s = true) w).
Definition critical_in (w : list Sample) : Z := size (filter (fun s => sample_critical s = true) w).
Definition rate_in (w : list Sample) : spec_float := f64_div (f64_of_Z (rejected_in w)) (f64_of_Z (size w)).

Definition degrading (c : StationHealthConfig) (w : list Sample) : Prop :=
  minSamples c <= size w /\
  (SFleb (degradedRejectionRate c) (rate_in w) = true \/ criticalFramesForDegraded c <= critical_in w).
Definition recovering (c : StationHealthConfig) (w : list Sample) : Prop :=
  minSamples c <= size w /\
  SFleb (rate_in w) (recoveryRejectionRate c) = true /\ critical_in w <= criticalFramesForRecovery c.

(** What a sample makes of the state, on the window that ends with it: a transition exactly when the
    thresholds ask for one, which tells the counts of the window. *)
Definition tells (t : StationStateTransition) (st st' : StationState) (w : list Sample) : Prop :=
  from t = st /\ to t = st' /\
  trans_snapshot t = {| snap_state := st'; snap_samples := size w; snap_rejected := rejected_in w;
                        snap_critical := critical_in w; rejectionRate := rate_in w |}.
Definition judged (c : StationHealthConfig) (w : list Sample) (st : StationState)
    (o : option StationStateTransition) : Prop :=
  match st, o with
  | Nominal, Some t => degrading c w /\ tells t Nominal Degraded w
  | Nominal, None => ~ degrading c w
  | Degraded, Some t => recovering c w /\ tells t Degraded Nominal w
  | Degraded, None => ~ recovering c w
  end.

(** The state that the transitions tell, from [st] on. *)
Definition told (st : StationState) (ts : list (option StationStateTransition)) : StationState :=
  foldl (fun st o => match o with Some t => to t | None => st end) st ts.

(** ** Runs *)

Section Runs.
Context (show_double : spec_float -> string) (c : StationHealthConfig).
Hypothesis Henabled : enabled c = true.
Hypothesis Hwindow : 0 < windowSize c.
Hypothesis Hmin : 0 < minSamples c.

Definition holds (m : StationHealthMonitor) (past : list Sample) : Prop :=
  config m = c /\ samples m = last_n (windowSize c) past.

Lemma snapshot_of m : 0 < size (samples m) ->
  makeSnapshotLocked m = {| snap_state := state m; snap_samples := size (samples m);
    snap_rejected := rejected_in (samples m); snap_critical := critical_in (samples m);
    rejectionRate := rate_in (samples m) |}.
Proof.
  intros Hs. unfold makeSnapshotLocked. rewrite !count_if_filter. by rewrite (proj2 (Z.gtb_lt _ _)).
Qed.

Lemma recordSample_step m past x m' o :
  holds m past -> recordSample show_double m x = (m', o) ->
  holds m' (past ++ [x]) /\ state m' = told (state m) [o] /\
  judged c (last_n (windowSize c) (past ++ [x])) (state m) o.
Proof using Henabled Hwindow Hmin.
  intros [Hc Hs]. unfold recordSample. rewrite Hc, Henabled. cbn [negb].
  rewrite trim_last_n, Hs, last_n_snoc by lia. cbn [state].
  set (w := last_n (windowSize c) (past ++ [x])).
  assert (Hpos : 0 < size w).
  { subst w. rewrite size_last_n, size_app by lia. pose proof (size_nonneg past). change (size [x]) with 1. lia. }
  rewrite snapshot_of by done. cbn [samples state snap_samples snap_rejected snap_critical rejectionRate].
  unfold judged, degrading, recovering, target_state. cbn [snap_critical rejectionRate].
  destruct (Z.ltb_spec (size w) (minSamples c)).
  { intros [= <- <-]. split; [done|]. split; [done|]. destruct (state m); lia. }
  destruct (state m); cbn [told foldl].
  - destruct (SFleb (degradedRejectionRate c) (rate_in w)); cbn [orb].
    + intros [= <- <-]. unfold tells. split_and!; try done. by left.
    + destruct (Z.geb_spec (critical_in w) (criticalFramesForDegraded c)); intros [= <- <-]; unfold tells;
        split_and!; try done; [by right|]. intros [_ [|]]; [done|lia].
  - destruct (SFleb (rate_in w) (recoveryRejectionRate c)); cbn [andb].
    + destruct (Z.leb_spec (critical_in w) (criticalFramesForRecovery c)); intros [= <- <-]; unfold tells;
        split_and!; try done. intros (_ & _ & ?). lia.
    + intros [= <- <-]. split_and!; try done. by intros (_ & ? & _).
Qed.

Lemma record_all_judged xs past m :
  holds m past ->
  let '(m', ts) := record_all show_double m xs in
  samples m' = last_n (windowSize c) (past ++ xs) /\ length ts = length xs /\ state m' = told (state m) ts /\
  forall k o, ts !! k = Some o ->
    judged c (last_n (windowSize c) (past ++ take (S k) xs)) (told (state m) (take k ts)) o.
Proof using Henabled Hwindow Hmin.
  revert past m. induction xs as [|x xs IH]; intros past m Hm; cbn [record_all].
  { rewrite app_nil_r. split; [apply Hm|done]. }
  destruct (recordSample show_double m x) as [m1 o1] eqn:Hr.
  destruct (recordSample_step m past x m1 o1 Hm Hr) as (Hm1 & Hst & Hj).
  specialize (IH (past ++ [x]) m1 Hm1). destruct (record_all show_double m1 xs) as [m2 ts].
  destruct IH as (Hs & Hl & Ht & Hall). rewrite <- app_assoc in Hs.
  split; [done|]. split; [by cbn; rewrite Hl|]. split; [by rewrite Ht, Hst|].
  intros [|k] o; cbn [lookup list_lookup take].
  - by intros [= ->].
  - intros Hk. specialize (Hall k o Hk). by rewrite Hst, <- app_assoc in Hall.
Qed.

(** Thresholds that are apart are not crossed both at once. *)
Lemma hysteresis_apart w :
  SFltb (recoveryRejectionRate c) (degradedRejectionRate c) = true ->
  criticalFramesForRecovery c < criticalFramesForDegraded c ->
  degrading c w -> ~ recovering c w.
Proof.
  intros Hr Hc [_ [Hd|Hd]] (_ & Hrec & Hcrit); [|lia].
  by rewrite (SFleb_trans_ltb _ _ _ Hd Hrec) in Hr.
Qed.

End Runs.

(** A state with two conditions that never hold together: it is left by the one and entered by the
    other. *)
Lemma switch_holds (st : nat -> StationState) (enter leave : nat -> Prop) n :
  st 0%nat = Nominal ->
  (forall k, (k < n)%nat -> match st k with Nominal => st (S k) = Degraded <-> enter k | Degraded => st (S k) = Nominal <-> leave k end) ->
  (forall k, enter k -> ~ leave k) ->
  st n = Degraded <-> exists k, (k < n)%nat /\ enter k /\ forall j, (k < j < n)%nat -> ~ leave j.
Proof.
  intros H0 Hstep Hx. induction n as [|n IH].
  { rewrite H0. split; [done|]. intros (k & Hk & _). lia. }
  destruct IH as [IH1 IH2]; [by intros k Hk; apply Hstep; lia|]. specialize (Hstep n ltac:(lia)). split.
  - intros Hn. destruct (st n) eqn:E.
    + exists n. split; [lia|]. split; [by apply Hstep|lia].
    + destruct (IH1 eq_refl) as (k & Hk & He & Hl). exists k. split; [lia|]. split; [done|].
      intros j Hj. destruct (decide (j = n)) as [->|]; [|apply Hl; lia].
      intros Hleave%Hstep. by rewrite Hn in Hleave.
  - intros (k & Hk & He & Hl). destruct (st n) eqn:E.
    + apply Hstep. destruct (decide (k = n)) as [->|]; [done|].
      enough (Nominal = Degraded) by done. apply IH2. exists k. split; [lia|]. split; [done|]. intros j Hj. apply Hl. lia.
    + destruct (st (S n)) eqn:E'; [|done]. exfalso. assert (Hleave : leave n) by by apply Hstep.
      destruct (decide (k = n)) as [->|]; [by apply (Hx n)|]. apply (Hl n); [lia|done].
Qed.

(** C17: the monitor judges exactly the last [windowSize] samples. They are what it holds after any
    run; each sample reports a transition exactly when the window that ends with it crosses the
    thresholds of the present state, the rejection rate at or above its threshold or the critical
    count at or above its own out of NOMINAL, both at or below the recovery thresholds out of
    DEGRADED, never with fewer than [minSamples] samples, and the transition tells the counts of the
    window; the state is what the transitions told. When the two rates differ, this is a hysteresis:
    the station is DEGRADED exactly when some sample reached a degradation threshold and no later one
    met the conditions of recovery. *)
Theorem health_follows_window : forall show_double c m xs,
  new_StationHealthMonitor c = Ok m -> enabled c = true -> 0 <= windowSize c -> 0 <= minSamples c ->
  let '(m', ts) := record_all show_double m xs in
  let window k := last_n (windowSize c) (take (S k) xs) in
  samples m' = last_n (windowSize c) xs /\ length ts = length xs /\ state m' = told Nominal ts /\
  (forall k o, ts !! k = Some o -> judged c (window k) (told Nominal (take k ts)) o) /\
  (SFltb (recoveryRejectionRate c) (degradedRejectionRate c) = true ->
   state m' = Degraded <->
   exists k, (k < length xs)%nat /\ degrading c (window k) /\
     forall j, (k < j < length xs)%nat -> ~ recovering c (window j)).
Proof.
  intros sd c m xs Hm Hen Hw0 Hm0.
  assert (Hc : 0 < windowSize c /\ 0 < minSamples c /\ criticalFramesForRecovery c < criticalFramesForDegraded c /\
    holds c m [] /\ state m = Nominal).
  { revert Hm. unfold new_StationHealthMonitor. destruct (Z.eqb_spec (windowSize c) 0); [done|].
    destruct (Z.eqb_spec (minSamples c) 0); [done|].
    destruct (Z.geb_spec (criticalFramesForRecovery c) (criticalFramesForDegraded c)); break_ifs; intros [= <-];
      split_and!; (lia || done). }
  destruct Hc as (Hw & Hmin & Hcrit & Hholds & Hst).
  pose proof (record_all_judged sd c Hen Hw Hmin xs [] m Hholds) as Hall. rewrite Hst in Hall.
  destruct (record_all sd m xs) as [m' ts]. destruct Hall as (Hs & Hl & Ht & Hj). do 4 (split; [done|]).
  intros Hrates. rewrite Ht, <- (firstn_all ts), Hl.
  apply (switch_holds (fun k => told Nominal (take k ts))); [done| |].
  - intros k Hk. destruct (lookup_lt_is_Some_2 ts k) as [o Ho]; [by rewrite Hl|].
    specialize (Hj k o Ho). rewrite (take_S_r _ _ _ Ho). unfold told in *. rewrite foldl_app. cbn [foldl].
    revert Hj. destruct (foldl _ Nominal (take k ts)); cbn [judged]; destruct o as [t|].
    + intros (Hd & _ & -> & _). done.
    + intros Hd. split; [done|]. by intros ?%Hd.
    + intros (Hd & _ & -> & _). done.
    + intros Hd. split; [done|]. by intros ?%Hd.
  - intros k. by apply hysteresis_apart.
Qed.

Definition small_config : StationHealthConfig :=
  {| enabled := true; windowSize := 4; minSamples := 2;
     degradedRejectionRate := f64_literal 1 2; recoveryRejectionRate := f64_literal 1 4;
     criticalFramesForDegraded := 2; criticalFramesForRecovery := 1 |}.

Definition some_samples : list Sample :=
  (fun b => {| sample_rejected := b; sample_critical := false |}) <$>
  [false; true; true; false; false; false; false].

(** The second sample degrades the station, and the sixth lets it recover. *)
Lemma health_follows_window_witness :
  let m := {| config := small_config; samples := []; state := Nominal |} in
  let '(m', ts) := record_all (fun _ => EmptyString) m some_samples in
  state m' = Nominal /\
  ~ exists k, (k < 7)%nat /\ degrading small_config (last_n 4 (take (S k) some_samples)) /\
      forall j, (k < j < 7)%nat -> ~ recovering small_config (last_n 4 (take (S j) some_samples)).
Proof.
  cbv zeta.
  pose proof (health_follows_window (fun _ => EmptyString) small_config
    {| config := small_config; samples := []; state := Nominal |} some_samples) as H.
  destruct (record_all _ _ _) as [m' ts] eqn:E.
  destruct H as (_ & _ & _ & _ & Hh); [vm_compute; reflexivity|reflexivity|vm_compute; discriminate|vm_compute; discriminate|].
  assert (Hst : state m' = Nominal) by (apply (f_equal (state ∘ fst)) in E; cbn [fst compose] in E; rewrite <- E; vm_compute; reflexivity).
  split; [exact Hst|]. intros Hex. apply Hh in Hex; [|vm_compute; reflexivity]. rewrite Hst in Hex. discriminate Hex.
Defined.

(** Equal rates pass the constructor; a rate that stays on them moves the state with every
    sample. *)
Definition equal_rates : StationHealthConfig :=
  {| enabled := true; windowSize := 2; minSamples := 2;
     degradedRejectionRate := f64_literal 1 2; recoveryRejectionRate := f64_literal 1 2;
     criticalFramesForDegraded := 2; criticalFramesForRecovery := 1 |}.

Lemma equal_rates_flap :
  let m := {| config := equal_rates; samples := []; state := Nominal |} in
  let alternating := (fun b => {| sample_rejected := b; sample_critical := false |}) <$>
    [true; false; true; false; true; false] in
  new_StationHealthMonitor equal_rates = Ok m /\
  to <$> omap id (snd (record_all (fun _ => EmptyString) m alternating)) = [Degraded; Nominal; Degraded; Nominal; Degraded].
Proof. vm_compute. split; reflexivity. Qed.

(** A rate that is not a number passes the constructor too. *)
Lemma nan_rate_accepted :
  is_ok (new_StationHealthMonitor
    {| enabled := true; windowSize := 2; minSamples := 2;
       degradedRejectionRate := S754_nan; recoveryRejectionRate := S754_nan;
       criticalFramesForDegraded := 2; criticalFramesForRecovery := 1 |}) = true.
Proof. reflexivity. Qed.
