(* ===== verification/BlockingQueue.v ===== *)
(** The queue of [include/stgs/BlockingQueue.hpp]: FIFO, closed explicitly, bounded when its
    capacity is not 0. Each operation runs under the mutex, so that it is one step; [None] stands
    for a call that waits on its condition variable. *)

From S2P Require Import Prelude.

Record BlockingQueue (T : Type) := mkQueue { capacity : Z; queue : list T; closed : bool }.
Arguments mkQueue {T} _ _ _.
Arguments capacity {T} _.
Arguments queue {T} _.
Arguments closed {T} _.

Section Queue.
Context {T : Type}.

Definition new_BlockingQueue (capacity : Z) : BlockingQueue T := mkQueue capacity [] false.

(** [push(value)]: whether the value was inserted. *)
Definition push (q : BlockingQueue T) (value : T) : option (bool * BlockingQueue T) :=
  if closed q || (capacity q =? 0) || (size (queue q) <? capacity q) then
    if closed q then Some (false, q)
    else Some (true, mkQueue (capacity q) (queue q ++ [value]) (closed q))
  else None.

(** [pop()]: the next element, or nothing when the queue is closed and drained. *)
Definition pop (q : BlockingQueue T) : option (option T * BlockingQueue T) :=
  match queue q with
  | [] => if closed q then Some (None, q) else None
  | value :: rest => Some (Some value, mkQueue (capacity q) rest (closed q))
  end.

Definition close (q : BlockingQueue T) : BlockingQueue T := mkQueue (capacity q) (queue q) true.

Definition bounded (q : BlockingQueue T) : Prop := capacity q = 0 \/ size (queue q) <= capacity q.

(** ** Lemmas *)

Lemma push_true q v q' :
  push q v = Some (true, q') -> closed q = false /\ q' = mkQueue (capacity q) (queue q ++ [v]) false.
Proof.
  unfold push. destruct (closed q) eqn:Hc; cbn [orb]; [done|].
  destruct (_ || _); [|done]. by intros [= <-].
Qed.

Lemma push_false q v q' : push q v = Some (false, q') -> closed q = true /\ q' = q.
Proof.
  unfold push. destruct (closed q); cbn [orb]; [by intros [= <-]|]. by destruct (_ || _).
Qed.

Lemma pop_item q v q' :
  pop q = Some (Some v, q') -> queue q = v :: queue q' /\ closed q' = closed q /\ capacity q' = capacity q.
Proof. unfold pop. destruct (queue q); [by destruct (closed q)|]. by intros [= <- <-]. Qed.

Lemma pop_end q q' : pop q = Some (None, q') -> queue q = [] /\ closed q = true /\ q' = q.
Proof. unfold pop. destruct (queue q); [|done]. destruct (closed q); by intros [= <-]. Qed.

(** An operation waits only on an open queue: a pop when it is empty, a push when it is full. *)
Lemma push_waits q v : push q v = None -> closed q = false /\ queue q <> [] \/ capacity q < 0.
Proof.
  unfold push. destruct (closed q); cbn [orb]; [done|].
  destruct (Z.eqb_spec (capacity q) 0); cbn [orb]; [done|].
  destruct (Z.ltb_spec (size (queue q)) (capacity q)); [done|]. intros _.
  destruct (queue q); [|by left]. right. rewrite size_nil in *. lia.
Qed.

Lemma pop_waits q : pop q = None -> closed q = false /\ queue q = [].
Proof. unfold pop. destruct (queue q); [by destruct (closed q)|done]. Qed.

Lemma push_bounded q v b q' : bounded q -> push q v = Some (b, q') -> bounded q'.
Proof.
  intros Hb. unfold push. destruct (closed q) eqn:Hc; cbn [orb]; [by intros [= <- <-]|].
  destruct (Z.eqb_spec (capacity q) 0); cbn [orb].
  - intros [= <- <-]. by left.
  - destruct (Z.ltb_spec (size (queue q)) (capacity q)); [|done].
    intros [= <- <-]. right. cbn. rewrite size_app, size_cons, size_nil. lia.
Qed.

Lemma pop_bounded q o q' : bounded q -> pop q = Some (o, q') -> bounded q'.
Proof.
  unfold pop, bounded. intros Hb. destruct (queue q) as [|v l] eqn:Hq.
  - destruct (closed q); [|done]. intros [= <- <-]. rewrite Hq. done.
  - intros [= <- <-]. cbn. rewrite size_cons in Hb. destruct Hb; [by left|right; lia].
Qed.

Lemma close_bounded q : bounded q -> bounded (close q).
Proof. done. Qed.

End Queue.

#[export] Hint Resolve push_bounded pop_bounded close_bounded : stgs.
