(* ===== verification/GroundStationOptions.v ===== *)
(** [apps/ground_station/GroundStationOptions.cpp]: the command line of the station.

    The arguments are the strings behind the name of the program; paths are strings. [option_step]
    is the body of the loop for one argument, with the next argument, which it may take as a value.
    [parseArgs_valid] states what the rest of the application relies on. *)

From S2P Require Import Prelude TextFormat Floats FrameCodec ApplicationPayload SignalProcessing CliParsing PortDiagnostics Logger NetworkServer StationHealth BlockingQueue.

Inductive OutputFormat := Auto | Csv | Json.

#[export] Instance Transport_eq_dec : EqDecision Transport.
Proof. solve_decision. Defined.

Definition size_max : Z := u64_max.
Definition MaximumDecoderThreads : Z := 256.
Definition MaximumQueueCapacity : Z := 1000000.
Definition MaximumHealthWindowSamples : Z := 1000000.
Definition MaximumFilterWindow : Z :=
  if MaxSignalSamplesPerPayload mod 2 =? 0 then MaxSignalSamplesPerPayload - 1 else MaxSignalSamplesPerPayload.

Record Options := mkOptions {
  transport : option Transport;
  bindAddress : string;
  port : Z;
  autoPortRange : option PortRange;
  replayFile : option string;
  replayRate : spec_float;
  outputFile : string;
  outputFormat : OutputFormat;
  logFile : option string;
  logLevel : LogLevel;
  decoderThreads : Z;
  queueCapacity : Z;
  healthConfig : StationHealthConfig;
  signalFilter : SignalFilterMode;
  movingAverageWindow : Z;
  color : bool;
  verbose : bool;
}.

(** [Options{}] *)
Definition default_options : Options :=
  mkOptions None "0.0.0.0" DefaultTelemetryPort None None (S754_zero false) "telemetry.csv" Auto None Info
    2 1024 default_config SineProjection 5 true false.

(** *** Assignments to the members *)

Definition set_transport v o := let 'mkOptions _ b c d e f g h i j k l m n p q r := o in mkOptions v b c d e f g h i j k l m n p q r.
Definition set_bindAddress v o := let 'mkOptions a _ c d e f g h i j k l m n p q r := o in mkOptions a v c d e f g h i j k l m n p q r.
Definition set_port v o := let 'mkOptions a b _ d e f g h i j k l m n p q r := o in mkOptions a b v d e f g h i j k l m n p q r.
Definition set_autoPortRange v o := let 'mkOptions a b c _ e f g h i j k l m n p q r := o in mkOptions a b c v e f g h i j k l m n p q r.
Definition set_replayFile v o := let 'mkOptions a b c d _ f g h i j k l m n p q r := o in mkOptions a b c d v f g h i j k l m n p q r.
Definition set_replayRate v o := let 'mkOptions a b c d e _ g h i j k l m n p q r := o in mkOptions a b c d e v g h i j k l m n p q r.
Definition set_outputFile v o := let 'mkOptions a b c d e f _ h i j k l m n p q r := o in mkOptions a b c d e f v h i j k l m n p q r.
Definition set_outputFormat v o := let 'mkOptions a b c d e f g _ i j k l m n p q r := o in mkOptions a b c d e f g v i j k l m n p q r.
Definition set_logFile v o := let 'mkOptions a b c d e f g h _ j k l m n p q r := o in mkOptions a b c d e f g h v j k l m n p q r.
Definition set_logLevel v o := let 'mkOptions a b c d e f g h i _ k l m n p q r := o in mkOptions a b c d e f g h i v k l m n p q r.
Definition set_decoderThreads v o := let 'mkOptions a b c d e f g h i j _ l m n p q r := o in mkOptions a b c d e f g h i j v l m n p q r.
Definition set_queueCapacity v o := let 'mkOptions a b c d e f g h i j k _ m n p q r := o in mkOptions a b c d e f g h i j k v m n p q r.
Definition set_healthConfig v o := let 'mkOptions a b c d e f g h i j k l _ n p q r := o in mkOptions a b c d e f g h i j k l v n p q r.
Definition set_signalFilter v o := let 'mkOptions a b c d e f g h i j k l m _ p q r := o in mkOptions a b c d e f g h i j k l m v p q r.
Definition set_movingAverageWindow v o := let 'mkOptions a b c d e f g h i j k l m n _ q r := o in mkOptions a b c d e f g h i j k l m n v q r.
Definition set_color v o := let 'mkOptions a b c d e f g h i j k l m n p _ r := o in mkOptions a b c d e f g h i j k l m n p v r.
Definition set_verbose v o := let 'mkOptions a b c d e f g h i j k l m n p q _ := o in mkOptions a b c d e f g h i j k l m n p q v.

Definition set_enabled v (c : StationHealthConfig) : StationHealthConfig :=
  let '{| windowSize := w; minSamples := m; degradedRejectionRate := d; recoveryRejectionRate := r;
          criticalFramesForDegraded := x; criticalFramesForRecovery := y |} := c in Build_StationHealthConfig v w m d r x y.
Definition set_windowSize v c := Build_StationHealthConfig (enabled c) v (minSamples c) (degradedRejectionRate c)
  (recoveryRejectionRate c) (criticalFramesForDegraded c) (criticalFramesForRecovery c).
Definition set_minSamples v c := Build_StationHealthConfig (enabled c) (windowSize c) v (degradedRejectionRate c)
  (recoveryRejectionRate c) (criticalFramesForDegraded c) (criticalFramesForRecovery c).
Definition set_degradedRejectionRate v c := Build_StationHealthConfig (enabled c) (windowSize c) (minSamples c) v
  (recoveryRejectionRate c) (criticalFramesForDegraded c) (criticalFramesForRecovery c).
Definition set_recoveryRejectionRate v c := Build_StationHealthConfig (enabled c) (windowSize c) (minSamples c)
  (degradedRejectionRate c) v (criticalFramesForDegraded c) (criticalFramesForRecovery c).
Definition set_criticalFramesForDegraded v c := Build_StationHealthConfig (enabled c) (windowSize c) (minSamples c)
  (degradedRejectionRate c) (recoveryRejectionRate c) v (criticalFramesForRecovery c).
Definition set_criticalFramesForRecovery v c := Build_StationHealthConfig (enabled c) (windowSize c) (minSamples c)
  (degradedRejectionRate c) (recoveryRejectionRate c) (criticalFramesForDegraded c) v.

(** *** Values *)

(** [requireValue], with the argument that follows. *)
Definition requireValue (arg : string) (next : option string) : result string :=
  match next with
  | None => Throw (runtime_error ("missing value after " +:+ arg))
  | Some value => Ok value
  end.

Definition selectTransport (options : Options) (t : Transport) : result Options :=
  throw_if (match transport options with Some u => bool_decide (u <> t) | None => false end)
    (runtime_error "--udp and --tcp are mutually exclusive") ;;
  Ok (set_transport (Some t) options).

Definition parseOutputFormat (value : string) : result OutputFormat :=
  if bool_decide (value = "csv") then Ok Csv else
  if bool_decide (value = "json") then Ok Json else
  Throw (runtime_error "--output-format must be csv or json").

Definition parseSignalFilter (value : string) : result SignalFilterMode :=
  if bool_decide (value = "none") then Ok NoFilter else
  if bool_decide (value = "moving-average") then Ok MovingAverage else
  if bool_decide (value = "sine-projection") then Ok SineProjection else
  Throw (runtime_error "--signal-filter must be none, moving-average or sine-projection").

(** [path::filename] and [path::extension] on the characters of a path. *)
Fixpoint filename_of (cs : list ascii) (current : list ascii) : list ascii :=
  match cs with
  | [] => current
  | c :: cs => if decide (c = "/"%char) then filename_of cs [] else filename_of cs (current ++ [c])
  end.
Fixpoint last_dot (cs : list ascii) : option (list ascii) :=
  match cs with
  | [] => None
  | c :: cs' => match last_dot cs' with
                | Some e => Some e
                | None => if decide (c = "."%char) then Some cs else None
                end
  end.
Definition extension (path : string) : string :=
  let name := filename_of (chars_of_string path) [] in
  if bool_decide (name = ["."%char; "."%char]) then EmptyString else
  match name with
  | [] => EmptyString
  | _ :: rest => match last_dot rest with Some e => string_of_chars e | None => EmptyString end
  end.

Definition resolveOutputFormat (requested : OutputFormat) (output : string) : OutputFormat :=
  match requested with
  | Auto => if bool_decide (extension output = ".json") then Json else Csv
  | _ => requested
  end.

(** *** The loop *)

Section Parse.
Variable strtod : string -> strtod_result.

(** What one turn of the loop does: leave with [exit(0)] after the usage, or go on, with the
    options, [portExplicit], and whether the next argument was taken. *)
Inductive option_turn := Exits | Continues (options : Options) (portExplicit valueTaken : bool).

Definition option_step (arg : string) (next : option string) (options : Options) (portExplicit : bool) : result option_turn :=
  let flag (options : Options) : result option_turn := Ok (Continues options portExplicit false) in
  let valued (options : Options) : result option_turn := Ok (Continues options portExplicit true) in
  let health (c : StationHealthConfig) : result option_turn := valued (set_healthConfig c options) in
  let integer (name : string) (minimum maximum : Z) : result Z :=
    value ← requireValue arg next; parseUnsigned size_max value name minimum maximum in
  if bool_decide (arg = "--help") || bool_decide (arg = "-h") then Ok Exits
  else if bool_decide (arg = "--udp") then o ← selectTransport options Udp; flag o
  else if bool_decide (arg = "--tcp") then o ← selectTransport options Tcp; flag o
  else if bool_decide (arg = "--bind") then
    value ← requireValue arg next; valued (set_bindAddress value options)
  else if bool_decide (arg = "--port") then
    value ← requireValue arg next;
    p ← parseUnsigned u16_max value "--port" MinimumNetworkPort MaximumNetworkPort;
    Ok (Continues (set_port p options) true true)
  else if bool_decide (arg = "--auto-port") then
    value ← requireValue arg next; r ← parsePortRange value "--auto-port";
    valued (set_autoPortRange (Some r) options)
  else if bool_decide (arg = "--replay") then
    value ← requireValue arg next; valued (set_replayFile (Some value) options)
  else if bool_decide (arg = "--replay-rate") then
    value ← requireValue arg next; rate ← parseFiniteDouble strtod value "--replay-rate";
    throw_if (SFltb rate (f64_of_Z 0)) (runtime_error "--replay-rate must be >= 0") ;;
    valued (set_replayRate rate options)
  else if bool_decide (arg = "--output") then
    value ← requireValue arg next; valued (set_outputFile value options)
  else if bool_decide (arg = "--output-format") then
    value ← requireValue arg next; f ← parseOutputFormat value; valued (set_outputFormat f options)
  else if bool_decide (arg = "--log") then
    value ← requireValue arg next; valued (set_logFile (Some value) options)
  else if bool_decide (arg = "--log-level") then
    value ← requireValue arg next;
    match parseLogLevel value with
    | None => Throw (runtime_error "unknown log level")
    | Some level => valued (set_logLevel level options)
    end
  else if bool_decide (arg = "--verbose") then flag (set_logLevel Debug (set_verbose true options))
  else if bool_decide (arg = "--decoder-threads") then
    n ← integer "--decoder-threads" 1 MaximumDecoderThreads; valued (set_decoderThreads n options)
  else if bool_decide (arg = "--queue-capacity") then
    n ← integer "--queue-capacity" 1 MaximumQueueCapacity; valued (set_queueCapacity n options)
  else if bool_decide (arg = "--signal-filter") then
    value ← requireValue arg next; m ← parseSignalFilter value; valued (set_signalFilter m options)
  else if bool_decide (arg = "--filter-window") then
    n ← integer "--filter-window" 1 MaximumFilterWindow; valued (set_movingAverageWindow n options)
  else if bool_decide (arg = "--disable-degraded") then
    flag (set_healthConfig (set_enabled false (healthConfig options)) options)
  else if bool_decide (arg = "--degraded-window") then
    n ← integer "--degraded-window" 1 MaximumHealthWindowSamples; health (set_windowSize n (healthConfig options))
  else if bool_decide (arg = "--degraded-min-samples") then
    n ← integer "--degraded-min-samples" 1 MaximumHealthWindowSamples; health (set_minSamples n (healthConfig options))
  else if bool_decide (arg = "--degraded-rejection-rate") then
    value ← requireValue arg next; p ← parseProbability strtod value "--degraded-rejection-rate";
    health (set_degradedRejectionRate p (healthConfig options))
  else if bool_decide (arg = "--degraded-recovery-rate") then
    value ← requireValue arg next; p ← parseProbability strtod value "--degraded-recovery-rate";
    health (set_recoveryRejectionRate p (healthConfig options))
  else if bool_decide (arg = "--degraded-critical-count") then
    n ← integer "--degraded-critical-count" 1 MaximumHealthWindowSamples;
    health (set_criticalFramesForDegraded n (healthConfig options))
  else if bool_decide (arg = "--recovery-critical-count") then
    n ← integer "--recovery-critical-count" 0 MaximumHealthWindowSamples;
    health (set_criticalFramesForRecovery n (healthConfig options))
  else if bool_decide (arg = "--no-color") then flag (set_color false options)
  else Throw (runtime_error ("unknown option: " +:+ arg)).

(** The loop over the arguments: [None] is [exit(0)]. *)
Fixpoint parse_loop (args : list string) (options : Options) (portExplicit : bool) : result (option (Options * bool)) :=
  match args with
  | [] => Ok (Some (options, portExplicit))
  | arg :: args =>
      s ← option_step arg (head args) options portExplicit;
      match s with
      | Exits => Ok None
      | Continues options portExplicit false => parse_loop args options portExplicit
      | Continues options portExplicit true =>
          match args with
          | [] => Ok (Some (options, portExplicit))
          | _ :: args => parse_loop args options portExplicit
          end
      end
  end.

(** The checks behind the loop. *)
Definition cross_checks (options : Options) (portExplicit : bool) : result Options :=
  throw_if (match replayFile options, transport options with Some _, Some _ => true | _, _ => false end)
    (runtime_error "choose either network mode or replay mode, not both") ;;
  throw_if (match replayFile options, transport options with None, None => true | _, _ => false end)
    (runtime_error "choose --udp, --tcp, or --replay") ;;
  throw_if (match autoPortRange options with Some _ => bool_decide (transport options <> Some Tcp) | None => false end)
    (runtime_error "--auto-port requires --tcp") ;;
  throw_if (match autoPortRange options with Some _ => portExplicit | None => false end)
    (runtime_error "choose either --port or --auto-port, not both") ;;
  throw_if (match autoPortRange options with Some r => count r >? MaxDiagnosticPortCount | None => false end)
    (runtime_error "--auto-port exceeds MaxDiagnosticPortCount") ;;
  throw_if (movingAverageWindow options mod 2 =? 0)
    (runtime_error "--filter-window must be odd for a centered moving average") ;;
  throw_if (minSamples (healthConfig options) >? windowSize (healthConfig options))
    (runtime_error "--degraded-min-samples cannot exceed --degraded-window") ;;
  throw_if (criticalFramesForRecovery (healthConfig options) >=? criticalFramesForDegraded (healthConfig options))
    (runtime_error "recovery critical threshold must be lower than degradation threshold") ;;
  Ok options.

(** The options, or [None] after [exit(0)]. *)
Definition parseArgs (args : list string) : result (option Options) :=
  r ← parse_loop args default_options false;
  match r with
  | None => Ok None
  | Some (options, portExplicit) => options ← cross_checks options portExplicit; Ok (Some options)
  end.

(** ** What the loop keeps *)

(** What holds of the options while they are read. *)
Record in_range (o : Options) : Prop := {
  range_port : 1 <= port o <= u16_max;
  range_auto : forall r, autoPortRange o = Some r -> valid r = true /\ last r <= u16_max;
  range_rate : is_finite (replayRate o) = true /\ SFltb (replayRate o) (f64_of_Z 0) = false;
  range_threads : 1 <= decoderThreads o <= MaximumDecoderThreads;
  range_capacity : 1 <= queueCapacity o <= MaximumQueueCapacity;
  range_filter : 1 <= movingAverageWindow o <= MaximumFilterWindow;
  range_window : 1 <= windowSize (healthConfig o) <= MaximumHealthWindowSamples;
  range_samples : 1 <= minSamples (healthConfig o) <= MaximumHealthWindowSamples;
  range_degraded : probability (degradedRejectionRate (healthConfig o));
  range_recovery : probability (recoveryRejectionRate (healthConfig o));
  range_critical : 1 <= criticalFramesForDegraded (healthConfig o) <= MaximumHealthWindowSamples;
  range_calm : 0 <= criticalFramesForRecovery (healthConfig o) <= MaximumHealthWindowSamples;
}.

Lemma default_in_range : in_range default_options.
Proof.
  constructor; try (vm_compute; split; congruence); try done; repeat split; vm_compute; reflexivity.
Qed.

Lemma selectTransport_ok o t o' : selectTransport o t = Ok o' -> o' = set_transport (Some t) o.
Proof. unfold selectTransport. break_ifs; [done|by intros [= <-]]. Qed.

Lemma option_step_in_range arg next o portExplicit o' pe taken :
  in_range o -> option_step arg next o portExplicit = Ok (Continues o' pe taken) -> in_range o'.
Proof.
  intros Ho. unfold option_step. destruct o as [ot ob op oa orf orr oof oofm olf oll odt oqc [he hw hm hd hr hc hx] osf omw oc ov].
  destruct Ho as [H1 H2 H3 H4 H5 H6 H7 H8 H9 H10 H11 H12].
  repeat case_bool_decide; cbn [orb]; try discriminate; intros Hs; bind_inv;
    repeat match goal with
    | H : selectTransport _ _ = Ok _ |- _ => apply selectTransport_ok in H as ->
    | H : parsePortRange _ _ = Ok _ |- _ => apply parsePortRange_iff in H as (_ & ? & ?)
    | H : parseFiniteDouble _ _ _ = Ok _ |- _ => apply parseFiniteDouble_finite in H
    | H : parseProbability _ _ _ = Ok _ |- _ => apply parseProbability_probability in H
    | H : parseUnsigned _ _ _ _ _ = Ok _ |- _ => apply parseUnsigned_iff in H as (_ & _ & ?); [|done]
    | H : (if ?c then _ else _) = Ok _ |- _ => destruct c eqn:?; [discriminate H|]
    | H : match ?c with Some _ => _ | None => _ end = Ok _ |- _ => destruct c; [|discriminate H]
    end;
    injection Hs as <- _ _; constructor; first [assumption | done | by intros r [= <-]].
Qed.

Lemma parse_loop_in_range args o portExplicit o' pe :
  in_range o -> parse_loop args o portExplicit = Ok (Some (o', pe)) -> in_range o'.
Proof.
  remember (length args) as n eqn:Hn. revert args Hn o portExplicit.
  induction n as [n IH] using (well_founded_induction lt_wf). intros args -> o portExplicit Ho.
  destruct args as [|arg args]; cbn [parse_loop]; [by intros [= <- <-]|].
  intros ([|o1 pe1 taken] & Hs & H)%bind_Ok; [done|]. apply option_step_in_range in Hs; [|done].
  destruct taken; [destruct args as [|value args]|].
  - by injection H as <- <-.
  - eapply (IH (length args)); [cbn [length]; lia|done|exact Hs|done].
  - eapply (IH (length args)); [cbn [length]; lia|done|exact Hs|done].
Qed.

(** ** Accepted options *)

(** What the other parts of the station rely on. *)
Record options_valid (o : Options) : Prop := {
  ok_range : in_range o;
  ok_mode : (exists t, transport o = Some t /\ replayFile o = None) \/
            (exists f, replayFile o = Some f /\ transport o = None);
  ok_auto : forall r, autoPortRange o = Some r -> transport o = Some Tcp /\ count r <= MaxDiagnosticPortCount;
  ok_filter : movingAverageWindow o mod 2 = 1;
  ok_samples : minSamples (healthConfig o) <= windowSize (healthConfig o);
  ok_critical : criticalFramesForRecovery (healthConfig o) < criticalFramesForDegraded (healthConfig o);
}.

Lemma cross_checks_valid o portExplicit o' :
  in_range o -> cross_checks o portExplicit = Ok o' -> o' = o /\ options_valid o'.
Proof.
  intros Ho. unfold cross_checks.
  repeat match goal with |- (if ?c then _ else _) = Ok _ -> _ => destruct c eqn:?; [done|] end.
  intros [= <-]. split; [done|]. reflect_Z. constructor; try done.
  - destruct (replayFile o) as [f|], (transport o) as [t|]; try done; eauto.
  - intros r Hr. rewrite Hr in *. reflect_Z. split; [|lia].
    match goal with H : bool_decide _ = false |- _ => apply bool_decide_eq_false in H; by apply dec_stable in H end.
  - match goal with H : _ mod 2 <> 0 |- _ => revert H end. clear. dlia.
Qed.

Lemma parseArgs_options args o : parseArgs args = Ok (Some o) -> options_valid o.
Proof.
  intros ([[o1 pe]|] & Hl & H)%bind_Ok; [|done].
  apply bind_Ok in H as (o2 & Hc & [= <-]).
  apply (parse_loop_in_range args _ _ _ _ default_in_range) in Hl. by eapply cross_checks_valid.
Qed.

End Parse.

(** C18: the options that [parseArgs] accepts are of the type the station assumes, whatever the
    arguments are and whatever [strtod] answers: one mode, network or replay; a port and a range of
    ports within 1..65535, the range only with TCP and of at most 256 ports; a replay rate that is a
    number and not negative; between 1 and 256 decoders, a queue of 1 to 1000000 places; an odd
    window for the filter, no larger than a block; rates within [0, 1] and counts within their
    bounds for the monitor. *)
Theorem parseArgs_valid : forall strtod args o,
  parseArgs strtod args = Ok (Some o) -> options_valid o.
Proof. exact parseArgs_options. Qed.

(** A reading of numbers for the examples: [0.5] and [1]. *)
Definition sample_strtod (s : string) : strtod_result :=
  {| parsed_double := if bool_decide (s = "0.5") then f64_literal 5 10 else f64_of_Z 1;
     parsed_length := String.length s; erange := false |}.

Definition sample_args : list string := ["--tcp"; "--bind"; "127.0.0.1"; "--auto-port"; "9000:9010"; "--decoder-threads"; "4"; "--verbose"].
Definition sample_options : Options :=
  match parseArgs sample_strtod sample_args with Ok (Some o) => o | _ => default_options end.

Lemma parseArgs_valid_witness :
  options_valid sample_options /\ decoderThreads sample_options = 4 /\
  parseArgs sample_strtod ["--udp"; "--tcp"] = Throw (runtime_error "--udp and --tcp are mutually exclusive").
Proof.
  split; [|split; vm_compute; reflexivity].
  apply (parseArgs_valid sample_strtod sample_args). vm_compute. reflexivity.
Defined.
