(* ===== verification/PortCheck.v ===== *)
(** [apps/port_check.cpp]: the tool that tries the local ports, on top of [PortDiagnostics].

    A run gives what it printed, on both streams, and its exit code. The rendering of the latency is
    a parameter. *)

From S2P Require Import Prelude TextFormat Floats CliParsing PortDiagnostics GroundStationOptions SignalProcessing TerminalUi UsageText.

Definition DefaultDiagnosticFirstPort : Z := 9000.
Definition DefaultDiagnosticLastPort : Z := 9010.

Record check_options := {
  check_host : string;
  check_ports : PortRange;
  check_timeout : Z;
  check_color : bool;
}.

Definition check_defaults : check_options :=
  {| check_host := "127.0.0.1";
     check_ports := {| first := DefaultDiagnosticFirstPort; last := DefaultDiagnosticLastPort |};
     check_timeout := DefaultPortProbeTimeout; check_color := true |}.

Section PortCheck.
Variable sys : system.

(** The loop over the arguments; [None] is [printUsage] and [exit(0)]. *)
Fixpoint check_loop (args : list string) (o : check_options) : result (option check_options) :=
  match args with
  | [] => Ok (Some o)
  | arg :: args =>
      if bool_decide (arg = "--help") || bool_decide (arg = "-h") then Ok None
      else if bool_decide (arg = "--no-color") then
        check_loop args {| check_host := check_host o; check_ports := check_ports o;
                           check_timeout := check_timeout o; check_color := false |}
      else if bool_decide (arg = "--host") then
        match args with
        | [] => Throw (runtime_error ("missing value after " +:+ arg))
        | value :: args =>
            check_loop args {| check_host := value; check_ports := check_ports o;
                               check_timeout := check_timeout o; check_color := check_color o |}
        end
      else if bool_decide (arg = "--ports") then
        match args with
        | [] => Throw (runtime_error ("missing value after " +:+ arg))
        | value :: args =>
            range ← parsePortRange value "--ports";
            check_loop args {| check_host := check_host o; check_ports := range;
                               check_timeout := check_timeout o; check_color := check_color o |}
        end
      else if bool_decide (arg = "--timeout-ms") then
        match args with
        | [] => Throw (runtime_error ("missing value after " +:+ arg))
        | value :: args =>
            timeout ← parseUnsigned (2 ^ 32 - 1) value "--timeout-ms" 1 MaximumPortProbeTimeout;
            check_loop args {| check_host := check_host o; check_ports := check_ports o;
                               check_timeout := timeout; check_color := check_color o |}
        end
      else Throw (runtime_error ("unknown option: " +:+ arg))
  end.

Definition check_parseArgs (args : list string) : result (option check_options) :=
  r ← check_loop args check_defaults;
  match r with
  | None => Ok None
  | Some o =>
      throw_if (negb (isLoopbackIpv4 sys (check_host o)))
        (runtime_error "--host is intentionally restricted to IPv4 loopback") ;;
      throw_if (count (check_ports o) >? MaxDiagnosticPortCount)
        (runtime_error "--ports exceeds MaxDiagnosticPortCount") ;;
      Ok (Some o)
  end.

(** ** The report *)

Variables (isatty : bool) (getenv : string -> option string) (ws_col : option Z).
Variable show_fixed : Z -> spec_float -> string.

Definition visual_status (state : TcpPortState) : TerminalStatus :=
  match state with
  | StateOpen => StatusSuccess | StateClosed => StatusInfo
  | StateTimeout => StatusWarning | StateError => TerminalUi.StatusError
  end.

Definition report_line (ui : TerminalUi) (r : TcpPortProbeResult) : string :=
  statusLine ui (visual_status (probe_state r))
    ("port " +:+ show_dec (probe_port r) +:+ " / " +:+ tcpPortStateToString (probe_state r))
    (show_fixed 2 (latencyMs r) +:+ " ms / " +:+ probe_detail r).

Definition openCount (results : list TcpPortProbeResult) : Z :=
  size (filter (fun r => probe_state r = StateOpen) results).

(** What [main] prints behind the header, once the scan is done. *)
Definition check_report (ui : TerminalUi) (results : list TcpPortProbeResult) : string :=
  section ui ws_col "REPORT" +:+ concat_texts (report_line ui <$> results) +:+
  section ui ws_col "SUMMARY" +:+
  keyValue ui "ports tested" (show_dec (size results)) +:+
  keyValue ui "TCP listeners" (show_dec (openCount results)) +:+
  keyValue ui "interpretation" "OPEN = TCP listener reachable; service identity is not inferred".

Definition check_header (ui : TerminalUi) (o : check_options) : string :=
  section ui ws_col "STGS PORT CHECK" +:+
  keyValue ui "target" (check_host o) +:+
  keyValue ui "range" (show_dec (first (check_ports o)) +:+ ":" +:+ show_dec (last (check_ports o))) +:+
  keyValue ui "timeout" (show_dec (check_timeout o) +:+ " ms / port").

(** [main]: the two streams and the exit code; [None] when the scan does not end. *)
Definition port_check (args : list string) : option (string * string * Z) :=
  let fails out e := Some (out, "error: " +:+ what e +:+ line_feed, 1) in
  match check_parseArgs args with
  | Throw e => fails EmptyString e
  | Ok None => Some (check_usage, EmptyString, 0)
  | Ok (Some o) =>
      let ui := new_TerminalUi isatty getenv (check_color o) in
      let out := check_header ui o in
      r ← scanTcpPorts sys (check_host o) (check_ports o) (check_timeout o);
      match r with
      | Throw e => fails out e
      | Ok results => Some (out +:+ check_report ui results, EmptyString, 0)
      end
  end.

(** ** Accepted arguments *)

Record check_ok (o : check_options) : Prop := {
  check_range : valid (check_ports o) = true /\ last (check_ports o) <= u16_max;
  check_time : 1 <= check_timeout o <= MaximumPortProbeTimeout;
}.

Lemma check_loop_ok args o o' : check_ok o -> check_loop args o = Ok (Some o') -> check_ok o'.
Proof.
  remember (length args) as n eqn:Hn. revert args Hn o.
  induction n as [n IH] using lt_wf_ind. intros args -> o Ho.
  destruct args as [|arg args]; cbn [check_loop]; [by intros [= <-]|].
  destruct (_ || _); [done|].
  destruct (bool_decide (arg = "--no-color")).
  { apply (IH (length args)); [cbn; lia|done|by destruct Ho]. }
  destruct (bool_decide (arg = "--host")).
  { destruct args as [|value args]; [done|]. apply (IH (length args)); [cbn; lia|done|by destruct Ho]. }
  destruct (bool_decide (arg = "--ports")).
  { destruct args as [|value args]; [done|]. destruct (parsePortRange value "--ports") as [range|] eqn:Hr; [|done].
    apply parsePortRange_iff in Hr as (_ & Hv & Hl). bind_some.
    apply (IH (length args)); [cbn; lia|done|]. destruct Ho. by constructor. }
  destruct (bool_decide (arg = "--timeout-ms")); [|done].
  destruct args as [|value args]; [done|]. destruct (parseUnsigned _ value _ _ _) as [t|] eqn:Ht; [|done].
  apply parseUnsigned_iff in Ht as [_ Ht]; [|done]. bind_some.
  apply (IH (length args)); [cbn; lia|done|]. destruct Ho. constructor; [done|]. cbn. lia.
Qed.

Lemma check_parseArgs_ok args o :
  check_parseArgs args = Ok (Some o) ->
  check_ok o /\ isLoopbackIpv4 sys (check_host o) = true /\ count (check_ports o) <= MaxDiagnosticPortCount.
Proof.
  unfold check_parseArgs. destruct (check_loop args check_defaults) as [[o'|]|] eqn:Hl; bind_some; [|done|done].
  destruct (isLoopbackIpv4 _ _) eqn:Hh; cbn [negb]; [|done]. destruct (_ >? _) eqn:Hc; [done|].
  intros [= <-]. reflect_Z. split; [|done]. eapply check_loop_ok; [|done]. by constructor.
Qed.

(** A probe on a valid port does not throw. *)
Lemma probe_total host port timeout :
  isLoopbackIpv4 sys host = true -> 1 <= port -> 1 <= timeout <= MaximumPortProbeTimeout ->
  exists r, probeTcpPort sys host port timeout = Ok r.
Proof.
  intros Hh Hp Ht. unfold probeTcpPort, validateDiagnosticPort, MinimumNetworkPort. rewrite Hh. cbn [negb].
  rewrite (proj2 (Z.ltb_ge port 1)) by lia. bind_some.
  rewrite (proj2 (Z.leb_gt timeout 0)), Z.gtb_ltb, (proj2 (Z.ltb_ge MaximumPortProbeTimeout timeout)) by lia. cbn [orb].
  destruct (sys_socket sys port PortTcp); [|by eexists]. destruct (classify _ _ _). by eexists.
Qed.

Lemma scan_total host range timeout :
  isLoopbackIpv4 sys host = true -> valid range = true -> last range <= u16_max ->
  count range <= MaxDiagnosticPortCount -> 1 <= timeout <= MaximumPortProbeTimeout ->
  exists results, scanTcpPorts sys host range timeout = Some (Ok results).
Proof.
  intros Hh Hv Hl Hc Ht. unfold scanTcpPorts. rewrite Hh. cbn [negb].
  assert (Hrange : validateDiagnosticRange range = Ok tt).
  { unfold validateDiagnosticRange. unfold valid in Hv. reflect_Z. unfold MinimumNetworkPort in *.
    rewrite !(proj2 (Z.ltb_ge _ 1)) by lia. rewrite !Z.gtb_ltb, (proj2 (Z.ltb_ge (last range) _)) by lia.
    cbn [orb]. by rewrite (proj2 (Z.ltb_ge _ (count range))) by lia. }
  rewrite Hrange, (range_loop _ _ tt) by done. bind_some.
  assert (Hports : Forall (fun p => 1 <= p) (ports range)).
  { apply Forall_forall. intros p Hp%elem_of_seqZ. unfold valid, MinimumNetworkPort in Hv. reflect_Z. lia. }
  assert (Hvis : exists found, visit (B := unit) (fun port => r ← probeTcpPort sys host port timeout; Ok (r, None)) (ports range)
            = Ok (found, None)).
  { clear -Hports Hh Ht. induction Hports as [|p ps Hp _ [found IH]]; [by eexists|]. cbn [visit].
    destruct (probe_total host p timeout Hh Hp Ht) as [r ->]. bind_some. rewrite IH. bind_some. by eexists. }
  destruct Hvis as [found ->]. bind_some. by eexists.
Qed.

(** Accepted arguments make the tool report: every port of the range is probed once, in order, on a
    loopback address only, and the run ends with the whole report and the exit code 0, whatever the
    probes find. *)
Theorem port_check_reports_every_port : forall args o,
  check_parseArgs args = Ok (Some o) ->
  exists results,
    probe_port <$> results = ports (check_ports o) /\
    isLoopbackIpv4 sys (check_host o) = true /\ size results <= MaxDiagnosticPortCount /\
    port_check args =
      Some (check_header (new_TerminalUi isatty getenv (check_color o)) o +:+
            check_report (new_TerminalUi isatty getenv (check_color o)) results, EmptyString, 0).
Proof.
  intros args o Hp. destruct (check_parseArgs_ok args o Hp) as ([[Hv Hl] Ht] & Hh & Hc).
  destruct (scan_total (check_host o) (check_ports o) (check_timeout o)) as [results Hs]; [done..|].
  exists results. destruct (scan_covers_range sys _ _ _ _ Hl Hs) as (H1 & H2 & H3). split_and!; [done..|].
  unfold port_check. rewrite Hp. cbv zeta. by rewrite Hs.
Qed.

End PortCheck.

Lemma port_check_reports_every_port_witness :
  exists results, probe_port <$> results = [9000; 9001] /\
    port_check sample_system false (fun _ => None) None (fun _ _ => "0.10") ["--ports"; "9000:9001"] =
    Some (check_header None (new_TerminalUi false (fun _ => None) true)
            {| check_host := "127.0.0.1"; check_ports := {| first := 9000; last := 9001 |};
               check_timeout := 200; check_color := true |} +:+
          check_report None (fun _ _ => "0.10") (new_TerminalUi false (fun _ => None) true) results, EmptyString, 0).
Proof.
  destruct (port_check_reports_every_port sample_system false (fun _ => None) None (fun _ _ => "0.10")
              ["--ports"; "9000:9001"]
              {| check_host := "127.0.0.1"; check_ports := {| first := 9000; last := 9001 |};
                 check_timeout := 200; check_color := true |}) as (results & H1 & _ & _ & H2).
  - vm_compute. reflexivity.
  - exists results. split; [exact H1|exact H2].
Defined.
