(* ===== verification/Pipeline.v ===== *)
(** The pipeline of [apps/ground_station] (GroundStationPipeline.cpp, GroundStationWorkers.cpp,
    GroundStationInput.cpp): one producer, several decoders and one writer around two bounded
    queues, as a step relation over the interleavings of the threads; PipelineSpec proves it.

    A step of a thread runs up to its next operation on something another thread sees: a queue,
    the running flag, the recorded error. The progress thread only reads and is left out. *)

From S2P Require Import Prelude FrameCodec ApplicationPayload Floats SignalProcessing StationHealth BlockingQueue.

(** ** What the writer calls *)

(** The terminal, the logger and the output file: each call may change them, and may throw. With
    them the options of the filter of the signals and the mathematical library. *)
Class Outputs (env : Type) := {
  log_transition : env -> StationStateTransition -> env * option exn;
  log_warning : env -> string -> env * option exn;
  log_debug : env -> Z -> TelemetryFrame -> env * option exn;
  show_message : env -> Z -> TextMessagePayload -> env * option exn;
  show_signal : env -> Z -> SignalBlockPayload -> list spec_float -> SignalMetrics -> env * option exn;
  write_frame : env -> TelemetryFrame -> env * option exn;
  finish_output : env -> env * option exn;
  log_trace : nat -> Z -> option exn;
  show_double : spec_float -> string;
  signalFilter : SignalFilterMode;
  movingAverageWindow : Z;
  math : libm;
}.

Section Pipeline.
Context {env : Type} `{Outputs env}.

(** Options of the run: whether [--verbose] was given. *)
Variable verbose : bool.

(** ** The writer's work on one result *)

(** What the writer has done: the monitor, the counters and the outputs. *)
Record effects := mkEffects {
  health : StationHealthMonitor;
  outputs : env;
  decoded : Z;
  rejected : Z;
  written : Z;
  localApplicationErrors : Z;
  applicationErrors : Z;
}.

Definition set_outputs (w : effects) (o : env) : effects :=
  mkEffects (health w) o (decoded w) (rejected w) (written w) (localApplicationErrors w) (applicationErrors w).

(** A call that may throw, followed by the rest of the body. *)
Definition calling (w : effects) (c : env * option exn) (k : effects -> effects * option exn)
  : effects * option exn :=
  match c with
  | (o, None) => k (set_outputs w o)
  | (o, Some e) => (set_outputs w o, Some e)
  end.

(** [if (transition) logTransition(...)] *)
Definition report (w : effects) (m : StationHealthMonitor) (t : option StationStateTransition)
    (k : effects -> effects * option exn) : effects * option exn :=
  let w := mkEffects m (outputs w) (decoded w) (rejected w) (written w) (localApplicationErrors w) (applicationErrors w) in
  match t with
  | Some t => calling w (log_transition (outputs w) t) k
  | None => k w
  end.

Definition processApplicationPayload (w : effects) (frame : TelemetryFrame)
    (k : effects -> effects * option exn) : effects * option exn :=
  match decodeApplicationPayload (payload frame) with
  | Some (ParsedText m) => calling w (show_message (outputs w) (satelliteId frame) m) k
  | Some (ParsedSignal s) =>
      match processSignal math signalFilter movingAverageWindow s with
      | Some (Ok (filtered, metrics)) =>
          calling w (show_signal (outputs w) (satelliteId frame) s filtered metrics) k
      | Some (Throw e) => (w, Some e)
      | None => k w
      end
  | Some (ParsedError e) =>
      let w := mkEffects (health w) (outputs w) (decoded w) (rejected w) (written w)
                 (localApplicationErrors w + 1) (applicationErrors w) in
      calling w (log_warning (outputs w)
        ("application payload rejected: " +:+ applicationPayloadErrorToString (app_code e) +:+
         " - " +:+ app_message e)) k
  | Some Monostate | None => k w
  end.

(** The body of the inner loop, for the result with the expected sequence. *)
Definition consume (w : effects) (seq : Z) (r : FrameParseResult) : effects * option exn :=
  match r with
  | inl frame =>
      let w := mkEffects (health w) (outputs w) (decoded w + 1) (rejected w) (written w)
                 (localApplicationErrors w) (applicationErrors w) in
      let '(m, t) := recordDecoded show_double (health w) frame in
      report w m t (fun w =>
      processApplicationPayload w frame (fun w =>
      calling w (write_frame (outputs w) frame) (fun w =>
      let w := mkEffects (health w) (outputs w) (decoded w) (rejected w) (written w + 1)
                 (localApplicationErrors w) (applicationErrors w) in
      if verbose then calling w (log_debug (outputs w) seq frame) (fun w => (w, None))
      else (w, None))))
  | inr error =>
      let w := mkEffects (health w) (outputs w) (decoded w) (rejected w + 1) (written w)
                 (localApplicationErrors w) (applicationErrors w) in
      let '(m, t) := recordRejected show_double (health w) in
      report w m t (fun w =>
      calling w (log_warning (outputs w)
        ("rejected seq=" +:+ TextFormat.show_dec seq +:+ ": " +:+ errorCodeToString (code error) +:+
         " - " +:+ message error)) (fun w => (w, None)))
  end.

(** The end of [writerLoop], when nothing is pending. *)
Definition finish (w : effects) : effects * option exn :=
  let w := mkEffects (health w) (outputs w) (decoded w) (rejected w) (written w)
             (localApplicationErrors w) (localApplicationErrors w) in
  calling w (finish_output (outputs w)) (fun w => (w, None)).

(** ** Threads *)

(** [failPipeline], call by call. *)
Inductive failing := Capture | StopRunning | CloseRaw | CloseDecoded.

Definition next_failing (f : failing) : option failing :=
  match f with
  | Capture => Some StopRunning
  | StopRunning => Some CloseRaw
  | CloseRaw => Some CloseDecoded
  | CloseDecoded => None
  end.

(** The main thread: the loop of the receiver, which submits the frames of one read after the
    other, [failPipeline], then [stopWorkers]. *)
Inductive main_thread :=
  | Receiving (rest : list (list bytes))
  | Submitting (read : list bytes) (rest : list (list bytes))
  | MainFailing (f : failing) (e : exn)
  | ClosingRaw
  | JoiningDecoders
  | ClosingDecoded
  | JoiningWriter
  | Done.

Inductive decoder_thread :=
  | Popping
  | Pushing (seq : Z) (r : FrameParseResult)
  | Tracing (seq : Z)
  | DecoderFailing (f : failing) (e : exn)
  | DecoderExited.

Inductive writer_thread :=
  | Waiting
  | Draining
  | Finishing
  | WriterFailing (f : failing) (e : exn)
  | WriterExited (finished : bool).

(** No code depends on the last three: [submitted] are the frames that were put into the raw queue,
    as many as [received_] counts, [lost] the sequences a decoder could not hand over, and
    [interrupted] tells whether a signal asked for the end. *)
Record pipeline := mkPipeline {
  main : main_thread;
  decoders : list decoder_thread;
  writer : writer_thread;
  rawQueue : BlockingQueue (Z * bytes);
  decodedQueue : BlockingQueue (Z * FrameParseResult);
  running : bool;
  error : option exn;
  nextSequence : Z;
  expectedSequence : Z;
  pending : gmap Z FrameParseResult;
  done_work : effects;
  submitted : list bytes;
  lost : list Z;
  interrupted : bool;
}.

(** Where the frames come from: the frames of each turn of the receiving loop (one for a replay file
    or a datagram, those of a whole round of [poll()] for TCP, whose inner loops do not look at the
    running flag), and how the turns end, by themselves or with an exception. *)
Record source := { reads : list (list bytes); ends_with : option exn }.

Definition start (src : source) (capacity decoderThreads : Z) (w : effects) : pipeline :=
  {| main := Receiving (reads src); decoders := replicate (Z.to_nat decoderThreads) Popping;
     writer := Waiting; rawQueue := new_BlockingQueue capacity; decodedQueue := new_BlockingQueue capacity;
     running := true; error := None; nextSequence := 0; expectedSequence := 0; pending := ∅;
     done_work := w; submitted := []; lost := []; interrupted := false |}.

(** What the other threads see of a call of [failPipeline]. *)
Definition fail_effect (f : failing) (e : exn) (s : pipeline) : pipeline :=
  match f with
  | Capture =>
      mkPipeline (main s) (decoders s) (writer s) (rawQueue s) (decodedQueue s) (running s)
        (match error s with Some e => Some e | None => Some e end)
        (nextSequence s) (expectedSequence s) (pending s) (done_work s) (submitted s) (lost s) (interrupted s)
  | StopRunning =>
      mkPipeline (main s) (decoders s) (writer s) (rawQueue s) (decodedQueue s) false (error s)
        (nextSequence s) (expectedSequence s) (pending s) (done_work s) (submitted s) (lost s) (interrupted s)
  | CloseRaw =>
      mkPipeline (main s) (decoders s) (writer s) (close (rawQueue s)) (decodedQueue s) (running s) (error s)
        (nextSequence s) (expectedSequence s) (pending s) (done_work s) (submitted s) (lost s) (interrupted s)
  | CloseDecoded =>
      mkPipeline (main s) (decoders s) (writer s) (rawQueue s) (close (decodedQueue s)) (running s) (error s)
        (nextSequence s) (expectedSequence s) (pending s) (done_work s) (submitted s) (lost s) (interrupted s)
  end.

Definition set_main (m : main_thread) (s : pipeline) : pipeline :=
  mkPipeline m (decoders s) (writer s) (rawQueue s) (decodedQueue s) (running s) (error s)
    (nextSequence s) (expectedSequence s) (pending s) (done_work s) (submitted s) (lost s) (interrupted s).
Definition set_decoder (k : nat) (d : decoder_thread) (s : pipeline) : pipeline :=
  mkPipeline (main s) (<[k := d]> (decoders s)) (writer s) (rawQueue s) (decodedQueue s) (running s)
    (error s) (nextSequence s) (expectedSequence s) (pending s) (done_work s) (submitted s) (lost s) (interrupted s).
Definition set_writer (w : writer_thread) (s : pipeline) : pipeline :=
  mkPipeline (main s) (decoders s) w (rawQueue s) (decodedQueue s) (running s) (error s)
    (nextSequence s) (expectedSequence s) (pending s) (done_work s) (submitted s) (lost s) (interrupted s).
Definition set_raw (q : BlockingQueue (Z * bytes)) (s : pipeline) : pipeline :=
  mkPipeline (main s) (decoders s) (writer s) q (decodedQueue s) (running s) (error s)
    (nextSequence s) (expectedSequence s) (pending s) (done_work s) (submitted s) (lost s) (interrupted s).
Definition set_decoded (q : BlockingQueue (Z * FrameParseResult)) (s : pipeline) : pipeline :=
  mkPipeline (main s) (decoders s) (writer s) (rawQueue s) q (running s) (error s)
    (nextSequence s) (expectedSequence s) (pending s) (done_work s) (submitted s) (lost s) (interrupted s).
Definition set_running (b : bool) (s : pipeline) : pipeline :=
  mkPipeline (main s) (decoders s) (writer s) (rawQueue s) (decodedQueue s) b (error s)
    (nextSequence s) (expectedSequence s) (pending s) (done_work s) (submitted s) (lost s) (interrupted s).
Definition set_pending (x : Z) (p : gmap Z FrameParseResult) (w : effects) (s : pipeline) : pipeline :=
  mkPipeline (main s) (decoders s) (writer s) (rawQueue s) (decodedQueue s) (running s) (error s)
    (nextSequence s) x p w (submitted s) (lost s) (interrupted s).
Definition set_sequence (n : Z) (sub : list bytes) (s : pipeline) : pipeline :=
  mkPipeline (main s) (decoders s) (writer s) (rawQueue s) (decodedQueue s) (running s) (error s)
    n (expectedSequence s) (pending s) (done_work s) sub (lost s) (interrupted s).
Definition lose (seq : Z) (s : pipeline) : pipeline :=
  mkPipeline (main s) (decoders s) (writer s) (rawQueue s) (decodedQueue s) (running s) (error s)
    (nextSequence s) (expectedSequence s) (pending s) (done_work s) (submitted s) (lost s ++ [seq]) (interrupted s).

Definition interrupt (s : pipeline) : pipeline :=
  mkPipeline (main s) (decoders s) (writer s) (rawQueue s) (decodedQueue s) false (error s)
    (nextSequence s) (expectedSequence s) (pending s) (done_work s) (submitted s) (lost s) true.

Definition duplicate_error : exn := runtime_error "duplicate pipeline sequence detected".
Definition gap_error : exn := runtime_error "pipeline closed with a sequence gap in decoded results".

Variable src : source.

(** ** Steps *)

Inductive step : pipeline -> pipeline -> Prop :=
  (* the loop of receiveReplay, runUdp and runTcp *)
  | receive s fs bs :
      main s = Receiving (fs :: bs) -> running s = true -> step s (set_main (Submitting fs bs) s)
  | receive_again s bs : main s = Submitting [] bs -> step s (set_main (Receiving bs) s)
  | receive_stopped s bs :
      main s = Receiving bs -> running s = false -> step s (set_main ClosingRaw s)
  | receive_end s :
      main s = Receiving [] -> running s = true -> ends_with src = None ->
      step s (set_main ClosingRaw (set_running false s))
  | receive_throws s e :
      main s = Receiving [] -> running s = true -> ends_with src = Some e ->
      step s (set_main (MainFailing Capture e) s)
  (* submit *)
  | submit_pushed s f fs bs q :
      main s = Submitting (f :: fs) bs ->
      push (rawQueue s) (nextSequence s, f) = Some (true, q) ->
      step s (set_main (Submitting fs bs)
                (set_raw q (set_sequence (nextSequence s + 1) (submitted s ++ [f]) s)))
  | submit_closed s f fs bs q :
      main s = Submitting (f :: fs) bs ->
      push (rawQueue s) (nextSequence s, f) = Some (false, q) ->
      step s (set_main (Submitting fs bs)
                (set_running false (set_sequence (nextSequence s + 1) (submitted s) s)))
  (* the handler of a signal *)
  | stop_signal s : running s = true -> step s (interrupt s)
  | main_fails s f e :
      main s = MainFailing f e ->
      step s (set_main (match next_failing f with Some f => MainFailing f e | None => ClosingRaw end)
                (fail_effect f e s))
  (* stopWorkers *)
  | close_raw s : main s = ClosingRaw -> step s (set_main JoiningDecoders (set_raw (close (rawQueue s)) s))
  | join_decoders s :
      main s = JoiningDecoders -> Forall (fun d => d = DecoderExited) (decoders s) ->
      step s (set_main ClosingDecoded s)
  | close_decoded s :
      main s = ClosingDecoded -> step s (set_main JoiningWriter (set_decoded (close (decodedQueue s)) s))
  | join_writer s b : main s = JoiningWriter -> writer s = WriterExited b -> step s (set_main Done s)
  (* decoderLoop *)
  | decoder_pops s k i b r q :
      decoders s !! k = Some Popping -> pop (rawQueue s) = Some (Some (i, b), q) ->
      decodeFrame b = Some r -> step s (set_decoder k (Pushing i r) (set_raw q s))
  | decoder_ends s k q :
      decoders s !! k = Some Popping -> pop (rawQueue s) = Some (None, q) ->
      step s (set_decoder k DecoderExited s)
  | decoder_pushes s k i r q :
      decoders s !! k = Some (Pushing i r) -> push (decodedQueue s) (i, r) = Some (true, q) ->
      step s (set_decoder k (if verbose then Tracing i else Popping) (set_decoded q s))
  | decoder_gives_up s k i r q :
      decoders s !! k = Some (Pushing i r) -> push (decodedQueue s) (i, r) = Some (false, q) ->
      step s (set_decoder k DecoderExited (lose i s))
  | decoder_traces s k i :
      decoders s !! k = Some (Tracing i) ->
      step s (set_decoder k (match log_trace k i with Some e => DecoderFailing Capture e | None => Popping end) s)
  | decoder_fails s k f e :
      decoders s !! k = Some (DecoderFailing f e) ->
      step s (set_decoder k (match next_failing f with Some f => DecoderFailing f e | None => DecoderExited end)
                (fail_effect f e s))
  (* writerLoop *)
  | writer_pops s i r q :
      writer s = Waiting -> pop (decodedQueue s) = Some (Some (i, r), q) ->
      step s (match pending s !! i with
              | Some _ => set_writer (WriterFailing Capture duplicate_error) (set_decoded q s)
              | None => set_writer Draining (set_decoded q
                          (set_pending (expectedSequence s) (<[i := r]> (pending s)) (done_work s) s))
              end)
  | writer_consumes s r w o :
      writer s = Draining -> pending s !! expectedSequence s = Some r ->
      consume (done_work s) (expectedSequence s) r = (w, o) ->
      step s (match o with
              | None => set_pending (expectedSequence s + 1) (delete (expectedSequence s) (pending s)) w s
              | Some e => set_writer (WriterFailing Capture e)
                            (set_pending (expectedSequence s) (pending s) w s)
              end)
  | writer_waits s :
      writer s = Draining -> pending s !! expectedSequence s = None -> step s (set_writer Waiting s)
  | writer_ends s q :
      writer s = Waiting -> pop (decodedQueue s) = Some (None, q) ->
      step s (set_writer (if bool_decide (pending s = ∅) then Finishing
                          else WriterFailing Capture gap_error) s)
  | writer_finishes s w o :
      writer s = Finishing -> finish (done_work s) = (w, o) ->
      step s (set_writer (match o with None => WriterExited true | Some e => WriterFailing Capture e end)
                (set_pending (expectedSequence s) (pending s) w s))
  | writer_fails s f e :
      writer s = WriterFailing f e ->
      step s (set_writer (match next_failing f with Some f => WriterFailing f e | None => WriterExited false end)
                (fail_effect f e s)).

(** What [run] does in the end: it throws the recorded error, if any. *)
Definition outcome (s : pipeline) : option (result effects) :=
  match main s with
  | Done => Some (match error s with Some e => Throw e | None => Ok (done_work s) end)
  | _ => None
  end.

(** ** The sequential reference *)

(** The same work by one thread, in the order of the frames, up to the first exception. *)
Fixpoint consume_all (w : effects) (seq : Z) (rs : list FrameParseResult) : effects * option exn :=
  match rs with
  | [] => (w, None)
  | r :: rs => match consume w seq r with
               | (w, None) => consume_all w (seq + 1) rs
               | (w, Some e) => (w, Some e)
               end
  end.

Definition decode_all (fs : list bytes) : option (list FrameParseResult) := mapM decodeFrame fs.

(** The whole run on these frames. *)
Definition run_sequentially (w : effects) (fs : list bytes) : option (effects * option exn) :=
  rs ← decode_all fs;
  Some (match consume_all w 0 rs with
        | (w, None) => finish w
        | (w, Some e) => (w, Some e)
        end).

End Pipeline.
