(* ===== verification/PipelineInvariant.v ===== *)
(** The invariant of the pipeline: where each sequence is, what the queues hold, and which thread
    closed what. Every step keeps it. *)

From S2P Require Import Prelude FrameCodec Floats ApplicationPayload StationHealth BlockingQueue Pipeline.

(** ** Sums over lists *)

Lemma sum_list_with_insert {A} (f : A -> nat) l k x y :
  l !! k = Some x -> (sum_list_with f (<[k := y]> l) + f x = sum_list_with f l + f y)%nat.
Proof.
  intros Hk. rewrite insert_take_drop by (by eapply lookup_lt_Some).
  rewrite <- (take_drop_middle l k x Hk) at 3. rewrite !sum_list_with_app. cbn [sum_list_with]. lia.
Qed.

Lemma sum_list_with_le {A} (f : A -> nat) l k x : l !! k = Some x -> (f x <= sum_list_with f l)%nat.
Proof.
  intros Hk. rewrite <- (take_drop_middle l k x Hk) at 1. rewrite sum_list_with_app. cbn [sum_list_with]. lia.
Qed.

Lemma sum_list_with_zero {A} (f : A -> nat) l :
  Forall (fun x => f x = 0%nat) l -> sum_list_with f l = 0%nat.
Proof. induction 1 as [|x l Hx Hl IH]; cbn; [done|]. by rewrite Hx, IH. Qed.

(** ** Steps *)

Ltac proj := cbn [main decoders writer rawQueue decodedQueue running error nextSequence expectedSequence
  pending done_work submitted lost interrupted set_main set_decoder set_writer set_raw set_decoded
  set_running set_pending set_sequence lose interrupt fail_effect queue closed close capacity] in *.

(** What the operations on the queues say. *)
Ltac queues :=
  repeat match goal with
  | Hp : push _ _ = Some (true, _) |- _ => apply push_true in Hp as [? ->]
  | Hp : push _ _ = Some (false, _) |- _ => apply push_false in Hp as [? ->]
  | Hp : pop _ = Some (Some _, _) |- _ => apply pop_item in Hp as (? & ? & ?)
  | Hp : pop _ = Some (None, _) |- _ => apply pop_end in Hp as (? & ? & ->)
  end.

(** Case analysis of what a step stores. *)
Ltac cases :=
  repeat match goal with
  | f : failing |- _ => destruct f
  | |- context [match ?x with _ => _ end] => destruct x eqn:?
  end.

(** The state by its parts, with what the step knows of them. *)
Ltac take_apart s :=
  destruct s as [m ds wr [rc rq rcl] [dc dq dcl] run er next ex pend work sub lo int];
  cbn [main decoders writer rawQueue decodedQueue running error nextSequence expectedSequence
    pending done_work submitted lost interrupted queue closed capacity] in *;
  simplify_eq/=.

Definition exited (d : decoder_thread) : Prop := d = DecoderExited.

Lemma Exists_insert_exited (k : nat) d (l : list decoder_thread) : Exists exited (<[k := d]> l) -> exited d \/ Exists exited l.
Proof.
  rewrite !Exists_exists. intros (x & Hx & Hex). apply list_elem_of_lookup in Hx as [j Hj].
  apply list_lookup_insert_Some in Hj as [(-> & -> & _)|[_ Hj]]; [by left|right].
  exists x. split; [by eapply list_elem_of_lookup_2|done].
Qed.

Lemma decoder_fails_insert (k j : nat) d (l : list decoder_thread) f e :
  <[k := d]> l !! j = Some (DecoderFailing f e) -> d = DecoderFailing f e \/ l !! j = Some (DecoderFailing f e).
Proof. intros [(-> & -> & _)|[_ Hj]]%list_lookup_insert_Some; auto. Qed.

Lemma all_exited (l : list decoder_thread) (k : nat) d : Forall exited l -> l !! k = Some d -> d = DecoderExited.
Proof. intros Hl Hk. exact (Forall_lookup_1 _ _ _ _ Hl Hk). Qed.

Section Invariant.
Context {env : Type} `{Outputs env}.
Variable verbose : bool.
Variable src : source.

Abbreviation step := (step verbose src).

(** The frames of the source, in the order of the reads. *)
Definition all_frames : list bytes := concat (reads src).

(** ** Where each sequence is *)

Definition here (i j : Z) : nat := if decide (i = j) then 1%nat else 0%nat.
Definition flight (i : Z) (d : decoder_thread) : nat :=
  match d with Pushing j _ => here i j | _ => 0%nat end.
Definition held (i : Z) (m : gmap Z FrameParseResult) : nat :=
  match m !! i with Some _ => 1%nat | None => 0%nat end.

Definition count (s : pipeline (env := env)) (i : Z) : nat :=
  (sum_list_with (fun p => here i p.1) (queue (rawQueue s)) + sum_list_with (flight i) (decoders s) +
   sum_list_with (fun p => here i p.1) (queue (decodedQueue s)) + held i (pending s) +
   sum_list_with (here i) (lost s))%nat.

(** Every sequence given to a frame and not yet consumed is in exactly one place. *)
Record sequences (s : pipeline) : Prop := {
  seq_range : 0 <= expectedSequence s <= size (submitted s);
  seq_count : forall i,
    count s i = if decide (expectedSequence s <= i < size (submitted s)) then 1%nat else 0%nat;
  seq_next : closed (rawQueue s) = false -> nextSequence s = size (submitted s);
}.

(** ** What the queues hold *)

Definition is_frame (sub : list bytes) (i : Z) (b : bytes) : Prop :=
  0 <= i /\ sub !! Z.to_nat i = Some b.
Definition is_result (sub : list bytes) (i : Z) (r : FrameParseResult) : Prop :=
  exists b, is_frame sub i b /\ decodeFrame b = Some r.
Definition carries (sub : list bytes) (d : decoder_thread) : Prop :=
  match d with Pushing i r => is_result sub i r | _ => True end.

Record contents (s : pipeline (env := env)) : Prop := {
  con_raw : Forall (fun p => is_frame (submitted s) p.1 p.2) (queue (rawQueue s));
  con_decoders : Forall (carries (submitted s)) (decoders s);
  con_decoded : Forall (fun p => is_result (submitted s) p.1 p.2) (queue (decodedQueue s));
  con_pending : map_Forall (is_result (submitted s)) (pending s);
}.

(** ** Which thread closed what *)

Definition past_receiving (m : main_thread) : bool :=
  match m with ClosingRaw | JoiningDecoders | ClosingDecoded | JoiningWriter | Done => true | _ => false end.
Definition past_raw (m : main_thread) : bool :=
  match m with JoiningDecoders | ClosingDecoded | JoiningWriter | Done => true | _ => false end.
Definition past_decoders (m : main_thread) : bool :=
  match m with ClosingDecoded | JoiningWriter | Done => true | _ => false end.
Definition past_decoded (m : main_thread) : bool :=
  match m with JoiningWriter | Done => true | _ => false end.

(** What a thread that is at this call of [failPipeline] has done before. *)
Definition failed_until (f : failing) (recorded : option exn) (raw_closed : bool) : Prop :=
  match f with
  | Capture => True
  | StopRunning | CloseRaw => recorded <> None
  | CloseDecoded => recorded <> None /\ raw_closed = true
  end.

Definition writer_ended (w : writer_thread) : bool :=
  match w with Finishing | WriterExited _ => true | _ => false end.

(** The frames that are still to be submitted. *)
Definition remaining (m : main_thread) : list bytes :=
  match m with
  | Receiving bs => concat bs
  | Submitting fs bs => fs ++ concat bs
  | _ => []
  end.

Record control (s : pipeline (env := env)) : Prop := {
  ctl_raw : closed (rawQueue s) = true -> error s <> None \/ past_raw (main s) = true;
  ctl_decoded : closed (decodedQueue s) = true ->
    closed (rawQueue s) = true /\ (error s <> None \/ past_decoded (main s) = true);
  ctl_past_raw : past_raw (main s) = true -> closed (rawQueue s) = true;
  ctl_past_decoders : past_decoders (main s) = true -> Forall exited (decoders s);
  ctl_past_decoded : past_decoded (main s) = true -> closed (decodedQueue s) = true;
  ctl_done : main s = Done -> exists b, writer s = WriterExited b;
  ctl_exited : Exists exited (decoders s) ->
    closed (rawQueue s) = true /\ (error s <> None \/ queue (rawQueue s) = []);
  ctl_lost : lost s <> [] -> error s <> None;
  ctl_main_fails : forall f e, main s = MainFailing f e -> failed_until f (error s) (closed (rawQueue s));
  ctl_decoder_fails : forall k f e, decoders s !! k = Some (DecoderFailing f e) -> failed_until f (error s) (closed (rawQueue s));
  ctl_writer_fails : forall f e, writer s = WriterFailing f e -> failed_until f (error s) (closed (rawQueue s));
  ctl_writer_failed : writer s = WriterExited false -> error s <> None;
  ctl_ended : writer_ended (writer s) = true -> closed (decodedQueue s) = true;
  ctl_finished : writer s = Finishing \/ writer s = WriterExited true ->
    queue (decodedQueue s) = [] /\ pending s = ∅;
  ctl_waiting : writer s = Waiting -> pending s !! expectedSequence s = None;
  ctl_prefix : submitted s `prefix_of` all_frames;
  ctl_open : closed (rawQueue s) = false -> past_receiving (main s) = false ->
    submitted s ++ remaining (main s) = all_frames;
  ctl_complete : error s = None -> interrupted s = false -> submitted s ++ remaining (main s) = all_frames;
  ctl_running : running s = false -> error s <> None \/ interrupted s = true \/ past_receiving (main s) = true;
}.

(** ** Every step keeps them *)

Lemma held_insert i j r m : m !! j = None -> held i (<[j := r]> m) = (held i m + here i j)%nat.
Proof.
  intros Hj. unfold held, here. destruct (decide (i = j)) as [->|].
  - by rewrite lookup_insert_eq, Hj.
  - rewrite lookup_insert_ne by done. lia.
Qed.

Lemma held_delete i j r m : m !! j = Some r -> held i m = (held i (delete j m) + here i j)%nat.
Proof.
  intros Hj. unfold held, here. destruct (decide (i = j)) as [->|].
  - by rewrite lookup_delete_eq, Hj.
  - rewrite lookup_delete_ne by done. lia.
Qed.

Lemma here_self i : here i i = 1%nat.
Proof. unfold here. by rewrite decide_True. Qed.

Lemma here_other i j : i <> j -> here i j = 0%nat.
Proof. unfold here. intros. by rewrite decide_False. Qed.

Lemma held_some i m r : m !! i = Some r -> held i m = 1%nat.
Proof. unfold held. by intros ->. Qed.

(** The sums after the update of a decoder. *)
Ltac counting i :=
  repeat match goal with
  | Hk : decoders ?s !! ?k = Some ?d |- context [<[?k := ?d']> (decoders ?s)] =>
      pose proof (sum_list_with_insert (flight i) (decoders s) k d d' Hk);
      generalize dependent (<[k := d']> (decoders s)); intros
  | Hq : queue ?q = _ :: _ |- _ => rewrite Hq in *
  end;
  rewrite ?sum_list_with_app in *; cbn [sum_list_with flight fst] in *.

Lemma pending_below s i r :
  (forall i, count s i = if decide (expectedSequence s <= i < size (submitted s)) then 1%nat else 0%nat) ->
  pending s !! i = Some r -> expectedSequence s <= i < size (submitted s).
Proof.
  intros Hc Hi. specialize (Hc i). unfold count in Hc. erewrite held_some in Hc by done.
  case_decide; [done|lia].
Qed.

Lemma step_sequences s s' : sequences s -> step s s' -> sequences s'.
Proof.
  intros [Hr Hc Hn] Hstep. destruct Hstep; queues; cases; constructor; proj; try done.
  all: try (intros i'; pose proof (Hc i') as Hi; unfold count in *; proj; counting i'; try lia).
  all: try (intros; rewrite ?size_app, ?size_cons, ?size_nil in *; specialize (Hn ltac:(congruence)); lia).
  - size_lia.
  - specialize (Hn ltac:(done)). rewrite size_app in *. change (size [f]) with 1 in *.
    destruct (decide (i' = nextSequence s)) as [->|]; [rewrite here_self|rewrite here_other by done];
    repeat case_decide; lia.
  - congruence.
  - exfalso. clear i' Hi. specialize (Hc i). unfold count in Hc. counting i.
    erewrite here_self, held_some in Hc by done. case_decide; lia.
  - rewrite held_insert by done. lia.
  - pose proof (pending_below s _ _ Hc ltac:(eassumption)). lia.
  - pose proof (pending_below s _ _ Hc ltac:(eassumption)). erewrite (held_delete i') in Hi by done.
    destruct (decide (i' = expectedSequence s)) as [->|];
    [rewrite here_self in Hi|rewrite here_other in Hi by done]; repeat case_decide; lia.
Qed.

Lemma is_frame_snoc sub f i b : is_frame sub i b -> is_frame (sub ++ [f]) i b.
Proof. intros [? ?]. split; [done|]. by apply lookup_app_l_Some. Qed.

Lemma is_result_snoc sub f i r : is_result sub i r -> is_result (sub ++ [f]) i r.
Proof. intros (b & ? & ?). exists b. split; [by apply is_frame_snoc|done]. Qed.

Lemma carries_snoc sub f d : carries sub d -> carries (sub ++ [f]) d.
Proof. destruct d; try done. apply is_result_snoc. Qed.

Lemma contents_submit s f fs bs q :
  sequences s -> contents s -> closed (rawQueue s) = false ->
  queue q = queue (rawQueue s) ++ [(nextSequence s, f)] ->
  contents (set_main (Submitting fs bs) (set_raw q (set_sequence (nextSequence s + 1) (submitted s ++ [f]) s))).
Proof.
  intros [Hr _ Hn] [C1 C2 C3 C4] Hopen Hq. rewrite Hn in Hq by done. constructor; proj.
  - rewrite Hq. apply Forall_app. split.
    + eapply Forall_impl; [exact C1|]. intros p. apply is_frame_snoc.
    + constructor; [|done]. cbn. split; [size_lia|]. unfold size. rewrite Nat2Z.id.
      by rewrite lookup_app_r, Nat.sub_diag by lia.
  - eapply Forall_impl; [exact C2|]. intros d. apply carries_snoc.
  - eapply Forall_impl; [exact C3|]. intros p. apply is_result_snoc.
  - eapply map_Forall_impl; [exact C4|]. intros i r. apply is_result_snoc.
Qed.

Lemma step_contents s s' : sequences s -> contents s -> step s s' -> contents s'.
Proof.
  intros HS HC Hstep. pose proof HC as [C1 C2 C3 C4].
  destruct Hstep; queues;
    repeat match goal with
    | Hq : queue ?q = _ :: _, HF : Forall _ (queue ?q) |- _ =>
        rewrite Hq in HF; apply Forall_cons in HF as [? HF]
    | Hk : decoders ?s !! _ = Some _, HF : Forall _ (decoders ?s) |- _ =>
        let Hd := fresh in pose proof (Forall_lookup_1 _ _ _ _ HF Hk) as Hd; cbn in Hd; clear Hk
    end.
  all: try by (eapply contents_submit; eauto).
  all: cases; constructor; proj; try done.
  all: try (apply Forall_insert; [done|]; try done).
  all: try (apply Forall_app; split; [done|]; by constructor).
  all: try by apply map_Forall_insert_2.
  all: try by apply map_Forall_delete.
  by exists b.
Qed.

Lemma failed_until_later f r r' c c' :
  failed_until f r c -> (r <> None -> r' <> None) -> (c = true -> c' = true) -> failed_until f r' c'.
Proof. destruct f; cbn; tauto. Qed.

Ltac settle :=
  intros; simplify_eq/=;
  repeat match goal with
  | Hd : Exists exited (<[_ := _]> _) |- _ => apply Exists_insert_exited in Hd as [Hd|Hd]
  | Hd : <[_ := _]> _ !! _ = Some (DecoderFailing _ _) |- _ =>
      apply decoder_fails_insert in Hd as [Hd|Hd]; simplify_eq/=
  | Hd : exited _ |- _ => discriminate Hd
  | Hf : forall f e, ?x = ?k f e -> _, He : ?x = ?k _ _ |- _ => apply Hf in He
  | Hf : forall k f e, _ !! k = Some _ -> _, He : _ !! _ = Some (DecoderFailing _ _) |- _ => apply Hf in He
  end;
  repeat match goal with
  | Hf : forall f e, ?k ?f0 ?e0 = ?k f e -> _ |- _ => specialize (Hf _ _ eq_refl)
  | Hd : Done = Done -> _ |- _ => destruct (Hd eq_refl) as [? ?]; clear Hd; simplify_eq/=
  end;
  cbn [failed_until] in *;
  try match goal with
  | Hf : failed_until ?f _ _ |- failed_until ?f _ _ => eapply failed_until_later; [exact Hf| |]; clear Hf
  end.

Lemma live_error m (er : option exn) ds (k : nat) i r :
  (past_decoders m = true -> Forall exited ds) -> ds !! k = Some (Pushing i r) ->
  er <> None \/ past_decoded m = true -> er <> None.
Proof.
  intros Hall Hk [?|Hm]; [done|]. eapply all_exited in Hk; [done|]. apply Hall. by destruct m.
Qed.

Lemma step_control s s' : sequences s -> control s -> step s s' -> control s'.
Proof.
  intros HS HC Hstep. pose proof HC as [].
  destruct Hstep; queues; cases; take_apart s; constructor; proj; try done.
  all: try (intros Hall%ctl_past_decoders0; eapply all_exited in Hall; [|by eauto]; discriminate Hall).
  all: settle; try done; eauto.
  all: try (destruct er; intuition (try done); fail).
  all: try (exfalso; intuition (try done); fail).
  all: try (destruct_or?; simplify_eq/=; discriminate ctl_ended0; done).
  all: try (rewrite <- app_assoc; by apply ctl_open0).
  - exists (fs ++ concat bs). rewrite <- app_assoc. symmetry. by apply ctl_open0.
  - destruct ctl_decoded0 as [? He]; [done|]. split; [done|left]. by eapply live_error.
  - destruct ctl_decoded0 as [? He]; [done|]. by eapply live_error.
  - split; [done|]. by apply bool_decide_eq_true in Heqb.
Qed.

End Invariant.
