(* ===== verification/PipelineSpec.v ===== *)
(** What the pipeline promises, for every interleaving of its threads, every number of decoders and
    every capacity of its queues: its run is the sequential one, its errors come from outside, it
    ends, and its queues are bounded. *)

From S2P Require Import Prelude FrameCodec Floats ApplicationPayload StationHealth BlockingQueue Pipeline PipelineInvariant.

Section Spec.
Context {env : Type} `{Outputs env}.
Variable verbose : bool.
Variable src : source.
Variable start_effects : effects (env := env).

Abbreviation step := (step verbose src).
Abbreviation consume_all := (consume_all verbose).
Abbreviation all_frames := (all_frames src).
Abbreviation control := (control src).

(** ** What the writer has done *)

Abbreviation run_sequentially := (run_sequentially verbose start_effects).

(** An error the pipeline did not make up: the source of the frames ended with it, a trace threw it,
    or the sequential run on a beginning of the frames does. *)
Definition external (e : exn) : Prop :=
  ends_with src = Some e \/ (exists k i, log_trace k i = Some e) \/
  exists fs w, fs `prefix_of` all_frames /\ run_sequentially fs = Some (w, Some e).

Definition consumed (s : pipeline (env := env)) : list bytes :=
  take (Z.to_nat (expectedSequence s)) (submitted s).

(** The state of the outputs is the one of a sequential run on a beginning of the frames. *)
Definition sequential (w : effects) : Prop :=
  exists fs, fs `prefix_of` all_frames /\
    ((exists rs, decode_all fs = Some rs /\ consume_all start_effects 0 rs = (w, None)) \/
     exists o, run_sequentially fs = Some (w, o)).

Record work (s : pipeline) : Prop := {
  wk_running : match writer s with Waiting | Draining | Finishing => True | _ => False end ->
    exists rs, decode_all (consumed s) = Some rs /\
               consume_all start_effects 0 rs = (done_work s, None);
  wk_finished : writer s = WriterExited true -> run_sequentially (consumed s) = Some (done_work s, None);
  wk_sequential : sequential (done_work s);
  wk_error : forall e, error s = Some e -> external e;
  wk_main : forall f e, main s = MainFailing f e -> external e;
  wk_decoders : forall k f e, decoders s !! k = Some (DecoderFailing f e) -> external e;
  wk_writer : forall f e, writer s = WriterFailing f e -> external e \/ error s <> None;
}.

Lemma consume_all_snoc w seq rs r :
  consume_all w seq (rs ++ [r]) =
  match consume_all w seq rs with
  | (w, None) => consume verbose w (seq + size rs) r
  | (w, Some e) => (w, Some e)
  end.
Proof.
  revert w seq. induction rs as [|r' rs IH]; intros w seq; cbn [app Pipeline.consume_all].
  - rewrite Z.add_0_r. by destruct (consume _ _ _ _) as [w' [e|]].
  - destruct (consume _ _ _ _) as [w' [e|]]; [done|]. rewrite IH.
    replace (seq + 1 + size rs) with (seq + size (r' :: rs)) by size_lia. done.
Qed.

Lemma decode_all_snoc fs rs b r :
  decode_all fs = Some rs -> decodeFrame b = Some r -> decode_all (fs ++ [b]) = Some (rs ++ [r]).
Proof.
  unfold decode_all. intros Hfs Hb. apply mapM_Some in Hfs. apply mapM_Some.
  apply Forall2_app; [done|]. by repeat constructor.
Qed.

Lemma decode_all_size fs rs : decode_all fs = Some rs -> size rs = size fs.
Proof. intros Hfs%length_mapM. unfold size. by rewrite Hfs. Qed.

Lemma consumed_snoc s b :
  sequences s -> is_frame (submitted s) (expectedSequence s) b ->
  take (Z.to_nat (expectedSequence s + 1)) (submitted s) = consumed s ++ [b].
Proof.
  intros [Hr _ _] [? Hb]. unfold consumed.
  replace (Z.to_nat (expectedSequence s + 1)) with (S (Z.to_nat (expectedSequence s))) by lia.
  by apply take_S_r.
Qed.

Lemma consumed_prefix s : control s -> consumed s `prefix_of` all_frames.
Proof. intros HC. etrans; [|apply HC]. apply prefix_take. Qed.

Lemma consumed_next (s : pipeline (env := env)) :
  control s -> take (Z.to_nat (expectedSequence s + 1)) (submitted s) `prefix_of` all_frames.
Proof. intros HC. etrans; [|apply HC]. apply prefix_take. Qed.

Lemma consumed_submit s f :
  sequences s -> take (Z.to_nat (expectedSequence s)) (submitted s ++ [f]) = consumed s.
Proof. intros [Hr _ _]. apply take_app_le. unfold size in Hr. lia. Qed.

(** The next result is the one of the next frame: consuming it is the next turn of the reference. *)
Lemma work_consume s r w o :
  sequences s -> contents s -> work s -> writer s = Draining ->
  pending s !! expectedSequence s = Some r ->
  consume verbose (done_work s) (expectedSequence s) r = (w, o) ->
  exists b rs, take (Z.to_nat (expectedSequence s + 1)) (submitted s) = consumed s ++ [b] /\
    decode_all (consumed s ++ [b]) = Some rs /\ consume_all start_effects 0 rs = (w, o).
Proof.
  intros HS HC HW Hd Hp Hr. destruct (con_pending s HC _ _ Hp) as (b & Hb & Hdec).
  destruct (wk_running s HW) as (rs & Hrs & Hall); [by rewrite Hd|].
  exists b, (rs ++ [r]). split; [by apply consumed_snoc|]. split; [by apply decode_all_snoc|].
  rewrite consume_all_snoc, Hall, (decode_all_size _ _ Hrs).
  replace (0 + size (consumed s)) with (expectedSequence s); [done|].
  unfold consumed. destruct HS as [Hr' _ _]. rewrite size_take. lia.
Qed.

Lemma sequential_result fs w o :
  fs `prefix_of` all_frames -> run_sequentially fs = Some (w, o) -> sequential w.
Proof. intros Hp Hr. exists fs. split; [done|right]. by exists o. Qed.

Lemma sequential_running fs rs w :
  fs `prefix_of` all_frames -> decode_all fs = Some rs -> consume_all start_effects 0 rs = (w, None) ->
  sequential w.
Proof. intros Hp Hrs Hc. exists fs. split; [done|left]. by exists rs. Qed.

Lemma run_throws fs rs w e :
  decode_all fs = Some rs -> consume_all start_effects 0 rs = (w, Some e) ->
  run_sequentially fs = Some (w, Some e).
Proof. unfold Pipeline.run_sequentially. intros -> Hc. cbn. by rewrite Hc. Qed.

Lemma run_finishes fs rs w w' o :
  decode_all fs = Some rs -> consume_all start_effects 0 rs = (w, None) -> finish w = (w', o) ->
  run_sequentially fs = Some (w', o).
Proof. unfold Pipeline.run_sequentially. intros -> Hc Hf. cbn. by rewrite Hc, Hf. Qed.

Lemma external_source e : ends_with src = Some e -> external e.
Proof. by left. Qed.

Lemma external_trace (k : nat) i e : log_trace k i = Some e -> external e.
Proof. right. left. by exists k, i. Qed.

Lemma external_run fs w e :
  fs `prefix_of` all_frames -> run_sequentially fs = Some (w, Some e) -> external e.
Proof. right. right. by exists fs, w. Qed.

(** Without an error, once the queue of the results is closed and drained what was not consumed is
    pending. *)
Lemma drained_count (s : pipeline (env := env)) i :
  control s -> decoders s <> [] -> error s = None ->
  queue (decodedQueue s) = [] -> closed (decodedQueue s) = true -> count s i = held i (pending s).
Proof.
  intros HC Hne He Hq Hcl.
  destruct (ctl_decoded _ _ HC Hcl) as [Hraw [?|Hm]]; [done|].
  assert (Hall : Forall exited (decoders s)) by (apply (ctl_past_decoders _ _ HC); by destruct (main s)).
  assert (Hrq : queue (rawQueue s) = []).
  { destruct (ctl_exited _ _ HC) as [_ [?|?]]; [|done|done].
    destruct (decoders s) as [|d ds]; [done|]. apply Forall_cons in Hall as [? _]. by left. }
  assert (Hlost : lost s = []).
  { destruct (lost s) eqn:Hl; [done|]. exfalso. by apply (ctl_lost _ _ HC); [rewrite Hl|]. }
  unfold count. rewrite Hq, Hrq, Hlost, (sum_list_with_zero (flight _)); [cbn; lia|].
  eapply Forall_impl; [exact Hall|]. by intros d ->.
Qed.

(** A gap at the end of the queue is the trace of an error recorded before. *)
Lemma gap_recorded (s : pipeline (env := env)) :
  sequences s -> control s -> decoders s <> [] -> writer s = Waiting ->
  queue (decodedQueue s) = [] -> closed (decodedQueue s) = true -> pending s <> ∅ -> error s <> None.
Proof.
  intros HS HC Hne Hw Hq Hcl Hp He. apply map_choose in Hp as (i & r & Hi).
  destruct (pending_below s i r (seq_count s HS) Hi) as [Hlo Hhi].
  pose proof (seq_count s HS (expectedSequence s)) as Hc.
  rewrite drained_count in Hc by done. unfold held in Hc. rewrite (ctl_waiting _ _ HC Hw) in Hc.
  rewrite decide_True in Hc by lia. done.
Qed.

Lemma never_duplicate (s : pipeline (env := env)) i r q r' :
  sequences s -> queue (decodedQueue s) = (i, r) :: q -> pending s !! i <> Some r'.
Proof.
  intros HS Hq Hp. pose proof (seq_count s HS i) as Hc. unfold count in Hc. rewrite Hq in Hc.
  cbn [sum_list_with fst] in Hc. erewrite here_self, held_some in Hc by done. case_decide; lia.
Qed.

(** The facts about the writer's work that a step needs. *)
Ltac writer_facts s :=
  try match goal with
  | Hd : writer s = Draining, Hp : pending s !! _ = Some ?r, Hr : consume _ _ _ ?r = _ |- _ =>
      destruct (work_consume s r _ _ ltac:(done) ltac:(done) ltac:(done) Hd Hp Hr) as (? & ? & Hcons & ? & ?);
      pose proof (consumed_next s ltac:(done)) as Hnext; rewrite Hcons in Hnext
  | Hd : writer s = Finishing, Hf : finish _ = _, HW : work s |- _ =>
      destruct (wk_running s HW ltac:(by rewrite Hd)) as (? & Hrs & Hc);
      pose proof (run_finishes _ _ _ _ _ Hrs Hc Hf)
  | Hd : writer s = Waiting, Hq : queue (decodedQueue s) = [] |- _ =>
      pose proof (gap_recorded s ltac:(done) ltac:(done) ltac:(done) Hd Hq ltac:(done))
  | Hq : queue (decodedQueue s) = (?i, _) :: _, HS : sequences s |- _ =>
      pose proof (fun r' => never_duplicate s i _ _ r' HS Hq)
  end.

Lemma step_work (s s' : pipeline (env := env)) :
  sequences s -> contents s -> control s -> decoders s <> [] -> work s -> step s s' -> work s'.
Proof.
  intros HS HC HK Hne HW Hstep. pose proof HW as [].
  pose proof (consumed_prefix s HK) as Hpre. pose proof (fun f => consumed_submit s f HS) as Hsub.
  destruct Hstep; queues; writer_facts s; cases; unfold consumed in *; clear HS HC HK HW; take_apart s;
    constructor; unfold consumed; proj; rewrite ?Hsub; try done.
  all: intros; simplify_eq/=;
    repeat match goal with
    | Hd : <[_ := _]> _ !! _ = Some (DecoderFailing _ _) |- _ =>
        apply decoder_fails_insert in Hd as [Hd|Hd]; simplify_eq/=
    | Hf : forall f e, ?k ?f0 ?e0 = ?k f e -> _ |- _ => specialize (Hf _ _ eq_refl)
    end.
  all: eauto 6.
  all: try match goal with Hv : verbose = _ |- _ => rewrite Hv; by eauto end.
  all: try (destruct er; simplify_eq/=; eauto 6; fail).
  all: try match goal with Hn : forall r', Some _ <> Some r' |- _ => by destruct (Hn _ eq_refl) end.
  all: eauto using sequential_result, sequential_running, run_throws,
         external_source, external_trace, external_run.
  - rewrite Hcons. by eauto.
  - right. apply H3. by apply bool_decide_eq_false in Heqb.
  - destruct er as [e1|]; simplify_eq/=; [by apply wk_error0|]. by destruct wk_writer0.
Qed.

(** ** Reachable states *)

Variables capacity decoderThreads : Z.
Hypothesis Hdecoders : 0 < decoderThreads.

Definition reachable (s : pipeline) : Prop :=
  rtc step (start src capacity decoderThreads start_effects) s.

Record invariant (s : pipeline) : Prop := {
  inv_decoders : decoders s <> [];
  inv_sequences : sequences s;
  inv_contents : contents s;
  inv_control : control s;
  inv_work : work s;
}.

Lemma step_decoders (s s' : pipeline) : step s s' -> length (decoders s') = length (decoders s).
Proof. destruct 1; cases; proj; by rewrite ?length_insert. Qed.

Lemma start_idle n : Forall (fun d => d = Popping) (replicate n Popping).
Proof. by apply Forall_replicate. Qed.

Lemma start_not_exited n : ~ Exists exited (replicate n Popping).
Proof. intros [d [Hd Hex]]%Exists_exists. apply elem_of_replicate in Hd as [-> _]. done. Qed.

Lemma start_invariant : invariant (start src capacity decoderThreads start_effects).
Proof using Hdecoders.
  constructor; [..|constructor|constructor|constructor|constructor]; cbn; try done.
  all: intros; try lia.
  - destruct (Z.to_nat decoderThreads) eqn:?; [lia|done].
  - unfold count. cbn. rewrite sum_list_with_zero; [case_decide; [size_lia|done]|].
    eapply Forall_impl; [apply start_idle|]. by intros d ->.
  - eapply Forall_impl; [apply start_idle|]. by intros d ->.
  - exfalso. by eapply start_not_exited.
  - match goal with Hk : _ !! _ = Some _ |- _ => by apply lookup_replicate in Hk as [? _] end.
  - apply prefix_nil.
  - by exists [].
  - exists []. split; [apply prefix_nil|left]. by exists [].
  - match goal with Hk : _ !! _ = Some _ |- _ => by apply lookup_replicate in Hk as [? _] end.
Qed.

Lemma step_invariant s s' : invariant s -> step s s' -> invariant s'.
Proof.
  intros [] Hstep. constructor; eauto using step_sequences, step_contents, step_control, step_work.
  apply step_decoders in Hstep. by destruct (decoders s), (decoders s').
Qed.

Lemma reachable_invariant s : reachable s -> invariant s.
Proof using Hdecoders.
  revert s. apply (rtc_ind_r invariant); [apply start_invariant|].
  intros s s' _ Hstep Hs. by eapply step_invariant.
Qed.

Lemma outcome_ok s w :
  reachable s -> outcome s = Some (Ok w) ->
  run_sequentially (submitted s) = Some (w, None) /\ submitted s `prefix_of` all_frames /\
  (interrupted s = false -> submitted s = all_frames).
Proof using Hdecoders.
  intros [Hne HS _ HC HW]%reachable_invariant Ho. unfold outcome in Ho.
  destruct (main s) eqn:Hm; try done. destruct (error s) as [e|] eqn:He; [done|]. injection Ho as <-.
  destruct (ctl_done _ _ HC Hm) as [[] Hw]; [|by destruct (ctl_writer_failed _ _ HC Hw)].
  destruct (ctl_finished _ _ HC) as [Hq Hp]; [by right|].
  assert (Hcl : closed (decodedQueue s) = true) by (apply (ctl_ended _ _ HC); by rewrite Hw).
  assert (Hall : consumed s = submitted s).
  { pose proof (seq_count s HS (expectedSequence s)) as Hc. pose proof (seq_range s HS) as Hr.
    rewrite drained_count, Hp in Hc by done. unfold consumed. apply take_ge.
    unfold size in *. cbn in Hc. case_decide; [done|lia]. }
  split; [rewrite <- Hall; by apply HW|]. split; [apply HC|].
  intros Hi. pose proof (ctl_complete _ _ HC He Hi) as Hall'. by rewrite Hm, app_nil_r in Hall'.
Qed.

Lemma error_external s e : reachable s -> error s = Some e -> external e.
Proof using Hdecoders. intros [_ _ _ _ HW]%reachable_invariant. apply HW. Qed.

Lemma work_sequential s : reachable s -> sequential (done_work s).
Proof using Hdecoders. intros [_ _ _ _ HW]%reachable_invariant. apply HW. Qed.

End Spec.
