(* ===== verification/PipelineProgress.v ===== *)
(** The pipeline ends: a measure falls with every step of any thread, and a state in which no thread
    can go on is the end. The capacities of the queues are kept. *)

From S2P Require Import Prelude FrameCodec Floats ApplicationPayload StationHealth BlockingQueue Pipeline PipelineInvariant PipelineSpec.

(** ** The measure *)

Section Measure.
Context {env : Type} `{Outputs env}.
Variable verbose : bool.
Variable src : source.

Definition failing_weight (f : failing) : nat :=
  match f with Capture => 4 | StopRunning => 3 | CloseRaw => 2 | CloseDecoded => 1 end.

Definition frames_weight (fs : list bytes) : nat := sum_list_with (fun _ => 9%nat) fs.
Definition reads_weight (bs : list (list bytes)) : nat :=
  sum_list_with (fun fs => 2 + frames_weight fs)%nat bs.

Definition main_weight (m : main_thread) : nat :=
  match m with
  | Receiving bs => 20 + reads_weight bs
  | Submitting fs bs => 21 + frames_weight fs + reads_weight bs
  | MainFailing f _ => 5 + failing_weight f
  | ClosingRaw => 5 | JoiningDecoders => 4 | ClosingDecoded => 3 | JoiningWriter => 2 | Done => 0
  end%nat.

Definition decoder_weight (d : decoder_thread) : nat :=
  match d with
  | Popping => 5 | Pushing _ _ => 10 | Tracing _ => 6
  | DecoderFailing f _ => failing_weight f | DecoderExited => 0
  end.

Definition writer_weight (w : writer_thread) : nat :=
  match w with
  | Waiting => 6 | Draining => 7 | Finishing => 5
  | WriterFailing f _ => failing_weight f | WriterExited _ => 0
  end.

Definition measure (s : pipeline (env := env)) : nat :=
  (main_weight (main s) + sum_list_with decoder_weight (decoders s) + writer_weight (writer s) +
   6 * length (queue (rawQueue s)) + 3 * length (queue (decodedQueue s)) +
   base.size (pending s) + (if running s then 1 else 0))%nat.

Lemma size_delete i r (m : gmap Z FrameParseResult) :
  m !! i = Some r -> base.size m = S (base.size (delete i m)).
Proof.
  intros Hi. rewrite <- (insert_delete_id m i r Hi) at 1.
  by rewrite map_size_insert_None by apply lookup_delete_eq.
Qed.

Lemma step_measure s s' : step verbose src s s' -> (measure s' < measure s)%nat.
Proof.
  destruct 1; queues; cases; unfold measure; take_apart s; proj; rewrite ?length_app; cbn [length].
  all: repeat match goal with
    | Hk : ?ds !! ?k = Some ?d |- context [<[?k := ?d']> ?ds] =>
        pose proof (sum_list_with_insert decoder_weight ds k d d' Hk);
        generalize dependent (<[k := d']> ds); intros
    end.
  all: cbn [main_weight decoder_weight writer_weight failing_weight length sum_list_with reads_weight
            frames_weight] in *; try lia.
  - rewrite map_size_insert_None by done. lia.
  - rewrite (size_delete _ _ _ ltac:(eassumption)). lia.
Qed.

End Measure.

(** ** Progress *)

#[export] Instance exited_dec d : Decision (exited d).
Proof. unfold exited. destruct d; (by left) || (right; discriminate). Defined.

Section Progress.
Context {env : Type} `{Outputs env}.
Variable verbose : bool.
Variable src : source.

Abbreviation step := (step verbose src).

Definition capacities (cap : Z) (s : pipeline (env := env)) : Prop :=
  (capacity (rawQueue s) = cap /\ bounded (rawQueue s)) /\
  (capacity (decodedQueue s) = cap /\ bounded (decodedQueue s)).

Lemma push_keeps {T} (q q' : BlockingQueue T) v b cap :
  push q v = Some (b, q') -> capacity q = cap /\ bounded q -> capacity q' = cap /\ bounded q'.
Proof.
  intros Hp [Hc Hb]. split; [|by eapply push_bounded]. destruct b; [apply push_true in Hp as [_ ->]|
  apply push_false in Hp as [_ ->]]; done.
Qed.

Lemma pop_keeps {T} (q q' : BlockingQueue T) o cap :
  pop q = Some (o, q') -> capacity q = cap /\ bounded q -> capacity q' = cap /\ bounded q'.
Proof.
  intros Hp [Hc Hb]. split; [|by eapply pop_bounded]. destruct o; [apply pop_item in Hp as (_ & _ & ->)|
  apply pop_end in Hp as (_ & _ & ->)]; done.
Qed.

Lemma step_capacities cap s s' : capacities cap s -> step s s' -> capacities cap s'.
Proof.
  intros [Hr Hd]. destruct 1; cases; split; proj; eauto using push_keeps, pop_keeps.
Qed.

Lemma reachable_capacities cap n w s :
  0 <= cap -> rtc step (start src cap n w) s -> capacities cap s.
Proof.
  intros Hcap. revert s. apply (rtc_ind_r (capacities cap)).
  - assert (Hb : forall T, bounded (@new_BlockingQueue T cap)).
    { intros T. destruct (decide (cap = 0)); [by left|right]. cbn. by rewrite size_nil. }
    by split; split.
  - intros s s' _ Hstep Hs. by eapply step_capacities.
Qed.

(** Every frame is made of bytes: decoding it never reads outside. *)
Hypothesis Hframes : Forall bytes_ok (all_frames src).

Context (s : pipeline (env := env)).
Hypothesis HC : control src s.
Hypothesis Hcon : contents s.
Hypothesis Hne : decoders s <> [].
Hypothesis Hcap : 0 <= capacity (decodedQueue s).

Lemma writer_moves :
  queue (decodedQueue s) <> [] \/ closed (decodedQueue s) = true ->
  (forall b, writer s <> WriterExited b) -> exists s', step s s'.
Proof using HC.
  intros Hq Hw. destruct (writer s) as [| | |f e|b] eqn:He; [| | | |by destruct (Hw b)].
  - destruct (pop (decodedQueue s)) as [[[[i r]|] q]|] eqn:Hp.
    + eexists. by eapply writer_pops.
    + eexists. by eapply writer_ends.
    + apply pop_waits in Hp as [? ?]. destruct Hq; congruence.
  - destruct (pending s !! expectedSequence s) as [r|] eqn:Hp.
    + destruct (consume verbose (done_work s) (expectedSequence s) r) as [w o] eqn:Hc.
      eexists. by eapply writer_consumes.
    + eexists. by eapply writer_waits.
  - destruct (finish (done_work s)) as [w o] eqn:Hf. eexists. by eapply writer_finishes.
  - eexists. by eapply writer_fails.
Qed.

Lemma decoder_moves k d :
  decoders s !! k = Some d -> d <> DecoderExited ->
  queue (rawQueue s) <> [] \/ closed (rawQueue s) = true -> exists s', step s s'.
Proof using Hframes HC Hcon Hcap.
  intros Hk Hd Hq. destruct d as [|i r|i|f e|]; [| | | |done].
  - destruct (pop (rawQueue s)) as [[[[i b]|] q]|] eqn:Hp.
    + assert (Hb : is_Some (decodeFrame b)).
      { apply decodeFrame_is_Some. pose proof (con_raw s Hcon) as Hraw.
        apply pop_item in Hp as (Hq' & _ & _). rewrite Hq' in Hraw. apply Forall_cons in Hraw as [[_ Hb] _].
        eapply Forall_lookup_1; [exact Hframes|]. eapply prefix_lookup_Some; [exact Hb|]. apply HC. }
      destruct Hb as [r Hr]. eexists. by eapply decoder_pops.
    + eexists. by eapply decoder_ends.
    + apply pop_waits in Hp as [? ?]. destruct Hq; congruence.
  - destruct (push (decodedQueue s) (i, r)) as [[[] q]|] eqn:Hp.
    + eexists. by eapply decoder_pushes.
    + eexists. by eapply decoder_gives_up.
    + apply push_waits in Hp as [[Ho Hfull]|?]; [|lia]. apply writer_moves; [by left|].
      intros b Hw. pose proof (ctl_ended _ _ HC). rewrite Hw in *. cbn in *. intuition congruence.
  - eexists. by eapply decoder_traces.
  - eexists. by eapply decoder_fails.
Qed.

Lemma decoders_move :
  queue (rawQueue s) <> [] /\ closed (rawQueue s) = false \/ 
  closed (rawQueue s) = true /\ ~ Forall exited (decoders s) -> exists s', step s s'.
Proof using Hframes HC Hcon Hcap Hne.
  intros [[Hq Ho]|[Hcl Hlive]].
  - destruct (decoders s) as [|d ds] eqn:Hds; [done|].
    apply (decoder_moves 0 d); [by rewrite Hds| |by left].
    intros ->. destruct (ctl_exited _ _ HC) as [? _]; [|congruence]. rewrite Hds. by left.
  - apply not_Forall_Exists in Hlive; [|apply _].
    apply Exists_exists in Hlive as (d & Hin & Hd). apply list_elem_of_lookup in Hin as [k Hk].
    apply (decoder_moves k d); [done|done|by right].
Qed.

Lemma main_moves : 0 <= capacity (rawQueue s) -> main s <> Done -> exists s', step s s'.
Proof using Hframes HC Hcon Hcap Hne.
  intros Hcap' Hm. destruct (main s) as [bs|fs bs|f e| | | | |] eqn:He; [..|done].
  - destruct (running s) eqn:Hr.
    + destruct bs as [|fs bs].
      * destruct (ends_with src) eqn:Hends; eexists; [by eapply receive_throws|by eapply receive_end].
      * eexists. by eapply receive.
    + eexists. by eapply receive_stopped.
  - destruct fs as [|f fs]; [eexists; by eapply receive_again|].
    destruct (push (rawQueue s) (nextSequence s, f)) as [[[] q]|] eqn:Hp.
    + eexists. by eapply submit_pushed.
    + eexists. by eapply submit_closed.
    + apply push_waits in Hp as [[? ?]|?]; [|lia]. apply decoders_move. by left.
  - eexists. by eapply main_fails.
  - eexists. by eapply close_raw.
  - destruct (decide (Forall exited (decoders s))) as [Hall|Hlive].
    + eexists. by eapply join_decoders.
    + apply decoders_move. right. split; [|done]. apply (ctl_past_raw _ _ HC). by rewrite He.
  - eexists. by eapply close_decoded.
  - destruct (writer s) as [| | |f e|b] eqn:Hw.
    5: { eexists. by eapply join_writer. }
    all: apply writer_moves; [right; apply (ctl_past_decoded _ _ HC); by rewrite He|by rewrite Hw].
Qed.

End Progress.
