(* ===== verification/PipelineGuarantees.v ===== *)
(** The guarantees of the pipeline, with a scheduler that runs it on concrete inputs. *)

From S2P Require Import Prelude ByteUtils FrameCodec Floats ApplicationPayload SignalProcessing StationHealth BlockingQueue Pipeline PipelineInvariant PipelineSpec PipelineProgress.

(** ** Schedules *)

(** Which thread goes on. *)
Inductive thread := TMain | TDecoder (k : nat) | TWriter.

Section Schedule.
Context {env : Type} `{Outputs env}.
Variable verbose : bool.
Variable src : source.

Definition turn_main (s : pipeline (env := env)) : option pipeline :=
  match main s with
  | Receiving (fs :: bs) =>
      Some (set_main (if running s then Submitting fs bs else ClosingRaw) s)
  | Receiving [] =>
      Some (if running s then
              match ends_with src with
              | None => set_main ClosingRaw (set_running false s)
              | Some e => set_main (MainFailing Capture e) s
              end
            else set_main ClosingRaw s)
  | Submitting [] bs => Some (set_main (Receiving bs) s)
  | Submitting (f :: fs) bs =>
      '(ok, q) ← push (rawQueue s) (nextSequence s, f);
      Some (set_main (Submitting fs bs)
        (if (ok : bool) then set_raw q (set_sequence (nextSequence s + 1) (submitted s ++ [f]) s)
         else set_running false (set_sequence (nextSequence s + 1) (submitted s) s)))
  | MainFailing f e =>
      Some (set_main (match next_failing f with Some f => MainFailing f e | None => ClosingRaw end)
              (fail_effect f e s))
  | ClosingRaw => Some (set_main JoiningDecoders (set_raw (close (rawQueue s)) s))
  | JoiningDecoders =>
      if decide (Forall exited (decoders s)) then Some (set_main ClosingDecoded s) else None
  | ClosingDecoded => Some (set_main JoiningWriter (set_decoded (close (decodedQueue s)) s))
  | JoiningWriter =>
      match writer s with WriterExited _ => Some (set_main Done s) | _ => None end
  | Done => None
  end.

Definition turn_decoder (k : nat) (s : pipeline (env := env)) : option pipeline :=
  d ← decoders s !! k;
  match d with
  | Popping =>
      '(o, q) ← pop (rawQueue s);
      match o with
      | Some (i, b) => r ← decodeFrame b; Some (set_decoder k (Pushing i r) (set_raw q s))
      | None => Some (set_decoder k DecoderExited s)
      end
  | Pushing i r =>
      '(ok, q) ← push (decodedQueue s) (i, r);
      Some (if (ok : bool) then set_decoder k (if verbose then Tracing i else Popping) (set_decoded q s)
            else set_decoder k DecoderExited (lose i s))
  | Tracing i =>
      Some (set_decoder k (match log_trace k i with Some e => DecoderFailing Capture e | None => Popping end) s)
  | DecoderFailing f e =>
      Some (set_decoder k (match next_failing f with Some f => DecoderFailing f e | None => DecoderExited end)
              (fail_effect f e s))
  | DecoderExited => None
  end.

Definition turn_writer (s : pipeline (env := env)) : option pipeline :=
  match writer s with
  | Waiting =>
      '(o, q) ← pop (decodedQueue s);
      Some (match o with
            | Some (i, r) =>
                match pending s !! i with
                | Some _ => set_writer (WriterFailing Capture duplicate_error) (set_decoded q s)
                | None => set_writer Draining (set_decoded q
                            (set_pending (expectedSequence s) (<[i := r]> (pending s)) (done_work s) s))
                end
            | None => set_writer (if bool_decide (pending s = ∅) then Finishing
                                  else WriterFailing Capture gap_error) s
            end)
  | Draining =>
      Some (match pending s !! expectedSequence s with
            | Some r =>
                match consume verbose (done_work s) (expectedSequence s) r with
                | (w, None) =>
                    set_pending (expectedSequence s + 1) (delete (expectedSequence s) (pending s)) w s
                | (w, Some e) => set_writer (WriterFailing Capture e)
                                   (set_pending (expectedSequence s) (pending s) w s)
                end
            | None => set_writer Waiting s
            end)
  | Finishing =>
      let '(w, o) := finish (done_work s) in
      Some (set_writer (match o with None => WriterExited true | Some e => WriterFailing Capture e end)
              (set_pending (expectedSequence s) (pending s) w s))
  | WriterFailing f e =>
      Some (set_writer (match next_failing f with Some f => WriterFailing f e | None => WriterExited false end)
              (fail_effect f e s))
  | WriterExited _ => None
  end.

Definition turn (t : thread) (s : pipeline) : option pipeline :=
  match t with TMain => turn_main s | TDecoder k => turn_decoder k s | TWriter => turn_writer s end.

Definition run_schedule (ts : list thread) (s : pipeline) : option pipeline :=
  foldl (fun o t => s ← o; turn t s) (Some s) ts.

Lemma turn_main_step s s' : turn_main s = Some s' -> step verbose src s s'.
Proof.
  unfold turn_main. destruct (main s) as [[|fs bs]|[|f fs] bs|f e| | | | |] eqn:Hm.
  - destruct (running s) eqn:?; [destruct (ends_with src) eqn:?|]; intros [= <-].
    + by eapply receive_throws.
    + by eapply receive_end.
    + by eapply receive_stopped.
  - destruct (running s) eqn:?; intros [= <-]; [by eapply receive|by eapply receive_stopped].
  - intros [= <-]. by eapply receive_again.
  - destruct (push _ _) as [[[] q]|] eqn:?; intros [= <-]; [by eapply submit_pushed|by eapply submit_closed].
  - intros [= <-]. by eapply main_fails.
  - intros [= <-]. by eapply close_raw.
  - case_decide; intros [= <-]. by eapply join_decoders.
  - intros [= <-]. by eapply close_decoded.
  - destruct (writer s) eqn:?; intros [= <-]. by eapply join_writer.
  - done.
Qed.

Lemma turn_decoder_step k s s' : turn_decoder k s = Some s' -> step verbose src s s'.
Proof.
  unfold turn_decoder. destruct (decoders s !! k) as [[|i r|i|f e|]|] eqn:Hk; cbn [mbind option_bind]; [..|done].
  - destruct (pop _) as [[[[i b]|] q]|] eqn:?; cbn [mbind option_bind]; [| |done].
    + destruct (decodeFrame b) as [r|] eqn:?; intros [= <-]. by eapply decoder_pops.
    + intros [= <-]. by eapply decoder_ends.
  - destruct (push _ _) as [[[] q]|] eqn:?; intros [= <-]; [by eapply decoder_pushes|by eapply decoder_gives_up].
  - intros [= <-]. by eapply decoder_traces.
  - intros [= <-]. by eapply decoder_fails.
  - done.
Qed.

Lemma turn_writer_step s s' : turn_writer s = Some s' -> step verbose src s s'.
Proof.
  unfold turn_writer. destruct (writer s) as [| | |f e|] eqn:Hw.
  - destruct (pop _) as [[[[i r]|] q]|] eqn:?; intros [= <-]; [by eapply writer_pops|by eapply writer_ends].
  - destruct (pending s !! _) as [r|] eqn:?; [|intros [= <-]; by eapply writer_waits].
    destruct (consume _ _ _ _) as [w o] eqn:?. intros Ht. replace s' with (match o with
      | None => set_pending (expectedSequence s + 1) (delete (expectedSequence s) (pending s)) w s
      | Some e => set_writer (WriterFailing Capture e) (set_pending (expectedSequence s) (pending s) w s)
      end) by (destruct o; congruence). by eapply writer_consumes.
  - destruct (finish _) as [w o] eqn:?. intros [= <-]. by eapply writer_finishes.
  - intros [= <-]. by eapply writer_fails.
  - done.
Qed.

Lemma turn_step t s s' : turn t s = Some s' -> step verbose src s s'.
Proof. destruct t; [apply turn_main_step|apply turn_decoder_step|apply turn_writer_step]. Qed.

(** What a schedule reaches is reachable. *)
Lemma run_schedule_steps ts s s' : run_schedule ts s = Some s' -> rtc (step verbose src) s s'.
Proof.
  unfold run_schedule. revert s. induction ts as [|t ts IH]; intros s; cbn [foldl mbind option_bind].
  - by intros [= ->].
  - destruct (turn t s) as [s1|] eqn:Ht; [intros Hts; eapply rtc_l; [by eapply turn_step|by apply IH]|].
    intros Hts. exfalso. clear -Hts. induction ts; cbn in Hts; eauto. discriminate Hts.
Qed.

End Schedule.

(** ** The guarantees *)

(** C1: the pipeline is the sequential program. Whatever the interleaving of the threads, the number
    of decoders and the capacity of the queues, a run that ends without an error has left the
    monitor, the counters and the outputs as one thread leaves them that decodes and consumes the
    frames one after the other: all of them, or a beginning of them when a signal asked for the end. *)
Theorem pipeline_refines_sequential : forall env (out : Outputs env) verbose src w0 cap n s w,
  0 < n -> rtc (step verbose src) (start src cap n w0) s -> outcome s = Some (Ok w) ->
  exists fs, fs `prefix_of` all_frames src /\ (interrupted s = false -> fs = all_frames src) /\
             run_sequentially verbose w0 fs = Some (w, None).
Proof.
  intros env out verbose src w0 cap n s w Hn Hs Ho.
  destruct (outcome_ok verbose src w0 cap n Hn s w Hs Ho) as (Hrun & Hp & Hall). by exists (submitted s).
Qed.

(** C12: order. In every reachable state, also after an error, what was shown, logged and written is
    what the sequential program has done after some beginning of the frames: nothing is out of
    order, lost, or done twice. *)
Theorem pipeline_works_in_order : forall env (out : Outputs env) verbose src w0 cap n s,
  0 < n -> rtc (step verbose src) (start src cap n w0) s ->
  exists fs, fs `prefix_of` all_frames src /\
    ((exists rs, decode_all fs = Some rs /\ consume_all verbose w0 0 rs = (done_work s, None)) \/
     exists o, run_sequentially verbose w0 fs = Some (done_work s, o)).
Proof. intros env out verbose src w0 cap n s Hn Hs. by eapply work_sequential. Qed.

(** C16: the error that run() throws comes from outside: the source of the frames ended with it, a
    trace threw it, or the sequential program throws it on a beginning of the frames. The pipeline
    never reports a duplicate sequence or a gap of its own making. *)
Theorem pipeline_errors_external : forall env (out : Outputs env) verbose src w0 cap n s e,
  0 < n -> rtc (step verbose src) (start src cap n w0) s -> outcome s = Some (Throw e) ->
  ends_with src = Some e \/ (exists k i, log_trace k i = Some e) \/
  exists fs w, fs `prefix_of` all_frames src /\ run_sequentially verbose w0 fs = Some (w, Some e).
Proof.
  intros env out verbose src w0 cap n s e Hn Hs Ho. eapply (error_external verbose); [done|exact Hs|].
  unfold outcome in Ho. destruct (main s); try done. destruct (error s); congruence.
Qed.

(** C5: termination and freedom from deadlock. No run goes on for ever, and where no thread can go on
    the pipeline is at its end, with a result or an error. *)
Theorem pipeline_ends : forall env (out : Outputs env) verbose src w0 cap n s,
  0 < n -> 0 <= cap -> Forall bytes_ok (all_frames src) ->
  rtc (step verbose src) (start src cap n w0) s ->
  sn (step verbose src) s /\ (nf (step verbose src) s -> is_Some (outcome s)).
Proof.
  intros env out verbose src w0 cap n s Hn Hcap Hok Hs. split.
  - apply (well_founded_lt_compat _ measure). intros s1 s2. apply step_measure.
  - intros Hnf. destruct (reachable_invariant verbose src w0 cap n Hn s Hs) as [Hne _ Hcon Hctl _].
    destruct (reachable_capacities verbose src cap n w0 s Hcap Hs) as [[Hr _] [Hd _]].
    destruct (outcome s) as [o|] eqn:Ho; [by eexists|]. exfalso.
    assert (Hm : main s <> Done) by (intros Hm; unfold outcome in Ho; by rewrite Hm in Ho).
    destruct (main_moves verbose src Hok s Hctl Hcon Hne) as [s' Hs']; [lia|lia|done|].
    destruct Hnf. by exists s'.
Qed.

(** C30: the queues are bounded. In every reachable state neither queue holds more elements than the
    configured capacity, and every sequence that was submitted and not consumed is in exactly one
    place: a queue, a decoder, the reordering map, or lost after an error. *)
Theorem pipeline_queues_bounded : forall env (out : Outputs env) verbose src w0 cap n s,
  0 < n -> 0 < cap -> rtc (step verbose src) (start src cap n w0) s ->
  size (queue (rawQueue s)) <= cap /\ size (queue (decodedQueue s)) <= cap /\
  forall i, count s i = if decide (expectedSequence s <= i < size (submitted s)) then 1%nat else 0%nat.
Proof.
  intros env out verbose src w0 cap n s Hn Hcap Hs.
  destruct (reachable_capacities verbose src cap n w0 s ltac:(lia) Hs) as [[Hr Hbr] [Hd Hbd]].
  destruct (reachable_invariant verbose src w0 cap n Hn s Hs) as [_ HS _ _ _].
  unfold bounded in *. split; [lia|]. split; [lia|apply HS].
Qed.

(** What every consumed result did not do. *)
Lemma consume_all_quiet `{Outputs env} verbose w seq rs w' :
  consume_all verbose w seq rs = (w', None) ->
  forall r, r ∈ rs -> exists w seq w', consume verbose w seq r = (w', None).
Proof.
  revert w seq. induction rs as [|r rs IH]; intros w seq; cbn [consume_all].
  - intros _ r Hr. by apply not_elem_of_nil in Hr.
  - destruct (consume verbose w seq r) as [w1 [e|]] eqn:Hc; [done|].
    intros Hall r' [->|Hr]%elem_of_cons; [by exists w, seq, w1|]. by eapply IH.
Qed.

Lemma overflowing_frame_consumed `{Outputs env} verbose w seq frame signal w' o :
  decodeApplicationPayload (payload frame) = Some (ParsedSignal signal) ->
  processSignal math signalFilter movingAverageWindow signal = Some (Throw not_finite_error) ->
  consume verbose w seq (inl frame) = (w', o) -> o <> None.
Proof.
  intros Hp Hthrow. unfold consume. destruct (recordDecoded _ _ _) as [m t].
  unfold report, calling, processApplicationPayload. rewrite Hp, Hthrow.
  destruct t as [t|]; [destruct (log_transition _ t) as [? [e|]]|]; by intros [= <- <-].
Qed.

(** C26: one frame can end the station. When an input has a frame that the codec accepts and whose
    payload is a signal block, which the decoder of the protocol accepts, such that a sample of it
    overflows in the filter of the station (it is not finite behind it), no run ends well, for any
    interleaving: unless a signal interrupts it, [run()] throws. ([loud_payload] is such a block for
    the default filter.) *)
Theorem loud_frame_ends_station : forall env (out : Outputs env) verbose src w0 cap n s r bs frame signal filtered,
  0 < movingAverageWindow -> movingAverageWindow mod 2 = 1 ->
  bs ∈ all_frames src -> bytes_ok bs -> decodeFrame bs = Some (inl frame) ->
  decodeApplicationPayload (payload frame) = Some (ParsedSignal signal) ->
  filterSignal math signalFilter movingAverageWindow signal = Some (Ok filtered) ->
  (exists x, x ∈ filtered /\ is_finite x = false) ->
  0 < n -> rtc (step verbose src) (start src cap n w0) s -> interrupted s = false ->
  outcome s = Some r -> exists e, r = Throw e.
Proof.
  intros env out verbose src w0 cap n s r bs frame signal filtered Hw Hodd Hbs Hok Hd Hp Hf (x & Hx & Hinf) Hn Hs Hi Ho.
  assert (Hthrow : processSignal math signalFilter movingAverageWindow signal = Some (Throw not_finite_error)).
  { destruct (decode_sound bs frame Hok Hd) as ([_ _ _ _ _ _ Hpay] & _).
    apply (overflow_refused math _ _ (payload frame) signal filtered); try done.
    apply not_true_iff_false. intros Hall. rewrite forallb_forall in Hall. by rewrite Hall in Hinf by by apply list_elem_of_In. }
  destruct r as [w|e]; [exfalso|by exists e].
  destruct (outcome_ok verbose src w0 cap n Hn s w Hs Ho) as (Hrun & _ & Hall).
  rewrite (Hall Hi) in Hrun. unfold run_sequentially in Hrun.
  destruct (decode_all (all_frames src)) as [rs|] eqn:Hrs; [|done].
  cbn [mbind option_bind] in Hrun.
  destruct (consume_all verbose w0 0 rs) as [w1 [e|]] eqn:Hc; [done|].
  apply mapM_Some in Hrs. apply list_elem_of_lookup in Hbs as [i Hi'].
  destruct (Forall2_lookup_l _ _ _ _ _ Hrs Hi') as (r' & Hr' & Hdec). cbn in Hdec. rewrite Hd in Hdec.
  injection Hdec as <-. apply list_elem_of_lookup_2 in Hr'.
  destruct (consume_all_quiet verbose w0 0 rs w1 Hc (inl frame) Hr') as (w2 & seq & w3 & Hone).
  by apply (overflowing_frame_consumed verbose w2 seq frame signal w3 None) in Hone.
Qed.

(** ** A run *)

(** Outputs that write their lines on a tape. *)
#[local] Instance tape : Outputs (list string) := {
  log_transition o t := (o ++ ["station " +:+ stationStateToString (to t)], None);
  log_warning o m := (o ++ [m], None);
  log_debug o i f := (o ++ ["decoded seq=" +:+ TextFormat.show_dec i], None);
  show_message o id m := (o ++ ["message"], None);
  show_signal o id m filtered metrics := (o ++ ["signal"], None);
  write_frame o f := (o ++ ["frame of " +:+ TextFormat.show_dec (satelliteId f)], None);
  finish_output o := (o ++ ["end"], None);
  log_trace k i := None;
  show_double x := EmptyString;
  signalFilter := SineProjection;
  movingAverageWindow := 5;
  math := sample_math;
}.

Definition quiet_monitor : StationHealthMonitor :=
  {| config := default_config; samples := []; state := Nominal |}.
Definition fresh : effects (env := list string) := mkEffects quiet_monitor [] 0 0 0 0 0.

(** Two frames of one read, the second one too short; the decoders finish in the other order. *)
Definition two_frames : source :=
  {| reads := [[default [] (match encodeFrame sample_frame with Ok b => Some b | Throw _ => None end); [1; 2; 3]]];
     ends_with := None |}.

Definition overtaking : list thread :=
  [TMain; TMain; TDecoder 0; TMain; TDecoder 1; TDecoder 1; TWriter; TWriter; TDecoder 0; TWriter;
   TWriter; TWriter; TWriter; TMain; TMain; TMain; TDecoder 0; TDecoder 1; TMain; TMain; TWriter;
   TWriter; TMain].

Definition reached (src : source) (ts : list thread) : pipeline :=
  default (start src 1 2 fresh) (run_schedule false src ts (start src 1 2 fresh)).

Lemma reached_steps src ts : rtc (step false src) (start src 1 2 fresh) (reached src ts).
Proof.
  unfold reached. destruct (run_schedule _ _ _ _) as [s|] eqn:Hs; cbn; [|done].
  by eapply run_schedule_steps.
Qed.

Definition tape_of (s : pipeline (env := list string)) : option (result (list string)) :=
  (fun r => match r with Ok w => Ok (outputs w) | Throw e => Throw e end) <$> outcome s.

Example overtaking_outcome :
  tape_of (reached two_frames overtaking) =
  Some (Ok ["frame of 42";
            "rejected seq=1: TooShort - frame is shorter than the minimum header + CRC size"; "end"]).
Proof. vm_compute. reflexivity. Qed.

Definition ended_with (s : pipeline (env := list string)) : effects :=
  match outcome s with Some (Ok w) => w | _ => fresh end.

Lemma pipeline_refines_sequential_witness :
  let s := reached two_frames overtaking in
  exists fs, fs `prefix_of` all_frames two_frames /\ (interrupted s = false -> fs = all_frames two_frames) /\
             run_sequentially false fresh fs = Some (ended_with s, None).
Proof.
  apply (pipeline_refines_sequential (list string) tape false two_frames fresh 1 2).
  - lia.
  - apply reached_steps.
  - vm_compute. reflexivity.
Defined.

(** The loud frame, with the default options. *)
Definition loud_frame : TelemetryFrame :=
  {| version := 1; satelliteId := 42; timestampMs := 0; temperatureC := 0; batteryPercent := 50;
     status := 0; payload := loud_payload |}.
Definition loud_bytes : bytes := match encodeFrame loud_frame with Ok b => b | Throw _ => [] end.
Definition loud_source : source := {| reads := [[loud_bytes]]; ends_with := None |}.

Definition loud_schedule : list thread :=
  replicate 5 TMain ++ replicate 3 (TDecoder 0) ++ [TDecoder 1; TMain; TMain] ++ replicate 6 TWriter ++ [TMain].

Lemma loud_frame_ends_station_witness :
  outcome (reached loud_source loud_schedule) = Some (Throw not_finite_error) /\
  exists e, Throw (A := effects (env := list string)) not_finite_error = Throw e.
Proof.
  split; [vm_compute; reflexivity|].
  apply (loud_frame_ends_station (list string) tape false loud_source fresh 1 2 (reached loud_source loud_schedule)
           (Throw not_finite_error) loud_bytes loud_frame loud_signal [S754_infinity false]);
    try (vm_compute; reflexivity).
  - by left.
  - decide_now.
  - exists (S754_infinity false). split; [by left|reflexivity].
  - apply reached_steps.
Defined.

Lemma pipeline_works_in_order_witness :
  let s := reached two_frames (take 10 overtaking) in
  exists fs, fs `prefix_of` all_frames two_frames /\
    ((exists rs, decode_all fs = Some rs /\ consume_all false fresh 0 rs = (done_work s, None)) \/
     exists o, run_sequentially false fresh fs = Some (done_work s, o)).
Proof.
  apply (pipeline_works_in_order (list string) tape false two_frames fresh 1 2); [lia|apply reached_steps].
Defined.

(** A replay file whose first frame is followed by a damaged length. *)
Definition damaged_file : source :=
  {| reads := [[[1; 2; 3]]]; ends_with := Some (runtime_error "invalid replay frame length") |}.

Definition failing_run : list thread :=
  [TMain; TMain; TMain; TMain; TDecoder 0; TMain; TDecoder 0; TMain; TMain; TMain; TDecoder 0;
   TDecoder 1; TMain; TMain; TMain; TWriter; TWriter; TWriter; TWriter; TWriter; TMain].

Lemma pipeline_errors_external_witness :
  ends_with damaged_file = Some (runtime_error "invalid replay frame length") \/
  (exists k i, log_trace k i = Some (runtime_error "invalid replay frame length")) \/
  exists fs w, fs `prefix_of` all_frames damaged_file /\
    run_sequentially false fresh fs = Some (w, Some (runtime_error "invalid replay frame length")).
Proof.
  apply (pipeline_errors_external (list string) tape false damaged_file fresh 1 2
           (reached damaged_file failing_run)).
  - lia.
  - apply reached_steps.
  - vm_compute. reflexivity.
Defined.

Lemma pipeline_ends_witness :
  let s := reached two_frames (take 12 overtaking) in
  sn (step false two_frames) s /\ (nf (step false two_frames) s -> is_Some (outcome s)).
Proof.
  apply (pipeline_ends (list string) tape false two_frames fresh 1 2).
  - lia.
  - lia.
  - decide_now.
  - apply reached_steps.
Defined.

Lemma pipeline_queues_bounded_witness :
  let s := reached two_frames (take 12 overtaking) in
  size (queue (rawQueue s)) <= 1 /\ size (queue (decodedQueue s)) <= 1 /\
  forall i, count s i = if decide (expectedSequence s <= i < size (submitted s)) then 1%nat else 0%nat.
Proof.
  apply (pipeline_queues_bounded (list string) tape false two_frames fresh 1 2); [lia|lia|apply reached_steps].
Defined.

(** ** The reordering map *)

(** The map of the writer is not bounded by the queues: while one decoder is busy with a frame the
    results of all the frames behind it gather in [pending], whatever the capacity. *)
Definition many_frames (n : nat) : source := {| reads := replicate (S n) [[0]]; ends_with := None |}.

Definition stalled (n k : nat) (r : FrameParseResult) (p : gmap Z FrameParseResult) : pipeline :=
  mkPipeline (Receiving (replicate (n - k) [[0]])) [Pushing 0 r; Popping] Waiting
    (mkQueue 1 [] false) (mkQueue 1 [] false) true None (Z.of_nat k + 1) 0 p fresh
    (replicate (S k) [0]) [] false.

Ltac flat := cbv beta iota delta [set_main set_raw set_sequence set_decoder set_decoded set_pending set_writer
  main decoders writer rawQueue decodedQueue running error nextSequence expectedSequence pending done_work
  submitted lost interrupted capacity queue closed].
Tactic Notation "go" uconstr(c) := eapply rtc_l; [by eapply c; try reflexivity|flat].

Lemma stalled_grows n k r p :
  (k < n)%nat -> decodeFrame [0] = Some r -> p !! 0 = None -> p !! (Z.of_nat k + 1) = None ->
  rtc (step false (many_frames n)) (stalled n k r p) (stalled n (S k) r (<[Z.of_nat k + 1 := r]> p)).
Proof.
  intros Hk Hr Hp0 Hpk. vm_compute in Hr. injection Hr as <-. unfold stalled.
  replace (n - k)%nat with (S (n - S k)) by lia. cbn [replicate].
  go receive. go submit_pushed. go receive_again. go (decoder_pops _ _ _ 1).
  go (decoder_pushes _ _ _ 1). cbn [insert list_insert].
  eapply rtc_l; [eapply writer_pops; reflexivity|flat]. rewrite Hpk. flat.
  eapply rtc_l; [eapply writer_waits; [done|flat; rewrite lookup_insert_ne by lia; done]|flat].
  replace (Z.of_nat k + 1 + 1) with (Z.of_nat (S k) + 1) by lia. cbn [app]. rewrite <- replicate_cons_app. apply rtc_refl.
Qed.

(** Any number of results is pending in some run with queues of one element and two decoders. *)
Lemma pending_unbounded n :
  exists s, rtc (step false (many_frames n)) (start (many_frames n) 1 2 fresh) s /\
            base.size (pending s) = n.
Proof.
  destruct (decodeFrame [0]) as [r|] eqn:Hr; [|done]. pose proof Hr as Hr'. vm_compute in Hr'.
  assert (Hk : forall k, (k <= n)%nat -> exists p, base.size p = k /\
    (forall i, is_Some (p !! i) -> 1 <= i <= Z.of_nat k) /\
    rtc (step false (many_frames n)) (start (many_frames n) 1 2 fresh) (stalled n k r p)).
  { induction k as [|k IH]; intros Hk.
    - exists ∅. split; [apply map_size_empty|]. split; [intros i [? ?]; by rewrite lookup_empty in *|].
      injection Hr' as <-. unfold start, stalled, many_frames. cbn [reads replicate]. rewrite Nat.sub_0_r.
      go receive. go submit_pushed. go receive_again. go (decoder_pops _ _ _ 0). apply rtc_refl.
    - destruct IH as (p & Hs & Hin & Hrun); [lia|].
      assert (Hnone : forall i, ~ 1 <= i <= Z.of_nat k -> p !! i = None).
      { intros i Hi. destruct (p !! i) eqn:He; [|done]. destruct Hi. by apply Hin; rewrite He. }
      exists (<[Z.of_nat k + 1 := r]> p). split; [rewrite map_size_insert_None by (apply Hnone; lia); by rewrite Hs|].
      split; [|etrans; [exact Hrun|apply stalled_grows; [lia|done|apply Hnone; lia..]]].
      intros i. destruct (decide (i = Z.of_nat k + 1)) as [->|]; [lia|].
      rewrite lookup_insert_ne by done. intros Hi%Hin. lia. }
  destruct (Hk n) as (p & Hs & _ & Hrun); [done|]. by exists (stalled n n r p).
Qed.
