(* ===== verification/TelemetryOutput.v ===== *)
(** [apps/ground_station/TelemetryOutput.cpp]: the CSV or JSON file of the station.

    A text is a string; the stream hands each text to a device, which is a parameter with one law: a
    write that succeeds appends the text. The decimal rendering of a [float] with nine digits is a
    parameter, of which the reading of CSV needs that it has no separator. The file is shown to be
    the whole document or an exception is thrown ([output_complete_or_throws]), a CSV reader gives
    back the fields ([csv_document_round_trip]), and the JSON escapes are undone by a JSON reader. *)

From S2P Require Import Prelude TextFormat FrameCodec GroundStationOptions.

Definition quote : ascii := "034"%char.
Definition backslash : ascii := "\"%char.
Definition newline : ascii := "010"%char.
Definition nl : string := String newline EmptyString.

(** ** Escapes *)

Fixpoint csvEscape_loop (value : string) : string :=
  match value with
  | EmptyString => EmptyString
  | String ch value =>
      if decide (ch = quote) then String quote (String quote (csvEscape_loop value))
      else String ch (csvEscape_loop value)
  end.

Definition csvEscape (value : string) : string :=
  String quote (csvEscape_loop value) +:+ String quote EmptyString.

Definition JsonControlUpperExclusive : Z := 0x20.
Definition JsonUnicodeEscapeHexWidth : nat := 4.

(** What one character becomes. *)
Definition jsonEscape_char (ch : ascii) : string :=
  if decide (ch = quote) then String backslash (String quote EmptyString)
  else if decide (ch = backslash) then String backslash (String backslash EmptyString)
  else if decide (ch = "008"%char) then String backslash "b"
  else if decide (ch = "012"%char) then String backslash "f"
  else if decide (ch = newline) then String backslash "n"
  else if decide (ch = "013"%char) then String backslash "r"
  else if decide (ch = "009"%char) then String backslash "t"
  else if char_code ch <? JsonControlUpperExclusive
  then String backslash "u" +:+ setw JsonUnicodeEscapeHexWidth "0"%char (show_hex (char_code ch))
  else String ch EmptyString.

Fixpoint jsonEscape (value : string) : string :=
  match value with
  | EmptyString => EmptyString
  | String ch value => jsonEscape_char ch +:+ jsonEscape value
  end.

(** ** The stream *)

(** The contents of the file and whether the stream is good. *)
Record textstream := { contents : string; stream_good : bool }.

Section Output.
(** What the device makes of the contents and a text, and whether it succeeded; whether a [flush]
    with these contents succeeds. *)
Variable device : string -> string -> string * bool.
Variable flushes : string -> bool.

(** [out << frame.temperatureC] with [max_digits10] digits. *)
Variable show_float : Z -> string.

(** [out << text] *)
Definition put_text (out : textstream) (text : string) : textstream :=
  if stream_good out
  then let '(c, ok) := device (contents out) text in {| contents := c; stream_good := ok |}
  else out.
Definition put_all (out : textstream) (texts : list string) : textstream := foldl put_text out texts.

Definition flush_stream (out : textstream) : textstream :=
  {| contents := contents out; stream_good := stream_good out && flushes (contents out) |}.

Record TelemetryOutput := {
  out_ : textstream;
  format_ : OutputFormat;
  firstJsonFrame_ : bool;
  finished_ : bool;
}.

Definition with_out (t : TelemetryOutput) (out : textstream) : TelemetryOutput :=
  {| out_ := out; format_ := format_ t; firstJsonFrame_ := firstJsonFrame_ t; finished_ := finished_ t |}.

Definition is_json (f : OutputFormat) : bool := match f with Json => true | _ => false end.

(** ** The lines *)

Definition csvHeader : string :=
  "timestamp_ms,satellite_id,temperature_c,battery_percent,status,payload_len,payload_hex" +:+ nl.

Definition hex_of (frame : TelemetryFrame) : string := payloadToHex (payload frame) (size (payload frame)).

(** The texts of [writeFrameCsv], one per [<<]. *)
Definition csv_texts (frame : TelemetryFrame) : list string :=
  [show_dec (timestampMs frame); ","; show_dec (satelliteId frame); ",";
   show_float (temperatureC frame); ","; show_dec (batteryPercent frame); ",";
   statusToString (status frame); ","; show_dec (size (payload frame)); ",";
   csvEscape (hex_of frame); nl]%string.

Definition q : string := String quote EmptyString.

(** The texts of [writeFrameJson] behind the separator. *)
Definition json_texts (frame : TelemetryFrame) : list string :=
  ["  {"; q +:+ "timestamp_ms" +:+ q +:+ ":"; show_dec (timestampMs frame); ",";
   q +:+ "satellite_id" +:+ q +:+ ":"; show_dec (satelliteId frame); ",";
   q +:+ "temperature_c" +:+ q +:+ ":"; show_float (temperatureC frame); ",";
   q +:+ "battery_percent" +:+ q +:+ ":"; show_dec (batteryPercent frame); ",";
   q +:+ "status" +:+ q +:+ ":" +:+ q; jsonEscape (statusToString (status frame)); q +:+ ",";
   q +:+ "payload_len" +:+ q +:+ ":"; show_dec (size (payload frame)); ",";
   q +:+ "payload_hex" +:+ q +:+ ":" +:+ q; jsonEscape (hex_of frame); q; "}"]%string.

Definition writeFrameCsv (t : TelemetryOutput) (frame : TelemetryFrame) : TelemetryOutput :=
  with_out t (put_all (out_ t) (csv_texts frame)).

Definition writeFrameJson (t : TelemetryOutput) (frame : TelemetryFrame) : TelemetryOutput :=
  let out := if negb (firstJsonFrame_ t) then put_text (out_ t) ("," +:+ nl) else out_ t in
  {| out_ := put_all out (json_texts frame); format_ := format_ t; firstJsonFrame_ := false; finished_ := finished_ t |}.

(** ** The operations *)

(** The constructor; [opened] says whether the file could be opened and truncated. *)
Definition new_TelemetryOutput (path : string) (opened : bool) (format : OutputFormat) : result TelemetryOutput :=
  throw_if (negb opened) (runtime_error ("failed to open output file: " +:+ path)) ;;
  let out := {| contents := EmptyString; stream_good := true |} in
  Ok {| out_ := put_text out (if is_json format then "[" +:+ nl else csvHeader);
        format_ := format; firstJsonFrame_ := true; finished_ := false |}.

(** [write]: the object changes also when it throws. *)
Definition TelemetryOutput_write (t : TelemetryOutput) (frame : TelemetryFrame) : TelemetryOutput * option exn :=
  let t := if is_json (format_ t) then writeFrameJson t frame else writeFrameCsv t frame in
  (t, if negb (stream_good (out_ t)) then Some (runtime_error "failed while writing telemetry output") else None).

Definition TelemetryOutput_finish (t : TelemetryOutput) : TelemetryOutput * option exn :=
  if finished_ t then (t, None) else
  let out := if is_json (format_ t) then put_text (out_ t) (nl +:+ "]" +:+ nl) else out_ t in
  let out := flush_stream out in
  if negb (stream_good out)
  then (with_out t out, Some (runtime_error "failed while flushing telemetry output"))
  else ({| out_ := out; format_ := format_ t; firstJsonFrame_ := firstJsonFrame_ t; finished_ := true |}, None).

(** The frames in order, up to the first exception. *)
Fixpoint write_all (t : TelemetryOutput) (frames : list TelemetryFrame) : TelemetryOutput * option exn :=
  match frames with
  | [] => (t, None)
  | frame :: frames =>
      match TelemetryOutput_write t frame with
      | (t, None) => write_all t frames
      | (t, Some e) => (t, Some e)
      end
  end.

(** ** The documents *)

Definition csv_line (frame : TelemetryFrame) : string := concat_texts (csv_texts frame).
Definition json_object (frame : TelemetryFrame) : string := concat_texts (json_texts frame).

Definition csv_document (frames : list TelemetryFrame) : string :=
  csvHeader +:+ concat_texts (csv_line <$> frames).

Fixpoint json_objects (frames : list TelemetryFrame) : string :=
  match frames with
  | [] => EmptyString
  | [frame] => json_object frame
  | frame :: frames => json_object frame +:+ ("," +:+ nl) +:+ json_objects frames
  end.

Definition json_document (frames : list TelemetryFrame) : string :=
  ("[" +:+ nl) +:+ json_objects frames +:+ (nl +:+ "]" +:+ nl).

Definition document (format : OutputFormat) (frames : list TelemetryFrame) : string :=
  if is_json format then json_document frames else csv_document frames.

(** ** The file *)

(** The law of the device: what is written well is appended. *)
Context (device_appends : forall c text c', device c text = (c', true) -> c' = c +:+ text).

Lemma put_good out text :
  stream_good (put_text out text) = true ->
  stream_good out = true /\ contents (put_text out text) = contents out +:+ text.
Proof using device_appends.
  unfold put_text. destruct (stream_good out) eqn:Hg; [|by rewrite Hg].
  destruct (device (contents out) text) as [c ok] eqn:Hd. cbn [stream_good contents]. intros ->.
  split; [done|]. by apply device_appends.
Qed.

Lemma put_all_good out texts :
  stream_good (put_all out texts) = true ->
  stream_good out = true /\ contents (put_all out texts) = contents out +:+ concat_texts texts.
Proof using device_appends.
  revert out. induction texts as [|text texts IH]; intros out; cbn [put_all foldl].
  - intros Hg. split; [done|]. symmetry. apply append_nil_r.
  - intros [Hg Hc]%IH. apply put_good in Hg as [Hg Hc']. split; [done|].
    cbn [put_all foldl]. unfold put_all in Hc. rewrite Hc, Hc', append_assoc. done.
Qed.

Lemma json_objects_snoc frames frame :
  json_objects (frames ++ [frame]) =
  match frames with
  | [] => json_object frame
  | _ => json_objects frames +:+ ("," +:+ nl) +:+ json_object frame
  end.
Proof.
  induction frames as [|f frames IH]; [done|]. destruct frames as [|g frames]; [done|].
  cbn [app] in *. cbn [json_objects] in *. rewrite IH, !append_assoc. done.
Qed.

(** What is in the file after some frames, before the end. *)
Definition begun (format : OutputFormat) (frames : list TelemetryFrame) : string :=
  if is_json format then ("[" +:+ nl) +:+ json_objects frames else csv_document frames.

(** The object after some frames: as long as the stream is good, the file holds them. *)
Record after (format : OutputFormat) (frames : list TelemetryFrame) (t : TelemetryOutput) : Prop := {
  after_format : format_ t = format;
  after_first : is_json format = true -> firstJsonFrame_ t = bool_decide (frames = []);
  after_open : finished_ t = false;
  after_contents : stream_good (out_ t) = true -> contents (out_ t) = begun format frames;
}.

Lemma after_new path opened format t : new_TelemetryOutput path opened format = Ok t -> after format [] t.
Proof using device_appends.
  unfold new_TelemetryOutput. destruct (negb opened); [done|]. intros [= <-].
  constructor; [done|done|done|]. cbn [out_]. intros [_ Hc]%put_good. rewrite Hc. unfold begun.
  destruct (is_json format); [done|]. unfold csv_document. by rewrite append_nil_r.
Qed.

Lemma after_write format frames t frame t' o :
  after format frames t -> TelemetryOutput_write t frame = (t', o) ->
  after format (frames ++ [frame]) t' /\ (o = None -> stream_good (out_ t') = true).
Proof using device_appends.
  intros [Hf Hfirst Hopen Hc]. unfold TelemetryOutput_write. rewrite Hf. intros [= <- <-]. split.
  2: { by destruct (stream_good (out_ (if is_json format then _ else _))). }
  destruct (is_json format) eqn:Hj.
  - constructor; cbn [format_ firstJsonFrame_ finished_ out_ writeFrameJson]; [done| |done|].
    + intros _. by destruct frames.
    + rewrite Hfirst by done. intros [Hg Hc']%put_all_good. rewrite Hc'. unfold begun in *. rewrite Hj in *.
      rewrite json_objects_snoc. destruct frames as [|f frames].
      * rewrite bool_decide_eq_true_2 in Hg |- * by done. cbn [negb] in *. by rewrite Hc.
      * rewrite bool_decide_eq_false_2 in Hg |- * by done. cbn [negb] in *.
        apply put_good in Hg as [Hg Hc2]. rewrite Hc2, Hc, !append_assoc by done. done.
  - constructor; cbn [format_ firstJsonFrame_ finished_ out_ writeFrameCsv with_out]; [done|congruence|done|].
    intros [Hg Hc']%put_all_good. rewrite Hc', Hc by done. unfold begun, csv_document. rewrite Hj.
    rewrite fmap_app, concat_texts_app, append_assoc. cbn [fmap list_fmap concat_texts foldr].
    by rewrite append_nil_r.
Qed.

Lemma after_write_all format done_frames frames t t' :
  after format done_frames t -> write_all t frames = (t', None) -> after format (done_frames ++ frames) t'.
Proof using device_appends.
  revert done_frames t. induction frames as [|frame frames IH]; intros done_frames t Ha; cbn [write_all].
  - intros [= <-]. by rewrite app_nil_r.
  - destruct (TelemetryOutput_write t frame) as [t1 [e|]] eqn:Hw; [done|].
    apply (after_write format done_frames) in Hw as [Ha1 _]; [|done].
    intros H. rewrite cons_middle, app_assoc. by apply (IH _ t1).
Qed.

Lemma after_finish format frames t t' :
  after format frames t -> TelemetryOutput_finish t = (t', None) ->
  contents (out_ t') = document format frames /\ stream_good (out_ t') = true /\
  TelemetryOutput_finish t' = (t', None).
Proof using device_appends.
  intros [Hf _ Hopen Hc]. unfold TelemetryOutput_finish at 1. rewrite Hopen, Hf.
  destruct (stream_good (flush_stream _)) eqn:Hg; cbn [negb]; [|done].
  intros [= <-]. cbn [out_]. cbn [flush_stream stream_good] in Hg. apply andb_true_iff in Hg as [Hg Hfl].
  cbn [flush_stream contents stream_good]. rewrite Hg, Hfl. split; [|done].
  unfold document, json_document, begun in *. destruct (is_json format).
  - apply put_good in Hg as [Hg Hc']. rewrite Hc', Hc, append_assoc by done. done.
  - by apply Hc.
Qed.

End Output.

(** ** Reading the documents back *)

(** A reader of CSV (RFC 4180): at the beginning of a field, in a bare one, inside of the quotes,
    behind a quote. *)
Inductive csv_mode := FieldStart | Bare | Quoted | QuoteSeen.

Definition comma : ascii := ","%char.

Fixpoint csv_read (m : csv_mode) (field : list ascii) (record : list string) (cs : list ascii) : list (list string) :=
  match cs with
  | [] => match m, record with FieldStart, [] => [] | _, _ => [record ++ [string_of_chars field]] end
  | c :: cs =>
      match m with
      | Quoted =>
          if decide (c = quote) then csv_read QuoteSeen field record cs
          else csv_read Quoted (field ++ [c]) record cs
      | _ =>
          if decide (c = quote) then
            csv_read (match m with Bare => Bare | _ => Quoted end)
                     (match m with FieldStart => field | _ => field ++ [c] end) record cs
          else if decide (c = comma) then csv_read FieldStart [] (record ++ [string_of_chars field]) cs
          else if decide (c = newline) then (record ++ [string_of_chars field]) :: csv_read FieldStart [] [] cs
          else csv_read (match m with FieldStart => Bare | m => m end) (field ++ [c]) record cs
      end
  end.

(** A text without separators. *)
Definition plain_char (c : ascii) : Prop := c <> quote /\ c <> comma /\ c <> newline.
Definition plain (text : string) : Prop := Forall plain_char (chars_of_string text).

Lemma csv_read_bare m field record cs rest :
  Forall plain_char cs -> m = FieldStart \/ m = Bare ->
  csv_read m field record (cs ++ comma :: rest) =
  csv_read FieldStart [] (record ++ [string_of_chars (field ++ cs)]) rest.
Proof.
  intros Hcs. revert m field. induction Hcs as [|c cs (H1 & H2 & H3) _ IH]; intros m field Hm.
  - rewrite app_nil_r. cbn [app csv_read].
    destruct Hm as [->| ->]; (rewrite (decide_False (P := comma = quote)) by done); by rewrite decide_True.
  - cbn [app csv_read].
    destruct Hm as [->| ->]; rewrite !decide_False by done; rewrite IH by tauto; by rewrite <- app_assoc.
Qed.

Lemma csv_read_plain record text rest :
  plain text ->
  csv_read FieldStart [] record (chars_of_string text ++ comma :: rest) =
  csv_read FieldStart [] (record ++ [text]) rest.
Proof. intros Hp. rewrite csv_read_bare by (done || by left). cbn [app]. by rewrite string_chars_string. Qed.

Lemma csv_read_quoted field record value rest :
  csv_read Quoted field record (chars_of_string (csvEscape_loop value) ++ rest) =
  csv_read Quoted (field ++ chars_of_string value) record rest.
Proof.
  revert field. induction value as [|c value IH]; intros field; cbn [csvEscape_loop].
  - cbn. by rewrite app_nil_r.
  - case_decide as Hc; cbn [chars_of_string String.list_ascii_of_string app csv_read].
    + subst. rewrite !decide_True by done. unfold chars_of_string in IH. rewrite IH. by rewrite <- app_assoc.
    + rewrite decide_False by done. unfold chars_of_string in IH. rewrite IH. by rewrite <- app_assoc.
Qed.

Lemma csv_read_escaped record value rest :
  csv_read FieldStart [] record (chars_of_string (csvEscape value) ++ newline :: rest) =
  (record ++ [value]) :: csv_read FieldStart [] [] rest.
Proof.
  unfold csvEscape. rewrite append_cons. cbn [chars_of_string String.list_ascii_of_string app csv_read].
  rewrite decide_True by done. fold (chars_of_string (csvEscape_loop value +:+ String quote EmptyString)).
  rewrite chars_append, <- app_assoc, csv_read_quoted. cbn [app chars_of_string String.list_ascii_of_string csv_read].
  rewrite decide_True by done. rewrite (decide_False (P := newline = quote)) by done.
  rewrite (decide_False (P := newline = comma)) by done. rewrite decide_True by done.
  fold (chars_of_string value). by rewrite string_chars_string.
Qed.

Lemma show_dec_plain n : 0 <= n -> plain (show_dec n).
Proof.
  intros Hn. apply show_dec_chars; [done|]. intros c Hc. unfold plain_char.
  assert (char_code quote = 34 /\ char_code comma = 44 /\ char_code newline = 10) as (? & ? & ?) by done.
  split_and!; intros ->; lia.
Qed.

Lemma status_plain st : plain (statusToString st).
Proof. unfold statusToString. break_ifs; repeat constructor; done. Qed.

(** The fields of the line of a frame. *)
Definition csv_fields (show_float : Z -> string) (frame : TelemetryFrame) : list string :=
  [show_dec (timestampMs frame); show_dec (satelliteId frame); show_float (temperatureC frame);
   show_dec (batteryPercent frame); statusToString (status frame); show_dec (size (payload frame)); hex_of frame].

Definition csv_names : list string :=
  ["timestamp_ms"; "satellite_id"; "temperature_c"; "battery_percent"; "status"; "payload_len"; "payload_hex"]%string.

Lemma csv_read_line show_float frame rest :
  (forall x, plain (show_float x)) -> frame_typed frame ->
  csv_read FieldStart [] [] (chars_of_string (csv_line show_float frame) ++ rest) =
  csv_fields show_float frame :: csv_read FieldStart [] [] rest.
Proof.
  intros Hs Hf. unfold csv_line, csv_texts. cbn [concat_texts foldr].
  rewrite !chars_append, <- !app_assoc. change (chars_of_string ",") with [comma].
  change (chars_of_string nl) with [newline]. cbn [app chars_of_string String.list_ascii_of_string].
  destruct Hf. unfold fits, is_byte in *.
  rewrite !csv_read_plain by first [apply Hs|apply status_plain|apply show_dec_plain; first [lia|apply size_nonneg]].
  by rewrite csv_read_escaped.
Qed.

(** The inside of a JSON string (RFC 8259): [None] on what it may not contain. *)
Definition hex_value (c : ascii) : option Z :=
  let k := char_code c in
  if (48 <=? k) && (k <=? 57) then Some (k - 48)
  else if (97 <=? k) && (k <=? 102) then Some (k - 87)
  else if (65 <=? k) && (k <=? 70) then Some (k - 55) else None.

Definition json_short (e : ascii) : option ascii :=
  if decide (e = quote) then Some quote else if decide (e = backslash) then Some backslash
  else if decide (e = "/"%char) then Some "/"%char else if decide (e = "b"%char) then Some "008"%char
  else if decide (e = "f"%char) then Some "012"%char else if decide (e = "n"%char) then Some newline
  else if decide (e = "r"%char) then Some "013"%char else if decide (e = "t"%char) then Some "009"%char else None.

Fixpoint json_unescape (cs : list ascii) : option (list ascii) :=
  match cs with
  | [] => Some []
  | c :: cs =>
      if decide (c = backslash) then
        match cs with
        | e :: cs' =>
            match json_short e, cs' with
            | Some d, _ => rest ← json_unescape cs'; Some (d :: rest)
            | None, h1 :: h2 :: h3 :: h4 :: cs'' =>
                if decide (e = "u"%char) then
                  d1 ← hex_value h1; d2 ← hex_value h2; d3 ← hex_value h3; d4 ← hex_value h4;
                  let v := ((d1 * 16 + d2) * 16 + d3) * 16 + d4 in
                  rest ← json_unescape cs'';
                  if v <? 128 then Some (ascii_of_nat (Z.to_nat v) :: rest) else None
                else None
            | _, _ => None
            end
        | [] => None
        end
      else if decide (c = quote) then None
      else if char_code c <? 0x20 then None
      else rest ← json_unescape cs; Some (c :: rest)
  end.

Lemma json_unescape_char c rest :
  json_unescape (chars_of_string (jsonEscape_char c) ++ rest) = rest ← json_unescape rest; Some (c :: rest).
Proof. destruct c as [[] [] [] [] [] [] [] []]; reflexivity. Qed.

(** ** Properties *)

(** What is exported can be read back. A reader of CSV gives the names of the columns and, for
    each frame in order, its seven fields, the escaped payload included. *)
Lemma csv_document_round_trip : forall show_float frames,
  (forall x, plain (show_float x)) -> Forall frame_typed frames ->
  csv_read FieldStart [] [] (chars_of_string (csv_document show_float frames)) =
  csv_names :: (csv_fields show_float <$> frames).
Proof.
  intros show_float frames Hs Hf. unfold csv_document. rewrite chars_append.
  change (chars_of_string csvHeader ++ ?r) with
    (chars_of_string csvHeader ++ r).
  replace (csv_read FieldStart [] [] (chars_of_string csvHeader ++ chars_of_string (concat_texts (csv_line show_float <$> frames))))
    with (csv_names :: csv_read FieldStart [] [] (chars_of_string (concat_texts (csv_line show_float <$> frames)))) by reflexivity.
  f_equal. induction Hf as [|frame frames Hframe _ IH]; [done|].
  rewrite !fmap_cons. change (concat_texts (?a :: ?b)) with (a +:+ concat_texts b).
  rewrite chars_append, csv_read_line by done. by rewrite IH.
Qed.


(** C20: no failure of the disk is silent. Whatever the device does with each text, whichever write
    or flush fails, when the constructor, the writing of the frames and [finish] all return without
    an exception, the file holds the whole document of these frames, in order, closed once; calling
    [finish] again changes nothing. *)
Theorem output_complete_or_throws : forall device flushes show_float path opened format frames t t1 t2,
  (forall c text c', device c text = (c', true) -> c' = c +:+ text) ->
  new_TelemetryOutput device path opened format = Ok t ->
  write_all device show_float t frames = (t1, None) ->
  TelemetryOutput_finish device flushes t1 = (t2, None) ->
  contents (out_ t2) = document show_float format frames /\
  TelemetryOutput_finish device flushes t2 = (t2, None).
Proof.
  intros device flushes show_float path opened format frames t t1 t2 Hd Hn Hw Hf.
  apply (after_new device show_float Hd) in Hn. eapply after_write_all in Hw; [|done|exact Hn].
  eapply after_finish in Hf as (Hc & _ & Hagain); [by split|done|exact Hw].
Qed.

(** The JSON escapes lose nothing: for every string of bytes, a JSON reader accepts what
    [jsonEscape] writes between the quotes, and reads the string itself; no quote or control
    character is left bare. *)
Theorem json_escape_round_trip : forall value,
  json_unescape (chars_of_string (jsonEscape value)) = Some (chars_of_string value).
Proof.
  induction value as [|c value IH]; [done|]. cbn [jsonEscape].
  by rewrite chars_append, json_unescape_char, IH.
Qed.

(** A disk that takes everything, and a rendering of numbers for the examples. *)
Definition sample_device (c text : string) : string * bool := (c +:+ text, true).
Definition sample_show_float (x : Z) : string := "25.5".

Definition sample_written : TelemetryOutput :=
  match new_TelemetryOutput sample_device "out.json" true Json with
  | Ok t => fst (write_all sample_device sample_show_float t [sample_frame; sample_frame])
  | Throw _ => {| out_ := {| contents := EmptyString; stream_good := false |}; format_ := Json;
                  firstJsonFrame_ := true; finished_ := false |}
  end.
Definition sample_finished : TelemetryOutput := fst (TelemetryOutput_finish sample_device (fun _ => true) sample_written).

Lemma output_complete_or_throws_witness :
  contents (out_ sample_finished) = document sample_show_float Json [sample_frame; sample_frame] /\
  TelemetryOutput_finish sample_device (fun _ => true) sample_finished = (sample_finished, None).
Proof.
  eapply (output_complete_or_throws sample_device (fun _ => true) sample_show_float "out.json" true Json
            [sample_frame; sample_frame] _ sample_written).
  - intros c text c' H. injection H as <-. reflexivity.
  - reflexivity.
  - vm_compute. reflexivity.
  - vm_compute. reflexivity.
Defined.
