(* ===== verification/StopController.v ===== *)
(** [apps/ground_station/PosixSignalStopController.cpp]: the thread that waits for SIGINT and SIGTERM.

    The controller blocks the two signals, starts a waiter, and on every way out joins it and restores
    the mask. The answers of [sigtimedwait()] and what the waiter sees of the stop token are an
    argument; a run of the controller gives the sequence of its effects on the process. *)

From S2P Require Import Prelude.

(** ** The waiter *)

(** [sigtimedwait()]: a signal, the end of the time slice, an interruption, another failure. *)
Inductive wait_answer := CaughtInt | CaughtTerm | CaughtOther (number : Z) | SliceOver | WaitInterrupted | WaitFailed (number : Z).

Section Controller.
Variable strerror : Z -> string.

(** [std::system_error] with its text. *)
Definition system_error (number : Z) (what : string) : exn := runtime_error (what +:+ ": " +:+ strerror number).

(** [waitLoop]: each turn reads the stop token, then waits. The result says whether [running] was
    cleared, and the error that was captured; [None] is a loop that goes on. *)
Fixpoint waitLoop (turns : list (bool * wait_answer)) : option (bool * option exn) :=
  match turns with
  | [] => None
  | (stop_requested, answer) :: turns =>
      if stop_requested : bool then Some (false, None) else
      match answer with
      | CaughtInt | CaughtTerm => Some (true, None)
      | SliceOver | WaitInterrupted | CaughtOther _ => waitLoop turns
      | WaitFailed number => Some (true, Some (system_error number "sigtimedwait"))
      end
  end.

(** ** The object *)

Inductive ctl_effect := BlockMask | StartWaiter | RequestStop | JoinWaiter | RestoreMask.

Record controller := { maskInstalled_ : bool; joinable : bool; error_ : option exn }.

Definition no_controller : controller := {| maskInstalled_ := false; joinable := false; error_ := None |}.

Definition restoreMaskNoThrow (c : controller) : list ctl_effect * controller :=
  if maskInstalled_ c
  then ([RestoreMask], {| maskInstalled_ := false; joinable := joinable c; error_ := error_ c |})
  else ([], c).

(** The constructor: how the set is built, how the signals are blocked, whether the thread starts. *)
Definition new_controller (set_result mask_result : option Z) (thread_fails : option exn)
  : list ctl_effect * result controller :=
  match set_result with
  | Some number => ([], Throw (system_error number "failed to build POSIX signal set"))
  | None =>
      match mask_result with
      | Some number => ([], Throw (system_error number "pthread_sigmask(SIG_BLOCK)"))
      | None =>
          let c := {| maskInstalled_ := true; joinable := false; error_ := None |} in
          match thread_fails with
          | Some e => let '(tr, _) := restoreMaskNoThrow c in (BlockMask :: tr, Throw e)
          | None => ([BlockMask; StartWaiter], Ok {| maskInstalled_ := true; joinable := true; error_ := None |})
          end
      end
  end.

(** [stopNoThrow]; [captured] is the error the waiter left when it ended. *)
Definition stopNoThrow (captured : option exn) (c : controller) : list ctl_effect * controller :=
  let '(tr, c) :=
    if joinable c
    then ([RequestStop; JoinWaiter], {| maskInstalled_ := maskInstalled_ c; joinable := false; error_ := captured |})
    else ([], c) in
  let '(tr', c) := restoreMaskNoThrow c in (tr ++ tr', c).

Definition controller_finish (captured : option exn) (c : controller) : list ctl_effect * controller * option exn :=
  let '(tr, c) := stopNoThrow captured c in (tr, c, error_ c).

(** The life of the controller in [run]: the body, [finish] when the body ends well, the destructor
    in any case. *)
Definition with_controller (set_result mask_result : option Z) (thread_fails : option exn)
    (turns : list (bool * wait_answer)) (body : option exn) : option (list ctl_effect * option exn) :=
  match new_controller set_result mask_result thread_fails with
  | (tr, Throw e) => Some (tr, Some e)
  | (tr, Ok c) =>
      '(_, captured) ← waitLoop turns;
      let '(tr1, c, e) := match body with
        | Some e => ([], c, Some e)
        | None => controller_finish captured c
        end in
      let '(tr2, _) := stopNoThrow captured c in
      Some (tr ++ tr1 ++ tr2, e)
  end.

(** ** Properties *)

(** The waiter ends when it is asked to, whatever it waits for: it looks at the token between two
    slices. *)
Lemma waitLoop_stops turns : Exists (fun t => fst t = true) turns -> is_Some (waitLoop turns).
Proof.
  induction 1 as [[stop answer] turns H|[stop answer] turns _ IH]; cbn [waitLoop fst] in *.
  - rewrite H. by eexists.
  - destruct stop; [by eexists|]. destruct answer; by eauto.
Qed.

(** [running] is cleared exactly when a signal or a failure comes before the request to stop. *)
Lemma waitLoop_clears turns cleared e :
  waitLoop turns = Some (cleared, e) ->
  exists before stop answer after, turns = before ++ (stop, answer) :: after /\
    Forall (fun t => fst t = false /\ (snd t = SliceOver \/ snd t = WaitInterrupted \/ exists n, snd t = CaughtOther n)) before /\
    cleared = negb stop /\
    e = (if stop then None else match answer with WaitFailed n => Some (system_error n "sigtimedwait") | _ => None end) /\
    (stop = false -> answer = CaughtInt \/ answer = CaughtTerm \/ exists n, answer = WaitFailed n).
Proof.
  induction turns as [|[stop answer] turns IH]; cbn [waitLoop]; [done|].
  destruct stop.
  { intros [= <- <-]. exists [], true, answer, turns. by split_and!. }
  destruct answer; try (intros [= <- <-]; eexists [], false, _, turns; split_and!; eauto; done).
  all: intros (before & stop & answer & after & -> & Hb & H)%IH;
    eexists (_ :: before), stop, answer, after; split; [done|split; [|exact H]];
    constructor; [by eauto|done].
Qed.

(** On every way out the mask is restored as often as it was changed, after the waiter was joined, and
    a waiter that was started is asked to stop and joined once. The first exception is the one that
    leaves. *)
Theorem controller_cleans_up : forall set_result mask_result thread_fails turns body,
  Exists (fun t => fst t = true) turns ->
  exists tr e, with_controller set_result mask_result thread_fails turns body = Some (tr, e) /\
    tr = match set_result, mask_result, thread_fails with
         | None, None, None => [BlockMask; StartWaiter; RequestStop; JoinWaiter; RestoreMask]
         | None, None, Some _ => [BlockMask; RestoreMask]
         | _, _, _ => []
         end /\
    (set_result = None -> mask_result = None -> thread_fails = None ->
     e = match body with Some e => Some e | None => waitLoop turns ≫= snd end).
Proof.
  intros set_result mask_result thread_fails turns body Hstop.
  destruct (waitLoop_stops turns Hstop) as [[cleared captured] Hw].
  unfold with_controller, new_controller.
  destruct set_result; [by repeat eexists|]. destruct mask_result; [by repeat eexists|].
  destruct thread_fails; [by repeat eexists|]. rewrite Hw. cbn [mbind option_bind].
  destruct body; cbn; repeat eexists; done.
Qed.

End Controller.

Lemma controller_cleans_up_witness :
  with_controller (fun _ => "error") None None None [(false, SliceOver); (false, CaughtTerm); (true, SliceOver)] None =
    Some ([BlockMask; StartWaiter; RequestStop; JoinWaiter; RestoreMask], None).
Proof.
  destruct (controller_cleans_up (fun _ => "error") None None None
              [(false, SliceOver); (false, CaughtTerm); (true, SliceOver)] None) as (tr & e & H & Ht & He).
  - right; right; left. reflexivity.
  - rewrite H, Ht, He by reflexivity. reflexivity.
Defined.
