(* ===== verification/OutputFile.v ===== *)
(** The outputs of the station: the logger, the terminal and the output file behind the interface
    [Outputs] of the pipeline, and what the file holds when the pipeline ends.

    The calls are those of apps/ground_station/GroundStationProcessing.cpp and of the writer in
    GroundStationWorkers.cpp. The terminal is the list of what it was asked to show; the logger holds
    the lines of the writer. The renderings of floating-point numbers, the clock of the log, the
    console and the disk are parameters. *)

From S2P Require Import Prelude TextFormat FrameCodec Floats ApplicationPayload SignalProcessing StationHealth Logger GroundStationOptions TelemetryOutput Pipeline PipelineInvariant PipelineSpec PipelineGuarantees.

Section Station.
(** The disk under the output file, as in [TelemetryOutput]. *)
Variable device : string -> string -> string * bool.
Variable flushes : string -> bool.
Variable show_float : Z -> string.
(** [std::to_string] and [<<] of a [double], and [<<] of a [float] with [std::fixed]. *)
Variables (to_string show_rate : spec_float -> string) (show_fixed : Z -> string).
(** The clock and the disk of the log at its n-th line. *)
Variable now : nat -> string.
Variable log_writes : nat -> bool.
(** The options of the filter, and the mathematical library. *)
Variables (filter_mode : SignalFilterMode) (filter_window : Z) (library : libm).

(** ** The calls *)

Definition toString (frame : TelemetryFrame) : string :=
  "sat=" +:+ show_dec (satelliteId frame) +:+ " ts_ms=" +:+ show_dec (timestampMs frame) +:+
  " temp_c=" +:+ show_fixed (temperatureC frame) +:+
  " battery=" +:+ show_dec (batteryPercent frame) +:+ "%" +:+
  " status=" +:+ statusToString (status frame) +:+ " payload_len=" +:+ show_dec (size (payload frame)).

(** What the terminal was asked to show. *)
Inductive shown :=
  | ReceivedMessage (satellite : Z) (message : TextMessagePayload)
  | ReceivedSignal (satellite : Z) (signal : SignalBlockPayload) (filtered : list spec_float)
      (metrics : SignalMetrics) (mode : SignalFilterMode).

Record station_outputs := mkStationOutputs {
  logger_ : Logger;
  logged : nat;
  ui_ : list shown;
  output_ : TelemetryOutput;
}.

Definition log_line (o : station_outputs) (level : LogLevel) (message : string) : station_outputs :=
  mkStationOutputs (log (now (logged o)) (log_writes (logged o)) (logger_ o) level message)
    (S (logged o)) (ui_ o) (output_ o).

Definition transition_message (t : StationStateTransition) : string :=
  "station state changed: " +:+ stationStateToString (from t) +:+
  " -> " +:+ stationStateToString (to t) +:+
  ", samples=" +:+ show_dec (snap_samples (trans_snapshot t)) +:+
  ", rejected=" +:+ show_dec (snap_rejected (trans_snapshot t)) +:+
  ", rejection_rate=" +:+ show_rate (rejectionRate (trans_snapshot t)) +:+
  ", critical=" +:+ show_dec (snap_critical (trans_snapshot t)) +:+
  ", reason=" +:+ reason t.

Definition logTransition (o : station_outputs) (t : StationStateTransition) : station_outputs :=
  log_line o (match to t with Degraded => Warning | _ => Info end) (transition_message t).

Definition show_on (o : station_outputs) (s : shown) : station_outputs :=
  mkStationOutputs (logger_ o) (logged o) (ui_ o ++ [s]) (output_ o).

Definition with_output (o : station_outputs) (r : TelemetryOutput * option exn) : station_outputs * option exn :=
  (mkStationOutputs (logger_ o) (logged o) (ui_ o) (fst r), snd r).

(** The outputs of the station. The logger and the terminal write to streams that do not throw. *)
#[local] Instance station_calls : Outputs station_outputs := {
  log_transition o t := (logTransition o t, None);
  log_warning o message := (log_line o Warning message, None);
  log_debug o seq frame := (log_line o Debug ("decoded seq=" +:+ show_dec seq +:+ " " +:+ toString frame), None);
  show_message o satellite m := (show_on o (ReceivedMessage satellite m), None);
  show_signal o satellite s filtered metrics := (show_on o (ReceivedSignal satellite s filtered metrics filter_mode), None);
  write_frame o frame := with_output o (TelemetryOutput_write device show_float (output_ o) frame);
  finish_output o := with_output o (TelemetryOutput_finish device flushes (output_ o));
  log_trace _ _ := None;
  show_double := to_string;
  signalFilter := filter_mode;
  movingAverageWindow := filter_window;
  math := library;
}.

(** ** Which calls touch the file *)

Variable verbose : bool.

(** The frames of the candidates that the codec accepts. *)
Definition frames_of_results (rs : list FrameParseResult) : list TelemetryFrame :=
  omap (fun r => match r with inl f => Some f | inr _ => None end) rs.

Definition same_file (w w' : effects (env := station_outputs)) : Prop :=
  output_ (outputs w') = output_ (outputs w).

Lemma calling_file w c k w' :
  output_ (fst c) = output_ (outputs w) -> calling w c k = (w', None) ->
  exists w1, same_file w w1 /\ k w1 = (w', None).
Proof.
  unfold calling. destruct c as [o [e|]]; [done|]. intros Ho Hk. exists (set_outputs w o). by split.
Qed.

Lemma report_file w m t k w' :
  report w m t k = (w', None) -> exists w1, same_file w w1 /\ k w1 = (w', None).
Proof.
  unfold report. destruct t as [t|]; [|intros Hk; eexists; split; [|exact Hk]; done].
  intros (w1 & Hw & Hk)%calling_file; [by exists w1|done].
Qed.

Lemma process_file w frame k w' :
  processApplicationPayload w frame k = (w', None) -> exists w1, same_file w w1 /\ k w1 = (w', None).
Proof.
  unfold processApplicationPayload.
  destruct (decodeApplicationPayload _) as [[|m|s|e]|]; [by exists w|by apply calling_file| | |by exists w].
  - destruct (processSignal _ _ _ _) as [[[filtered metrics]|e]|]; [by apply calling_file|done|by exists w].
  - intros (w1 & Hw & Hk)%calling_file; [by exists w1|done].
Qed.

(** A call that ends well, and the rest. *)
Lemma calling_inv (w : effects (env := station_outputs)) c k w' :
  calling w c k = (w', None) -> snd c = None /\ k (set_outputs w (fst c)) = (w', None).
Proof. unfold calling. by destruct c as [o [e|]]. Qed.

(** ** The file behind the work *)

Context (device_appends : forall c text c', device c text = (c', true) -> c' = c +:+ text).

Lemma consume_file format frames w seq r w' :
  consume verbose w seq r = (w', None) ->
  after show_float format frames (output_ (outputs w)) ->
  after show_float format (frames ++ frames_of_results [r]) (output_ (outputs w')).
Proof using device_appends.
  unfold consume, same_file. intros Hc Ha. destruct r as [frame|error]; cbn [frames_of_results omap list_omap].
  - destruct (recordDecoded _ _ _) as [m t].
    apply report_file in Hc as (w1 & H1 & (w2 & H2 & [Hw Hk]%calling_inv)%process_file).
    unfold same_file in *. cbn [outputs] in H1. rewrite <- H1, <- H2 in Ha.
    cbn [write_frame station_calls with_output snd fst] in Hw, Hk.
    destruct (TelemetryOutput_write device show_float (output_ (outputs w2)) frame) as [t' o] eqn:Ht.
    cbn [fst snd] in Hw, Hk. subst o. eapply after_write in Ht as [Ht _]; [|done..].
    destruct verbose.
    + apply calling_inv in Hk as [_ [= <-]]. done.
    + by injection Hk as <-.
  - destruct (recordRejected _ _) as [m t].
    apply report_file in Hc as (w1 & H1 & [_ Hk]%calling_inv). injection Hk as <-.
    rewrite app_nil_r. cbn. unfold same_file in H1. cbn in H1. by rewrite H1.
Qed.

Lemma consume_all_file format frames w seq rs w' :
  consume_all verbose w seq rs = (w', None) ->
  after show_float format frames (output_ (outputs w)) ->
  after show_float format (frames ++ frames_of_results rs) (output_ (outputs w')).
Proof using device_appends.
  revert frames w seq. induction rs as [|r rs IH]; intros frames w seq; cbn [consume_all].
  - intros [= <-]. by rewrite app_nil_r.
  - destruct (consume verbose w seq r) as [w1 [e|]] eqn:Hc; [done|].
    intros Hr Ha. eapply consume_file in Hc; [|done]. eapply IH in Hr; [|done].
    assert (Hx : frames_of_results (r :: rs) = frames_of_results [r] ++ frames_of_results rs)
      by (destruct r; done).
    by rewrite Hx, app_assoc.
Qed.

(** The frames that the codec accepts among the candidates. *)
Definition accepted_frames (fs : list bytes) : list TelemetryFrame :=
  omap (fun bs => match decodeFrame bs with Some (inl f) => Some f | _ => None end) fs.

Lemma frames_of_decoded fs rs : decode_all fs = Some rs -> frames_of_results rs = accepted_frames fs.
Proof.
  unfold decode_all. revert rs. induction fs as [|bs fs IH]; intros rs.
  - by intros [= <-].
  - cbn [mapM]. destruct (decodeFrame bs) as [r|] eqn:Hr; cbn [mbind option_bind]; [|done].
    destruct (mapM decodeFrame fs) as [rs'|]; cbn [mbind option_bind]; [|done]. intros [= <-].
    unfold frames_of_results, accepted_frames in *. cbn [omap list_omap]. rewrite Hr.
    by destruct r; rewrite (IH rs').
Qed.

(** What the file of a sequential run holds. *)
Lemma run_file format w fs w' :
  run_sequentially verbose w fs = Some (w', None) ->
  after show_float format [] (output_ (outputs w)) ->
  TelemetryOutput.contents (out_ (output_ (outputs w'))) = document show_float format (accepted_frames fs).
Proof using device_appends.
  unfold run_sequentially. intros Hr Ha. destruct (decode_all fs) as [rs|] eqn:Hd; [|done].
  cbn [mbind option_bind] in Hr. rewrite <- (frames_of_decoded fs rs) by done.
  destruct (consume_all verbose w 0 rs) as [w1 [e|]] eqn:Hc; [done|]. injection Hr as Hf.
  eapply consume_all_file in Hc; [|done]. cbn [app] in Hc.
  unfold finish in Hf. apply calling_inv in Hf as [Hn Hk]. injection Hk as <-.
  cbn [finish_output station_calls with_output fst snd outputs set_outputs output_] in *.
  destruct (TelemetryOutput_finish device flushes (output_ (outputs w1))) as [t o] eqn:Ht.
  cbn [fst snd] in *. subst o. by eapply after_finish in Ht as [-> _].
Qed.

End Station.

Lemma accepted_frames_typed fs : Forall bytes_ok fs -> Forall frame_typed (accepted_frames fs).
Proof.
  induction 1 as [|bs fs Hbs _ IH]; [constructor|]. unfold accepted_frames in *. cbn [omap list_omap].
  destruct (decodeFrame bs) as [[f|e]|] eqn:Hd; [|done|done]. constructor; [|done].
  by eapply decode_sound.
Qed.

(** ** Properties *)

(** C9: what the station exports. The pipeline runs with the output file of the station, whatever the
    disk does, with any number of decoders and any interleaving of the threads, and ends well. Then
    the file is the whole document of the frames that the codec accepts, each once, in the order of
    their reception: all those of the input, or of a beginning of it when a signal interrupts the
    run. As CSV it is read back as one record per frame. *)
Theorem station_exports_accepted_frames : forall device flushes show_float to_string show_rate show_fixed now log_writes filter_mode filter_window library verbose src w0 cap n s w path opened format,
  let out := station_calls device flushes show_float to_string show_rate show_fixed now log_writes
               filter_mode filter_window library in
  (forall c text c', device c text = (c', true) -> c' = c +:+ text) ->
  new_TelemetryOutput device path opened format = Ok (output_ (outputs w0)) ->
  0 < n -> rtc (step verbose src) (start src cap n w0) s -> outcome s = Some (Ok w) ->
  exists fs, fs `prefix_of` all_frames src /\ (interrupted s = false -> fs = all_frames src) /\
    let text := TelemetryOutput.contents (out_ (output_ (outputs w))) in
    text = document show_float format (accepted_frames fs) /\
    (is_json format = false -> (forall x, plain (show_float x)) -> Forall bytes_ok fs ->
     csv_read FieldStart [] [] (chars_of_string text) = csv_names :: (csv_fields show_float <$> accepted_frames fs)).
Proof.
  intros device flushes show_float to_string show_rate show_fixed now log_writes filter_mode filter_window library
    verbose src w0 cap n s w path opened format out Hdev Hnew Hn Hs Ho.
  destruct (outcome_ok verbose src w0 cap n Hn s w Hs Ho) as (Hrun & Hp & Hall).
  exists (submitted s). split_and!; [done..|].
  assert (Ht : TelemetryOutput.contents (out_ (output_ (outputs w))) = document show_float format (accepted_frames (submitted s)))
    by (eapply run_file; [done|done|by eapply after_new]).
  cbv zeta. rewrite Ht. split; [done|]. intros Hc Hplain Hok. unfold document. rewrite Hc.
  apply csv_document_round_trip; [done|by apply accepted_frames_typed].
Qed.

(** ** A run *)

Definition sample_logger : Logger :=
  match new_Logger None true Info with Ok l => l | Throw _ => Logger.Build_Logger Info None [] [] end.
Definition opened_output : TelemetryOutput :=
  match new_TelemetryOutput sample_device "out.csv" true Csv with
  | Ok t => t
  | Throw _ => sample_finished
  end.
#[local] Instance sample_station : Outputs station_outputs :=
  station_calls sample_device (fun _ => true) sample_show_float (fun _ => "0") (fun _ => "0") (fun _ => "25.50")
    (fun _ => "2026-01-01T00:00:00.000Z") (fun _ => true) NoFilter 5 sample_math.
Definition station_start : effects (env := station_outputs) :=
  mkEffects quiet_monitor (mkStationOutputs sample_logger 0 [] opened_output) 0 0 0 0 0.
Definition station_end : pipeline (env := station_outputs) :=
  default (start two_frames 1 2 station_start) (run_schedule false two_frames overtaking (start two_frames 1 2 station_start)).
Definition station_work : effects (env := station_outputs) :=
  match outcome station_end with Some (Ok w) => w | _ => station_start end.

Lemma station_end_steps : rtc (step false two_frames) (start two_frames 1 2 station_start) station_end.
Proof.
  unfold station_end. destruct (run_schedule _ _ _ _) as [s|] eqn:Hs; cbn; [|done].
  by eapply run_schedule_steps.
Qed.

Lemma station_exports_accepted_frames_witness :
  csv_read FieldStart [] [] (chars_of_string (TelemetryOutput.contents (out_ (output_ (outputs station_work))))) =
    [csv_names; ["1700000000123"; "42"; "25.5"; "87"; "WARNING"; "3"; "de ad 00"]] /\
  cerr (logger_ (outputs station_work)) =
    ["2026-01-01T00:00:00.000Z [WARN] rejected seq=1: TooShort - frame is shorter than the minimum header + CRC size"].
Proof.
  split; [|vm_compute; reflexivity].
  destruct (station_exports_accepted_frames sample_device (fun _ => true) sample_show_float (fun _ => "0") (fun _ => "0")
              (fun _ => "25.50") (fun _ => "2026-01-01T00:00:00.000Z") (fun _ => true) NoFilter 5 sample_math
              false two_frames station_start 1 2 station_end station_work "out.csv" true Csv)
    as (fs & Hp & Hall & _ & Hread).
  - intros c text c' H. injection H as <-. reflexivity.
  - vm_compute. reflexivity.
  - reflexivity.
  - exact station_end_steps.
  - vm_compute. reflexivity.
  - rewrite (Hall ltac:(vm_compute; reflexivity)) in Hread. rewrite Hread.
    + vm_compute. reflexivity.
    + reflexivity.
    + intros x. unfold plain. repeat constructor; done.
    + repeat constructor; vm_compute; done.
Defined.
