(* ===== verification/GroundStationApp.v ===== *)
(** [apps/ground_station/GroundStationApp.cpp] and the network side of GroundStationInput.cpp: what
    the station prepares from its options, and the parts together.

    [startup] is the beginning of [run] up to the monitor. [station_serves_every_connection] joins the
    TCP server with the pipeline. *)

From S2P Require Import Prelude Floats FrameCodec StreamExtractor SignalProcessing CliParsing PortDiagnostics Logger NetworkServer StationHealth BlockingQueue GroundStationOptions Pipeline PipelineInvariant PipelineSpec PipelineGuarantees.

(** ** The beginning of [run] *)

(** [selectAutomaticPort]. [None] when the search does not end. *)
Definition selectAutomaticPort (sys : system) (options : Options) : option (result Options) :=
  match autoPortRange options with
  | None => Some (Ok options)
  | Some range =>
      r ← findFirstAvailableLocalPort sys (GroundStationOptions.bindAddress options) range PortTcp;
      Some ('(_, selected) ← r;
            match selected with
            | None => Throw (runtime_error "no bindable port found in --auto-port range")
            | Some p => Ok (set_port p options)
            end)
  end.

(** The port, the logger, whose file [opens] or not, and then the monitor. *)
Definition startup (sys : system) (opens : bool) (options : Options)
  : option (result (Options * Logger * StationHealthMonitor)) :=
  options ← selectAutomaticPort sys options;
  Some (options ← options;
        logger ← new_Logger (logFile options) opens (logLevel options);
        health ← new_StationHealthMonitor (healthConfig options);
        Ok (options, logger, health)).

(** [receiveNetwork]: the configuration of the server. *)
Definition network_config (options : Options) : option NetworkConfig :=
  t ← GroundStationOptions.transport options;
  Some {| NetworkServer.transport := t;
          NetworkServer.bindAddress := GroundStationOptions.bindAddress options;
          NetworkServer.port := GroundStationOptions.port options;
          pollTimeoutMs := pollTimeoutMs defaultNetworkConfig |}.

(** What the options leave to the constructor of the monitor. *)
Lemma monitor_after_parse o :
  options_valid o ->
  let c := healthConfig o in
  new_StationHealthMonitor c =
  if SFltb (degradedRejectionRate c) (recoveryRejectionRate c)
  then Throw (invalid_argument "recovery rejection rate cannot exceed degraded rejection rate")
  else if criticalFramesForDegraded c >? windowSize c
  then Throw (invalid_argument "critical frame degradation threshold cannot exceed window size")
  else Ok {| config := c; samples := []; state := Nominal |}.
Proof.
  intros [[H1 H2 H3 H4 H5 H6 H7 H8 [_ [H9 H9']] [_ [H10 H10']] H11 H12] _ _ _ Hs Hc] c.
  unfold new_StationHealthMonitor, f64_zero, f64_one. fold c in H7, H8, H9, H9', H10, H10', H11, H12, Hs, Hc |- *.
  rewrite (proj2 (Z.eqb_neq (windowSize c) 0)), (proj2 (Z.eqb_neq (minSamples c) 0)),
    (Z.gtb_ltb (minSamples c)), (proj2 (Z.ltb_ge (windowSize c) (minSamples c))), H9, H9', H10, H10',
    (proj2 (Z.eqb_neq (criticalFramesForDegraded c) 0)), Z.geb_leb,
    (proj2 (Z.leb_gt (criticalFramesForDegraded c) (criticalFramesForRecovery c))) by lia.
  done.
Qed.

Lemma selectAutomaticPort_ok sys o :
  options_valid o ->
  exists r, selectAutomaticPort sys o = Some r /\
    match r with
    | Ok o' => exists p, o' = set_port p o /\ 1 <= p <= u16_max /\
               (forall range, autoPortRange o = Some range ->
                  bindable sys (GroundStationOptions.bindAddress o) PortTcp p /\ first range <= p <= last range)
    | Throw e => e = runtime_error "no bindable port found in --auto-port range"
    end.
Proof.
  intros Ho. unfold selectAutomaticPort. destruct (autoPortRange o) as [range|] eqn:Hr.
  - destruct (range_auto o (ok_range o Ho) range Hr) as [Hv Hl].
    destruct (ok_auto o Ho range Hr) as [_ Hc].
    destruct (auto_port_search sys (GroundStationOptions.bindAddress o) range PortTcp Hv Hl Hc) as (report & found & -> & Hf).
    cbn [mbind option_bind]. bind_some. eexists. split; [done|].
    destruct found as [p|]; [|done]. exists p. split; [done|].
    destruct Hf as (before & behind & Hp & Hb & _).
    assert (Hin : p ∈ ports range) by (rewrite Hp; apply elem_of_app; right; by left).
    apply elem_of_seqZ in Hin. unfold valid, MinimumNetworkPort in Hv. reflect_Z.
    split; [lia|]. intros range' [= <-]. split; [done|lia].
  - eexists. split; [done|]. exists (GroundStationOptions.port o). split; [by destruct o|].
    split; [apply (range_port o (ok_range o Ho))|done].
Qed.

(** Accepted options make the station start. [startup] gives a result; when it does not throw,
    the port is within its bounds, and bindable when the station chose it, the constructor of the
    network server accepts the configuration, the monitor is the fresh one of the options, and the
    pipeline gets a positive capacity and at least one decoder. It throws for four reasons only: no
    port of the range can be bound, the log file does not open, or one of two thresholds of the
    monitor, which the parser of the options does not compare. *)
Theorem startup_ready : forall strtod args sys opens o,
  parseArgs strtod args = Ok (Some o) ->
  exists r, startup sys opens o = Some r /\
    match r with
    | Ok (o', logger, health) =>
        (exists p, o' = set_port p o /\ 1 <= p <= 65535) /\
        (forall config, network_config o' = Some config -> new_NetworkServer config = Ok config) /\
        minLevel_ logger = logLevel o /\
        health = {| config := healthConfig o; samples := []; state := Nominal |} /\
        1 <= queueCapacity o' /\ 1 <= decoderThreads o'
    | Throw e =>
        (e = runtime_error "no bindable port found in --auto-port range" /\ autoPortRange o <> None) \/
        (e = runtime_error ("failed to open log file: " +:+ default "" (logFile o)) /\ opens = false) \/
        (e = invalid_argument "recovery rejection rate cannot exceed degraded rejection rate" /\
         SFltb (degradedRejectionRate (healthConfig o)) (recoveryRejectionRate (healthConfig o)) = true) \/
        (e = invalid_argument "critical frame degradation threshold cannot exceed window size" /\
         windowSize (healthConfig o) < criticalFramesForDegraded (healthConfig o))
    end.
Proof.
  intros strtod args sys opens o Hp. apply parseArgs_options in Hp as Ho. unfold startup.
  destruct (selectAutomaticPort_ok sys o Ho) as ([o'|e] & Hsel & Hr); rewrite Hsel; cbn [mbind option_bind]; bind_some.
  2: { eexists. split; [done|]. left. split; [done|]. intros Hn. unfold selectAutomaticPort in Hsel.
       rewrite Hn in Hsel. done. }
  destruct Hr as (p & -> & Hpr & _). eexists. split; [done|].
  assert (Hset : logFile (set_port p o) = logFile o /\ logLevel (set_port p o) = logLevel o /\
                 healthConfig (set_port p o) = healthConfig o /\ queueCapacity (set_port p o) = queueCapacity o /\
                 decoderThreads (set_port p o) = decoderThreads o /\ GroundStationOptions.port (set_port p o) = p)
    by by destruct o.
  destruct Hset as (-> & -> & -> & Hq & Hd & Hport). unfold new_Logger.
  destruct (match logFile o with Some _ => negb opens | None => false end) eqn:Hlog.
  - bind_some. right; left. split; [done|]. by destruct (logFile o), opens.
  - bind_some. rewrite (monitor_after_parse o Ho).
    destruct (SFltb _ _) eqn:Hrate; [bind_some; by right; right; left|].
    destruct (_ >? _) eqn:Hcrit; [bind_some; right; right; right; reflect_Z; split; [done|lia]|].
    bind_some. rewrite Hq, Hd. destruct (ok_range o Ho). unfold u16_max in *. split_and!; try lia; try done.
    + exists p. split; [done|lia].
    + intros c Hc. unfold network_config in Hc. destruct (GroundStationOptions.transport _); [|done].
      injection Hc as <-. unfold new_NetworkServer. cbn [NetworkServer.port]. rewrite Hport.
      by rewrite (proj2 (Z.eqb_neq p 0)) by lia.
Qed.

(** Default options with a rate for the recovery above the rate for the degradation: accepted, and
    refused by the monitor after the log file is open. *)
Definition late_args : list string := ["--udp"; "--log"; "station.log"; "--degraded-recovery-rate"; "0.5"].
Definition late_options : Options :=
  match parseArgs sample_strtod late_args with Ok (Some o) => o | _ => default_options end.

Lemma startup_ready_witness :
  (exists r, startup sample_system true sample_options = Some r /\ is_ok r = true) /\
  startup sample_system true late_options =
    Some (Throw (invalid_argument "recovery rejection rate cannot exceed degraded rejection rate")).
Proof.
  split.
  - destruct (startup_ready sample_strtod sample_args sample_system true sample_options) as (r & Hr & _);
      [vm_compute; reflexivity|].
    exists r. split; [exact Hr|]. revert Hr. vm_compute. intros Hr. injection Hr as <-. reflexivity.
  - vm_compute. reflexivity.
Defined.

(** ** The server and the pipeline *)

(** The candidates the server submits, of all connections. *)
Definition called_back (tr : list effect) : list bytes :=
  omap (fun e => match e with Callback _ b => Some b | _ => None end) tr.

Lemma callbacks_sublist f tr : callbacks f tr `sublist_of` called_back tr.
Proof.
  induction tr as [|e tr IH]; [constructor|]. unfold callbacks, called_back in *.
  destruct e; cbn [omap list_omap]; try done.
  case_decide; [by apply sublist_skip|by apply sublist_cons].
Qed.

(** The station end to end. The TCP server runs over any number of connections and what it calls
    back is what was submitted to the pipeline, up to the stop; the pipeline ends well, on some
    interleaving of its threads. Then the work done is that of the sequential program on the
    candidates in the order of the callbacks, and for each connection that carried encoded frames
    these are among the candidates, all of them, once and in their order. *)
Theorem station_serves_every_connection : forall env (out : Outputs env) verbose strerror polls tr e src w0 cap n s w,
  runTcp strerror polls = Some (tr, e) -> submitted s = called_back tr ->
  0 < n -> rtc (step verbose src) (start src cap n w0) s -> outcome s = Some (Ok w) ->
  run_sequentially verbose w0 (called_back tr) = Some (w, None) /\
  (forall f frames encoded,
     Forall2 (fun f e => frame_typed f /\ encodeFrame f = Ok e) frames encoded ->
     concat (NetworkServer.reads f tr) = concat encoded ->
     encoded = callbacks f tr /\ callbacks f tr `sublist_of` called_back tr).
Proof.
  intros env out verbose strerror polls tr e src w0 cap n s w Htcp Hsub Hn Hs Ho.
  destruct (outcome_ok verbose src w0 cap n Hn s w Hs Ho) as (Hrun & _ & _).
  rewrite <- Hsub. split; [done|].
  intros f frames encoded Henc Heq. rewrite Hsub. split; [|apply callbacks_sublist].
  destruct (sound_tcp_loop strerror _ [] _ _ _ sound_start Htcp) as [_ Hf].
  destruct (Hf f) as [ex Hex]. symmetry. by eapply stream_frames.
Qed.

#[local] Existing Instance tape.

(** The two connections of [sample_polls], received turn by turn. *)
Definition network_source : source := {| Pipeline.reads := [[]; [sample_bytes]; [sample_bytes]]; ends_with := None |}.
Definition network_schedule : list thread :=
  replicate 6 TMain ++ [TDecoder 0; TMain; TMain; TMain; TMain; TDecoder 0; TDecoder 0; TDecoder 1; TWriter;
    TDecoder 0; TDecoder 0; TMain; TMain] ++ replicate 7 TWriter ++ [TMain].

Lemma station_serves_every_connection_witness :
  let s := reached network_source network_schedule in
  run_sequentially false fresh [sample_bytes; sample_bytes] = Some (ended_with s, None) /\
  outputs (ended_with s) = ["frame of 42"; "frame of 42"; "end"]%string.
Proof.
  split; [|vm_compute; reflexivity].
  apply (station_serves_every_connection (list string) tape false (fun _ => "error"%string) sample_polls
           (fst sample_run) (snd sample_run) network_source fresh 1 2 (reached network_source network_schedule)
           (ended_with (reached network_source network_schedule))).
  - vm_compute. reflexivity.
  - vm_compute. reflexivity.
  - reflexivity.
  - apply reached_steps.
  - vm_compute. reflexivity.
Defined.
