(* ===== verification/StationInput.v ===== *)
(** [apps/ground_station/GroundStationInput.cpp]: the two producers of the pipeline, each as the
    [source] of [Pipeline]: a replay file as [Replay] reads it, or the server of [ServerSocket] on a
    kernel. *)

From S2P Require Import Prelude ByteUtils FrameCodec StreamExtractor Replay NetworkServer ServerSocket CliParsing StationHealth GroundStationOptions Pipeline PipelineInvariant PipelineSpec PipelineGuarantees GroundStationApp.

(** ** [receiveReplay] *)

(** Each turn of the loop submits a frame; the waiting between two frames is left out. *)
Definition replay_source (path : string) (contents : option bytes) : option source :=
  match FrameFileReader path contents with
  | Throw e => Some {| Pipeline.reads := []; ends_with := Some e |}
  | Ok reader =>
      '(frames, r) ← readAll (S (length (unread reader))) reader;
      Some {| Pipeline.reads := (fun f => [f]) <$> frames;
              ends_with := match r with Ok _ => None | Throw e => Some e end |}
  end.

(** ** [receiveNetwork] *)

Section Network.
Variable strerror : errno -> string.

(** The frames each turn of a loop submits, and the exception that ends it. *)
Fixpoint tcp_rounds (s : server) (polls : list poll_result) : option (list (list bytes) * option exn) :=
  match polls with
  | [] => Some ([], None)
  | p :: polls =>
      '(tr, s, e) ← tcp_turn strerror s p;
      match e with
      | Some e => Some ([called_back tr], Some e)
      | None => '(rounds, e) ← tcp_rounds s polls; Some (called_back tr :: rounds, e)
      end
  end.

Fixpoint udp_rounds (polls : list udp_poll) : list (list bytes) * option exn :=
  match polls with
  | [] => ([], None)
  | p :: polls =>
      match udp_turn strerror p with
      | (tr, Some e) => ([called_back tr], Some e)
      | (tr, None) => let '(rounds, e) := udp_rounds polls in (called_back tr :: rounds, e)
      end
  end.

(** A server that does not get to its loop submits nothing. *)
Definition network_source (config : NetworkConfig) (k : kernel) : option source :=
  match first_failure strerror config k with
  | Some e => Some {| Pipeline.reads := []; ends_with := Some e |}
  | None =>
      '(rounds, e) ← match NetworkServer.transport config with
                     | Tcp => tcp_rounds {| clients := []; next_fd := 0 |} (tcp_polls k)
                     | Udp => Some (udp_rounds (udp_polls k))
                     end;
      Some {| Pipeline.reads := rounds; ends_with := e |}
  end.

(** [receiveInput], on the files of the disk and a kernel. The constructor of the server checks the
    configuration. *)
Definition receiveInput (files : string -> option bytes) (k : kernel) (options : Options) : option source :=
  match replayFile options with
  | Some path => replay_source path (files path)
  | None =>
      config ← network_config options;
      match new_NetworkServer config with
      | Throw e => Some {| Pipeline.reads := []; ends_with := Some e |}
      | Ok config => network_source config k
      end
  end.

(** ** The source and the server *)

Lemma called_back_app a b : called_back (a ++ b) = called_back a ++ called_back b.
Proof. apply omap_app. Qed.

Lemma called_back_closed (cs : list TcpClient) : called_back (Closed ∘ fd <$> cs) = [].
Proof. by induction cs. Qed.

Lemma tcp_rounds_loop s polls tr e :
  tcp_loop strerror s polls = Some (tr, e) ->
  exists rounds, tcp_rounds s polls = Some (rounds, e) /\ concat rounds = called_back tr.
Proof.
  revert s tr e. induction polls as [|p polls IH]; intros s tr e; cbn [tcp_loop tcp_rounds].
  - intros [= <- <-]. exists []. split; [done|]. by rewrite called_back_closed.
  - destruct (tcp_turn strerror s p) as [[[tr1 s1] [e1|]]|]; cbn [mbind option_bind]; [| |done].
    + intros [= <- <-]. eexists. split; [done|]. cbn [concat]. by rewrite called_back_app, called_back_closed.
    + destruct (tcp_loop strerror s1 polls) as [[tr2 e2]|] eqn:Hl; cbn [mbind option_bind]; [|done].
      intros [= <- <-]. destruct (IH _ _ _ Hl) as (rounds & -> & Hr). cbn [mbind option_bind].
      eexists. split; [done|]. cbn [concat]. by rewrite called_back_app, Hr.
Qed.

Lemma udp_rounds_loop polls tr e :
  NetworkServer.runUdp strerror polls = (tr, e) ->
  exists rounds, udp_rounds polls = (rounds, e) /\ concat rounds = called_back tr.
Proof.
  revert tr e. induction polls as [|p polls IH]; intros tr e; cbn [NetworkServer.runUdp udp_rounds].
  - intros [= <- <-]. by exists [].
  - destruct (udp_turn strerror p) as [tr1 [e1|]].
    + intros [= <- <-]. eexists. split; [done|]. apply app_nil_r.
    + destruct (NetworkServer.runUdp strerror polls) as [tr2 e2]. intros [= <- <-].
      destruct (IH _ _ eq_refl) as (rounds & -> & Hr). eexists. split; [done|]. cbn [concat].
      by rewrite called_back_app, Hr.
Qed.

Lemma called_back_traffic tr : called_back (traffic tr) = called_back tr.
Proof.
  unfold called_back, traffic. induction tr as [|e tr IH]; [done|]. rewrite filter_cons.
  destruct e; cbn [is_log]; rewrite ?decide_True, ?decide_False by done; cbn [omap list_omap]; by rewrite IH.
Qed.

Lemma reads_traffic f tr : NetworkServer.reads f (traffic tr) = NetworkServer.reads f tr.
Proof.
  unfold NetworkServer.reads, traffic. induction tr as [|e tr IH]; [done|]. rewrite filter_cons.
  destruct e; cbn [is_log]; rewrite ?decide_True, ?decide_False by done; cbn [omap list_omap]; by rewrite IH.
Qed.

Lemma callbacks_traffic f tr : callbacks f (traffic tr) = callbacks f tr.
Proof.
  unfold callbacks, traffic. induction tr as [|e tr IH]; [done|]. rewrite filter_cons.
  destruct e; cbn [is_log]; rewrite ?decide_True, ?decide_False by done; cbn [omap list_omap]; by rewrite IH.
Qed.

(** The frames called back for a connection are those of its bytes. *)
Lemma heard_connection config k f :
  NetworkServer.transport config = Tcp ->
  exists ex, feed_all new_extractor (NetworkServer.reads f (run_heard strerror config k)) =
    Some (callbacks f (run_heard strerror config k), ex).
Proof.
  intros Ht. unfold run_heard, loop_result. rewrite Ht. destruct (first_failure strerror config k); [by eexists|].
  destruct (NetworkServer.runTcp _ _) as [[tr e]|] eqn:Hrun; [|by eexists].
  destruct (sound_tcp_loop strerror _ [] _ _ _ sound_start Hrun) as [_ Hf].
  rewrite reads_traffic, callbacks_traffic. apply Hf.
Qed.

(** The source of a configuration is what its server does: the same frames in the same order, and
    the same end. *)
Lemma server_is_source config k :
  answered config k ->
  exists src, network_source config k = Some src /\
    run_result strerror config k = thrown (ends_with src) tt /\
    called_back (run_heard strerror config k) = all_frames src.
Proof.
  unfold answered, network_source, run_result, run_heard, loop_result. intros Hans.
  destruct (first_failure strerror config k) as [e|]; [by eexists|]. destruct (NetworkServer.transport config).
  - destruct (NetworkServer.runUdp strerror (udp_polls k)) as [tr e] eqn:Hl.
    destruct (udp_rounds_loop _ _ _ Hl) as (rounds & -> & Hr). cbn [mbind option_bind]. eexists. split; [done|].
    split; [done|]. unfold all_frames. cbn [Pipeline.reads]. by rewrite called_back_traffic, Hr.
  - destruct (tcp_loop_total strerror {| clients := []; next_fd := 0 |} (tcp_polls k)) as [[tr e] Hl];
      [constructor|done|].
    destruct (tcp_rounds_loop _ _ _ _ Hl) as (rounds & -> & Hr). cbn [mbind option_bind]. eexists. split; [done|].
    unfold NetworkServer.runTcp. rewrite Hl. split; [done|]. unfold all_frames. cbn [Pipeline.reads].
    by rewrite called_back_traffic, Hr.
Qed.

End Network.

(** A well-formed capture is replayed frame by frame. *)
Lemma replay_source_entries path frames :
  Forall frame_bounds frames ->
  exists src, replay_source path (Some (FileHeader ++ concat (entry <$> frames))) = Some src /\
    all_frames src = frames /\ ends_with src = None.
Proof.
  intros Hf. unfold replay_source. rewrite FrameFileReader_header. cbn [unread reading].
  pose proof (length_entries frames) as Hl. 
  replace (reading (concat (entry <$> frames))) with (reading (concat (entry <$> frames) ++ [])) by by rewrite app_nil_r.
  replace (S (length (concat (entry <$> frames)))) with
    (length frames + S (length (concat (entry <$> frames)) - length frames))%nat by lia.
  rewrite readAll_entries by done. cbn [readAll]. destruct readNext_end as [s ->]. cbn [mbind option_bind].
  eexists. split; [done|]. rewrite app_nil_r. split; [|done]. unfold all_frames. cbn [Pipeline.reads].
  clear. induction frames as [|f frames IH]; [done|]. rewrite fmap_cons. cbn [concat app]. by rewrite IH.
Qed.

(** ** Properties *)

(** C8: the station on the network, from the socket to the outputs. The server of the configuration
    runs on a kernel whose calls may fail, [close()] too, over any number of connections (for TCP the
    script of answers has the end of every [recv()] and [accept()] loop that it begins), and the
    pipeline on what the server submits, with any number of decoders, on any interleaving of the
    threads, and ends well. Then the work done is that
    of the sequential program on the candidates in the order of the callbacks, all of them or those
    before a signal; and for each TCP connection that carried encoded frames the server called back
    all of them, once and in their order, and, without a signal, they are among the candidates. *)
Theorem station_serves_network : forall env (out : Outputs env) verbose strerror config k src w0 cap n s w world,
  answered config k -> network_source strerror config k = Some src ->
  0 < n -> rtc (step verbose src) (start src cap n w0) s -> outcome s = Some (Ok w) ->
  serverFd_ world = -1 ->
  exists tr world',
    run strerror config k world = Some (thrown (ends_with src) tt, world') /\
    trace world' = trace world ++ tr /\ owned tr = Some None /\
    let heard := loop_effects tr in
    submitted s `prefix_of` called_back heard /\ (interrupted s = false -> submitted s = called_back heard) /\
    run_sequentially verbose w0 (submitted s) = Some (w, None) /\
    forall f frames encoded,
      NetworkServer.transport config = Tcp ->
      Forall2 (fun f e => frame_typed f /\ encodeFrame f = Ok e) frames encoded ->
      concat (NetworkServer.reads f heard) = concat encoded ->
      callbacks f heard = encoded /\ (interrupted s = false -> encoded `sublist_of` submitted s).
Proof.
  intros env out verbose strerror config k src w0 cap n s w world Hans Hsrc Hn Hs Ho Hw.
  destruct (outcome_ok verbose src w0 cap n Hn s w Hs Ho) as (Hrun & Hp & Hall).
  destruct (server_is_source strerror config k Hans) as (src' & Hsrc' & Hres & Hcb).
  rewrite Hsrc in Hsrc'. injection Hsrc' as <-.
  destruct (does_run strerror config k Hans) as (tr & Hd & Hown & Hheard).
  destruct (Hd world Hw) as (world' & Hr & _ & Ht). exists tr, world'. rewrite <- Hres.
  do 3 (split; [done|]). cbn zeta. rewrite <- called_back_traffic, Hheard, Hcb.
  do 3 (split; [done|]). intros f frames encoded Htcp Henc Hcat.
  assert (Hc : callbacks f (loop_effects tr) = encoded).
  { destruct (heard_connection strerror config k f Htcp) as [ex Hex].
    rewrite <- Hheard, reads_traffic, callbacks_traffic in Hex. by eapply stream_frames. }
  split; [done|]. intros Hi. rewrite (Hall Hi), <- Hcb, <- Hheard, called_back_traffic, <- Hc. apply callbacks_sublist.
Qed.

(** ** A run *)

#[local] Existing Instance tape.

Definition served_source : source :=
  default {| Pipeline.reads := []; ends_with := None |}
    (network_source sample_strerror (sample_config Tcp) (sample_kernel (Returned 0) (Failed (EOther 5)))).
Definition served_schedule : list thread :=
  replicate 10 TMain ++ [TDecoder 0; TMain; TMain; TMain; TMain; TDecoder 0; TDecoder 0; TDecoder 1; TWriter;
    TDecoder 0; TDecoder 0; TMain; TMain] ++ replicate 7 TWriter ++ [TMain].
Definition served_end : pipeline (env := list string) := reached served_source served_schedule.

(** Two connections of which each sends a frame: two candidates, both among those of the server,
    whose [close()] fails. *)
Lemma station_serves_network_witness :
  submitted served_end = [sample_bytes; sample_bytes] /\
  exists tr world',
    run sample_strerror (sample_config Tcp) (sample_kernel (Returned 0) (Failed (EOther 5))) idle = Some (Ok tt, world') /\
    trace world' = tr /\ owned tr = Some None /\ submitted served_end = called_back (loop_effects tr).
Proof.
  split; [vm_compute; reflexivity|].
  destruct (station_serves_network (list string) tape false sample_strerror (sample_config Tcp)
    (sample_kernel (Returned 0) (Failed (EOther 5))) served_source fresh 1 2 served_end (ended_with served_end) idle)
    as (tr & world' & Hr & Ht & Ho & _ & Hall & _).
  - apply sample_answered.
  - vm_compute. reflexivity.
  - reflexivity.
  - apply reached_steps.
  - vm_compute. reflexivity.
  - reflexivity.
  - exists tr, world'. split; [exact Hr|]. split; [exact Ht|]. split; [exact Ho|]. apply Hall. vm_compute. reflexivity.
Defined.
