(* ===== verification/SimulatorOptions.v ===== *)
(** [apps/satellite_simulator/SimulatorOptions.cpp]: the command line of the simulator.

    The structure is that of GroundStationOptions. A [float] option is kept as its 32 bits, as in the
    payloads. [isLoopbackIpv4] asks the system for the address of the host; the seed that
    [std::random_device] gives is an argument of the default options. *)

From S2P Require Import Prelude TextFormat ByteUtils Floats FrameCodec ApplicationPayload SignalProcessing CliParsing PortDiagnostics NetworkServer GroundStationOptions.

Inductive PayloadMode := RandomBytes | TextMessageMode | SignalMode.

#[export] Instance PayloadMode_eq_dec : EqDecision PayloadMode.
Proof. solve_decision. Defined.

Definition DefaultSignalFrameCount : Z := 5.
Definition DefaultMessageFrameCount : Z := 1.
Definition MaximumGeneratedFrameCount : Z := 10000000.
Definition u32_max : Z := 4294967295.

(** The bits of a [float]. *)
Definition bits32 (x : spec_float) : Z :=
  let sign (s : bool) : Z := if s then 0x80000000 else 0 in
  match x with
  | S754_zero s => sign s
  | S754_infinity s => sign s + 0x7F800000
  | S754_nan => 0x7FC00000
  | S754_finite s m e =>
      if Z.pos m <? 0x800000 then sign s + Z.pos m
      else sign s + Z.shiftl (e + 150) 23 + (Z.pos m - 0x800000)
  end.

Record SimulatorOptions := mkSimulator {
  sim_transport : option Transport;
  host : string;
  sim_port : Z;
  discoverPorts : option PortRange;
  discoveryTimeout : Z;
  frame_count : Z;
  countExplicit : bool;
  rate : spec_float;
  sim_satelliteId : Z;
  payloadSize : Z;
  lossProbability : spec_float;
  corruptProbability : spec_float;
  seed : Z;
  sim_outputFile : option string;
  payloadMode : PayloadMode;
  message_text : string;
  sim_sampleRateHz : Z;
  signalFrequencyHz : Z;
  signalAmplitude : Z;
  signalSamples : Z;
  noiseStddev : Z;
  sim_color : bool;
}.

(** [Options{}] *)
Definition simulator_defaults (random_seed : Z) : SimulatorOptions :=
  mkSimulator None "127.0.0.1" DefaultTelemetryPort None DefaultPortProbeTimeout 1000 false (f64_of_Z 100) 42 32
    (S754_zero false) (S754_zero false) random_seed None RandomBytes EmptyString 200
    (bits32 (f32_of_Z 5)) (bits32 (f32_of_Z 1)) 256 0 true.

(** *** Assignments to the members *)

Definition sim_set_transport v o := let 'mkSimulator _ b c d e f g h i j k l m n p q r s t u w x := o in mkSimulator v b c d e f g h i j k l m n p q r s t u w x.
Definition sim_set_host v o := let 'mkSimulator a _ c d e f g h i j k l m n p q r s t u w x := o in mkSimulator a v c d e f g h i j k l m n p q r s t u w x.
Definition sim_set_port v o := let 'mkSimulator a b _ d e f g h i j k l m n p q r s t u w x := o in mkSimulator a b v d e f g h i j k l m n p q r s t u w x.
Definition set_discoverPorts v o := let 'mkSimulator a b c _ e f g h i j k l m n p q r s t u w x := o in mkSimulator a b c v e f g h i j k l m n p q r s t u w x.
Definition set_discoveryTimeout v o := let 'mkSimulator a b c d _ f g h i j k l m n p q r s t u w x := o in mkSimulator a b c d v f g h i j k l m n p q r s t u w x.
Definition set_count v explicit o := let 'mkSimulator a b c d e _ _ h i j k l m n p q r s t u w x := o in mkSimulator a b c d e v explicit h i j k l m n p q r s t u w x.
Definition set_rate v o := let 'mkSimulator a b c d e f g _ i j k l m n p q r s t u w x := o in mkSimulator a b c d e f g v i j k l m n p q r s t u w x.
Definition set_satelliteId v o := let 'mkSimulator a b c d e f g h _ j k l m n p q r s t u w x := o in mkSimulator a b c d e f g h v j k l m n p q r s t u w x.
Definition set_payloadSize v o := let 'mkSimulator a b c d e f g h i _ k l m n p q r s t u w x := o in mkSimulator a b c d e f g h i v k l m n p q r s t u w x.
Definition set_lossProbability v o := let 'mkSimulator a b c d e f g h i j _ l m n p q r s t u w x := o in mkSimulator a b c d e f g h i j v l m n p q r s t u w x.
Definition set_corruptProbability v o := let 'mkSimulator a b c d e f g h i j k _ m n p q r s t u w x := o in mkSimulator a b c d e f g h i j k v m n p q r s t u w x.
Definition set_seed v o := let 'mkSimulator a b c d e f g h i j k l _ n p q r s t u w x := o in mkSimulator a b c d e f g h i j k l v n p q r s t u w x.
Definition sim_set_outputFile v o := let 'mkSimulator a b c d e f g h i j k l m _ p q r s t u w x := o in mkSimulator a b c d e f g h i j k l m v p q r s t u w x.
Definition set_payload mode text o := let 'mkSimulator a b c d e f g h i j k l m n _ _ r s t u w x := o in mkSimulator a b c d e f g h i j k l m n mode text r s t u w x.
Definition set_sampleRateHz v o := let 'mkSimulator a b c d e f g h i j k l m n p q _ s t u w x := o in mkSimulator a b c d e f g h i j k l m n p q v s t u w x.
Definition set_signalFrequencyHz v o := let 'mkSimulator a b c d e f g h i j k l m n p q r _ t u w x := o in mkSimulator a b c d e f g h i j k l m n p q r v t u w x.
Definition set_signalAmplitude v o := let 'mkSimulator a b c d e f g h i j k l m n p q r s _ u w x := o in mkSimulator a b c d e f g h i j k l m n p q r s v u w x.
Definition set_signalSamples v o := let 'mkSimulator a b c d e f g h i j k l m n p q r s t _ w x := o in mkSimulator a b c d e f g h i j k l m n p q r s t v w x.
Definition set_noiseStddev v o := let 'mkSimulator a b c d e f g h i j k l m n p q r s t u _ x := o in mkSimulator a b c d e f g h i j k l m n p q r s t u v x.
Definition sim_set_color v o := let 'mkSimulator a b c d e f g h i j k l m n p q r s t u w _ := o in mkSimulator a b c d e f g h i j k l m n p q r s t u w v.

Definition sim_selectTransport (options : SimulatorOptions) (t : Transport) : result SimulatorOptions :=
  throw_if (match sim_transport options with Some u => bool_decide (u <> t) | None => false end)
    (runtime_error "--udp and --tcp are mutually exclusive") ;;
  Ok (sim_set_transport (Some t) options).

(** The bytes of a [std::string]. *)
Definition string_bytes (s : string) : bytes := char_code <$> chars_of_string s.

Section Parse.
Variable strtod : string -> strtod_result.
Variable sys : system.

(** [std::numeric_limits<float>::max()] as a [double]. *)
Definition float_max : spec_float := f64_of_Z (Z.shiftl 0xFFFFFF 104).

Definition parseFiniteFloat (value name : string) : result Z :=
  parsed ← parseFiniteDouble strtod value name;
  throw_if (SFltb parsed (SFopp float_max) || SFltb float_max parsed)
    (runtime_error (name +:+ " exceeds float range")) ;;
  Ok (bits32 (narrow parsed)).

(** The local variables of [parseArgs]. *)
Record flags := { portExplicit : bool; payloadSizeExplicit : bool; messageSelected : bool; signalSelected : bool }.
Definition no_flags : flags :=
  {| portExplicit := false; payloadSizeExplicit := false; messageSelected := false; signalSelected := false |}.

Inductive simulator_turn := SimExits | SimContinues (options : SimulatorOptions) (fl : flags) (valueTaken : bool).

Definition simulator_step (arg : string) (next : option string) (o : SimulatorOptions) (fl : flags) : result simulator_turn :=
  let flag (o : SimulatorOptions) : result simulator_turn := Ok (SimContinues o fl false) in
  let valued (o : SimulatorOptions) : result simulator_turn := Ok (SimContinues o fl true) in
  let integer (M : Z) (name : string) (minimum maximum : Z) : result Z :=
    value ← requireValue arg next; parseUnsigned M value name minimum maximum in
  if bool_decide (arg = "--help") || bool_decide (arg = "-h") then Ok SimExits
  else if bool_decide (arg = "--udp") then o ← sim_selectTransport o Udp; flag o
  else if bool_decide (arg = "--tcp") then o ← sim_selectTransport o Tcp; flag o
  else if bool_decide (arg = "--host") then value ← requireValue arg next; valued (sim_set_host value o)
  else if bool_decide (arg = "--port") then
    p ← integer u16_max "--port" MinimumNetworkPort MaximumNetworkPort;
    Ok (SimContinues (sim_set_port p o)
          {| portExplicit := true; payloadSizeExplicit := payloadSizeExplicit fl;
             messageSelected := messageSelected fl; signalSelected := signalSelected fl |} true)
  else if bool_decide (arg = "--discover-ports") then
    value ← requireValue arg next; r ← parsePortRange value "--discover-ports"; valued (set_discoverPorts (Some r) o)
  else if bool_decide (arg = "--discovery-timeout-ms") then
    t ← integer u32_max "--discovery-timeout-ms" 1 MaximumPortProbeTimeout; valued (set_discoveryTimeout t o)
  else if bool_decide (arg = "--count") then
    n ← integer size_max "--count" 1 MaximumGeneratedFrameCount; valued (set_count n true o)
  else if bool_decide (arg = "--rate") then
    value ← requireValue arg next; r ← parseFiniteDouble strtod value "--rate";
    throw_if (SFltb r (f64_of_Z 0)) (runtime_error "--rate must be >= 0") ;; valued (set_rate r o)
  else if bool_decide (arg = "--satellite") then
    n ← integer u16_max "--satellite" 0 u16_max; valued (set_satelliteId n o)
  else if bool_decide (arg = "--payload-size") then
    n ← integer size_max "--payload-size" 0 MaxPayloadSize;
    Ok (SimContinues (set_payloadSize n o)
          {| portExplicit := portExplicit fl; payloadSizeExplicit := true;
             messageSelected := messageSelected fl; signalSelected := signalSelected fl |} true)
  else if bool_decide (arg = "--loss") then
    value ← requireValue arg next; p ← parseProbability strtod value "--loss"; valued (set_lossProbability p o)
  else if bool_decide (arg = "--corrupt") then
    value ← requireValue arg next; p ← parseProbability strtod value "--corrupt"; valued (set_corruptProbability p o)
  else if bool_decide (arg = "--seed") then n ← integer u32_max "--seed" 0 u32_max; valued (set_seed n o)
  else if bool_decide (arg = "--output-file") then
    value ← requireValue arg next; valued (sim_set_outputFile (Some value) o)
  else if bool_decide (arg = "--message") then
    value ← requireValue arg next;
    Ok (SimContinues (set_payload TextMessageMode value o)
          {| portExplicit := portExplicit fl; payloadSizeExplicit := payloadSizeExplicit fl;
             messageSelected := true; signalSelected := signalSelected fl |} true)
  else if bool_decide (arg = "--signal") then
    Ok (SimContinues (set_payload SignalMode (message_text o) o)
          {| portExplicit := portExplicit fl; payloadSizeExplicit := payloadSizeExplicit fl;
             messageSelected := messageSelected fl; signalSelected := true |} false)
  else if bool_decide (arg = "--sample-rate") then
    n ← integer u16_max "--sample-rate" 1 u16_max; valued (set_sampleRateHz n o)
  else if bool_decide (arg = "--signal-frequency") then
    value ← requireValue arg next; x ← parseFiniteFloat value "--signal-frequency"; valued (set_signalFrequencyHz x o)
  else if bool_decide (arg = "--signal-amplitude") then
    value ← requireValue arg next; x ← parseFiniteFloat value "--signal-amplitude"; valued (set_signalAmplitude x o)
  else if bool_decide (arg = "--signal-samples") then
    n ← integer size_max "--signal-samples" 1 MaxSignalSamplesPerPayload; valued (set_signalSamples n o)
  else if bool_decide (arg = "--noise-stddev") then
    value ← requireValue arg next; x ← parseFiniteFloat value "--noise-stddev"; valued (set_noiseStddev x o)
  else if bool_decide (arg = "--no-color") then flag (sim_set_color false o)
  else Throw (runtime_error ("unknown option: " +:+ arg)).

Fixpoint simulator_loop (args : list string) (o : SimulatorOptions) (fl : flags) : result (option (SimulatorOptions * flags)) :=
  match args with
  | [] => Ok (Some (o, fl))
  | arg :: args =>
      s ← simulator_step arg (head args) o fl;
      match s with
      | SimExits => Ok None
      | SimContinues o fl false => simulator_loop args o fl
      | SimContinues o fl true => match args with [] => Ok (Some (o, fl)) | _ :: args => simulator_loop args o fl end
      end
  end.

(** The block that is encoded to try the limits of the format. *)
Definition probe_block (o : SimulatorOptions) : SignalBlockPayload :=
  {| sampleRateHz := sim_sampleRateHz o; frequencyHz := signalFrequencyHz o; nominalAmplitude := signalAmplitude o;
     startSampleIndex := 0; ApplicationPayload.samples := replicate (Z.to_nat (signalSamples o)) 0 |}.

(** [if (!options.countExplicit) ...] *)
Definition default_count (o : SimulatorOptions) : SimulatorOptions :=
  if countExplicit o then o else
  match payloadMode o with
  | TextMessageMode => set_count DefaultMessageFrameCount false o
  | SignalMode => set_count DefaultSignalFrameCount false o
  | RandomBytes => o
  end.

(** The checks behind the loop. *)
Definition simulator_checks (o : SimulatorOptions) (fl : flags) : result SimulatorOptions :=
  throw_if (messageSelected fl && signalSelected fl)
    (runtime_error "--message and --signal are mutually exclusive payload modes") ;;
  throw_if (payloadSizeExplicit fl && bool_decide (payloadMode o <> RandomBytes))
    (runtime_error "--payload-size applies only to the default random payload mode") ;;
  throw_if (match sim_transport o, sim_outputFile o with None, None => true | _, _ => false end)
    (runtime_error "choose --udp, --tcp, and/or --output-file") ;;
  throw_if (match discoverPorts o with Some _ => bool_decide (sim_transport o <> Some Tcp) | None => false end)
    (runtime_error "--discover-ports requires --tcp") ;;
  throw_if (match discoverPorts o with Some _ => portExplicit fl | None => false end)
    (runtime_error "choose either --port or --discover-ports, not both") ;;
  throw_if (match discoverPorts o with Some _ => negb (isLoopbackIpv4 sys (host o)) | None => false end)
    (runtime_error "--discover-ports is intentionally restricted to IPv4 loopback") ;;
  throw_if (match discoverPorts o with Some r => CliParsing.count r >? MaxDiagnosticPortCount | None => false end)
    (runtime_error "--discover-ports exceeds MaxDiagnosticPortCount") ;;
  throw_if (SFltb (f32 (signalAmplitude o)) (f32_of_Z 0)) (runtime_error "--signal-amplitude must be >= 0") ;;
  throw_if (SFltb (f32 (noiseStddev o)) (f32_of_Z 0)) (runtime_error "--noise-stddev must be >= 0") ;;
  throw_if (SFleb (f32 (signalFrequencyHz o)) (f32_of_Z 0) ||
            SFleb (f32_div (f32_of_Z (sim_sampleRateHz o)) (f32_of_Z 2)) (f32 (signalFrequencyHz o)))
    (runtime_error "--signal-frequency must be > 0 and strictly below the Nyquist frequency") ;;
  let o := default_count o in
  match payloadMode o with
  | SignalMode =>
      _ ← encodeSignalBlockPayload (probe_block o);
      throw_if ((frame_count o - 1) * signalSamples o >? u32_max)
        (runtime_error "signal run exceeds STGA v1 32-bit startSampleIndex; reduce --count or --signal-samples") ;;
      Ok o
  | TextMessageMode => _ ← encodeTextMessagePayload {| sequence := 0; text := string_bytes (message_text o) |}; Ok o
  | RandomBytes => Ok o
  end.

(** The options, or [None] after [exit(0)]. *)
Definition simulator_parseArgs (random_seed : Z) (args : list string) : result (option SimulatorOptions) :=
  r ← simulator_loop args (simulator_defaults random_seed) no_flags;
  match r with
  | None => Ok None
  | Some (o, fl) => o ← simulator_checks o fl; Ok (Some o)
  end.

End Parse.

(** ** Accepted options *)

Record simulator_in_range (o : SimulatorOptions) : Prop := {
  sim_range_port : 1 <= sim_port o <= u16_max;
  sim_range_ports : forall r, discoverPorts o = Some r -> valid r = true /\ last r <= u16_max;
  sim_range_timeout : 1 <= discoveryTimeout o <= MaximumPortProbeTimeout;
  sim_range_count : 1 <= frame_count o <= MaximumGeneratedFrameCount;
  sim_range_rate : is_finite (rate o) = true /\ SFltb (rate o) (f64_of_Z 0) = false;
  sim_range_satellite : 0 <= sim_satelliteId o <= u16_max;
  sim_range_size : 0 <= payloadSize o <= MaxPayloadSize;
  sim_range_loss : probability (lossProbability o);
  sim_range_corrupt : probability (corruptProbability o);
  sim_range_sample_rate : 1 <= sim_sampleRateHz o <= u16_max;
  sim_range_samples : 1 <= signalSamples o <= MaxSignalSamplesPerPayload;
}.

Lemma simulator_defaults_in_range random_seed : simulator_in_range (simulator_defaults random_seed).
Proof.
  constructor; try (vm_compute; split; congruence); try done; repeat split; vm_compute; reflexivity.
Qed.

Lemma sim_selectTransport_ok o t o' : sim_selectTransport o t = Ok o' -> o' = sim_set_transport (Some t) o.
Proof. unfold sim_selectTransport. break_ifs; [done|by intros [= <-]]. Qed.

Section Accepted.
Variable strtod : string -> strtod_result.
Variable sys : system.

Lemma simulator_step_in_range arg next o fl o' fl' taken :
  simulator_in_range o -> simulator_step strtod arg next o fl = Ok (SimContinues o' fl' taken) -> simulator_in_range o'.
Proof.
  intros Ho. unfold simulator_step. destruct o as [a b c d e f g h i j k l m n p q r s t u w x].
  destruct Ho as [H1 H2 H3 H4 H5 H6 H7 H8 H9 H10 H11].
  repeat case_bool_decide; cbn [orb]; try discriminate; intros Hs; bind_inv;
    repeat match goal with
    | H : sim_selectTransport _ _ = Ok _ |- _ => apply sim_selectTransport_ok in H as ->
    | H : parsePortRange _ _ = Ok _ |- _ => apply parsePortRange_iff in H as (_ & ? & ?)
    | H : parseFiniteDouble _ _ _ = Ok _ |- _ => apply parseFiniteDouble_finite in H
    | H : parseProbability _ _ _ = Ok _ |- _ => apply parseProbability_probability in H
    | H : parseUnsigned _ _ _ _ _ = Ok _ |- _ => apply parseUnsigned_iff in H as (_ & _ & ?); [|done]
    | H : (if ?c then _ else _) = Ok _ |- _ => destruct c eqn:?; [discriminate H|]
    end;
    injection Hs as <- _ _; constructor; first [assumption | done | by intros ? [= <-]].
Qed.

Lemma simulator_loop_in_range args o fl o' fl' :
  simulator_in_range o -> simulator_loop strtod args o fl = Ok (Some (o', fl')) -> simulator_in_range o'.
Proof.
  remember (length args) as n eqn:Hn. revert args Hn o fl.
  induction n as [n IH] using (well_founded_induction lt_wf). intros args -> o fl Ho.
  destruct args as [|arg args]; cbn [simulator_loop]; [by intros [= <- <-]|].
  intros ([|o1 fl1 taken] & Hs & H)%bind_Ok; [done|]. apply simulator_step_in_range in Hs; [|done].
  destruct taken; [destruct args as [|value args]|].
  - by injection H as <- <-.
  - eapply (IH (length args)); [cbn [length]; lia|done|exact Hs|done].
  - eapply (IH (length args)); [cbn [length]; lia|done|exact Hs|done].
Qed.

(** What the run of the simulator relies on. *)
Record simulator_valid (o : SimulatorOptions) : Prop := {
  sim_ok_range : simulator_in_range o;
  sim_ok_signal : payloadMode o = SignalMode ->
    validSignalMetadata (sim_sampleRateHz o) (signalFrequencyHz o) (signalAmplitude o) = true /\
    (frame_count o - 1) * signalSamples o <= u32_max;
  sim_ok_text : payloadMode o = TextMessageMode -> size (string_bytes (message_text o)) <= MaxTextMessageBytes;
}.

Lemma default_count_in_range o : simulator_in_range o -> simulator_in_range (default_count o).
Proof.
  unfold default_count. intros Ho. break_ifs; [done|]. destruct (payloadMode o); [done|..];
    destruct o; destruct Ho; constructor; try done; vm_compute; split; congruence.
Qed.

Lemma simulator_checks_valid o fl o' :
  simulator_in_range o -> simulator_checks sys o fl = Ok o' -> simulator_valid o'.
Proof.
  intros Ho%default_count_in_range. unfold simulator_checks.
  repeat match goal with |- (if ?c then _ else _) = Ok _ -> _ => destruct c eqn:?; [done|] end.
  cbv zeta. revert Ho. generalize (default_count o). clear. intros o Ho. destruct (payloadMode o) eqn:Hm; intros H.
  - injection H as <-. by constructor; rewrite ?Hm.
  - apply bind_Ok in H as (bs & Hb & [= <-]). constructor; [done|congruence|]. intros _.
    rewrite encodeText_bytes in Hb. cbn [text] in Hb. destruct (_ >? _) eqn:E; [done|]. reflect_Z. lia.
  - apply bind_Ok in H as (bs & Hb & H). destruct (_ >? _) eqn:E; [done|]. injection H as <-. reflect_Z.
    constructor; [done| |congruence]. intros _. split; [|lia].
    unfold encodeSignalBlockPayload in Hb. by destruct (validSignalMetadata _ _ _).
Qed.

Lemma simulator_options random_seed args o :
  simulator_parseArgs strtod sys random_seed args = Ok (Some o) -> simulator_valid o.
Proof.
  intros ([[o1 fl]|] & Hl & H)%bind_Ok; [|done].
  apply bind_Ok in H as (o2 & Hc & [= <-]).
  apply (simulator_loop_in_range args _ _ _ _ (simulator_defaults_in_range random_seed)) in Hl.
  by eapply simulator_checks_valid.
Qed.
End Accepted.
