(* ===== verification/Usage.v ===== *)
(** The usage texts and the parsers of the command lines agree: what [UsageText] reads in the texts is
    what the loops of GroundStationOptions.cpp, SimulatorOptions.cpp and port_check.cpp do. *)

From S2P Require Import Prelude TextFormat Floats CliParsing PortDiagnostics NetworkServer SignalProcessing GroundStationOptions SimulatorOptions UsageText PortCheck.

(** ** What a text says of a parser *)

Definition unknown_option (arg : string) : exn := runtime_error ("unknown option: " +:+ arg).
Definition missing_value (arg : string) : exn := runtime_error ("missing value after " +:+ arg).

Section Documents.
(** A loop over the arguments, from a state, of which the options are a part. *)
Context {S O R : Type} (loop : list string -> S -> result (option R)) (view : S -> O) (start : S) (rows : list usage_row).

Record documents : Prop := {
  (** The help is documented and ends the program; [-h] does as well. *)
  doc_help : "--help"%string ∈ row_name <$> rows /\
    forall arg args s, arg = "--help"%string \/ arg = "-h"%string -> loop (arg :: args) s = Ok None;
  (** Nothing else is an option. *)
  doc_unknown : forall arg args s, arg ∉ row_name <$> rows -> arg <> "-h"%string -> loop (arg :: args) s = Throw (unknown_option arg);
  (** An option with a value misses it at the end of the line. *)
  doc_missing : forall r s, r ∈ rows -> row_valued r = true -> loop [row_name r] s = Throw (missing_value (row_name r));
  (** It takes the argument behind it, whatever this is, or refuses it. *)
  doc_value : forall r value s, r ∈ rows -> row_valued r = true ->
    (exists s', forall args, loop (row_name r :: value :: args) s = loop args s') \/
    (exists e, forall args, loop (row_name r :: value :: args) s = Throw e);
  (** An option without a value is accepted, and the argument behind it is an option again. *)
  doc_flag : forall r, r ∈ rows -> row_valued r = false -> row_name r <> "--help"%string ->
    exists s', forall args, loop (row_name r :: args) start = loop args s';
  (** The defaults that are quoted are those of the program: to give them changes nothing. *)
  doc_default : forall r text, r ∈ rows -> row_default r = Some text ->
    exists s', view s' = view start /\ forall args, loop (row_name r :: text :: args) start = loop args s'
}.
End Documents.

(** [strtod] on short decimal texts: the nearest double. The value is [n / d]. *)
Fixpoint digits_value (cs : list ascii) (n d : Z) (dot : bool) : option (Z * Z) :=
  match cs with
  | [] => Some (n, d)
  | c :: cs =>
      if decide (c = "."%char) then (if dot then None else digits_value cs n d true)
      else if (48 <=? char_code c) && (char_code c <=? 57)
           then digits_value cs (n * 10 + (char_code c - 48)) (if dot then d * 10 else d) dot
           else None
  end.
Definition decimal_value (text : string) : option (Z * Z) :=
  match chars_of_string text with
  | c :: cs => if decide (c = "."%char) then None else digits_value (c :: cs) 0 1 false
  | [] => None
  end.
Definition reads_decimals (strtod : string -> strtod_result) : Prop := forall text n d,
  decimal_value text = Some (n, d) -> (String.length text <= 15)%nat ->
  strtod text = {| parsed_double := f64_literal n d; parsed_length := String.length text; erange := false |}.

(** ** Loops by steps *)

Section Steps.
Context {S O R : Type} (step : string -> option string -> S -> result (option (S * bool))) (finish : S -> R).

(** The shape of the loops: a step ends the program, or goes on and says whether it took the next argument. *)
Definition stepwise (loop : list string -> S -> result (option R)) : Prop := forall arg args s,
  loop (arg :: args) s =
    (r ← step arg (head args) s;
     match r with
     | None => Ok None
     | Some (s, false) => loop args s
     | Some (s, true) => match args with [] => Ok (Some (finish s)) | _ :: args => loop args s end
     end).

(** What a step may give, by the row of its argument. *)
Definition step_kind (rows : list usage_row) (arg : string) (next : option string) (r : result (option (S * bool))) : Prop :=
  match find (fun row => String.eqb (row_name row) arg) rows with
  | None => r = if String.eqb arg "-h" then Ok None else Throw (unknown_option arg)
  | Some row =>
      if String.eqb arg "--help" then r = Ok None
      else if row_valued row then
        match next with
        | None => r = Throw (missing_value arg)
        | Some _ => (exists s', r = Ok (Some (s', true))) \/ (exists e, r = Throw e)
        end
      else (exists s', r = Ok (Some (s', false))) \/ (exists e, r = Throw e)
  end.

Definition step_documented (rows : list usage_row) : Prop := forall arg next s, step_kind rows arg next (step arg next s).

Lemma find_documented (rows : list usage_row) r :
  NoDup (row_name <$> rows) -> r ∈ rows -> find (fun row => String.eqb (row_name row) (row_name r)) rows = Some r.
Proof.
  induction rows as [|r0 rows IH]; [by intros _ ?%elem_of_nil|]. cbn [find fmap list_fmap].
  intros [Hni Hn]%NoDup_cons [->|Hr]%elem_of_cons; [by rewrite String.eqb_refl|].
  rewrite (proj2 (String.eqb_neq _ _)); [by apply IH|].
  intros E. apply Hni. rewrite E. by apply list_elem_of_fmap_2.
Qed.

Lemma find_undocumented (rows : list usage_row) arg :
  arg ∉ row_name <$> rows -> find (fun row => String.eqb (row_name row) arg) rows = None.
Proof.
  induction rows as [|r rows IH]; [done|]. cbn [fmap list_fmap find]. intros [Hne Hni]%not_elem_of_cons.
  rewrite (proj2 (String.eqb_neq _ _)) by congruence. by apply IH.
Qed.

(** What is left to compare on a text: the flags and the quoted defaults, at the start. *)
Definition accepts_flag (start : S) (r : usage_row) : Prop :=
  row_valued r = false -> row_name r = "--help"%string \/ exists s', forall next, step (row_name r) next start = Ok (Some (s', false)).
Definition keeps_default (view : S -> O) (start : S) (r : usage_row) : Prop :=
  forall text, row_default r = Some text ->
    exists s', view s' = view start /\ step (row_name r) (Some text) start = Ok (Some (s', true)).

Lemma documents_by_steps (view : S -> O) (start : S) loop rows :
  stepwise loop -> step_documented rows -> NoDup (row_name <$> rows) ->
  {| row_name := "--help"; row_valued := false; row_default := None |} ∈ rows ->
  "-h"%string ∉ row_name <$> rows ->
  Forall (accepts_flag start) rows -> Forall (keeps_default view start) rows -> documents loop view start rows.
Proof.
  intros Hl Hs Hn Hhelp Hh Hflags Hdefaults.
  assert (Hrow : forall r next s, r ∈ rows -> row_valued r = true ->
    match next with
    | None => step (row_name r) next s = Throw (missing_value (row_name r))
    | Some _ => (exists s', step (row_name r) next s = Ok (Some (s', true))) \/ (exists e, step (row_name r) next s = Throw e)
    end).
  { intros r next s Hr Hv. specialize (Hs (row_name r) next s). unfold step_kind in Hs. rewrite find_documented, Hv in Hs by done.
    destruct (String.eqb_spec (row_name r) "--help") as [E|]; [|done].
    pose proof (find_documented rows r Hn Hr) as H1. pose proof (find_documented rows _ Hn Hhelp) as H2. cbn [row_name] in H2.
    rewrite E, H2 in H1. by injection H1 as <-. }
  constructor.
  - split; [apply (list_elem_of_fmap_2 row_name) in Hhelp; exact Hhelp|]. intros arg args s Harg. rewrite Hl.
    specialize (Hs arg (head args) s). unfold step_kind in Hs. destruct Harg as [->| ->].
    + apply find_documented in Hhelp; [|done]. cbn [row_name] in Hhelp. rewrite Hhelp in Hs. cbn [String.eqb Ascii.eqb Bool.eqb] in Hs. by rewrite Hs.
    + rewrite find_undocumented in Hs by done. cbn [String.eqb Ascii.eqb Bool.eqb] in Hs. by rewrite Hs.
  - intros arg args s Ha Hne. rewrite Hl. specialize (Hs arg (head args) s). unfold step_kind in Hs.
    rewrite find_undocumented, (proj2 (String.eqb_neq _ _)) in Hs by done. by rewrite Hs.
  - intros r s Hr Hv. rewrite Hl. cbn [head]. by rewrite (Hrow r None s Hr Hv).
  - intros r value s Hr Hv. destruct (Hrow r (Some value) s Hr Hv) as [[s' E]|[e E]];
      [left; exists s'|right; exists e]; intros args; rewrite Hl; cbn [head]; by rewrite E.
  - intros r Hr Hv Hne. apply Forall_forall with (x := r) in Hflags; [|done]. destruct (Hflags Hv) as [|[s' Hs']]; [done|].
    exists s'. intros args. rewrite Hl. by rewrite Hs'.
  - intros r text Hr Hd. apply Forall_forall with (x := r) in Hdefaults; [|done].
    destruct (Hdefaults text Hd) as (s' & Hv & Hs'). exists s'. split; [done|]. intros args. rewrite Hl. cbn [head]. by rewrite Hs'.
Qed.
End Steps.

(** ** Chains of comparisons *)

(** A computation that ends with a value or throws. *)
Ltac goes_or_throws :=
  unfold mbind, result_bind; cbv beta iota;
  repeat (match goal with
    | |- context [match ?x with Ok _ => _ | Throw _ => _ end] =>
        lazymatch x with context [match _ with _ => _ end] => fail | _ => destruct x end
    | |- context [if ?c then _ else _] => destruct c
    | |- context [match ?x with Some _ => _ | None => _ end] => destruct x
    end; cbv beta iota);
  first [left; eexists; reflexivity|right; eexists; reflexivity].

(** One branch for each comparison of the step; [rows] is the evaluated table. *)
Ltac option_branch next :=
  lazy beta iota delta [find row_name row_valued String.eqb Ascii.eqb Bool.eqb];
  first [ reflexivity
        | destruct next; [goes_or_throws|reflexivity]
        | goes_or_throws ].
Ltac by_option next rows :=
  repeat (case_bool_decide; [subst; unfold step_kind, rows; option_branch next|cbn [orb]]);
  unfold step_kind, rows; cbn [find row_name];
  rewrite !(proj2 (String.eqb_neq _ _)) by congruence; reflexivity.

(** A property of each row of an evaluated table. *)
Ltac each_row rows := unfold rows; repeat (apply Forall_cons; split); [..|apply Forall_nil_2].

(** The flags from a closed state. *)
Ltac flag_row := intros Hv; first [discriminate Hv|left; reflexivity|right; eexists; intros next; reflexivity].

(** The same options, computed. *)
Ltac default_row := split; [reflexivity|vm_compute; reflexivity].

(** ** The station *)

Section Station.
Variable strtod : string -> strtod_result.

Definition station_step (arg : string) (next : option string) (s : Options * bool) : result (option ((Options * bool) * bool)) :=
  t ← option_step strtod arg next s.1 s.2;
  Ok (match t with Exits => None | Continues o explicit taken => Some ((o, explicit), taken) end).

Definition station_loop (args : list string) (s : Options * bool) : result (option (Options * bool)) :=
  parse_loop strtod args s.1 s.2.

Lemma station_stepwise : stepwise station_step id station_loop.
Proof.
  intros arg args [o explicit]. unfold station_loop, station_step. cbn [parse_loop fst snd].
  destruct (option_step _ _ _ _ _) as [[|o' explicit' taken]|e]; [done| |done]. destruct taken; [|done]. by destruct args.
Qed.

Definition station_rows : list usage_row := Eval vm_compute in usage_rows station_usage.
Lemma station_rows_eq : usage_rows station_usage = station_rows.
Proof. vm_compute. reflexivity. Qed.

Lemma station_documented : step_documented station_step station_rows.
Proof.
  intros arg next [o explicit]. unfold station_step, option_step. cbv zeta. cbn [fst snd].
  by_option next station_rows.
Qed.

Lemma station_usage_documents : reads_decimals strtod ->
  documents station_loop fst (default_options, false) (usage_rows station_usage).
Proof.
  intros Hd. rewrite station_rows_eq. apply (documents_by_steps station_step id).
  - apply station_stepwise.
  - apply station_documented.
  - decide_now.
  - decide_now.
  - decide_now.
  - each_row station_rows; flag_row.
  - pose proof (Hd "0.10"%string 10 100 eq_refl ltac:(cbn; lia)) as H10.
    pose proof (Hd "0.03"%string 3 100 eq_refl ltac:(cbn; lia)) as H03.
    each_row station_rows; intros text E; try discriminate E; injection E as <-.
    all: first [exists (default_options, false); default_row|exists (default_options, true); default_row
               |exists (default_options, false); split; [reflexivity|]; vm_compute; rewrite ?H10, ?H03; vm_compute; reflexivity].
Qed.
End Station.

(** ** The simulator *)

Section Simulator.
Variable strtod : string -> strtod_result.
Variable random_seed : Z.

Definition sim_step (arg : string) (next : option string) (s : SimulatorOptions * flags)
  : result (option ((SimulatorOptions * flags) * bool)) :=
  t ← simulator_step strtod arg next s.1 s.2;
  Ok (match t with SimExits => None | SimContinues o fl taken => Some ((o, fl), taken) end).

Definition sim_loop (args : list string) (s : SimulatorOptions * flags) : result (option (SimulatorOptions * flags)) :=
  simulator_loop strtod args s.1 s.2.

Lemma sim_stepwise : stepwise sim_step id sim_loop.
Proof.
  intros arg args [o fl]. unfold sim_loop, sim_step. cbn [simulator_loop fst snd].
  destruct (simulator_step _ _ _ _ _) as [[|o' fl' taken]|e]; [done| |done]. destruct taken; [|done]. by destruct args.
Qed.

Definition simulator_rows : list usage_row := Eval vm_compute in usage_rows simulator_usage.
Lemma simulator_rows_eq : usage_rows simulator_usage = simulator_rows.
Proof. vm_compute. reflexivity. Qed.

Lemma sim_documented : step_documented sim_step simulator_rows.
Proof.
  intros arg next [o fl]. unfold sim_step, simulator_step. cbv zeta. cbn [fst snd].
  by_option next simulator_rows.
Qed.

Lemma simulator_usage_documents : reads_decimals strtod ->
  documents sim_loop fst (simulator_defaults random_seed, no_flags) (usage_rows simulator_usage).
Proof.
  intros Hd. rewrite simulator_rows_eq. apply (documents_by_steps sim_step id).
  - apply sim_stepwise.
  - apply sim_documented.
  - decide_now.
  - decide_now.
  - decide_now.
  - each_row simulator_rows; flag_row.
  - pose proof (Hd "100"%string 100 1 eq_refl ltac:(cbn; lia)) as H100.
    pose proof (Hd "5"%string 5 1 eq_refl ltac:(cbn; lia)) as H5.
    pose proof (Hd "1.0"%string 10 10 eq_refl ltac:(cbn; lia)) as H1.
    pose proof (Hd "0"%string 0 1 eq_refl ltac:(cbn; lia)) as H0.
    each_row simulator_rows; intros text E; try discriminate E; injection E as <-.
    all: unfold sim_step, simulator_step, parseFiniteFloat, parseFiniteDouble, requireValue, mbind, result_bind;
      cbv beta iota zeta; cbn [row_name]; rewrite ?H100, ?H5, ?H1, ?H0.
    all: eexists; split; [|vm_compute; reflexivity]; vm_compute; reflexivity.
Qed.
End Simulator.

(** ** The port check *)

(** A turn of [check_loop], which takes the argument of an option as [requireValue] does. *)
Definition check_step (arg : string) (next : option string) (o : check_options) : result (option (check_options * bool)) :=
  if bool_decide (arg = "--help") || bool_decide (arg = "-h") then Ok None
  else if bool_decide (arg = "--no-color") then
    Ok (Some ({| check_host := check_host o; check_ports := check_ports o; check_timeout := check_timeout o; check_color := false |}, false))
  else if bool_decide (arg = "--host") then
    value ← requireValue arg next;
    Ok (Some ({| check_host := value; check_ports := check_ports o; check_timeout := check_timeout o; check_color := check_color o |}, true))
  else if bool_decide (arg = "--ports") then
    value ← requireValue arg next; range ← parsePortRange value "--ports";
    Ok (Some ({| check_host := check_host o; check_ports := range; check_timeout := check_timeout o; check_color := check_color o |}, true))
  else if bool_decide (arg = "--timeout-ms") then
    value ← requireValue arg next; timeout ← parseUnsigned (2 ^ 32 - 1) value "--timeout-ms" 1 MaximumPortProbeTimeout;
    Ok (Some ({| check_host := check_host o; check_ports := check_ports o; check_timeout := timeout; check_color := check_color o |}, true))
  else Throw (runtime_error ("unknown option: " +:+ arg)).

Lemma check_stepwise : stepwise check_step id check_loop.
Proof.
  intros arg args o. cbn [check_loop]. unfold check_step.
  destruct (_ || _); [done|]. destruct (bool_decide (arg = "--no-color")); [done|].
  destruct (bool_decide (arg = "--host")); [by destruct args|].
  destruct (bool_decide (arg = "--ports")); [destruct args as [|v args]; [done|]; cbn [head requireValue]; bind_some; by destruct (parsePortRange v _)|].
  destruct (bool_decide (arg = "--timeout-ms")); [|done].
  destruct args as [|v args]; [done|]. cbn [head requireValue]. bind_some. by destruct (parseUnsigned _ v _ _ _).
Qed.

Definition check_rows : list usage_row := Eval vm_compute in usage_rows check_usage.
Lemma check_rows_eq : usage_rows check_usage = check_rows.
Proof. vm_compute. reflexivity. Qed.

Lemma check_documented : step_documented check_step check_rows.
Proof. intros arg next o. unfold check_step. by_option next check_rows. Qed.

Lemma check_usage_documents : documents check_loop id check_defaults (usage_rows check_usage).
Proof.
  rewrite check_rows_eq. apply (documents_by_steps check_step id).
  - apply check_stepwise.
  - apply check_documented.
  - decide_now.
  - decide_now.
  - decide_now.
  - each_row check_rows; flag_row.
  - each_row check_rows; intros text E; try discriminate E; injection E as <-; exists check_defaults; default_row.
Qed.

(** C19: the usage texts of the three programs and their parsers agree. What a text documents is what
    the parser knows, and nothing else but [-h] is accepted: every other argument is an unknown
    option. An option that is written with a value takes the argument behind it, whatever it is, or
    refuses it, and misses it at the end of the line; one that is written without a value is accepted
    alone and takes nothing. Each default that a text quotes is the program's: to give it changes no
    option. [strtod] is only asked to read short decimals. *)
Theorem usage_documents_parsers : forall strtod random_seed, reads_decimals strtod ->
  documents (station_loop strtod) fst (default_options, false) (usage_rows station_usage) /\
  documents (sim_loop strtod) fst (simulator_defaults random_seed, no_flags) (usage_rows simulator_usage) /\
  documents check_loop id check_defaults (usage_rows check_usage).
Proof.
  intros strtod random_seed Hd. split_and!;
    [by apply station_usage_documents|by apply simulator_usage_documents|apply check_usage_documents].
Qed.

(** A [strtod] that reads the decimals. *)
Definition decimal_strtod (text : string) : strtod_result :=
  match decimal_value text with
  | Some (n, d) => {| parsed_double := f64_literal n d; parsed_length := String.length text; erange := false |}
  | None => {| parsed_double := f64_of_Z 0; parsed_length := 0; erange := false |}
  end.

Lemma usage_documents_parsers_witness :
  reads_decimals decimal_strtod /\
  parse_loop decimal_strtod ["--port"; "9000"; "--udp"; "-x"] default_options false = Throw (unknown_option "-x") /\
  (forall args s, station_loop decimal_strtod ("-x" :: args)%string s = Throw (unknown_option "-x")).
Proof.
  assert (Hd : reads_decimals decimal_strtod) by (intros text n d E _; unfold decimal_strtod; rewrite E; reflexivity).
  split; [exact Hd|]. split; [vm_compute; reflexivity|].
  destruct (usage_documents_parsers decimal_strtod 7 Hd) as (Hs & _ & _).
  intros args s. apply (doc_unknown _ _ _ _ Hs); [|discriminate].
  rewrite station_rows_eq. apply (bool_decide_unpack _). vm_compute. exact I.
Defined.
