(* ===== verification/Simulator.v ===== *)
(** The simulated satellite: apps/satellite_simulator/SimulatorFrameFactory.cpp, SimulatorSocket.cpp
    and the loop of SimulatorApp.cpp.

    The random numbers are the class [Random]: the state of the generator and one draw for each
    distribution the sources use, with the ranges that the standard gives them as laws
    ([RandomLaws]). The clock and the mathematical library are arguments. What a socket answers to
    [send()] is a script. *)

From S2P Require Import Prelude ByteUtils Crc32 TextFormat FrameCodec Floats ApplicationPayload Replay SignalProcessing CliParsing PortDiagnostics NetworkServer GroundStationOptions SimulatorOptions.

(** ** Sending *)

(** [send()]: the number of bytes taken, or a failure. *)
Inductive send_result := Sent (count : Z) | SendFailed (e : errno).

Section Sending.
Variable strerror : errno -> string.

(** [sendAll] from the index [sent]: the bytes the socket took, and how it ended. [None] when the
    script ends, or answers more than it was given. *)
Fixpoint sendAll_loop (bs : bytes) (sent : Z) (script : list send_result) : option (bytes * result unit) :=
  if sent <? size bs then
    match script with
    | [] => None
    | SendFailed EINTR :: script => sendAll_loop bs sent script
    | SendFailed e :: _ => Some ([], Throw (runtime_error ("send() failed: " +:+ strerror e)))
    | Sent count :: script =>
        if count =? 0
        then Some ([], Throw (runtime_error "send() returned zero before the frame was fully transmitted"))
        else if (count <? 0) || (size bs - sent <? count) then None
        else '(taken, r) ← sendAll_loop bs (sent + count) script;
             Some (subspan bs sent count ++ taken, r)
    end
  else Some ([], Ok tt).

Definition sendAll (bs : bytes) (script : list send_result) : option (bytes * result unit) :=
  sendAll_loop bs 0 script.

Lemma sendAll_loop_spec bs sent script taken r :
  0 <= sent <= size bs -> sendAll_loop bs sent script = Some (taken, r) ->
  taken `prefix_of` drop (Z.to_nat sent) bs /\ (r = Ok tt -> taken = drop (Z.to_nat sent) bs).
Proof.
  revert sent taken r. induction script as [|x script IH]; intros sent taken r Hs; cbn [sendAll_loop];
    destruct (Z.ltb_spec sent (size bs)) as [Hlt|Hge]; try done.
  - intros [= <- <-]. rewrite drop_ge by (unfold size in *; lia). by split; [apply prefix_nil|].
  - destruct x as [count|[]].
    + destruct (count =? 0) eqn:H0; [intros [= <- <-]; by split; [apply prefix_nil|]|].
      destruct (_ || _) eqn:Hb; [done|]. reflect_Z.
      destruct (sendAll_loop bs (sent + count) script) as [[taken1 r1]|] eqn:Hr; cbn [mbind option_bind]; [|done].
      intros [= <- <-]. apply IH in Hr as [Hp He]; [|lia].
      assert (Hsplit : drop (Z.to_nat sent) bs = subspan bs sent count ++ drop (Z.to_nat (sent + count)) bs).
      { unfold subspan. rewrite <- (take_drop (Z.to_nat count) (drop (Z.to_nat sent) bs)) at 1.
        f_equal. rewrite drop_drop. f_equal. lia. }
      rewrite Hsplit. split; [by apply prefix_app|]. intros Hok. by rewrite He.
    + apply IH. lia.
    + intros [= <- <-]. by split; [apply prefix_nil|].
    + intros [= <- <-]. by split; [apply prefix_nil|].
  - intros [= <- <-]. rewrite drop_ge by (unfold size in *; lia). by split; [apply prefix_nil|].
Qed.
End Sending.

(** ** Random numbers *)

Class Random (rng : Type) := {
  draw_temperature : rng -> Z * rng;                           (* normal_distribution<float>(22, 4), its bits *)
  draw_status : rng -> Z * rng;                                (* discrete_distribution of four weights *)
  draw_byte : rng -> Z * rng;                                  (* uniform_int_distribution(0, 255) *)
  draw_noise : Z -> nat -> rng -> list spec_float * rng;       (* normal_distribution<float>(0, stddev), n times *)
  draw_index : Z -> rng -> Z * rng;                            (* uniform_int_distribution(0, max) *)
  draw_probability : rng -> spec_float * rng;                  (* uniform_real_distribution(0, 1) *)
}.

Class RandomLaws (rng : Type) `{Random rng} := {
  temperature_law r : fits 32 (fst (draw_temperature r)) /\ isfinite (fst (draw_temperature r)) = true;
  status_law r : 0 <= fst (draw_status r) <= 3;
  byte_law r : is_byte (fst (draw_byte r));
  noise_law stddev n r : length (fst (draw_noise stddev n r)) = n;
  index_law max r : 0 <= max -> 0 <= fst (draw_index max r) <= max;
}.

Section Factory.
Context {rng : Type} `{Random rng}.
Variable math : libm.

(** [nowMs()] for the frame with this number. *)
Variable nowMs : Z -> Z.

Definition CorruptionXorMask : Z := 0x5A.
Definition SimulationBatteryCycleLength : Z := MaxBatteryPercent + 1.

Fixpoint draw_bytes (n : nat) (r : rng) : bytes * rng :=
  match n with
  | O => ([], r)
  | S n => let '(b, r) := draw_byte r in let '(bs, r) := draw_bytes n r in (b :: bs, r)
  end.

Definition makeRandomPayload (o : SimulatorOptions) (r : rng) : bytes * rng :=
  draw_bytes (Z.to_nat (payloadSize o)) r.

Definition f32_add : spec_float -> spec_float -> spec_float := SFadd prec32 emax32.

(** The samples of a block: the sine at the absolute index, in double precision, and its noise. *)
Definition signal_samples (o : SimulatorOptions) (startIndex : Z) (noise : list spec_float) : list spec_float :=
  let angularStep := f64_div (f64_mul TwoPi (widen (f32 (signalFrequencyHz o)))) (f64_of_Z (sim_sampleRateHz o)) in
  imap (fun i n =>
          let absoluteIndex := startIndex + Z.of_nat i in
          let clean := f64_mul (widen (f32 (signalAmplitude o)))
                               (sin_ math (f64_mul angularStep (f64_of_Z absoluteIndex))) in
          f32_add (narrow clean) n) noise.

Definition signal_block (o : SimulatorOptions) (startIndex : Z) (noise : list spec_float) : SignalBlockPayload :=
  {| sampleRateHz := sim_sampleRateHz o; frequencyHz := signalFrequencyHz o;
     nominalAmplitude := signalAmplitude o; startSampleIndex := startIndex;
     ApplicationPayload.samples := bits32 <$> signal_samples o startIndex noise |}.

Definition makeSignalPayload (o : SimulatorOptions) (r : rng) (blockIndex : Z) : result (bytes * rng) :=
  let startIndex64 := blockIndex * signalSamples o in
  throw_if (startIndex64 >? u32_max) (runtime_error "signal sample index exceeds STGA v1 32-bit range") ;;
  let '(noise, r) := draw_noise (noiseStddev o) (Z.to_nat (signalSamples o)) r in
  bs ← encodeSignalBlockPayload (signal_block o startIndex64 noise);
  Ok (bs, r).

Definition makeFrame (o : SimulatorOptions) (r : rng) (sequence : Z) : result (TelemetryFrame * rng) :=
  let '(temperature, r) := draw_temperature r in
  let '(st, r) := draw_status r in
  let frame (p : bytes) : TelemetryFrame :=
    {| version := ProtocolVersion; satelliteId := sim_satelliteId o; timestampMs := nowMs sequence;
       temperatureC := temperature;
       batteryPercent := MaxBatteryPercent - sequence mod SimulationBatteryCycleLength;
       status := st; payload := p |} in
  match payloadMode o with
  | RandomBytes => let '(p, r) := makeRandomPayload o r in Ok (frame p, r)
  | TextMessageMode =>
      p ← encodeTextMessagePayload
            {| ApplicationPayload.sequence := sequence mod 2 ^ 32; text := string_bytes (message_text o) |};
      Ok (frame p, r)
  | SignalMode => '(p, r) ← makeSignalPayload o r sequence; Ok (frame p, r)
  end.

(** [bytes[i] ^= mask]: [None] out of range. *)
Definition maybeCorrupt (bs : bytes) (r : rng) : option (bytes * rng) :=
  match bs with
  | [] => Some (bs, r)
  | _ =>
      let '(i, r) := draw_index (size bs - 1) r in
      b ← at_ bs i;
      Some (<[Z.to_nat i := Z.lxor b CorruptionXorMask]> bs, r)
  end.

(** ** The run *)

(** The capture file, what the socket took, and the counters. *)
Record simulation := {
  sim_rng : rng;
  capture : option ofstream;
  transmitted : list bytes;
  produced : Z;
  dropped : Z;
  corrupted : Z;
}.

(** The device of the capture, and how the transmission of the frame with a number ends:
    [sendUdpFrame] or [sendAll]. There is none without a transport. *)
Variable device : bytes -> bytes -> bytes * bool.
Variable transmit : option (Z -> bytes -> option (result unit)).

(** The turn of the loop for the frame [i]. [None] is an index out of range, or a transmission that
    does not end. *)
Definition simulate_frame (o : SimulatorOptions) (i : Z) (s : simulation) : option (result simulation) :=
  match ('(frame, r) ← makeFrame o (sim_rng s) i; bs ← encodeFrame frame; Ok (bs, r)) with
  | Throw e => Some (Throw e)
  | Ok (bs, r) =>
      let '(p, r) := draw_probability r in
      if SFltb p (lossProbability o) then
        Some (Ok {| sim_rng := r; capture := capture s; transmitted := transmitted s; produced := produced s;
                    dropped := dropped s + 1; corrupted := corrupted s |})
      else
        let '(p, r) := draw_probability r in
        '(bs, r, c) ← (if SFltb p (corruptProbability o)
                       then '(bs, r) ← maybeCorrupt bs r; Some (bs, r, corrupted s + 1)
                       else Some (bs, r, corrupted s));
        sent ← match transmit with Some send => send i bs | None => Some (Ok tt) end;
        Some (_ ← sent;
              let '(out, written) :=
                match capture s with
                | Some out => let '(out, w) := writeFrame device out bs in (Some out, w)
                | None => (None, Ok tt)
                end in
              _ ← written;
              Ok {| sim_rng := r; capture := out;
                    transmitted := transmitted s ++ match transmit with Some _ => [bs] | None => [] end;
                    produced := produced s + 1; dropped := dropped s; corrupted := c |})
  end.

(** The loop: [n] frames from the number [i]. *)
Fixpoint simulate (o : SimulatorOptions) (n : nat) (i : Z) (s : simulation) : option (result simulation) :=
  match n with
  | O => Some (Ok s)
  | S n =>
      r ← simulate_frame o i s;
      match r with
      | Throw e => Some (Throw e)
      | Ok s => simulate o n (i + 1) s
      end
  end.

End Factory.

(** ** What is simulated *)

Section Laws.
Context {rng : Type} `{RandomLaws rng}.
Variable math : libm.
Variable nowMs : Z -> Z.
Context (clock_fits : forall i, fits 64 (nowMs i)).

Lemma draw_bytes_spec n r : size (fst (draw_bytes n r)) = Z.of_nat n /\ bytes_ok (fst (draw_bytes n r)).
Proof using Type*.
  revert r. induction n as [|n IH]; intros r; cbn [draw_bytes]; [by split|].
  pose proof (byte_law r) as Hb. destruct (draw_byte r) as [b r1]. cbn [fst] in Hb.
  specialize (IH r1). destruct (draw_bytes n r1) as [bs r2]. cbn [fst] in *. destruct IH as [Hs Hok].
  split; [rewrite size_cons; lia|]. by constructor.
Qed.

(** The samples of every block are numbers: the noise does not leave the range of [float]. *)
Definition noise_finite (o : SimulatorOptions) : Prop :=
  payloadMode o = SignalMode -> forall r i,
  forallb isfinite (bits32 <$> signal_samples math o i (fst (draw_noise (noiseStddev o) (Z.to_nat (signalSamples o)) r))) = true.

Lemma string_bytes_ok s : bytes_ok (string_bytes s).
Proof.
  apply Forall_fmap, Forall_true. intros c. unfold is_byte, char_code. cbn.
  pose proof (nat_ascii_bounded c). lia.
Qed.

Lemma text_bytes_ok m : bytes_ok (text m) -> bytes_ok (text_bytes m).
Proof. intros Hm. unfold text_bytes, header. rewrite !bytes_ok_app. split_and!; try apply be_ok; try done; decide_now. Qed.

Lemma words_bytes_ok vs : bytes_ok (words vs).
Proof. apply Forall_concat, Forall_fmap, Forall_true. intros v. apply be_ok. Qed.

Lemma signal_bytes_ok s : bytes_ok (signal_bytes s).
Proof.
  unfold signal_bytes, signal_layout, header. rewrite !bytes_ok_app.
  split_and!; try apply be_ok; try apply words_bytes_ok; decide_now.
Qed.

(** What [makeFrame] puts around a payload. *)
Definition frame_around (o : SimulatorOptions) (i t st : Z) (p : bytes) : TelemetryFrame :=
  {| version := ProtocolVersion; satelliteId := sim_satelliteId o; timestampMs := nowMs i;
     temperatureC := t; batteryPercent := MaxBatteryPercent - i mod SimulationBatteryCycleLength;
     status := st; payload := p |}.

Lemma frame_around_ok o r i p :
  simulator_in_range o -> bytes_ok p ->
  let '(t, r1) := draw_temperature r in
  let '(st, _) := draw_status r1 in
  frame_typed (frame_around o i t st p) /\ (size p <= MaxPayloadSize -> encodable (frame_around o i t st p) = true).
Proof using Type*.
  intros Hr Hp. pose proof (temperature_law r) as [Ht1 Ht2]. destruct (draw_temperature r) as [t r1]. cbn [fst] in Ht1, Ht2.
  pose proof (status_law r1) as Hst. destruct (draw_status r1) as [st r2]. cbn [fst] in Hst.
  pose proof (sim_range_satellite o Hr) as Hsat. unfold u16_max in Hsat. unfold frame_around.
  change SimulationBatteryCycleLength with 101. change MaxBatteryPercent with 100.
  pose proof (Z.mod_pos_bound i 101 ltac:(lia)). split.
  - constructor; cbn [version satelliteId timestampMs temperatureC batteryPercent status payload];
      try done; unfold is_byte, fits; lia.
  - intros Hs. apply encodable_spec. change MaxBatteryPercent with 100. change Status_SafeMode with 3.
    cbn [payload version temperatureC batteryPercent status]. split_and!; try done; lia.
Qed.

(** A frame that is made is one. *)
Lemma makeFrame_typed o r i f r' :
  simulator_in_range o -> makeFrame math nowMs o r i = Ok (f, r') -> frame_typed f.
Proof using Type*.
  intros Hr. unfold makeFrame. pose proof (fun p => frame_around_ok o r i p Hr) as Ha.
  destruct (draw_temperature r) as [t r1], (draw_status r1) as [st r2]. unfold frame_around in Ha.
  destruct (payloadMode o).
  - unfold makeRandomPayload. destruct (draw_bytes_spec (Z.to_nat (payloadSize o)) r2) as [_ Hok].
    destruct (draw_bytes _ r2) as [p r3]. intros [= <- _]. by apply Ha.
  - rewrite encodeText_bytes. destruct (size _ >? _); [done|]. bind_some. intros [= <- _].
    apply Ha, text_bytes_ok, string_bytes_ok.
  - unfold makeSignalPayload. destruct (_ >? _); [done|]. destruct (draw_noise _ _ r2) as [noise r3].
    destruct (encodeSignalBlockPayload _) as [p|] eqn:He; [|done]. bind_some. intros [= <- _].
    apply Ha. apply encodeSignal_ok in He as Hs. rewrite encodeSignal_bytes in He by done. injection He as <-.
    apply signal_bytes_ok.
Qed.

(** The payload of a frame that the options allow: it is made, and it fits. *)
Lemma makeFrame_ok o r i :
  simulator_valid o -> noise_finite o -> 0 <= i < frame_count o ->
  exists f r', makeFrame math nowMs o r i = Ok (f, r') /\ encodable f = true.
Proof using Type*.
  intros [Hr Hsig Htext] Hnoise Hi. unfold makeFrame. pose proof (fun p => frame_around_ok o r i p Hr) as Ha.
  destruct (draw_temperature r) as [t r1], (draw_status r1) as [st r2]. unfold frame_around in Ha.
  destruct (payloadMode o) eqn:Hm.
  - unfold makeRandomPayload. destruct (draw_bytes_spec (Z.to_nat (payloadSize o)) r2) as [Hs Hok].
    destruct (draw_bytes _ r2) as [p r3]. cbn [fst] in *. pose proof (sim_range_size o Hr).
    eexists _, _. split; [done|]. apply Ha; [done|lia].
  - specialize (Htext eq_refl). rewrite encodeText_bytes. cbn [text]. rewrite gtb_le by done. bind_some.
    eexists _, _. split; [done|]. apply Ha; [apply text_bytes_ok, string_bytes_ok|].
    unfold text_bytes. rewrite size_header, size_app, size_be. cbn [text].
    change MaxTextMessageBytes with 4086 in Htext. change MaxPayloadSize with 4096. lia.
  - destruct (Hsig eq_refl) as [Hmeta Hlast]. unfold makeSignalPayload.
    pose proof (sim_range_samples o Hr) as Hn.
    rewrite gtb_le by nia. pose proof (noise_law (noiseStddev o) (Z.to_nat (signalSamples o)) r2) as Hlen.
    specialize (Hnoise Hm r2 (i * signalSamples o)).
    destruct (draw_noise _ _ r2) as [noise r3]. cbn [fst] in *.
    set (s := signal_block math o (i * signalSamples o) noise).
    assert (Hsize : size (samples s) = signalSamples o).
    { unfold s, signal_block, signal_samples. cbn [samples]. rewrite size_fmap. unfold size.
      rewrite length_imap, Hlen. lia. }
    assert (He : signal_encodable s = true).
    { unfold signal_encodable. rewrite Hsize. cbn [s signal_block sampleRateHz frequencyHz nominalAmplitude samples].
      rewrite Hmeta, Hnoise, (proj2 (Z.leb_le _ _)) by lia. done. }
    rewrite encodeSignal_bytes by done. bind_some. eexists _, _. split; [done|].
    apply Ha; [apply signal_bytes_ok|]. pose proof (signal_parts_of s) as Hp.
    unfold signal_bytes. destruct (signal_reads _ _ _ _ _ (words (samples s)) Hp) as (_&_&_&_&_&->).
    rewrite size_words, Hsize. change SignalSamplesOffset with 22. change MaxPayloadSize with 4096.
    change MaxSignalSamplesPerPayload with 1018 in Hn. lia.
Qed.

Lemma frame_size f bs :
  frame_typed f -> encodeFrame f = Ok bs ->
  size bs = HeaderSize + size (payload f) + CrcSize /\ size (payload f) <= MaxPayloadSize.
Proof.
  intros Hf Henc. pose proof (encodeFrame_ok _ _ Henc) as He. rewrite encodeFrame_wire in Henc by done.
  assert (bs = wire f ++ be 4 (crc32 (wire f))) as -> by congruence.
  apply encodable_spec in He as [Hp _]. split; [|done]. by rewrite size_app, wire_size, size_be.
Qed.

Lemma frame_round f :
  frame_typed f -> encodable f = true -> exists bs, encodeFrame f = Ok bs /\ decodeFrame bs = Some (inl f).
Proof.
  intros Hf He. exists (wire f ++ be 4 (crc32 (wire f))). pose proof (encodeFrame_wire f He) as Henc.
  split; [done|]. by apply decode_encode.
Qed.

Lemma encode_bounds f bs : frame_typed f -> encodeFrame f = Ok bs -> frame_bounds bs.
Proof.
  intros Hf He. split; [by eapply encode_bytes_ok|].
  destruct (frame_size f bs Hf He) as [-> Hp]. change MinFrameSize with 27. change MaxFrameSize with 4123.
  change HeaderSize with 23. change CrcSize with 4. change MaxPayloadSize with 4096 in Hp.
  pose proof (size_nonneg (payload f)). lia.
Qed.

(** One octet of an encoded frame is changed: the frame stays within its bounds, and is rejected. *)
Lemma maybeCorrupt_spec f bs r :
  frame_typed f -> encodeFrame f = Ok bs ->
  exists bs' r', maybeCorrupt bs r = Some (bs', r') /\ frame_bounds bs' /\
    exists e, decodeFrame bs' = Some (inr e).
Proof using Type*.
  intros Hf He. pose proof (encode_bounds f bs Hf He) as [Hok Hsize].
  pose proof (frame_size f bs Hf He) as [Hexact _].
  change MinFrameSize with 27 in Hsize. unfold maybeCorrupt.
  destruct bs as [|b0 bs0] eqn:Hbs; [rewrite size_nil in Hsize; lia|]. rewrite <- Hbs in *.
  pose proof (index_law (size bs - 1) r ltac:(lia)) as Hi. destruct (draw_index _ r) as [i r']. cbn [fst] in Hi.
  destruct (at_inside bs i) as [b Hb]; [lia|]. rewrite Hb. cbn [mbind option_bind].
  pose proof (at_is_byte bs i b Hok Hb) as Hbyte. unfold at_ in Hb.
  assert (Hb' : is_byte (Z.lxor b CorruptionXorMask)).
  { apply (fits_lxor 8); [done|exact Hbyte|done]. }
  exists (<[Z.to_nat i := Z.lxor b CorruptionXorMask]> bs), r'. split; [done|].
  split; [split; [by apply Forall_insert|unfold size; rewrite length_insert; exact Hsize]|].
  rewrite insert_take_drop by (by eapply lookup_lt_Some).
  apply (burst_rejected f (take (Z.to_nat i) bs) [b] [Z.lxor b CorruptionXorMask] (drop (S (Z.to_nat i)) bs)).
  - done.
  - rewrite He. f_equal. symmetry. by apply take_drop_middle.
  - by constructor.
  - done.
  - cbn. lia.
  - intros [= Heq]. symmetry in Heq. apply (f_equal (Z.lxor b)) in Heq.
    rewrite <- Z.lxor_assoc, Z.lxor_nilpotent, Z.lxor_0_l in Heq. done.
  - rewrite size_drop, size_take. change HeaderSize with 23. change CrcSize with 4. change HeaderSize with 23 in Hexact.
    change CrcSize with 4 in Hexact. lia.
Qed.
End Laws.

(** ** The whole run *)

Section Whole.
Context {rng : Type} `{RandomLaws rng}.
Variable math : libm.
Variable nowMs : Z -> Z.
Context (clock_fits : forall i, fits 64 (nowMs i)).
(** A write that is reported as done is done, and every transmission ends. *)
Variable device : bytes -> bytes -> bytes * bool.
Context (device_ok : forall c d c', device c d = (c', true) -> c' = c ++ d).
Variable transmit : option (Z -> bytes -> option (result unit)).
Context (transmit_ends : match transmit with Some send => forall i bs, is_Some (send i bs) | None => True end).

Variable o : SimulatorOptions.

(** A frame of the factory and its bytes in the capture: they are decoded to the frame, or rejected
    when they were corrupted. *)
Definition decodes (x : TelemetryFrame * bool) (bs : bytes) : Prop :=
  (exists r i r', makeFrame math nowMs o r i = Ok (fst x, r')) /\
  if snd x then exists e, decodeFrame bs = Some (inr e) else decodeFrame bs = Some (inl (fst x)).

Definition corrupted_of (log : list (TelemetryFrame * bool)) : Z :=
  size (filter (fun x => snd x = true) log).

(** After [i] frames: what the capture holds, if there is one, what it decodes to, and how the frames
    were sent. *)
Record simulated (captured : bool) (i : Z) (log : list (TelemetryFrame * bool)) (fs : list bytes)
    (s : simulation (rng := rng)) : Prop := {
  sim_capture : capture s = if captured then Some {| written := FileHeader ++ concat (entry <$> fs); good := true |} else None;
  sim_bounds : Forall frame_bounds fs;
  sim_decodes : Forall2 decodes log fs;
  sim_sent : transmitted s = match transmit with Some _ => fs | None => [] end;
  sim_answers : match transmit with Some send => Forall (fun bs => exists j, send j bs = Some (Ok tt)) fs | None => True end;
  sim_produced : produced s = size fs;
  sim_dropped : dropped s = i - size fs;
  sim_corrupted : corrupted s = corrupted_of log;
}.

(** Nothing fails: the noise stays finite, the disk and the socket take everything. *)
Definition smooth : Prop :=
  noise_finite math o /\ (forall c d, device c d = (c ++ d, true)) /\
  match transmit with Some send => forall i bs, send i bs = Some (Ok tt) | None => True end.

Lemma corrupted_of_snoc log f c : corrupted_of (log ++ [(f, c)]) = corrupted_of log + (if c then 1 else 0).
Proof.
  unfold corrupted_of. rewrite filter_app, size_app. f_equal. rewrite filter_cons. cbn [snd].
  destruct c; [by rewrite decide_True|by rewrite decide_False].
Qed.

(** One more frame. *)
Lemma simulated_snoc captured i log fs s f c bs r :
  simulated captured i log fs s -> frame_bounds bs -> decodes (f, c) bs ->
  match transmit with Some send => exists j, send j bs = Some (Ok tt) | None => True end ->
  simulated captured (i + 1) (log ++ [(f, c)]) (fs ++ [bs])
    {| sim_rng := r;
       capture := if captured then Some {| written := FileHeader ++ concat (entry <$> fs ++ [bs]); good := true |} else None;
       transmitted := transmitted s ++ match transmit with Some _ => [bs] | None => [] end;
       produced := produced s + 1; dropped := dropped s; corrupted := corrupted s + (if c then 1 else 0) |}.
Proof using Type*.
  intros [A1 A2 A3 A4 A5 A6 A7 A8] Hb Hd Hs. constructor; cbn [capture transmitted produced dropped corrupted].
  - done.
  - apply Forall_app. split; [done|by constructor].
  - apply Forall2_app; [done|by constructor].
  - rewrite A4. by destruct transmit.
  - destruct transmit; [|done]. apply Forall_app. split; [done|by constructor].
  - rewrite A6, size_app, size_cons, size_nil. lia.
  - rewrite A7, size_app, size_cons, size_nil. lia.
  - by rewrite A8, corrupted_of_snoc.
Qed.

(** A write of a frame to the capture, done or not. *)
Lemma writeFrame_device c bs :
  frame_bounds bs ->
  exists out r, writeFrame device {| written := c; good := true |} bs = (out, r) /\
    (r = Ok tt -> out = {| written := c ++ entry bs; good := true |}) /\
    ((forall c d, device c d = (c ++ d, true)) -> r = Ok tt).
Proof using Type*.
  intros [Hok [Hmin Hmax]]. unfold writeFrame.
  rewrite (proj2 (Z.ltb_ge _ _)), gtb_le by lia. cbn [orb].
  change MaxFrameSize with 4123 in Hmax. pose proof (size_nonneg bs).
  rewrite Z.mod_small, appendU32BE_be by lia. cbn [app]. unfold ostream_write. cbn [good written].
  destruct (device c (be 4 (size bs))) as [c1 ok1] eqn:A1. cbn [good written]. destruct ok1; cbn [good written negb].
  - apply device_ok in A1 as ->. destruct (device _ bs) as [c2 ok2] eqn:A2. cbn [good]. destruct ok2; cbn [negb].
    + apply device_ok in A2 as ->. eexists _, _. split; [done|]. split; [|done]. intros _. by rewrite <- app_assoc.
    + eexists _, _. split; [done|]. split; [done|]. intros Hd. rewrite Hd in A2. done.
  - eexists _, _. split; [done|]. split; [done|]. intros Hd. rewrite Hd in A1. done.
Qed.

(** A corrupted frame or the frame itself. *)
Lemma corruption_ok f bs (b : bool) (n : Z) r i r0 r1 :
  frame_typed f -> encodeFrame f = Ok bs -> makeFrame math nowMs o r0 i = Ok (f, r1) ->
  exists bs' r' c, (if b then '(bs, r) ← maybeCorrupt bs r; Some (bs, r, n + 1) else Some (bs, r, n))
      = Some (bs', r', n + (if c : bool then 1 else 0)) /\
    frame_bounds bs' /\ decodes (f, c) bs'.
Proof using Type*.
  intros Hf Henc Hmake. destruct b.
  - destruct (maybeCorrupt_spec f bs r Hf Henc) as (b' & r' & -> & Hb & Hrej). cbn [mbind option_bind].
    exists b', r', true. split_and!; [done|done|]. split; [by eexists _, _, _|done].
  - exists bs, r, false. rewrite Z.add_0_r. split_and!; [done|by eapply encode_bounds|].
    split; [by eexists _, _, _|]. cbn [snd fst]. pose proof (encodeFrame_ok _ _ Henc) as He.
    destruct (frame_round f Hf He) as (bs' & Henc' & Hdec). congruence.
Qed.

Lemma simulate_frame_spec captured i log fs s :
  simulator_valid o -> 0 <= i < frame_count o -> simulated captured i log fs s ->
  exists x, simulate_frame math nowMs device transmit o i s = Some x /\
    (forall s', x = Ok s' -> exists log' fs', simulated captured (i + 1) (log ++ log') (fs ++ fs') s') /\
    (smooth -> is_ok x = true).
Proof using Type*.
  intros Ho Hi Hs. unfold simulate_frame, smooth.
  destruct (makeFrame math nowMs o (sim_rng s) i) as [[f r1]|e] eqn:Hmake.
  2: { eexists. split; [done|]. split; [done|]. intros (Hn & _).
       destruct (makeFrame_ok math nowMs clock_fits o (sim_rng s) i Ho Hn Hi) as (f & r' & Hm & _). congruence. }
  bind_some. pose proof (makeFrame_typed math nowMs clock_fits o _ _ _ _ (sim_ok_range o Ho) Hmake) as Hf.
  destruct (encodeFrame f) as [bs|e] eqn:Henc.
  2: { eexists. split; [done|]. split; [done|]. intros (Hn & _).
       destruct (makeFrame_ok math nowMs clock_fits o (sim_rng s) i Ho Hn Hi) as (f' & r' & Hm & He).
       destruct (frame_round f Hf) as (bs & Hb & _); congruence. }
  bind_some. destruct (draw_probability r1) as [p r2]. destruct (SFltb p (lossProbability o)).
  - eexists. split; [done|]. split; [|done]. intros s' [= <-]. exists [], []. rewrite !app_nil_r.
    destruct Hs as [A1 A2 A3 A4 A5 A6 A7 A8].
    constructor; cbn [capture transmitted produced dropped corrupted]; try done. lia.
  - destruct (draw_probability r2) as [p' r3].
    destruct (corruption_ok f bs (SFltb p' (corruptProbability o)) (corrupted s) r3 i _ _ Hf Henc Hmake) as (b & r4 & c & -> & Hb & Hd).
    cbn [mbind option_bind].
    assert (Hsend : exists y, match transmit with Some send => send i b | None => Some (Ok tt) end = Some y).
    { destruct transmit as [send|]; [apply transmit_ends|by eexists]. }
    destruct Hsend as [y Hy]. rewrite Hy. cbn [mbind option_bind]. destruct y as [[]|e].
    2: { eexists. split; [done|]. split; [done|]. intros (_ & _ & Ht). destruct transmit; [rewrite Ht in Hy|]; done. }
    assert (Hj : match transmit with Some send => exists j, send j b = Some (Ok tt) | None => True end)
      by (destruct transmit; [by exists i|done]).
    pose proof (fun r => simulated_snoc captured i log fs s f c b r Hs Hb Hd Hj) as Hnext.
    bind_some. rewrite (sim_capture _ _ _ _ _ Hs). destruct captured.
    + assert (Hc : FileHeader ++ concat (entry <$> fs ++ [b]) = (FileHeader ++ concat (entry <$> fs)) ++ entry b)
        by by rewrite fmap_app, concat_app, <- app_assoc; cbn; rewrite app_nil_r.
      rewrite Hc in Hnext. set (contents := FileHeader ++ concat (entry <$> fs)) in *.
      destruct (writeFrame_device contents b Hb) as (out & w & -> & Hout & Hok).
      eexists. split; [done|]. split; [|intros (_ & Hdev & _); by rewrite Hok].
      intros s' Hx. destruct w as [[]|]; [|done]. rewrite Hout in Hx by done. bind_some.
      injection Hx as <-. exists [(f, c)], [b]. apply Hnext.
    + eexists. split; [done|]. split; [|done]. intros s' [= <-]. exists [(f, c)], [b]. apply Hnext.
Qed.

Lemma simulate_spec captured n i log fs s :
  simulator_valid o -> 0 <= i -> i + Z.of_nat n <= frame_count o -> simulated captured i log fs s ->
  exists x, simulate math nowMs device transmit o n i s = Some x /\
    (forall s', x = Ok s' -> exists log' fs', simulated captured (i + Z.of_nat n) log' fs' s') /\
    (smooth -> is_ok x = true).
Proof using Type*.
  intros Ho. revert i log fs s. induction n as [|n IH]; intros i log fs s Hi Hc Hs; cbn [simulate].
  - eexists. split; [done|]. split; [|done]. intros s' [= <-]. exists log, fs. by rewrite Z.add_0_r.
  - destruct (simulate_frame_spec captured i log fs s Ho ltac:(lia) Hs) as ([s1|e] & -> & A1 & A2); cbn [mbind option_bind].
    + destruct (A1 s1 eq_refl) as (log1 & fs1 & Hs1).
      destruct (IH (i + 1) _ _ s1 ltac:(lia) ltac:(lia) Hs1) as (x & Hr & A3 & A4).
      exists x. split; [done|]. split; [|done]. by replace (i + Z.of_nat (S n)) with (i + 1 + Z.of_nat n) by lia.
    + eexists. by split.
Qed.

(** The run from its beginning, and the file it leaves. *)
Definition simulation_start (r : rng) (out : option ofstream) : simulation :=
  {| sim_rng := r; capture := out; transmitted := []; produced := 0; dropped := 0; corrupted := 0 |}.

Lemma simulation_run r (captured : bool) :
  simulator_valid o ->
  exists x, simulate math nowMs device transmit o (Z.to_nat (frame_count o)) 0
      (simulation_start r (if captured then Some {| written := FileHeader; good := true |} else None)) = Some x /\
    (forall s, x = Ok s -> exists log fs, simulated captured (frame_count o) log fs s /\
       (forall path file, capture s = Some file -> readFile path (written file) = Some (fs, Ok tt))) /\
    (smooth -> is_ok x = true).
Proof using Type*.
  intros Ho. pose proof (sim_range_count o (sim_ok_range o Ho)) as Hc.
  destruct (simulate_spec captured (Z.to_nat (frame_count o)) 0 [] []
    (simulation_start r (if captured then Some {| written := FileHeader; good := true |} else None))
    Ho ltac:(lia) ltac:(lia)) as (x & Hx & A1 & A2).
  { constructor; cbn; try done; by destruct transmit. }
  exists x. split; [done|]. split; [|done]. intros s Hs. destruct (A1 s Hs) as (log & fs & Hsim).
  rewrite Z2Nat.id in Hsim by lia. exists log, fs. split; [done|].
  intros path file Hf. rewrite (sim_capture _ _ _ _ _ Hsim) in Hf. destruct captured; [|done]. injection Hf as <-.
  cbn [written]. rewrite <- (app_nil_r (concat _)). apply readFile_entries; [apply Hsim|].
  intros [|fuel] Hfuel; [cbn in Hfuel; lia|]. done.
Qed.
End Whole.

(** ** Properties *)

Lemma healthy_ok c d c' : healthy c d = (c', true) -> c' = c ++ d.
Proof. by intros [= <-]. Qed.

Lemma sends_end (transmit : option (Z -> bytes -> option (result unit))) :
  match transmit with Some send => forall i bs, send i bs = Some (Ok tt) | None => True end ->
  match transmit with Some send => forall i bs, is_Some (send i bs) | None => True end.
Proof. destruct transmit; [|done]. intros Ht i bs. by rewrite Ht. Qed.

(** The bytes an interrupted and partial transmission answers with: each piece behind some
    interruptions. *)
Definition partial_sends (pieces : list (nat * bytes)) : list send_result :=
  concat ((fun '(k, piece) => replicate k (SendFailed EINTR) ++ [Sent (size piece)]) <$> pieces).

Lemma sendAll_pieces strerror bs sent pieces :
  0 <= sent -> drop (Z.to_nat sent) bs = concat (snd <$> pieces) -> sent <= size bs ->
  Forall (fun x => snd x <> []) pieces ->
  sendAll_loop strerror bs sent (partial_sends pieces) = Some (drop (Z.to_nat sent) bs, Ok tt).
Proof.
  intros H0 Hd Hs Hp. revert sent H0 Hd Hs. induction Hp as [|[k piece] pieces Hne _ IH]; intros sent H0 Hd Hs.
  - cbn in Hd. rewrite Hd. apply (f_equal length) in Hd. rewrite length_drop in Hd. cbn in Hd.
    cbn [partial_sends fmap list_fmap concat sendAll_loop].
    rewrite (proj2 (Z.ltb_ge _ _)); [done|]. unfold size in *. lia.
  - cbn [fmap list_fmap snd concat] in Hd. unfold partial_sends. cbn [fmap list_fmap concat].
    fold (partial_sends pieces). cbn [snd] in Hne.
    assert (Hpiece : 0 < size piece) by (destruct piece; [done|rewrite size_cons; pose proof (size_nonneg piece); lia]).
    assert (Hlen : size bs - sent = size piece + size (concat (snd <$> pieces))).
    { apply (f_equal size) in Hd. rewrite size_drop, size_app in Hd. lia. }
    pose proof (size_nonneg (concat (snd <$> pieces))).
    induction k as [|k IHk]; cbn [replicate app sendAll_loop].
    + rewrite (proj2 (Z.ltb_lt _ _)) by lia. rewrite (proj2 (Z.eqb_neq _ _)) by lia.
      rewrite (proj2 (Z.ltb_ge (size piece) 0)), (proj2 (Z.ltb_ge (size bs - sent) (size piece))) by lia. cbn [orb].
      assert (Hd' : drop (Z.to_nat (sent + size piece)) bs = concat (snd <$> pieces)).
      { rewrite Z2Nat.inj_add, <- drop_drop, Hd by lia. unfold size. by rewrite Nat2Z.id, drop_app_length. }
      rewrite IH by (done || lia). cbn [mbind option_bind]. rewrite Hd', Hd. unfold subspan. rewrite Hd.
      unfold size at 1. by rewrite Nat2Z.id, take_app_length.
    + by rewrite (proj2 (Z.ltb_lt _ _)) by lia.
Qed.

(** C28: [sendAll] sends the frame, all of it, once. What a socket takes is always a beginning of the
    frame, and the whole frame when the call returns without an exception; and it does return as soon
    as the socket takes the bytes, in pieces of any sizes and with any number of interruptions. *)
Theorem sendAll_sends_all : forall strerror bs,
  (forall script taken r, sendAll strerror bs script = Some (taken, r) ->
     taken `prefix_of` bs /\ (r = Ok tt -> taken = bs)) /\
  (forall pieces, bs = concat (snd <$> pieces) -> Forall (fun x => snd x <> []) pieces ->
     sendAll strerror bs (partial_sends pieces) = Some (bs, Ok tt)).
Proof.
  intros strerror bs. pose proof (size_nonneg bs). split.
  - intros script taken r Hs. apply sendAll_loop_spec in Hs; [done|lia].
  - intros pieces Hbs Hp. by apply (sendAll_pieces strerror bs 0).
Qed.

Lemma sendAll_sends_all_witness :
  sendAll (fun _ => "error"%string) [1; 2; 3; 4; 5] (partial_sends [(2%nat, [1]); (0%nat, [2; 3; 4]); (1%nat, [5])])
  = Some ([1; 2; 3; 4; 5], Ok tt).
Proof. apply sendAll_sends_all; [reflexivity|decide_now]. Defined.

(** C23: a simulation replays. With options that the command line accepts, a clock within 64 bits, a
    noise that stays within [float] and a disk and a socket that do not fail, no frame makes the run
    stop: the capture file is read back to its end and holds one frame for each one produced, those
    not corrupted decode to the frame that was made, those corrupted are rejected, each by the octet
    that was changed, and the counters of the summary are right. *)
Theorem simulation_replays : forall rng (R : Random rng) (L : RandomLaws rng) math nowMs transmit strtod sys random_seed args o path r,
  (forall i, fits 64 (nowMs i)) ->
  match transmit with Some send => forall i bs, send i bs = Some (Ok tt) | None => True end ->
  simulator_parseArgs strtod sys random_seed args = Ok (Some o) -> noise_finite math o ->
  exists out s file log fs,
    FrameFileWriter healthy path true = Ok out /\
    simulate math nowMs healthy transmit o (Z.to_nat (frame_count o)) 0
      {| sim_rng := r; capture := Some out; transmitted := []; produced := 0; dropped := 0; corrupted := 0 |} = Some (Ok s) /\
    capture s = Some file /\ readFile path (written file) = Some (fs, Ok tt) /\
    Forall2 (decodes math nowMs o) log fs /\
    produced s = size fs /\ produced s + dropped s = frame_count o /\ corrupted s = corrupted_of log /\
    transmitted s = match transmit with Some _ => fs | None => [] end.
Proof.
  intros rng R L math nowMs transmit strtod sys random_seed args o path r Hclock Htransmit Hargs Hnoise.
  apply simulator_options in Hargs as Ho.
  destruct (simulation_run math nowMs Hclock healthy healthy_ok transmit (sends_end transmit Htransmit) o r true Ho)
    as ([s|e] & Hs & H1 & H2); [|by specialize (H2 (conj Hnoise (conj (fun c d => eq_refl) Htransmit)))].
  destruct (H1 s eq_refl) as (log & fs & [H3 H4 H5 H6 H7 H8 H9 H10] & Hread).
  eexists _, s, _, log, fs. split; [reflexivity|]. split; [exact Hs|]. split; [exact H3|].
  split_and!; try done; [by apply Hread|lia].
Qed.

(** A generator that counts its draws. *)
#[export] Instance counting : Random Z := {
  draw_temperature r := (0x41B00000, r + 1);
  draw_status r := (r mod 4, r + 1);
  draw_byte r := (r mod 256, r + 1);
  draw_noise _ n r := (replicate n (S754_zero false), r + 1);
  draw_index max r := (max / 2, r + 1);
  draw_probability r := (if r mod 3 =? 0 then f64_of_Z 0 else f64_of_Z 1, r + 1);
}.

#[export] Instance counting_laws : RandomLaws Z.
Proof.
  constructor.
  - intros r. split; decide_now.
  - intros r. cbn. dlia.
  - intros r. unfold is_byte. cbn. dlia.
  - intros stddev n r. apply length_replicate.
  - intros max r Hm. cbn. dlia.
Qed.

Definition simulator_args : list string :=
  ["--output-file"; "capture.stgf"; "--count"; "4"; "--payload-size"; "3"; "--corrupt"; "0.5"].
Definition simulator_sample : SimulatorOptions :=
  match simulator_parseArgs sample_strtod sample_system 7 simulator_args with
  | Ok (Some o) => o | _ => simulator_defaults 7
  end.
Definition simulator_start : simulation (rng := Z) :=
  {| sim_rng := 0; capture := Some {| written := FileHeader; good := true |}; transmitted := [];
     produced := 0; dropped := 0; corrupted := 0 |}.

Lemma simulation_replays_witness :
  (exists s file log fs,
    simulate sample_math (fun i => Z.land i (Z.ones 64)) healthy None simulator_sample 4 0 simulator_start = Some (Ok s) /\
    capture s = Some file /\ readFile "capture.stgf" (written file) = Some (fs, Ok tt) /\
    Forall2 (decodes sample_math (fun i => Z.land i (Z.ones 64)) simulator_sample) log fs).
Proof.
  destruct (simulation_replays Z counting counting_laws sample_math (fun i => Z.land i (Z.ones 64)) None
              sample_strtod sample_system 7 simulator_args simulator_sample "capture.stgf" 0)
    as (out & s & file & log & fs & Ho & Hs & Hc & Hr & Hd & _).
  - intros i. rewrite Z.land_ones by lia. unfold fits. apply Z.mod_pos_bound. lia.
  - exact I.
  - vm_compute. reflexivity.
  - intros Hm. vm_compute in Hm. discriminate Hm.
  - exists s, file, log, fs. injection Ho as <-. split; [exact Hs|]. split; [exact Hc|]. split; [exact Hr|exact Hd].
Defined.

Example simulator_counts :
  match simulate sample_math (fun i => Z.land i (Z.ones 64)) healthy None simulator_sample 4 0 simulator_start with
  | Some (Ok s) => (produced s, dropped s, corrupted s)
  | _ => (0, 0, 0)
  end = (4, 0, 2).
Proof. vm_compute. reflexivity. Qed.
