(* ===== verification/SimulatorApp.v ===== *)
(** The beginning of apps/satellite_simulator/SimulatorApp.cpp and its UDP side: the discovery of the
    port, the destination, and the transmission of one datagram. The loop of the run is in
    [Simulator]. *)

From S2P Require Import Prelude Floats CliParsing PortDiagnostics NetworkServer SignalProcessing TerminalUi PortCheck GroundStationOptions SimulatorOptions Simulator.

(** [normalizeIpv4Host] and [destination]: the exception when the host is not an address. *)
Definition normalizeIpv4Host (host : string) : string :=
  if bool_decide (host = "localhost") then "127.0.0.1" else host.

Definition destination (sys : system) (o : SimulatorOptions) : result (Z * Z) :=
  match inet_pton sys (normalizeIpv4Host (host o)) with
  | None => Throw (runtime_error ("invalid IPv4 destination host: " +:+ host o))
  | Some address => Ok (address, sim_port o)
  end.

(** The loop over the results: the first open port. *)
Definition select_open (results : list TcpPortProbeResult) : option Z :=
  foldl (fun selected r =>
    match selected with
    | None => if bool_decide (probe_state r = StateOpen) then Some (probe_port r) else None
    | Some _ => selected
    end) None results.

(** [discoverPort], without what it prints. [None] when the scan does not end. *)
Definition discoverPort (sys : system) (o : SimulatorOptions) : option (result SimulatorOptions) :=
  match discoverPorts o with
  | None => Some (Ok o)
  | Some range =>
      r ← scanTcpPorts sys (host o) range (discoveryTimeout o);
      Some (results ← r;
            match select_open results with
            | None => Throw (runtime_error "no OPEN TCP listener found in --discover-ports range")
            | Some p => Ok (sim_set_port p o)
            end)
  end.

(** [sendUdpFrame]: [sendto()] answers the number of bytes sent, or fails. *)
Definition sendUdpFrame (strerror : errno -> string) (answer : send_result) (bs : bytes) : result unit :=
  match answer with
  | SendFailed e => Throw (runtime_error ("sendto() failed: " +:+ strerror e))
  | Sent count =>
      throw_if (negb (count =? size bs)) (runtime_error "UDP datagram was not transmitted atomically") ;;
      Ok tt
  end.

(** A datagram that was sent is the whole frame. *)
Lemma sendUdpFrame_whole strerror answer bs :
  sendUdpFrame strerror answer bs = Ok tt <-> answer = Sent (size bs).
Proof.
  unfold sendUdpFrame. destruct answer as [count|e]; [|done].
  destruct (Z.eqb_spec count (size bs)) as [->|Hne]; cbn [negb]; [done|]. split; [done|]. congruence.
Qed.

(** ** The port that is found *)

Lemma select_open_first results :
  match select_open results with
  | Some p => exists before r behind, results = before ++ r :: behind /\ probe_port r = p /\
                probe_state r = StateOpen /\ Forall (fun q => probe_state q <> StateOpen) before
  | None => Forall (fun q => probe_state q <> StateOpen) results
  end.
Proof.
  induction results as [|r results IH] using rev_ind; [constructor|].
  unfold select_open in *. rewrite foldl_snoc. destruct (foldl _ None results) as [p|].
  - destruct IH as (before & r' & behind & -> & H). exists before, r', (behind ++ [r]).
    by rewrite <- app_assoc.
  - case_bool_decide as Ho.
    + exists results, r, []. by split_and!.
    + apply Forall_app. split; [done|]. by constructor.
Qed.

(** What the parser checks of a discovery. *)
Lemma discovery_checked sys o fl o' range :
  simulator_checks sys o fl = Ok o' -> discoverPorts o' = Some range ->
  isLoopbackIpv4 sys (host o') = true /\ CliParsing.count range <= MaxDiagnosticPortCount.
Proof.
  intros Hc Hd. assert (Ho : o' = default_count o).
  { unfold simulator_checks in Hc. repeat match type of Hc with
      | (if ?c then _ else _) = _ => destruct c; [discriminate Hc|]
      end.
    cbv zeta in Hc. destruct (payloadMode (default_count o)); bind_inv; try congruence.
    match goal with H : (if ?c then _ else _) = _ |- _ => destruct c; [discriminate H|congruence] end. }
  assert (Hsame : discoverPorts o' = discoverPorts o /\ host o' = host o).
  { subst o'. unfold default_count. destruct o as [a b c d e f [] h i j k l m n [] q r s t u w x]; done. }
  destruct Hsame as [Hs ->]. rewrite Hs in Hd. unfold simulator_checks in Hc. rewrite Hd in Hc.
  repeat match type of Hc with
  | (if ?c then _ else _) = _ => destruct c eqn:?; [discriminate Hc|]
  end.
  reflect_Z. by split.
Qed.

Lemma discovery_accepted strtod sys random_seed args o range :
  simulator_parseArgs strtod sys random_seed args = Ok (Some o) -> discoverPorts o = Some range ->
  isLoopbackIpv4 sys (host o) = true /\ CliParsing.count range <= MaxDiagnosticPortCount.
Proof.
  intros ([[o1 fl]|] & _ & H)%bind_Ok Hd; [|done]. apply bind_Ok in H as (o2 & Hc & [= <-]).
  by eapply discovery_checked.
Qed.

(** Accepted options make the discovery end: it scans the range once, in order, and takes the first
    port on which a listener answers; it throws only when there is none. The host is a loopback
    address whenever something is probed. *)
Theorem discovery_finds_first_listener : forall strtod sys random_seed args o range,
  simulator_parseArgs strtod sys random_seed args = Ok (Some o) -> discoverPorts o = Some range ->
  isLoopbackIpv4 sys (host o) = true /\
  exists results, scanTcpPorts sys (host o) range (discoveryTimeout o) = Some (Ok results) /\
    probe_port <$> results = ports range /\
    match discoverPort sys o with
    | Some (Ok o') => exists before r behind, results = before ++ r :: behind /\
        probe_state r = StateOpen /\ Forall (fun q => probe_state q <> StateOpen) before /\
        o' = sim_set_port (probe_port r) o /\ 1 <= probe_port r <= 65535
    | Some (Throw e) => Forall (fun q => probe_state q <> StateOpen) results /\
        e = runtime_error "no OPEN TCP listener found in --discover-ports range"
    | None => False
    end.
Proof.
  intros strtod sys random_seed args o range Hargs Hd.
  destruct (discovery_accepted strtod sys random_seed args o range Hargs Hd) as [Hh Hc].
  apply simulator_options in Hargs as Hv. destruct Hv as [Ho _ _].
  destruct (sim_range_ports o Ho range Hd) as [Hv Hl]. pose proof (sim_range_timeout o Ho) as Ht.
  split; [done|].
  destruct (scan_total sys (host o) range (discoveryTimeout o)) as [results Hs]; [done..|].
  destruct (scan_covers_range sys _ _ _ _ Hl Hs) as (Hp & _ & _).
  exists results. split_and!; [done..|]. unfold discoverPort. rewrite Hd, Hs. cbn [mbind option_bind].
  bind_some. pose proof (select_open_first results) as Hsel. destruct (select_open results) as [p|]; [|done].
  destruct Hsel as (before & r & behind & -> & <- & Hr & Hb). exists before, r, behind. split_and!; try done.
  all: assert (Hin : probe_port r ∈ ports range)
    by (rewrite <- Hp, fmap_app, fmap_cons; apply elem_of_app; right; by left);
    apply elem_of_seqZ in Hin; unfold valid, MinimumNetworkPort, u16_max in *; reflect_Z; lia.
Qed.

(** A system on which only port 9001 listens. *)
Definition listening_system : system := {|
  inet_pton := inet_pton sample_system; sys_socket := sys_socket sample_system; sys_fcntl := sys_fcntl sample_system;
  sys_connect := fun port => if port =? 9001 then inl tt else inr ECONNREFUSED;
  sys_poll := sys_poll sample_system; sys_so_error := sys_so_error sample_system; sys_bind := sys_bind sample_system;
  sys_elapsed := sys_elapsed sample_system; sys_strerror := sys_strerror sample_system |}.
Definition discovery_args : list string := ["--tcp"; "--discover-ports"; "9000:9003"].
Definition discovering : SimulatorOptions :=
  match simulator_parseArgs sample_strtod listening_system 7 discovery_args with
  | Ok (Some o) => o | _ => simulator_defaults 7
  end.

Lemma discovery_finds_first_listener_witness :
  discoverPort listening_system discovering = Some (Ok (sim_set_port 9001 discovering)) /\
  exists results, scanTcpPorts listening_system "127.0.0.1" {| first := 9000; last := 9003 |} 200 = Some (Ok results) /\
    probe_port <$> results = [9000; 9001; 9002; 9003].
Proof.
  split; [vm_compute; reflexivity|].
  destruct (discovery_finds_first_listener sample_strtod listening_system 7 discovery_args discovering
              {| first := 9000; last := 9003 |}) as (_ & results & H1 & H2 & _); [vm_compute; reflexivity..|].
  exists results. split; [exact H1|exact H2].
Defined.
