(* ===== verification/EndToEnd.v ===== *)
(** The simulator, its capture file, the replay and the pipeline of the station together: the
    summary of the station is the summary of the simulator. *)

From S2P Require Import Prelude FrameCodec Floats ApplicationPayload SignalProcessing StationHealth BlockingQueue PortDiagnostics CliParsing Replay Pipeline PipelineInvariant PipelineSpec PipelineGuarantees GroundStationOptions SimulatorOptions Simulator.

(** ** What a result adds to the counters *)

Definition accepted (r : FrameParseResult) : Z := match r with inl _ => 1 | inr _ => 0 end.

Section Counters.
Context {env : Type} `{Outputs env}.
Variable verbose : bool.

Definition same_counters (w w' : effects (env := env)) : Prop :=
  decoded w' = decoded w /\ rejected w' = rejected w /\ Pipeline.written w' = Pipeline.written w.

Lemma unchanged w (k : effects (env := env) -> effects (env := env) * option exn) w' :
  k w = (w', None) -> exists w1, same_counters w w1 /\ k w1 = (w', None).
Proof. intros Hk. exists w. split; [by repeat split|done]. Qed.

(** The calls that go on leave these counters alone. *)
Lemma calling_counters w c k w' :
  calling w c k = (w', None) -> exists w1, same_counters w w1 /\ k w1 = (w', None).
Proof. unfold calling. destruct c as [o [e|]]; [done|]. intros Hk. exists (set_outputs w o). split; [by repeat split|done]. Qed.

Lemma report_counters w m t k w' :
  report w m t k = (w', None) -> exists w1, same_counters w w1 /\ k w1 = (w', None).
Proof.
  unfold report. destruct t as [t|]; [|intros Hk; eexists; split; [|exact Hk]; by repeat split].
  intros (w1 & Hw & Hk)%calling_counters. by exists w1.
Qed.

Lemma process_counters w frame k w' :
  processApplicationPayload w frame k = (w', None) -> exists w1, same_counters w w1 /\ k w1 = (w', None).
Proof.
  unfold processApplicationPayload.
  destruct (decodeApplicationPayload _) as [[|m|s|e]|]; [by apply unchanged|apply calling_counters| | |by apply unchanged].
  - destruct (processSignal _ _ _ _) as [[[filtered metrics]|e]|];
      [apply calling_counters|done|by apply unchanged].
  - intros (w1 & Hw & Hk)%calling_counters. by exists w1.
Qed.

Lemma consume_counters w seq r w' :
  consume verbose w seq r = (w', None) ->
  decoded w' = decoded w + accepted r /\ rejected w' = rejected w + (1 - accepted r) /\
  Pipeline.written w' = Pipeline.written w + accepted r.
Proof.
  unfold consume. destruct r as [frame|error]; cbn [accepted].
  - destruct (recordDecoded _ _ _) as [m t].
    intros (w1 & (A1 & A2 & A3) & (w2 & (B1 & B2 & B3) & (w3 & (C1 & C2 & C3) & Hk)%calling_counters)%process_counters)%report_counters.
    cbn in A1, A2, A3, C1, C2, C3. destruct verbose.
    + apply calling_counters in Hk as (w4 & (D1 & D2 & D3) & [= <-]). cbn in D1, D2, D3. lia.
    + injection Hk as <-. cbn. lia.
  - destruct (recordRejected _ _) as [m t].
    intros (w1 & (A1 & A2 & A3) & (w2 & (B1 & B2 & B3) & [= <-])%calling_counters)%report_counters.
    cbn in A1, A2, A3. lia.
Qed.

Lemma consume_all_counters w seq rs w' :
  consume_all verbose w seq rs = (w', None) ->
  let n := foldr (fun r acc => accepted r + acc) 0 rs in
  decoded w' = decoded w + n /\ rejected w' = rejected w + (size rs - n) /\
  Pipeline.written w' = Pipeline.written w + n.
Proof.
  cbv zeta. revert w seq. induction rs as [|r rs IH]; intros w seq; cbn [consume_all foldr].
  - intros [= <-]. unfold size. cbn. lia.
  - destruct (consume verbose w seq r) as [w1 [e|]] eqn:Hc; [done|].
    apply consume_counters in Hc as (H1 & H2 & H3). intros (H4 & H5 & H6)%IH.
    rewrite size_cons. lia.
Qed.

Lemma run_counters w fs w' :
  run_sequentially verbose w fs = Some (w', None) ->
  exists rs, mapM decodeFrame fs = Some rs /\
    let n := foldr (fun r acc => accepted r + acc) 0 rs in
    decoded w' = decoded w + n /\ rejected w' = rejected w + (size rs - n) /\
    Pipeline.written w' = Pipeline.written w + n.
Proof.
  unfold run_sequentially, decode_all. destruct (mapM decodeFrame fs) as [rs|]; [|done].
  cbn [mbind option_bind]. destruct (consume_all verbose w 0 rs) as [w1 [e|]] eqn:Hc; [done|].
  intros [= Hf]. exists rs. split; [done|]. apply consume_all_counters in Hc.
  unfold finish, calling in Hf. cbv zeta in *. destruct (finish_output _) as [o [e|]]; [done|].
  injection Hf as <-. cbn. done.
Qed.
End Counters.

(** The results of a simulated capture: one error per corrupted frame. *)
Lemma simulated_results `{Random rng} math nowMs o log fs rs :
  Forall2 (decodes math nowMs o) log fs -> mapM decodeFrame fs = Some rs ->
  size rs = size fs /\ foldr (fun r acc => accepted r + acc) 0 rs = size fs - corrupted_of log.
Proof.
  intros Hd. revert rs. induction Hd as [|[f c] bs log fs [_ Hx] _ IH]; intros rs.
  - intros [= <-]. done.
  - cbn [mapM]. destruct (decodeFrame bs) as [r|] eqn:Hr; cbn [mbind option_bind]; [|done].
    destruct (mapM decodeFrame fs) as [rs'|]; cbn [mbind option_bind]; [|done]. intros [= <-].
    destruct (IH rs' eq_refl) as [IH1 IH2]. cbn [foldr]. rewrite !size_cons, IH1, IH2. split; [done|].
    unfold corrupted_of. rewrite filter_cons. cbn [fst snd] in *. destruct c.
    + rewrite decide_True by done. destruct Hx as [e [= ->]]. rewrite size_cons. cbn [accepted]. lia.
    + rewrite decide_False by done. injection Hx as ->. cbn [accepted]. lia.
Qed.

(** ** Properties *)

(** C14: the whole chain. The simulator runs with options its command line accepts and captures its
    frames; the station replays the capture through its pipeline, with any number of decoders, any
    queues and any interleaving, and ends well. Then the station has accepted and written as many
    frames as the simulator produced and did not corrupt, and rejected as many as it corrupted. *)
Theorem station_counts_simulation : forall rng (R : Random rng) (L : RandomLaws rng) math nowMs transmit strtod sys random_seed args o r s file path fs,
  (forall i, fits 64 (nowMs i)) ->
  match transmit with Some send => forall i bs, send i bs = Some (Ok tt) | None => True end ->
  simulator_parseArgs strtod sys random_seed args = Ok (Some o) -> noise_finite math o ->
  simulate math nowMs healthy transmit o (Z.to_nat (frame_count o)) 0
    {| sim_rng := r; capture := Some {| Replay.written := FileHeader; good := true |}; transmitted := [];
       produced := 0; dropped := 0; corrupted := 0 |} = Some (Ok s) ->
  capture s = Some file -> readFile path (Replay.written file) = Some (fs, Ok tt) ->
  forall env (out : Outputs env) verbose src w0 cap n st w,
  all_frames src = fs -> 0 < n -> rtc (step verbose src) (start src cap n w0) st ->
  outcome st = Some (Ok w) -> interrupted st = false ->
  decoded w = decoded w0 + (produced s - corrupted s) /\
  Pipeline.written w = Pipeline.written w0 + (produced s - corrupted s) /\
  rejected w = rejected w0 + corrupted s.
Proof.
  intros rng R L math nowMs transmit strtod sys random_seed args o r s file path fs Hclock Htransmit Hargs Hnoise
    Hsim Hfile Hread env out verbose src w0 cap n st w Hsrc Hn Hs Ho Hi.
  apply simulator_options in Hargs as Hv.
  destruct (simulation_run math nowMs Hclock healthy healthy_ok transmit (sends_end transmit Htransmit) o r true Hv)
    as (x & Hx & Hinv & _).
  pose proof (eq_trans (eq_sym Hsim) Hx) as [= <-].
  destruct (Hinv s eq_refl) as (log & fs' & [H1 H2 H3 H4 H5 H6 H7 H8] & Hread').
  rewrite (Hread' path file Hfile) in Hread. injection Hread as <-.
  destruct (outcome_ok verbose src w0 cap n Hn st w Hs Ho) as (Hrun & _ & Hall).
  rewrite (Hall Hi), Hsrc in Hrun. apply run_counters in Hrun as (rs & Hrs & Hd & Hr & Hw).
  destruct (simulated_results math nowMs o log fs' rs H3 Hrs) as [Hsize Hcount].
  rewrite Hd, Hr, Hw, Hcount, Hsize, H6, H8. lia.
Qed.

(** ** A chain *)

#[local] Existing Instance tape.

Definition sample_clock (i : Z) : Z := Z.land i (Z.ones 64).

Definition sample_simulation : simulation (rng := Z) :=
  match simulate sample_math sample_clock healthy None simulator_sample 4 0 simulator_start with
  | Some (Ok s) => s | _ => simulator_start
  end.
Definition sample_file : ofstream := default {| Replay.written := []; good := false |} (capture sample_simulation).
Definition sample_frames : list bytes :=
  match readFile "capture.stgf" (Replay.written sample_file) with Some (fs, _) => fs | None => [] end.
Definition replayed : source := {| reads := (fun f => [f]) <$> sample_frames; ends_with := None |}.
Definition chain_schedule : list thread :=
  replicate 13 TMain ++ TMain :: replicate 9 (TDecoder 0) ++ [TDecoder 1; TMain; TMain] ++ replicate 14 TWriter ++ [TMain].
Definition chain_end : pipeline (env := list string) :=
  default (start replayed 8 2 fresh) (run_schedule false replayed chain_schedule (start replayed 8 2 fresh)).

Lemma chain_end_steps : rtc (step false replayed) (start replayed 8 2 fresh) chain_end.
Proof.
  unfold chain_end. destruct (run_schedule _ _ _ _) as [s|] eqn:Hs; cbn; [|done].
  by eapply run_schedule_steps.
Qed.

Lemma station_counts_simulation_witness :
  decoded (ended_with chain_end) = 0 + (4 - 2) /\ Pipeline.written (ended_with chain_end) = 0 + (4 - 2) /\
  rejected (ended_with chain_end) = 0 + 2.
Proof.
  assert (H : produced sample_simulation = 4 /\ corrupted sample_simulation = 2) by (vm_compute; split; reflexivity).
  destruct H as [Hp Hc]. rewrite <- Hp, <- Hc.
  apply (station_counts_simulation Z counting counting_laws sample_math sample_clock None
           sample_strtod sample_system 7 simulator_args simulator_sample 0 sample_simulation sample_file
           "capture.stgf" sample_frames) with (env := list string) (out := tape) (verbose := false) (src := replayed)
           (w0 := fresh) (cap := 8) (n := 2) (st := chain_end).
  - intros i. unfold sample_clock. rewrite Z.land_ones by lia. apply Z.mod_pos_bound. lia.
  - exact I.
  - vm_compute. reflexivity.
  - intros Hm. vm_compute in Hm. discriminate Hm.
  - vm_compute. reflexivity.
  - vm_compute. reflexivity.
  - vm_compute. reflexivity.
  - vm_compute. reflexivity.
  - lia.
  - apply chain_end_steps.
  - vm_compute. reflexivity.
  - vm_compute. reflexivity.
Defined.
