(* ===== verification/StationMain.v ===== *)
(** The ground station as a process: [apps/ground_station.cpp] and [run] of
    apps/ground_station/GroundStationApp.cpp, from the command line to the exit status.

    The pipeline runs on any interleaving of its threads, on a replay file or on the server; the
    files, the clock, what the waiter of [StopController] sees and the kernel are parameters. *)

From S2P Require Import Prelude TextFormat FrameCodec Floats ApplicationPayload SignalProcessing StationHealth BlockingQueue CliParsing PortDiagnostics Replay Logger NetworkServer ServerSocket StopController GroundStationOptions Pipeline PipelineInvariant PipelineSpec PipelineGuarantees TelemetryOutput OutputFile GroundStationApp StationInput EndToEnd.

(** ** The counters of the application payloads *)

Definition bad_payload (frame : TelemetryFrame) : bool :=
  match decodeApplicationPayload (payload frame) with Some (ParsedError _) => true | _ => false end.
Definition app_error (r : FrameParseResult) : Z :=
  match r with inl frame => if bad_payload frame then 1 else 0 | inr _ => 0 end.

Section AppErrors.
Context {env : Type} `{Outputs env}.

Definition same_errors (w w' : effects (env := env)) : Prop :=
  localApplicationErrors w' = localApplicationErrors w.

Lemma calling_errors w c k w' :
  calling w c k = (w', None) -> exists w1, same_errors w w1 /\ k w1 = (w', None).
Proof. unfold calling. destruct c as [o [e|]]; [done|]. intros Hk. by exists (set_outputs w o). Qed.

Lemma report_errors w m t k w' :
  report w m t k = (w', None) -> exists w1, same_errors w w1 /\ k w1 = (w', None).
Proof.
  unfold report. destruct t as [t|]; [|intros Hk; eexists; split; [|exact Hk]; done].
  intros (w1 & Hw & Hk)%calling_errors. by exists w1.
Qed.

Lemma process_errors w frame k w' :
  processApplicationPayload w frame k = (w', None) ->
  exists w1, localApplicationErrors w1 = localApplicationErrors w + app_error (inl frame) /\ k w1 = (w', None).
Proof.
  unfold processApplicationPayload, app_error, bad_payload.
  destruct (decodeApplicationPayload _) as [[|m|s|e]|]; [exists w; split; [lia|done]| | | |exists w; split; [lia|done]].
  - intros (w1 & Hw & Hk)%calling_errors. exists w1. split; [rewrite Hw; lia|done].
  - destruct (processSignal _ _ _ _) as [[[filtered metrics]|e]|]; [|done|exists w; split; [lia|done]].
    intros (w1 & Hw & Hk)%calling_errors. exists w1. split; [rewrite Hw; lia|done].
  - intros (w1 & Hw & Hk)%calling_errors. exists w1. split; [by rewrite Hw|done].
Qed.

Lemma consume_errors verbose w seq r w' :
  consume verbose w seq r = (w', None) -> localApplicationErrors w' = localApplicationErrors w + app_error r.
Proof.
  unfold consume. destruct r as [frame|error].
  - destruct (recordDecoded _ _ _) as [m t].
    intros (w1 & A & (w2 & B & (w3 & C & Hk)%calling_errors)%process_errors)%report_errors.
    unfold same_errors in *. cbn in A, C. destruct verbose.
    + apply calling_errors in Hk as (w4 & D & [= <-]). unfold same_errors in D. cbn in D. rewrite D, C, B, A. done.
    + injection Hk as <-. change (localApplicationErrors w3 = localApplicationErrors w + app_error (inl frame)).
      by rewrite C, B, A.
  - destruct (recordRejected _ _) as [m t].
    intros (w1 & A & (w2 & B & [= <-])%calling_errors)%report_errors. unfold same_errors in *. cbn in A. cbn [app_error]. lia.
Qed.

Lemma run_errors verbose w fs w' :
  run_sequentially verbose w fs = Some (w', None) ->
  exists rs, mapM decodeFrame fs = Some rs /\
    applicationErrors w' = localApplicationErrors w + foldr (fun r acc => app_error r + acc) 0 rs.
Proof.
  unfold run_sequentially, decode_all. destruct (mapM decodeFrame fs) as [rs|]; [|done].
  cbn [mbind option_bind]. destruct (consume_all verbose w 0 rs) as [w1 [e|]] eqn:Hc; [done|].
  intros [= Hf]. exists rs. split; [done|].
  assert (H1 : localApplicationErrors w1 = localApplicationErrors w + foldr (fun r acc => app_error r + acc) 0 rs).
  { clear Hf. revert w Hc. generalize 0 at 1. induction rs as [|r rs IH]; intros i w; cbn [consume_all foldr].
    - intros [= <-]. lia.
    - destruct (consume verbose w i r) as [w2 [e|]] eqn:Hr; [done|]. apply consume_errors in Hr.
      intros Hc%IH. lia. }
  unfold finish, calling in Hf. destruct (finish_output _) as [o [e|]]; [done|]. injection Hf as <-. exact H1.
Qed.

End AppErrors.

(** ** The process *)

(** [PipelineStats]; [received_] is raised when a frame is pushed. *)
Record PipelineStats := {
  stat_received : Z;
  stat_decoded : Z;
  stat_rejected : Z;
  stat_written : Z;
  stat_applicationErrors : Z;
}.

Definition stats {env} (s : pipeline (env := env)) (w : effects (env := env)) : PipelineStats :=
  {| stat_received := size (submitted s); stat_decoded := decoded w; stat_rejected := rejected w;
     stat_written := Pipeline.written w; stat_applicationErrors := applicationErrors w |}.

Section Process.
(** The command line with [strtod]; what the constructors that open something meet. *)
Variable strtod : string -> strtod_result.
Variable args : list string.
Variable sys : system.
Variables log_opens output_opens : bool.
(** The signals: how the set is built and blocked, whether the waiter starts, and what it sees of its
    stop token and of [sigtimedwait()]. *)
Variable error_text : Z -> string.
Variables set_result mask_result : option Z.
Variable thread_fails : option exn.
Variable turns : list (bool * wait_answer).
(** The files that are there to be replayed, and the kernel of the server. *)
Variable files : string -> option bytes.
Variable strerror : errno -> string.
Variable k : kernel.
(** The parameters of [OutputFile]. *)
Variable device : string -> string -> string * bool.
Variable flushes : string -> bool.
Variable show_float : Z -> string.
Variables (to_string show_rate : spec_float -> string) (show_fixed : Z -> string).
Variable now : nat -> string.
Variable log_writes : nat -> bool.
Variable library : libm.

Definition calls (o : Options) : Outputs station_outputs :=
  station_calls device flushes show_float to_string show_rate show_fixed now log_writes
    (GroundStationOptions.signalFilter o) (GroundStationOptions.movingAverageWindow o) library.

(** [parseArgs], then [run] up to the constructor of the pipeline, which opens the output. [Ok None]
    is the end of [--help]. *)
Definition prepare : option (result (option (Options * controller * effects (env := station_outputs)))) :=
  match parseArgs strtod args with
  | Throw e => Some (Throw e)
  | Ok None => Some (Ok None)
  | Ok (Some options) =>
      r ← startup sys log_opens options;
      Some ('(options, logger, health) ← r;
            signals ← snd (new_controller error_text set_result mask_result thread_fails);
            let outputFormat := resolveOutputFormat (outputFormat options) (outputFile options) in
            output ← new_TelemetryOutput device (outputFile options) output_opens outputFormat;
            Ok (Some (options, signals, mkEffects health (mkStationOutputs logger 0 [] output) 0 0 0 0 0)))
  end.

(** [renderSummary]: the rows of the terminal, and the line of the log. *)
Definition summary_rows (options : Options) (st : PipelineStats) (snapshot : StationHealthSnapshot)
  : list (string * string) :=
  [("received", show_dec (stat_received st)); ("decoded", show_dec (stat_decoded st));
   ("rejected", show_dec (stat_rejected st)); ("written", show_dec (stat_written st));
   ("application errors", show_dec (stat_applicationErrors st));
   ("station state", stationStateToString (snap_state snapshot));
   ("rejection rate", to_string (rejectionRate snapshot)); ("output", outputFile options)]%string.

Definition summary_line (options : Options) (st : PipelineStats) (snapshot : StationHealthSnapshot) : string :=
  "summary received=" +:+ show_dec (stat_received st) +:+
  " decoded=" +:+ show_dec (stat_decoded st) +:+
  " rejected=" +:+ show_dec (stat_rejected st) +:+
  " written=" +:+ show_dec (stat_written st) +:+
  " application_errors=" +:+ show_dec (stat_applicationErrors st) +:+
  " station_state=" +:+ stationStateToString (snap_state snapshot) +:+
  " rejection_rate=" +:+ show_rate (rejectionRate snapshot) +:+
  " output=" +:+ outputFile options.

(** What a run that ends well leaves: the rows of the summary, and the outputs with the log. *)
Record report := { rows : list (string * string); left : station_outputs }.

Definition renderSummary (options : Options) (s : pipeline (env := station_outputs)) (w : effects) : report :=
  let snapshot := makeSnapshotLocked (health w) in
  {| rows := summary_rows options (stats s w) snapshot;
     left := log_line now log_writes (outputs w) Info (summary_line options (stats s w) snapshot) |}.

(** [finish()] of the controller behind the summary: what the waiter captured is thrown. *)
Definition finish_signals (captured : option exn) (signals : controller) : result unit :=
  match controller_finish captured signals with (_, _, Some e) => Throw e | (_, _, None) => Ok tt end.

(** How [parseArgs] and [run] end: whether [running] was cleared before the input ended, the summary
    where one was rendered, and the result. The waiter is over before the end, by [finish()] or by the
    destructor, which drops what it captured; it may have cleared [running] behind the pipeline. *)
Inductive run_ends : bool -> option report -> result unit -> Prop :=
  | ends_before e : prepare = Some (Throw e) -> run_ends false None (Throw e)
  | ends_help : prepare = Some (Ok None) -> run_ends false None (Ok tt)
  | ends_pipeline options signals w0 src s r cleared captured :
      prepare = Some (Ok (Some (options, signals, w0))) ->
      receiveInput strerror files k options = Some src ->
      rtc (@step station_outputs (calls options) (verbose options) src)
        (start src (queueCapacity options) (decoderThreads options) w0) s ->
      outcome s = Some r ->
      waitLoop error_text turns = Some (cleared, captured) ->
      (interrupted s = true -> cleared = true) ->
      run_ends (interrupted s)
        (match r with Throw _ => None | Ok w => Some (renderSummary options s w) end)
        (match r with Throw e => Throw e | Ok _ => finish_signals captured signals end).

(** [main]: the exit status and what it writes to [cerr]. *)
Definition main {A : Type} (r : result A) : Z * string :=
  match r with
  | Ok _ => (0, EmptyString)
  | Throw e => (1, "error: " +:+ what e +:+ nl +:+ "run with --help for usage" +:+ nl)
  end.

(** ** What the summary says *)

(** The counts of a run over the candidates [fs]. *)
Definition true_stats (fs : list bytes) : PipelineStats :=
  let n := size (accepted_frames fs) in
  {| stat_received := size fs; stat_decoded := n; stat_rejected := size fs - n; stat_written := n;
     stat_applicationErrors := size (filter (fun f => bad_payload f = true) (accepted_frames fs)) |}.

Lemma counted_frames fs rs :
  mapM decodeFrame fs = Some rs ->
  size rs = size fs /\ foldr (fun r acc => accepted r + acc) 0 rs = size (accepted_frames fs) /\
  foldr (fun r acc => app_error r + acc) 0 rs = stat_applicationErrors (true_stats fs).
Proof.
  revert rs. induction fs as [|bs fs IH]; intros rs; [by intros [= <-]|]. cbn [mapM].
  destruct (decodeFrame bs) as [r|] eqn:Hr; cbn [mbind option_bind]; [|done].
  destruct (mapM decodeFrame fs) as [rs'|]; cbn [mbind option_bind]; [|done]. intros [= <-].
  destruct (IH rs' eq_refl) as (H1 & H2 & H3). cbn [foldr]. rewrite !size_cons, H1, H2, H3. split; [done|].
  unfold true_stats, stat_applicationErrors, accepted_frames. cbn [omap list_omap]. rewrite Hr. destruct r as [f|e].
  - rewrite size_cons, filter_cons. cbn [accepted app_error]. split; [done|].
    destruct (bad_payload f); [rewrite decide_True, size_cons by done|rewrite decide_False by done]; lia.
  - cbn [accepted app_error]. split; lia.
Qed.

(** The log behind the summary, when the level lets it pass. *)
Lemma log_last stamp writes l m :
  level_value (minLevel_ l) <= level_value Info ->
  Logger.cout (log stamp writes l Info m) = Logger.cout l ++ [stamp +:+ " [INFO] " +:+ m].
Proof.
  intros Hl. unfold log. rewrite (proj2 (Z.ltb_ge _ _)) by done. done.
Qed.

(** The options the station runs with are accepted ones, and the start counts nothing. *)
Lemma prepare_ok options signals w0 :
  prepare = Some (Ok (Some (options, signals, w0))) ->
  signals = {| maskInstalled_ := true; joinable := true; error_ := None |} /\
  0 < queueCapacity options /\ 0 < decoderThreads options /\
  new_TelemetryOutput device (outputFile options) output_opens
    (resolveOutputFormat (outputFormat options) (outputFile options)) = Ok (output_ (outputs w0)) /\
  decoded w0 = 0 /\ rejected w0 = 0 /\ Pipeline.written w0 = 0 /\ localApplicationErrors w0 = 0.
Proof.
  unfold prepare. destruct (parseArgs strtod args) as [[o|]|e] eqn:Hp; [|done..].
  apply parseArgs_options in Hp as Ho. unfold startup.
  destruct (selectAutomaticPort_ok sys o Ho) as ([o'|e] & Hsel & Hr); rewrite Hsel; cbn [mbind option_bind]; bind_some; [|done].
  destruct Hr as (p & -> & _).
  destruct (new_Logger _ _ _) as [l|e]; [|done]. bind_some. destruct (new_StationHealthMonitor _) as [h|e]; [|done].
  bind_some. destruct (snd _) as [signals'|e] eqn:Hsig; [|done]. bind_some.
  destruct (new_TelemetryOutput _ _ _ _) as [t|e] eqn:Ht; [|done]. bind_some. intros [= <- <- <-].
  assert (Hs : signals' = {| maskInstalled_ := true; joinable := true; error_ := None |}).
  { revert Hsig. unfold new_controller. destruct set_result; [done|]. destruct mask_result; [done|].
    destruct thread_fails; [done|]. by intros [= <-]. }
  destruct (ok_range o Ho). unfold u16_max in *.
  assert (H : queueCapacity (set_port p o) = queueCapacity o /\ decoderThreads (set_port p o) = decoderThreads o) by by destruct o.
  destruct H as [-> ->]. cbn. split_and!; (done || lia).
Qed.

Lemma prepare_help : prepare = Some (Ok None) -> parseArgs strtod args = Ok None.
Proof.
  unfold prepare. destruct (parseArgs strtod args) as [[o|]|e]; [|done|done].
  destruct (startup sys log_opens o) as [[[[o' l] h]|e]|]; [|done..]. cbn [mbind option_bind]. bind_some.
  destruct (snd _); [|done]. cbn. by destruct (new_TelemetryOutput _ _ _ _).
Qed.

(** What the waiter captured is what leaves. *)
Lemma finish_signals_started captured :
  finish_signals captured {| maskInstalled_ := true; joinable := true; error_ := None |} = thrown captured tt.
Proof. by destruct captured. Qed.

(** C11: the exit status and the summary of the station tell the truth. The process ends with 0 or 1.
    Without a summary it is 1, with the text of the exception, where the command line, the start, the
    input or the pipeline failed, whatever thread failed, or 0 after [--help]. With a summary it is 1
    exactly when [sigtimedwait()] failed before the stop request, which [finish()] behind the summary
    reports, and 0 otherwise; in both cases the summary is true: there are candidates, all those of
    the input (the frames of a replayed capture, or what the server called back), or a beginning of
    them after the waiter cleared [running] for a signal or a failure, and the summary counts them: as
    many received, as many decoded and written as the codec accepts, the others rejected, with the
    payloads that do not parse; and the output file is the whole document of the frames that were
    counted. *)
Theorem station_summary_true : forall stopped summary r,
  (forall c text c', device c text = (c', true) -> c' = c +:+ text) ->
  run_ends stopped summary r ->
  let failure e := main r = (1, "error: " +:+ what e +:+ nl +:+ "run with --help for usage" +:+ nl) in
  match summary with
  | None => (exists e, r = Throw e /\ failure e) \/ (main r = (0, EmptyString) /\ parseArgs strtod args = Ok None)
  | Some rep =>
      (exists cleared captured, waitLoop error_text turns = Some (cleared, captured) /\
         (stopped = true -> cleared = true) /\
         match captured with Some e => failure e | None => main r = (0, EmptyString) end) /\
      exists options src fs snapshot,
        receiveInput strerror files k options = Some src /\
        fs `prefix_of` all_frames src /\ (stopped = false -> fs = all_frames src) /\
        (forall path frames, replayFile options = Some path ->
           files path = Some (FileHeader ++ concat (entry <$> frames)) -> Forall frame_bounds frames ->
           stopped = false -> fs = frames) /\
        rows rep = summary_rows options (true_stats fs) snapshot /\
        TelemetryOutput.contents (out_ (output_ (left rep))) =
          document show_float (resolveOutputFormat (outputFormat options) (outputFile options)) (accepted_frames fs) /\
        (level_value (minLevel_ (logger_ (left rep))) <= level_value Info ->
         exists before stamp, Logger.cout (logger_ (left rep)) =
           before ++ [stamp +:+ " [INFO] " +:+ summary_line options (true_stats fs) snapshot])
  end.
Proof.
  intros stopped summary r Hdev [e He|He|options signals w0 src s [w|e] cleared captured He Hin Hs Ho Hw Hst] failure.
  - left. by exists e.
  - right. split; [done|]. by apply prepare_help.
  - destruct (prepare_ok options signals w0 He) as (-> & Hcap & Hn & Hnew & H1 & H2 & H3 & H4).
    split.
    { exists cleared, captured. split; [done|]. split; [done|]. unfold failure. rewrite finish_signals_started.
      by destruct captured. }
    destruct (@outcome_ok _ (calls options) (verbose options) src w0 (queueCapacity options)
      (decoderThreads options) Hn s w Hs Ho) as (Hrun & Hp & Hall).
    assert (Hstats : stats s w = true_stats (submitted s)).
    { apply run_counters in Hrun as Hc. destruct Hc as (rs & Hrs & Hd & Hr & Hwr).
      apply run_errors in Hrun as (rs' & Hrs' & Ha). rewrite Hrs in Hrs'. injection Hrs' as <-.
      destruct (counted_frames _ _ Hrs) as (C1 & C2 & C3). unfold stats, true_stats in *. cbn [stat_applicationErrors] in C3.
      f_equal; lia. }
    exists options, src, (submitted s), (makeSnapshotLocked (health w)).
    do 3 (split; [done|]). split; [|split; [cbn [rows renderSummary]; by rewrite Hstats|split]].
    + intros path frames Hpath Hfile Hf Hi. rewrite (Hall Hi). unfold receiveInput in Hin. rewrite Hpath, Hfile in Hin.
      destruct (replay_source_entries path frames Hf) as (src' & Hsrc & <- & _). rewrite Hin in Hsrc. by injection Hsrc as ->.
    + cbn [left renderSummary log_line output_]. eapply run_file; [done|exact Hrun|]. by eapply after_new.
    + cbn [left renderSummary log_line logger_]. intros Hl.
      exists (Logger.cout (logger_ (outputs w))), (now (logged (outputs w))). rewrite Hstats.
      apply log_last. revert Hl. unfold log. by destruct (_ <? _).
  - left. by exists e.
Qed.

End Process.

(** ** A process *)

Definition main_args : list string :=
  ["--udp"; "--bind"; "127.0.0.1"; "--output"; "out.csv"; "--queue-capacity"; "1"; "--decoder-threads"; "2"; "--signal-filter"; "none"].
Definition main_stamp (n : nat) : string := "2026-01-01T00:00:00.000Z".
Definition main_error (n : Z) : string := show_dec n.
(** [sigtimedwait()] fails, before or behind the end of the pipeline. *)
Definition main_turns : list (bool * wait_answer) := [(false, SliceOver); (false, WaitFailed 22)].
Definition main_prepared : option (result (option (Options * controller * effects (env := station_outputs)))) :=
  prepare sample_strtod main_args sample_system true true main_error None None None sample_device.
Definition main_options : Options :=
  match main_prepared with Some (Ok (Some (o, _, _))) => o | _ => default_options end.
Definition main_start : effects (env := station_outputs) :=
  match main_prepared with Some (Ok (Some (_, _, w))) => w | _ => station_start end.

#[local] Instance main_calls : Outputs station_outputs :=
  calls sample_device (fun _ => true) sample_show_float (fun _ => "0.5") (fun _ => "0.5") (fun _ => "25.50")
    main_stamp (fun _ => true) sample_math main_options.
Definition no_files (path : string) : option bytes := None.
(** Two datagrams. *)
Definition udp_kernel : kernel := {|
  ServerSocket.sys_socket := Returned 5; sys_setsockopt := Returned 0;
  sys_inet_pton := fun a => if bool_decide (a = "127.0.0.1"%string) then Some 0x7F000001 else None;
  ServerSocket.sys_bind := Returned 0; sys_getfl := Returned 2; sys_setfl := Returned 0; sys_listen := Returned 0;
  sys_close := fun _ => Returned 0; tcp_polls := [];
  udp_polls := [UdpNothing; UdpReady (Received sample_bytes); UdpReady (Received [1; 2; 3])] |}.
Definition main_source : source :=
  default {| Pipeline.reads := []; ends_with := None |} (receiveInput sample_strerror no_files udp_kernel main_options).
Definition main_schedule : list thread := TMain :: TMain :: take 3 overtaking ++ [TMain; TMain] ++ drop 3 overtaking.
Definition main_pipeline : pipeline (env := station_outputs) :=
  default (start main_source 1 2 main_start) (run_schedule false main_source main_schedule (start main_source 1 2 main_start)).
Definition main_work : effects (env := station_outputs) :=
  match outcome main_pipeline with Some (Ok w) => w | _ => main_start end.
Definition main_summary : report :=
  renderSummary (fun _ => "0.5") (fun _ => "0.5") main_stamp (fun _ => true) main_options main_pipeline main_work.
Definition main_failure : exn := system_error main_error 22 "sigtimedwait".

Lemma main_ends :
  run_ends sample_strtod main_args sample_system true true main_error None None None main_turns no_files sample_strerror
    udp_kernel sample_device (fun _ => true) sample_show_float (fun _ => "0.5") (fun _ => "0.5") (fun _ => "25.50")
    main_stamp (fun _ => true) sample_math false (Some main_summary) (Throw main_failure).
Proof.
  assert (Hi : interrupted main_pipeline = false) by (vm_compute; reflexivity). rewrite <- Hi.
  refine (ends_pipeline sample_strtod main_args sample_system true true main_error None None None main_turns no_files
    sample_strerror udp_kernel sample_device
    (fun _ => true) sample_show_float (fun _ => "0.5"%string) (fun _ => "0.5"%string) (fun _ => "25.50"%string)
    main_stamp (fun _ => true) sample_math main_options {| maskInstalled_ := true; joinable := true; error_ := None |}
    main_start main_source main_pipeline (Ok main_work) true (Some main_failure) _ _ _ _ _ _).
  - vm_compute. reflexivity.
  - vm_compute. reflexivity.
  - assert (Hv : verbose main_options = false) by (vm_compute; reflexivity).
    assert (Hq : queueCapacity main_options = 1) by (vm_compute; reflexivity).
    assert (Hd : decoderThreads main_options = 2) by (vm_compute; reflexivity). rewrite Hv, Hq, Hd.
    unfold main_pipeline. fold main_calls. destruct (run_schedule _ _ _ _) as [s|] eqn:Hs; cbn [default from_option id].
    + by eapply run_schedule_steps.
    + done.
  - vm_compute. reflexivity.
  - reflexivity.
  - done.
Qed.

(** Two candidates, of which the second is too short; the waiter fails behind them. *)
Lemma station_summary_true_witness :
  main (A := unit) (Throw main_failure) = (1, "error: sigtimedwait: 22" +:+ nl +:+ "run with --help for usage" +:+ nl) /\
  exists options src snapshot,
    receiveInput sample_strerror no_files udp_kernel options = Some src /\
    rows main_summary = summary_rows (fun _ => "0.5"%string) options (true_stats (all_frames src)) snapshot /\
    take 5 (rows main_summary) = [("received", "2"); ("decoded", "1"); ("rejected", "1"); ("written", "1");
                         ("application errors", "0")]%string.
Proof.
  split; [reflexivity|].
  destruct (station_summary_true sample_strtod main_args sample_system true true main_error None None None main_turns
    no_files sample_strerror udp_kernel sample_device (fun _ => true) sample_show_float (fun _ => "0.5"%string)
    (fun _ => "0.5"%string) (fun _ => "25.50"%string) main_stamp (fun _ => true) sample_math
    false (Some main_summary) (Throw main_failure)) as (_ & o & src & fs & snap & Hin & _ & Hall & _ & Hrows & _).
  - intros c text c' H. injection H as <-. reflexivity.
  - exact main_ends.
  - exists o, src, snap. rewrite (Hall eq_refl) in Hrows.
    split; [exact Hin|]. split; [exact Hrows|]. vm_compute. reflexivity.
Defined.
