(* ===== verification/StationTerminal.v ===== *)
(** What the terminal of the station shows: the search of a port and the start
    (apps/ground_station/GroundStationApp.cpp), the text messages and the signals of the frames
    (GroundStationProcessing.cpp), in the rendering of [TerminalUi], and the summary. The lines of the
    progress thread, which only reads counters, are left out. *)

From S2P Require Import Prelude TextFormat FrameCodec Floats ApplicationPayload SignalProcessing StationHealth BlockingQueue CliParsing PortDiagnostics Replay Logger NetworkServer ServerSocket TerminalUi Sparkline GroundStationOptions Pipeline PipelineInvariant PipelineSpec PipelineGuarantees TelemetryOutput OutputFile GroundStationApp StationInput EndToEnd StationMain.

(** ** The start *)

Definition transportToString (t : Transport) : string :=
  match t with Udp => "udp" | Tcp => "tcp" end.

Section Start.
Variable ui : TerminalUi.
(** The width that [ioctl()] answers. *)
Variable ws_col : option Z.

Definition row_texts (rows : list (string * string)) : string :=
  concat_texts ((fun '(key, value) => keyValue ui key value) <$> rows).

(** The rows of a port that was tried. *)
Definition port_row (entry : LocalPortAvailability) : string * string :=
  ("port " +:+ show_dec (local_port entry),
   (if available entry then "AVAILABLE" else "BUSY/ERROR") +:+ " / " +:+ local_detail entry)%string.

(** What [selectAutomaticPort] shows, also when it throws; [None] when the search does not end. *)
Definition selection_screen (sys : system) (options : Options) : option string :=
  match autoPortRange options with
  | None => Some EmptyString
  | Some range =>
      r ← findFirstAvailableLocalPort sys (GroundStationOptions.bindAddress options) range PortTcp;
      Some (section ui ws_col "LOCAL PORT SELECTION" +:+
            match r with
            | Throw _ => EmptyString
            | Ok (report, selected) =>
                row_texts ((port_row <$> report) ++
                           match selected with Some p => [("selected", show_dec p)]%string | None => [] end)
            end)
  end.

Definition startup_rows (options : Options) : option (list (string * string)) :=
  input ← match replayFile options with
          | Some path => Some [("input", "replay " +:+ path)]%string
          | None =>
              (* [*options.transport] *)
              t ← GroundStationOptions.transport options;
              Some [("input", transportToString t);
                    ("listen", GroundStationOptions.bindAddress options +:+ ":" +:+
                               show_dec (GroundStationOptions.port options))]%string
          end;
  Some (input ++
    [("decoder workers", show_dec (decoderThreads options));
     ("queue capacity", show_dec (queueCapacity options));
     ("output", outputFile options);
     ("signal filter", signalFilterModeToString (GroundStationOptions.signalFilter options));
     ("health critical hysteresis", show_dec (criticalFramesForDegraded (healthConfig options)) +:+ " -> " +:+
                                    show_dec (criticalFramesForRecovery (healthConfig options)))]%string).

Definition pipeline_rows : list (string * string) :=
  [("stage 1", "network/replay -> bounded raw queue");
   ("stage 2", "parallel FrameCodec + CRC validation");
   ("stage 3", "sequence reorder -> deterministic health/export");
   ("stage 4", "STGA message/signal decode -> terminal rendering")]%string.

(** [None] when an optional without a value is read. *)
Definition renderStartup (options : Options) : option string :=
  rows ← startup_rows options;
  Some (section ui ws_col "GROUND STATION STARTUP" +:+ row_texts rows +:+
        section ui ws_col "PIPELINE" +:+ row_texts pipeline_rows).

(** The terminal's part of [renderSummary]. *)
Definition summary_screen (rep : report) : string :=
  section ui ws_col "GROUND STATION SUMMARY" +:+ row_texts (rows rep).

(** The start on accepted options: both screens are shown, without reading an optional that has no
    value. The screen of the search names the ports that were tried, in order, and last the selected
    one; the screen of the start announces the address and the port that the server is given. *)
Theorem start_screens : forall strtod args sys o,
  parseArgs strtod args = Ok (Some o) ->
  exists search r, selection_screen sys o = Some search /\ selectAutomaticPort sys o = Some r /\
    (forall range, autoPortRange o = Some range -> exists tried, local_port <$> tried `prefix_of` ports range /\
       search = section ui ws_col "LOCAL PORT SELECTION" +:+
         row_texts ((port_row <$> tried) ++
           match r with Ok o' => [("selected", show_dec (GroundStationOptions.port o'))]%string | Throw _ => [] end) /\
       match r with
       | Ok o' => exists before, local_port <$> tried = before ++ [GroundStationOptions.port o']
       | Throw _ => local_port <$> tried = ports range
       end) /\
    forall o', r = Ok o' -> exists rows, startup_rows o' = Some rows /\
      renderStartup o' = Some (section ui ws_col "GROUND STATION STARTUP" +:+ row_texts rows +:+
                               section ui ws_col "PIPELINE" +:+ row_texts pipeline_rows) /\
      (forall path, replayFile o' = Some path -> ("input", "replay " +:+ path)%string ∈ rows) /\
      (replayFile o' = None -> exists config, network_config o' = Some config /\
         ("input", transportToString (NetworkServer.transport config))%string ∈ rows /\
         ("listen", NetworkServer.bindAddress config +:+ ":" +:+ show_dec (NetworkServer.port config))%string ∈ rows).
Proof.
  intros strtod args sys o Ho%parseArgs_options.
  destruct (selectAutomaticPort_ok sys o Ho) as (r & Hsel & Hr).
  assert (Hs : exists search, selection_screen sys o = Some search /\
    (forall range, autoPortRange o = Some range -> exists tried, local_port <$> tried `prefix_of` ports range /\
       search = section ui ws_col "LOCAL PORT SELECTION" +:+
         row_texts ((port_row <$> tried) ++
           match r with Ok o' => [("selected", show_dec (GroundStationOptions.port o'))]%string | Throw _ => [] end) /\
       match r with
       | Ok o' => exists before, local_port <$> tried = before ++ [GroundStationOptions.port o']
       | Throw _ => local_port <$> tried = ports range
       end)).
  { unfold selection_screen, selectAutomaticPort in *. destruct (autoPortRange o) as [range|] eqn:Hrange; [|by eexists].
    destruct (range_auto o (ok_range o Ho) range Hrange) as [Hv Hl]. destruct (ok_auto o Ho range Hrange) as [_ Hc].
    destruct (auto_port_search sys (GroundStationOptions.bindAddress o) range PortTcp Hv Hl Hc) as (tried & found & Hf & Hp).
    rewrite Hf in *. cbn [mbind option_bind] in *. eexists. split; [done|]. intros range' [= <-]. exists tried.
    injection Hsel as <-. destruct found as [p|].
    - destruct Hp as (before & behind & Hpr & _ & _ & Ht). cbv beta iota.
      assert (Hport : GroundStationOptions.port (set_port p o) = p) by by destruct o. rewrite Hport.
      split_and!; [|done|by exists before]. rewrite Ht, Hpr. exists behind. by rewrite <- app_assoc.
    - destruct Hp as [_ Ht]. by rewrite Ht. }
  destruct Hs as (search & Hs & Hrows). exists search, r. split_and!; [done..|].
  intros o' ->. destruct Hr as (p & -> & _ & _).
  assert (Hsame : replayFile (set_port p o) = replayFile o /\ GroundStationOptions.transport (set_port p o) = GroundStationOptions.transport o)
    by by destruct o.
  destruct Hsame as [E1 E2]. unfold renderStartup, startup_rows, network_config. rewrite E1, E2.
  destruct (ok_mode o Ho) as [(t & -> & ->)|(path & -> & ->)]; cbn [mbind option_bind]; eexists; (split_and!; [done|done|..]).
  - done.
  - intros _. eexists. split; [done|]. split; [by left|right; by left].
  - intros path' [= <-]. by left.
  - done.
Qed.

Definition announced : Options := default default_options (match parseArgs sample_strtod sample_args with Ok o => o | Throw _ => None end).

Lemma start_screens_witness :
  exists search, selection_screen sample_system announced = Some search.
Proof.
  destruct (start_screens sample_strtod sample_args sample_system announced) as (search & r & H & _); [vm_compute; reflexivity|].
  exists search. exact H.
Defined.

End Start.

(** ** The frames *)

(** A [std::string] of bytes. *)
Definition characters (bs : bytes) : string := string_of_chars ((fun b => ascii_of_nat (Z.to_nat b)) <$> bs).

(** A call of [receivedMessage] or [receivedSignal] as it is drawn; [None] when a sparkline is not. *)
Definition render_shown (ui : TerminalUi) (ws_col : option Z) (show_fixed : Z -> spec_float -> string) (s : shown) : option string :=
  match s with
  | ReceivedMessage satellite m =>
      Some (receivedMessage ui satellite (sequence m) (characters (ApplicationPayload.text m)))
  | ReceivedSignal satellite s filtered metrics mode =>
      receivedSignal ui ws_col show_fixed satellite (sampleRateHz s) (f32 (frequencyHz s)) (f32 (nominalAmplitude s))
        (f32 <$> ApplicationPayload.samples s) filtered metrics mode
  end.

(** What a frame makes the station show. *)
Definition shows (library : libm) (mode : SignalFilterMode) (window : Z) (frame : TelemetryFrame) (items : list shown) : Prop :=
  match decodeApplicationPayload (payload frame) with
  | Some (ParsedText m) => items = [ReceivedMessage (satelliteId frame) m]
  | Some (ParsedSignal s) => exists filtered metrics,
      processSignal library mode window s = Some (Ok (filtered, metrics)) /\
      items = [ReceivedSignal (satelliteId frame) s filtered metrics mode]
  | _ => items = []
  end.

Section Frames.
Variable device : string -> string -> string * bool.
Variable flushes : string -> bool.
Variable show_float : Z -> string.
Variables (to_string show_rate : spec_float -> string) (show_fixed : Z -> string).
Variable now : nat -> string.
Variable log_writes : nat -> bool.
Variables (mode : SignalFilterMode) (window : Z) (library : libm).
Context (window_positive : 0 < window) (window_odd : window mod 2 = 1).

#[local] Instance terminal_calls : Outputs station_outputs :=
  station_calls device flushes show_float to_string show_rate show_fixed now log_writes mode window library.

Definition same_screen (w w' : effects (env := station_outputs)) : Prop := ui_ (outputs w') = ui_ (outputs w).

Lemma calling_screen (w : effects (env := station_outputs)) c k w' :
  calling w c k = (w', None) -> exists w1, ui_ (outputs w1) = ui_ (fst c) /\ k w1 = (w', None).
Proof. intros [_ Hk]%calling_inv. by exists (set_outputs w (fst c)). Qed.

Lemma report_screen (w : effects (env := station_outputs)) m t k w' :
  Pipeline.report w m t k = (w', None) -> exists w1, same_screen w w1 /\ k w1 = (w', None).
Proof.
  unfold Pipeline.report. destruct t as [t|]; [|intros Hk; eexists; split; [|exact Hk]; done].
  intros (w1 & Hw & Hk)%calling_screen. by exists w1.
Qed.

Lemma processSignal_total s : block_ok s -> exists r, processSignal library mode window s = Some r.
Proof using window_positive window_odd.
  intros Hb. destruct (filterSignal_ok library mode window s Hb window_positive window_odd) as (filtered & Hf & _).
  unfold processSignal. rewrite Hf. by eexists.
Qed.

Lemma process_screen (w : effects (env := station_outputs)) frame k w' :
  bytes_ok (payload frame) -> processApplicationPayload w frame k = (w', None) ->
  exists w1 items, shows library mode window frame items /\ ui_ (outputs w1) = ui_ (outputs w) ++ items /\ k w1 = (w', None).
Proof using window_positive window_odd.
  intros Hok. unfold processApplicationPayload, shows.
  destruct (decodeApplicationPayload (payload frame)) as [[|m|s|e]|] eqn:Hd.
  1, 5: intros Hk; exists w, []; by rewrite app_nil_r.
  - intros (w1 & Hw & Hk)%calling_screen. eauto 6.
  - destruct (processSignal_total s (decoded_block_ok _ _ Hok Hd)) as [[[filtered metrics]|e] Hp];
      cbn [Pipeline.math Pipeline.signalFilter Pipeline.movingAverageWindow terminal_calls station_calls]; rewrite Hp; [|done].
    intros (w1 & Hw & Hk)%calling_screen. eexists w1, _. split; [by eexists _, _|]. by split.
  - intros (w1 & Hw & Hk)%calling_screen. exists w1, []. by rewrite app_nil_r.
Qed.
Lemma consume_screen verbose (w : effects (env := station_outputs)) seq r w' :
  Forall (fun frame => bytes_ok (payload frame)) (frames_of_results [r]) -> consume verbose w seq r = (w', None) ->
  exists items, Forall2 (shows library mode window) (frames_of_results [r]) items /\
    ui_ (outputs w') = ui_ (outputs w) ++ concat items.
Proof using window_positive window_odd.
  unfold consume. destruct r as [frame|error]; cbn [frames_of_results omap list_omap].
  - destruct (recordDecoded _ _ _) as [m t]. intros [Hok _]%Forall_cons.
    intros (w1 & H1 & (w2 & items & Hi & H2 & (w3 & H3 & Hk)%calling_screen)%process_screen)%report_screen; [|done].
    exists [items]. split; [by repeat constructor|]. cbn [concat]. rewrite app_nil_r. unfold same_screen in H1. cbn in H1.
    rewrite <- H1, <- H2. cbn in H3. destruct verbose.
    + apply calling_screen in Hk as (w4 & H4 & [= <-]). rewrite H4. cbn. exact H3.
    + injection Hk as <-. exact H3.
  - destruct (recordRejected _ _) as [m t]. intros _ (w1 & H1 & (w2 & H2 & [= <-])%calling_screen)%report_screen.
    exists []. split; [constructor|]. rewrite app_nil_r, H2. unfold same_screen in H1. cbn in H1. by rewrite <- H1.
Qed.

Lemma consume_all_screen verbose (w : effects (env := station_outputs)) seq rs w' :
  Forall (fun frame => bytes_ok (payload frame)) (frames_of_results rs) -> consume_all verbose w seq rs = (w', None) ->
  exists items, Forall2 (shows library mode window) (frames_of_results rs) items /\
    ui_ (outputs w') = ui_ (outputs w) ++ concat items.
Proof using window_positive window_odd.
  revert w seq. induction rs as [|r rs IH]; intros w seq; cbn [consume_all].
  - intros _ [= <-]. exists []. split; [constructor|]. by rewrite app_nil_r.
  - assert (Hx : frames_of_results (r :: rs) = frames_of_results [r] ++ frames_of_results rs) by by destruct r.
    rewrite Hx. intros [Hr Hrs]%Forall_app. destruct (consume verbose w seq r) as [w1 [e|]] eqn:Hc; [done|]. intros Hall.
    apply consume_screen in Hc as (items1 & Hi1 & H1); [|done]. destruct (IH w1 _ Hrs Hall) as (items2 & Hi2 & H2).
    exists (items1 ++ items2). split; [by apply Forall2_app|]. by rewrite H2, H1, concat_app, app_assoc.
Qed.

(** What is shown in a sequential run. *)
Lemma run_screen verbose (w : effects (env := station_outputs)) fs w' :
  Forall bytes_ok fs -> run_sequentially verbose w fs = Some (w', None) ->
  exists items, Forall2 (shows library mode window) (accepted_frames fs) items /\
    ui_ (outputs w') = ui_ (outputs w) ++ concat items.
Proof using window_positive window_odd.
  unfold run_sequentially. intros Hok Hr. destruct (decode_all fs) as [rs|] eqn:Hd; [|done].
  cbn [mbind option_bind] in Hr. apply accepted_frames_typed in Hok as Ht. rewrite <- (frames_of_decoded fs rs) in * by done.
  destruct (consume_all verbose w 0 rs) as [w1 [e|]] eqn:Hc; [done|]. injection Hr as Hf.
  apply consume_all_screen in Hc as (items & Hi & H1); [|eapply Forall_impl; [exact Ht|]; intros f Hft; apply Hft].
  exists items. split; [done|]. rewrite <- H1. unfold finish in Hf. apply calling_screen in Hf as (w2 & H2 & [= <-]). by rewrite H2.
Qed.

(** What a frame makes the station show is drawn, in any terminal. *)
Lemma shows_drawn ui ws_col fixed frame items : bytes_ok (payload frame) -> shows library mode window frame items ->
  Forall (fun s => is_Some (render_shown ui ws_col fixed s)) items.
Proof using window_positive window_odd.
  intros Hok. unfold shows. destruct (decodeApplicationPayload (payload frame)) as [[|m|s|e]|] eqn:Hd; try by intros ->.
  - intros ->. constructor; [by eexists|constructor].
  - intros (filtered & metrics & Hp & ->). constructor; [|constructor].
    destruct (processed_signal_is_shown library mode window (payload frame) s filtered metrics ui ws_col fixed
      (satelliteId frame) Hok Hd window_positive window_odd Hp) as [t Ht]. by exists t.
Qed.
End Frames.

(** C10: what the operator sees. The pipeline runs with the terminal of the station, with any number of
    decoders and any interleaving of the threads, and ends well. Then the terminal was given, in the
    order of the reception, one item for every accepted frame with a text message or a signal block
    and nothing for any other candidate: the message as it was sent, or the samples with what the
    chosen filter and the metrics make of them. Every item is drawn, in any terminal: no level of a
    sparkline leaves the table and no rounding yields a NaN. *)
Theorem station_shows_payloads : forall device flushes show_float to_string show_rate show_fixed now log_writes mode window library verbose src w0 cap n s w,
  let out := station_calls device flushes show_float to_string show_rate show_fixed now log_writes mode window library in
  0 < window -> window mod 2 = 1 -> Forall bytes_ok (all_frames src) ->
  0 < n -> rtc (step verbose src) (start src cap n w0) s -> outcome s = Some (Ok w) ->
  exists fs items, fs `prefix_of` all_frames src /\ (interrupted s = false -> fs = all_frames src) /\
    Forall2 (shows library mode window) (accepted_frames fs) items /\
    ui_ (outputs w) = ui_ (outputs w0) ++ concat items /\
    forall ui ws_col fixed, exists texts, mapM (render_shown ui ws_col fixed) (concat items) = Some texts.
Proof.
  intros device flushes show_float to_string show_rate show_fixed now log_writes mode window library verbose src w0 cap n s w out
    Hw Hodd Hok Hn Hs Ho.
  destruct (outcome_ok verbose src w0 cap n Hn s w Hs Ho) as (Hrun & Hp & Hall).
  assert (Hfs : Forall bytes_ok (submitted s)) by (destruct Hp as [rest Hp]; rewrite Hp in Hok; by apply Forall_app in Hok as [? _]).
  apply run_screen in Hrun as (items & Hi & Hui); [|done..].
  exists (submitted s), items. split_and!; [done..|]. intros ui ws_col fixed. apply mapM_is_Some_2, Forall_concat.
  apply accepted_frames_typed in Hfs. clear -Hi Hfs Hw Hodd. induction Hi as [|frame its frames itss Hf _ IH]; [constructor|].
  apply Forall_cons in Hfs as [Hft Hfs]. constructor; [|by apply IH]. eapply shows_drawn; [done|done|apply Hft|done].
Qed.

(** ** A run with a message and a signal *)

Definition frame_with (payload : bytes) : bytes :=
  match encodeFrame {| version := version sample_frame; satelliteId := satelliteId sample_frame;
                       timestampMs := timestampMs sample_frame; temperatureC := temperatureC sample_frame;
                       batteryPercent := batteryPercent sample_frame; status := status sample_frame; payload := payload |} with
  | Ok bs => bs
  | Throw _ => []
  end.
Definition talking : source :=
  {| Pipeline.reads := [[frame_with sample_text_bytes; frame_with sample_signal_bytes]]; ends_with := None |}.

#[local] Instance talking_station : Outputs station_outputs :=
  station_calls sample_device (fun _ => true) sample_show_float (fun _ => "0") (fun _ => "0") (fun _ => "25.50")
    (fun _ => "2026-01-01T00:00:00.000Z") (fun _ => true) MovingAverage 3 sample_math.
Definition talking_end : pipeline (env := station_outputs) :=
  default (start talking 1 2 station_start) (run_schedule false talking overtaking (start talking 1 2 station_start)).
Definition talking_work : effects (env := station_outputs) :=
  match outcome talking_end with Some (Ok w) => w | _ => station_start end.
Definition plain_ui : TerminalUi := {| interactive_ := false; colorsEnabled_ := false; unicodeEnabled_ := false |}.

Lemma talking_steps : rtc (step false talking) (start talking 1 2 station_start) talking_end.
Proof.
  unfold talking_end. destruct (run_schedule _ _ _ _) as [s|] eqn:Hs; cbn; [|done]. by eapply run_schedule_steps.
Qed.

Lemma station_shows_payloads_witness :
  exists message signal, ui_ (outputs talking_work) = [message; signal] /\
    (exists text, mapM (render_shown plain_ui None (fun _ _ => "0")) [message; signal] = Some text) /\
    render_shown plain_ui None (fun _ _ => "0") message =
      Some ("[MESSAGE] sat=42 seq=7 text=" +:+ double_quote +:+ sanitizeRemoteText (characters (ApplicationPayload.text sample_text)) +:+ double_quote +:+ line_feed).
Proof.
  destruct (station_shows_payloads sample_device (fun _ => true) sample_show_float (fun _ => "0"%string) (fun _ => "0"%string)
              (fun _ => "25.50"%string) (fun _ => "2026-01-01T00:00:00.000Z"%string) (fun _ => true) MovingAverage 3 sample_math
              false talking station_start 1 2 talking_end talking_work) as (fs & items & _ & _ & _ & Hui & Hdraw).
  - lia.
  - reflexivity.
  - apply Forall_forall. intros bs Hbs. revert bs Hbs. apply Forall_forall. decide_now.
  - lia.
  - exact talking_steps.
  - vm_compute. reflexivity.
  - assert (H : exists message signal, ui_ (outputs talking_work) = [message; signal]) by (vm_compute; eauto).
    destruct H as (message & signal & H). exists message, signal. split; [exact H|].
    change (ui_ (outputs station_start)) with (@nil shown) in Hui. rewrite H in Hui. cbn [app] in Hui. split.
    + rewrite Hui. apply (Hdraw plain_ui None).
    + assert (Hm : Some message = Some (ReceivedMessage 42 sample_text)).
      { change (Some message) with (head [message; signal]). rewrite <- H. vm_compute. reflexivity. }
      injection Hm as ->. vm_compute. reflexivity.
Defined.
