(* ===== verification/SimulatorMain.v ===== *)
(** The simulator as a process: [apps/satellite_simulator.cpp] and [run] of
    apps/satellite_simulator/SimulatorApp.cpp with createSocket of SimulatorSocket.cpp, from the
    command line to the exit status; and the simulator and the station on one network.

    The kernel of the socket, the files, the generator and the clock are parameters. The waiting
    between two frames is left out. *)

From S2P Require Import Prelude TextFormat FrameCodec StreamExtractor Floats ApplicationPayload SignalProcessing Replay BlockingQueue CliParsing PortDiagnostics NetworkServer ServerSocket GroundStationOptions Pipeline PipelineInvariant PipelineSpec PipelineGuarantees GroundStationApp StationInput SimulatorOptions Simulator SimulatorApp TelemetryOutput EndToEnd StationMain.

(** What the kernel answers: [send()] and [sendto()] by the number of the frame and its bytes. *)
Record sim_kernel := {
  k_socket : answer;
  k_connect : answer;
  k_send : Z -> bytes -> list send_result;
  k_sendto : Z -> bytes -> send_result;
}.

Section Process.
Context {rng : Type} `{RandomLaws rng}.

(** What a run that ends well leaves: the rows of the summary, and the capture with the frames that
    were sent. *)
Record sim_report := { sim_rows : list (string * string); sim_final : simulation (rng := rng) }.

(** [std::mt19937 rng(seed)] *)
Variable seeded : Z -> rng.
Variable math : libm.
Variable nowMs : Z -> Z.
Variable strtod : string -> strtod_result.
Variable sys : system.
Variable random_seed : Z.
(** The disk: whether the capture can be opened, what its writes do, and the last flush. *)
Variable opens : bool.
Variable device : bytes -> bytes -> bytes * bool.
Variable flushes : bool.
Variable strerror : errno -> string.
Variable k : sim_kernel.

(** ** [SimulatorSocket.cpp] and [run] *)

Definition createSocket : result Z :=
  match k_socket k with
  | Returned fd => Ok (Z.of_N fd)
  | Failed e => Throw (runtime_error ("socket() failed: " +:+ strerror e))
  end.

(** The destination, and for TCP the connection. *)
Definition connect_socket (o : SimulatorOptions) (t : Transport) : result unit :=
  _ ← destination sys o;
  match t, k_connect k with
  | Tcp, Failed e => Throw (runtime_error ("connect() failed: " +:+ strerror e))
  | _, _ => Ok tt
  end.

(** [None] when the answers do not suffice for the loop of [sendAll]. *)
Definition transmit_frame (t : Transport) (i : Z) (bs : bytes) : option (result unit) :=
  match t with
  | Udp => Some (sendUdpFrame strerror (k_sendto k i bs) bs)
  | Tcp => '(_, r) ← sendAll strerror bs (k_send k i bs); Some r
  end.

Definition open_capture (o : SimulatorOptions) : result (option ofstream) :=
  match sim_outputFile o with
  | Some path => out ← FrameFileWriter device path opens; Ok (Some out)
  | None => Ok None
  end.

Definition sim_summary (o : SimulatorOptions) (produced dropped corrupted : Z) : list (string * string) :=
  [("produced", show_dec produced); ("dropped", show_dec dropped); ("corrupted", show_dec corrupted)]%string ++
  match sim_outputFile o with Some path => [("replay"%string, path)] | None => [] end.

(** Behind the loop: [flush()] and the summary. *)
Definition summarise (o : SimulatorOptions) (s : simulation) : result sim_report :=
  _ ← match capture s with Some out => snd (flush out flushes) | None => Ok tt end;
  Ok {| sim_rows := sim_summary o (produced s) (dropped s) (corrupted s); sim_final := s |}.

(** From the loop on. *)
Definition transmission (o : SimulatorOptions) (out : option ofstream)
  (transmit : option (Z -> bytes -> option (result unit))) : option (result sim_report) :=
  x ← simulate math nowMs device transmit o (Z.to_nat (frame_count o)) 0 (simulation_start (seeded (seed o)) out);
  Some (s ← x; summarise o s).

(** [run]: what is done with the socket, which its owner closes on every way out. *)
Definition simulator_run (o : SimulatorOptions) : option (list sys_effect * result sim_report) :=
  d ← discoverPort sys o;
  match (o ← d; out ← open_capture o; Ok (o, out)) with
  | Throw e => Some ([], Throw e)
  | Ok (o, out) =>
      match sim_transport o with
      | None => r ← transmission o out None; Some ([], r)
      | Some t =>
          match createSocket with
          | Throw e => Some ([], Throw e)
          | Ok fd =>
              r ← match connect_socket o t with
                  | Throw e => Some (Throw e)
                  | Ok _ => transmission o out (Some (transmit_frame t))
                  end;
              Some ([SocketOpened fd; SocketClosed fd], r)
          end
      end
  end.

(** [parseArgs] and [run]: [Ok None] is the end of [--help]. The exit status is [StationMain.main]
    of the result, both programs having the same [main]. *)
Definition simulator_process (args : list string) : option (list sys_effect * result (option sim_report)) :=
  match simulator_parseArgs strtod sys random_seed args with
  | Throw e => Some ([], Throw e)
  | Ok None => Some ([], Ok None)
  | Ok (Some o) => '(tr, r) ← simulator_run o; Some (tr, rep ← r; Ok (Some rep))
  end.

(** ** What the transmission is *)

Context (clock_fits : forall i, fits 64 (nowMs i)).
Context (device_ok : forall c d c', device c d = (c', true) -> c' = c ++ d).
Context (sends_enough : forall i bs, is_Some (sendAll strerror bs (k_send k i bs))).

(** A frame that was transmitted: the connection took all its bytes, or one datagram has them. *)
Definition sent_whole (t : Transport) (bs : bytes) : Prop :=
  match t with
  | Tcp => exists i, sendAll strerror bs (k_send k i bs) = Some (bs, Ok tt)
  | Udp => exists i, k_sendto k i bs = Sent (size bs)
  end.

Lemma transmit_ends t i bs : is_Some (transmit_frame t i bs).
Proof using sends_enough.
  unfold transmit_frame. destruct t; [by eexists|]. destruct (sends_enough i bs) as [[taken r] ->]. by eexists.
Qed.

Lemma transmit_whole t i bs : transmit_frame t i bs = Some (Ok tt) -> sent_whole t bs.
Proof.
  unfold transmit_frame, sent_whole. destruct t.
  - intros [= Hs]. exists i. by apply sendUdpFrame_whole in Hs.
  - destruct (sendAll _ _ _) as [[taken r]|] eqn:Hs; cbn [mbind option_bind]; [|done]. intros [= ->]. exists i.
    rewrite Hs. apply sendAll_loop_spec in Hs as [_ Ht]; [|pose proof (size_nonneg bs); lia].
    by rewrite Ht.
Qed.

(** What is true of a report. *)
Record true_report (o : SimulatorOptions) (log : list (TelemetryFrame * bool)) (fs : list bytes) (rep : sim_report) : Prop := {
  true_rows : sim_rows rep = sim_summary o (size fs) (frame_count o - size fs) (corrupted_of log);
  true_counts : produced (sim_final rep) = size fs /\ corrupted (sim_final rep) = corrupted_of log;
  true_bounds : Forall frame_bounds fs;
  true_decodes : Forall2 (decodes math nowMs o) log fs;
  true_capture : match sim_outputFile o with
    | Some path => exists file, capture (sim_final rep) = Some file /\ readFile path (Replay.written file) = Some (fs, Ok tt)
    | None => capture (sim_final rep) = None
    end;
  true_sent : match sim_transport o with Some t => transmitted (sim_final rep) = fs /\ Forall (sent_whole t) fs | None => True end;
}.

Lemma FrameFileWriter_header path out :
  FrameFileWriter device path opens = Ok out -> out = {| Replay.written := FileHeader; good := true |}.
Proof using device_ok.
  unfold FrameFileWriter, ostream_write. destruct opens; cbn [negb]; [|done]. cbn [good Replay.written].
  destruct (device [] FileHeader) as [c []] eqn:Hd; cbn [good negb]; [|done]. apply device_ok in Hd as ->. by intros [= <-].
Qed.

Lemma transmission_true o out t :
  simulator_valid o -> open_capture o = Ok out -> sim_transport o = t ->
  exists r, transmission o out (transmit_frame <$> t) = Some r /\
    forall rep, r = Ok rep -> exists log fs, true_report o log fs rep.
Proof using Type*.
  intros Ho Hout Ht. unfold transmission.
  assert (He : match transmit_frame <$> t with Some send => forall i bs, is_Some (send i bs) | None => True end)
    by (destruct t; [intros i bs; apply transmit_ends|done]).
  set (captured := match sim_outputFile o with Some _ => true | None => false end).
  assert (Hc : out = if captured then Some {| Replay.written := FileHeader; good := true |} else None).
  { unfold open_capture in Hout. unfold captured. destruct (sim_outputFile o) as [path|]; [|by injection Hout as <-].
    destruct (FrameFileWriter _ _ _) as [out'|] eqn:Hw; [|done]. apply FrameFileWriter_header in Hw as ->. by injection Hout as <-. }
  destruct (simulation_run math nowMs clock_fits device device_ok (transmit_frame <$> t) He o (seeded (seed o)) captured Ho) as (x & Hx & Hinv & _).
  rewrite Hc, Hx. cbn [mbind option_bind]. eexists. split; [done|]. intros rep Hrep.
  destruct x as [s|]; [|done]. destruct (Hinv s eq_refl) as (log & fs & [H1' H2 H3 H4 H5 H6 H7 H8] & Hread).
  exists log, fs. apply bind_Ok in Hrep as (s' & [= <-] & (_ & _ & Hrep)%bind_Ok).
  injection Hrep as <-. constructor; cbn [sim_rows sim_final]; try done.
  - by rewrite H6, H7, H8.
  - unfold captured in *. destruct (sim_outputFile o) as [path|]; [|done]. eexists. split; [done|]. by apply Hread.
  - rewrite Ht. destruct t as [t|]; [|done]. split; [done|]. eapply Forall_impl; [exact H5|]. intros bs [j Hj].
    by eapply transmit_whole.
Qed.

(** ** The process *)

Lemma valid_set_port p o : simulator_valid o -> 1 <= p <= u16_max -> simulator_valid (sim_set_port p o).
Proof using.
  intros [[H1 H2 H3 H4 H5 H6 H7 H8 H9 H10 H11] H12 H13] Hp.
  destruct o. constructor; [constructor|..]; done.
Qed.

(** The discovery ends, and changes the port at most. *)
Lemma discovery_ends args o :
  simulator_parseArgs strtod sys random_seed args = Ok (Some o) ->
  exists d, discoverPort sys o = Some d /\
    forall o', d = Ok o' -> simulator_valid o' /\ exists p, o' = sim_set_port p o.
Proof using.
  intros Hargs. apply simulator_options in Hargs as Ho. destruct (discoverPorts o) as [range|] eqn:Hd.
  - destruct (discovery_finds_first_listener _ _ _ _ _ _ Hargs Hd) as (_ & results & _ & _ & Hr).
    destruct (discoverPort sys o) as [[o'|e]|]; [| |done]; eexists; (split; [done|]); [|done].
    intros o1 [= <-]. destruct Hr as (_ & r & _ & _ & _ & _ & -> & Hp). split; [|by eexists]. by apply valid_set_port.
  - exists (Ok o). unfold discoverPort. rewrite Hd. split; [done|]. intros o' [= <-]. split; [done|].
    exists (sim_port o). by destruct o.
Qed.

Lemma sim_set_port_fields p o :
  sim_transport (sim_set_port p o) = sim_transport o /\ sim_outputFile (sim_set_port p o) = sim_outputFile o /\
  frame_count (sim_set_port p o) = frame_count o.
Proof using. by destruct o. Qed.

Lemma simulator_run_true args o :
  simulator_parseArgs strtod sys random_seed args = Ok (Some o) ->
  exists tr r, simulator_run o = Some (tr, r) /\ owned tr = Some None /\
    forall rep, r = Ok rep -> exists p log fs, true_report (sim_set_port p o) log fs rep.
Proof using Type*.
  intros Hargs. destruct (discovery_ends args o Hargs) as (d & Hd & Hok). unfold simulator_run. rewrite Hd.
  cbn [mbind option_bind]. destruct d as [o'|e]; [|by eexists _, _]. destruct (Hok o' eq_refl) as [Hv [p ->]].
  bind_some. destruct (open_capture (sim_set_port p o)) as [out|e] eqn:Hc; [|by eexists _, _]. bind_some.
  destruct (transmission_true _ out _ Hv Hc eq_refl) as (r & Hr & Hrep).
  destruct (sim_transport (sim_set_port p o)) as [t|]; cbn [fmap option_fmap option_map] in Hr.
  - destruct createSocket as [fd|e]; [|by eexists _, _]. destruct (connect_socket _ t) as [[]|e].
    + rewrite Hr. cbn [mbind option_bind]. eexists _, _. split; [done|]. split; [cbn; by rewrite decide_True|].
      intros rep Hx. destruct (Hrep rep Hx) as (log & fs & ?). by exists p, log, fs.
    + eexists _, _. split; [done|]. split; [cbn; by rewrite decide_True|done].
  - rewrite Hr. cbn [mbind option_bind]. eexists _, _. split; [done|]. split; [done|].
    intros rep Hx. destruct (Hrep rep Hx) as (log & fs & ?). by exists p, log, fs.
Qed.


(** ** The simulator and the station *)

(** What the network makes of the frames: each datagram arrives, in order; or the bytes arrive at the
    reads of one connection, cut anyhow, and the other ones are silent. *)
Definition delivered (station_strerror : errno -> string) (config : NetworkConfig) (kern : kernel) (fs : list bytes) : Prop :=
  match NetworkServer.transport config with
  | Udp => first_failure station_strerror config kern = None /\ datagrams (udp_polls kern) = fs
  | Tcp => exists f,
      let heard := run_heard station_strerror config kern in
      concat (NetworkServer.reads f heard) = concat fs /\
      forall g, g <> f -> NetworkServer.reads g heard = []
  end.

Lemma datagrams_called_back station_strerror config kern fs :
  NetworkServer.transport config = Udp -> Forall frame_bounds fs -> delivered station_strerror config kern fs ->
  called_back (run_heard station_strerror config kern) = fs.
Proof using.
  unfold delivered, run_heard, loop_result. intros Ht Hb. rewrite Ht. intros [-> Hd].
  destruct (NetworkServer.runUdp station_strerror (udp_polls kern)) as [tr e] eqn:Hr. rewrite called_back_traffic.
  pose proof (runUdp_callbacks station_strerror (udp_polls kern)) as Hc. rewrite Hr, Hd in Hc. cbn [fst] in Hc.
  assert (Hall : called_back tr = callbacks 0 tr).
  { clear Hc Hd. revert tr e Hr. induction (udp_polls kern) as [|x polls IH]; intros tr e; cbn [NetworkServer.runUdp].
    - by intros [= <- <-].
    - assert (Hx : called_back (fst (udp_turn station_strerror x)) = callbacks 0 (fst (udp_turn station_strerror x)))
        by (destruct x as [[]| |[d|[]]]; cbn [udp_turn]; try done; by destruct (_ >? _)).
      destruct (udp_turn station_strerror x) as [tr1 [e1|]]; [by intros [= <- <-]|].
      destruct (NetworkServer.runUdp _ polls) as [tr2 e2]. intros [= <- <-].
      cbn [fst] in Hx. by rewrite called_back_app, callbacks_app, Hx, (IH _ _ eq_refl). }
  rewrite Hall, Hc. clear Hd Hc. induction Hb as [|bs fs [_ [_ Hs]] _ IH]; [done|].
  by rewrite filter_cons, decide_True, IH.
Qed.

(** Frames that were not corrupted are encoded frames. *)
Lemma uncorrupted_encoded o log fs :
  Forall2 (decodes math nowMs o) log fs -> Forall frame_bounds fs -> corrupted_of log = 0 ->
  Forall2 (fun f e => frame_typed f /\ encodeFrame f = Ok e) (fst <$> log) fs.
Proof using.
  intros Hd Hb Hc. induction Hd as [|[f c] bs log fs [_ Hx] _ IH]; [constructor|].
  inversion Hb as [|? ? [Hok _] Hb']; subst. unfold corrupted_of in *. rewrite filter_cons in Hc. cbn [snd fst] in *.
  destruct c; [rewrite decide_True, size_cons in Hc by done; pose proof (size_nonneg (filter (fun x : TelemetryFrame * bool => snd x = true) log)); lia|].
  rewrite decide_False in Hc by done. rewrite fmap_cons. constructor; [|by apply IH].
  destruct (decode_sound bs f Hok Hx) as (Hf & He & ->). split; [done|by apply encodeFrame_wire].
Qed.

Lemma called_back_of_one f tr :
  (forall g, g <> f -> callbacks g tr = []) -> called_back tr = callbacks f tr.
Proof using.
  induction tr as [|e tr IH]; [done|]. intros Hg. unfold called_back, callbacks in *. cbn [omap list_omap] in *.
  destruct e as [g|g b|g b|g|m|m]; try by apply IH.
  destruct (decide (g = f)) as [->|Hne].
  - f_equal. apply IH. intros g' Hg'. specialize (Hg g' Hg'). by rewrite decide_False in Hg.
  - specialize (Hg g Hne). by rewrite decide_True in Hg.
Qed.

Lemma connection_called_back station_strerror config kern fs :
  NetworkServer.transport config = Tcp -> Forall framed fs ->
  delivered station_strerror config kern fs ->
  called_back (run_heard station_strerror config kern) = fs.
Proof using.
  unfold delivered. intros Ht Hframed. rewrite Ht. intros (f & Hcat & Hsilent). cbv zeta in *.
  rewrite (called_back_of_one f).
  - destruct (heard_connection station_strerror config kern f Ht) as [ex Hex]. by eapply framed_stream.
  - intros g Hg. destruct (heard_connection station_strerror config kern g Ht) as [ex Hex].
    rewrite Hsilent in Hex by done. by injection Hex as <-.
Qed.

(** C13: the two programs on one network. The simulator ends with exit status 0, the network delivers
    what it took, as datagrams or as the bytes of one connection, and the station, whose server
    listens to them, ends well, on any interleaving of its threads and with any outputs. Then the
    station has accepted and written as many frames as the simulator says it produced and did not
    corrupt, and rejected as many as it says it corrupted. For datagrams this is so whatever byte of
    a frame a corruption changed. For a connection it is claimed only of the runs that corrupted
    nothing and of those whose corruptions left each frame its limits, the magic at the front and the
    length, by which the stream is cut ([framed_insert]); a corruption of these can hide the frames
    behind it ([corrupted_length_hides]). For TCP the script of the station's kernel has the end of
    every [recv()] and [accept()] loop. *)
Theorem network_counts_simulation : forall args o tr rep,
  simulator_parseArgs strtod sys random_seed args = Ok (Some o) ->
  simulator_process args = Some (tr, Ok (Some rep)) ->
  forall station_strerror config kern src env (out : Outputs env) verbose w0 cap n st w,
  sim_transport o = Some (NetworkServer.transport config) ->
  (NetworkServer.transport config = Tcp ->
   corrupted (sim_final rep) = 0 \/ Forall framed (transmitted (sim_final rep))) ->
  answered config kern -> delivered station_strerror config kern (transmitted (sim_final rep)) ->
  network_source station_strerror config kern = Some src -> 0 < n ->
  rtc (step verbose src) (start src cap n w0) st -> outcome st = Some (Ok w) -> interrupted st = false ->
  let s := sim_final rep in
  decoded w = decoded w0 + (produced s - corrupted s) /\
  Pipeline.written w = Pipeline.written w0 + (produced s - corrupted s) /\
  rejected w = rejected w0 + corrupted s.
Proof using Type*.
  intros args o tr rep Hargs Hp station_strerror config kern src env out verbose w0 cap n st w Ht Hcorr Hans Hdel Hsrc Hn Hst Ho Hi s.
  unfold simulator_process in Hp. rewrite Hargs in Hp.
  destruct (simulator_run_true args o Hargs) as (tr' & r & Hr & _ & Hrep). rewrite Hr in Hp. cbn [mbind option_bind] in Hp.
  destruct r as [rep'|e]; [|done]. injection Hp as <- <-.
  destruct (Hrep rep' eq_refl) as (p & log & fs & [_ [Hprod Hcor] Hbounds Hdec _ Hsent]).
  rewrite (proj1 (sim_set_port_fields p o)), Ht in Hsent. destruct Hsent as [Htr _]. rewrite Htr in Hdel, Hcorr.
  destruct (server_is_source station_strerror config kern Hans) as (src' & Hsrc' & _ & Hcb).
  rewrite Hsrc in Hsrc'. injection Hsrc' as <-.
  assert (Hall : all_frames src = fs).
  { rewrite <- Hcb. destruct (NetworkServer.transport config) eqn:E.
    - by apply datagrams_called_back.
    - eapply connection_called_back; [done| |done]. destruct (Hcorr eq_refl) as [Hnone|]; [|done].
      eapply encoded_framed, uncorrupted_encoded; [done..|]. by rewrite <- Hcor. }
  destruct (outcome_ok verbose src w0 cap n Hn st w Hst Ho) as (Hrun & _ & Hsub).
  rewrite (Hsub Hi), Hall in Hrun. apply run_counters in Hrun as (rs & Hrs & Hd & Hrj & Hw).
  destruct (simulated_results math nowMs _ log fs rs Hdec Hrs) as [Hsize Hcount].
  unfold s. rewrite Hd, Hrj, Hw, Hcount, Hsize, Hprod, Hcor. lia.
Qed.

End Process.

(** ** Runs *)

Lemma whole_sends strerror (bs : bytes) : is_Some (sendAll strerror bs [SendFailed EINTR; Sent (size bs)]).
Proof.
  destruct bs as [|b bs]; [by eexists|]. unfold sendAll. pose proof (size_nonneg bs).
  change [SendFailed EINTR; Sent (size (b :: bs))] with (partial_sends [(1%nat, b :: bs)]).
  rewrite sendAll_pieces; [by eexists|done|by cbn; rewrite app_nil_r|rewrite size_cons; lia|by constructor].
Qed.

(** Four frames over a connection, with a capture. *)
Definition net_kernel : sim_kernel := {|
  k_socket := Returned 4; k_connect := Returned 0;
  k_send := fun _ bs => [SendFailed EINTR; Sent (size bs)]; k_sendto := fun _ bs => Sent (size bs) |}.
Definition tcp_args : list string :=
  ["--tcp"; "--output-file"; "capture.stgf"; "--count"; "4"; "--payload-size"; "3"; "--corrupt"; "0.5"].
Definition net_process (args : list string) :=
  simulator_process (fun _ => 0) sample_math sample_clock sample_strtod sample_system 7 true healthy true
    sample_strerror net_kernel args.


(** Two frames as datagrams, of which one is corrupted, and a station that receives them. *)
#[local] Existing Instance tape.

Definition udp_args : list string := ["--udp"; "--count"; "2"; "--payload-size"; "3"; "--corrupt"; "0.5"].
Definition udp_options : SimulatorOptions :=
  match simulator_parseArgs sample_strtod sample_system 7 udp_args with Ok (Some o) => o | _ => simulator_defaults 7 end.
Definition udp_report : sim_report (rng := Z) :=
  match net_process udp_args with
  | Some (_, Ok (Some rep)) => rep
  | _ => {| sim_rows := []; sim_final := simulation_start 0 None |}
  end.
Definition receiving_kernel : kernel := {|
  ServerSocket.sys_socket := Returned 5; sys_setsockopt := Returned 0;
  sys_inet_pton := fun a => if bool_decide (a = "127.0.0.1"%string) then Some 0x7F000001 else None;
  ServerSocket.sys_bind := Returned 0; sys_getfl := Returned 2; sys_setfl := Returned 0; sys_listen := Returned 0;
  sys_close := fun _ => Returned 0; tcp_polls := [];
  udp_polls := UdpNothing :: ((fun d => UdpReady (Received d)) <$> transmitted (sim_final udp_report)) |}.
Definition receiving_source : source :=
  default {| Pipeline.reads := []; ends_with := None |} (network_source sample_strerror (sample_config Udp) receiving_kernel).
Definition receiving_end : pipeline (env := list string) := reached receiving_source main_schedule.

Lemma network_counts_simulation_witness :
  sim_rows udp_report = [("produced", "2"); ("dropped", "0"); ("corrupted", "1")]%string /\
  decoded (ended_with receiving_end) = 0 + (produced (sim_final udp_report) - corrupted (sim_final udp_report)) /\
  Pipeline.written (ended_with receiving_end) = 0 + (produced (sim_final udp_report) - corrupted (sim_final udp_report)) /\
  rejected (ended_with receiving_end) = 0 + corrupted (sim_final udp_report).
Proof.
  split; [vm_compute; reflexivity|].
  apply (network_counts_simulation (fun _ => 0) sample_math sample_clock sample_strtod sample_system 7 true healthy true
    sample_strerror net_kernel) with (args := udp_args) (o := udp_options) (tr := [SocketOpened 4; SocketClosed 4])
    (station_strerror := sample_strerror) (config := sample_config Udp) (kern := receiving_kernel)
    (src := receiving_source) (env := list string) (out := tape) (verbose := false) (w0 := fresh) (cap := 1) (n := 2)
    (st := receiving_end).
  - intros i. unfold sample_clock. rewrite Z.land_ones by lia. apply Z.mod_pos_bound. lia.
  - intros c d c' H. injection H as <-. reflexivity.
  - intros i bs. apply whole_sends.
  - vm_compute. reflexivity.
  - vm_compute. reflexivity.
  - vm_compute. reflexivity.
  - intros H. discriminate H.
  - exact I.
  - split; vm_compute; reflexivity.
  - vm_compute. reflexivity.
  - reflexivity.
  - apply reached_steps.
  - vm_compute. reflexivity.
  - vm_compute. reflexivity.
Defined.
