(* ===== verification/SimulatorTerminal.v ===== *)
(** What the terminal of the simulator shows in front of the transmission: the discovery of a port and
    the configuration (apps/satellite_simulator/SimulatorApp.cpp). [std::to_string] of a [double] and
    the rendering of the latencies are parameters. *)

From S2P Require Import Prelude TextFormat Floats CliParsing PortDiagnostics NetworkServer SignalProcessing TerminalUi GroundStationOptions SimulatorOptions Simulator SimulatorApp StationTerminal.

Section Screens.
Variable ui : TerminalUi.
Variable ws_col : option Z.
(** [<<] and [std::to_string] of a [double]. *)
Variables show_latency to_string : spec_float -> string.

Definition payloadModeName (mode : PayloadMode) : string :=
  match mode with
  | RandomBytes => "random-bytes" | TextMessageMode => "text-message" | SignalMode => "signal"
  end.

Definition probe_row (r : TcpPortProbeResult) : string * string :=
  ("port " +:+ show_dec (probe_port r),
   tcpPortStateToString (probe_state r) +:+ " / " +:+ show_latency (latencyMs r) +:+ " ms / " +:+ probe_detail r)%string.

(** What [discoverPort] shows, also when it throws; [None] when the scan does not end. *)
Definition discovery_screen (sys : system) (o : SimulatorOptions) : option string :=
  match discoverPorts o with
  | None => Some EmptyString
  | Some range =>
      r ← scanTcpPorts sys (host o) range (discoveryTimeout o);
      Some (section ui ws_col "TCP PORT DISCOVERY" +:+
            match r with
            | Throw _ => EmptyString
            | Ok results =>
                row_texts ui ((probe_row <$> results) ++
                  match select_open results with Some p => [("selected", show_dec p)]%string | None => [] end)
            end)
  end.

(** A [float] is widened for [std::to_string]. *)
Definition configuration_rows (o : SimulatorOptions) : list (string * string) :=
  [("payload mode", payloadModeName (payloadMode o));
   ("frames", show_dec (frame_count o));
   ("rate", to_string (rate o) +:+ " fps");
   ("satellite", show_dec (sim_satelliteId o));
   ("seed", show_dec (seed o))]%string ++
  match sim_transport o with
  | Some t => [("transport", transportToString t);
               ("destination", host o +:+ ":" +:+ show_dec (sim_port o))]%string
  | None => []
  end ++
  match payloadMode o with
  | SignalMode => [("signal", to_string (widen (f32 (signalFrequencyHz o))) +:+ " Hz @ " +:+ show_dec (sim_sampleRateHz o) +:+ " Hz");
                   ("noise sigma", to_string (widen (f32 (noiseStddev o))))]%string
  | _ => []
  end ++
  [("loss probability", to_string (lossProbability o));
   ("CRC corruption probability", to_string (corruptProbability o))]%string.

Definition renderConfiguration (o : SimulatorOptions) : string :=
  section ui ws_col "SATELLITE SIMULATOR" +:+ row_texts ui (configuration_rows o).

(** On accepted options the screens tell the port that is used: the discovery shows every port of the
    range, in order, and then the first that is open; the configuration announces it as the
    destination, which is where [destination] goes when the host is an address. *)
Theorem discovery_is_announced : forall strtod sys random_seed args o range,
  simulator_parseArgs strtod sys random_seed args = Ok (Some o) -> discoverPorts o = Some range ->
  exists results, probe_port <$> results = ports range /\
    match discoverPort sys o with
    | Some (Ok o') =>
        discovery_screen sys o = Some (section ui ws_col "TCP PORT DISCOVERY" +:+
          row_texts ui ((probe_row <$> results) ++ [("selected", show_dec (sim_port o'))]%string)) /\
        (exists r, r ∈ results /\ probe_state r = StateOpen /\ probe_port r = sim_port o') /\
        (forall t, sim_transport o = Some t ->
           ("destination", host o +:+ ":" +:+ show_dec (sim_port o'))%string ∈ configuration_rows o') /\
        (forall address p, destination sys o' = Ok (address, p) -> p = sim_port o')
    | Some (Throw _) =>
        discovery_screen sys o = Some (section ui ws_col "TCP PORT DISCOVERY" +:+ row_texts ui (probe_row <$> results))
    | None => False
    end.
Proof.
  intros strtod sys random_seed args o range Hargs Hd.
  destruct (discovery_finds_first_listener strtod sys random_seed args o range Hargs Hd) as (_ & results & Hs & Hp & H).
  exists results. split; [done|]. unfold discovery_screen. rewrite Hd, Hs. cbn [mbind option_bind].
  unfold discoverPort in *. rewrite Hd, Hs in *. cbn [mbind option_bind] in *. rewrite bind_Ok_eq in *. cbv beta in *.
  destruct (select_open results) as [p|]; [|by rewrite app_nil_r].
  destruct H as (before & r & behind & Hr & Hopen & _ & Ho & _).
  assert (Hport : sim_port (sim_set_port p o) = p /\ sim_port (sim_set_port (probe_port r) o) = probe_port r /\
                  host (sim_set_port p o) = host o /\ sim_transport (sim_set_port p o) = sim_transport o) by by destruct o.
  destruct Hport as (E1 & E2 & E3 & E4). rewrite <- Ho, E1 in E2. rewrite E1. split_and!.
  - done.
  - exists r. rewrite Hr. split_and!; [apply elem_of_app; right; by left|done|done].
  - intros t Ht. unfold configuration_rows. rewrite E4, Ht, E3, E1. do 6 right. by left.
  - intros address q. unfold destination. destruct (inet_pton _ _); [|done]. intros [= _ <-]. exact E1.
Qed.
End Screens.

Lemma discovery_is_announced_witness :
  exists results, probe_port <$> results = [9000; 9001; 9002; 9003] /\
    match discoverPort listening_system discovering with
    | Some (Ok o') => ("destination", "127.0.0.1:9001")%string ∈ configuration_rows (fun _ => "0"%string) o'
    | _ => False
    end.
Proof.
  destruct (discovery_is_announced plain_ui None (fun _ => "0.1"%string) (fun _ => "0"%string) sample_strtod listening_system 7
    discovery_args discovering {| first := 9000; last := 9003 |}) as (results & Hp & H); [vm_compute; reflexivity..|].
  exists results. split; [exact Hp|]. revert H.
  replace (discoverPort listening_system discovering) with (Some (Ok (sim_set_port 9001 discovering))) by (vm_compute; reflexivity).
  intros (_ & _ & Hrow & _). specialize (Hrow Tcp eq_refl). exact Hrow.
Defined.
