(* ===== verification/JsCore.v ===== *)
(** The JavaScript values of the documentation pages of [src/docs/doxygen/html]: strings as
    sequences of UTF-16 code units, and the string operations the scripts use. *)

From S2P Require Import Prelude TextFormat.

(** ** Strings *)

(** A string is the list of its code units. *)
Abbreviation jsstring := (list Z).

Definition is_unit (c : Z) : Prop := 0 <= c < 65536.
Abbreviation units_ok := (Forall is_unit).

#[export] Instance is_unit_dec c : Decision (is_unit c).
Proof. unfold is_unit. apply _. Defined.

(** A literal of the sources; all of them are ASCII. *)
Definition js (s : string) : jsstring := char_code <$> chars_of_string s.

(** [n.toString(10)], and the conversion of [+] between a string and a number. *)
Definition js_dec (n : Z) : jsstring :=
  if n <? 0 then js "-" ++ js (show_dec (- n)) else js (show_dec n).

(** [n.toString(16)], of a number that is not negative. *)
Definition js_hex (n : Z) : jsstring := js (show_hex n).

Definition space : Z := 32.

(** [s.charAt(i)], [s.substr(0, n)] *)
Definition charAt (s : jsstring) (i : nat) : jsstring := take 1 (drop i s).
Definition substr0 (s : jsstring) (n : nat) : jsstring := take n s.

(** [s.indexOf(t)], without its default argument. *)
Fixpoint indexOf_from (i : Z) (s t : jsstring) : Z :=
  if bool_decide (t `prefix_of` s) then i
  else match s with [] => -1 | _ :: s => indexOf_from (i + 1) s t end.
Definition indexOf (s t : jsstring) : Z := indexOf_from 0 s t.

(** [s.replace(/ +/g, "")] *)
Definition strip_spaces (s : jsstring) : jsstring := filter (fun c => c <> space) s.

Fixpoint drop_while (p : Z -> bool) (s : jsstring) : jsstring :=
  match s with
  | [] => []
  | c :: s' => if p c then drop_while p s' else s
  end.

(** [s.replace(/^ +/, "")] and [s.replace(/ +$/, "")] *)
Definition strip_leading (s : jsstring) : jsstring := drop_while (Z.eqb space) s.
Definition strip_trailing (s : jsstring) : jsstring := rev (strip_leading (rev s)).

Definition is_digit (c : Z) : bool := (48 <=? c) && (c <=? 57).

(** [s.replace(/^sr\d*_/, '')] *)
Definition strip_sr (s : jsstring) : jsstring :=
  match s with
  | 115 :: 114 :: rest =>
      match drop_while is_digit rest with
      | 95 :: rest => rest
      | _ => s
      end
  | _ => s
  end.

(** A literal with other characters, stored as UTF-8: sequences of up to three bytes, which are
    the ones that are a single unit. *)
Fixpoint decode_utf8 (bs : list Z) : jsstring :=
  match bs with
  | [] => []
  | b :: bs =>
      if b <? 128 then b :: decode_utf8 bs
      else match bs with
           | b1 :: bs =>
               if b <? 224 then ((b - 192) * 64 + (b1 - 128)) :: decode_utf8 bs
               else match bs with
                    | b2 :: bs => ((b - 224) * 4096 + (b1 - 128) * 64 + (b2 - 128)) :: decode_utf8 bs
                    | [] => []
                    end
           | [] => []
           end
  end.
Definition js8 (s : string) : jsstring := decode_utf8 (js s).

(** ** Lower case *)

Definition ascii_lower (c : Z) : Z := if (65 <=? c) && (c <=? 90) then c + 32 else c.

(** Units of the tables without a lower-case mapping: ASCII apart from the capitals, the end of
    Latin-1 and the dashes and quotes of the general punctuation. *)
Definition lower_fixed_unit (c : Z) : Prop :=
  0 <= c <= 64 \/ 91 <= c <= 127 \/ 223 <= c <= 255 \/ 8208 <= c <= 8231.

#[export] Instance lower_fixed_unit_dec c : Decision (lower_fixed_unit c).
Proof. unfold lower_fixed_unit. apply _. Defined.

(** [String.prototype.toLowerCase] maps code points by the Unicode tables, which are data of the
    host. What the pages rely on: the ASCII letters, that it is idempotent, and that a text that is
    already in lower case stays as it is behind ASCII characters. *)
Class LowerCase (toLowerCase : jsstring -> jsstring) : Prop := {
  lower_ascii : forall s, Forall (fun c => 0 <= c < 128) s -> toLowerCase s = ascii_lower <$> s;
  lower_idem : forall s, toLowerCase (toLowerCase s) = toLowerCase s;
  lower_units : forall s, units_ok s -> units_ok (toLowerCase s);
  lower_fixed : forall s, Forall lower_fixed_unit s -> toLowerCase s = s;
  lower_behind_ascii : forall a s, Forall (fun c => 0 <= c < 128) a -> toLowerCase s = s ->
    toLowerCase (a ++ s) = (ascii_lower <$> a) ++ s;
}.

(** A host that only knows the ASCII letters. *)
Definition lower_simple (s : jsstring) : jsstring := ascii_lower <$> s.

Lemma ascii_lower_idem c : ascii_lower (ascii_lower c) = ascii_lower c.
Proof.
  unfold ascii_lower. destruct ((65 <=? c) && (c <=? 90)) eqn:H; [|by rewrite H].
  reflect_Z. destruct ((65 <=? c + 32) && _) eqn:H'; [|done]. reflect_Z. lia.
Qed.

Lemma ascii_lower_unit c : is_unit c -> is_unit (ascii_lower c).
Proof. unfold ascii_lower, is_unit. destruct (_ && _) eqn:H; [|done]. reflect_Z. lia. Qed.

#[export] Instance lower_simple_ok : LowerCase lower_simple.
Proof.
  split.
  - done.
  - intros s. unfold lower_simple. rewrite <- list_fmap_compose. apply list_fmap_ext.
    intros ? c _. apply ascii_lower_idem.
  - intros s H. unfold lower_simple. rewrite Forall_fmap. eapply Forall_impl; [done|].
    apply ascii_lower_unit.
  - intros s Hs. induction Hs as [|c s Hc _ IH]; [done|]. cbn. unfold lower_simple in IH.
    rewrite IH. f_equal. unfold ascii_lower. destruct ((65 <=? c) && (c <=? 90)) eqn:Hu; [|done].
    reflect_Z. unfold lower_fixed_unit in Hc. lia.
  - intros a s _ Hs. unfold lower_simple in *. by rewrite fmap_app, Hs.
Qed.

(** ** Lemmas *)

Lemma js_app a b : js (a +:+ b) = js a ++ js b.
Proof.
  unfold js, chars_of_string. rewrite <- fmap_app. apply (f_equal (fmap char_code)).
  induction a as [|c a IH]; [done|]. apply (f_equal (cons c)), IH.
Qed.

Lemma js_units s : Forall (fun c => 0 <= c < 256) (js s).
Proof.
  apply Forall_fmap, Forall_forall. intros c _. unfold compose, char_code.
  pose proof (nat_ascii_bounded c). lia.
Qed.

Lemma js_show_base b n :
  js (show_base b n) = (fun d => char_code (digit_char d)) <$> digits b n.
Proof. unfold js, show_base. rewrite chars_string_chars, <- list_fmap_compose. done. Qed.

Lemma js_dec_digits n :
  0 <= n -> Forall (fun c => is_digit c = true) (js_dec n) /\ js_dec n <> [].
Proof.
  intros Hn. unfold js_dec. rewrite (proj2 (Z.ltb_ge _ _)) by done.
  unfold show_dec. rewrite js_show_base.
  destruct (digits_spec 10 n) as (_ & Hall & Hne); [lia|done|]. split.
  - apply Forall_fmap. eapply Forall_impl; [done|]. intros d Hd. cbn beta in *.
    unfold compose. rewrite digit_char_code by lia.
    rewrite (proj2 (Z.ltb_lt _ _)) by lia. unfold is_digit.
    apply andb_true_iff; split; apply Z.leb_le; lia.
  - by destruct (digits 10 n).
Qed.

Lemma digit_char_inj d e :
  0 <= d < 16 -> 0 <= e < 16 -> char_code (digit_char d) = char_code (digit_char e) -> d = e.
Proof.
  intros Hd He. rewrite !digit_char_code by done.
  destruct (Z.ltb_spec d 10), (Z.ltb_spec e 10); lia.
Qed.

Lemma js_show_base_inj b n m :
  2 <= b <= 16 -> 0 <= n -> 0 <= m -> js (show_base b n) = js (show_base b m) -> n = m.
Proof.
  intros Hb Hn Hm. rewrite !js_show_base. intros H.
  destruct (digits_spec b n) as (Hvn & Hn1 & _); [lia|done|].
  destruct (digits_spec b m) as (Hvm & Hm1 & _); [lia|done|].
  rewrite <- Hvn, <- Hvm. apply (f_equal (of_digits b)). clear Hvn Hvm.
  revert H Hn1 Hm1. generalize (digits b n), (digits b m).
  intros k. induction k as [|d k IH]; intros [|e l]; cbn; try done.
  intros [= Hde Hkl] [Hd Hk]%Forall_cons [He Hl]%Forall_cons.
  apply digit_char_inj in Hde; [|lia|lia]. f_equal; [done|]. by apply IH.
Qed.

Lemma js_dec_inj n m : 0 <= n -> 0 <= m -> js_dec n = js_dec m -> n = m.
Proof.
  intros Hn Hm. unfold js_dec. rewrite !(proj2 (Z.ltb_ge _ _)) by done.
  apply js_show_base_inj; lia.
Qed.

#[export] Instance js_dec_injective : Inj eq eq js_dec.
Proof.
  intros n m. unfold js_dec.
  assert (Hsign : forall k x, 0 <= x -> js "-" ++ k <> js (show_dec x)).
  { intros k x Hx Heq. destruct (js_dec_digits x Hx) as [Hd _]. unfold js_dec in Hd.
    rewrite (proj2 (Z.ltb_ge _ _)) in Hd by done. rewrite <- Heq in Hd.
    apply Forall_app in Hd as [[Hd _]%Forall_cons _]. done. }
  destruct (Z.ltb_spec n 0), (Z.ltb_spec m 0); intros Heq.
  - apply app_inv_head, js_show_base_inj in Heq; lia.
  - by apply Hsign in Heq.
  - symmetry in Heq. by apply Hsign in Heq.
  - apply js_show_base_inj in Heq; lia.
Qed.

Lemma drop_while_suffix p s : exists a, s = a ++ drop_while p s /\ Forall (fun c => p c = true) a.
Proof.
  induction s as [|c s IH]; cbn; [by exists []|].
  destruct (p c) eqn:Hp; [|by exists []].
  destruct IH as (a & Hs & Ha). exists (c :: a). split; [cbn; congruence|by constructor].
Qed.

Lemma drop_while_app p a c s :
  Forall (fun c => p c = true) a -> p c = false -> drop_while p (a ++ c :: s) = c :: s.
Proof. intros Ha Hc. induction Ha as [|d a Hd _ IH]; cbn; [by rewrite Hc|by rewrite Hd]. Qed.

Lemma indexOf_from_range i s t : indexOf_from i s t = -1 \/ i <= indexOf_from i s t <= i + size s.
Proof.
  revert i. induction s as [|c s IH]; intros i; cbn [indexOf_from].
  - destruct (bool_decide _); [right; size_lia|by left].
  - destruct (bool_decide _); [right; size_lia|]. destruct (IH (i + 1)); [by left|right; size_lia].
Qed.

(** A match of a single unit found at [n] is the first occurrence of the unit. *)
Lemma indexOf_lookup s c n :
  indexOf s [c] = n -> n <> -1 ->
  s !! Z.to_nat n = Some c /\ 0 <= n /\ forall m, (m < Z.to_nat n)%nat -> s !! m <> Some c.
Proof.
  unfold indexOf. intros H Hn.
  assert (Hg : forall s i, 0 <= i -> indexOf_from i s [c] = n ->
    s !! Z.to_nat (n - i) = Some c /\ i <= n /\
    forall m, (m < Z.to_nat (n - i))%nat -> s !! m <> Some c); last first.
  { destruct (Hg s 0) as (? & ? & Hm); [lia|done|]. rewrite Z.sub_0_r in *. done. }
  clear s H. induction s as [|d s IH]; intros i Hi; cbn [indexOf_from].
  { rewrite bool_decide_eq_false_2; [done|]. intros ?%prefix_nil_inv. done. }
  case_bool_decide as Hp.
  - apply prefix_cons_inv_1 in Hp as ->. intros ->. rewrite Z.sub_diag. cbn.
    split; [done|]. split; [lia|]. lia.
  - intros H'. destruct (IH (i + 1)) as (Hs & Hle & Hm); [lia|done|].
    replace (Z.to_nat (n - i)) with (S (Z.to_nat (n - (i + 1)))) by lia.
    split; [done|]. split; [lia|]. intros [|m] Hlt; cbn.
    + intros [= ->]. apply Hp. by apply prefix_cons, prefix_nil.
    + apply Hm. lia.
Qed.
