(* ===== verification/SearchId.v ===== *)
(** [convertToId] of [search/search.js]: the injective encoding of a search text that the ids of
    the result rows are made of, and what comparing prefixes of encodings means. *)

From S2P Require Import Prelude TextFormat JsCore.

(** [/[a-z0-9\u0080-\uFFFF]/] *)
Definition is_id_char (c : Z) : bool :=
  ((97 <=? c) && (c <=? 122)) || is_digit c || ((128 <=? c) && (c <=? 65535)).

(** The body of the loop, for the unit [cn]. *)
Definition convertChar (cn : Z) : jsstring :=
  if is_id_char cn then [cn]
  else if cn <? 16 then js "_0" ++ js_hex cn
  else js "_" ++ js_hex cn.

Definition convertToId (search : jsstring) : jsstring :=
  foldl (fun result cn => result ++ convertChar cn) [] search.

(** Cancel the common head of [H : c :: x `prefix_of` d :: y]. *)
Ltac strip_head H :=
  let Hcd := fresh in
  pose proof (prefix_cons_inv_1 _ _ _ _ H) as Hcd; apply prefix_cons_inv_2 in H; subst.

(** ** The encoding is a prefix code *)

Lemma foldl_convert result s :
  foldl (fun result cn => result ++ convertChar cn) result s = result ++ concat (convertChar <$> s).
Proof.
  revert result. induction s as [|c s IH]; intros result; cbn; [by rewrite app_nil_r|].
  by rewrite IH, <- app_assoc.
Qed.

Lemma convertToId_concat s : convertToId s = concat (convertChar <$> s).
Proof. apply foldl_convert. Qed.

Lemma convertToId_cons c s : convertToId (c :: s) = convertChar c ++ convertToId s.
Proof. by rewrite !convertToId_concat. Qed.

Lemma convertToId_app a b : convertToId (a ++ b) = convertToId a ++ convertToId b.
Proof. by rewrite !convertToId_concat, fmap_app, concat_app. Qed.

Definition hex_value (c : Z) : Z := if is_digit c then c - 48 else c - 87.

Definition unhex (s : jsstring) : option Z :=
  match s with
  | 95 :: h :: l :: _ => Some (16 * hex_value h + hex_value l)
  | _ => None
  end.

(** The encoding of the units that are written in hexadecimal, all below 128. *)
Definition escaped_code (c : Z) : bool :=
  match convertChar c with
  | [u; h; l] => (u =? 95) && (hex_value h * 16 + hex_value l =? c)
  | _ => false
  end.

Lemma escaped_below_128 :
  forallb (fun c => is_id_char c || escaped_code c) (seqZ 0 128) = true.
Proof. vm_compute. reflexivity. Qed.

(** A unit is encoded by itself, or by an underscore and the two digits of its code. *)
Lemma convertChar_cases c :
  is_unit c ->
  (is_id_char c = true /\ convertChar c = [c] /\ c <> 95) \/
  (is_id_char c = false /\
   exists h l, convertChar c = [95; h; l] /\ c = hex_value h * 16 + hex_value l).
Proof.
  intros Hc. destruct (is_id_char c) eqn:Hid.
  - left. split; [done|]. split; [unfold convertChar; by rewrite Hid|].
    intros ->. vm_compute in Hid. done.
  - right. split; [done|].
    assert (Hlt : c < 128).
    { destruct (Z.ltb_spec c 128); [done|]. unfold is_id_char in Hid.
      rewrite (proj2 (Z.leb_le 128 c)), (proj2 (Z.leb_le c 65535)) in Hid
        by (unfold is_unit in Hc; lia). by rewrite orb_true_r in Hid. }
    pose proof escaped_below_128 as Hall. rewrite forallb_forall in Hall.
    specialize (Hall c). rewrite Hid in Hall. unfold escaped_code in Hall.
    assert (Hin : In c (seqZ 0 128)).
    { apply list_elem_of_In, elem_of_seqZ. unfold is_unit in Hc. lia. }
    specialize (Hall Hin). cbn [orb] in Hall.
    destruct (convertChar c) as [|u [|h [|l [|? ?]]]]; try done.
    reflect_Z. subst u. by exists h, l.
Qed.

Lemma convertChar_app_inj c d x y :
  is_unit c -> is_unit d -> convertChar c ++ x = convertChar d ++ y -> c = d /\ x = y.
Proof.
  intros Hc Hd H.
  destruct (convertChar_cases c Hc) as [(_ & Ec & Hc5)|(_ & h & l & Ec & Hcv)];
  destruct (convertChar_cases d Hd) as [(_ & Ed & Hd5)|(_ & h' & l' & Ed & Hdv)];
  rewrite Ec, Ed in H; injection H; intros; subst; done.
Qed.

Lemma convertChar_nonempty c : is_unit c -> convertChar c <> [].
Proof. intros Hc. by destruct (convertChar_cases c Hc) as [(_ & -> & _)|(_ & ? & ? & -> & _)]. Qed.

(** Where an encoding is a prefix of another one followed by anything. *)
Lemma convertToId_prefix_app q name t :
  units_ok q -> units_ok name ->
  (convertToId q `prefix_of` convertToId name ++ t <->
   q `prefix_of` name \/
   exists r, r <> [] /\ q = name ++ r /\ convertToId r `prefix_of` t).
Proof.
  intros Hq. revert name. induction Hq as [|c q Hc Hq IH]; intros name Hname.
  { split; [left; apply prefix_nil|]. intros _. apply prefix_nil. }
  destruct Hname as [|d name Hd Hname].
  { change (convertToId [] ++ t) with t. split.
    - intros H. right. exists (c :: q). done.
    - intros [H%prefix_nil_inv|(r & _ & -> & H)]; [done|]. done. }
  rewrite !convertToId_cons, <- app_assoc. split.
  - intros [k Hk]. rewrite <- app_assoc in Hk.
    apply convertChar_app_inj in Hk as [-> Hk]; [|done|done].
    assert (Hp : convertToId q `prefix_of` convertToId name ++ t) by (by exists k).
    apply IH in Hp as [Hp|(r & Hr & -> & Hp)]; [|..|done].
    + left. by apply prefix_cons.
    + right. by exists r.
  - intros [H|(r & Hr & Heq & Hp)].
    + strip_head H. apply prefix_app, IH; [done|by left].
    + injection Heq as -> Heq. apply prefix_app, IH; [done|]. right. by exists r.
Qed.

(** A text whose encoding begins a [_] and a number begins with a character whose code is the
    first two digits of the number, and continues with the next ones. *)
Lemma convertToId_prefix_number r ds :
  units_ok r -> r <> [] -> Forall (fun c => is_digit c = true) ds ->
  (convertToId r `prefix_of` 95 :: ds <->
   exists c h l rest, r = c :: rest /\ convertChar c = [95; h; l] /\ h :: l :: rest `prefix_of` ds).
Proof.
  intros Hr Hne Hds. destruct Hr as [|c rest Hc Hrest]; [done|]. clear Hne.
  rewrite convertToId_cons.
  assert (Hdig : forall rest ds, units_ok rest -> Forall (fun c => is_digit c = true) ds ->
    convertToId rest `prefix_of` ds <-> rest `prefix_of` ds).
  { clear. intros rest ds Hrest. revert ds. induction Hrest as [|c rest Hc _ IH]; intros ds Hds.
    { split; intros _; apply prefix_nil. }
    rewrite convertToId_cons. destruct Hds as [|d ds Hd Hds].
    { split; [|by intros ?%prefix_nil_inv]. intros H%prefix_nil_inv.
      apply app_eq_nil in H as [H _]. by apply convertChar_nonempty in H. }
    destruct (convertChar_cases c Hc) as [(Hid & -> & _)|(Hid & h & l & -> & _)]; cbn [app].
    - split; intros H.
      + strip_head H. by apply prefix_cons, IH.
      + strip_head H. by apply prefix_cons, IH.
    - split; intros H; apply prefix_cons_inv_1 in H; subst; [done|].
      exfalso. unfold is_id_char in Hid. rewrite Hd, orb_true_r in Hid. done. }
  split.
  - intros H. destruct (convertChar_cases c Hc) as [(Hid & Ec & Hc5)|(Hid & h & l & Ec & _)];
      rewrite Ec in H; cbn [app] in H.
    { by apply prefix_cons_inv_1 in H. }
    apply prefix_cons_inv_2 in H. exists c, h, l, rest. split; [done|]. split; [done|].
    destruct ds as [|h' [|l' ds]]; [by apply prefix_nil_inv in H| |].
    { apply prefix_cons_inv_2, prefix_nil_inv in H. done. }
    do 2 strip_head H.
    do 2 apply prefix_cons. apply Hdig; [done| |done].
    by apply Forall_cons in Hds as [_ [_ ?]%Forall_cons].
  - intros (c' & h & l & rest' & [= <- <-] & -> & H). cbn [app]. apply prefix_cons.
    destruct ds as [|h' [|l' ds]]; [by apply prefix_nil_inv in H| |].
    { apply prefix_cons_inv_2, prefix_nil_inv in H. done. }
    do 2 strip_head H.
    do 2 apply prefix_cons. apply Hdig; [done| |done].
    by apply Forall_cons in Hds as [_ [_ ?]%Forall_cons].
Qed.

(** The encoding of lower-case text is not changed by [toLowerCase], which the rows go through. *)
Lemma convertChar_ascii c :
  is_unit c -> c < 128 -> Forall (fun d => 0 <= d < 128) (convertChar c).
Proof.
  intros [Hc _] Hlt.
  assert (H : forallb (fun c => forallb (fun d => (0 <=? d) && (d <? 128)) (convertChar c)) (seqZ 0 128) = true)
    by (vm_compute; reflexivity).
  rewrite forallb_forall in H. specialize (H c).
  rewrite forallb_forall in H. apply Forall_forall. intros d Hd.
  assert (Hb : (0 <=? d) && (d <? 128) = true).
  { apply H; [apply list_elem_of_In, elem_of_seqZ; lia|by apply list_elem_of_In]. }
  reflect_Z. lia.
Qed.

(** ** Properties *)

(** Comparing the beginnings of encoded texts compares the beginnings of the texts: the
    encoding is injective and preserves and reflects prefixes. *)
Theorem convertToId_prefix : forall q name,
  units_ok q -> units_ok name ->
  (convertToId q `prefix_of` convertToId name <-> q `prefix_of` name) /\
  (convertToId q = convertToId name -> q = name).
Proof.
  intros q name Hq Hname.
  assert (Hp : forall a b, units_ok a -> units_ok b ->
    convertToId a `prefix_of` convertToId b <-> a `prefix_of` b).
  { intros a b Ha Hb. rewrite <- (app_nil_r (convertToId b)), convertToId_prefix_app by done.
    split; [|by left]. intros [H|(r & Hr & -> & H)]; [done|].
    apply prefix_nil_inv in H. destruct r as [|c r]; [done|].
    apply Forall_app in Ha as [_ [Hc _]%Forall_cons].
    rewrite convertToId_cons in H. apply app_eq_nil in H as [H _].
    by apply convertChar_nonempty in H. }
  split; [by apply Hp|]. intros Heq. apply (anti_symm prefix).
  - apply Hp; [done|done|]. by rewrite Heq.
  - apply Hp; [done|done|]. by rewrite Heq.
Qed.

Lemma convertToId_prefix_witness :
  (convertToId (js "write f") `prefix_of` convertToId (js "write frame") <->
   js "write f" `prefix_of` js "write frame") /\
  (convertToId (js "write f") = convertToId (js "write frame") -> js "write f" = js "write frame").
Proof. apply convertToId_prefix; decide_now. Defined.
