(* ===== verification/Dom.v ===== *)
(** The part of the Document Object Model the scripts of [src/docs/doxygen/html] work on: the tree
    of a page, its elements with their attributes and inline style, and the accessors
    ([firstChild], [nextSibling], [parentNode], [getElementById], ...) the sources call.

    A node is designated by its path from the root: the list of the child positions that lead to
    it. The scripts keep no reference to a node across a change of the tree, so a path is as good
    as the identity of the node. *)

From S2P Require Import Prelude TextFormat JsCore.

(** ** The tree *)

(** The tag is in lower case, as [nodeName.toLowerCase()] returns it. *)
Record elem := mkElem {
  tag : string;
  attrs : gmap string jsstring;
  style : gmap string jsstring;
}.

Inductive node :=
  | Text (data : jsstring)
  | Element (e : elem) (kids : list node).

Abbreviation path := (list nat).

#[export] Instance elem_eq_dec : EqDecision elem.
Proof. solve_decision. Defined.

(** [element.id], [element.className], [element.style.display]: empty when not set. *)
Definition elem_id (e : elem) : jsstring := default [] (attrs e !! "id").
Definition className (e : elem) : jsstring := default [] (attrs e !! "class").
Definition display (e : elem) : jsstring := default [] (style e !! "display").

(** [document.createElement(name)], [element.setAttribute(k, v)], [element.style.k = v] *)
Definition createElement (name : string) : elem := mkElem name ∅ ∅.
Definition setAttribute (k : string) (v : jsstring) (e : elem) : elem :=
  mkElem (tag e) (<[k := v]> (attrs e)) (style e).
Definition setStyle (k : string) (v : jsstring) (e : elem) : elem :=
  mkElem (tag e) (attrs e) (<[k := v]> (style e)).
Definition setDisplay (v : string) : elem -> elem := setStyle "display" (js v).

Section Tree.
Context (P : node -> Prop) (Htext : forall d, P (Text d))
  (Helem : forall e kids, Forall P kids -> P (Element e kids)).

Fixpoint node_ind' (n : node) : P n :=
  match n with
  | Text d => Htext d
  | Element e kids =>
      Helem e kids ((fix go (ks : list node) : Forall P ks :=
        match ks with [] => Forall_nil_2 P | k :: ks => Forall_cons_2 P k ks (node_ind' k) (go ks) end) kids)
  end.
End Tree.

Definition kids_of (n : node) : list node :=
  match n with Text _ => [] | Element _ kids => kids end.

(** The elements of a tree in document order. *)
Fixpoint elems (n : node) : list elem :=
  match n with
  | Text _ => []
  | Element e kids => e :: concat (map elems kids)
  end.

(** ** Access by path *)

Fixpoint node_at (n : node) (p : path) : option node :=
  match p with
  | [] => Some n
  | i :: p => k ← kids_of n !! i; node_at k p
  end.

Definition elem_at (n : node) (p : path) : option elem :=
  match node_at n p with Some (Element e _) => Some e | _ => None end.

(** Change the element at a path. *)
Fixpoint alter_at (f : elem -> elem) (n : node) (p : path) : node :=
  match n, p with
  | Text _, _ => n
  | Element e kids, [] => Element (f e) kids
  | Element e kids, i :: p => Element e (alter (fun k => alter_at f k p) i kids)
  end.

(** [element.innerHTML = ''] followed by [appendChild] of each of the new children. *)
Fixpoint replace_kids (new : list node) (n : node) (p : path) : node :=
  match n, p with
  | Text _, _ => n
  | Element e _, [] => Element e new
  | Element e kids, i :: p => Element e (alter (fun k => replace_kids new k p) i kids)
  end.

(** [parent.appendChild(k)] for nodes that are in no tree. *)
Fixpoint append_kids (new : list node) (n : node) (p : path) : node :=
  match n, p with
  | Text _, _ => n
  | Element e kids, [] => Element e (kids ++ new)
  | Element e kids, i :: p => Element e (alter (fun k => append_kids new k p) i kids)
  end.

(** [node.parentNode]; the parent of the root is not an element. *)
Definition parentNode (p : path) : option path :=
  match reverse p with [] => None | _ :: q => Some (reverse q) end.

Definition firstChild (doc : node) (p : path) : option path :=
  match node_at doc (p ++ [0%nat]) with Some _ => Some (p ++ [0%nat]) | None => None end.

Definition nextSibling (doc : node) (p : path) : option path :=
  match reverse p with
  | [] => None
  | i :: q =>
      let r := reverse q ++ [S i] in
      match node_at doc r with Some _ => Some r | None => None end
  end.

(** ** Searching *)

(** The first element in document order that satisfies [p]. *)
Fixpoint find_elem (p : elem -> bool) (n : node) : option path :=
  match n with
  | Text _ => None
  | Element e kids =>
      if p e then Some [] else
      (fix go (ks : list node) (i : nat) : option path :=
        match ks with
        | [] => None
        | k :: ks => match find_elem p k with Some q => Some (i :: q) | None => go ks (S i) end
        end) kids 0%nat
  end.

Fixpoint find_kids (p : elem -> bool) (ks : list node) (i : nat) : option path :=
  match ks with
  | [] => None
  | k :: ks => match find_elem p k with Some q => Some (i :: q) | None => find_kids p ks (S i) end
  end.

Definition has_id (id : jsstring) (e : elem) : bool := bool_decide (attrs e !! "id" = Some id).

(** [document.getElementById(id)] *)
Definition getElementById (doc : node) (id : jsstring) : option path := find_elem (has_id id) doc.

(** ** Loops over [getElementsByTagName] *)

(** [for each element of the collection, in document order]: the body returns its new state and
    the element, of which it may have changed the attributes and the style. *)
Fixpoint for_each {S} (f : S -> elem -> S * elem) (s : S) (n : node) : S * node :=
  match n with
  | Text d => (s, Text d)
  | Element e kids =>
      let '(s, e) := f s e in
      let '(s, kids) :=
        (fix go (s : S) (ks : list node) : S * list node :=
          match ks with
          | [] => (s, [])
          | k :: ks => let '(s, k) := for_each f s k in let '(s, ks) := go s ks in (s, k :: ks)
          end) s kids in
      (s, Element e kids)
  end.

Fixpoint for_each_kids {S} (f : S -> elem -> S * elem) (s : S) (ks : list node) : S * list node :=
  match ks with
  | [] => (s, [])
  | k :: ks => let '(s, k) := for_each f s k in let '(s, ks) := for_each_kids f s ks in (s, k :: ks)
  end.

(** The same loop over a list of elements. *)
Fixpoint for_each_list {S} (f : S -> elem -> S * elem) (s : S) (es : list elem) : S * list elem :=
  match es with
  | [] => (s, [])
  | e :: es => let '(s, e) := f s e in let '(s, es) := for_each_list f s es in (s, e :: es)
  end.

(** ** Lemmas *)

Lemma find_elem_unfold p e kids :
  find_elem p (Element e kids) = if p e then Some [] else find_kids p kids 0.
Proof.
  cbn. destruct (p e); [done|]. generalize 0%nat. induction kids as [|k ks IH]; intros i; [done|].
  cbn. destruct (find_elem p k); [done|]. apply IH.
Qed.

Lemma find_kids_app p ks ks' i :
  find_kids p (ks ++ ks') i =
  match find_kids p ks i with Some q => Some q | None => find_kids p ks' (i + length ks) end.
Proof.
  revert i. induction ks as [|k ks IH]; intros i; cbn [find_kids app length].
  { by rewrite Nat.add_0_r. }
  destruct (find_elem p k); [done|]. rewrite IH. by replace (S i + _)%nat with (i + S (length ks))%nat by lia.
Qed.

Lemma find_elem_None p n : find_elem p n = None <-> Forall (fun e => p e = false) (elems n).
Proof.
  induction n as [d|e kids IH] using node_ind'; [by split; [constructor|]|].
  rewrite find_elem_unfold. cbn [elems]. rewrite Forall_cons.
  assert (Hk : forall i, find_kids p kids i = None <-> Forall (fun e => p e = false) (concat (map elems kids))).
  { induction IH as [|k ks Hk _ IHks]; intros i; cbn [find_kids map concat]; [by split; [constructor|]|].
    rewrite Forall_app, <- Hk, <- (IHks (S i)). destruct (find_elem p k); [by split; [|intros []]|tauto]. }
  destruct (p e); [by split; [|intros []]|]. rewrite Hk. tauto.
Qed.

Lemma find_kids_None p ks i :
  find_kids p ks i = None <-> Forall (fun e => p e = false) (concat (map elems ks)).
Proof.
  revert i. induction ks as [|k ks IH]; intros i; cbn [find_kids map concat]; [by split; [constructor|]|].
  rewrite Forall_app, <- find_elem_None, <- (IH (S i)).
  destruct (find_elem p k); [by split; [|intros []]|tauto].
Qed.

Lemma find_elem_Some p n q : find_elem p n = Some q -> exists e, elem_at n q = Some e /\ p e = true.
Proof.
  revert q. induction n as [d|e kids IH] using node_ind'; intros q; [done|].
  rewrite find_elem_unfold. destruct (p e) eqn:Hp; [intros [= <-]; by exists e|].
  assert (Hk : forall i q, find_kids p kids i = Some q ->
    exists j r k, q = (i + j)%nat :: r /\ kids !! j = Some k /\ find_elem p k = Some r).
  { clear. induction kids as [|k ks IHks]; intros i q; cbn [find_kids]; [done|].
    destruct (find_elem p k) as [r|] eqn:Hk.
    - intros [= <-]. exists 0%nat, r, k. by rewrite Nat.add_0_r.
    - intros Hq. destruct (IHks _ _ Hq) as (j & r & k' & -> & Hl & Hf).
      exists (S j), r, k'. split; [f_equal; lia|]. done. }
  intros Hq. destruct (Hk _ _ Hq) as (j & r & k & -> & Hl & Hf).
  rewrite Forall_lookup in IH. destruct (IH _ _ Hl _ Hf) as (e' & He' & Hpe).
  exists e'. split; [|done]. unfold elem_at in *. cbn [node_at kids_of Nat.add].
  rewrite Hl. done.
Qed.

Lemma for_each_unfold {S} (f : S -> elem -> S * elem) s e kids :
  for_each f s (Element e kids) =
  let '(s, e) := f s e in let '(s, kids) := for_each_kids f s kids in (s, Element e kids).
Proof.
  cbn [for_each]. destruct (f s e) as [s1 e1]. generalize s1 as s0. clear.
  assert (H : forall s0,
    (fix go (s : S) (ks : list node) : S * list node :=
       match ks with
       | [] => (s, [])
       | k :: ks => let '(s, k) := for_each f s k in let '(s, ks) := go s ks in (s, k :: ks)
       end) s0 kids = for_each_kids f s0 kids).
  { induction kids as [|k ks IH]; intros s0; [done|]. cbn [for_each_kids].
    destruct (for_each f s0 k) as [s2 k2]. by rewrite IH. }
  intros s0. by rewrite H.
Qed.

Lemma for_each_list_app {S} (f : S -> elem -> S * elem) s es es' :
  for_each_list f s (es ++ es') =
  let '(s, es) := for_each_list f s es in
  let '(s, es') := for_each_list f s es' in (s, es ++ es').
Proof.
  revert s. induction es as [|e es IH]; intros s; cbn [for_each_list app].
  { by destruct (for_each_list f s es'). }
  destruct (f s e) as [s1 e1]. rewrite IH. destruct (for_each_list f s1 es) as [s2 es2].
  by destruct (for_each_list f s2 es').
Qed.

(** The loop over a tree is the loop over its elements in document order. *)
Lemma for_each_elems {S} (f : S -> elem -> S * elem) s n :
  (fst (for_each f s n), elems (snd (for_each f s n))) = for_each_list f s (elems n).
Proof.
  revert s. induction n as [d|e kids IH] using node_ind'; intros s; [done|].
  rewrite for_each_unfold. cbn [elems for_each_list]. destruct (f s e) as [s1 e1].
  assert (Hk : forall s, (fst (for_each_kids f s kids), concat (map elems (snd (for_each_kids f s kids))))
                         = for_each_list f s (concat (map elems kids))).
  { clear s s1. induction IH as [|k ks Hk _ IHks]; intros s; [done|].
    cbn [for_each_kids map concat]. rewrite for_each_list_app, <- Hk.
    destruct (for_each f s k) as [s2 k2]. cbn [fst snd]. rewrite <- IHks.
    by destruct (for_each_kids f s2 ks) as [s3 ks3]. }
  rewrite <- Hk. by destruct (for_each_kids f s1 kids).
Qed.

(** Where the body only changes elements and counts, the loop is a map. *)
Lemma for_each_list_map {S} (f : S -> elem -> S * elem) (g : elem -> elem) s es :
  (forall s e, snd (f s e) = g e) -> snd (for_each_list f s es) = g <$> es.
Proof.
  intros Hf. revert s. induction es as [|e es IH]; intros s; [done|]. cbn [for_each_list].
  specialize (Hf s e) as Hfe. destruct (f s e) as [s1 e1]. cbn in Hfe. subst.
  specialize (IH s1). destruct (for_each_list f s1 es) as [s2 es2]. cbn in *. by rewrite IH.
Qed.

(** The tree of a page after its elements were changed by [g]. *)
Fixpoint map_elems (g : elem -> elem) (n : node) : node :=
  match n with
  | Text d => Text d
  | Element e kids => Element (g e) (map (map_elems g) kids)
  end.

Lemma for_each_map {S} (f : S -> elem -> S * elem) (g : elem -> elem) s n :
  (forall s e, snd (f s e) = g e) -> snd (for_each f s n) = map_elems g n.
Proof.
  intros Hf. revert s. induction n as [d|e kids IH] using node_ind'; intros s; [done|].
  rewrite for_each_unfold. cbn [map_elems]. specialize (Hf s e) as Hfe.
  destruct (f s e) as [s1 e1]. cbn in Hfe. subst.
  assert (Hk : forall s, snd (for_each_kids f s kids) = map (map_elems g) kids).
  { clear s s1. induction IH as [|k ks Hk _ IHks]; intros s; [done|].
    cbn [for_each_kids map]. specialize (Hk s). destruct (for_each f s k) as [s2 k2]. cbn in Hk.
    specialize (IHks s2). destruct (for_each_kids f s2 ks). cbn in *. congruence. }
  specialize (Hk s1). destruct (for_each_kids f s1 kids). cbn in *. congruence.
Qed.

Lemma find_elem_map (p : elem -> bool) (g : elem -> elem) n :
  (forall e, p (g e) = p e) -> find_elem p (map_elems g n) = find_elem p n.
Proof.
  intros Hg. induction n as [d|e kids IH] using node_ind'; [done|].
  cbn [map_elems]. rewrite !find_elem_unfold, Hg. destruct (p e); [done|].
  generalize 0%nat. induction IH as [|k ks Hk _ IHks]; intros i; [done|].
  cbn [map find_kids]. by rewrite Hk, IHks.
Qed.

Lemma node_at_map g n p : node_at (map_elems g n) p = map_elems g <$> node_at n p.
Proof.
  revert n. induction p as [|i p IH]; intros n; [done|]. cbn [node_at].
  destruct n as [d|e kids]; [done|]. cbn [map_elems kids_of].
  change (map (map_elems g) kids) with (map_elems g <$> kids). rewrite list_lookup_fmap. destruct (kids !! i); [|done]. apply IH.
Qed.

Lemma elem_at_map g n p : elem_at (map_elems g n) p = g <$> elem_at n p.
Proof. unfold elem_at. rewrite node_at_map. by destruct (node_at n p) as [[]|]. Qed.

Lemma elems_map g n : elems (map_elems g n) = g <$> elems n.
Proof.
  induction n as [d|e kids IH] using node_ind'; [done|]. cbn [map_elems elems].
  rewrite fmap_cons. f_equal. induction IH as [|k ks Hk _ IHks]; [done|].
  cbn [map concat]. by rewrite Hk, IHks, fmap_app.
Qed.

Lemma node_at_app n p q : node_at n (p ++ q) = k ← node_at n p; node_at k q.
Proof.
  revert n. induction p as [|i p IH]; intros n; [done|]. cbn [node_at app].
  destruct (kids_of n !! i); [|done]. apply IH.
Qed.

Lemma parentNode_snoc p i : parentNode (p ++ [i]) = Some p.
Proof. unfold parentNode. by rewrite reverse_snoc, reverse_involutive. Qed.

Lemma nextSibling_snoc doc p i :
  nextSibling doc (p ++ [i]) =
  match node_at doc (p ++ [S i]) with Some _ => Some (p ++ [S i]) | None => None end.
Proof. unfold nextSibling. by rewrite reverse_snoc, reverse_involutive. Qed.

(** ** Changing one element *)

Lemma node_at_alter_kids f n p q :
  node_at (alter_at f n p) q =
  match node_at n q with
  | Some k => Some (if decide (q `prefix_of` p) then alter_at f k (drop (length q) p) else k)
  | None => None
  end.
Proof.
  revert n p. induction q as [|j q IH]; intros n p.
  { cbn [node_at]. destruct (decide _) as [|[]]; [done|apply prefix_nil]. }
  destruct n as [d|e kids]; [by destruct p|]. destruct p as [|i p].
  - cbn [alter_at node_at kids_of]. destruct (kids !! j) as [k|]; [|done]. simpl mbind.
    destruct (node_at k q); [|done]. destruct (decide _) as [H%prefix_nil_inv|]; done.
  - cbn [alter_at node_at kids_of]. destruct (decide (j = i)) as [->|Hne].
    + rewrite list_lookup_alter_eq. destruct (kids !! i) as [k|]; [|done]. simpl mbind. rewrite IH.
      destruct (node_at k q); [|done]. f_equal. cbn [length drop].
      destruct (decide (q `prefix_of` p)) as [H|H], (decide (i :: q `prefix_of` i :: p)) as [H'|H'];
        try done; [by destruct H'; apply prefix_cons|by apply prefix_cons_inv_2 in H'].
    + rewrite list_lookup_alter_ne by done. destruct (kids !! j) as [k|]; [|done]. simpl mbind.
      destruct (node_at k q); [|done]. destruct (decide _) as [H|]; [|done].
      by apply prefix_cons_inv_1 in H.
Qed.

(** An element change is seen at its path and nowhere else. *)
Lemma elem_at_alter f n p q :
  elem_at (alter_at f n p) q = if decide (q = p) then f <$> elem_at n q else elem_at n q.
Proof.
  unfold elem_at. rewrite node_at_alter_kids. destruct (node_at n q) as [k|]; [|by destruct (decide _)].
  destruct (decide (q `prefix_of` p)) as [[r ->]|Hp].
  - rewrite drop_app_length. destruct (decide (q = q ++ r)) as [Hr|Hr].
    + rewrite <- (app_nil_r q) in Hr at 1. apply app_inv_head in Hr as <-. by destruct k.
    + destruct r; [by rewrite app_nil_r in Hr|]. by destruct k.
  - rewrite decide_False; [done|]. intros ->. by apply Hp.
Qed.

Lemma find_elem_alter p f n q :
  (forall e, p (f e) = p e) -> find_elem p (alter_at f n q) = find_elem p n.
Proof.
  intros Hf. revert q. induction n as [d|e kids IH] using node_ind'; intros q; [by destruct q|].
  destruct q as [|i q]; cbn [alter_at]; rewrite !find_elem_unfold; [by rewrite Hf|].
  destruct (p e); [done|]. generalize 0%nat as j. revert i.
  induction IH as [|k ks Hk _ IHks]; intros i j; [done|].
  destruct i as [|i]; cbn [alter list_alter find_kids]; [by rewrite Hk|]. by rewrite IHks.
Qed.

(** Styles do not change what the scripts look elements up by. *)
Lemma has_id_setStyle id k v e : has_id id (setStyle k v e) = has_id id e.
Proof. done. Qed.

Lemma getElementById_setStyle doc k v p id :
  getElementById (alter_at (setStyle k v) doc p) id = getElementById doc id.
Proof. by apply find_elem_alter. Qed.

Lemma getElementById_has_id doc id p :
  getElementById doc id = Some p -> exists e, elem_at doc p = Some e /\ elem_id e = id.
Proof.
  intros H. destruct (find_elem_Some _ _ _ H) as (e & He & Hid). exists e. split; [done|].
  unfold has_id in Hid. apply bool_decide_eq_true in Hid. unfold elem_id. by rewrite Hid.
Qed.

Lemma display_setDisplay v e : display (setDisplay v e) = js v.
Proof. unfold display, setDisplay, setStyle. cbn. by rewrite lookup_insert_eq. Qed.

Lemma getElementById_setAttribute doc k v p id :
  k <> "id"%string -> getElementById (alter_at (setAttribute k v) doc p) id = getElementById doc id.
Proof.
  intros Hk. apply find_elem_alter. intros e. unfold has_id. cbn. by rewrite lookup_insert_ne.
Qed.
