(* ===== verification/JQuery.v ===== *)
(** The jQuery calls of [menu.js] and [dynsections.js] on the tree of [Dom]: sets of elements are the
    lists of their paths in document order, or a predicate where the call treats all alike. *)

From S2P Require Import Prelude TextFormat JsCore Dom.

(** ** Selectors *)

(** [name[class=c]] compares the whole attribute, [name[id^=p]] its beginning. *)
Definition has_attr (k : string) (v : jsstring) (e : elem) : bool := bool_decide (attrs e !! k = Some v).
Definition class_is (name class : string) (e : elem) : bool :=
  bool_decide (tag e = name) && has_attr "class" (js class) e.
Definition id_begins (name prefix : string) (e : elem) : bool :=
  bool_decide (tag e = name) &&
  match attrs e !! "id" with Some id => bool_decide (js prefix `prefix_of` id) | None => false end.

(** All elements that satisfy [p], in document order. *)
Fixpoint select (p : elem -> bool) (n : node) : list path :=
  match n with
  | Text _ => []
  | Element e kids =>
      (if p e then [[]] else []) ++
      (fix go (ks : list node) (i : nat) : list path :=
        match ks with
        | [] => []
        | k :: ks => (cons i <$> select p k) ++ go ks (S i)
        end) kids 0%nat
  end.

(** [$(this).children().first()] among the children of an element. *)
Fixpoint first_element (ks : list node) : option (elem * list node) :=
  match ks with
  | [] => None
  | Text _ :: ks => first_element ks
  | Element e kids :: _ => Some (e, kids)
  end.

(** ** Classes *)

Definition whitespace (c : Z) : bool := bool_decide (c ∈ [9; 10; 12; 13; 32]).

(** The words of a class attribute. *)
Fixpoint words_from (word : jsstring) (s : jsstring) : list jsstring :=
  match s with
  | [] => match word with [] => [] | _ => [word] end
  | c :: s =>
      if whitespace c then (match word with [] => [] | _ => [word] end) ++ words_from [] s
      else words_from (word ++ [c]) s
  end.
Definition class_words (s : jsstring) : list jsstring := words_from [] s.

Definition join_words (ws : list jsstring) : jsstring :=
  match ws with [] => [] | w :: ws => w ++ concat (map (cons space) ws) end.

(** [addClass], [removeClass]: the attribute is only written when it changes. *)
Definition set_words (ws : list jsstring) (e : elem) : elem :=
  if bool_decide (join_words (class_words (className e)) = join_words ws) then e
  else setAttribute "class" (join_words ws) e.
Definition addClass (names : list jsstring) (e : elem) : elem :=
  set_words (foldl (fun ws n => if bool_decide (n ∈ ws) then ws else ws ++ [n]) (class_words (className e)) names) e.
Definition removeClass (name : jsstring) (e : elem) : elem :=
  set_words (filter (fun w => w <> name) (class_words (className e))) e.

(** ** Changes of the tree *)

(** [css] of several properties, of every element that satisfies [p]. *)
Definition css (styles : list (string * jsstring)) (e : elem) : elem :=
  foldl (fun e '(k, v) => setStyle k v e) e styles.
Definition css_all (p : elem -> bool) (styles : list (string * jsstring)) (doc : node) : node :=
  map_elems (fun e => if p e then css styles e else e) doc.

(** [show] and [hide], where the style sheet leaves the element visible. *)
Definition hidden (e : elem) : bool := bool_decide (display e = js "none").
Definition show (e : elem) : elem := if hidden e then setDisplay "" e else e.
Definition hide (e : elem) : elem := if hidden e then e else setDisplay "none" e.
Definition toggle (e : elem) : elem := if hidden e then show e else hide e.

(** [append], to every element that satisfies [p]: the one with number [i] gets the nodes [f i]. *)
Fixpoint append_each (p : elem -> bool) (f : nat -> list node) (i : nat) (n : node) : nat * node :=
  match n with
  | Text d => (i, Text d)
  | Element e kids =>
      let new := if p e then f i else [] in
      let '(i, kids) :=
        (fix go (i : nat) (ks : list node) : nat * list node :=
          match ks with
          | [] => (i, [])
          | k :: ks => let '(i, k) := append_each p f i k in let '(i, ks) := go i ks in (i, k :: ks)
          end) (if p e then S i else i) kids in
      (i, Element e (kids ++ new))
  end.
Fixpoint append_kids_each (p : elem -> bool) (f : nat -> list node) (i : nat) (ks : list node)
  : nat * list node :=
  match ks with
  | [] => (i, [])
  | k :: ks =>
      let '(i, k) := append_each p f i k in let '(i, ks) := append_kids_each p f i ks in (i, k :: ks)
  end.

(** [replaceWith], of one node. *)
Fixpoint replace_at (new : node) (n : node) (p : path) : node :=
  match n, p with
  | _, [] => new
  | Text _, _ => n
  | Element e kids, i :: p => Element e (alter (fun k => replace_at new k p) i kids)
  end.

(** [$(this).find(p + ':first').replaceWith(new)], among the descendants. *)
Definition replace_first (p : elem -> bool) (new : node) (kids : list node) : list node :=
  match find_kids p kids 0 with
  | Some (i :: q) => alter (fun k => replace_at new k q) i kids
  | _ => kids
  end.

(** [$('#id').before(new)]: [None] at the root. *)
Fixpoint insert_before (new : list node) (n : node) (p : path) : node :=
  match n, p with
  | Element e kids, [i] => Element e (take i kids ++ new ++ drop i kids)
  | Element e kids, i :: p => Element e (alter (fun k => insert_before new k p) i kids)
  | _, _ => n
  end.

(** A call on [$('#id')]: nothing happens when there is no such element. *)
Definition on_id (id : jsstring) (f : node -> path -> node) (doc : node) : node :=
  match getElementById doc id with Some p => f doc p | None => doc end.
Definition alter_id (id : jsstring) (f : elem -> elem) (doc : node) : node :=
  on_id id (alter_at f) doc.

(** ** What is seen of an element by its id *)

Definition elem_by_id (doc : node) (id : jsstring) : option elem := p ← getElementById doc id; elem_at doc p.

Lemma elem_by_id_map g doc id :
  (forall e, has_id id (g e) = has_id id e) -> elem_by_id (map_elems g doc) id = g <$> elem_by_id doc id.
Proof.
  intros Hg. unfold elem_by_id, getElementById. rewrite find_elem_map by done.
  destruct (find_elem _ doc) as [p|]; [|done]. apply elem_at_map.
Qed.

Lemma elem_by_id_has_id doc id e : elem_by_id doc id = Some e -> attrs e !! "id" = Some id.
Proof.
  unfold elem_by_id. destruct (getElementById doc id) as [p|] eqn:Hp; [|done]. cbn [mbind option_bind].
  apply find_elem_Some in Hp as (e' & He' & Hid). rewrite He'. intros [= <-]. by apply bool_decide_eq_true in Hid.
Qed.

Lemma elem_by_id_alter id f doc i :
  (forall e j, has_id j (f e) = has_id j e) ->
  elem_by_id (alter_id id f doc) i = (if decide (i = id) then f <$> elem_by_id doc i else elem_by_id doc i).
Proof.
  intros Hf. unfold alter_id, on_id. destruct (getElementById doc id) as [p|] eqn:Hp.
  - unfold elem_by_id, getElementById. rewrite find_elem_alter by (intros; apply Hf). fold (getElementById doc i).
    destruct (getElementById doc i) as [q|] eqn:Hq; cbn [mbind option_bind]; [|by destruct (decide _)].
    rewrite elem_at_alter. destruct (decide (i = id)) as [->|Hne].
    + rewrite Hp in Hq. injection Hq as ->. by rewrite decide_True.
    + rewrite decide_False; [done|]. intros ->.
      apply getElementById_has_id in Hp as (e & He & Hi), Hq as (e' & He' & Hi'). congruence.
  - destruct (decide (i = id)) as [->|]; [|done]. unfold elem_by_id. by rewrite Hp.
Qed.

(** An element is found by its id when one is there; what is found is one of those. *)
Lemma elem_at_elems n p e : elem_at n p = Some e -> e ∈ elems n.
Proof.
  revert p. induction n as [d|e' kids IH] using node_ind'; intros p; [by destruct p|].
  destruct p as [|i p]; cbn [elems].
  - intros [= <-]. by left.
  - unfold elem_at. cbn [node_at kids_of]. destruct (kids !! i) as [k|] eqn:Hk; [|done]. cbn [mbind option_bind].
    intros He. right. apply list_elem_of_In, in_concat. exists (elems k). split.
    + apply in_map. apply list_elem_of_In. by eapply list_elem_of_lookup_2.
    + apply list_elem_of_In. rewrite Forall_lookup in IH. by apply (IH i k Hk p).
Qed.

Lemma elem_by_id_elems doc id e : elem_by_id doc id = Some e -> e ∈ elems doc.
Proof.
  unfold elem_by_id. destruct (getElementById doc id) as [p|]; [|done]. apply elem_at_elems.
Qed.

Lemma elem_by_id_found doc id e :
  e ∈ elems doc -> attrs e !! "id" = Some id -> is_Some (elem_by_id doc id).
Proof.
  intros He Hid. unfold elem_by_id, getElementById.
  destruct (find_elem (has_id id) doc) as [p|] eqn:Hp.
  - apply find_elem_Some in Hp as (e' & He' & _). cbn. rewrite He'. by eexists.
  - apply find_elem_None in Hp. rewrite Forall_forall in Hp. specialize (Hp e He).
    unfold has_id in Hp. by apply bool_decide_eq_false in Hp.
Qed.

Lemma has_id_show id e : has_id id (show e) = has_id id e.
Proof. unfold show. by destruct (hidden e). Qed.
Lemma has_id_hide id e : has_id id (hide e) = has_id id e.
Proof. unfold hide. by destruct (hidden e). Qed.
Lemma has_id_toggle id e : has_id id (toggle e) = has_id id e.
Proof. unfold toggle. destruct (hidden e); [apply has_id_show|apply has_id_hide]. Qed.

Lemma hidden_show e : hidden (show e) = false.
Proof.
  unfold show. destruct (hidden e) eqn:H; [|done]. unfold hidden. by rewrite display_setDisplay.
Qed.
Lemma hidden_hide e : hidden (hide e) = true.
Proof.
  unfold hide. destruct (hidden e) eqn:H; [done|]. unfold hidden. by rewrite display_setDisplay.
Qed.
Lemma hidden_toggle e : hidden (toggle e) = negb (hidden e).
Proof. unfold toggle. destruct (hidden e) eqn:H; [apply hidden_show|apply hidden_hide]. Qed.

Lemma has_id_css styles id e : has_id id (css styles e) = has_id id e.
Proof. revert e. unfold css. induction styles as [|[k v] styles IH]; intros e; [done|]. cbn. by rewrite IH. Qed.
