(* ===== verification/Page.v ===== *)
(** The state of a documentation page and the effects of its scripts: what [search/search.js]
    keeps in [searchBox], [searchResults] and [searchData], the timers and script loads it has
    started, and the monad its functions run in. The browser itself is an interface. *)

From S2P Require Import Prelude TextFormat JsCore Dom.

(** ** Completions *)

(** How a call ends: with a value, or with the [TypeError] of a property of [null] or
    [undefined]. *)
Inductive completion (A : Type) :=
  | Normal (a : A)
  | TypeError.
Arguments Normal {A} _.
Arguments TypeError {A}.

(** ** The search objects *)

(** An entry of [searchData]: the id, the title and, for each place, its link, whether it opens
    in the parent frame, and its scope. *)
Record place := { href : jsstring; in_parent : bool; scope : jsstring }.
Record entry := { entry_id : jsstring; title : jsstring; places : list place }.

(** [SearchResults] *)
Record SearchResults := { lastMatchCount : Z; lastKey : Z; repeatOn : bool }.

Definition new_SearchResults : SearchResults :=
  {| lastMatchCount := 0; lastKey := 0; repeatOn := false |}.

(** [SearchBox] *)
Record SearchBox := {
  name : jsstring;
  resultsPath : jsstring;
  keyTimeout : Z;
  keyTimeoutLength : Z;
  closeSelectionTimeout : Z;
  lastSearchValue : jsstring;
  lastResultsPage : jsstring;
  hideTimeout : Z;
  searchIndex : Z;
  searchActive : bool;
  extension : jsstring;
}.

(** The constructor. The [alert] about missing parameters stops nothing. *)
Definition new_SearchBox (name resultsPath extension : jsstring) : SearchBox :=
  let extension := if bool_decide (extension = []) then js ".html" else extension in
  {| name := name; resultsPath := resultsPath; keyTimeout := 0; keyTimeoutLength := 500;
     closeSelectionTimeout := 300; lastSearchValue := []; lastResultsPage := [];
     hideTimeout := 0; searchIndex := 0; searchActive := false; extension := extension |}.

(** ** The page *)

(** The functions given to [setTimeout]. *)
Inductive callback := CallSearch | CallCloseSelectionWindow.

#[export] Instance callback_eq_dec : EqDecision callback.
Proof. solve_decision. Defined.

Record timer := { timer_id : Z; delay : Z; call : callback }.

(** A script load that was started: its address and what [handleResults] captured. *)
Record load := { url : jsstring; load_idx : Z; load_value : jsstring }.

Record page := mkPage {
  doc : node;
  active : option path;              (* document.activeElement *)
  searchResults : SearchResults;
  searchBox : SearchBox;
  searchData : option (list entry);  (* None while the variable is undefined *)
  next_timer : Z;
  timers : list timer;
  loads : list load;
}.

(** What the scripts ask of the browser. [parseHTML] is the parser behind [innerHTML], [box] the
    layout of an element, [focusable] whether [focus()] has an effect on it, [exceeds_one] the
    comparison [s > 1] of a string, which converts it to a number, and [url_query] is
    [unescape(window.location.search.substring(1))]. *)
Record layout_box := {
  offsetWidth : Z; offsetHeight : Z; offsetLeft : Z; offsetTop : Z; offsetParent : option path }.

Class Browser := {
  toLowerCase : jsstring -> jsstring;
  parseHTML : jsstring -> list node;
  box : node -> path -> layout_box;
  focusable : node -> path -> bool;
  clientWidth : node -> Z;
  clientHeight : node -> Z;
  exceeds_one : jsstring -> bool;
  body : path;
  url_query : jsstring;
}.

(** What the pages rely on: [toLowerCase] is one, a text without markup is parsed to a single
    text node, the offset parent of an element is one of its ancestors, and a string that begins
    with a surrogate is no number. *)
Definition no_markup (s : jsstring) : Prop := Forall (fun c => c <> 60 /\ c <> 38) s /\ s <> [].

Class BrowserLaws (B : Browser) : Prop := {
  browser_lower :: LowerCase toLowerCase;
  parse_text : forall s, no_markup s -> parseHTML s = [Text s];
  surrogate_no_number : forall s c, head s = Some c -> 0xD800 <= c <= 0xDFFF -> exceeds_one s = false;
  offsetParent_above : forall d p q, offsetParent (box d p) = Some q -> (length q < length p)%nat;
}.

(** A browser with the letters of ASCII, texts without markup and no layout. *)
#[export] Instance plain_browser : Browser := {|
  toLowerCase := lower_simple;
  parseHTML := fun s => [Text s];
  box := fun _ _ => {| offsetWidth := 0; offsetHeight := 0; offsetLeft := 0; offsetTop := 0;
                       offsetParent := None |};
  focusable := fun _ _ => true;
  clientWidth := fun _ => 800;
  clientHeight := fun _ => 600;
  exceeds_one := fun _ => false;
  body := [];
  url_query := [];
|}.

#[export] Instance plain_browser_ok : BrowserLaws plain_browser.
Proof. split; [apply lower_simple_ok|done|done|done]. Qed.

(** ** The page *)

Definition div (id class : string) (kids : list node) : node :=
  Element (setAttribute "class" (js class) (setAttribute "id" (js id) (createElement "div"))) kids.
Definition with_id (name id : string) (kids : list node) : node :=
  Element (setAttribute "id" (js id) (createElement name)) kids.

(** The search box of [menu.js], where it puts it in a wide window. *)
Definition search_box_node : node :=
  div "MSearchBox" "MSearchBoxInactive"
    [Element (setAttribute "class" (js "left") (createElement "span"))
       [with_id "span" "MSearchSelect" [Text [160]];
        Element (setAttribute "value" [] (setAttribute "id" (js "MSearchField") (createElement "input"))) []];
     Element (setAttribute "class" (js "right") (createElement "span"))
       [with_id "a" "MSearchClose" [with_id "img" "MSearchCloseImg" []]]].

(** A page as [index.html] and the others have it, around its own contents. *)
Definition documentation_page (contents : list node) : node :=
  Element (createElement "html")
    [Element (createElement "head") [];
     Element (createElement "body")
       [with_id "div" "top"
          [with_id "div" "main-nav"
             [with_id "ul" "main-menu" [with_id "li" "searchBoxPos2" [search_box_node]]]];
        with_id "div" "MSearchSelectWindow" [];
        with_id "div" "MSearchResultsWindow"
          [with_id "div" "MSearchResults"
             [Element (setAttribute "class" (js "SRPage") (createElement "div"))
                [with_id "div" "SRIndex"
                   [with_id "div" "SRResults" [];
                    div "Loading" "SRStatus" [Text (js "Loading...")];
                    div "Searching" "SRStatus" [Text (js "Searching...")];
                    div "NoMatches" "SRStatus" [Text (js "No Matches")]]]]];
        Element (setAttribute "class" (js "contents") (createElement "div")) contents]].

(** The page when its scripts have been loaded, before any event. *)
Definition loaded_page (contents : list node) : page :=
  {| doc := documentation_page contents; active := None; searchResults := new_SearchResults;
     searchBox := new_SearchBox (js "searchBox") (js "search/") (js ".html");
     searchData := None; next_timer := 1; timers := []; loads := [] |}.

(** ** The monad of the scripts *)

(** The state is kept when an exception is thrown. *)
Definition M (A : Type) : Type := page -> completion A * page.

#[export] Instance M_ret : MRet M := fun A a s => (Normal a, s).
#[export] Instance M_bind : MBind M := fun A B f m s =>
  match m s with
  | (Normal a, s) => f a s
  | (TypeError, s) => (TypeError, s)
  end.

Definition throw {A} : M A := fun s => (TypeError, s).
Definition get : M page := fun s => (Normal s, s).
Definition modify (f : page -> page) : M unit := fun s => (Normal tt, f s).
Definition when (c : bool) (m : M unit) : M unit := if c then m else mret tt.
Definition unless_null {A} (o : option A) : M A :=
  match o with Some a => mret a | None => throw end.

Definition set_doc (d : node) (s : page) : page :=
  mkPage d (active s) (searchResults s) (searchBox s) (searchData s) (next_timer s) (timers s) (loads s).
Definition set_active (a : option path) (s : page) : page :=
  mkPage (doc s) a (searchResults s) (searchBox s) (searchData s) (next_timer s) (timers s) (loads s).
Definition set_results (r : SearchResults) (s : page) : page :=
  mkPage (doc s) (active s) r (searchBox s) (searchData s) (next_timer s) (timers s) (loads s).
Definition set_box (b : SearchBox) (s : page) : page :=
  mkPage (doc s) (active s) (searchResults s) b (searchData s) (next_timer s) (timers s) (loads s).
Definition set_data (d : option (list entry)) (s : page) : page :=
  mkPage (doc s) (active s) (searchResults s) (searchBox s) d (next_timer s) (timers s) (loads s).
Definition set_timers (n : Z) (t : list timer) (s : page) : page :=
  mkPage (doc s) (active s) (searchResults s) (searchBox s) (searchData s) n t (loads s).
Definition set_loads (l : list load) (s : page) : page :=
  mkPage (doc s) (active s) (searchResults s) (searchBox s) (searchData s) (next_timer s) (timers s) l.

(** [document.getElementById(id)] of a property access that follows. *)
Definition element (id : jsstring) : M path :=
  s ← get; unless_null (getElementById (doc s) id).

(** [element.style.k = v], [element.k = v] *)
Definition style_set (k : string) (v : jsstring) (p : path) : M unit :=
  modify (fun s => set_doc (alter_at (setStyle k v) (doc s) p) s).
Definition attr_set (k : string) (v : jsstring) (p : path) : M unit :=
  modify (fun s => set_doc (alter_at (setAttribute k v) (doc s) p) s).
Definition display_set (v : string) (p : path) : M unit := style_set "display" (js v) p.

(** [element.style.display] and [element.value] *)
Definition display_of (p : path) : M jsstring :=
  s ← get; mret (default [] (display <$> elem_at (doc s) p)).
Definition value_of (p : path) : M jsstring :=
  s ← get; mret (default [] (elem_at (doc s) p ≫= fun e => attrs e !! "value")).

(** [setTimeout(f, ms)] returns a positive handle, and [clearTimeout(id)]. *)
Definition setTimeout (f : callback) (ms : Z) : M Z := fun s =>
  let id := next_timer s in
  (Normal id, set_timers (id + 1) (timers s ++ [{| timer_id := id; delay := ms; call := f |}]) s).
Definition clearTimeout (id : Z) : M unit :=
  modify (fun s => set_timers (next_timer s) (filter (fun t => timer_id t <> id) (timers s)) s).

(** *** Running the functions of the monad *)

Lemma bind_run {A C} (m : M A) (f : A -> M C) s a s' :
  m s = (Normal a, s') -> (m ≫= f) s = f a s'.
Proof. intros H. unfold mbind, M_bind. by rewrite H. Qed.

Lemma get_bind {C} (f : page -> M C) s : (get ≫= f) s = f s s.
Proof. done. Qed.

Lemma modify_bind {C} g (f : unit -> M C) s : (modify g ≫= f) s = f tt (g s).
Proof. done. Qed.

Lemma ret_bind {A C} (a : A) (f : A -> M C) s : (mret a ≫= f) s = f a s.
Proof. done. Qed.

Lemma ret_run {A} (a : A) s : (mret a : M A) s = (Normal a, s).
Proof. done. Qed.

Lemma element_bind {C} id (f : path -> M C) s :
  (element id ≫= f) s =
  match getElementById (doc s) id with Some p => f p s | None => (TypeError, s) end.
Proof.
  unfold element, mbind, M_bind, get. by destruct (getElementById (doc s) id).
Qed.

Lemma unless_null_bind {A C} (o : option A) (f : A -> M C) s :
  (unless_null o ≫= f) s = match o with Some a => f a s | None => (TypeError, s) end.
Proof. by destruct o. Qed.

Lemma element_run id s :
  element id s = match getElementById (doc s) id with Some p => (Normal p, s) | None => (TypeError, s) end.
Proof. unfold element, mbind, M_bind, get. by destruct (getElementById (doc s) id). Qed.

Lemma style_set_run k v p s :
  style_set k v p s = (Normal tt, set_doc (alter_at (setStyle k v) (doc s) p) s).
Proof. done. Qed.

Lemma style_set_bind {C} k v p (f : unit -> M C) s :
  (style_set k v p ≫= f) s = f tt (set_doc (alter_at (setStyle k v) (doc s) p) s).
Proof. done. Qed.

Lemma bind_bind {A C D} (m : M A) (f : A -> M C) (g : C -> M D) s :
  ((m ≫= f) ≫= g) s = (m ≫= fun a => f a ≫= g) s.
Proof. unfold mbind, M_bind. by destruct (m s) as [[]]. Qed.

Ltac M_run := repeat first
  [ rewrite get_bind | rewrite modify_bind | rewrite ret_bind | rewrite element_bind
  | rewrite unless_null_bind | rewrite style_set_bind | rewrite bind_bind | progress cbv beta ].

(** ** Positions *)

Section Positions.
Context `{B : Browser}.

(** The loop of [getXPos] and [getYPos]; the offset parents are ancestors, so there are at most
    as many of them as the path is long. *)
Fixpoint sum_offsets (fuel : nat) (offset : layout_box -> Z) (d : node) (item : option path) (acc : Z) : Z :=
  match fuel, item with
  | S fuel, Some p =>
      if bool_decide (p = body) then acc
      else sum_offsets fuel offset d (offsetParent (box d p)) (acc + offset (box d p))
  | _, _ => acc
  end.

Definition getXPos (d : node) (item : path) : Z :=
  if negb (offsetWidth (box d item) =? 0)
  then sum_offsets (S (length item)) offsetLeft d (Some item) 0 else 0.

Definition getYPos (d : node) (item : path) : Z :=
  if negb (offsetWidth (box d item) =? 0)
  then sum_offsets (S (length item)) offsetTop d (Some item) 0 else 0.

(** The chain of the offset parents up to the body. *)
Inductive offset_chain (d : node) : option path -> list path -> Prop :=
  | chain_end : offset_chain d None []
  | chain_body : offset_chain d (Some body) []
  | chain_step p ps : p <> body -> offset_chain d (offsetParent (box d p)) ps ->
      offset_chain d (Some p) (p :: ps).

(** The loop ends having added the offsets of the whole chain. *)
Lemma sum_offsets_chain `{!BrowserLaws B} offset d item acc :
  exists ps, offset_chain d item ps /\
    forall fuel, (match item with Some p => length p | None => 0 end < fuel)%nat ->
    sum_offsets fuel offset d item acc =
    foldl (fun acc p => acc + offset (box d p)) acc ps.
Proof.
  destruct item as [p|]; [|by exists []; split; [constructor|intros []]].
  remember (length p) as n eqn:Hn. revert p acc Hn.
  induction n as [n IH] using lt_wf_ind. intros p acc ->.
  destruct (decide (p = body)) as [->|Hb].
  { exists []. split; [constructor|]. intros [|fuel] Hf; [lia|]. cbn.
    by rewrite bool_decide_eq_true_2. }
  destruct (offsetParent (box d p)) as [q|] eqn:Hq.
  - pose proof (offsetParent_above _ _ _ Hq) as Hlt.
    destruct (IH _ Hlt q (acc + offset (box d p)) eq_refl) as (ps & Hps & Hsum).
    exists (p :: ps). split; [constructor; [done|by rewrite Hq]|].
    intros [|fuel] Hf; [lia|]. cbn [sum_offsets foldl].
    rewrite bool_decide_eq_false_2, Hq by done. apply Hsum. lia.
  - exists [p]. split; [constructor; [done|rewrite Hq; constructor]|].
    intros [|fuel] Hf; [lia|]. cbn [sum_offsets foldl].
    rewrite bool_decide_eq_false_2, Hq by done. by destruct fuel.
Qed.

End Positions.
