(* ===== verification/SearchResultsPane.v ===== *)
(** The results pane of [search/search.js]: [createResults], which builds the rows, and the
    [SearchResults] object, which shows the rows that match and moves the focus among them. *)

From S2P Require Import Prelude TextFormat JsCore SearchId Dom Page.

Section Pane.
Context `{B : Browser}.

(** ** Building the rows *)

Definition setKeyActions (action : jsstring) (e : elem) : elem :=
  setAttribute "onkeyup" action (setAttribute "onkeypress" action (setAttribute "onkeydown" action e)).

Definition setClassAttr (attr : jsstring) (e : elem) : elem :=
  setAttribute "className" attr (setAttribute "class" attr e).

Definition target_of (p : place) : jsstring := if in_parent p then js "_parent" else js "_blank".

(** One turn of the inner loop: the link to a place. *)
Definition result_child (resultsPath : jsstring) (e c : Z) (p : place) : node :=
  let srChild := createElement "a" in
  let srChild := setAttribute "id" (js "Item" ++ js_dec e ++ js "_c" ++ js_dec c) srChild in
  let srChild := setKeyActions
    (js "return searchResults.NavChild(event," ++ js_dec e ++ js "," ++ js_dec c ++ js ")") srChild in
  let srChild := setClassAttr (js "SRScope") srChild in
  let srChild := setAttribute "href" (resultsPath ++ href p) srChild in
  let srChild := setAttribute "onclick" (js "searchBox.CloseResultsWindow()") srChild in
  let srChild := setAttribute "target" (target_of p) srChild in
  Element srChild (parseHTML (scope p)).

(** One turn of the outer loop: the row of an entry. *)
Definition result_row (resultsPath : jsstring) (e : Z) (d : entry) : node :=
  let id := entry_id d in
  let srResult := setClassAttr (js "SRResult") (setAttribute "id" (js "SR_" ++ id) (createElement "div")) in
  let srEntry := setClassAttr (js "SREntry") (createElement "div") in
  let srLink := setAttribute "id" (js "Item" ++ js_dec e) (createElement "a") in
  let srLink := setKeyActions (js "return searchResults.Nav(event," ++ js_dec e ++ js ")") srLink in
  let srLink := setClassAttr (js "SRSymbol") srLink in
  let inner := parseHTML (title d) in
  match places d with
  | [p] => (* single result *)
      let srLink := setAttribute "href" (resultsPath ++ href p) srLink in
      let srLink := setAttribute "onclick" (js "searchBox.CloseResultsWindow()") srLink in
      let srLink := setAttribute "target" (target_of p) srLink in
      let srScope := setClassAttr (js "SRScope") (createElement "span") in
      Element srResult [Element srEntry [Element srLink inner; Element srScope (parseHTML (scope p))]]
  | ps => (* multiple results *)
      let srLink := setAttribute "href"
        (js "javascript:searchResults.Toggle(" ++ [34] ++ js "SR_" ++ id ++ [34] ++ js ")") srLink in
      let srChildren := setClassAttr (js "SRChildren") (createElement "div") in
      Element srResult [Element srEntry
        [Element srLink inner;
         Element srChildren (imap (fun c p => result_child resultsPath e (Z.of_nat c) p) ps)]]
  end.

Definition result_rows (resultsPath : jsstring) (data : list entry) : list node :=
  imap (fun e d => result_row resultsPath (Z.of_nat e) d) data.

Definition createResults (resultsPath : jsstring) (data : list entry) : M unit :=
  results ← element (js "SRResults");
  modify (fun s => set_doc (replace_kids (result_rows resultsPath data) (doc s) results) s).

(** ** Looking for the children of a row *)

Definition is_div (e : elem) : bool := bool_decide (tag e = "div"%string).
Definition is_children_div (e : elem) : bool :=
  is_div e && bool_decide (className e = js "SRChildren").

(** The inner [do ... while]: up to an element with a next sibling, or to [parentElement]. The
    fuel is the length of the path, which each turn shortens. *)
Fixpoint climb (fuel : nat) (d : node) (parentElement element : path) : option path :=
  match fuel with
  | O => None
  | S fuel =>
      match parentNode element with
      | None => None
      | Some element =>
          if bool_decide (element = parentElement) then Some element
          else match nextSibling d element with
               | Some _ => Some element
               | None => climb fuel d parentElement element
               end
      end
  end.

(** The last two branches: the element after the subtree of this one. *)
Definition after_subtree (d : node) (parentElement element : path) : option path :=
  match nextSibling d element with
  | Some s => Some s
  | None =>
      match climb (length element) d parentElement element with
      | Some element =>
          if bool_decide (element = parentElement) then Some element else nextSibling d element
      | None => None
      end
  end.

Definition next_element (d : node) (parentElement element : path) : option path :=
  match node_at d element with
  | Some (Element e (_ :: _)) =>
      if is_div e then firstChild d element else after_subtree d parentElement element
  | _ => after_subtree d parentElement element
  end.

(** The loop. The outer [None] is the end of the fuel, which [walk_enough] excludes. *)
Fixpoint walk (fuel : nat) (d : node) (parentElement : path) (element : option path)
  : option (option path) :=
  match element with
  | None => Some None
  | Some element =>
      if bool_decide (element = parentElement) then Some None
      else match fuel with
           | O => None
           | S fuel =>
               if match elem_at d element with Some e => is_children_div e | None => false end
               then Some (Some element)
               else walk fuel d parentElement (next_element d parentElement element)
           end
  end.

Fixpoint node_count (n : node) : nat :=
  match n with Text _ => 1 | Element _ kids => S (foldr Nat.add 0%nat (map node_count kids)) end.

Definition FindChildElement (d : node) (id : jsstring) : completion (option path) :=
  match getElementById d id with
  | None => TypeError
  | Some parentElement =>
      let element := firstChild d parentElement in
      Normal (default None (walk (node_count d) d parentElement element))
  end.

Definition find_child (id : jsstring) : M (option path) := fun s =>
  (FindChildElement (doc s) id, s).

Definition Toggle (id : jsstring) : M unit :=
  element ← find_child id;
  match element with
  | None => mret tt
  | Some element =>
      d ← display_of element;
      if bool_decide (d = js "block") then display_set "none" element
      else display_set "block" element
  end.

(** ** Searching *)

Definition is_result (e : elem) : bool := is_div e && bool_decide (className e = js "SRResult").

Definition row_match_name (e : elem) : jsstring := strip_sr (toLowerCase (elem_id e)).

Definition row_matches (search : jsstring) (e : elem) : bool :=
  let rowMatchName := row_match_name e in
  (length search <=? length rowMatchName)%nat &&
  bool_decide (substr0 rowMatchName (length search) = search).

(** The body of the loop over the rows; the state is [matches]. *)
Definition search_row (search : jsstring) (matches : Z) (e : elem) : Z * elem :=
  if is_result e then
    if row_matches search e then (matches + 1, setDisplay "block" e)
    else (matches, setDisplay "none" e)
  else (matches, e).

(** What is compared with the rows. *)
Definition search_key (search : jsstring) : jsstring :=
  let search := if bool_decide (search = []) then url_query else search in
  let search := strip_leading search in
  let search := strip_trailing search in
  let search := toLowerCase search in
  convertToId search.

Definition Search (search : jsstring) : M bool :=
  let search := search_key search in
  s ← get;
  let '(matches, d) := for_each (search_row search) 0 (doc s) in
  _ ← modify (set_doc d);
  searching ← element (js "Searching");
  _ ← display_set "none" searching;
  noMatches ← element (js "NoMatches");
  _ ← (if matches =? 0 then display_set "block" noMatches else display_set "none" noMatches);
  _ ← modify (fun s => set_results {| lastMatchCount := matches; lastKey := lastKey (searchResults s);
                                      repeatOn := repeatOn (searchResults s) |} s);
  mret true.

(** ** Moving the focus *)

Definition item_name (index : Z) : jsstring := js "Item" ++ js_dec index.

(** [focusItem.parentNode.parentNode.style.display=='block'] *)
Definition item_visible (d : node) (focusItem : path) : completion bool :=
  match parentNode focusItem ≫= parentNode with
  | None => TypeError
  | Some row =>
      match elem_at d row with
      | None => TypeError
      | Some e => Normal (bool_decide (display e = js "block"))
      end
  end.

(** The loops of [NavNext] ([step] is 1) and [NavPrev] ([step] is -1). *)
Fixpoint nav_loop (fuel : nat) (step : Z) (d : node) (index : Z) : completion (option path) :=
  match fuel with
  | O => Normal None
  | S fuel =>
      match getElementById d (item_name index) with
      | None => Normal None
      | Some focusItem =>
          match item_visible d focusItem with
          | TypeError => TypeError
          | Normal true => Normal (Some focusItem)
          | Normal false => nav_loop fuel step d (index + step)
          end
      end
  end.

(** There are at most as many items as elements. *)
Definition nav_fuel (d : node) : nat := S (length (elems d)).

Definition NavNext (d : node) (index : Z) : completion (option path) := nav_loop (nav_fuel d) 1 d index.
Definition NavPrev (d : node) (index : Z) : completion (option path) := nav_loop (nav_fuel d) (-1) d index.

Definition nav_next (index : Z) : M (option path) := fun s => (NavNext (doc s) index, s).
Definition nav_prev (index : Z) : M (option path) := fun s => (NavPrev (doc s) index, s).

(** ** Keys *)

Inductive key_type := keydown | keypress | keyup.
Record key_event := { ktype : key_type; keyCode : Z; shiftKey : bool }.

Definition ProcessKeys (e : key_event) : M bool := fun s =>
  let r := searchResults s in
  let set k o := set_results {| lastMatchCount := lastMatchCount r; lastKey := k; repeatOn := o |} s in
  match ktype e with
  | keydown => (Normal (negb (keyCode e =? 0)), set (keyCode e) false)
  | keypress =>
      if negb (repeatOn r)
      then (Normal false, set (lastKey r) (if negb (lastKey r =? 0) then true else repeatOn r))
      else (Normal (negb (lastKey r =? 0)), s)
  | keyup => (Normal false, set 0 false)
  end.

(** ** The walk of [FindChildElement] *)

(** What it looks for: the first [SRChildren] box, in document order, that is reached through
    [div] elements only. *)
Fixpoint first_children (n : node) : option path :=
  match n with
  | Text _ => None
  | Element e kids =>
      if is_div e then
        if is_children_div e then Some [] else
        (fix go (ks : list node) (i : nat) : option path :=
          match ks with
          | [] => None
          | k :: ks => match first_children k with Some q => Some (i :: q) | None => go ks (S i) end
          end) kids 0%nat
      else None
  end.

Fixpoint first_children_of (ks : list node) (i : nat) : option path :=
  match ks with
  | [] => None
  | k :: ks => match first_children k with Some q => Some (i :: q) | None => first_children_of ks (S i) end
  end.

Lemma first_children_unfold e kids :
  first_children (Element e kids) =
  if is_div e then if is_children_div e then Some [] else first_children_of kids 0 else None.
Proof.
  cbn [first_children]. destruct (is_div e); [|done]. destruct (is_children_div e); [done|].
  generalize 0%nat. induction kids as [|k ks IH]; intros i; [done|]. cbn [first_children_of].
  destruct (first_children k); [done|]. apply IH.
Qed.

Lemma walk_None fuel d pp : walk fuel d pp None = Some None.
Proof. by destruct fuel. Qed.

Lemma walk_parent fuel d pp : walk fuel d pp (Some pp) = Some None.
Proof. destruct fuel; cbn; by rewrite bool_decide_eq_true_2. Qed.

Lemma proper_below (pp : path) i q : pp ++ i :: q <> pp.
Proof. intros H. apply (f_equal length) in H. rewrite length_app in H. cbn in H. lia. Qed.

Lemma after_subtree_last d pp p i :
  p <> pp -> node_at d (p ++ [S i]) = None -> after_subtree d pp (p ++ [i]) = after_subtree d pp p.
Proof.
  intros Hp Hn. unfold after_subtree at 1. rewrite nextSibling_snoc, Hn, length_app, Nat.add_1_r.
  cbn [climb]. rewrite parentNode_snoc, bool_decide_eq_false_2 by done. unfold after_subtree.
  destruct (nextSibling d p) as [s|] eqn:Hs; [|done].
  by rewrite bool_decide_eq_false_2 by done.
Qed.

Lemma after_subtree_top d pp i :
  node_at d (pp ++ [S i]) = None -> after_subtree d pp (pp ++ [i]) = Some pp.
Proof.
  intros Hn. unfold after_subtree. rewrite nextSibling_snoc, Hn, length_app, Nat.add_1_r.
  cbn [climb]. rewrite parentNode_snoc, bool_decide_eq_true_2 by done.
  by rewrite bool_decide_eq_true_2.
Qed.

Definition kids_count (ks : list node) : nat := foldr Nat.add 0%nat (map node_count ks).

(** The walk from a node below [pp]: it ends on the box of the subtree, or goes on behind it. *)
Definition walks (d : node) (pp : path) (n : node) : Prop :=
  forall i q fuel, let p := pp ++ i :: q in node_at d p = Some n ->
  match first_children n with
  | Some s => walk (node_count n + fuel) d pp (Some p) = Some (Some (p ++ s))
  | None => exists fuel', (fuel <= fuel')%nat /\
      walk (node_count n + fuel) d pp (Some p) = walk fuel' d pp (after_subtree d pp p)
  end.

Lemma walk_kids d pp p rest : forall i fuel,
  Forall (walks d pp) rest -> rest <> [] ->
  (exists r, p = pp ++ r) ->
  (forall j, node_at d (p ++ [(i + j)%nat]) = rest !! j) ->
  match first_children_of rest i with
  | Some s => walk (kids_count rest + fuel) d pp (Some (p ++ [i])) = Some (Some (p ++ s))
  | None => exists fuel' last, (fuel <= fuel')%nat /\ node_at d (p ++ [S last]) = None /\
      walk (kids_count rest + fuel) d pp (Some (p ++ [i]))
      = walk fuel' d pp (after_subtree d pp (p ++ [last]))
  end.
Proof.
  induction rest as [|k rest IH]; intros i fuel Hall Hne Hp Hkids; [done|].
  apply Forall_cons in Hall as [Hk Hall]. clear Hne.
  pose proof (Hkids 0%nat) as Hk0. rewrite Nat.add_0_r in Hk0. cbn [lookup list_lookup] in Hk0.
  assert (Hpi : exists j q, p ++ [i] = pp ++ j :: q).
  { destruct Hp as [[|j r] ->]; [exists i, []; by rewrite app_nil_r|].
    exists j, (r ++ [i]). by rewrite <- app_assoc. }
  destruct Hpi as (j & q & Hpi).
  cbn [first_children_of kids_count map foldr]. fold (kids_count rest).
  replace (node_count k + kids_count rest + fuel)%nat
    with (node_count k + (kids_count rest + fuel))%nat by lia.
  specialize (Hk j q (kids_count rest + fuel)%nat). cbn zeta in Hk. rewrite <- Hpi in Hk.
  specialize (Hk Hk0). destruct (first_children k) as [s|].
  { by rewrite <- app_assoc in Hk. }
  destruct Hk as (fuel1 & Hle & ->). destruct rest as [|k' rest].
  { exists fuel1, i. cbn in Hle. split; [lia|]. split; [|done].
    specialize (Hkids 1%nat). by rewrite Nat.add_1_r in Hkids. }
  assert (Hnext : after_subtree d pp (p ++ [i]) = Some (p ++ [S i])).
  { unfold after_subtree. rewrite nextSibling_snoc. specialize (Hkids 1%nat).
    rewrite Nat.add_1_r in Hkids. by rewrite Hkids. }
  rewrite Hnext. replace fuel1 with (kids_count (k' :: rest) + (fuel1 - kids_count (k' :: rest)))%nat by lia.
  specialize (IH (S i) (fuel1 - kids_count (k' :: rest))%nat Hall ltac:(done) Hp).
  destruct (first_children_of (k' :: rest) (S i)) as [s|].
  - apply IH. intros j'. specialize (Hkids (S j')). by rewrite Nat.add_succ_r in Hkids.
  - destruct IH as (fuel2 & last & Hle2 & Hn & ->).
    { intros j'. specialize (Hkids (S j')). by rewrite Nat.add_succ_r in Hkids. }
    exists fuel2, last. split; [lia|]. done.
Qed.

Lemma walk_node d pp n : walks d pp n.
Proof.
  induction n as [t|e kids IH] using node_ind'; intros i q fuel p Hn.
  - exists fuel. split; [done|]. cbn [node_count Nat.add walk].
    rewrite bool_decide_eq_false_2 by apply proper_below.
    unfold elem_at, next_element. by rewrite Hn.
  - rewrite first_children_unfold. cbn [node_count Nat.add walk].
    rewrite bool_decide_eq_false_2 by apply proper_below.
    unfold elem_at, next_element at 1 2. rewrite Hn.
    assert (Hc : is_children_div e = is_div e && is_children_div e).
    { unfold is_children_div. by destruct (is_div e). }
    destruct (is_div e) eqn:Hd; cbn [andb] in Hc; last first.
    { rewrite Hc. exists (foldr Nat.add 0%nat (map node_count kids) + fuel)%nat.
      split; [lia|]. by destruct kids. }
    destruct (is_children_div e); [by rewrite app_nil_r|]. clear Hc.
    destruct kids as [|k kids]; [by exists fuel|].
    assert (Hkids : forall j, node_at d (p ++ [(0 + j)%nat]) = (k :: kids) !! j).
    { intros j. rewrite node_at_app, Hn. simpl mbind. cbn [node_at kids_of Nat.add].
      by destruct ((k :: kids) !! j). }
    assert (Hf : firstChild d p = Some (p ++ [0%nat])).
    { unfold firstChild. pose proof (Hkids 0%nat) as H0. cbn [Nat.add] in H0. by rewrite H0. }
    rewrite Hf. fold (kids_count (k :: kids)).
    pose proof (walk_kids d pp p (k :: kids) 0 fuel IH ltac:(done) ltac:(by eexists) Hkids) as Hw.
    destruct (first_children_of (k :: kids) 0) as [s|]; [done|].
    destruct Hw as (fuel' & last & Hle & Hl & ->). exists fuel'. split; [done|].
    by rewrite after_subtree_last by (done || apply proper_below).
Qed.

(** ** Searching *)

(** The rows after a search for [q]. *)
Definition mark_row (q : jsstring) (e : elem) : elem :=
  if is_result e then setDisplay (if row_matches q e then "block" else "none") e else e.

Definition matching (q : jsstring) (d : node) : list elem :=
  filter (fun e => is_result e && row_matches q e) (elems d).

Lemma search_row_mark q m e : snd (search_row q m e) = mark_row q e.
Proof. unfold search_row, mark_row. destruct (is_result e), (row_matches q e); done. Qed.

Lemma search_row_count q m d :
  fst (for_each (search_row q) m d) = m + size (matching q d).
Proof.
  pose proof (for_each_elems (search_row q) m d) as He. apply (f_equal fst) in He. cbn [fst] in He.
  rewrite He. clear He. unfold matching. generalize (elems d). clear d. intros es. revert m.
  induction es as [|e es IH]; intros m; [rewrite filter_nil, size_nil; cbn [for_each_list fst]; lia|]. cbn [for_each_list].
  destruct (search_row q m e) as [m1 e1] eqn:Hr. destruct (for_each_list _ m1 es) as [m2 es2] eqn:Hes.
  specialize (IH m1). rewrite Hes in IH. cbn [fst] in *. rewrite IH. rewrite filter_cons.
  unfold search_row in Hr. destruct (is_result e), (row_matches q e); cbn [andb];
    injection Hr as <- <-; destruct (decide _) as [Hb|Hb]; try done; try (by destruct Hb); size_lia.
Qed.

Lemma search_loop q d :
  for_each (search_row q) 0 d = (size (matching q d), map_elems (mark_row q) d).
Proof.
  rewrite (surjective_pairing (for_each _ _ _)), search_row_count.
  f_equal. apply for_each_map. intros. apply search_row_mark.
Qed.

Lemma has_id_mark q id e : has_id id (mark_row q e) = has_id id e.
Proof. unfold mark_row. by destruct (is_result e). Qed.

Lemma row_matches_prefix q e : row_matches q e = bool_decide (q `prefix_of` row_match_name e).
Proof.
  unfold row_matches, substr0. symmetry. case_bool_decide as Hp.
  - destruct Hp as [k ->]. rewrite take_app_length, length_app.
    rewrite bool_decide_eq_true_2 by done. rewrite (proj2 (Nat.leb_le _ _)) by lia. done.
  - symmetry. apply andb_false_iff. right. apply bool_decide_eq_false. intros Ht. apply Hp.
    exists (drop (length q) (row_match_name e)). by rewrite <- Ht at 1; rewrite take_drop.
Qed.

(** The name a row of [createResults] is compared by is the id of its entry. *)
Lemma row_match_name_created `{!BrowserLaws B} e id :
  attrs e !! "id" = Some (js "SR_" ++ id) -> toLowerCase id = id -> row_match_name e = id.
Proof.
  intros He Hid. unfold row_match_name, elem_id. rewrite He. cbn [default from_option].
  rewrite (lower_behind_ascii (js "SR_") id) by (done || decide_now). done.
Qed.

(** ** The items *)

Lemma item_name_inj i j : item_name i = item_name j -> i = j.
Proof. unfold item_name. intros H%app_inv_head. by apply (inj js_dec). Qed.

(** As many items with different numbers as were found cannot be more than the elements. *)
Lemma items_bound d (index step : Z) n :
  step <> 0 ->
  (forall j, (j < n)%nat -> is_Some (getElementById d (item_name (index + step * Z.of_nat j)))) ->
  (n <= length (elems d))%nat.
Proof.
  intros Hstep Hall. rewrite <- (length_fmap elem_id (elems d)).
  rewrite <- (length_seq n 0), <- (length_fmap (fun j => item_name (index + step * Z.of_nat j)) (seq 0 n)).
  apply submseteq_length, NoDup_submseteq.
  - apply NoDup_fmap_2_strong; [|apply NoDup_seq]. intros i j _ _ H%item_name_inj. nia.
  - intros x (j & -> & Hj)%list_elem_of_fmap. apply elem_of_seq in Hj.
    destruct (Hall j) as [p Hp]; [lia|].
    destruct (list_elem_of_dec (item_name (index + step * Z.of_nat j)) (elem_id <$> elems d)) as [|Hnot]; [done|].
    exfalso. assert (HN : getElementById d (item_name (index + step * Z.of_nat j)) = None); [|congruence].
    apply find_elem_None, Forall_forall. intros e He. unfold has_id.
    apply bool_decide_eq_false. intros Hid. apply Hnot, list_elem_of_fmap. exists e. split; [|done].
    unfold elem_id. by rewrite Hid.
Qed.

(** Every item of the page has a row around it. *)
Definition items_in_rows (d : node) : Prop :=
  forall index p, getElementById d (item_name index) = Some p -> exists v, item_visible d p = Normal v.

(** The item with number [index] exists and is hidden. *)
Definition item_hidden (d : node) (index : Z) : Prop :=
  exists p, getElementById d (item_name index) = Some p /\ item_visible d p = Normal false.

(** What the loops are after: the first item, from [index] on, that is visible, unless one does
    not exist before. *)
Definition nav_result (step : Z) (d : node) (index : Z) (r : option path) : Prop :=
  exists n : nat,
    (forall j, (j < n)%nat -> item_hidden d (index + step * Z.of_nat j)) /\
    r = getElementById d (item_name (index + step * Z.of_nat n)) /\
    match r with Some p => item_visible d p = Normal true | None => True end.

Lemma nav_loop_result step d index : step <> 0 -> items_in_rows d ->
  exists r, nav_loop (nav_fuel d) step d index = Normal r /\ nav_result step d index r.
Proof.
  intros Hstep Hrows.
  assert (Hgen : forall fuel done,
    (length (elems d) < fuel + done)%nat ->
    (forall j, (j < done)%nat -> item_hidden d (index + step * Z.of_nat j)) ->
    exists r, nav_loop fuel step d (index + step * Z.of_nat done) = Normal r /\ nav_result step d index r).
  { induction fuel as [|fuel IH]; intros n Hf Hall.
    { exfalso. pose proof (items_bound d index step n Hstep) as Hb.
      enough (n <= length (elems d))%nat by lia. apply Hb. intros j Hj.
      destruct (Hall j Hj) as (p & -> & _). by eexists. }
    cbn [nav_loop]. destruct (getElementById d (item_name (index + step * Z.of_nat n))) as [p|] eqn:Hp; last first.
    { exists None. split; [done|]. exists n. by rewrite Hp. }
    destruct (Hrows _ _ Hp) as [[|] Hv]; rewrite Hv.
    - exists (Some p). split; [done|]. exists n. by rewrite Hp.
    - replace (index + step * Z.of_nat n + step) with (index + step * Z.of_nat (S n)) by lia.
      apply IH; [lia|]. intros j Hj. destruct (decide (j = n)) as [->|]; [by exists p|].
      apply Hall. lia. }
  destruct (Hgen (nav_fuel d) 0%nat) as (r & Hr & Hres); [unfold nav_fuel; lia|lia|].
  exists r. split; [|done]. by rewrite Z.mul_0_r, Z.add_0_r in Hr.
Qed.

(** Nothing at the top of the page is named like an item. *)
Definition named_item (e : elem) : bool := bool_decide (take 4 (elem_id e) = js "Item").

Definition items_below (d : node) : bool :=
  forallb (fun n => match n with Element e _ => negb (named_item e) | Text _ => true end) (d :: kids_of d).

Lemma named_item_name e index : attrs e !! "id" = Some (item_name index) -> named_item e = true.
Proof. intros He. unfold named_item, elem_id. rewrite He. by apply bool_decide_eq_true. Qed.

Lemma items_below_in_rows d : items_below d = true -> items_in_rows d.
Proof.
  intros Hb index p Hp. unfold item_visible.
  destruct (find_elem_Some _ _ _ Hp) as (e & He & Hid).
  apply bool_decide_eq_true, named_item_name in Hid.
  unfold items_below in Hb. rewrite forallb_forall in Hb. unfold elem_at in He.
  destruct (node_at d p) as [[|e' kids]|] eqn:Hn; [done| |done]. injection He as ->.
  destruct p as [|j p' _] using rev_ind; [|destruct p' as [|i q _] using rev_ind].
  - exfalso. injection Hn as ->. specialize (Hb (Element e kids) (or_introl eq_refl)).
    cbn in Hb. by rewrite Hid in Hb.
  - exfalso. cbn [app node_at] in Hn. destruct (kids_of d !! j) as [k|] eqn:Hk; [|done].
    injection Hn as ->. specialize (Hb (Element e kids)). cbn in Hb. rewrite Hid in Hb.
    apply list_elem_of_lookup_2, list_elem_of_In in Hk. by specialize (Hb (or_intror Hk)).
  - rewrite parentNode_snoc. simpl mbind. rewrite parentNode_snoc. unfold elem_at.
    rewrite <- app_assoc, node_at_app in Hn. destruct (node_at d q) as [[|e2 k2]|]; [done| |done].
    by eexists.
Qed.

(** ** Properties *)

(** The walk over [firstChild], [nextSibling] and [parentNode] ends, and it finds exactly the
    first box of children below the element, in document order; it throws when there is no
    element with the id. *)
Theorem FindChildElement_finds : forall d id,
  FindChildElement d id =
  match getElementById d id with
  | None => TypeError
  | Some p => Normal (match node_at d p with
                      | Some n => (fun q => p ++ q) <$> first_children_of (kids_of n) 0
                      | None => None
                      end)
  end.
Proof.
  intros d id. unfold FindChildElement. destruct (getElementById d id) as [p|] eqn:Hp; [|done].
  f_equal. apply find_elem_Some in Hp as (e & He & _). unfold elem_at in He.
  destruct (node_at d p) as [[|e' kids]|] eqn:Hn; [done| |done]. clear He. cbn [kids_of].
  assert (Hkids : forall j, node_at d (p ++ [(0 + j)%nat]) = kids !! j).
  { intros j. rewrite node_at_app, Hn. simpl mbind. cbn [node_at kids_of Nat.add].
    by destruct (kids !! j). }
  unfold firstChild. pose proof (Hkids 0%nat) as H0. cbn [Nat.add] in H0. rewrite H0.
  destruct kids as [|k kids]; [by rewrite walk_None|]. cbn [lookup list_lookup].
  assert (Hle : exists fuel, node_count d = (kids_count (k :: kids) + fuel)%nat).
  { enough (Hc : (S (kids_count (k :: kids)) <= node_count d)%nat) by (exists (node_count d - kids_count (k :: kids))%nat; lia).
    change (S (kids_count (k :: kids))) with (node_count (Element e' (k :: kids))).
    revert Hn. generalize (Element e' (k :: kids)). clear. intros n. revert d.
    induction p as [|i p IH]; intros d; [by intros [= ->]|]. cbn [node_at].
    destruct (kids_of d !! i) as [c|] eqn:Hc; [|done]. simpl mbind. intros Hn.
    apply IH in Hn. destruct d as [t|e kids]; [done|]. cbn [kids_of node_count] in *.
    enough (node_count c <= foldr Nat.add 0%nat (map node_count kids))%nat by lia.
    revert i Hc. induction kids as [|k kids IHk]; intros [|i]; cbn; [done|done| |].
    - intros [= ->]. lia.
    - intros Hc. apply IHk in Hc. lia. }
  destruct Hle as [fuel ->].
  pose proof (walk_kids d p p (k :: kids) 0 fuel (Forall_true _ _ (walk_node d p)) ltac:(done)
    ltac:(exists []; by rewrite app_nil_r) Hkids) as Hw.
  destruct (first_children_of (k :: kids) 0) as [s|]; [by rewrite Hw|].
  destruct Hw as (fuel' & last & _ & Hl & ->). by rewrite after_subtree_top, walk_parent by done.
Qed.

(** C36: a search shows the rows whose name begins with the encoded text and hides the others,
    touches nothing else of the page, and reports the number of matches, the notice being shown
    exactly when there is none. *)
Theorem Search_shows_matching_rows : forall s text ps pn,
  getElementById (doc s) (js "Searching") = Some ps ->
  getElementById (doc s) (js "NoMatches") = Some pn ->
  exists s', Search text s = (Normal true, s') /\
    (forall p e, elem_at (doc s) p = Some e -> p <> ps -> p <> pn ->
      elem_at (doc s') p = Some (
        if is_result e
        then setDisplay (if bool_decide (search_key text `prefix_of` row_match_name e)
                         then "block" else "none") e
        else e)) /\
    lastMatchCount (searchResults s') = size (matching (search_key text) (doc s)) /\
    (forall e, elem_at (doc s') ps = Some e -> display e = js "none") /\
    (forall e, elem_at (doc s') pn = Some e ->
      (display e = js "block" <-> matching (search_key text) (doc s) = [])).
Proof.
  intros s text ps pn Hs Hn. unfold Search. set (q := search_key text).
  M_run. rewrite search_loop.
  assert (Hmark : forall id, getElementById (map_elems (mark_row q) (doc s)) id = getElementById (doc s) id).
  { intros id. apply find_elem_map. intros e. apply has_id_mark. }
  unfold display_set. M_run. cbn [doc set_doc]. rewrite Hmark, Hs. M_run. cbn [doc set_doc].
  rewrite getElementById_setStyle, Hmark, Hn.
  assert (Hne : pn <> ps).
  { intros ->. apply getElementById_has_id in Hs as (e & He & Hid), Hn as (e' & He' & Hid').
    rewrite He in He'. injection He' as <-. rewrite Hid in Hid'. done. }
  assert (Hcount : (size (matching q (doc s)) =? 0) = true <-> matching q (doc s) = []).
  { rewrite Z.eqb_eq. destruct (matching q (doc s)); [done|]. split; [|done]. size_lia. }
  exists (set_results {| lastMatchCount := size (matching q (doc s));
            lastKey := lastKey (searchResults s); repeatOn := repeatOn (searchResults s) |}
          (set_doc (alter_at (setStyle "display"
              (js (if size (matching q (doc s)) =? 0 then "block" else "none")))
            (alter_at (setStyle "display" (js "none")) (map_elems (mark_row q) (doc s)) ps) pn) s)).
  split; [by destruct (size (matching q (doc s)) =? 0)|]. cbn [doc set_doc set_results searchResults].
  split; [|split; [done|split]].
  - intros p e He Hps Hpn. rewrite !elem_at_alter, elem_at_map, He.
    rewrite decide_False, decide_False by done. cbn [fmap option_fmap option_map]. f_equal.
    unfold mark_row. destruct (is_result e); [|done]. by rewrite row_matches_prefix.
  - intros e. rewrite !elem_at_alter. rewrite decide_False, decide_True by congruence.
    destruct (elem_at _ ps); [|done]. intros [= <-]. apply (display_setDisplay "none").
  - intros e. rewrite !elem_at_alter. rewrite decide_True, decide_False by congruence.
    destruct (elem_at _ pn); [|done]. intros [= <-]. rewrite <- Hcount.
    match goal with |- context [display (setStyle ?k (js ?v) ?x)] =>
      change (setStyle k (js v) x) with (setDisplay v x) end.
    rewrite display_setDisplay.
    by destruct (_ =? 0).
Qed.

(** The row of an entry named [name] is shown for exactly the searches that begin the name,
    and for those that go on behind it with the character whose code is written like the first
    digits of the number of the entry. *)
Theorem created_row_matches `{!BrowserLaws B} : forall resultsPath k d name n text,
  units_ok name -> units_ok text -> text <> [] -> 0 <= n ->
  entry_id d = convertToId name ++ js "_" ++ js_dec n ->
  toLowerCase (entry_id d) = entry_id d ->
  let q := toLowerCase (strip_trailing (strip_leading text)) in
  exists e kids, result_row resultsPath k d = Element e kids /\ is_result e = true /\
    (search_key text `prefix_of` row_match_name e <->
     q `prefix_of` name \/
     exists c h l rest, q = name ++ c :: rest /\ convertChar c = [95; h; l] /\
       h :: l :: rest `prefix_of` js_dec n).
Proof.
  intros rp k d name n text Hname Htext Hne Hn Hid Hlow q.
  assert (Hrow : exists kids, result_row rp k d = Element
    (setClassAttr (js "SRResult") (setAttribute "id" (js "SR_" ++ entry_id d) (createElement "div"))) kids).
  { unfold result_row. destruct (places d) as [|? [|? ?]]; by eexists. }
  destruct Hrow as [kids ->]. eexists _, kids. split; [done|]. split; [by vm_compute|].
  rewrite (row_match_name_created _ (entry_id d)) by done. rewrite Hid. unfold search_key.
  rewrite bool_decide_eq_false_2 by done. fold q.
  assert (Hq : units_ok q).
  { apply lower_units. unfold strip_trailing. apply Forall_rev.
    assert (Hd : forall p s, units_ok s -> units_ok (drop_while p s)).
    { intros p s Hs. destruct (drop_while_suffix p s) as (a & Ha & _). rewrite Ha in Hs.
      by apply Forall_app in Hs as [_ ?]. }
    by apply Hd, Forall_rev, Hd. }
  rewrite convertToId_prefix_app by done. apply or_iff_compat_l. split.
  - intros (r & Hr & Hqr & Hp). rewrite Hqr in Hq. apply Forall_app in Hq as [_ Hr'].
    apply convertToId_prefix_number in Hp as (c & h & l & rest & -> & Hc & Hp);
      [by exists c, h, l, rest|done|done|by apply js_dec_digits].
  - intros (c & h & l & rest & Hqr & Hc & Hp). exists (c :: rest). split; [done|]. split; [done|].
    rewrite Hqr in Hq. apply Forall_app in Hq as [_ Hr'].
    apply convertToId_prefix_number; [done|done|by apply js_dec_digits|]. by exists c, h, l, rest.
Qed.

(** Moving down ends on the first visible item from [index] on, moving up on the first one
    before; both give nothing when the items end before, on every page whose items are in rows. *)
Theorem NavNext_first_visible : forall d index, items_in_rows d ->
  (exists r, NavNext d index = Normal r /\ nav_result 1 d index r) /\
  (exists r, NavPrev d index = Normal r /\ nav_result (-1) d index r).
Proof. intros d index Hd. by split; apply nav_loop_result. Qed.

End Pane.

(** ** Witnesses *)

Definition sample_data : list entry :=
  [{| entry_id := js "write_5fframe_21"; title := js "write_frame";
      places := [{| href := js "../a.html"; in_parent := true; scope := js "stgs" |}] |};
   {| entry_id := js "feed_22"; title := js "feed";
      places := [{| href := js "../b.html"; in_parent := true; scope := js "stgs" |};
                 {| href := js "../c.html"; in_parent := false; scope := js "app" |}] |}].

Definition sample_results : page := snd (createResults (js "search/") sample_data (loaded_page [])).

Lemma Search_shows_matching_rows_witness :
  exists s', Search (js "Wri") sample_results = (Normal true, s') /\
    (forall p e, elem_at (doc sample_results) p = Some e ->
      p <> [1; 2; 0; 0; 0; 2]%nat -> p <> [1; 2; 0; 0; 0; 3]%nat ->
      elem_at (doc s') p = Some (
        if is_result e
        then setDisplay (if bool_decide (search_key (js "Wri") `prefix_of` row_match_name e)
                         then "block" else "none") e
        else e)) /\
    lastMatchCount (Page.searchResults s') = size (matching (search_key (js "Wri")) (doc sample_results)) /\
    (forall e, elem_at (doc s') [1; 2; 0; 0; 0; 2]%nat = Some e -> display e = js "none") /\
    (forall e, elem_at (doc s') [1; 2; 0; 0; 0; 3]%nat = Some e ->
      (display e = js "block" <-> matching (search_key (js "Wri")) (doc sample_results) = [])).
Proof. apply Search_shows_matching_rows; vm_compute; reflexivity. Defined.

Lemma created_row_matches_witness :
  let q := toLowerCase (strip_trailing (strip_leading (js " Write_frame! "))) in
  exists e kids, result_row (js "search/") 0
      {| entry_id := js "write_5fframe_21"; title := js "write_frame"; places := [] |} = Element e kids /\
    is_result e = true /\
    (search_key (js " Write_frame! ") `prefix_of` row_match_name e <->
     q `prefix_of` js "write_frame" \/
     exists c h l rest, q = js "write_frame" ++ c :: rest /\ convertChar c = [95; h; l] /\
       h :: l :: rest `prefix_of` js_dec 21).
Proof.
  apply (created_row_matches (js "search/") 0
    {| entry_id := js "write_5fframe_21"; title := js "write_frame"; places := [] |}
    (js "write_frame") 21 (js " Write_frame! ")); (done || decide_now || (vm_compute; reflexivity)).
Defined.

Lemma NavNext_first_visible_witness :
  (exists r, NavNext (doc sample_results) 0 = Normal r /\ nav_result 1 (doc sample_results) 0 r) /\
  (exists r, NavPrev (doc sample_results) 1 = Normal r /\ nav_result (-1) (doc sample_results) 1 r).
Proof.
  split; apply NavNext_first_visible; apply items_below_in_rows; vm_compute; reflexivity.
Defined.
