(* ===== verification/SearchData.v ===== *)
(** The search index of the documentation pages: the tables of [search/searchdata.js] and the
    entries of the files [search/all_0.js] to [search/all_21.js], which are those of the section
    "all". The entries are the data of these files as they are; strings are stored as UTF-8. *)

From S2P Require Import Prelude TextFormat JsCore Page.

Definition entry_of (id title : string) (places : list place) : entry :=
  {| entry_id := js8 id; title := js8 title; places := places |}.
Definition place_of (href : string) (in_parent : bool) (scope : string) : place :=
  {| href := js8 href; in_parent := in_parent; scope := js8 scope |}.

(** ** [searchdata.js] *)

(** The objects have the keys 0 to 10 in this order. *)
Definition indexSectionsWithContent : list jsstring :=
  [js8 "123456789abcdefghijklmnopqrstuvw~—";
   js8 "abdfglnoprst";
   js8 "s";
   js8 "abcfglnprstv";
   js8 "abcdefgiklmnoprstvw~";
   js8 "abcdefhlmnopqrstuvw";
   js8 "abft";
   js8 "aflopst";
   js8 "abcdeijlmnoprstuw";
   js8 "a";
   js8 "cdegprstv—"].

Definition indexSectionNames : list jsstring :=
  [js8 "all";
   js8 "classes";
   js8 "namespaces";
   js8 "files";
   js8 "functions";
   js8 "variables";
   js8 "typedefs";
   js8 "enums";
   js8 "enumvalues";
   js8 "defines";
   js8 "pages"].

Definition indexSectionLabels : list jsstring :=
  [js8 "All";
   js8 "Classes";
   js8 "Namespaces";
   js8 "Files";
   js8 "Functions";
   js8 "Variables";
   js8 "Typedefs";
   js8 "Enumerations";
   js8 "Enumerator";
   js8 "Macros";
   js8 "Pages"].

(** ** The files of the section "all" *)

Definition all_0 : list entry :=
  [entry_of "1_20build_20confidence_20first_0" "1. Build confidence first" [place_of "../md_docs_2SHOWCASE__GUIDE.html#autotoc_md15" true ""];
   entry_of "1_20live_20tcp_20telemetry_1" "1. Live TCP telemetry" [place_of "../md_README.html#autotoc_md57" true ""];
   entry_of "1_20scope_2" "1. Scope" [place_of "../md_docs_2PERFORMANCE__REPORT.html#autotoc_md1" true ""];
   entry_of "1_20scope_20and_20intent_3" "1. Scope and intent" [place_of "../md_docs_2TECHNICAL__DESIGN.html#autotoc_md24" true ""];
   entry_of "10_20health_20monitoring_4" "10. Health monitoring" [place_of "../md_README.html#autotoc_md67" true ""];
   entry_of "10_20signal_20generation_20noise_20and_20filtering_5" "10. Signal generation, noise and filtering" [place_of "../md_docs_2TECHNICAL__DESIGN.html#autotoc_md33" true ""];
   entry_of "11_20port_20diagnostics_6" "11. Port diagnostics" [place_of "../md_docs_2TECHNICAL__DESIGN.html#autotoc_md34" true ""];
   entry_of "11_20testing_20and_20sanitizers_7" "11. Testing and sanitizers" [place_of "../md_README.html#autotoc_md68" true ""];
   entry_of "12_20benchmark_8" "12. Benchmark" [place_of "../md_README.html#autotoc_md69" true ""];
   entry_of "12_20terminal_20observability_9" "12. Terminal observability" [place_of "../md_docs_2TECHNICAL__DESIGN.html#autotoc_md35" true ""];
   entry_of "13_20health_20monitoring_20and_20hysteresis_10" "13. Health monitoring and hysteresis" [place_of "../md_docs_2TECHNICAL__DESIGN.html#autotoc_md36" true ""];
   entry_of "14_20stgf_20replay_11" "14. STGF replay" [place_of "../md_docs_2TECHNICAL__DESIGN.html#autotoc_md37" true ""];
   entry_of "15_20error_20model_12" "15. Error model" [place_of "../md_docs_2TECHNICAL__DESIGN.html#autotoc_md38" true ""];
   entry_of "16_20testing_20strategy_13" "16. Testing strategy" [place_of "../md_docs_2TECHNICAL__DESIGN.html#autotoc_md39" true ""];
   entry_of "17_20performance_20philosophy_14" "17. Performance philosophy" [place_of "../md_docs_2TECHNICAL__DESIGN.html#autotoc_md40" true ""];
   entry_of "18_20deliberate_20limitations_15" "18. Deliberate limitations" [place_of "../md_docs_2TECHNICAL__DESIGN.html#autotoc_md41" true ""]].

Definition all_1 : list entry :=
  [entry_of "2_20automatic_20local_20port_20selection_20and_20diagnostics_0" "2. Automatic local port selection and diagnostics" [place_of "../md_README.html#autotoc_md58" true ""];
   entry_of "2_20benchmark_20command_1" "2. Benchmark command" [place_of "../md_docs_2PERFORMANCE__REPORT.html#autotoc_md2" true ""];
   entry_of "2_20layered_20architecture_2" "2. Layered architecture" [place_of "../md_docs_2TECHNICAL__DESIGN.html#autotoc_md25" true ""];
   entry_of "2_20start_20a_20station_20without_20manually_20choosing_20a_20port_3" "2. Start a station without manually choosing a port" [place_of "../md_docs_2SHOWCASE__GUIDE.html#autotoc_md16" true ""]].

Definition all_2 : list entry :=
  [entry_of "3_20diagnose_20the_20local_20range_0" "3. Diagnose the local range" [place_of "../md_docs_2SHOWCASE__GUIDE.html#autotoc_md17" true ""];
   entry_of "3_20reference_20measurements_1" "3. Reference measurements" [place_of "../md_docs_2PERFORMANCE__REPORT.html#autotoc_md3" true ""];
   entry_of "3_20send_20and_20display_20a_20text_20message_2" "3. Send and display a text message" [place_of "../md_README.html#autotoc_md59" true ""];
   entry_of "3_20stgs_20v1_20wire_20format_3" "3. STGS v1 wire format" [place_of "../md_docs_2TECHNICAL__DESIGN.html#autotoc_md26" true ""];
   entry_of "32_20iso_20hdlc_4" "4. CRC-32/ISO-HDLC" [place_of "../md_docs_2TECHNICAL__DESIGN.html#autotoc_md27" true ""]].

Definition all_3 : list entry :=
  [entry_of "4_20crc_2032_20iso_20hdlc_0" "4. CRC-32/ISO-HDLC" [place_of "../md_docs_2TECHNICAL__DESIGN.html#autotoc_md27" true ""];
   entry_of "4_20interpretation_1" "4. Interpretation" [place_of "../md_docs_2PERFORMANCE__REPORT.html#autotoc_md4" true ""];
   entry_of "4_20send_20a_20message_2" "4. Send a message" [place_of "../md_docs_2SHOWCASE__GUIDE.html#autotoc_md18" true ""];
   entry_of "4_20send_20a_20noisy_20wave_20and_20filter_20it_3" "4. Send a noisy wave and filter it" [place_of "../md_README.html#autotoc_md60" true ""]].

Definition all_4 : list entry :=
  [entry_of "5_20frame_20decoding_20policy_0" "5. Frame decoding policy" [place_of "../md_docs_2TECHNICAL__DESIGN.html#autotoc_md28" true ""];
   entry_of "5_20reproducibility_20checklist_1" "5. Reproducibility checklist" [place_of "../md_docs_2PERFORMANCE__REPORT.html#autotoc_md5" true ""];
   entry_of "5_20send_20a_20noisy_20sampled_20wave_2" "5. Send a noisy sampled wave" [place_of "../md_docs_2SHOWCASE__GUIDE.html#autotoc_md19" true ""];
   entry_of "5_20udp_20telemetry_3" "5. UDP telemetry" [place_of "../md_README.html#autotoc_md61" true ""]].

Definition all_5 : list entry :=
  [entry_of "6_20capture_20and_20replay_0" "6. Capture and replay" [place_of "../md_README.html#autotoc_md62" true ""];
   entry_of "6_20demonstrate_20deterministic_20concurrency_1" "6. Demonstrate deterministic concurrency" [place_of "../md_docs_2SHOWCASE__GUIDE.html#autotoc_md20" true ""];
   entry_of "6_20udp_20behavior_2" "6. UDP behavior" [place_of "../md_docs_2TECHNICAL__DESIGN.html#autotoc_md29" true ""]].

Definition all_6 : list entry :=
  [entry_of "7_20deterministic_20multithreaded_20pipeline_0" "7. Deterministic multithreaded pipeline" [place_of "../md_README.html#autotoc_md63" true ""];
   entry_of "7_20tcp_20behavior_20and_20the_20poll_20snapshot_20invariant_1" "7. TCP behavior and the poll snapshot invariant" [place_of "../md_docs_2TECHNICAL__DESIGN.html#autotoc_md30" true ""];
   entry_of "7_20useful_20discussion_20points_2" "7. Useful discussion points" [place_of "../md_docs_2SHOWCASE__GUIDE.html#autotoc_md21" true ""]].

Definition all_7 : list entry :=
  [entry_of "8_20binary_20protocol_3a_20stgs_20v1_0" "8. Binary protocol: STGS v1" [place_of "../md_README.html#autotoc_md64" true ""];
   entry_of "8_20bounded_20concurrent_20pipeline_20and_20deterministic_20output_1" "8. Bounded concurrent pipeline and deterministic output" [place_of "../md_docs_2TECHNICAL__DESIGN.html#autotoc_md31" true ""];
   entry_of "8_20scope_20statement_2" "8. Scope statement" [place_of "../md_docs_2SHOWCASE__GUIDE.html#autotoc_md22" true ""]].

Definition all_8 : list entry :=
  [entry_of "9_20stga_20application_20payload_0" "9. STGA application payload" [place_of "../md_docs_2TECHNICAL__DESIGN.html#autotoc_md32" true ""];
   entry_of "9_20typed_20application_20payload_3a_20stga_20v1_1" "9. Typed application payload: STGA v1" [place_of "../md_README.html#autotoc_md66" true ""]].

Definition all_9 : list entry :=
  [entry_of "a_20message_0" "4. Send a message" [place_of "../md_docs_2SHOWCASE__GUIDE.html#autotoc_md18" true ""];
   entry_of "a_20noisy_20sampled_20wave_1" "5. Send a noisy sampled wave" [place_of "../md_docs_2SHOWCASE__GUIDE.html#autotoc_md19" true ""];
   entry_of "a_20noisy_20wave_20and_20filter_20it_2" "4. Send a noisy wave and filter it" [place_of "../md_README.html#autotoc_md60" true ""];
   entry_of "a_20station_20without_20manually_20choosing_20a_20port_3" "2. Start a station without manually choosing a port" [place_of "../md_docs_2SHOWCASE__GUIDE.html#autotoc_md16" true ""];
   entry_of "a_20text_20message_4" "3. Send and display a text message" [place_of "../md_README.html#autotoc_md59" true ""];
   entry_of "analyse_20statique_20complémentaire_5" "Analyse statique complémentaire" [place_of "../md_docs_2VERIFICATION__REPORT.html#autotoc_md47" true ""];
   entry_of "and_20deterministic_20output_6" "8. Bounded concurrent pipeline and deterministic output" [place_of "../md_docs_2TECHNICAL__DESIGN.html#autotoc_md31" true ""];
   entry_of "and_20diagnostics_7" "2. Automatic local port selection and diagnostics" [place_of "../md_README.html#autotoc_md58" true ""];
   entry_of "and_20display_20a_20text_20message_8" "3. Send and display a text message" [place_of "../md_README.html#autotoc_md59" true ""];
   entry_of "and_20filter_20it_9" "4. Send a noisy wave and filter it" [place_of "../md_README.html#autotoc_md60" true ""];
   entry_of "and_20filtering_10" "10. Signal generation, noise and filtering" [place_of "../md_docs_2TECHNICAL__DESIGN.html#autotoc_md33" true ""];
   entry_of "and_20hysteresis_11" "13. Health monitoring and hysteresis" [place_of "../md_docs_2TECHNICAL__DESIGN.html#autotoc_md36" true ""];
   entry_of "and_20intent_12" "1. Scope and intent" [place_of "../md_docs_2TECHNICAL__DESIGN.html#autotoc_md24" true ""];
   entry_of "and_20replay_13" "6. Capture and replay" [place_of "../md_README.html#autotoc_md62" true ""];
   entry_of "and_20sanitizers_14" "11. Testing and sanitizers" [place_of "../md_README.html#autotoc_md68" true ""];
   entry_of "and_20the_20poll_20snapshot_20invariant_15" "7. TCP behavior and the poll snapshot invariant" [place_of "../md_docs_2TECHNICAL__DESIGN.html#autotoc_md30" true ""];
   entry_of "appendfloatbe_16" "appendFloatBE" [place_of "../namespacestgs_1_1detail.html#aaa3c420d8f0978f8552479c0ad1ec915" true "stgs::detail"];
   entry_of "appendu16be_17" "appendU16BE" [place_of "../namespacestgs_1_1detail.html#a3562b4e5b96b0bda2897b0f5825781b9" true "stgs::detail"];
   entry_of "appendu32be_18" "appendU32BE" [place_of "../namespacestgs_1_1detail.html#a423df63e483c463ac6f72b4bb82bd2ca" true "stgs::detail"];
   entry_of "appendu64be_19" "appendU64BE" [place_of "../namespacestgs_1_1detail.html#a000ee99a480982ea130c1d18ec722c27" true "stgs::detail"];
   entry_of "appendu8_20" "appendU8" [place_of "../namespacestgs_1_1detail.html#a536b35bbdc62402256e05df0084dd249" true "stgs::detail"];
   entry_of "application_20payload_21" "9. STGA application payload" [place_of "../md_docs_2TECHNICAL__DESIGN.html#autotoc_md32" true ""];
   entry_of "application_20payload_3a_20stga_20v1_22" "9. Typed application payload: STGA v1" [place_of "../md_README.html#autotoc_md66" true ""];
   entry_of "applicationcommonheadersize_23" "ApplicationCommonHeaderSize" [place_of "../namespacestgs.html#a2e3dc2924fb8e0de0ae5b67bda4c38d3" true "stgs"];
   entry_of "applicationerrors_24" "applicationErrors" [place_of "../structstgs_1_1app_1_1ground__station_1_1PipelineStats.html#a1567030b61f851fb3ef04cd92e408df9" true "stgs::app::ground_station::PipelineStats"];
   entry_of "applicationpayload_2ecpp_25" "ApplicationPayload.cpp" [place_of "../ApplicationPayload_8cpp.html" true ""];
   entry_of "applicationpayload_2ehpp_26" "ApplicationPayload.hpp" [place_of "../ApplicationPayload_8hpp.html" true ""];
   entry_of "applicationpayloaderror_27" "ApplicationPayloadError" [place_of "../structstgs_1_1ApplicationPayloadError.html" true "stgs"];
   entry_of "applicationpayloaderrorcode_28" "ApplicationPayloadErrorCode" [place_of "../namespacestgs.html#a2aa48089627d210628f45038315de28a" true "stgs"];
   entry_of "applicationpayloaderrortostring_29" "applicationPayloadErrorToString" [place_of "../namespacestgs.html#a45a2c8095b5dbfef861d3de94fa3e602" true "stgs"];
   entry_of "applicationpayloadkind_30" "ApplicationPayloadKind" [place_of "../namespacestgs.html#a9bdca5c4652fbfd0ea0d649134cc5e2b" true "stgs"];
   entry_of "applicationpayloadkindtostring_31" "applicationPayloadKindToString" [place_of "../namespacestgs.html#a2e4fd8961dc20cc4ae5ae5380ff0c844" true "stgs"];
   entry_of "applicationpayloadmagic_32" "ApplicationPayloadMagic" [place_of "../namespacestgs.html#aeb984907d57236b459c47b678da2e3d1" true "stgs"];
   entry_of "applicationpayloadparseresult_33" "ApplicationPayloadParseResult" [place_of "../namespacestgs.html#af72d489e108e26381191465a90440b38" true "stgs"];
   entry_of "applicationpayloadversion_34" "ApplicationPayloadVersion" [place_of "../namespacestgs.html#a3c4b724804004d0cbbfa346f7fb312fb" true "stgs"];
   entry_of "architecture_35" "2. Layered architecture" [place_of "../md_docs_2TECHNICAL__DESIGN.html#autotoc_md25" true ""];
   entry_of "assert_5feq_36" "ASSERT_EQ" [place_of "../TestSupport_8hpp.html#a9cc34fd87cb865c77439a5d39b3b111b" true "TestSupport.hpp"];
   entry_of "assert_5ftrue_37" "ASSERT_TRUE" [place_of "../TestSupport_8hpp.html#a305a7326a1f4f59bbcafcb3e35a732c7" true "TestSupport.hpp"];
   entry_of "assertnear_38" "assertNear" [place_of "../namespacestgs_1_1test.html#a62f6702850246418454bd7aa025ded9a" true "stgs::test"];
   entry_of "assertthrows_39" "assertThrows" [place_of "../namespacestgs_1_1test.html#ad1656bd9c6bdcbc93e9b8f369a4ffe65" true "stgs::test"];
   entry_of "assumées_40" "Limites assumées" [place_of "../md_docs_2VERIFICATION__REPORT.html#autotoc_md52" true ""];
   entry_of "asyncfailure_41" "AsyncFailure" [place_of "../classstgs_1_1app_1_1ground__station_1_1AsyncFailure.html" true "stgs::app::ground_station"];
   entry_of "auto_42" "Auto" [place_of "../namespacestgs_1_1app_1_1ground__station.html#a674f76aa6255d0fb1ffec19ffc6be19da06b9281e396db002010bde1de57262eb" true "stgs::app::ground_station"];
   entry_of "automatic_20local_20port_20selection_20and_20diagnostics_43" "2. Automatic local port selection and diagnostics" [place_of "../md_README.html#autotoc_md58" true ""];
   entry_of "autoportrange_44" "autoPortRange" [place_of "../structstgs_1_1app_1_1ground__station_1_1Options.html#a587544c291359aad7f39477a4c9e2bf6" true "stgs::app::ground_station::Options"];
   entry_of "available_45" "available" [place_of "../structstgs_1_1LocalPortAvailability.html#a67e52677b66d8d2712ea79ad89cf86fa" true "stgs::LocalPortAvailability"]].

Definition all_a : list entry :=
  [entry_of "badcrc_0" "BadCrc" [place_of "../namespacestgs.html#a6c3c97c875363adab257eb270bb20f14a63afce0aa4ad8e31dbdfc57d15771a1c" true "stgs"];
   entry_of "badmagic_1" "BadMagic" [place_of "../namespacestgs.html#a6c3c97c875363adab257eb270bb20f14ac87c2d41af62cc035e76f90e0f889e4f" true "stgs"];
   entry_of "batteryoffset_2" "BatteryOffset" [place_of "../namespacestgs.html#aceda3f1abf5c9b9a85133a4566b455c1" true "stgs"];
   entry_of "batterypercent_3" "batteryPercent" [place_of "../structstgs_1_1TelemetryFrame.html#a02c7ba32d96eb0fea578eefac2cc8d6f" true "stgs::TelemetryFrame"];
   entry_of "behavior_4" "6. UDP behavior" [place_of "../md_docs_2TECHNICAL__DESIGN.html#autotoc_md29" true ""];
   entry_of "behavior_20and_20the_20poll_20snapshot_20invariant_5" "7. TCP behavior and the poll snapshot invariant" [place_of "../md_docs_2TECHNICAL__DESIGN.html#autotoc_md30" true ""];
   entry_of "benchmark_6" "benchmark" [place_of "../md_README.html#autotoc_md69" true "12. Benchmark"; place_of "../md_docs_2README__DOCUMENTATION.html#autotoc_md11" true "Build, tests, diagnostic et benchmark"];
   entry_of "benchmark_20command_7" "2. Benchmark command" [place_of "../md_docs_2PERFORMANCE__REPORT.html#autotoc_md2" true ""];
   entry_of "benchmark_20de_20contrôle_8" "Benchmark de contrôle" [place_of "../md_docs_2VERIFICATION__REPORT.html#autotoc_md51" true ""];
   entry_of "benchmark_5fdecode_2ecpp_9" "benchmark_decode.cpp" [place_of "../benchmark__decode_8cpp.html" true ""];
   entry_of "binary_20protocol_3a_20stgs_20v1_10" "8. Binary protocol: STGS v1" [place_of "../md_README.html#autotoc_md64" true ""];
   entry_of "bindaddress_11" "bindaddress" [place_of "../structstgs_1_1NetworkConfig.html#af526151af5d29d05947a1ed99f781749" true "stgs::NetworkConfig::bindAddress"; place_of "../structstgs_1_1app_1_1ground__station_1_1Options.html#a69dadf7f1603c0332a2b4a210ab8332d" true "stgs::app::ground_station::Options::bindAddress"];
   entry_of "blockingqueue_12" "blockingqueue" [place_of "../classstgs_1_1BlockingQueue.html#acc6b8fc0643c9a0056a9c289a6b9bcba" true "stgs::BlockingQueue::BlockingQueue(const BlockingQueue &amp;)=delete"; place_of "../classstgs_1_1BlockingQueue.html#a338b6b942f4ccf56cf64e754433e76fc" true "stgs::BlockingQueue::BlockingQueue(std::size_t capacity=0U)"; place_of "../classstgs_1_1BlockingQueue.html" true "stgs::BlockingQueue&lt; T &gt;"];
   entry_of "blockingqueue_2ehpp_13" "BlockingQueue.hpp" [place_of "../BlockingQueue_8hpp.html" true ""];
   entry_of "blockingqueue_3c_20stgs_3a_3aapp_3a_3aground_5fstation_3a_3adecodedworkitem_20_3e_14" "BlockingQueue&lt; stgs::app::ground_station::DecodedWorkItem &gt;" [place_of "../classstgs_1_1BlockingQueue.html" true "stgs"];
   entry_of "blockingqueue_3c_20stgs_3a_3aapp_3a_3aground_5fstation_3a_3arawworkitem_20_3e_15" "BlockingQueue&lt; stgs::app::ground_station::RawWorkItem &gt;" [place_of "../classstgs_1_1BlockingQueue.html" true "stgs"];
   entry_of "bounded_20concurrent_20pipeline_20and_20deterministic_20output_16" "8. Bounded concurrent pipeline and deterministic output" [place_of "../md_docs_2TECHNICAL__DESIGN.html#autotoc_md31" true ""];
   entry_of "bufferedbytes_17" "bufferedBytes" [place_of "../classstgs_1_1StreamFrameExtractor.html#a4c8db84b6856dc01b744e7fce8c8df14" true "stgs::StreamFrameExtractor"];
   entry_of "build_18" "Build" [place_of "../md_README.html#autotoc_md56" true ""];
   entry_of "build_20confidence_20first_19" "1. Build confidence first" [place_of "../md_docs_2SHOWCASE__GUIDE.html#autotoc_md15" true ""];
   entry_of "build_20tests_20diagnostic_20et_20benchmark_20" "Build, tests, diagnostic et benchmark" [place_of "../md_docs_2README__DOCUMENTATION.html#autotoc_md11" true ""];
   entry_of "bytemask_21" "ByteMask" [place_of "../namespacestgs_1_1detail.html#aa375565c0fc4c92865ea298dba3b6691" true "stgs::detail"];
   entry_of "bytes_22" "bytes" [place_of "../structstgs_1_1app_1_1ground__station_1_1RawWorkItem.html#a32c01440dff1d6c5d5f1bdd55f3905c9" true "stgs::app::ground_station::RawWorkItem"];
   entry_of "byteutils_2ehpp_23" "ByteUtils.hpp" [place_of "../ByteUtils_8hpp.html" true ""];
   entry_of "bytevector_24" "ByteVector" [place_of "../namespacestgs.html#ad5ffad61c84bc02fa03a4d2c7f7e8305" true "stgs"]].

Definition all_b : list entry :=
  [entry_of "c_20space_20telemetry_20ground_20station_0" "C++ Space Telemetry Ground Station" [place_of "../md_README.html" true ""];
   entry_of "capacity_1" "capacity" [place_of "../classstgs_1_1BlockingQueue.html#a4d54b73a85423f1b7a0b0b698cc376da" true "stgs::BlockingQueue"];
   entry_of "capture_2" "capture" [place_of "../classstgs_1_1app_1_1ground__station_1_1AsyncFailure.html#ab1b3fc6da1eb73cbd36e1c04889e1007" true "stgs::app::ground_station::AsyncFailure"];
   entry_of "capture_20and_20replay_3" "6. Capture and replay" [place_of "../md_README.html#autotoc_md62" true ""];
   entry_of "checklist_4" "5. Reproducibility checklist" [place_of "../md_docs_2PERFORMANCE__REPORT.html#autotoc_md5" true ""];
   entry_of "checklocalportavailability_5" "checkLocalPortAvailability" [place_of "../namespacestgs.html#a9e3558ccc5cda76fa7ac8e5cf36b8fa8" true "stgs"];
   entry_of "choosing_20a_20port_6" "2. Start a station without manually choosing a port" [place_of "../md_docs_2SHOWCASE__GUIDE.html#autotoc_md16" true ""];
   entry_of "clear_7" "clear" [place_of "../classstgs_1_1StreamFrameExtractor.html#a7c82f4ef262914570a4348018fc4c682" true "stgs::StreamFrameExtractor"];
   entry_of "cliparsing_2ehpp_8" "CliParsing.hpp" [place_of "../CliParsing_8hpp.html" true ""];
   entry_of "close_9" "close" [place_of "../classstgs_1_1BlockingQueue.html#a0ce71abdabe34acee62faab0c9dafdb7" true "stgs::BlockingQueue"];
   entry_of "closed_10" "closed" [place_of "../classstgs_1_1BlockingQueue.html#a98ce70a8b9c95832b02a124c2a1eb15a" true "stgs::BlockingQueue::closed()"; place_of "../namespacestgs.html#ab73dc2ebbed2d6799b14a329f2e691cca03f4a47830f97377a35321051685071e" true "stgs::Closed"];
   entry_of "code_11" "code" [place_of "../structstgs_1_1FrameError.html#adbf564bd743a3e37a6585723874e0574" true "stgs::FrameError::code"; place_of "../structstgs_1_1ApplicationPayloadError.html#a181d2c642bbe9366301b8952c4ef9390" true "stgs::ApplicationPayloadError::code"; place_of "../md_README.html#autotoc_md71" true "Design principles visible in the code"];
   entry_of "color_12" "color" [place_of "../structstgs_1_1app_1_1simulator_1_1Options.html#a6a007eb396ee2c2901b30fc51e541fc2" true "stgs::app::simulator::Options::color"; place_of "../structstgs_1_1app_1_1ground__station_1_1Options.html#a5da80e2a4b6aec6fd1af71cf827a571d" true "stgs::app::ground_station::Options::color"];
   entry_of "colorsenabled_13" "colorsEnabled" [place_of "../classstgs_1_1TerminalUi.html#afbe82d671c9e48c048bb990312e1eb76" true "stgs::TerminalUi"];
   entry_of "command_14" "2. Benchmark command" [place_of "../md_docs_2PERFORMANCE__REPORT.html#autotoc_md2" true ""];
   entry_of "commandes_20principales_20couvertes_15" "Commandes principales couvertes" [place_of "../md_docs_2README__DOCUMENTATION.html#autotoc_md8" true ""];
   entry_of "compilation_20stricte_16" "Compilation stricte" [place_of "../md_docs_2VERIFICATION__REPORT.html#autotoc_md44" true ""];
   entry_of "complémentaire_17" "Analyse statique complémentaire" [place_of "../md_docs_2VERIFICATION__REPORT.html#autotoc_md47" true ""];
   entry_of "computesignalmetrics_18" "computeSignalMetrics" [place_of "../namespacestgs.html#a28ae1709832b8407892d8d3b767cae0d" true "stgs"];
   entry_of "concurrency_19" "6. Demonstrate deterministic concurrency" [place_of "../md_docs_2SHOWCASE__GUIDE.html#autotoc_md20" true ""];
   entry_of "concurrent_20pipeline_20and_20deterministic_20output_20" "8. Bounded concurrent pipeline and deterministic output" [place_of "../md_docs_2TECHNICAL__DESIGN.html#autotoc_md31" true ""];
   entry_of "confidence_20first_21" "1. Build confidence first" [place_of "../md_docs_2SHOWCASE__GUIDE.html#autotoc_md15" true ""];
   entry_of "connectloopback_22" "connectLoopback" [place_of "../namespacestgs_1_1test.html#adf387066d23f3f075e40f1a1911172ea" true "stgs::test"];
   entry_of "contrôle_23" "contrôle" [place_of "../md_docs_2VERIFICATION__REPORT.html#autotoc_md51" true "Benchmark de contrôle"; place_of "../md_docs_2VERIFICATION__REPORT.html#autotoc_md43" true "Environnement de contrôle"];
   entry_of "corruptprobability_24" "corruptProbability" [place_of "../structstgs_1_1app_1_1simulator_1_1Options.html#a4a5522996fbd3380b527ce02d8ed9e19" true "stgs::app::simulator::Options"];
   entry_of "coscoefficient_25" "cosCoefficient" [place_of "../SignalProcessing_8cpp.html#a0ca6c78a79e2c23159b81c2c23da827a" true "SignalProcessing.cpp"];
   entry_of "count_26" "count" [place_of "../structstgs_1_1PortRange.html#a7cfeaa08040db1b19a5906537fb263e2" true "stgs::PortRange::count()"; place_of "../structstgs_1_1app_1_1simulator_1_1Options.html#a21d2ca0623d70e2e050c951144724d60" true "stgs::app::simulator::Options::count"];
   entry_of "countexplicit_27" "countExplicit" [place_of "../structstgs_1_1app_1_1simulator_1_1Options.html#aaf5366a0d3e7f8cff0c9104efbd45018" true "stgs::app::simulator::Options"];
   entry_of "couvertes_28" "Commandes principales couvertes" [place_of "../md_docs_2README__DOCUMENTATION.html#autotoc_md8" true ""];
   entry_of "crc_2032_20iso_20hdlc_29" "4. CRC-32/ISO-HDLC" [place_of "../md_docs_2TECHNICAL__DESIGN.html#autotoc_md27" true ""];
   entry_of "crc_20parameters_30" "CRC parameters" [place_of "../md_README.html#autotoc_md65" true ""];
   entry_of "crc32_31" "crc32" [place_of "../namespacestgs.html#a0dfeb4a19f1b73b44a2b0bb9ea498e88" true "stgs::crc32(std::string_view text) noexcept"; place_of "../namespacestgs.html#a6b24ed28e7cb67e90a0d801ea9602534" true "stgs::crc32(std::span&lt; const std::uint8_t &gt; bytes) noexcept"];
   entry_of "crc32_2ecpp_32" "Crc32.cpp" [place_of "../Crc32_8cpp.html" true ""];
   entry_of "crc32_2ehpp_33" "Crc32.hpp" [place_of "../Crc32_8hpp.html" true ""];
   entry_of "crc32check123456789_34" "Crc32Check123456789" [place_of "../namespacestgs.html#a5594cb785adddb5af16c0f7f298a6225" true "stgs"];
   entry_of "crc32finalxor_35" "Crc32FinalXor" [place_of "../namespacestgs.html#a0a35ad0fca0eff1e50c4b551a823720d" true "stgs"];
   entry_of "crc32initialvalue_36" "Crc32InitialValue" [place_of "../namespacestgs.html#a74c109e159b49bd03f8ebeb529bf1226" true "stgs"];
   entry_of "crc32polynomial_37" "Crc32Polynomial" [place_of "../namespacestgs.html#a4c3cf84a665a74aca60d79d2720cdd44" true "stgs"];
   entry_of "crc32reflectedpolynomial_38" "Crc32ReflectedPolynomial" [place_of "../namespacestgs.html#ad872c0cffd61ccff234a327a86d8aebb" true "stgs"];
   entry_of "crcsize_39" "CrcSize" [place_of "../namespacestgs.html#a2af9dce4ca0370f9f2df450a9aa03ef4" true "stgs"];
   entry_of "createsocket_40" "createSocket" [place_of "../namespacestgs_1_1app_1_1simulator.html#a52d860dedba944beac4909c45084bbad" true "stgs::app::simulator"];
   entry_of "critical_41" "critical" [place_of "../namespacestgs.html#a61ca9382bebac8640e15d2338a9eb8afa278d01e5af56273bae1bb99a98b370cd" true "stgs::Critical"; place_of "../structstgs_1_1StationHealthSnapshot.html#ad809a3e3dda1d2320dff3c1286ff3dc0" true "stgs::StationHealthSnapshot::critical"];
   entry_of "criticalframesfordegraded_42" "criticalFramesForDegraded" [place_of "../structstgs_1_1StationHealthConfig.html#a3bf12ea3a9fa4e94146270086722405b" true "stgs::StationHealthConfig"];
   entry_of "criticalframesforrecovery_43" "criticalFramesForRecovery" [place_of "../structstgs_1_1StationHealthConfig.html#aa17b2f19b81f73f2176aec8d2f4e0fe2" true "stgs::StationHealthConfig"];
   entry_of "csv_44" "Csv" [place_of "../namespacestgs_1_1app_1_1ground__station.html#a674f76aa6255d0fb1ffec19ffc6be19dab20daea8bfacec3891fcf5b7be4adca0" true "stgs::app::ground_station"]].

Definition all_c : list entry :=
  [entry_of "découpage_20modulaire_0" "Découpage modulaire" [place_of "../md_docs_2VERIFICATION__REPORT.html#autotoc_md48" true ""];
   entry_of "déterminisme_20et_20formats_20de_20sortie_1" "Déterminisme et formats de sortie" [place_of "../md_docs_2VERIFICATION__REPORT.html#autotoc_md50" true ""];
   entry_of "d_20execution_2" "STGS - Documentation d&apos;execution" [place_of "../md_docs_2README__DOCUMENTATION.html" true ""];
   entry_of "d_20intégration_3" "Tests unitaires et d&apos;intégration" [place_of "../md_docs_2VERIFICATION__REPORT.html#autotoc_md45" true ""];
   entry_of "dc_4" "dc" [place_of "../SignalProcessing_8cpp.html#af198a5882da491a016df14cac18b2856" true "SignalProcessing.cpp"];
   entry_of "de_20contrôle_5" "de contrôle" [place_of "../md_docs_2VERIFICATION__REPORT.html#autotoc_md51" true "Benchmark de contrôle"; place_of "../md_docs_2VERIFICATION__REPORT.html#autotoc_md43" true "Environnement de contrôle"];
   entry_of "de_20sortie_6" "Déterminisme et formats de sortie" [place_of "../md_docs_2VERIFICATION__REPORT.html#autotoc_md50" true ""];
   entry_of "de_20vérification_20stgs_20—_20version_20vitrine_7" "Rapport de vérification STGS — version vitrine" [place_of "../md_docs_2VERIFICATION__REPORT.html" true ""];
   entry_of "debug_8" "debug" [place_of "../namespacestgs.html#a2b4a335983593d5d8d599d58cd7ee203aa603905470e2a5b8c13e96b579ef0dba" true "stgs::Debug"; place_of "../classstgs_1_1Logger.html#a7b1647059e095774d43512bd0ade1000" true "stgs::Logger::debug()"];
   entry_of "decodeapplicationpayload_9" "decodeApplicationPayload" [place_of "../namespacestgs.html#af8f13007bacb6d468b61280260ae8daf" true "stgs"];
   entry_of "decoded_10" "decoded" [place_of "../structstgs_1_1app_1_1ground__station_1_1PipelineStats.html#a7feafbe2ebe0825cca6774b1844b1338" true "stgs::app::ground_station::PipelineStats"];
   entry_of "decodedworkitem_11" "DecodedWorkItem" [place_of "../structstgs_1_1app_1_1ground__station_1_1DecodedWorkItem.html" true "stgs::app::ground_station"];
   entry_of "decodeframe_12" "decodeFrame" [place_of "../namespacestgs.html#abfa6635744db7019364480e2614afb32" true "stgs"];
   entry_of "decoderthreads_13" "decoderThreads" [place_of "../structstgs_1_1app_1_1ground__station_1_1Options.html#aacf3f4c2c1eeafe942e76470baea35c8" true "stgs::app::ground_station::Options"];
   entry_of "decoding_20policy_14" "5. Frame decoding policy" [place_of "../md_docs_2TECHNICAL__DESIGN.html#autotoc_md28" true ""];
   entry_of "defaultnetworkpolltimeoutms_15" "DefaultNetworkPollTimeoutMs" [place_of "../namespacestgs.html#a9b83d5fba556317dfed190570a657a15" true "stgs"];
   entry_of "defaultpayloadpreviewbytes_16" "DefaultPayloadPreviewBytes" [place_of "../namespacestgs.html#a15a874151f361a28fc4b701a20b936cb" true "stgs"];
   entry_of "defaultportprobetimeout_17" "DefaultPortProbeTimeout" [place_of "../namespacestgs.html#a769fad3e0dd24b61146242b3beabfe49" true "stgs"];
   entry_of "defaulttelemetryport_18" "DefaultTelemetryPort" [place_of "../namespacestgs.html#ab3eaa01404f6ebd84c9265bc3413a187" true "stgs"];
   entry_of "degraded_19" "Degraded" [place_of "../namespacestgs.html#af145a1e8f5e0f55d9178bafa1faacb7eaaa95669cd5732a57e8f6467705f06642" true "stgs"];
   entry_of "degradedrejectionrate_20" "degradedRejectionRate" [place_of "../structstgs_1_1StationHealthConfig.html#af2ecfc6647a66641e7d7a2093b6c0eda" true "stgs::StationHealthConfig"];
   entry_of "deliberate_20limitations_21" "18. Deliberate limitations" [place_of "../md_docs_2TECHNICAL__DESIGN.html#autotoc_md41" true ""];
   entry_of "demonstrate_20deterministic_20concurrency_22" "6. Demonstrate deterministic concurrency" [place_of "../md_docs_2SHOWCASE__GUIDE.html#autotoc_md20" true ""];
   entry_of "design_20principles_20visible_20in_20the_20code_23" "Design principles visible in the code" [place_of "../md_README.html#autotoc_md71" true ""];
   entry_of "design_3a_20space_20telemetry_20ground_20station_24" "Technical Design: Space Telemetry Ground Station" [place_of "../md_docs_2TECHNICAL__DESIGN.html" true ""];
   entry_of "destination_25" "destination" [place_of "../namespacestgs_1_1app_1_1simulator.html#aecdeae718bd6bbeba8838e5dcbe016f8" true "stgs::app::simulator"];
   entry_of "detail_26" "detail" [place_of "../structstgs_1_1TcpPortProbeResult.html#a7cf3ee74524e2f032e4175bc06fdaf12" true "stgs::TcpPortProbeResult::detail"; place_of "../structstgs_1_1LocalPortAvailability.html#a287ac57266c891190db1f8f0099ec0af" true "stgs::LocalPortAvailability::detail"];
   entry_of "deterministic_20concurrency_27" "6. Demonstrate deterministic concurrency" [place_of "../md_docs_2SHOWCASE__GUIDE.html#autotoc_md20" true ""];
   entry_of "deterministic_20multithreaded_20pipeline_28" "7. Deterministic multithreaded pipeline" [place_of "../md_README.html#autotoc_md63" true ""];
   entry_of "deterministic_20output_29" "8. Bounded concurrent pipeline and deterministic output" [place_of "../md_docs_2TECHNICAL__DESIGN.html#autotoc_md31" true ""];
   entry_of "diagnose_20the_20local_20range_30" "3. Diagnose the local range" [place_of "../md_docs_2SHOWCASE__GUIDE.html#autotoc_md17" true ""];
   entry_of "diagnostic_20et_20benchmark_31" "Build, tests, diagnostic et benchmark" [place_of "../md_docs_2README__DOCUMENTATION.html#autotoc_md11" true ""];
   entry_of "diagnostics_32" "diagnostics" [place_of "../md_docs_2TECHNICAL__DESIGN.html#autotoc_md34" true "11. Port diagnostics"; place_of "../md_README.html#autotoc_md58" true "2. Automatic local port selection and diagnostics"];
   entry_of "discoverports_33" "discoverPorts" [place_of "../structstgs_1_1app_1_1simulator_1_1Options.html#a5f8fc46a9b3247d0960468628f940773" true "stgs::app::simulator::Options"];
   entry_of "discoverytimeout_34" "discoveryTimeout" [place_of "../structstgs_1_1app_1_1simulator_1_1Options.html#afe849eac827386775d6c9b1291e2f9be" true "stgs::app::simulator::Options"];
   entry_of "discussion_20points_35" "7. Useful discussion points" [place_of "../md_docs_2SHOWCASE__GUIDE.html#autotoc_md21" true ""];
   entry_of "display_20a_20text_20message_36" "3. Send and display a text message" [place_of "../md_README.html#autotoc_md59" true ""];
   entry_of "documentation_20d_20execution_37" "STGS - Documentation d&apos;execution" [place_of "../md_docs_2README__DOCUMENTATION.html" true ""];
   entry_of "documents_38" "Documents" [place_of "../md_docs_2README__DOCUMENTATION.html#autotoc_md7" true ""]].

Definition all_d : list entry :=
  [entry_of "enabled_0" "enabled" [place_of "../structstgs_1_1StationHealthConfig.html#a5fd0e373f0212ce8279c70df516926fd" true "stgs::StationHealthConfig"];
   entry_of "encodeframe_1" "encodeFrame" [place_of "../namespacestgs.html#a96d420ce35d29e8fbcfb4228464169aa" true "stgs"];
   entry_of "encodesignalblockpayload_2" "encodeSignalBlockPayload" [place_of "../namespacestgs.html#a6df02cb32efc818d349522c29ef2197d" true "stgs"];
   entry_of "encodetextmessagepayload_3" "encodeTextMessagePayload" [place_of "../namespacestgs.html#a91ad6444414562d0dcf977c6e8fc5ab7" true "stgs"];
   entry_of "environnement_20de_20contrôle_4" "Environnement de contrôle" [place_of "../md_docs_2VERIFICATION__REPORT.html#autotoc_md43" true ""];
   entry_of "ephemeralport_5" "ephemeralPort" [place_of "../namespacestgs_1_1test.html#a662fb280ee6865e992ad292c7eb966e3" true "stgs::test"];
   entry_of "error_6" "error" [place_of "../classstgs_1_1Logger.html#a714e363fcba209c745f8fb22eb220d60" true "stgs::Logger::error()"; place_of "../namespacestgs.html#aed082ae37dc19f30579b2d7981342c1ea902b0d55fddef6f8d651fe1035b7d4bd" true "stgs::Error"; place_of "../namespacestgs.html#ab73dc2ebbed2d6799b14a329f2e691cca902b0d55fddef6f8d651fe1035b7d4bd" true "stgs::Error"; place_of "../namespacestgs.html#a2b4a335983593d5d8d599d58cd7ee203a902b0d55fddef6f8d651fe1035b7d4bd" true "stgs::Error"];
   entry_of "error_20model_7" "15. Error model" [place_of "../md_docs_2TECHNICAL__DESIGN.html#autotoc_md38" true ""];
   entry_of "errorcodetostring_8" "errorCodeToString" [place_of "../namespacestgs.html#a6790660a2b914bf45160cc8d38973a28" true "stgs"];
   entry_of "estimatedamplitude_9" "estimatedAmplitude" [place_of "../structstgs_1_1SignalMetrics.html#af44f54028722447a767727eca27078d6" true "stgs::SignalMetrics"];
   entry_of "estimatedsnrdb_10" "estimatedSnrDb" [place_of "../structstgs_1_1SignalMetrics.html#ab74d5d03f557f542c746ef6c9e05bb5b" true "stgs::SignalMetrics"];
   entry_of "et_20benchmark_11" "Build, tests, diagnostic et benchmark" [place_of "../md_docs_2README__DOCUMENTATION.html#autotoc_md11" true ""];
   entry_of "et_20d_20intégration_12" "Tests unitaires et d&apos;intégration" [place_of "../md_docs_2VERIFICATION__REPORT.html#autotoc_md45" true ""];
   entry_of "et_20formats_20de_20sortie_13" "Déterminisme et formats de sortie" [place_of "../md_docs_2VERIFICATION__REPORT.html#autotoc_md50" true ""];
   entry_of "execution_14" "STGS - Documentation d&apos;execution" [place_of "../md_docs_2README__DOCUMENTATION.html" true ""];
   entry_of "extractor_15" "extractor" [place_of "../NetworkServerTcp_8cpp.html#a89e98f35eb5391c805f03de688d94270" true "NetworkServerTcp.cpp"]].

Definition all_e : list entry :=
  [entry_of "fd_0" "fd" [place_of "../NetworkServerTcp_8cpp.html#a6f8059414f0228f0256115e024eeed4b" true "NetworkServerTcp.cpp"];
   entry_of "feed_1" "feed" [place_of "../classstgs_1_1StreamFrameExtractor.html#a7d3def59de4dc549e05c33eb5e80e1a4" true "stgs::StreamFrameExtractor"];
   entry_of "filter_20it_2" "4. Send a noisy wave and filter it" [place_of "../md_README.html#autotoc_md60" true ""];
   entry_of "filteredrms_3" "filteredRms" [place_of "../structstgs_1_1SignalMetrics.html#aa2d9ad888f22cb619a4e17cd73803133" true "stgs::SignalMetrics"];
   entry_of "filtering_4" "10. Signal generation, noise and filtering" [place_of "../md_docs_2TECHNICAL__DESIGN.html#autotoc_md33" true ""];
   entry_of "findfirstavailablelocalport_5" "findFirstAvailableLocalPort" [place_of "../namespacestgs.html#a3711847fc7f4844d7ff12f7835d8a8fd" true "stgs"];
   entry_of "finish_6" "finish" [place_of "../classstgs_1_1app_1_1ground__station_1_1PosixSignalStopController.html#a6e65c3fb986b905596a254439d8f252a" true "stgs::app::ground_station::PosixSignalStopController::finish()"; place_of "../classstgs_1_1app_1_1ground__station_1_1TelemetryOutput.html#ab31b4fba12a683f1505951d406717776" true "stgs::app::ground_station::TelemetryOutput::finish()"];
   entry_of "first_7" "first" [place_of "../md_docs_2SHOWCASE__GUIDE.html#autotoc_md15" true "1. Build confidence first"; place_of "../structstgs_1_1PortRange.html#a5974ad2a5dff722fc5fd7c646cce679d" true "stgs::PortRange::first"];
   entry_of "float32wiresize_8" "Float32WireSize" [place_of "../namespacestgs.html#ad30888b452380949c566d434784bba70" true "stgs"];
   entry_of "flush_9" "flush" [place_of "../classstgs_1_1FrameFileWriter.html#abbf59bb86fa348f352879a01beaf9586" true "stgs::FrameFileWriter"];
   entry_of "format_10" "3. STGS v1 wire format" [place_of "../md_docs_2TECHNICAL__DESIGN.html#autotoc_md26" true ""];
   entry_of "formats_20de_20sortie_11" "Déterminisme et formats de sortie" [place_of "../md_docs_2VERIFICATION__REPORT.html#autotoc_md50" true ""];
   entry_of "frame_20decoding_20policy_12" "5. Frame decoding policy" [place_of "../md_docs_2TECHNICAL__DESIGN.html#autotoc_md28" true ""];
   entry_of "framecallback_13" "FrameCallback" [place_of "../classstgs_1_1NetworkServer.html#ac504eb1e38628a5ba4cec43d9af0b51e" true "stgs::NetworkServer"];
   entry_of "framecodec_2ecpp_14" "FrameCodec.cpp" [place_of "../FrameCodec_8cpp.html" true ""];
   entry_of "framecodec_2ehpp_15" "FrameCodec.hpp" [place_of "../FrameCodec_8hpp.html" true ""];
   entry_of "frameerror_16" "FrameError" [place_of "../structstgs_1_1FrameError.html" true "stgs"];
   entry_of "frameerrorcode_17" "FrameErrorCode" [place_of "../namespacestgs.html#a6c3c97c875363adab257eb270bb20f14" true "stgs"];
   entry_of "framefilereader_18" "framefilereader" [place_of "../classstgs_1_1FrameFileReader.html" true "stgs::FrameFileReader"; place_of "../classstgs_1_1FrameFileReader.html#ac91f1a5de928bef5d277a829a8a41cd8" true "stgs::FrameFileReader::FrameFileReader(const FrameFileReader &amp;)=delete"; place_of "../classstgs_1_1FrameFileReader.html#ad2ba5c80795b399b144122b666d8d184" true "stgs::FrameFileReader::FrameFileReader(const std::filesystem::path &amp;path)"];
   entry_of "framefilewriter_19" "framefilewriter" [place_of "../classstgs_1_1FrameFileWriter.html#afd0202fe0483bd7ccebe184db6f0d15f" true "stgs::FrameFileWriter::FrameFileWriter(const FrameFileWriter &amp;)=delete"; place_of "../classstgs_1_1FrameFileWriter.html#a6a98b7bef36f40e1e3e2e1ba0fb473e9" true "stgs::FrameFileWriter::FrameFileWriter(const std::filesystem::path &amp;path)"; place_of "../classstgs_1_1FrameFileWriter.html" true "stgs::FrameFileWriter"];
   entry_of "framemagic_20" "FrameMagic" [place_of "../namespacestgs.html#a0e4be2b427b7e545711791601cd0d394" true "stgs"];
   entry_of "frameparseresult_21" "FrameParseResult" [place_of "../namespacestgs.html#a6f51df7d9b7e75ff18a4bae663ff262f" true "stgs"];
   entry_of "frequencyhz_22" "frequencyHz" [place_of "../structstgs_1_1SignalBlockPayload.html#a7119d2eca398e407971983d71051fb9e" true "stgs::SignalBlockPayload"];
   entry_of "from_23" "from" [place_of "../structstgs_1_1StationStateTransition.html#a9f85cfbfc0332168e30dbb69094463d7" true "stgs::StationStateTransition"]].

Definition all_f : list entry :=
  [entry_of "generation_20noise_20and_20filtering_0" "10. Signal generation, noise and filtering" [place_of "../md_docs_2TECHNICAL__DESIGN.html#autotoc_md33" true ""];
   entry_of "get_1" "get" [place_of "../classstgs_1_1app_1_1simulator_1_1SocketFd.html#acfa85dbb116f87c1c17bc6cb18c9f690" true "stgs::app::simulator::SocketFd"];
   entry_of "ground_20station_2" "ground station" [place_of "../md_README.html" true "C++ Space Telemetry Ground Station"; place_of "../md_docs_2PERFORMANCE__REPORT.html" true "Performance Report: Space Telemetry Ground Station"; place_of "../md_docs_2TECHNICAL__DESIGN.html" true "Technical Design: Space Telemetry Ground Station"];
   entry_of "ground_5fstation_2ecpp_3" "ground_station.cpp" [place_of "../ground__station_8cpp.html" true ""];
   entry_of "groundstationapp_2ecpp_4" "GroundStationApp.cpp" [place_of "../GroundStationApp_8cpp.html" true ""];
   entry_of "groundstationapp_2ehpp_5" "GroundStationApp.hpp" [place_of "../GroundStationApp_8hpp.html" true ""];
   entry_of "groundstationinput_2ecpp_6" "GroundStationInput.cpp" [place_of "../GroundStationInput_8cpp.html" true ""];
   entry_of "groundstationoptions_2ecpp_7" "GroundStationOptions.cpp" [place_of "../GroundStationOptions_8cpp.html" true ""];
   entry_of "groundstationoptions_2ehpp_8" "GroundStationOptions.hpp" [place_of "../GroundStationOptions_8hpp.html" true ""];
   entry_of "groundstationpipeline_9" "groundstationpipeline" [place_of "../classstgs_1_1app_1_1ground__station_1_1GroundStationPipeline.html#a44539f7f9ecd25fe739fc3d9b9c8e304" true "stgs::app::ground_station::GroundStationPipeline::GroundStationPipeline()"; place_of "../classstgs_1_1app_1_1ground__station_1_1GroundStationPipeline.html" true "stgs::app::ground_station::GroundStationPipeline"];
   entry_of "groundstationpipeline_2ecpp_10" "GroundStationPipeline.cpp" [place_of "../GroundStationPipeline_8cpp.html" true ""];
   entry_of "groundstationpipeline_2ehpp_11" "GroundStationPipeline.hpp" [place_of "../GroundStationPipeline_8hpp.html" true ""];
   entry_of "groundstationprocessing_2ecpp_12" "GroundStationProcessing.cpp" [place_of "../GroundStationProcessing_8cpp.html" true ""];
   entry_of "groundstationprocessing_2ehpp_13" "GroundStationProcessing.hpp" [place_of "../GroundStationProcessing_8hpp.html" true ""];
   entry_of "groundstationusage_2ecpp_14" "GroundStationUsage.cpp" [place_of "../GroundStationUsage_8cpp.html" true ""];
   entry_of "groundstationworkers_2ecpp_15" "GroundStationWorkers.cpp" [place_of "../GroundStationWorkers_8cpp.html" true ""];
   entry_of "guide_16" "STGS Showcase Guide" [place_of "../md_docs_2SHOWCASE__GUIDE.html" true ""]].

Definition all_10 : list entry :=
  [entry_of "hdlc_0" "4. CRC-32/ISO-HDLC" [place_of "../md_docs_2TECHNICAL__DESIGN.html#autotoc_md27" true ""];
   entry_of "headersize_1" "HeaderSize" [place_of "../namespacestgs.html#abf8a7bd45da6596dc9997fd46c4eb096" true "stgs"];
   entry_of "health_20monitoring_2" "10. Health monitoring" [place_of "../md_README.html#autotoc_md67" true ""];
   entry_of "health_20monitoring_20and_20hysteresis_3" "13. Health monitoring and hysteresis" [place_of "../md_docs_2TECHNICAL__DESIGN.html#autotoc_md36" true ""];
   entry_of "healthconfig_4" "healthConfig" [place_of "../structstgs_1_1app_1_1ground__station_1_1Options.html#a162aeb5eeaca2e0d1c8d64258bb07d8d" true "stgs::app::ground_station::Options"];
   entry_of "highlights_5" "Highlights" [place_of "../md_README.html#autotoc_md54" true ""];
   entry_of "host_6" "host" [place_of "../structstgs_1_1app_1_1simulator_1_1Options.html#a6709401e926dd4896c6c9620d8e00f21" true "stgs::app::simulator::Options"];
   entry_of "hysteresis_7" "13. Health monitoring and hysteresis" [place_of "../md_docs_2TECHNICAL__DESIGN.html#autotoc_md36" true ""]].

Definition all_11 : list entry :=
  [entry_of "important_20pour_20une_20revue_20technique_0" "Point important pour une revue technique" [place_of "../md_docs_2README__DOCUMENTATION.html#autotoc_md13" true ""];
   entry_of "in_20the_20code_1" "Design principles visible in the code" [place_of "../md_README.html#autotoc_md71" true ""];
   entry_of "info_2" "info" [place_of "../classstgs_1_1Logger.html#a259da3304341bbf21616732231939265" true "stgs::Logger::info()"; place_of "../namespacestgs.html#a2b4a335983593d5d8d599d58cd7ee203a4059b0251f66a18cb56f544728796875" true "stgs::Info"; place_of "../namespacestgs.html#aed082ae37dc19f30579b2d7981342c1ea4059b0251f66a18cb56f544728796875" true "stgs::Info"];
   entry_of "intégration_3" "Tests unitaires et d&apos;intégration" [place_of "../md_docs_2VERIFICATION__REPORT.html#autotoc_md45" true ""];
   entry_of "intent_4" "1. Scope and intent" [place_of "../md_docs_2TECHNICAL__DESIGN.html#autotoc_md24" true ""];
   entry_of "interactive_5" "interactive" [place_of "../classstgs_1_1TerminalUi.html#ae050f8d992bfae035bab289ff6d00499" true "stgs::TerminalUi"];
   entry_of "interpretation_6" "4. Interpretation" [place_of "../md_docs_2PERFORMANCE__REPORT.html#autotoc_md4" true ""];
   entry_of "invalidbattery_7" "InvalidBattery" [place_of "../namespacestgs.html#a6c3c97c875363adab257eb270bb20f14a70f7b6f0a881c8b3bf8d1a45c253fd2f" true "stgs"];
   entry_of "invalidlength_8" "InvalidLength" [place_of "../namespacestgs.html#a2aa48089627d210628f45038315de28aa7410e53743c7518114372aa891b76615" true "stgs"];
   entry_of "invalidsignalmetadata_9" "InvalidSignalMetadata" [place_of "../namespacestgs.html#a2aa48089627d210628f45038315de28aa1dd0acdf372fcd74a2acd532ddc4dac3" true "stgs"];
   entry_of "invalidstatus_10" "InvalidStatus" [place_of "../namespacestgs.html#a6c3c97c875363adab257eb270bb20f14a1afaa3ef1f35311510464f49903aa6ae" true "stgs"];
   entry_of "invalidtemperature_11" "InvalidTemperature" [place_of "../namespacestgs.html#a6c3c97c875363adab257eb270bb20f14ab0044d334987fcc475292bf23af8de41" true "stgs"];
   entry_of "invariant_12" "7. TCP behavior and the poll snapshot invariant" [place_of "../md_docs_2TECHNICAL__DESIGN.html#autotoc_md30" true ""];
   entry_of "isloopbackipv4_13" "isLoopbackIpv4" [place_of "../namespacestgs.html#a7adda113b45c802e2582cd09d38b31e0" true "stgs"];
   entry_of "iso_20hdlc_14" "4. CRC-32/ISO-HDLC" [place_of "../md_docs_2TECHNICAL__DESIGN.html#autotoc_md27" true ""];
   entry_of "it_15" "4. Send a noisy wave and filter it" [place_of "../md_README.html#autotoc_md60" true ""]].

Definition all_12 : list entry :=
  [entry_of "json_0" "Json" [place_of "../namespacestgs_1_1app_1_1ground__station.html#a674f76aa6255d0fb1ffec19ffc6be19daeed8d85b888a6c015834240885ee6333" true "stgs::app::ground_station"]].

Definition all_13 : list entry :=
  [entry_of "keyvalue_0" "keyValue" [place_of "../classstgs_1_1TerminalUi.html#abca15310e22fe982ba94d3b7f44b843b" true "stgs::TerminalUi"]].

Definition all_14 : list entry :=
  [entry_of "last_0" "last" [place_of "../structstgs_1_1PortRange.html#a23ae79afc9384a569e6de733f9a972ba" true "stgs::PortRange"];
   entry_of "latencyms_1" "latencyMs" [place_of "../structstgs_1_1TcpPortProbeResult.html#a777d1834bbd051ecce69df18c371e711" true "stgs::TcpPortProbeResult"];
   entry_of "latex_2" "Recompiler les sources LaTeX" [place_of "../md_docs_2README__DOCUMENTATION.html#autotoc_md12" true ""];
   entry_of "layered_20architecture_3" "2. Layered architecture" [place_of "../md_docs_2TECHNICAL__DESIGN.html#autotoc_md25" true ""];
   entry_of "layout_4" "Project layout" [place_of "../md_README.html#autotoc_md70" true ""];
   entry_of "lengthmismatch_5" "LengthMismatch" [place_of "../namespacestgs.html#a6c3c97c875363adab257eb270bb20f14aefe3ddb6bb6a51712447485fd452d87d" true "stgs"];
   entry_of "les_20sources_20latex_6" "Recompiler les sources LaTeX" [place_of "../md_docs_2README__DOCUMENTATION.html#autotoc_md12" true ""];
   entry_of "license_7" "License" [place_of "../md_README.html#autotoc_md72" true ""];
   entry_of "limitations_8" "18. Deliberate limitations" [place_of "../md_docs_2TECHNICAL__DESIGN.html#autotoc_md41" true ""];
   entry_of "limites_20assumées_9" "Limites assumées" [place_of "../md_docs_2VERIFICATION__REPORT.html#autotoc_md52" true ""];
   entry_of "live_20tcp_20telemetry_10" "1. Live TCP telemetry" [place_of "../md_README.html#autotoc_md57" true ""];
   entry_of "local_20port_20selection_20and_20diagnostics_11" "2. Automatic local port selection and diagnostics" [place_of "../md_README.html#autotoc_md58" true ""];
   entry_of "local_20range_12" "3. Diagnose the local range" [place_of "../md_docs_2SHOWCASE__GUIDE.html#autotoc_md17" true ""];
   entry_of "localportavailability_13" "LocalPortAvailability" [place_of "../structstgs_1_1LocalPortAvailability.html" true "stgs"];
   entry_of "log_14" "log" [place_of "../classstgs_1_1Logger.html#ad62b4fe2573d0fbc245bc8499072132e" true "stgs::Logger"];
   entry_of "logfile_15" "logFile" [place_of "../structstgs_1_1app_1_1ground__station_1_1Options.html#aab0afe12f93a9cb1d5fbd63f48baabfb" true "stgs::app::ground_station::Options"];
   entry_of "logger_16" "logger" [place_of "../classstgs_1_1Logger.html" true "stgs::Logger"; place_of "../classstgs_1_1Logger.html#ab57feb2db1362d1cab97d3fcaba73063" true "stgs::Logger::Logger(const Logger &amp;)=delete"; place_of "../classstgs_1_1Logger.html#aa47f826e89b7d939d7c2989379d5cd6a" true "stgs::Logger::Logger(std::optional&lt; std::filesystem::path &gt; filePath=std::nullopt, LogLevel minLevel=LogLevel::Info)"];
   entry_of "logger_2ecpp_17" "Logger.cpp" [place_of "../Logger_8cpp.html" true ""];
   entry_of "logger_2ehpp_18" "Logger.hpp" [place_of "../Logger_8hpp.html" true ""];
   entry_of "loglevel_19" "loglevel" [place_of "../namespacestgs.html#a2b4a335983593d5d8d599d58cd7ee203" true "stgs::LogLevel"; place_of "../structstgs_1_1app_1_1ground__station_1_1Options.html#a3ac5b50d75e9f27157c8ecda7c902501" true "stgs::app::ground_station::Options::logLevel"];
   entry_of "logleveltostring_20" "logLevelToString" [place_of "../namespacestgs.html#accc0b6ac907948c066bcc504da10d3cf" true "stgs"];
   entry_of "logtransition_21" "logTransition" [place_of "../namespacestgs_1_1app_1_1ground__station.html#a78082cb7155ab90735f365ccd62a3846" true "stgs::app::ground_station"];
   entry_of "lossprobability_22" "lossProbability" [place_of "../structstgs_1_1app_1_1simulator_1_1Options.html#af28305ade385c9c587b2870b3007feb2" true "stgs::app::simulator::Options"]].

Definition all_15 : list entry :=
  [entry_of "magicoffset_0" "MagicOffset" [place_of "../namespacestgs.html#a757b95ce3270c71e7dc8f14b9bf2fb09" true "stgs"];
   entry_of "magicsize_1" "MagicSize" [place_of "../namespacestgs.html#a611696a65d9982545b6c8f4a7ad52a7c" true "stgs"];
   entry_of "main_2" "main" [place_of "../ground__station_8cpp.html#a3c04138a5bfe5d72780bb7e82a18e627" true "main(int argc, char **argv):&#160;ground_station.cpp"; place_of "../port__check_8cpp.html#a3c04138a5bfe5d72780bb7e82a18e627" true "main(int argc, char **argv):&#160;port_check.cpp"; place_of "../satellite__simulator_8cpp.html#a3c04138a5bfe5d72780bb7e82a18e627" true "main(int argc, char **argv):&#160;satellite_simulator.cpp"; place_of "../benchmark__decode_8cpp.html#a3c04138a5bfe5d72780bb7e82a18e627" true "main(int argc, char **argv):&#160;benchmark_decode.cpp"; place_of "../test__main_8cpp.html#ae66f6b31b5ad750f1fe042a706a4e3d4" true "main():&#160;test_main.cpp"];
   entry_of "makeframe_3" "makeFrame" [place_of "../namespacestgs_1_1app_1_1simulator.html#a3a1a7a1c5f19e37e5663378b5dafec76" true "stgs::app::simulator"];
   entry_of "manually_20choosing_20a_20port_4" "2. Start a station without manually choosing a port" [place_of "../md_docs_2SHOWCASE__GUIDE.html#autotoc_md16" true ""];
   entry_of "maxbatterypercent_5" "MaxBatteryPercent" [place_of "../namespacestgs.html#aba4b69ba4fe228503afb9c70ac612014" true "stgs"];
   entry_of "maxdiagnosticportcount_6" "MaxDiagnosticPortCount" [place_of "../namespacestgs.html#a3dae02625f8dcb392c6bdf2306f6708d" true "stgs"];
   entry_of "maxframesize_7" "MaxFrameSize" [place_of "../namespacestgs.html#a16a992cbf9d7868da731e2c18db66d24" true "stgs"];
   entry_of "maximumnetworkport_8" "MaximumNetworkPort" [place_of "../namespacestgs.html#a1df74eaa09da8b0d50bef1ea4d74575e" true "stgs"];
   entry_of "maximumportprobetimeout_9" "MaximumPortProbeTimeout" [place_of "../namespacestgs.html#a1b13b828d8af37cb4d2b6e73d75fd096" true "stgs"];
   entry_of "maxpayloadsize_10" "MaxPayloadSize" [place_of "../namespacestgs.html#a1af66b07a9f7e74447c61aa3d7719faa" true "stgs"];
   entry_of "maxsignalsamplesperpayload_11" "MaxSignalSamplesPerPayload" [place_of "../namespacestgs.html#a29dc97fc78e89f1df44cd02919053489" true "stgs"];
   entry_of "maxtextmessagebytes_12" "MaxTextMessageBytes" [place_of "../namespacestgs.html#a69bb77b6f23499a8d166dc42b041819e" true "stgs"];
   entry_of "maybecorrupt_13" "maybeCorrupt" [place_of "../namespacestgs_1_1app_1_1simulator.html#a1570394fb5fc99051ce0874461046420" true "stgs::app::simulator"];
   entry_of "measurements_14" "3. Reference measurements" [place_of "../md_docs_2PERFORMANCE__REPORT.html#autotoc_md3" true ""];
   entry_of "message_15" "message" [place_of "../md_README.html#autotoc_md59" true "3. Send and display a text message"; place_of "../md_docs_2SHOWCASE__GUIDE.html#autotoc_md18" true "4. Send a message"; place_of "../structstgs_1_1ApplicationPayloadError.html#a3f1a12bf18d116b6f0830f5ca14e23c9" true "stgs::ApplicationPayloadError::message"; place_of "../structstgs_1_1FrameError.html#a1f6ef01ba7fe3979cc982adcfc9c1355" true "stgs::FrameError::message"; place_of "../structstgs_1_1app_1_1simulator_1_1Options.html#a1d3c0c149798567a3db304d45c5b0156" true "stgs::app::simulator::Options::message"];
   entry_of "minframesize_16" "MinFrameSize" [place_of "../namespacestgs.html#a8f70fc40ffc48a7269a7857135f6cd4b" true "stgs"];
   entry_of "minimumnetworkport_17" "MinimumNetworkPort" [place_of "../namespacestgs.html#adc7a80912cd2e5324b630ac75b38f029" true "stgs"];
   entry_of "minsamples_18" "minSamples" [place_of "../structstgs_1_1StationHealthConfig.html#aafa650fc61e9527fac8895a14a223502" true "stgs::StationHealthConfig"];
   entry_of "model_19" "15. Error model" [place_of "../md_docs_2TECHNICAL__DESIGN.html#autotoc_md38" true ""];
   entry_of "modulaire_20" "Découpage modulaire" [place_of "../md_docs_2VERIFICATION__REPORT.html#autotoc_md48" true ""];
   entry_of "monitoring_21" "10. Health monitoring" [place_of "../md_README.html#autotoc_md67" true ""];
   entry_of "monitoring_20and_20hysteresis_22" "13. Health monitoring and hysteresis" [place_of "../md_docs_2TECHNICAL__DESIGN.html#autotoc_md36" true ""];
   entry_of "movingaverage_23" "MovingAverage" [place_of "../namespacestgs.html#ad6d6eb8010ca5d7fa98b1ab91ee2792cabba5c82c942bc0851f96137de06cac0d" true "stgs"];
   entry_of "movingaveragefilter_24" "movingAverageFilter" [place_of "../namespacestgs.html#ab457496c4c0e42e80f6799eeca183c62" true "stgs"];
   entry_of "movingaveragewindow_25" "movingAverageWindow" [place_of "../structstgs_1_1app_1_1ground__station_1_1Options.html#a7ece7909b32c1156eb3147d09f52b5da" true "stgs::app::ground_station::Options"];
   entry_of "multithreaded_20pipeline_26" "7. Deterministic multithreaded pipeline" [place_of "../md_README.html#autotoc_md63" true ""]].

Definition all_16 : list entry :=
  [entry_of "networkconfig_0" "NetworkConfig" [place_of "../structstgs_1_1NetworkConfig.html" true "stgs"];
   entry_of "networkserver_1" "networkserver" [place_of "../classstgs_1_1NetworkServer.html" true "stgs::NetworkServer"; place_of "../classstgs_1_1NetworkServer.html#a040e057f504e4a87d455afa9945c1a91" true "stgs::NetworkServer::NetworkServer(NetworkConfig config, Logger &amp;logger)"; place_of "../classstgs_1_1NetworkServer.html#ab09894d06d7d697cfea64b997fcc67a6" true "stgs::NetworkServer::NetworkServer(const NetworkServer &amp;)=delete"];
   entry_of "networkserver_2ecpp_2" "NetworkServer.cpp" [place_of "../NetworkServer_8cpp.html" true ""];
   entry_of "networkserver_2ehpp_3" "NetworkServer.hpp" [place_of "../NetworkServer_8hpp.html" true ""];
   entry_of "networkservertcp_2ecpp_4" "NetworkServerTcp.cpp" [place_of "../NetworkServerTcp_8cpp.html" true ""];
   entry_of "networkserverudp_2ecpp_5" "NetworkServerUdp.cpp" [place_of "../NetworkServerUdp_8cpp.html" true ""];
   entry_of "noise_20and_20filtering_6" "10. Signal generation, noise and filtering" [place_of "../md_docs_2TECHNICAL__DESIGN.html#autotoc_md33" true ""];
   entry_of "noisestddev_7" "noiseStddev" [place_of "../structstgs_1_1app_1_1simulator_1_1Options.html#aa4289ca08f488ca35e7686bc3f0fdea7" true "stgs::app::simulator::Options"];
   entry_of "noisy_20sampled_20wave_8" "5. Send a noisy sampled wave" [place_of "../md_docs_2SHOWCASE__GUIDE.html#autotoc_md19" true ""];
   entry_of "noisy_20wave_20and_20filter_20it_9" "4. Send a noisy wave and filter it" [place_of "../md_README.html#autotoc_md60" true ""];
   entry_of "nominal_10" "nominal" [place_of "../namespacestgs.html#af145a1e8f5e0f55d9178bafa1faacb7ea8c28d7c312116b8a46e2f466cb33d5b4" true "stgs::Nominal"; place_of "../namespacestgs.html#a61ca9382bebac8640e15d2338a9eb8afa8c28d7c312116b8a46e2f466cb33d5b4" true "stgs::Nominal"];
   entry_of "nominalamplitude_11" "nominalAmplitude" [place_of "../structstgs_1_1SignalBlockPayload.html#ac47517beadc3128501e6f61f048d2476" true "stgs::SignalBlockPayload"];
   entry_of "none_12" "None" [place_of "../namespacestgs.html#ad6d6eb8010ca5d7fa98b1ab91ee2792ca6adf97f83acf6453d4a6a4b1070f3754" true "stgs"];
   entry_of "nowiso8601_13" "nowIso8601" [place_of "../namespacestgs.html#a13a8b54e63f390f2fc7dab36ab707743" true "stgs"]].

Definition all_17 : list entry :=
  [entry_of "observability_0" "12. Terminal observability" [place_of "../md_docs_2TECHNICAL__DESIGN.html#autotoc_md35" true ""];
   entry_of "open_1" "Open" [place_of "../namespacestgs.html#ab73dc2ebbed2d6799b14a329f2e691ccac3bf447eabe632720a3aa1a7ce401274" true "stgs"];
   entry_of "operator_3d_2" "operator=" [place_of "../classstgs_1_1FrameFileReader.html#a7f54cc817433632bc57c39085f888494" true "stgs::FrameFileReader::operator=()"; place_of "../classstgs_1_1StationHealthMonitor.html#aec2f8d4a305fbebc45301c8694ba8959" true "stgs::StationHealthMonitor::operator=()"; place_of "../classstgs_1_1FrameFileWriter.html#a1268da0afe7f54565be83425ebd519b4" true "stgs::FrameFileWriter::operator=()"; place_of "../classstgs_1_1NetworkServer.html#a9c3d5ff114ff70a4ea45e821bbb3c2e2" true "stgs::NetworkServer::operator=()"; place_of "../classstgs_1_1Logger.html#a15c2c176e8a116dc321e6b994ee0890b" true "stgs::Logger::operator=()"; place_of "../classstgs_1_1BlockingQueue.html#adc149752576b540c84cad0354c77f5ab" true "stgs::BlockingQueue::operator=()"; place_of "../classstgs_1_1app_1_1simulator_1_1SocketFd.html#a14fc650fec4dbfb8b75a5e4f184233cc" true "stgs::app::simulator::SocketFd::operator=(SocketFd &amp;&amp;other) noexcept"; place_of "../classstgs_1_1app_1_1simulator_1_1SocketFd.html#aa94c44574c1380ab4d448e50b7a3bb59" true "stgs::app::simulator::SocketFd::operator=(const SocketFd &amp;)=delete"; place_of "../classstgs_1_1app_1_1ground__station_1_1PosixSignalStopController.html#a2c95eeb061c8dbc9d0f203dabc2308cb" true "stgs::app::ground_station::PosixSignalStopController::operator=()"];
   entry_of "options_3" "options" [place_of "../structstgs_1_1app_1_1ground__station_1_1Options.html" true "stgs::app::ground_station::Options"; place_of "../structstgs_1_1app_1_1simulator_1_1Options.html" true "stgs::app::simulator::Options"];
   entry_of "output_4" "8. Bounded concurrent pipeline and deterministic output" [place_of "../md_docs_2TECHNICAL__DESIGN.html#autotoc_md31" true ""];
   entry_of "outputfile_5" "outputfile" [place_of "../structstgs_1_1app_1_1ground__station_1_1Options.html#abd7f6e880ed55cccc524d39ae6e9aaa0" true "stgs::app::ground_station::Options::outputFile"; place_of "../structstgs_1_1app_1_1simulator_1_1Options.html#aa8fdfd2781ad76a9005dc4903005b5a2" true "stgs::app::simulator::Options::outputFile"];
   entry_of "outputformat_6" "outputformat" [place_of "../structstgs_1_1app_1_1ground__station_1_1Options.html#a117854d5ce0bd879e9574414e1e3a035" true "stgs::app::ground_station::Options::outputFormat"; place_of "../namespacestgs_1_1app_1_1ground__station.html#a674f76aa6255d0fb1ffec19ffc6be19d" true "stgs::app::ground_station::OutputFormat"]].

Definition all_18 : list entry :=
  [entry_of "parameters_0" "CRC parameters" [place_of "../md_README.html#autotoc_md65" true ""];
   entry_of "parseargs_1" "parseargs" [place_of "../namespacestgs_1_1app_1_1simulator.html#adae5380ec0cd339bc25c7008d3f97b84" true "stgs::app::simulator::parseArgs()"; place_of "../namespacestgs_1_1app_1_1ground__station.html#a310e8ff89b553d737d7d1ccdc9e91491" true "stgs::app::ground_station::parseArgs()"];
   entry_of "parsefinitedouble_2" "parseFiniteDouble" [place_of "../namespacestgs.html#a9ccb3a36865cfcbbe10e28f57c0f6d75" true "stgs"];
   entry_of "parseloglevel_3" "parseLogLevel" [place_of "../namespacestgs.html#ac58de0b5c818c56849a53133a7cf668f" true "stgs"];
   entry_of "parseportrange_4" "parsePortRange" [place_of "../namespacestgs.html#a28244a59e980c9510ee6f8bc1e69809b" true "stgs"];
   entry_of "parseprobability_5" "parseProbability" [place_of "../namespacestgs.html#a8bfe5e03446c5b8d5b62144ac66a6c5c" true "stgs"];
   entry_of "parseunsigned_6" "parseUnsigned" [place_of "../namespacestgs.html#a31a7ad15af4ad9bb1401e9dcfd3e4bf7" true "stgs"];
   entry_of "payload_7" "payload" [place_of "../md_docs_2TECHNICAL__DESIGN.html#autotoc_md32" true "9. STGA application payload"; place_of "../structstgs_1_1TelemetryFrame.html#ad99064aad90f23a38c05cb6b2ca1307d" true "stgs::TelemetryFrame::payload"];
   entry_of "payload_3a_20stga_20v1_8" "9. Typed application payload: STGA v1" [place_of "../md_README.html#autotoc_md66" true ""];
   entry_of "payloadlengthoffset_9" "PayloadLengthOffset" [place_of "../namespacestgs.html#a7a1768985c5683684967a231e347713f" true "stgs"];
   entry_of "payloadmode_10" "payloadmode" [place_of "../structstgs_1_1app_1_1simulator_1_1Options.html#ab26b6b865425beca7aba61b486977675" true "stgs::app::simulator::Options::payloadMode"; place_of "../namespacestgs_1_1app_1_1simulator.html#a9bc7b0135556745522ad9ee19f291609" true "stgs::app::simulator::PayloadMode"];
   entry_of "payloadmodename_11" "payloadModeName" [place_of "../namespacestgs_1_1app_1_1simulator.html#aaa9d86b8b866d56f0454ad257bdd804c" true "stgs::app::simulator"];
   entry_of "payloadsize_12" "payloadSize" [place_of "../structstgs_1_1app_1_1simulator_1_1Options.html#a23bf245219b5f8010eea0121a7a08168" true "stgs::app::simulator::Options"];
   entry_of "payloadtohex_13" "payloadToHex" [place_of "../namespacestgs.html#a0a370d2a47008f84d40e430ccfa8b2f6" true "stgs"];
   entry_of "payloadtoolarge_14" "PayloadTooLarge" [place_of "../namespacestgs.html#a6c3c97c875363adab257eb270bb20f14a0234a767e9c5c06cdaf290cc9b690b34" true "stgs"];
   entry_of "performance_20philosophy_15" "17. Performance philosophy" [place_of "../md_docs_2TECHNICAL__DESIGN.html#autotoc_md40" true ""];
   entry_of "performance_20report_3a_20space_20telemetry_20ground_20station_16" "Performance Report: Space Telemetry Ground Station" [place_of "../md_docs_2PERFORMANCE__REPORT.html" true ""];
   entry_of "performance_5freport_2emd_17" "PERFORMANCE_REPORT.md" [place_of "../PERFORMANCE__REPORT_8md.html" true ""];
   entry_of "philosophy_18" "17. Performance philosophy" [place_of "../md_docs_2TECHNICAL__DESIGN.html#autotoc_md40" true ""];
   entry_of "pipeline_19" "7. Deterministic multithreaded pipeline" [place_of "../md_README.html#autotoc_md63" true ""];
   entry_of "pipeline_20and_20deterministic_20output_20" "8. Bounded concurrent pipeline and deterministic output" [place_of "../md_docs_2TECHNICAL__DESIGN.html#autotoc_md31" true ""];
   entry_of "pipelinestats_21" "PipelineStats" [place_of "../structstgs_1_1app_1_1ground__station_1_1PipelineStats.html" true "stgs::app::ground_station"];
   entry_of "point_20important_20pour_20une_20revue_20technique_22" "Point important pour une revue technique" [place_of "../md_docs_2README__DOCUMENTATION.html#autotoc_md13" true ""];
   entry_of "points_23" "7. Useful discussion points" [place_of "../md_docs_2SHOWCASE__GUIDE.html#autotoc_md21" true ""];
   entry_of "policy_24" "5. Frame decoding policy" [place_of "../md_docs_2TECHNICAL__DESIGN.html#autotoc_md28" true ""];
   entry_of "poll_20snapshot_20invariant_25" "7. TCP behavior and the poll snapshot invariant" [place_of "../md_docs_2TECHNICAL__DESIGN.html#autotoc_md30" true ""];
   entry_of "polltimeoutms_26" "pollTimeoutMs" [place_of "../structstgs_1_1NetworkConfig.html#a679bc0335261b5c100972c157cda0e89" true "stgs::NetworkConfig"];
   entry_of "pop_27" "pop" [place_of "../classstgs_1_1BlockingQueue.html#ac5bf4983522afa1caddc7e98571b9328" true "stgs::BlockingQueue"];
   entry_of "port_28" "port" [place_of "../md_docs_2SHOWCASE__GUIDE.html#autotoc_md16" true "2. Start a station without manually choosing a port"; place_of "../structstgs_1_1LocalPortAvailability.html#aaff1cb6f990bc5512b391372cf62f7a6" true "stgs::LocalPortAvailability::port"; place_of "../structstgs_1_1app_1_1ground__station_1_1Options.html#af08e109d95e6b719ad2cb035b65dbc92" true "stgs::app::ground_station::Options::port"; place_of "../structstgs_1_1app_1_1simulator_1_1Options.html#a7951170891c7cded1e481725cc6e83bb" true "stgs::app::simulator::Options::port"; place_of "../structstgs_1_1NetworkConfig.html#ab7712921094db7ea02cd277895ac7ed5" true "stgs::NetworkConfig::port"; place_of "../structstgs_1_1TcpPortProbeResult.html#aae24c39ee295cb28ddb49140150e0926" true "stgs::TcpPortProbeResult::port"];
   entry_of "port_20diagnostics_29" "11. Port diagnostics" [place_of "../md_docs_2TECHNICAL__DESIGN.html#autotoc_md34" true ""];
   entry_of "port_20selection_20and_20diagnostics_30" "2. Automatic local port selection and diagnostics" [place_of "../md_README.html#autotoc_md58" true ""];
   entry_of "port_5fcheck_2ecpp_31" "port_check.cpp" [place_of "../port__check_8cpp.html" true ""];
   entry_of "portdiagnostics_2ecpp_32" "PortDiagnostics.cpp" [place_of "../PortDiagnostics_8cpp.html" true ""];
   entry_of "portdiagnostics_2ehpp_33" "PortDiagnostics.hpp" [place_of "../PortDiagnostics_8hpp.html" true ""];
   entry_of "portrange_34" "PortRange" [place_of "../structstgs_1_1PortRange.html" true "stgs"];
   entry_of "porttransport_35" "PortTransport" [place_of "../namespacestgs.html#ab99ad0f4a1a1fb197aab95d7286a9a7e" true "stgs"];
   entry_of "posixsignalstopcontroller_36" "posixsignalstopcontroller" [place_of "../classstgs_1_1app_1_1ground__station_1_1PosixSignalStopController.html" true "stgs::app::ground_station::PosixSignalStopController"; place_of "../classstgs_1_1app_1_1ground__station_1_1PosixSignalStopController.html#ad5283ce2802135308bca0bb1904a8842" true "stgs::app::ground_station::PosixSignalStopController::PosixSignalStopController(std::atomic_bool &amp;running)"; place_of "../classstgs_1_1app_1_1ground__station_1_1PosixSignalStopController.html#a580a72d1ab6060cec674e190273c78a9" true "stgs::app::ground_station::PosixSignalStopController::PosixSignalStopController(const PosixSignalStopController &amp;)=delete"];
   entry_of "posixsignalstopcontroller_2ecpp_37" "PosixSignalStopController.cpp" [place_of "../PosixSignalStopController_8cpp.html" true ""];
   entry_of "posixsignalstopcontroller_2ehpp_38" "PosixSignalStopController.hpp" [place_of "../PosixSignalStopController_8hpp.html" true ""];
   entry_of "pour_20une_20revue_20technique_39" "Point important pour une revue technique" [place_of "../md_docs_2README__DOCUMENTATION.html#autotoc_md13" true ""];
   entry_of "principales_20couvertes_40" "Commandes principales couvertes" [place_of "../md_docs_2README__DOCUMENTATION.html#autotoc_md8" true ""];
   entry_of "principles_20visible_20in_20the_20code_41" "Design principles visible in the code" [place_of "../md_README.html#autotoc_md71" true ""];
   entry_of "printusage_42" "printusage" [place_of "../namespacestgs_1_1app_1_1ground__station.html#a42ae5cdfc32ceb72f4337d6f3bd641ef" true "stgs::app::ground_station::printUsage()"; place_of "../namespacestgs_1_1app_1_1simulator.html#ac8da0b08da8261007c889cf3cd00dc22" true "stgs::app::simulator::printUsage()"];
   entry_of "probetcpport_43" "probeTcpPort" [place_of "../namespacestgs.html#a31f0fdd245489f09a743aa8df55707df" true "stgs"];
   entry_of "processapplicationpayload_44" "processApplicationPayload" [place_of "../namespacestgs_1_1app_1_1ground__station.html#a0d507efe3c231057079de3c7ca8c07ee" true "stgs::app::ground_station"];
   entry_of "project_20layout_45" "Project layout" [place_of "../md_README.html#autotoc_md70" true ""];
   entry_of "protocol_3a_20stgs_20v1_46" "8. Binary protocol: STGS v1" [place_of "../md_README.html#autotoc_md64" true ""];
   entry_of "protocolversion_47" "ProtocolVersion" [place_of "../namespacestgs.html#a0d1e17892d860b10402bb02f014038cb" true "stgs"];
   entry_of "push_48" "push" [place_of "../classstgs_1_1BlockingQueue.html#a814165c535141ce4b63eedac3f42ea35" true "stgs::BlockingQueue"]].

Definition all_19 : list entry :=
  [entry_of "queuecapacity_0" "queueCapacity" [place_of "../structstgs_1_1app_1_1ground__station_1_1Options.html#af4f4569cdd6e2ef65014f23ab009a256" true "stgs::app::ground_station::Options"]].

Definition all_1a : list entry :=
  [entry_of "réel_0" "Scénario réseau réel" [place_of "../md_docs_2VERIFICATION__REPORT.html#autotoc_md49" true ""];
   entry_of "réseau_20réel_1" "Scénario réseau réel" [place_of "../md_docs_2VERIFICATION__REPORT.html#autotoc_md49" true ""];
   entry_of "randombytes_2" "RandomBytes" [place_of "../namespacestgs_1_1app_1_1simulator.html#a9bc7b0135556745522ad9ee19f291609aa2a9f0580597d09e92901548fc0ae105" true "stgs::app::simulator"];
   entry_of "range_3" "3. Diagnose the local range" [place_of "../md_docs_2SHOWCASE__GUIDE.html#autotoc_md17" true ""];
   entry_of "rapport_20de_20vérification_20stgs_20—_20version_20vitrine_4" "Rapport de vérification STGS — version vitrine" [place_of "../md_docs_2VERIFICATION__REPORT.html" true ""];
   entry_of "rate_5" "rate" [place_of "../structstgs_1_1app_1_1simulator_1_1Options.html#ad3d50e6da6ce383be89c4db416e787de" true "stgs::app::simulator::Options"];
   entry_of "rawrms_6" "rawRms" [place_of "../structstgs_1_1SignalMetrics.html#a940db4bf6f9b1d67d3dee2dadde2c2aa" true "stgs::SignalMetrics"];
   entry_of "rawworkitem_7" "RawWorkItem" [place_of "../structstgs_1_1app_1_1ground__station_1_1RawWorkItem.html" true "stgs::app::ground_station"];
   entry_of "readfloatbe_8" "readFloatBE" [place_of "../namespacestgs_1_1detail.html#a43b10e016ab984cb5800e62c8e8eac0f" true "stgs::detail"];
   entry_of "readme_2emd_9" "README.md" [place_of "../README_8md.html" true ""];
   entry_of "readme_5fdocumentation_2emd_10" "README_DOCUMENTATION.md" [place_of "../README__DOCUMENTATION_8md.html" true ""];
   entry_of "readnext_11" "readNext" [place_of "../classstgs_1_1FrameFileReader.html#ad50184679157d2609da98924b7d0d3ec" true "stgs::FrameFileReader"];
   entry_of "readu16be_12" "readU16BE" [place_of "../namespacestgs_1_1detail.html#a5348b159392823cfed94d84a1632e3c0" true "stgs::detail"];
   entry_of "readu32be_13" "readU32BE" [place_of "../namespacestgs_1_1detail.html#acf588485290204c5dbe14e3e3ca09da5" true "stgs::detail"];
   entry_of "readu64be_14" "readU64BE" [place_of "../namespacestgs_1_1detail.html#aab1552667811a653b12c4bd02ddae7e9" true "stgs::detail"];
   entry_of "reason_15" "reason" [place_of "../structstgs_1_1StationStateTransition.html#a3b9521ff26d6bb0277fd692a8585660e" true "stgs::StationStateTransition"];
   entry_of "received_16" "received" [place_of "../structstgs_1_1app_1_1ground__station_1_1PipelineStats.html#a6bbf8a74c6e79decbbb0a40753524b8c" true "stgs::app::ground_station::PipelineStats"];
   entry_of "receivedmessage_17" "receivedMessage" [place_of "../classstgs_1_1TerminalUi.html#a473df2d3fd1b2c88e11ff4e7cb09fcbd" true "stgs::TerminalUi"];
   entry_of "receivedsignal_18" "receivedSignal" [place_of "../classstgs_1_1TerminalUi.html#ada2090e90ddbbfb3c414946682a62fd9" true "stgs::TerminalUi"];
   entry_of "recompiler_20les_20sources_20latex_19" "Recompiler les sources LaTeX" [place_of "../md_docs_2README__DOCUMENTATION.html#autotoc_md12" true ""];
   entry_of "recorddecoded_20" "recordDecoded" [place_of "../classstgs_1_1StationHealthMonitor.html#a65cdc482ed61ecf137f9c1342359ee25" true "stgs::StationHealthMonitor"];
   entry_of "recordrejected_21" "recordRejected" [place_of "../classstgs_1_1StationHealthMonitor.html#a0badd5e3d5c3368675151eb1bdd9f675" true "stgs::StationHealthMonitor"];
   entry_of "recoveryrejectionrate_22" "recoveryRejectionRate" [place_of "../structstgs_1_1StationHealthConfig.html#a215d90fab1a3b094c89447b95931b05c" true "stgs::StationHealthConfig"];
   entry_of "reference_20measurements_23" "3. Reference measurements" [place_of "../md_docs_2PERFORMANCE__REPORT.html#autotoc_md3" true ""];
   entry_of "registerapplicationsignaltests_24" "registerApplicationSignalTests" [place_of "../namespacestgs_1_1test.html#ac15836adf0f202565f19897f825e9459" true "stgs::test"];
   entry_of "registercodectests_25" "registerCodecTests" [place_of "../namespacestgs_1_1test.html#a37925dfe5c629b8fb952a494927cb8e4" true "stgs::test"];
   entry_of "registernetworktests_26" "registerNetworkTests" [place_of "../namespacestgs_1_1test.html#a6510cc8d707db0a73764a7b5da0f4afa" true "stgs::test"];
   entry_of "registerreplayhealthtests_27" "registerReplayHealthTests" [place_of "../namespacestgs_1_1test.html#a41d470c6ed582556e1b0bc2667babddb" true "stgs::test"];
   entry_of "rejected_28" "rejected" [place_of "../structstgs_1_1app_1_1ground__station_1_1PipelineStats.html#af20c52495ea4e9557834bb188761a541" true "stgs::app::ground_station::PipelineStats::rejected"; place_of "../structstgs_1_1StationHealthSnapshot.html#aa162466ca72e25fa9388591a5816191b" true "stgs::StationHealthSnapshot::rejected"];
   entry_of "rejectionrate_29" "rejectionRate" [place_of "../structstgs_1_1StationHealthSnapshot.html#a531393faf1e6b8670a9d458564e20447" true "stgs::StationHealthSnapshot"];
   entry_of "replay_30" "replay" [place_of "../md_docs_2TECHNICAL__DESIGN.html#autotoc_md37" true "14. STGF replay"; place_of "../md_README.html#autotoc_md62" true "6. Capture and replay"];
   entry_of "replay_2ecpp_31" "Replay.cpp" [place_of "../Replay_8cpp.html" true ""];
   entry_of "replay_2ehpp_32" "Replay.hpp" [place_of "../Replay_8hpp.html" true ""];
   entry_of "replayfile_33" "replayFile" [place_of "../structstgs_1_1app_1_1ground__station_1_1Options.html#a109bbdd00184c8802f0ce2b084ff35ac" true "stgs::app::ground_station::Options"];
   entry_of "replayrate_34" "replayRate" [place_of "../structstgs_1_1app_1_1ground__station_1_1Options.html#a9f159bf68cd950a84943d26e6dfc7bed" true "stgs::app::ground_station::Options"];
   entry_of "report_3a_20space_20telemetry_20ground_20station_35" "Performance Report: Space Telemetry Ground Station" [place_of "../md_docs_2PERFORMANCE__REPORT.html" true ""];
   entry_of "reproducibility_20checklist_36" "5. Reproducibility checklist" [place_of "../md_docs_2PERFORMANCE__REPORT.html#autotoc_md5" true ""];
   entry_of "requirements_37" "Requirements" [place_of "../md_README.html#autotoc_md55" true ""];
   entry_of "residualnoiserms_38" "residualNoiseRms" [place_of "../structstgs_1_1SignalMetrics.html#ac9d4ed617c5141ac515a160a9dcaaf8e" true "stgs::SignalMetrics"];
   entry_of "resolveoutputformat_39" "resolveOutputFormat" [place_of "../namespacestgs_1_1app_1_1ground__station.html#affad379af8c3fc0ea84ac38d73164582" true "stgs::app::ground_station"];
   entry_of "result_40" "result" [place_of "../structstgs_1_1app_1_1ground__station_1_1DecodedWorkItem.html#a8cba3f9f7ba930fe5ae722b4d953fce8" true "stgs::app::ground_station::DecodedWorkItem"];
   entry_of "rethrowifpresent_41" "rethrowIfPresent" [place_of "../classstgs_1_1app_1_1ground__station_1_1AsyncFailure.html#a954e8aad79cb6da0637af5f80f50695a" true "stgs::app::ground_station::AsyncFailure"];
   entry_of "rethrowthreaderror_42" "rethrowThreadError" [place_of "../namespacestgs_1_1test.html#a1895bfde0ed8a5447448e60603f5ea07" true "stgs::test"];
   entry_of "revue_20technique_43" "Point important pour une revue technique" [place_of "../md_docs_2README__DOCUMENTATION.html#autotoc_md13" true ""];
   entry_of "run_44" "run" [place_of "../namespacestgs_1_1app_1_1simulator.html#abd617338ab0f74c5f58570eff7308cb4" true "stgs::app::simulator::run()"; place_of "../classstgs_1_1NetworkServer.html#a6acf0bea7fe9249345e6f096ccffa347" true "stgs::NetworkServer::run()"; place_of "../namespacestgs_1_1app_1_1ground__station.html#a0a2153806b7da8fb962bffb9f7ce5d88" true "stgs::app::ground_station::run()"; place_of "../classstgs_1_1app_1_1ground__station_1_1GroundStationPipeline.html#a26cb67946ac332611a4ca64dd1fbcea3" true "stgs::app::ground_station::GroundStationPipeline::run()"]].

Definition all_1b : list entry :=
  [entry_of "safemode_0" "SafeMode" [place_of "../namespacestgs.html#a61ca9382bebac8640e15d2338a9eb8afabe9942a71fc5150a76b9f61f281de1b9" true "stgs"];
   entry_of "sampled_20wave_1" "5. Send a noisy sampled wave" [place_of "../md_docs_2SHOWCASE__GUIDE.html#autotoc_md19" true ""];
   entry_of "sampleframe_2" "sampleFrame" [place_of "../namespacestgs_1_1test.html#ae0b7a89f66739b8818b8cb70a43847a0" true "stgs::test"];
   entry_of "sampleratehz_3" "sampleratehz" [place_of "../structstgs_1_1app_1_1simulator_1_1Options.html#a31f7c4dc336360f800ac4f4b553e00a5" true "stgs::app::simulator::Options::sampleRateHz"; place_of "../structstgs_1_1SignalBlockPayload.html#ac4c8789330f8ad372a3fca1334bd1c23" true "stgs::SignalBlockPayload::sampleRateHz"];
   entry_of "samples_4" "samples" [place_of "../structstgs_1_1SignalBlockPayload.html#acc005fc6b49bb551b8af112c85fe9a4f" true "stgs::SignalBlockPayload::samples"; place_of "../structstgs_1_1StationHealthSnapshot.html#ac076771cb4b6b4382f3de6640f7ce96d" true "stgs::StationHealthSnapshot::samples"];
   entry_of "sanitizeremotetext_5" "sanitizeRemoteText" [place_of "../classstgs_1_1TerminalUi.html#a2d3f47e6d3f62d5650686d67b6bfeef9" true "stgs::TerminalUi"];
   entry_of "sanitizers_6" "sanitizers" [place_of "../md_README.html#autotoc_md68" true "11. Testing and sanitizers"; place_of "../md_docs_2VERIFICATION__REPORT.html#autotoc_md46" true "Sanitizers"];
   entry_of "satellite_5fsimulator_2ecpp_7" "satellite_simulator.cpp" [place_of "../satellite__simulator_8cpp.html" true ""];
   entry_of "satelliteid_8" "satelliteid" [place_of "../structstgs_1_1app_1_1simulator_1_1Options.html#afa7f9572268bc6705bae9331624e9f6c" true "stgs::app::simulator::Options::satelliteId"; place_of "../structstgs_1_1TelemetryFrame.html#a7f471964a23c24e508e48ea1466ac4c9" true "stgs::TelemetryFrame::satelliteId"];
   entry_of "satelliteidoffset_9" "SatelliteIdOffset" [place_of "../namespacestgs.html#aa8866bb9f2fbb06067d64f767c57f05c" true "stgs"];
   entry_of "scénario_20réseau_20réel_10" "Scénario réseau réel" [place_of "../md_docs_2VERIFICATION__REPORT.html#autotoc_md49" true ""];
   entry_of "scantcpports_11" "scanTcpPorts" [place_of "../namespacestgs.html#a53f008098655c7495554541d87b0872e" true "stgs"];
   entry_of "scope_12" "1. Scope" [place_of "../md_docs_2PERFORMANCE__REPORT.html#autotoc_md1" true ""];
   entry_of "scope_20and_20intent_13" "1. Scope and intent" [place_of "../md_docs_2TECHNICAL__DESIGN.html#autotoc_md24" true ""];
   entry_of "scope_20statement_14" "8. Scope statement" [place_of "../md_docs_2SHOWCASE__GUIDE.html#autotoc_md22" true ""];
   entry_of "section_15" "section" [place_of "../classstgs_1_1TerminalUi.html#a47273df409944d53f44113a0b6953a22" true "stgs::TerminalUi"];
   entry_of "seed_16" "seed" [place_of "../structstgs_1_1app_1_1simulator_1_1Options.html#a1a94dde0d2e6935b0bc83208e5326993" true "stgs::app::simulator::Options"];
   entry_of "selection_20and_20diagnostics_17" "2. Automatic local port selection and diagnostics" [place_of "../md_README.html#autotoc_md58" true ""];
   entry_of "send_20a_20message_18" "4. Send a message" [place_of "../md_docs_2SHOWCASE__GUIDE.html#autotoc_md18" true ""];
   entry_of "send_20a_20noisy_20sampled_20wave_19" "5. Send a noisy sampled wave" [place_of "../md_docs_2SHOWCASE__GUIDE.html#autotoc_md19" true ""];
   entry_of "send_20a_20noisy_20wave_20and_20filter_20it_20" "4. Send a noisy wave and filter it" [place_of "../md_README.html#autotoc_md60" true ""];
   entry_of "send_20and_20display_20a_20text_20message_21" "3. Send and display a text message" [place_of "../md_README.html#autotoc_md59" true ""];
   entry_of "sendall_22" "sendAll" [place_of "../namespacestgs_1_1app_1_1simulator.html#a416941f121efdd1b7eee966bde5c0ad4" true "stgs::app::simulator"];
   entry_of "sendexact_23" "sendExact" [place_of "../namespacestgs_1_1test.html#a679c47ac3889440f2332b350e2fe6dcf" true "stgs::test"];
   entry_of "sequence_24" "sequence" [place_of "../structstgs_1_1TextMessagePayload.html#a74eb74e7d9d01d2335926dbd227d17f8" true "stgs::TextMessagePayload::sequence"; place_of "../structstgs_1_1app_1_1ground__station_1_1RawWorkItem.html#afdd80733f6b0f098459da24c7cd82f81" true "stgs::app::ground_station::RawWorkItem::sequence"; place_of "../structstgs_1_1app_1_1ground__station_1_1DecodedWorkItem.html#acc367717ff78c1d60024cb03205157d4" true "stgs::app::ground_station::DecodedWorkItem::sequence"];
   entry_of "setminlevel_25" "setMinLevel" [place_of "../classstgs_1_1Logger.html#a7fdc082b00eb8327ed015b4478df616b" true "stgs::Logger"];
   entry_of "showcase_20guide_26" "STGS Showcase Guide" [place_of "../md_docs_2SHOWCASE__GUIDE.html" true ""];
   entry_of "showcase_5fguide_2emd_27" "SHOWCASE_GUIDE.md" [place_of "../SHOWCASE__GUIDE_8md.html" true ""];
   entry_of "signal_28" "Signal" [place_of "../namespacestgs_1_1app_1_1simulator.html#a9bc7b0135556745522ad9ee19f291609a085fea7abdc5d904fe69a3081efd7398" true "stgs::app::simulator"];
   entry_of "signal_20generation_20noise_20and_20filtering_29" "10. Signal generation, noise and filtering" [place_of "../md_docs_2TECHNICAL__DESIGN.html#autotoc_md33" true ""];
   entry_of "signalamplitude_30" "signalAmplitude" [place_of "../structstgs_1_1app_1_1simulator_1_1Options.html#aa3dfb2846769581622dfb17c2f9b0945" true "stgs::app::simulator::Options"];
   entry_of "signalblock_31" "SignalBlock" [place_of "../namespacestgs.html#a9bdca5c4652fbfd0ea0d649134cc5e2ba2c22e731a28aff373ce68863d2628abc" true "stgs"];
   entry_of "signalblockfixedwiresize_32" "SignalBlockFixedWireSize" [place_of "../namespacestgs.html#a5be2a744a7b57928b157df2f4b6babc3" true "stgs"];
   entry_of "signalblockpayload_33" "SignalBlockPayload" [place_of "../structstgs_1_1SignalBlockPayload.html" true "stgs"];
   entry_of "signalfilter_34" "signalFilter" [place_of "../structstgs_1_1app_1_1ground__station_1_1Options.html#ad5f9bcb7d6564a7b7f3e54e14d0eaf92" true "stgs::app::ground_station::Options"];
   entry_of "signalfiltermode_35" "SignalFilterMode" [place_of "../namespacestgs.html#ad6d6eb8010ca5d7fa98b1ab91ee2792c" true "stgs"];
   entry_of "signalfiltermodetostring_36" "signalFilterModeToString" [place_of "../namespacestgs.html#a50f2f8ec0839574a23fbf2fa3a7e2778" true "stgs"];
   entry_of "signalfrequencyhz_37" "signalFrequencyHz" [place_of "../structstgs_1_1app_1_1simulator_1_1Options.html#a4d3951ffa0baa81bd61f96a269009dd4" true "stgs::app::simulator::Options"];
   entry_of "signalmetrics_38" "SignalMetrics" [place_of "../structstgs_1_1SignalMetrics.html" true "stgs"];
   entry_of "signalprocessing_2ecpp_39" "SignalProcessing.cpp" [place_of "../SignalProcessing_8cpp.html" true ""];
   entry_of "signalprocessing_2ehpp_40" "SignalProcessing.hpp" [place_of "../SignalProcessing_8hpp.html" true ""];
   entry_of "signalsamples_41" "signalSamples" [place_of "../structstgs_1_1app_1_1simulator_1_1Options.html#a46df4ae2374ceb30b18b559a064fbfcb" true "stgs::app::simulator::Options"];
   entry_of "signalsamplewiresize_42" "SignalSampleWireSize" [place_of "../namespacestgs.html#a254c9e97079925357922b1b95e69d74f" true "stgs"];
   entry_of "simulateur_43" "Simulateur" [place_of "../md_docs_2README__DOCUMENTATION.html#autotoc_md10" true ""];
   entry_of "simulatorapp_2ecpp_44" "SimulatorApp.cpp" [place_of "../SimulatorApp_8cpp.html" true ""];
   entry_of "simulatorapp_2ehpp_45" "SimulatorApp.hpp" [place_of "../SimulatorApp_8hpp.html" true ""];
   entry_of "simulatorframefactory_2ecpp_46" "SimulatorFrameFactory.cpp" [place_of "../SimulatorFrameFactory_8cpp.html" true ""];
   entry_of "simulatorframefactory_2ehpp_47" "SimulatorFrameFactory.hpp" [place_of "../SimulatorFrameFactory_8hpp.html" true ""];
   entry_of "simulatoroptions_2ecpp_48" "SimulatorOptions.cpp" [place_of "../SimulatorOptions_8cpp.html" true ""];
   entry_of "simulatoroptions_2ehpp_49" "SimulatorOptions.hpp" [place_of "../SimulatorOptions_8hpp.html" true ""];
   entry_of "simulatorsocket_2ecpp_50" "SimulatorSocket.cpp" [place_of "../SimulatorSocket_8cpp.html" true ""];
   entry_of "simulatorsocket_2ehpp_51" "SimulatorSocket.hpp" [place_of "../SimulatorSocket_8hpp.html" true ""];
   entry_of "simulatorusage_2ecpp_52" "SimulatorUsage.cpp" [place_of "../SimulatorUsage_8cpp.html" true ""];
   entry_of "sincoefficient_53" "sinCoefficient" [place_of "../SignalProcessing_8cpp.html#ab3e66d17e811e3952f9f74cc9f759bcf" true "SignalProcessing.cpp"];
   entry_of "sineprojection_54" "SineProjection" [place_of "../namespacestgs.html#ad6d6eb8010ca5d7fa98b1ab91ee2792ca99d4f47a09480d4ead93b264ce3532bb" true "stgs"];
   entry_of "sineprojectionfilter_55" "sineProjectionFilter" [place_of "../namespacestgs.html#a56200a6087e716885d56efa37b538687" true "stgs"];
   entry_of "size_56" "size" [place_of "../classstgs_1_1BlockingQueue.html#a7bc22def269faad2dbaf661bf628991e" true "stgs::BlockingQueue"];
   entry_of "snapshot_57" "snapshot" [place_of "../classstgs_1_1StationHealthMonitor.html#aad7088b2d36134d9fe303dfae3b4b585" true "stgs::StationHealthMonitor::snapshot()"; place_of "../structstgs_1_1StationStateTransition.html#a1248dc626d4b84c6867b0325bee95a24" true "stgs::StationStateTransition::snapshot"];
   entry_of "snapshot_20invariant_58" "7. TCP behavior and the poll snapshot invariant" [place_of "../md_docs_2TECHNICAL__DESIGN.html#autotoc_md30" true ""];
   entry_of "socketfd_59" "socketfd" [place_of "../classstgs_1_1app_1_1simulator_1_1SocketFd.html" true "stgs::app::simulator::SocketFd"; place_of "../classstgs_1_1app_1_1simulator_1_1SocketFd.html#a2819ea4c0dbcc30d0833df100c821fc6" true "stgs::app::simulator::SocketFd::SocketFd(int fd=-1) noexcept"; place_of "../classstgs_1_1app_1_1simulator_1_1SocketFd.html#a1f57a7e1382c7f71f7626e609d06d64d" true "stgs::app::simulator::SocketFd::SocketFd(const SocketFd &amp;)=delete"; place_of "../classstgs_1_1app_1_1simulator_1_1SocketFd.html#a48a21e47a4456827842bfb7caf2e872f" true "stgs::app::simulator::SocketFd::SocketFd(SocketFd &amp;&amp;other) noexcept"];
   entry_of "sol_60" "Station sol" [place_of "../md_docs_2README__DOCUMENTATION.html#autotoc_md9" true ""];
   entry_of "sortie_61" "Déterminisme et formats de sortie" [place_of "../md_docs_2VERIFICATION__REPORT.html#autotoc_md50" true ""];
   entry_of "sources_20latex_62" "Recompiler les sources LaTeX" [place_of "../md_docs_2README__DOCUMENTATION.html#autotoc_md12" true ""];
   entry_of "space_20telemetry_20ground_20station_63" "space telemetry ground station" [place_of "../md_README.html" true "C++ Space Telemetry Ground Station"; place_of "../md_docs_2PERFORMANCE__REPORT.html" true "Performance Report: Space Telemetry Ground Station"; place_of "../md_docs_2TECHNICAL__DESIGN.html" true "Technical Design: Space Telemetry Ground Station"];
   entry_of "sparkline_64" "sparkline" [place_of "../classstgs_1_1TerminalUi.html#aab7aa21c7536c3803bfac9d7ac70ef16" true "stgs::TerminalUi"];
   entry_of "start_20a_20station_20without_20manually_20choosing_20a_20port_65" "2. Start a station without manually choosing a port" [place_of "../md_docs_2SHOWCASE__GUIDE.html#autotoc_md16" true ""];
   entry_of "startsampleindex_66" "startSampleIndex" [place_of "../structstgs_1_1SignalBlockPayload.html#a53686760a63a50567c62cb70bb6fe5d6" true "stgs::SignalBlockPayload"];
   entry_of "state_67" "state" [place_of "../structstgs_1_1TcpPortProbeResult.html#a4ad18ed976e1f6df94ec358f40d32256" true "stgs::TcpPortProbeResult::state"; place_of "../structstgs_1_1StationHealthSnapshot.html#a61fd8b5b83ce472ef2e205931c1b9f83" true "stgs::StationHealthSnapshot::state"; place_of "../classstgs_1_1StationHealthMonitor.html#a2a6580a4fd3ae5885e1503d56ba19c8c" true "stgs::StationHealthMonitor::state()"];
   entry_of "statement_68" "8. Scope statement" [place_of "../md_docs_2SHOWCASE__GUIDE.html#autotoc_md22" true ""];
   entry_of "station_69" "station" [place_of "../md_README.html" true "C++ Space Telemetry Ground Station"; place_of "../md_docs_2PERFORMANCE__REPORT.html" true "Performance Report: Space Telemetry Ground Station"; place_of "../md_docs_2TECHNICAL__DESIGN.html" true "Technical Design: Space Telemetry Ground Station"];
   entry_of "station_20sol_70" "Station sol" [place_of "../md_docs_2README__DOCUMENTATION.html#autotoc_md9" true ""];
   entry_of "station_20without_20manually_20choosing_20a_20port_71" "2. Start a station without manually choosing a port" [place_of "../md_docs_2SHOWCASE__GUIDE.html#autotoc_md16" true ""];
   entry_of "stationhealth_2ecpp_72" "StationHealth.cpp" [place_of "../StationHealth_8cpp.html" true ""];
   entry_of "stationhealth_2ehpp_73" "StationHealth.hpp" [place_of "../StationHealth_8hpp.html" true ""];
   entry_of "stationhealthconfig_74" "StationHealthConfig" [place_of "../structstgs_1_1StationHealthConfig.html" true "stgs"];
   entry_of "stationhealthmonitor_75" "stationhealthmonitor" [place_of "../classstgs_1_1StationHealthMonitor.html" true "stgs::StationHealthMonitor"; place_of "../classstgs_1_1StationHealthMonitor.html#a5b331b0d4c6ef23f6b5539ef7acd86de" true "stgs::StationHealthMonitor::StationHealthMonitor(StationHealthConfig config={})"; place_of "../classstgs_1_1StationHealthMonitor.html#adfccc996d2c348fc662491e15e7e9094" true "stgs::StationHealthMonitor::StationHealthMonitor(const StationHealthMonitor &amp;)=delete"];
   entry_of "stationhealthsnapshot_76" "StationHealthSnapshot" [place_of "../structstgs_1_1StationHealthSnapshot.html" true "stgs"];
   entry_of "stationstate_77" "StationState" [place_of "../namespacestgs.html#af145a1e8f5e0f55d9178bafa1faacb7e" true "stgs"];
   entry_of "stationstatetostring_78" "stationStateToString" [place_of "../namespacestgs.html#aab97099af93b31681943b81e22a072f9" true "stgs"];
   entry_of "stationstatetransition_79" "StationStateTransition" [place_of "../structstgs_1_1StationStateTransition.html" true "stgs"];
   entry_of "statique_20complémentaire_80" "Analyse statique complémentaire" [place_of "../md_docs_2VERIFICATION__REPORT.html#autotoc_md47" true ""];
   entry_of "stats_81" "stats" [place_of "../classstgs_1_1app_1_1ground__station_1_1GroundStationPipeline.html#a0ccdbc02e3cf4550017e0bc3cb7843eb" true "stgs::app::ground_station::GroundStationPipeline"];
   entry_of "status_82" "status" [place_of "../structstgs_1_1TelemetryFrame.html#a823f07b9cf54cab10219ca4491c20435" true "stgs::TelemetryFrame::status"; place_of "../namespacestgs.html#a61ca9382bebac8640e15d2338a9eb8af" true "stgs::Status"];
   entry_of "statusline_83" "statusLine" [place_of "../classstgs_1_1TerminalUi.html#ad63a28060f9eab714bcdbd1a7b1e925a" true "stgs::TerminalUi"];
   entry_of "statusoffset_84" "StatusOffset" [place_of "../namespacestgs.html#aec51795d1382632f3af398d04dfc7599" true "stgs"];
   entry_of "statustostring_85" "statusToString" [place_of "../namespacestgs.html#ab4e19b7617cb12defb08493a6b3cdaff" true "stgs"];
   entry_of "stga_20application_20payload_86" "9. STGA application payload" [place_of "../md_docs_2TECHNICAL__DESIGN.html#autotoc_md32" true ""];
   entry_of "stga_20v1_87" "9. Typed application payload: STGA v1" [place_of "../md_README.html#autotoc_md66" true ""];
   entry_of "stgf_20replay_88" "14. STGF replay" [place_of "../md_docs_2TECHNICAL__DESIGN.html#autotoc_md37" true ""];
   entry_of "stgs_89" "stgs" [place_of "../namespacestgs.html" true ""];
   entry_of "stgs_20—_20version_20vitrine_90" "Rapport de vérification STGS — version vitrine" [place_of "../md_docs_2VERIFICATION__REPORT.html" true ""];
   entry_of "stgs_20documentation_20d_20execution_91" "STGS - Documentation d&apos;execution" [place_of "../md_docs_2README__DOCUMENTATION.html" true ""];
   entry_of "stgs_20showcase_20guide_92" "STGS Showcase Guide" [place_of "../md_docs_2SHOWCASE__GUIDE.html" true ""];
   entry_of "stgs_20v1_93" "8. Binary protocol: STGS v1" [place_of "../md_README.html#autotoc_md64" true ""];
   entry_of "stgs_20v1_20wire_20format_94" "3. STGS v1 wire format" [place_of "../md_docs_2TECHNICAL__DESIGN.html#autotoc_md26" true ""];
   entry_of "stgs_3a_3aapp_95" "app" [place_of "../namespacestgs_1_1app.html" true "stgs"];
   entry_of "stgs_3a_3aapp_3a_3aground_5fstation_96" "ground_station" [place_of "../namespacestgs_1_1app_1_1ground__station.html" true "stgs::app"];
   entry_of "stgs_3a_3aapp_3a_3asimulator_97" "simulator" [place_of "../namespacestgs_1_1app_1_1simulator.html" true "stgs::app"];
   entry_of "stgs_3a_3adetail_98" "detail" [place_of "../namespacestgs_1_1detail.html" true "stgs"];
   entry_of "stgs_3a_3atest_99" "test" [place_of "../namespacestgs_1_1test.html" true "stgs"];
   entry_of "stop_100" "stop" [place_of "../classstgs_1_1NetworkServer.html#ad09bd13117e7641f80e89553a56af016" true "stgs::NetworkServer"];
   entry_of "strategy_101" "16. Testing strategy" [place_of "../md_docs_2TECHNICAL__DESIGN.html#autotoc_md39" true ""];
   entry_of "streamframeextractor_102" "StreamFrameExtractor" [place_of "../classstgs_1_1StreamFrameExtractor.html" true "stgs"];
   entry_of "stricte_103" "Compilation stricte" [place_of "../md_docs_2VERIFICATION__REPORT.html#autotoc_md44" true ""];
   entry_of "success_104" "Success" [place_of "../namespacestgs.html#aed082ae37dc19f30579b2d7981342c1ea505a83f220c02df2f85c3810cd9ceb38" true "stgs"]].

Definition all_1c : list entry :=
  [entry_of "tcp_0" "tcp" [place_of "../namespacestgs.html#adbb66f14d66c3f994511b242f7cdfbe6a30b7fdeebc36988717d0e274cc2e7520" true "stgs::Tcp"; place_of "../namespacestgs.html#ab99ad0f4a1a1fb197aab95d7286a9a7ea30b7fdeebc36988717d0e274cc2e7520" true "stgs::Tcp"];
   entry_of "tcp_20behavior_20and_20the_20poll_20snapshot_20invariant_1" "7. TCP behavior and the poll snapshot invariant" [place_of "../md_docs_2TECHNICAL__DESIGN.html#autotoc_md30" true ""];
   entry_of "tcp_20telemetry_2" "1. Live TCP telemetry" [place_of "../md_README.html#autotoc_md57" true ""];
   entry_of "tcpportproberesult_3" "TcpPortProbeResult" [place_of "../structstgs_1_1TcpPortProbeResult.html" true "stgs"];
   entry_of "tcpportstate_4" "TcpPortState" [place_of "../namespacestgs.html#ab73dc2ebbed2d6799b14a329f2e691cc" true "stgs"];
   entry_of "tcpportstatetostring_5" "tcpPortStateToString" [place_of "../namespacestgs.html#a076b443733c851d7d25ccbfb195d5771" true "stgs"];
   entry_of "technical_20design_3a_20space_20telemetry_20ground_20station_6" "Technical Design: Space Telemetry Ground Station" [place_of "../md_docs_2TECHNICAL__DESIGN.html" true ""];
   entry_of "technical_5fdesign_2emd_7" "TECHNICAL_DESIGN.md" [place_of "../TECHNICAL__DESIGN_8md.html" true ""];
   entry_of "technique_8" "Point important pour une revue technique" [place_of "../md_docs_2README__DOCUMENTATION.html#autotoc_md13" true ""];
   entry_of "telemetry_9" "telemetry" [place_of "../md_README.html#autotoc_md57" true "1. Live TCP telemetry"; place_of "../md_README.html#autotoc_md61" true "5. UDP telemetry"];
   entry_of "telemetry_20ground_20station_10" "telemetry ground station" [place_of "../md_README.html" true "C++ Space Telemetry Ground Station"; place_of "../md_docs_2PERFORMANCE__REPORT.html" true "Performance Report: Space Telemetry Ground Station"; place_of "../md_docs_2TECHNICAL__DESIGN.html" true "Technical Design: Space Telemetry Ground Station"];
   entry_of "telemetryframe_11" "TelemetryFrame" [place_of "../structstgs_1_1TelemetryFrame.html" true "stgs"];
   entry_of "telemetryframe_2ehpp_12" "TelemetryFrame.hpp" [place_of "../TelemetryFrame_8hpp.html" true ""];
   entry_of "telemetryoutput_13" "telemetryoutput" [place_of "../classstgs_1_1app_1_1ground__station_1_1TelemetryOutput.html#af291968b2673d360296e1a7d9d162e41" true "stgs::app::ground_station::TelemetryOutput::TelemetryOutput()"; place_of "../classstgs_1_1app_1_1ground__station_1_1TelemetryOutput.html" true "stgs::app::ground_station::TelemetryOutput"];
   entry_of "telemetryoutput_2ecpp_14" "TelemetryOutput.cpp" [place_of "../TelemetryOutput_8cpp.html" true ""];
   entry_of "telemetryoutput_2ehpp_15" "TelemetryOutput.hpp" [place_of "../TelemetryOutput_8hpp.html" true ""];
   entry_of "temperaturec_16" "temperatureC" [place_of "../structstgs_1_1TelemetryFrame.html#ad9b76aa85f3c942dca16992a0e3359a6" true "stgs::TelemetryFrame"];
   entry_of "temperatureoffset_17" "TemperatureOffset" [place_of "../namespacestgs.html#a6bf948dc56fd22c752bee7833ba8669b" true "stgs"];
   entry_of "terminal_20observability_18" "12. Terminal observability" [place_of "../md_docs_2TECHNICAL__DESIGN.html#autotoc_md35" true ""];
   entry_of "terminalstatus_19" "TerminalStatus" [place_of "../namespacestgs.html#aed082ae37dc19f30579b2d7981342c1e" true "stgs"];
   entry_of "terminalui_20" "terminalui" [place_of "../classstgs_1_1TerminalUi.html" true "stgs::TerminalUi"; place_of "../classstgs_1_1TerminalUi.html#a0a67851409e5b8bfd80e6106ad908152" true "stgs::TerminalUi::TerminalUi()"];
   entry_of "terminalui_2ecpp_21" "TerminalUi.cpp" [place_of "../TerminalUi_8cpp.html" true ""];
   entry_of "terminalui_2ehpp_22" "TerminalUi.hpp" [place_of "../TerminalUi_8hpp.html" true ""];
   entry_of "test_5fapplication_5fsignal_2ecpp_23" "test_application_signal.cpp" [place_of "../test__application__signal_8cpp.html" true ""];
   entry_of "test_5fcodec_2ecpp_24" "test_codec.cpp" [place_of "../test__codec_8cpp.html" true ""];
   entry_of "test_5fmain_2ecpp_25" "test_main.cpp" [place_of "../test__main_8cpp.html" true ""];
   entry_of "test_5fnetwork_2ecpp_26" "test_network.cpp" [place_of "../test__network_8cpp.html" true ""];
   entry_of "test_5freplay_5fhealth_2ecpp_27" "test_replay_health.cpp" [place_of "../test__replay__health_8cpp.html" true ""];
   entry_of "testing_20and_20sanitizers_28" "11. Testing and sanitizers" [place_of "../md_README.html#autotoc_md68" true ""];
   entry_of "testing_20strategy_29" "16. Testing strategy" [place_of "../md_docs_2TECHNICAL__DESIGN.html#autotoc_md39" true ""];
   entry_of "testregistry_30" "TestRegistry" [place_of "../namespacestgs_1_1test.html#af97d6ca686906b09206be3256f2dd619" true "stgs::test"];
   entry_of "tests_20diagnostic_20et_20benchmark_31" "Build, tests, diagnostic et benchmark" [place_of "../md_docs_2README__DOCUMENTATION.html#autotoc_md11" true ""];
   entry_of "tests_20unitaires_20et_20d_20intégration_32" "Tests unitaires et d&apos;intégration" [place_of "../md_docs_2VERIFICATION__REPORT.html#autotoc_md45" true ""];
   entry_of "testsupport_2ecpp_33" "TestSupport.cpp" [place_of "../TestSupport_8cpp.html" true ""];
   entry_of "testsupport_2ehpp_34" "TestSupport.hpp" [place_of "../TestSupport_8hpp.html" true ""];
   entry_of "text_35" "text" [place_of "../structstgs_1_1TextMessagePayload.html#aeb61a98826eced0f2e3708c7f9f40245" true "stgs::TextMessagePayload"];
   entry_of "text_20message_36" "3. Send and display a text message" [place_of "../md_README.html#autotoc_md59" true ""];
   entry_of "textmessage_37" "textmessage" [place_of "../namespacestgs.html#a9bdca5c4652fbfd0ea0d649134cc5e2ba7c6780205e72574bf2c46ce408ad9144" true "stgs::TextMessage"; place_of "../namespacestgs_1_1app_1_1simulator.html#a9bc7b0135556745522ad9ee19f291609a7c6780205e72574bf2c46ce408ad9144" true "stgs::app::simulator::TextMessage"];
   entry_of "textmessagefixedwiresize_38" "TextMessageFixedWireSize" [place_of "../namespacestgs.html#ac10ffae257f2baf0aa6002c88dd1a4dc" true "stgs"];
   entry_of "textmessagepayload_39" "TextMessagePayload" [place_of "../structstgs_1_1TextMessagePayload.html" true "stgs"];
   entry_of "the_20code_40" "Design principles visible in the code" [place_of "../md_README.html#autotoc_md71" true ""];
   entry_of "the_20local_20range_41" "3. Diagnose the local range" [place_of "../md_docs_2SHOWCASE__GUIDE.html#autotoc_md17" true ""];
   entry_of "the_20poll_20snapshot_20invariant_42" "7. TCP behavior and the poll snapshot invariant" [place_of "../md_docs_2TECHNICAL__DESIGN.html#autotoc_md30" true ""];
   entry_of "timeout_43" "Timeout" [place_of "../namespacestgs.html#ab73dc2ebbed2d6799b14a329f2e691ccac85a251cc457840f1e032f1b733e9398" true "stgs"];
   entry_of "timestampms_44" "timestampMs" [place_of "../structstgs_1_1TelemetryFrame.html#a6081ce170d96c1e13eaa8c4ca7160dd4" true "stgs::TelemetryFrame"];
   entry_of "timestampoffset_45" "TimestampOffset" [place_of "../namespacestgs.html#a867f27d9ee6a3a3d335df03d00f13cd7" true "stgs"];
   entry_of "to_46" "to" [place_of "../structstgs_1_1StationStateTransition.html#aa9cb317dd2dad860e2abc60e80e5c28f" true "stgs::StationStateTransition"];
   entry_of "tooshort_47" "TooShort" [place_of "../namespacestgs.html#a6c3c97c875363adab257eb270bb20f14a6eee5d8d5a91916f53b80d55d9f9c83f" true "stgs"];
   entry_of "tostring_48" "toString" [place_of "../namespacestgs.html#a8f567dceabc386f4dc5d2f139fae69ac" true "stgs"];
   entry_of "trace_49" "trace" [place_of "../classstgs_1_1Logger.html#af61fa84f5e582f599b428efd3c283879" true "stgs::Logger::trace()"; place_of "../namespacestgs.html#a2b4a335983593d5d8d599d58cd7ee203add4ec0ac4e58f7c32a01244ae91150b1" true "stgs::Trace"];
   entry_of "transport_50" "transport" [place_of "../namespacestgs.html#adbb66f14d66c3f994511b242f7cdfbe6" true "stgs::Transport"; place_of "../structstgs_1_1NetworkConfig.html#aabf99168958ae5f00024382e0e089aff" true "stgs::NetworkConfig::transport"; place_of "../structstgs_1_1app_1_1simulator_1_1Options.html#ab17bc535171a0866e18711806b92c286" true "stgs::app::simulator::Options::transport"; place_of "../structstgs_1_1app_1_1ground__station_1_1Options.html#a8363f2a4b199c5aac9eaee4ea56943c4" true "stgs::app::ground_station::Options::transport"];
   entry_of "transporttostring_51" "transportToString" [place_of "../namespacestgs.html#a5c6b2b1538926a6420d12849fb22ff90" true "stgs"];
   entry_of "truncatedheader_52" "TruncatedHeader" [place_of "../namespacestgs.html#a2aa48089627d210628f45038315de28aa5e63b9f767a2252ca59af743ed2121e0" true "stgs"];
   entry_of "typed_20application_20payload_3a_20stga_20v1_53" "9. Typed application payload: STGA v1" [place_of "../md_README.html#autotoc_md66" true ""]].

Definition all_1d : list entry :=
  [entry_of "u16wiresize_0" "U16WireSize" [place_of "../namespacestgs.html#af2586a68e7d836e1815c183ffd22bde5" true "stgs"];
   entry_of "u32wiresize_1" "U32WireSize" [place_of "../namespacestgs.html#a07a576431ae9ee72b588a1f8bcf07b90" true "stgs"];
   entry_of "u64wiresize_2" "U64WireSize" [place_of "../namespacestgs.html#a42fa9eaff75bb80aaa74602e62a4e280" true "stgs"];
   entry_of "u8wiresize_3" "U8WireSize" [place_of "../namespacestgs.html#a417e7de760f578b8de7e6a218852157b" true "stgs"];
   entry_of "udp_4" "udp" [place_of "../namespacestgs.html#adbb66f14d66c3f994511b242f7cdfbe6a81baba40274ccb30f9fdfa2c73cf0482" true "stgs::Udp"; place_of "../namespacestgs.html#ab99ad0f4a1a1fb197aab95d7286a9a7ea81baba40274ccb30f9fdfa2c73cf0482" true "stgs::Udp"];
   entry_of "udp_20behavior_5" "6. UDP behavior" [place_of "../md_docs_2TECHNICAL__DESIGN.html#autotoc_md29" true ""];
   entry_of "udp_20telemetry_6" "5. UDP telemetry" [place_of "../md_README.html#autotoc_md61" true ""];
   entry_of "une_20revue_20technique_7" "Point important pour une revue technique" [place_of "../md_docs_2README__DOCUMENTATION.html#autotoc_md13" true ""];
   entry_of "unitaires_20et_20d_20intégration_8" "Tests unitaires et d&apos;intégration" [place_of "../md_docs_2VERIFICATION__REPORT.html#autotoc_md45" true ""];
   entry_of "unknownkind_9" "UnknownKind" [place_of "../namespacestgs.html#a2aa48089627d210628f45038315de28aa8da24985f13f84c15af0130f7decf4fd" true "stgs"];
   entry_of "unsupportedversion_10" "unsupportedversion" [place_of "../namespacestgs.html#a2aa48089627d210628f45038315de28aa0f89bc98e9b12bdeda0604e57bdc0518" true "stgs::UnsupportedVersion"; place_of "../namespacestgs.html#a6c3c97c875363adab257eb270bb20f14a0f89bc98e9b12bdeda0604e57bdc0518" true "stgs::UnsupportedVersion"];
   entry_of "useful_20discussion_20points_11" "7. Useful discussion points" [place_of "../md_docs_2SHOWCASE__GUIDE.html#autotoc_md21" true ""]].

Definition all_1e : list entry :=
  [entry_of "vérification_20stgs_20—_20version_20vitrine_0" "Rapport de vérification STGS — version vitrine" [place_of "../md_docs_2VERIFICATION__REPORT.html" true ""];
   entry_of "v1_1" "v1" [place_of "../md_README.html#autotoc_md64" true "8. Binary protocol: STGS v1"; place_of "../md_README.html#autotoc_md66" true "9. Typed application payload: STGA v1"];
   entry_of "v1_20wire_20format_2" "3. STGS v1 wire format" [place_of "../md_docs_2TECHNICAL__DESIGN.html#autotoc_md26" true ""];
   entry_of "valid_3" "valid" [place_of "../structstgs_1_1PortRange.html#a88a5c45197a3c12512d3421d91595005" true "stgs::PortRange"];
   entry_of "verbose_4" "verbose" [place_of "../structstgs_1_1app_1_1ground__station_1_1Options.html#a95e20adab063bb991e0c9600a51cdcf6" true "stgs::app::ground_station::Options"];
   entry_of "verification_5freport_2emd_5" "VERIFICATION_REPORT.md" [place_of "../VERIFICATION__REPORT_8md.html" true ""];
   entry_of "version_6" "version" [place_of "../structstgs_1_1TelemetryFrame.html#a84fa6dd941a4f0b48aba59cee10db1eb" true "stgs::TelemetryFrame"];
   entry_of "version_20vitrine_7" "Rapport de vérification STGS — version vitrine" [place_of "../md_docs_2VERIFICATION__REPORT.html" true ""];
   entry_of "versionoffset_8" "VersionOffset" [place_of "../namespacestgs.html#a240e53eeabfe4e74494c85545996e589" true "stgs"];
   entry_of "visible_20in_20the_20code_9" "Design principles visible in the code" [place_of "../md_README.html#autotoc_md71" true ""];
   entry_of "vitrine_10" "Rapport de vérification STGS — version vitrine" [place_of "../md_docs_2VERIFICATION__REPORT.html" true ""]].

Definition all_1f : list entry :=
  [entry_of "warning_0" "warning" [place_of "../classstgs_1_1Logger.html#a4263b13735c24e070fc838460b83706e" true "stgs::Logger::warning()"; place_of "../namespacestgs.html#a2b4a335983593d5d8d599d58cd7ee203a0eaadb4fcb48a0a0ed7bc9868be9fbaa" true "stgs::Warning"; place_of "../namespacestgs.html#a61ca9382bebac8640e15d2338a9eb8afa0eaadb4fcb48a0a0ed7bc9868be9fbaa" true "stgs::Warning"; place_of "../namespacestgs.html#aed082ae37dc19f30579b2d7981342c1ea0eaadb4fcb48a0a0ed7bc9868be9fbaa" true "stgs::Warning"];
   entry_of "wave_1" "5. Send a noisy sampled wave" [place_of "../md_docs_2SHOWCASE__GUIDE.html#autotoc_md19" true ""];
   entry_of "wave_20and_20filter_20it_2" "4. Send a noisy wave and filter it" [place_of "../md_README.html#autotoc_md60" true ""];
   entry_of "width_3" "width" [place_of "../classstgs_1_1TerminalUi.html#afc01eb85687a08fdd054b43ddb1d4aaf" true "stgs::TerminalUi"];
   entry_of "windowsize_4" "windowSize" [place_of "../structstgs_1_1StationHealthConfig.html#a108f344fdd31a19251f1f61175473aa2" true "stgs::StationHealthConfig"];
   entry_of "wire_20format_5" "3. STGS v1 wire format" [place_of "../md_docs_2TECHNICAL__DESIGN.html#autotoc_md26" true ""];
   entry_of "without_20manually_20choosing_20a_20port_6" "2. Start a station without manually choosing a port" [place_of "../md_docs_2SHOWCASE__GUIDE.html#autotoc_md16" true ""];
   entry_of "write_7" "write" [place_of "../classstgs_1_1app_1_1ground__station_1_1TelemetryOutput.html#a2200f5da81f2729c086e7d23d04dc17c" true "stgs::app::ground_station::TelemetryOutput"];
   entry_of "writeframe_8" "writeFrame" [place_of "../classstgs_1_1FrameFileWriter.html#a425eebf56934d2040d25e97e4927376b" true "stgs::FrameFileWriter"];
   entry_of "written_9" "written" [place_of "../structstgs_1_1app_1_1ground__station_1_1PipelineStats.html#a9f92711ffde274ded4201f9ec3280dc4" true "stgs::app::ground_station::PipelineStats"]].

Definition all_20 : list entry :=
  [entry_of "_7eframefilewriter_0" "~FrameFileWriter" [place_of "../classstgs_1_1FrameFileWriter.html#a18792af70da7ee23ef2b0c1f5be048ef" true "stgs::FrameFileWriter"];
   entry_of "_7elogger_1" "~Logger" [place_of "../classstgs_1_1Logger.html#a8923e46f2e833497f0d0f2a0840ecb28" true "stgs::Logger"];
   entry_of "_7enetworkserver_2" "~NetworkServer" [place_of "../classstgs_1_1NetworkServer.html#a2302471470abe37838539a0bf3483787" true "stgs::NetworkServer"];
   entry_of "_7eposixsignalstopcontroller_3" "~PosixSignalStopController" [place_of "../classstgs_1_1app_1_1ground__station_1_1PosixSignalStopController.html#a08a5c6ee97beb43756078229139dd571" true "stgs::app::ground_station::PosixSignalStopController"];
   entry_of "_7esocketfd_4" "~SocketFd" [place_of "../classstgs_1_1app_1_1simulator_1_1SocketFd.html#af03e179687fc4e5ca2b29c07b6fa70eb" true "stgs::app::simulator::SocketFd"]].

Definition all_21 : list entry :=
  [entry_of "—_20version_20vitrine_0" "Rapport de vérification STGS — version vitrine" [place_of "../md_docs_2VERIFICATION__REPORT.html" true ""]].

Definition all_files : list (list entry) :=
  [all_0; all_1; all_2; all_3; all_4; all_5; all_6; all_7; all_8; all_9; all_a; all_b; all_c; all_d; all_e; all_f; all_10; all_11; all_12; all_13; all_14; all_15; all_16; all_17; all_18; all_19; all_1a; all_1b; all_1c; all_1d; all_1e; all_1f; all_20; all_21].
