(* ===== verification/SearchSections.v ===== *)
(** The other ten sections of the search index: the entries of the files [search/classes_0.js] to
    [search/pages_a.js], as they are, and the files of all sections by the number of the section. *)

From S2P Require Import Prelude TextFormat JsCore Page SearchData.

(** ** classes *)

Definition classes_0 : list entry :=
  [entry_of "applicationpayloaderror_0" "ApplicationPayloadError" [place_of "../structstgs_1_1ApplicationPayloadError.html" true "stgs"];
   entry_of "asyncfailure_1" "AsyncFailure" [place_of "../classstgs_1_1app_1_1ground__station_1_1AsyncFailure.html" true "stgs::app::ground_station"]].

Definition classes_1 : list entry :=
  [entry_of "blockingqueue_0" "BlockingQueue" [place_of "../classstgs_1_1BlockingQueue.html" true "stgs"];
   entry_of "blockingqueue_3c_20stgs_3a_3aapp_3a_3aground_5fstation_3a_3adecodedworkitem_20_3e_1" "BlockingQueue&lt; stgs::app::ground_station::DecodedWorkItem &gt;" [place_of "../classstgs_1_1BlockingQueue.html" true "stgs"];
   entry_of "blockingqueue_3c_20stgs_3a_3aapp_3a_3aground_5fstation_3a_3arawworkitem_20_3e_2" "BlockingQueue&lt; stgs::app::ground_station::RawWorkItem &gt;" [place_of "../classstgs_1_1BlockingQueue.html" true "stgs"]].

Definition classes_2 : list entry :=
  [entry_of "decodedworkitem_0" "DecodedWorkItem" [place_of "../structstgs_1_1app_1_1ground__station_1_1DecodedWorkItem.html" true "stgs::app::ground_station"]].

Definition classes_3 : list entry :=
  [entry_of "frameerror_0" "FrameError" [place_of "../structstgs_1_1FrameError.html" true "stgs"];
   entry_of "framefilereader_1" "FrameFileReader" [place_of "../classstgs_1_1FrameFileReader.html" true "stgs"];
   entry_of "framefilewriter_2" "FrameFileWriter" [place_of "../classstgs_1_1FrameFileWriter.html" true "stgs"]].

Definition classes_4 : list entry :=
  [entry_of "groundstationpipeline_0" "GroundStationPipeline" [place_of "../classstgs_1_1app_1_1ground__station_1_1GroundStationPipeline.html" true "stgs::app::ground_station"]].

Definition classes_5 : list entry :=
  [entry_of "localportavailability_0" "LocalPortAvailability" [place_of "../structstgs_1_1LocalPortAvailability.html" true "stgs"];
   entry_of "logger_1" "Logger" [place_of "../classstgs_1_1Logger.html" true "stgs"]].

Definition classes_6 : list entry :=
  [entry_of "networkconfig_0" "NetworkConfig" [place_of "../structstgs_1_1NetworkConfig.html" true "stgs"];
   entry_of "networkserver_1" "NetworkServer" [place_of "../classstgs_1_1NetworkServer.html" true "stgs"]].

Definition classes_7 : list entry :=
  [entry_of "options_0" "options" [place_of "../structstgs_1_1app_1_1ground__station_1_1Options.html" true "stgs::app::ground_station::Options"; place_of "../structstgs_1_1app_1_1simulator_1_1Options.html" true "stgs::app::simulator::Options"]].

Definition classes_8 : list entry :=
  [entry_of "pipelinestats_0" "PipelineStats" [place_of "../structstgs_1_1app_1_1ground__station_1_1PipelineStats.html" true "stgs::app::ground_station"];
   entry_of "portrange_1" "PortRange" [place_of "../structstgs_1_1PortRange.html" true "stgs"];
   entry_of "posixsignalstopcontroller_2" "PosixSignalStopController" [place_of "../classstgs_1_1app_1_1ground__station_1_1PosixSignalStopController.html" true "stgs::app::ground_station"]].

Definition classes_9 : list entry :=
  [entry_of "rawworkitem_0" "RawWorkItem" [place_of "../structstgs_1_1app_1_1ground__station_1_1RawWorkItem.html" true "stgs::app::ground_station"]].

Definition classes_a : list entry :=
  [entry_of "signalblockpayload_0" "SignalBlockPayload" [place_of "../structstgs_1_1SignalBlockPayload.html" true "stgs"];
   entry_of "signalmetrics_1" "SignalMetrics" [place_of "../structstgs_1_1SignalMetrics.html" true "stgs"];
   entry_of "socketfd_2" "SocketFd" [place_of "../classstgs_1_1app_1_1simulator_1_1SocketFd.html" true "stgs::app::simulator"];
   entry_of "stationhealthconfig_3" "StationHealthConfig" [place_of "../structstgs_1_1StationHealthConfig.html" true "stgs"];
   entry_of "stationhealthmonitor_4" "StationHealthMonitor" [place_of "../classstgs_1_1StationHealthMonitor.html" true "stgs"];
   entry_of "stationhealthsnapshot_5" "StationHealthSnapshot" [place_of "../structstgs_1_1StationHealthSnapshot.html" true "stgs"];
   entry_of "stationstatetransition_6" "StationStateTransition" [place_of "../structstgs_1_1StationStateTransition.html" true "stgs"];
   entry_of "streamframeextractor_7" "StreamFrameExtractor" [place_of "../classstgs_1_1StreamFrameExtractor.html" true "stgs"]].

Definition classes_b : list entry :=
  [entry_of "tcpportproberesult_0" "TcpPortProbeResult" [place_of "../structstgs_1_1TcpPortProbeResult.html" true "stgs"];
   entry_of "telemetryframe_1" "TelemetryFrame" [place_of "../structstgs_1_1TelemetryFrame.html" true "stgs"];
   entry_of "telemetryoutput_2" "TelemetryOutput" [place_of "../classstgs_1_1app_1_1ground__station_1_1TelemetryOutput.html" true "stgs::app::ground_station"];
   entry_of "terminalui_3" "TerminalUi" [place_of "../classstgs_1_1TerminalUi.html" true "stgs"];
   entry_of "textmessagepayload_4" "TextMessagePayload" [place_of "../structstgs_1_1TextMessagePayload.html" true "stgs"]].

Definition classes_files : list (list entry) :=
  [classes_0; classes_1; classes_2; classes_3; classes_4; classes_5; classes_6; classes_7; classes_8; classes_9; classes_a; classes_b].

(** ** namespaces *)

Definition namespaces_0 : list entry :=
  [entry_of "stgs_0" "stgs" [place_of "../namespacestgs.html" true ""];
   entry_of "stgs_3a_3aapp_1" "app" [place_of "../namespacestgs_1_1app.html" true "stgs"];
   entry_of "stgs_3a_3aapp_3a_3aground_5fstation_2" "ground_station" [place_of "../namespacestgs_1_1app_1_1ground__station.html" true "stgs::app"];
   entry_of "stgs_3a_3aapp_3a_3asimulator_3" "simulator" [place_of "../namespacestgs_1_1app_1_1simulator.html" true "stgs::app"];
   entry_of "stgs_3a_3adetail_4" "detail" [place_of "../namespacestgs_1_1detail.html" true "stgs"];
   entry_of "stgs_3a_3atest_5" "test" [place_of "../namespacestgs_1_1test.html" true "stgs"]].

Definition namespaces_files : list (list entry) :=
  [namespaces_0].

(** ** files *)

Definition files_0 : list entry :=
  [entry_of "applicationpayload_2ecpp_0" "ApplicationPayload.cpp" [place_of "../ApplicationPayload_8cpp.html" true ""];
   entry_of "applicationpayload_2ehpp_1" "ApplicationPayload.hpp" [place_of "../ApplicationPayload_8hpp.html" true ""]].

Definition files_1 : list entry :=
  [entry_of "benchmark_5fdecode_2ecpp_0" "benchmark_decode.cpp" [place_of "../benchmark__decode_8cpp.html" true ""];
   entry_of "blockingqueue_2ehpp_1" "BlockingQueue.hpp" [place_of "../BlockingQueue_8hpp.html" true ""];
   entry_of "byteutils_2ehpp_2" "ByteUtils.hpp" [place_of "../ByteUtils_8hpp.html" true ""]].

Definition files_2 : list entry :=
  [entry_of "cliparsing_2ehpp_0" "CliParsing.hpp" [place_of "../CliParsing_8hpp.html" true ""];
   entry_of "crc32_2ecpp_1" "Crc32.cpp" [place_of "../Crc32_8cpp.html" true ""];
   entry_of "crc32_2ehpp_2" "Crc32.hpp" [place_of "../Crc32_8hpp.html" true ""]].

Definition files_3 : list entry :=
  [entry_of "framecodec_2ecpp_0" "FrameCodec.cpp" [place_of "../FrameCodec_8cpp.html" true ""];
   entry_of "framecodec_2ehpp_1" "FrameCodec.hpp" [place_of "../FrameCodec_8hpp.html" true ""]].

Definition files_4 : list entry :=
  [entry_of "ground_5fstation_2ecpp_0" "ground_station.cpp" [place_of "../ground__station_8cpp.html" true ""];
   entry_of "groundstationapp_2ecpp_1" "GroundStationApp.cpp" [place_of "../GroundStationApp_8cpp.html" true ""];
   entry_of "groundstationapp_2ehpp_2" "GroundStationApp.hpp" [place_of "../GroundStationApp_8hpp.html" true ""];
   entry_of "groundstationinput_2ecpp_3" "GroundStationInput.cpp" [place_of "../GroundStationInput_8cpp.html" true ""];
   entry_of "groundstationoptions_2ecpp_4" "GroundStationOptions.cpp" [place_of "../GroundStationOptions_8cpp.html" true ""];
   entry_of "groundstationoptions_2ehpp_5" "GroundStationOptions.hpp" [place_of "../GroundStationOptions_8hpp.html" true ""];
   entry_of "groundstationpipeline_2ecpp_6" "GroundStationPipeline.cpp" [place_of "../GroundStationPipeline_8cpp.html" true ""];
   entry_of "groundstationpipeline_2ehpp_7" "GroundStationPipeline.hpp" [place_of "../GroundStationPipeline_8hpp.html" true ""];
   entry_of "groundstationprocessing_2ecpp_8" "GroundStationProcessing.cpp" [place_of "../GroundStationProcessing_8cpp.html" true ""];
   entry_of "groundstationprocessing_2ehpp_9" "GroundStationProcessing.hpp" [place_of "../GroundStationProcessing_8hpp.html" true ""];
   entry_of "groundstationusage_2ecpp_10" "GroundStationUsage.cpp" [place_of "../GroundStationUsage_8cpp.html" true ""];
   entry_of "groundstationworkers_2ecpp_11" "GroundStationWorkers.cpp" [place_of "../GroundStationWorkers_8cpp.html" true ""]].

Definition files_5 : list entry :=
  [entry_of "logger_2ecpp_0" "Logger.cpp" [place_of "../Logger_8cpp.html" true ""];
   entry_of "logger_2ehpp_1" "Logger.hpp" [place_of "../Logger_8hpp.html" true ""]].

Definition files_6 : list entry :=
  [entry_of "networkserver_2ecpp_0" "NetworkServer.cpp" [place_of "../NetworkServer_8cpp.html" true ""];
   entry_of "networkserver_2ehpp_1" "NetworkServer.hpp" [place_of "../NetworkServer_8hpp.html" true ""];
   entry_of "networkservertcp_2ecpp_2" "NetworkServerTcp.cpp" [place_of "../NetworkServerTcp_8cpp.html" true ""];
   entry_of "networkserverudp_2ecpp_3" "NetworkServerUdp.cpp" [place_of "../NetworkServerUdp_8cpp.html" true ""]].

Definition files_7 : list entry :=
  [entry_of "performance_5freport_2emd_0" "PERFORMANCE_REPORT.md" [place_of "../PERFORMANCE__REPORT_8md.html" true ""];
   entry_of "port_5fcheck_2ecpp_1" "port_check.cpp" [place_of "../port__check_8cpp.html" true ""];
   entry_of "portdiagnostics_2ecpp_2" "PortDiagnostics.cpp" [place_of "../PortDiagnostics_8cpp.html" true ""];
   entry_of "portdiagnostics_2ehpp_3" "PortDiagnostics.hpp" [place_of "../PortDiagnostics_8hpp.html" true ""];
   entry_of "posixsignalstopcontroller_2ecpp_4" "PosixSignalStopController.cpp" [place_of "../PosixSignalStopController_8cpp.html" true ""];
   entry_of "posixsignalstopcontroller_2ehpp_5" "PosixSignalStopController.hpp" [place_of "../PosixSignalStopController_8hpp.html" true ""]].

Definition files_8 : list entry :=
  [entry_of "readme_2emd_0" "README.md" [place_of "../README_8md.html" true ""];
   entry_of "readme_5fdocumentation_2emd_1" "README_DOCUMENTATION.md" [place_of "../README__DOCUMENTATION_8md.html" true ""];
   entry_of "replay_2ecpp_2" "Replay.cpp" [place_of "../Replay_8cpp.html" true ""];
   entry_of "replay_2ehpp_3" "Replay.hpp" [place_of "../Replay_8hpp.html" true ""]].

Definition files_9 : list entry :=
  [entry_of "satellite_5fsimulator_2ecpp_0" "satellite_simulator.cpp" [place_of "../satellite__simulator_8cpp.html" true ""];
   entry_of "showcase_5fguide_2emd_1" "SHOWCASE_GUIDE.md" [place_of "../SHOWCASE__GUIDE_8md.html" true ""];
   entry_of "signalprocessing_2ecpp_2" "SignalProcessing.cpp" [place_of "../SignalProcessing_8cpp.html" true ""];
   entry_of "signalprocessing_2ehpp_3" "SignalProcessing.hpp" [place_of "../SignalProcessing_8hpp.html" true ""];
   entry_of "simulatorapp_2ecpp_4" "SimulatorApp.cpp" [place_of "../SimulatorApp_8cpp.html" true ""];
   entry_of "simulatorapp_2ehpp_5" "SimulatorApp.hpp" [place_of "../SimulatorApp_8hpp.html" true ""];
   entry_of "simulatorframefactory_2ecpp_6" "SimulatorFrameFactory.cpp" [place_of "../SimulatorFrameFactory_8cpp.html" true ""];
   entry_of "simulatorframefactory_2ehpp_7" "SimulatorFrameFactory.hpp" [place_of "../SimulatorFrameFactory_8hpp.html" true ""];
   entry_of "simulatoroptions_2ecpp_8" "SimulatorOptions.cpp" [place_of "../SimulatorOptions_8cpp.html" true ""];
   entry_of "simulatoroptions_2ehpp_9" "SimulatorOptions.hpp" [place_of "../SimulatorOptions_8hpp.html" true ""];
   entry_of "simulatorsocket_2ecpp_10" "SimulatorSocket.cpp" [place_of "../SimulatorSocket_8cpp.html" true ""];
   entry_of "simulatorsocket_2ehpp_11" "SimulatorSocket.hpp" [place_of "../SimulatorSocket_8hpp.html" true ""];
   entry_of "simulatorusage_2ecpp_12" "SimulatorUsage.cpp" [place_of "../SimulatorUsage_8cpp.html" true ""];
   entry_of "stationhealth_2ecpp_13" "StationHealth.cpp" [place_of "../StationHealth_8cpp.html" true ""];
   entry_of "stationhealth_2ehpp_14" "StationHealth.hpp" [place_of "../StationHealth_8hpp.html" true ""]].

Definition files_a : list entry :=
  [entry_of "technical_5fdesign_2emd_0" "TECHNICAL_DESIGN.md" [place_of "../TECHNICAL__DESIGN_8md.html" true ""];
   entry_of "telemetryframe_2ehpp_1" "TelemetryFrame.hpp" [place_of "../TelemetryFrame_8hpp.html" true ""];
   entry_of "telemetryoutput_2ecpp_2" "TelemetryOutput.cpp" [place_of "../TelemetryOutput_8cpp.html" true ""];
   entry_of "telemetryoutput_2ehpp_3" "TelemetryOutput.hpp" [place_of "../TelemetryOutput_8hpp.html" true ""];
   entry_of "terminalui_2ecpp_4" "TerminalUi.cpp" [place_of "../TerminalUi_8cpp.html" true ""];
   entry_of "terminalui_2ehpp_5" "TerminalUi.hpp" [place_of "../TerminalUi_8hpp.html" true ""];
   entry_of "test_5fapplication_5fsignal_2ecpp_6" "test_application_signal.cpp" [place_of "../test__application__signal_8cpp.html" true ""];
   entry_of "test_5fcodec_2ecpp_7" "test_codec.cpp" [place_of "../test__codec_8cpp.html" true ""];
   entry_of "test_5fmain_2ecpp_8" "test_main.cpp" [place_of "../test__main_8cpp.html" true ""];
   entry_of "test_5fnetwork_2ecpp_9" "test_network.cpp" [place_of "../test__network_8cpp.html" true ""];
   entry_of "test_5freplay_5fhealth_2ecpp_10" "test_replay_health.cpp" [place_of "../test__replay__health_8cpp.html" true ""];
   entry_of "testsupport_2ecpp_11" "TestSupport.cpp" [place_of "../TestSupport_8cpp.html" true ""];
   entry_of "testsupport_2ehpp_12" "TestSupport.hpp" [place_of "../TestSupport_8hpp.html" true ""]].

Definition files_b : list entry :=
  [entry_of "verification_5freport_2emd_0" "VERIFICATION_REPORT.md" [place_of "../VERIFICATION__REPORT_8md.html" true ""]].

Definition files_files : list (list entry) :=
  [files_0; files_1; files_2; files_3; files_4; files_5; files_6; files_7; files_8; files_9; files_a; files_b].

(** ** functions *)

Definition functions_0 : list entry :=
  [entry_of "appendfloatbe_0" "appendFloatBE" [place_of "../namespacestgs_1_1detail.html#aaa3c420d8f0978f8552479c0ad1ec915" true "stgs::detail"];
   entry_of "appendu16be_1" "appendU16BE" [place_of "../namespacestgs_1_1detail.html#a3562b4e5b96b0bda2897b0f5825781b9" true "stgs::detail"];
   entry_of "appendu32be_2" "appendU32BE" [place_of "../namespacestgs_1_1detail.html#a423df63e483c463ac6f72b4bb82bd2ca" true "stgs::detail"];
   entry_of "appendu64be_3" "appendU64BE" [place_of "../namespacestgs_1_1detail.html#a000ee99a480982ea130c1d18ec722c27" true "stgs::detail"];
   entry_of "appendu8_4" "appendU8" [place_of "../namespacestgs_1_1detail.html#a536b35bbdc62402256e05df0084dd249" true "stgs::detail"];
   entry_of "applicationpayloaderrortostring_5" "applicationPayloadErrorToString" [place_of "../namespacestgs.html#a45a2c8095b5dbfef861d3de94fa3e602" true "stgs"];
   entry_of "applicationpayloadkindtostring_6" "applicationPayloadKindToString" [place_of "../namespacestgs.html#a2e4fd8961dc20cc4ae5ae5380ff0c844" true "stgs"];
   entry_of "assertnear_7" "assertNear" [place_of "../namespacestgs_1_1test.html#a62f6702850246418454bd7aa025ded9a" true "stgs::test"];
   entry_of "assertthrows_8" "assertThrows" [place_of "../namespacestgs_1_1test.html#ad1656bd9c6bdcbc93e9b8f369a4ffe65" true "stgs::test"]].

Definition functions_1 : list entry :=
  [entry_of "blockingqueue_0" "blockingqueue" [place_of "../classstgs_1_1BlockingQueue.html#a338b6b942f4ccf56cf64e754433e76fc" true "stgs::BlockingQueue::BlockingQueue(std::size_t capacity=0U)"; place_of "../classstgs_1_1BlockingQueue.html#acc6b8fc0643c9a0056a9c289a6b9bcba" true "stgs::BlockingQueue::BlockingQueue(const BlockingQueue &amp;)=delete"];
   entry_of "bufferedbytes_1" "bufferedBytes" [place_of "../classstgs_1_1StreamFrameExtractor.html#a4c8db84b6856dc01b744e7fce8c8df14" true "stgs::StreamFrameExtractor"]].

Definition functions_2 : list entry :=
  [entry_of "capacity_0" "capacity" [place_of "../classstgs_1_1BlockingQueue.html#a4d54b73a85423f1b7a0b0b698cc376da" true "stgs::BlockingQueue"];
   entry_of "capture_1" "capture" [place_of "../classstgs_1_1app_1_1ground__station_1_1AsyncFailure.html#ab1b3fc6da1eb73cbd36e1c04889e1007" true "stgs::app::ground_station::AsyncFailure"];
   entry_of "checklocalportavailability_2" "checkLocalPortAvailability" [place_of "../namespacestgs.html#a9e3558ccc5cda76fa7ac8e5cf36b8fa8" true "stgs"];
   entry_of "clear_3" "clear" [place_of "../classstgs_1_1StreamFrameExtractor.html#a7c82f4ef262914570a4348018fc4c682" true "stgs::StreamFrameExtractor"];
   entry_of "close_4" "close" [place_of "../classstgs_1_1BlockingQueue.html#a0ce71abdabe34acee62faab0c9dafdb7" true "stgs::BlockingQueue"];
   entry_of "closed_5" "closed" [place_of "../classstgs_1_1BlockingQueue.html#a98ce70a8b9c95832b02a124c2a1eb15a" true "stgs::BlockingQueue"];
   entry_of "colorsenabled_6" "colorsEnabled" [place_of "../classstgs_1_1TerminalUi.html#afbe82d671c9e48c048bb990312e1eb76" true "stgs::TerminalUi"];
   entry_of "computesignalmetrics_7" "computeSignalMetrics" [place_of "../namespacestgs.html#a28ae1709832b8407892d8d3b767cae0d" true "stgs"];
   entry_of "connectloopback_8" "connectLoopback" [place_of "../namespacestgs_1_1test.html#adf387066d23f3f075e40f1a1911172ea" true "stgs::test"];
   entry_of "count_9" "count" [place_of "../structstgs_1_1PortRange.html#a7cfeaa08040db1b19a5906537fb263e2" true "stgs::PortRange"];
   entry_of "crc32_10" "crc32" [place_of "../namespacestgs.html#a6b24ed28e7cb67e90a0d801ea9602534" true "stgs::crc32(std::span&lt; const std::uint8_t &gt; bytes) noexcept"; place_of "../namespacestgs.html#a0dfeb4a19f1b73b44a2b0bb9ea498e88" true "stgs::crc32(std::string_view text) noexcept"];
   entry_of "createsocket_11" "createSocket" [place_of "../namespacestgs_1_1app_1_1simulator.html#a52d860dedba944beac4909c45084bbad" true "stgs::app::simulator"]].

Definition functions_3 : list entry :=
  [entry_of "debug_0" "debug" [place_of "../classstgs_1_1Logger.html#a7b1647059e095774d43512bd0ade1000" true "stgs::Logger"];
   entry_of "decodeapplicationpayload_1" "decodeApplicationPayload" [place_of "../namespacestgs.html#af8f13007bacb6d468b61280260ae8daf" true "stgs"];
   entry_of "decodeframe_2" "decodeFrame" [place_of "../namespacestgs.html#abfa6635744db7019364480e2614afb32" true "stgs"];
   entry_of "destination_3" "destination" [place_of "../namespacestgs_1_1app_1_1simulator.html#aecdeae718bd6bbeba8838e5dcbe016f8" true "stgs::app::simulator"]].

Definition functions_4 : list entry :=
  [entry_of "encodeframe_0" "encodeFrame" [place_of "../namespacestgs.html#a96d420ce35d29e8fbcfb4228464169aa" true "stgs"];
   entry_of "encodesignalblockpayload_1" "encodeSignalBlockPayload" [place_of "../namespacestgs.html#a6df02cb32efc818d349522c29ef2197d" true "stgs"];
   entry_of "encodetextmessagepayload_2" "encodeTextMessagePayload" [place_of "../namespacestgs.html#a91ad6444414562d0dcf977c6e8fc5ab7" true "stgs"];
   entry_of "ephemeralport_3" "ephemeralPort" [place_of "../namespacestgs_1_1test.html#a662fb280ee6865e992ad292c7eb966e3" true "stgs::test"];
   entry_of "error_4" "error" [place_of "../classstgs_1_1Logger.html#a714e363fcba209c745f8fb22eb220d60" true "stgs::Logger"];
   entry_of "errorcodetostring_5" "errorCodeToString" [place_of "../namespacestgs.html#a6790660a2b914bf45160cc8d38973a28" true "stgs"]].

Definition functions_5 : list entry :=
  [entry_of "feed_0" "feed" [place_of "../classstgs_1_1StreamFrameExtractor.html#a7d3def59de4dc549e05c33eb5e80e1a4" true "stgs::StreamFrameExtractor"];
   entry_of "findfirstavailablelocalport_1" "findFirstAvailableLocalPort" [place_of "../namespacestgs.html#a3711847fc7f4844d7ff12f7835d8a8fd" true "stgs"];
   entry_of "finish_2" "finish" [place_of "../classstgs_1_1app_1_1ground__station_1_1PosixSignalStopController.html#a6e65c3fb986b905596a254439d8f252a" true "stgs::app::ground_station::PosixSignalStopController::finish()"; place_of "../classstgs_1_1app_1_1ground__station_1_1TelemetryOutput.html#ab31b4fba12a683f1505951d406717776" true "stgs::app::ground_station::TelemetryOutput::finish()"];
   entry_of "flush_3" "flush" [place_of "../classstgs_1_1FrameFileWriter.html#abbf59bb86fa348f352879a01beaf9586" true "stgs::FrameFileWriter"];
   entry_of "framefilereader_4" "framefilereader" [place_of "../classstgs_1_1FrameFileReader.html#ad2ba5c80795b399b144122b666d8d184" true "stgs::FrameFileReader::FrameFileReader(const std::filesystem::path &amp;path)"; place_of "../classstgs_1_1FrameFileReader.html#ac91f1a5de928bef5d277a829a8a41cd8" true "stgs::FrameFileReader::FrameFileReader(const FrameFileReader &amp;)=delete"];
   entry_of "framefilewriter_5" "framefilewriter" [place_of "../classstgs_1_1FrameFileWriter.html#a6a98b7bef36f40e1e3e2e1ba0fb473e9" true "stgs::FrameFileWriter::FrameFileWriter(const std::filesystem::path &amp;path)"; place_of "../classstgs_1_1FrameFileWriter.html#afd0202fe0483bd7ccebe184db6f0d15f" true "stgs::FrameFileWriter::FrameFileWriter(const FrameFileWriter &amp;)=delete"]].

Definition functions_6 : list entry :=
  [entry_of "get_0" "get" [place_of "../classstgs_1_1app_1_1simulator_1_1SocketFd.html#acfa85dbb116f87c1c17bc6cb18c9f690" true "stgs::app::simulator::SocketFd"];
   entry_of "groundstationpipeline_1" "GroundStationPipeline" [place_of "../classstgs_1_1app_1_1ground__station_1_1GroundStationPipeline.html#a44539f7f9ecd25fe739fc3d9b9c8e304" true "stgs::app::ground_station::GroundStationPipeline"]].

Definition functions_7 : list entry :=
  [entry_of "info_0" "info" [place_of "../classstgs_1_1Logger.html#a259da3304341bbf21616732231939265" true "stgs::Logger"];
   entry_of "interactive_1" "interactive" [place_of "../classstgs_1_1TerminalUi.html#ae050f8d992bfae035bab289ff6d00499" true "stgs::TerminalUi"];
   entry_of "isloopbackipv4_2" "isLoopbackIpv4" [place_of "../namespacestgs.html#a7adda113b45c802e2582cd09d38b31e0" true "stgs"]].

Definition functions_8 : list entry :=
  [entry_of "keyvalue_0" "keyValue" [place_of "../classstgs_1_1TerminalUi.html#abca15310e22fe982ba94d3b7f44b843b" true "stgs::TerminalUi"]].

Definition functions_9 : list entry :=
  [entry_of "log_0" "log" [place_of "../classstgs_1_1Logger.html#ad62b4fe2573d0fbc245bc8499072132e" true "stgs::Logger"];
   entry_of "logger_1" "logger" [place_of "../classstgs_1_1Logger.html#aa47f826e89b7d939d7c2989379d5cd6a" true "stgs::Logger::Logger(std::optional&lt; std::filesystem::path &gt; filePath=std::nullopt, LogLevel minLevel=LogLevel::Info)"; place_of "../classstgs_1_1Logger.html#ab57feb2db1362d1cab97d3fcaba73063" true "stgs::Logger::Logger(const Logger &amp;)=delete"];
   entry_of "logleveltostring_2" "logLevelToString" [place_of "../namespacestgs.html#accc0b6ac907948c066bcc504da10d3cf" true "stgs"];
   entry_of "logtransition_3" "logTransition" [place_of "../namespacestgs_1_1app_1_1ground__station.html#a78082cb7155ab90735f365ccd62a3846" true "stgs::app::ground_station"]].

Definition functions_a : list entry :=
  [entry_of "main_0" "main" [place_of "../ground__station_8cpp.html#a3c04138a5bfe5d72780bb7e82a18e627" true "main(int argc, char **argv):&#160;ground_station.cpp"; place_of "../port__check_8cpp.html#a3c04138a5bfe5d72780bb7e82a18e627" true "main(int argc, char **argv):&#160;port_check.cpp"; place_of "../satellite__simulator_8cpp.html#a3c04138a5bfe5d72780bb7e82a18e627" true "main(int argc, char **argv):&#160;satellite_simulator.cpp"; place_of "../benchmark__decode_8cpp.html#a3c04138a5bfe5d72780bb7e82a18e627" true "main(int argc, char **argv):&#160;benchmark_decode.cpp"; place_of "../test__main_8cpp.html#ae66f6b31b5ad750f1fe042a706a4e3d4" true "main():&#160;test_main.cpp"];
   entry_of "makeframe_1" "makeFrame" [place_of "../namespacestgs_1_1app_1_1simulator.html#a3a1a7a1c5f19e37e5663378b5dafec76" true "stgs::app::simulator"];
   entry_of "maybecorrupt_2" "maybeCorrupt" [place_of "../namespacestgs_1_1app_1_1simulator.html#a1570394fb5fc99051ce0874461046420" true "stgs::app::simulator"];
   entry_of "movingaveragefilter_3" "movingAverageFilter" [place_of "../namespacestgs.html#ab457496c4c0e42e80f6799eeca183c62" true "stgs"]].

Definition functions_b : list entry :=
  [entry_of "networkserver_0" "networkserver" [place_of "../classstgs_1_1NetworkServer.html#a040e057f504e4a87d455afa9945c1a91" true "stgs::NetworkServer::NetworkServer(NetworkConfig config, Logger &amp;logger)"; place_of "../classstgs_1_1NetworkServer.html#ab09894d06d7d697cfea64b997fcc67a6" true "stgs::NetworkServer::NetworkServer(const NetworkServer &amp;)=delete"];
   entry_of "nowiso8601_1" "nowIso8601" [place_of "../namespacestgs.html#a13a8b54e63f390f2fc7dab36ab707743" true "stgs"]].

Definition functions_c : list entry :=
  [entry_of "operator_3d_0" "operator=" [place_of "../classstgs_1_1app_1_1ground__station_1_1PosixSignalStopController.html#a2c95eeb061c8dbc9d0f203dabc2308cb" true "stgs::app::ground_station::PosixSignalStopController::operator=()"; place_of "../classstgs_1_1app_1_1simulator_1_1SocketFd.html#aa94c44574c1380ab4d448e50b7a3bb59" true "stgs::app::simulator::SocketFd::operator=(const SocketFd &amp;)=delete"; place_of "../classstgs_1_1app_1_1simulator_1_1SocketFd.html#a14fc650fec4dbfb8b75a5e4f184233cc" true "stgs::app::simulator::SocketFd::operator=(SocketFd &amp;&amp;other) noexcept"; place_of "../classstgs_1_1BlockingQueue.html#adc149752576b540c84cad0354c77f5ab" true "stgs::BlockingQueue::operator=()"; place_of "../classstgs_1_1Logger.html#a15c2c176e8a116dc321e6b994ee0890b" true "stgs::Logger::operator=()"; place_of "../classstgs_1_1NetworkServer.html#a9c3d5ff114ff70a4ea45e821bbb3c2e2" true "stgs::NetworkServer::operator=()"; place_of "../classstgs_1_1FrameFileWriter.html#a1268da0afe7f54565be83425ebd519b4" true "stgs::FrameFileWriter::operator=()"; place_of "../classstgs_1_1FrameFileReader.html#a7f54cc817433632bc57c39085f888494" true "stgs::FrameFileReader::operator=()"; place_of "../classstgs_1_1StationHealthMonitor.html#aec2f8d4a305fbebc45301c8694ba8959" true "stgs::StationHealthMonitor::operator=()"]].

Definition functions_d : list entry :=
  [entry_of "parseargs_0" "parseargs" [place_of "../namespacestgs_1_1app_1_1ground__station.html#a310e8ff89b553d737d7d1ccdc9e91491" true "stgs::app::ground_station::parseArgs()"; place_of "../namespacestgs_1_1app_1_1simulator.html#adae5380ec0cd339bc25c7008d3f97b84" true "stgs::app::simulator::parseArgs()"];
   entry_of "parsefinitedouble_1" "parseFiniteDouble" [place_of "../namespacestgs.html#a9ccb3a36865cfcbbe10e28f57c0f6d75" true "stgs"];
   entry_of "parseloglevel_2" "parseLogLevel" [place_of "../namespacestgs.html#ac58de0b5c818c56849a53133a7cf668f" true "stgs"];
   entry_of "parseportrange_3" "parsePortRange" [place_of "../namespacestgs.html#a28244a59e980c9510ee6f8bc1e69809b" true "stgs"];
   entry_of "parseprobability_4" "parseProbability" [place_of "../namespacestgs.html#a8bfe5e03446c5b8d5b62144ac66a6c5c" true "stgs"];
   entry_of "parseunsigned_5" "parseUnsigned" [place_of "../namespacestgs.html#a31a7ad15af4ad9bb1401e9dcfd3e4bf7" true "stgs"];
   entry_of "payloadmodename_6" "payloadModeName" [place_of "../namespacestgs_1_1app_1_1simulator.html#aaa9d86b8b866d56f0454ad257bdd804c" true "stgs::app::simulator"];
   entry_of "payloadtohex_7" "payloadToHex" [place_of "../namespacestgs.html#a0a370d2a47008f84d40e430ccfa8b2f6" true "stgs"];
   entry_of "pop_8" "pop" [place_of "../classstgs_1_1BlockingQueue.html#ac5bf4983522afa1caddc7e98571b9328" true "stgs::BlockingQueue"];
   entry_of "posixsignalstopcontroller_9" "posixsignalstopcontroller" [place_of "../classstgs_1_1app_1_1ground__station_1_1PosixSignalStopController.html#ad5283ce2802135308bca0bb1904a8842" true "stgs::app::ground_station::PosixSignalStopController::PosixSignalStopController(std::atomic_bool &amp;running)"; place_of "../classstgs_1_1app_1_1ground__station_1_1PosixSignalStopController.html#a580a72d1ab6060cec674e190273c78a9" true "stgs::app::ground_station::PosixSignalStopController::PosixSignalStopController(const PosixSignalStopController &amp;)=delete"];
   entry_of "printusage_10" "printusage" [place_of "../namespacestgs_1_1app_1_1ground__station.html#a42ae5cdfc32ceb72f4337d6f3bd641ef" true "stgs::app::ground_station::printUsage()"; place_of "../namespacestgs_1_1app_1_1simulator.html#ac8da0b08da8261007c889cf3cd00dc22" true "stgs::app::simulator::printUsage()"];
   entry_of "probetcpport_11" "probeTcpPort" [place_of "../namespacestgs.html#a31f0fdd245489f09a743aa8df55707df" true "stgs"];
   entry_of "processapplicationpayload_12" "processApplicationPayload" [place_of "../namespacestgs_1_1app_1_1ground__station.html#a0d507efe3c231057079de3c7ca8c07ee" true "stgs::app::ground_station"];
   entry_of "push_13" "push" [place_of "../classstgs_1_1BlockingQueue.html#a814165c535141ce4b63eedac3f42ea35" true "stgs::BlockingQueue"]].

Definition functions_e : list entry :=
  [entry_of "readfloatbe_0" "readFloatBE" [place_of "../namespacestgs_1_1detail.html#a43b10e016ab984cb5800e62c8e8eac0f" true "stgs::detail"];
   entry_of "readnext_1" "readNext" [place_of "../classstgs_1_1FrameFileReader.html#ad50184679157d2609da98924b7d0d3ec" true "stgs::FrameFileReader"];
   entry_of "readu16be_2" "readU16BE" [place_of "../namespacestgs_1_1detail.html#a5348b159392823cfed94d84a1632e3c0" true "stgs::detail"];
   entry_of "readu32be_3" "readU32BE" [place_of "../namespacestgs_1_1detail.html#acf588485290204c5dbe14e3e3ca09da5" true "stgs::detail"];
   entry_of "readu64be_4" "readU64BE" [place_of "../namespacestgs_1_1detail.html#aab1552667811a653b12c4bd02ddae7e9" true "stgs::detail"];
   entry_of "receivedmessage_5" "receivedMessage" [place_of "../classstgs_1_1TerminalUi.html#a473df2d3fd1b2c88e11ff4e7cb09fcbd" true "stgs::TerminalUi"];
   entry_of "receivedsignal_6" "receivedSignal" [place_of "../classstgs_1_1TerminalUi.html#ada2090e90ddbbfb3c414946682a62fd9" true "stgs::TerminalUi"];
   entry_of "recorddecoded_7" "recordDecoded" [place_of "../classstgs_1_1StationHealthMonitor.html#a65cdc482ed61ecf137f9c1342359ee25" true "stgs::StationHealthMonitor"];
   entry_of "recordrejected_8" "recordRejected" [place_of "../classstgs_1_1StationHealthMonitor.html#a0badd5e3d5c3368675151eb1bdd9f675" true "stgs::StationHealthMonitor"];
   entry_of "registerapplicationsignaltests_9" "registerApplicationSignalTests" [place_of "../namespacestgs_1_1test.html#ac15836adf0f202565f19897f825e9459" true "stgs::test"];
   entry_of "registercodectests_10" "registerCodecTests" [place_of "../namespacestgs_1_1test.html#a37925dfe5c629b8fb952a494927cb8e4" true "stgs::test"];
   entry_of "registernetworktests_11" "registerNetworkTests" [place_of "../namespacestgs_1_1test.html#a6510cc8d707db0a73764a7b5da0f4afa" true "stgs::test"];
   entry_of "registerreplayhealthtests_12" "registerReplayHealthTests" [place_of "../namespacestgs_1_1test.html#a41d470c6ed582556e1b0bc2667babddb" true "stgs::test"];
   entry_of "resolveoutputformat_13" "resolveOutputFormat" [place_of "../namespacestgs_1_1app_1_1ground__station.html#affad379af8c3fc0ea84ac38d73164582" true "stgs::app::ground_station"];
   entry_of "rethrowifpresent_14" "rethrowIfPresent" [place_of "../classstgs_1_1app_1_1ground__station_1_1AsyncFailure.html#a954e8aad79cb6da0637af5f80f50695a" true "stgs::app::ground_station::AsyncFailure"];
   entry_of "rethrowthreaderror_15" "rethrowThreadError" [place_of "../namespacestgs_1_1test.html#a1895bfde0ed8a5447448e60603f5ea07" true "stgs::test"];
   entry_of "run_16" "run" [place_of "../classstgs_1_1app_1_1ground__station_1_1GroundStationPipeline.html#a26cb67946ac332611a4ca64dd1fbcea3" true "stgs::app::ground_station::GroundStationPipeline::run()"; place_of "../classstgs_1_1NetworkServer.html#a6acf0bea7fe9249345e6f096ccffa347" true "stgs::NetworkServer::run()"; place_of "../namespacestgs_1_1app_1_1ground__station.html#a0a2153806b7da8fb962bffb9f7ce5d88" true "stgs::app::ground_station::run()"; place_of "../namespacestgs_1_1app_1_1simulator.html#abd617338ab0f74c5f58570eff7308cb4" true "stgs::app::simulator::run()"]].

Definition functions_f : list entry :=
  [entry_of "sampleframe_0" "sampleFrame" [place_of "../namespacestgs_1_1test.html#ae0b7a89f66739b8818b8cb70a43847a0" true "stgs::test"];
   entry_of "sanitizeremotetext_1" "sanitizeRemoteText" [place_of "../classstgs_1_1TerminalUi.html#a2d3f47e6d3f62d5650686d67b6bfeef9" true "stgs::TerminalUi"];
   entry_of "scantcpports_2" "scanTcpPorts" [place_of "../namespacestgs.html#a53f008098655c7495554541d87b0872e" true "stgs"];
   entry_of "section_3" "section" [place_of "../classstgs_1_1TerminalUi.html#a47273df409944d53f44113a0b6953a22" true "stgs::TerminalUi"];
   entry_of "sendall_4" "sendAll" [place_of "../namespacestgs_1_1app_1_1simulator.html#a416941f121efdd1b7eee966bde5c0ad4" true "stgs::app::simulator"];
   entry_of "sendexact_5" "sendExact" [place_of "../namespacestgs_1_1test.html#a679c47ac3889440f2332b350e2fe6dcf" true "stgs::test"];
   entry_of "setminlevel_6" "setMinLevel" [place_of "../classstgs_1_1Logger.html#a7fdc082b00eb8327ed015b4478df616b" true "stgs::Logger"];
   entry_of "signalfiltermodetostring_7" "signalFilterModeToString" [place_of "../namespacestgs.html#a50f2f8ec0839574a23fbf2fa3a7e2778" true "stgs"];
   entry_of "sineprojectionfilter_8" "sineProjectionFilter" [place_of "../namespacestgs.html#a56200a6087e716885d56efa37b538687" true "stgs"];
   entry_of "size_9" "size" [place_of "../classstgs_1_1BlockingQueue.html#a7bc22def269faad2dbaf661bf628991e" true "stgs::BlockingQueue"];
   entry_of "snapshot_10" "snapshot" [place_of "../classstgs_1_1StationHealthMonitor.html#aad7088b2d36134d9fe303dfae3b4b585" true "stgs::StationHealthMonitor"];
   entry_of "socketfd_11" "socketfd" [place_of "../classstgs_1_1app_1_1simulator_1_1SocketFd.html#a2819ea4c0dbcc30d0833df100c821fc6" true "stgs::app::simulator::SocketFd::SocketFd(int fd=-1) noexcept"; place_of "../classstgs_1_1app_1_1simulator_1_1SocketFd.html#a1f57a7e1382c7f71f7626e609d06d64d" true "stgs::app::simulator::SocketFd::SocketFd(const SocketFd &amp;)=delete"; place_of "../classstgs_1_1app_1_1simulator_1_1SocketFd.html#a48a21e47a4456827842bfb7caf2e872f" true "stgs::app::simulator::SocketFd::SocketFd(SocketFd &amp;&amp;other) noexcept"];
   entry_of "sparkline_12" "sparkline" [place_of "../classstgs_1_1TerminalUi.html#aab7aa21c7536c3803bfac9d7ac70ef16" true "stgs::TerminalUi"];
   entry_of "state_13" "state" [place_of "../classstgs_1_1StationHealthMonitor.html#a2a6580a4fd3ae5885e1503d56ba19c8c" true "stgs::StationHealthMonitor"];
   entry_of "stationhealthmonitor_14" "stationhealthmonitor" [place_of "../classstgs_1_1StationHealthMonitor.html#adfccc996d2c348fc662491e15e7e9094" true "stgs::StationHealthMonitor::StationHealthMonitor(const StationHealthMonitor &amp;)=delete"; place_of "../classstgs_1_1StationHealthMonitor.html#a5b331b0d4c6ef23f6b5539ef7acd86de" true "stgs::StationHealthMonitor::StationHealthMonitor(StationHealthConfig config={})"];
   entry_of "stationstatetostring_15" "stationStateToString" [place_of "../namespacestgs.html#aab97099af93b31681943b81e22a072f9" true "stgs"];
   entry_of "stats_16" "stats" [place_of "../classstgs_1_1app_1_1ground__station_1_1GroundStationPipeline.html#a0ccdbc02e3cf4550017e0bc3cb7843eb" true "stgs::app::ground_station::GroundStationPipeline"];
   entry_of "statusline_17" "statusLine" [place_of "../classstgs_1_1TerminalUi.html#ad63a28060f9eab714bcdbd1a7b1e925a" true "stgs::TerminalUi"];
   entry_of "statustostring_18" "statusToString" [place_of "../namespacestgs.html#ab4e19b7617cb12defb08493a6b3cdaff" true "stgs"];
   entry_of "stop_19" "stop" [place_of "../classstgs_1_1NetworkServer.html#ad09bd13117e7641f80e89553a56af016" true "stgs::NetworkServer"]].

Definition functions_10 : list entry :=
  [entry_of "tcpportstatetostring_0" "tcpPortStateToString" [place_of "../namespacestgs.html#a076b443733c851d7d25ccbfb195d5771" true "stgs"];
   entry_of "telemetryoutput_1" "TelemetryOutput" [place_of "../classstgs_1_1app_1_1ground__station_1_1TelemetryOutput.html#af291968b2673d360296e1a7d9d162e41" true "stgs::app::ground_station::TelemetryOutput"];
   entry_of "terminalui_2" "TerminalUi" [place_of "../classstgs_1_1TerminalUi.html#a0a67851409e5b8bfd80e6106ad908152" true "stgs::TerminalUi"];
   entry_of "tostring_3" "toString" [place_of "../namespacestgs.html#a8f567dceabc386f4dc5d2f139fae69ac" true "stgs"];
   entry_of "trace_4" "trace" [place_of "../classstgs_1_1Logger.html#af61fa84f5e582f599b428efd3c283879" true "stgs::Logger"];
   entry_of "transporttostring_5" "transportToString" [place_of "../namespacestgs.html#a5c6b2b1538926a6420d12849fb22ff90" true "stgs"]].

Definition functions_11 : list entry :=
  [entry_of "valid_0" "valid" [place_of "../structstgs_1_1PortRange.html#a88a5c45197a3c12512d3421d91595005" true "stgs::PortRange"]].

Definition functions_12 : list entry :=
  [entry_of "warning_0" "warning" [place_of "../classstgs_1_1Logger.html#a4263b13735c24e070fc838460b83706e" true "stgs::Logger"];
   entry_of "width_1" "width" [place_of "../classstgs_1_1TerminalUi.html#afc01eb85687a08fdd054b43ddb1d4aaf" true "stgs::TerminalUi"];
   entry_of "write_2" "write" [place_of "../classstgs_1_1app_1_1ground__station_1_1TelemetryOutput.html#a2200f5da81f2729c086e7d23d04dc17c" true "stgs::app::ground_station::TelemetryOutput"];
   entry_of "writeframe_3" "writeFrame" [place_of "../classstgs_1_1FrameFileWriter.html#a425eebf56934d2040d25e97e4927376b" true "stgs::FrameFileWriter"]].

Definition functions_13 : list entry :=
  [entry_of "_7eframefilewriter_0" "~FrameFileWriter" [place_of "../classstgs_1_1FrameFileWriter.html#a18792af70da7ee23ef2b0c1f5be048ef" true "stgs::FrameFileWriter"];
   entry_of "_7elogger_1" "~Logger" [place_of "../classstgs_1_1Logger.html#a8923e46f2e833497f0d0f2a0840ecb28" true "stgs::Logger"];
   entry_of "_7enetworkserver_2" "~NetworkServer" [place_of "../classstgs_1_1NetworkServer.html#a2302471470abe37838539a0bf3483787" true "stgs::NetworkServer"];
   entry_of "_7eposixsignalstopcontroller_3" "~PosixSignalStopController" [place_of "../classstgs_1_1app_1_1ground__station_1_1PosixSignalStopController.html#a08a5c6ee97beb43756078229139dd571" true "stgs::app::ground_station::PosixSignalStopController"];
   entry_of "_7esocketfd_4" "~SocketFd" [place_of "../classstgs_1_1app_1_1simulator_1_1SocketFd.html#af03e179687fc4e5ca2b29c07b6fa70eb" true "stgs::app::simulator::SocketFd"]].

Definition functions_files : list (list entry) :=
  [functions_0; functions_1; functions_2; functions_3; functions_4; functions_5; functions_6; functions_7; functions_8; functions_9; functions_a; functions_b; functions_c; functions_d; functions_e; functions_f; functions_10; functions_11; functions_12; functions_13].

(** ** variables *)

Definition variables_0 : list entry :=
  [entry_of "applicationcommonheadersize_0" "ApplicationCommonHeaderSize" [place_of "../namespacestgs.html#a2e3dc2924fb8e0de0ae5b67bda4c38d3" true "stgs"];
   entry_of "applicationerrors_1" "applicationErrors" [place_of "../structstgs_1_1app_1_1ground__station_1_1PipelineStats.html#a1567030b61f851fb3ef04cd92e408df9" true "stgs::app::ground_station::PipelineStats"];
   entry_of "applicationpayloadmagic_2" "ApplicationPayloadMagic" [place_of "../namespacestgs.html#aeb984907d57236b459c47b678da2e3d1" true "stgs"];
   entry_of "applicationpayloadversion_3" "ApplicationPayloadVersion" [place_of "../namespacestgs.html#a3c4b724804004d0cbbfa346f7fb312fb" true "stgs"];
   entry_of "autoportrange_4" "autoPortRange" [place_of "../structstgs_1_1app_1_1ground__station_1_1Options.html#a587544c291359aad7f39477a4c9e2bf6" true "stgs::app::ground_station::Options"];
   entry_of "available_5" "available" [place_of "../structstgs_1_1LocalPortAvailability.html#a67e52677b66d8d2712ea79ad89cf86fa" true "stgs::LocalPortAvailability"]].

Definition variables_1 : list entry :=
  [entry_of "batteryoffset_0" "BatteryOffset" [place_of "../namespacestgs.html#aceda3f1abf5c9b9a85133a4566b455c1" true "stgs"];
   entry_of "batterypercent_1" "batteryPercent" [place_of "../structstgs_1_1TelemetryFrame.html#a02c7ba32d96eb0fea578eefac2cc8d6f" true "stgs::TelemetryFrame"];
   entry_of "bindaddress_2" "bindaddress" [place_of "../structstgs_1_1app_1_1ground__station_1_1Options.html#a69dadf7f1603c0332a2b4a210ab8332d" true "stgs::app::ground_station::Options::bindAddress"; place_of "../structstgs_1_1NetworkConfig.html#af526151af5d29d05947a1ed99f781749" true "stgs::NetworkConfig::bindAddress"];
   entry_of "bytemask_3" "ByteMask" [place_of "../namespacestgs_1_1detail.html#aa375565c0fc4c92865ea298dba3b6691" true "stgs::detail"];
   entry_of "bytes_4" "bytes" [place_of "../structstgs_1_1app_1_1ground__station_1_1RawWorkItem.html#a32c01440dff1d6c5d5f1bdd55f3905c9" true "stgs::app::ground_station::RawWorkItem"]].

Definition variables_2 : list entry :=
  [entry_of "code_0" "code" [place_of "../structstgs_1_1FrameError.html#adbf564bd743a3e37a6585723874e0574" true "stgs::FrameError::code"; place_of "../structstgs_1_1ApplicationPayloadError.html#a181d2c642bbe9366301b8952c4ef9390" true "stgs::ApplicationPayloadError::code"];
   entry_of "color_1" "color" [place_of "../structstgs_1_1app_1_1ground__station_1_1Options.html#a5da80e2a4b6aec6fd1af71cf827a571d" true "stgs::app::ground_station::Options::color"; place_of "../structstgs_1_1app_1_1simulator_1_1Options.html#a6a007eb396ee2c2901b30fc51e541fc2" true "stgs::app::simulator::Options::color"];
   entry_of "corruptprobability_2" "corruptProbability" [place_of "../structstgs_1_1app_1_1simulator_1_1Options.html#a4a5522996fbd3380b527ce02d8ed9e19" true "stgs::app::simulator::Options"];
   entry_of "coscoefficient_3" "cosCoefficient" [place_of "../SignalProcessing_8cpp.html#a0ca6c78a79e2c23159b81c2c23da827a" true "SignalProcessing.cpp"];
   entry_of "count_4" "count" [place_of "../structstgs_1_1app_1_1simulator_1_1Options.html#a21d2ca0623d70e2e050c951144724d60" true "stgs::app::simulator::Options"];
   entry_of "countexplicit_5" "countExplicit" [place_of "../structstgs_1_1app_1_1simulator_1_1Options.html#aaf5366a0d3e7f8cff0c9104efbd45018" true "stgs::app::simulator::Options"];
   entry_of "crc32check123456789_6" "Crc32Check123456789" [place_of "../namespacestgs.html#a5594cb785adddb5af16c0f7f298a6225" true "stgs"];
   entry_of "crc32finalxor_7" "Crc32FinalXor" [place_of "../namespacestgs.html#a0a35ad0fca0eff1e50c4b551a823720d" true "stgs"];
   entry_of "crc32initialvalue_8" "Crc32InitialValue" [place_of "../namespacestgs.html#a74c109e159b49bd03f8ebeb529bf1226" true "stgs"];
   entry_of "crc32polynomial_9" "Crc32Polynomial" [place_of "../namespacestgs.html#a4c3cf84a665a74aca60d79d2720cdd44" true "stgs"];
   entry_of "crc32reflectedpolynomial_10" "Crc32ReflectedPolynomial" [place_of "../namespacestgs.html#ad872c0cffd61ccff234a327a86d8aebb" true "stgs"];
   entry_of "crcsize_11" "CrcSize" [place_of "../namespacestgs.html#a2af9dce4ca0370f9f2df450a9aa03ef4" true "stgs"];
   entry_of "critical_12" "critical" [place_of "../structstgs_1_1StationHealthSnapshot.html#ad809a3e3dda1d2320dff3c1286ff3dc0" true "stgs::StationHealthSnapshot"];
   entry_of "criticalframesfordegraded_13" "criticalFramesForDegraded" [place_of "../structstgs_1_1StationHealthConfig.html#a3bf12ea3a9fa4e94146270086722405b" true "stgs::StationHealthConfig"];
   entry_of "criticalframesforrecovery_14" "criticalFramesForRecovery" [place_of "../structstgs_1_1StationHealthConfig.html#aa17b2f19b81f73f2176aec8d2f4e0fe2" true "stgs::StationHealthConfig"]].

Definition variables_3 : list entry :=
  [entry_of "dc_0" "dc" [place_of "../SignalProcessing_8cpp.html#af198a5882da491a016df14cac18b2856" true "SignalProcessing.cpp"];
   entry_of "decoded_1" "decoded" [place_of "../structstgs_1_1app_1_1ground__station_1_1PipelineStats.html#a7feafbe2ebe0825cca6774b1844b1338" true "stgs::app::ground_station::PipelineStats"];
   entry_of "decoderthreads_2" "decoderThreads" [place_of "../structstgs_1_1app_1_1ground__station_1_1Options.html#aacf3f4c2c1eeafe942e76470baea35c8" true "stgs::app::ground_station::Options"];
   entry_of "defaultnetworkpolltimeoutms_3" "DefaultNetworkPollTimeoutMs" [place_of "../namespacestgs.html#a9b83d5fba556317dfed190570a657a15" true "stgs"];
   entry_of "defaultpayloadpreviewbytes_4" "DefaultPayloadPreviewBytes" [place_of "../namespacestgs.html#a15a874151f361a28fc4b701a20b936cb" true "stgs"];
   entry_of "defaultportprobetimeout_5" "DefaultPortProbeTimeout" [place_of "../namespacestgs.html#a769fad3e0dd24b61146242b3beabfe49" true "stgs"];
   entry_of "defaulttelemetryport_6" "DefaultTelemetryPort" [place_of "../namespacestgs.html#ab3eaa01404f6ebd84c9265bc3413a187" true "stgs"];
   entry_of "degradedrejectionrate_7" "degradedRejectionRate" [place_of "../structstgs_1_1StationHealthConfig.html#af2ecfc6647a66641e7d7a2093b6c0eda" true "stgs::StationHealthConfig"];
   entry_of "detail_8" "detail" [place_of "../structstgs_1_1TcpPortProbeResult.html#a7cf3ee74524e2f032e4175bc06fdaf12" true "stgs::TcpPortProbeResult::detail"; place_of "../structstgs_1_1LocalPortAvailability.html#a287ac57266c891190db1f8f0099ec0af" true "stgs::LocalPortAvailability::detail"];
   entry_of "discoverports_9" "discoverPorts" [place_of "../structstgs_1_1app_1_1simulator_1_1Options.html#a5f8fc46a9b3247d0960468628f940773" true "stgs::app::simulator::Options"];
   entry_of "discoverytimeout_10" "discoveryTimeout" [place_of "../structstgs_1_1app_1_1simulator_1_1Options.html#afe849eac827386775d6c9b1291e2f9be" true "stgs::app::simulator::Options"]].

Definition variables_4 : list entry :=
  [entry_of "enabled_0" "enabled" [place_of "../structstgs_1_1StationHealthConfig.html#a5fd0e373f0212ce8279c70df516926fd" true "stgs::StationHealthConfig"];
   entry_of "estimatedamplitude_1" "estimatedAmplitude" [place_of "../structstgs_1_1SignalMetrics.html#af44f54028722447a767727eca27078d6" true "stgs::SignalMetrics"];
   entry_of "estimatedsnrdb_2" "estimatedSnrDb" [place_of "../structstgs_1_1SignalMetrics.html#ab74d5d03f557f542c746ef6c9e05bb5b" true "stgs::SignalMetrics"];
   entry_of "extractor_3" "extractor" [place_of "../NetworkServerTcp_8cpp.html#a89e98f35eb5391c805f03de688d94270" true "NetworkServerTcp.cpp"]].

Definition variables_5 : list entry :=
  [entry_of "fd_0" "fd" [place_of "../NetworkServerTcp_8cpp.html#a6f8059414f0228f0256115e024eeed4b" true "NetworkServerTcp.cpp"];
   entry_of "filteredrms_1" "filteredRms" [place_of "../structstgs_1_1SignalMetrics.html#aa2d9ad888f22cb619a4e17cd73803133" true "stgs::SignalMetrics"];
   entry_of "first_2" "first" [place_of "../structstgs_1_1PortRange.html#a5974ad2a5dff722fc5fd7c646cce679d" true "stgs::PortRange"];
   entry_of "float32wiresize_3" "Float32WireSize" [place_of "../namespacestgs.html#ad30888b452380949c566d434784bba70" true "stgs"];
   entry_of "framemagic_4" "FrameMagic" [place_of "../namespacestgs.html#a0e4be2b427b7e545711791601cd0d394" true "stgs"];
   entry_of "frequencyhz_5" "frequencyHz" [place_of "../structstgs_1_1SignalBlockPayload.html#a7119d2eca398e407971983d71051fb9e" true "stgs::SignalBlockPayload"];
   entry_of "from_6" "from" [place_of "../structstgs_1_1StationStateTransition.html#a9f85cfbfc0332168e30dbb69094463d7" true "stgs::StationStateTransition"]].

Definition variables_6 : list entry :=
  [entry_of "headersize_0" "HeaderSize" [place_of "../namespacestgs.html#abf8a7bd45da6596dc9997fd46c4eb096" true "stgs"];
   entry_of "healthconfig_1" "healthConfig" [place_of "../structstgs_1_1app_1_1ground__station_1_1Options.html#a162aeb5eeaca2e0d1c8d64258bb07d8d" true "stgs::app::ground_station::Options"];
   entry_of "host_2" "host" [place_of "../structstgs_1_1app_1_1simulator_1_1Options.html#a6709401e926dd4896c6c9620d8e00f21" true "stgs::app::simulator::Options"]].

Definition variables_7 : list entry :=
  [entry_of "last_0" "last" [place_of "../structstgs_1_1PortRange.html#a23ae79afc9384a569e6de733f9a972ba" true "stgs::PortRange"];
   entry_of "latencyms_1" "latencyMs" [place_of "../structstgs_1_1TcpPortProbeResult.html#a777d1834bbd051ecce69df18c371e711" true "stgs::TcpPortProbeResult"];
   entry_of "logfile_2" "logFile" [place_of "../structstgs_1_1app_1_1ground__station_1_1Options.html#aab0afe12f93a9cb1d5fbd63f48baabfb" true "stgs::app::ground_station::Options"];
   entry_of "loglevel_3" "logLevel" [place_of "../structstgs_1_1app_1_1ground__station_1_1Options.html#a3ac5b50d75e9f27157c8ecda7c902501" true "stgs::app::ground_station::Options"];
   entry_of "lossprobability_4" "lossProbability" [place_of "../structstgs_1_1app_1_1simulator_1_1Options.html#af28305ade385c9c587b2870b3007feb2" true "stgs::app::simulator::Options"]].

Definition variables_8 : list entry :=
  [entry_of "magicoffset_0" "MagicOffset" [place_of "../namespacestgs.html#a757b95ce3270c71e7dc8f14b9bf2fb09" true "stgs"];
   entry_of "magicsize_1" "MagicSize" [place_of "../namespacestgs.html#a611696a65d9982545b6c8f4a7ad52a7c" true "stgs"];
   entry_of "maxbatterypercent_2" "MaxBatteryPercent" [place_of "../namespacestgs.html#aba4b69ba4fe228503afb9c70ac612014" true "stgs"];
   entry_of "maxdiagnosticportcount_3" "MaxDiagnosticPortCount" [place_of "../namespacestgs.html#a3dae02625f8dcb392c6bdf2306f6708d" true "stgs"];
   entry_of "maxframesize_4" "MaxFrameSize" [place_of "../namespacestgs.html#a16a992cbf9d7868da731e2c18db66d24" true "stgs"];
   entry_of "maximumnetworkport_5" "MaximumNetworkPort" [place_of "../namespacestgs.html#a1df74eaa09da8b0d50bef1ea4d74575e" true "stgs"];
   entry_of "maximumportprobetimeout_6" "MaximumPortProbeTimeout" [place_of "../namespacestgs.html#a1b13b828d8af37cb4d2b6e73d75fd096" true "stgs"];
   entry_of "maxpayloadsize_7" "MaxPayloadSize" [place_of "../namespacestgs.html#a1af66b07a9f7e74447c61aa3d7719faa" true "stgs"];
   entry_of "maxsignalsamplesperpayload_8" "MaxSignalSamplesPerPayload" [place_of "../namespacestgs.html#a29dc97fc78e89f1df44cd02919053489" true "stgs"];
   entry_of "maxtextmessagebytes_9" "MaxTextMessageBytes" [place_of "../namespacestgs.html#a69bb77b6f23499a8d166dc42b041819e" true "stgs"];
   entry_of "message_10" "message" [place_of "../structstgs_1_1ApplicationPayloadError.html#a3f1a12bf18d116b6f0830f5ca14e23c9" true "stgs::ApplicationPayloadError::message"; place_of "../structstgs_1_1FrameError.html#a1f6ef01ba7fe3979cc982adcfc9c1355" true "stgs::FrameError::message"; place_of "../structstgs_1_1app_1_1simulator_1_1Options.html#a1d3c0c149798567a3db304d45c5b0156" true "stgs::app::simulator::Options::message"];
   entry_of "minframesize_11" "MinFrameSize" [place_of "../namespacestgs.html#a8f70fc40ffc48a7269a7857135f6cd4b" true "stgs"];
   entry_of "minimumnetworkport_12" "MinimumNetworkPort" [place_of "../namespacestgs.html#adc7a80912cd2e5324b630ac75b38f029" true "stgs"];
   entry_of "minsamples_13" "minSamples" [place_of "../structstgs_1_1StationHealthConfig.html#aafa650fc61e9527fac8895a14a223502" true "stgs::StationHealthConfig"];
   entry_of "movingaveragewindow_14" "movingAverageWindow" [place_of "../structstgs_1_1app_1_1ground__station_1_1Options.html#a7ece7909b32c1156eb3147d09f52b5da" true "stgs::app::ground_station::Options"]].

Definition variables_9 : list entry :=
  [entry_of "noisestddev_0" "noiseStddev" [place_of "../structstgs_1_1app_1_1simulator_1_1Options.html#aa4289ca08f488ca35e7686bc3f0fdea7" true "stgs::app::simulator::Options"];
   entry_of "nominalamplitude_1" "nominalAmplitude" [place_of "../structstgs_1_1SignalBlockPayload.html#ac47517beadc3128501e6f61f048d2476" true "stgs::SignalBlockPayload"]].

Definition variables_a : list entry :=
  [entry_of "outputfile_0" "outputfile" [place_of "../structstgs_1_1app_1_1ground__station_1_1Options.html#abd7f6e880ed55cccc524d39ae6e9aaa0" true "stgs::app::ground_station::Options::outputFile"; place_of "../structstgs_1_1app_1_1simulator_1_1Options.html#aa8fdfd2781ad76a9005dc4903005b5a2" true "stgs::app::simulator::Options::outputFile"];
   entry_of "outputformat_1" "outputFormat" [place_of "../structstgs_1_1app_1_1ground__station_1_1Options.html#a117854d5ce0bd879e9574414e1e3a035" true "stgs::app::ground_station::Options"]].

Definition variables_b : list entry :=
  [entry_of "payload_0" "payload" [place_of "../structstgs_1_1TelemetryFrame.html#ad99064aad90f23a38c05cb6b2ca1307d" true "stgs::TelemetryFrame"];
   entry_of "payloadlengthoffset_1" "PayloadLengthOffset" [place_of "../namespacestgs.html#a7a1768985c5683684967a231e347713f" true "stgs"];
   entry_of "payloadmode_2" "payloadMode" [place_of "../structstgs_1_1app_1_1simulator_1_1Options.html#ab26b6b865425beca7aba61b486977675" true "stgs::app::simulator::Options"];
   entry_of "payloadsize_3" "payloadSize" [place_of "../structstgs_1_1app_1_1simulator_1_1Options.html#a23bf245219b5f8010eea0121a7a08168" true "stgs::app::simulator::Options"];
   entry_of "polltimeoutms_4" "pollTimeoutMs" [place_of "../structstgs_1_1NetworkConfig.html#a679bc0335261b5c100972c157cda0e89" true "stgs::NetworkConfig"];
   entry_of "port_5" "port" [place_of "../structstgs_1_1app_1_1ground__station_1_1Options.html#af08e109d95e6b719ad2cb035b65dbc92" true "stgs::app::ground_station::Options::port"; place_of "../structstgs_1_1app_1_1simulator_1_1Options.html#a7951170891c7cded1e481725cc6e83bb" true "stgs::app::simulator::Options::port"; place_of "../structstgs_1_1NetworkConfig.html#ab7712921094db7ea02cd277895ac7ed5" true "stgs::NetworkConfig::port"; place_of "../structstgs_1_1TcpPortProbeResult.html#aae24c39ee295cb28ddb49140150e0926" true "stgs::TcpPortProbeResult::port"; place_of "../structstgs_1_1LocalPortAvailability.html#aaff1cb6f990bc5512b391372cf62f7a6" true "stgs::LocalPortAvailability::port"];
   entry_of "protocolversion_6" "ProtocolVersion" [place_of "../namespacestgs.html#a0d1e17892d860b10402bb02f014038cb" true "stgs"]].

Definition variables_c : list entry :=
  [entry_of "queuecapacity_0" "queueCapacity" [place_of "../structstgs_1_1app_1_1ground__station_1_1Options.html#af4f4569cdd6e2ef65014f23ab009a256" true "stgs::app::ground_station::Options"]].

Definition variables_d : list entry :=
  [entry_of "rate_0" "rate" [place_of "../structstgs_1_1app_1_1simulator_1_1Options.html#ad3d50e6da6ce383be89c4db416e787de" true "stgs::app::simulator::Options"];
   entry_of "rawrms_1" "rawRms" [place_of "../structstgs_1_1SignalMetrics.html#a940db4bf6f9b1d67d3dee2dadde2c2aa" true "stgs::SignalMetrics"];
   entry_of "reason_2" "reason" [place_of "../structstgs_1_1StationStateTransition.html#a3b9521ff26d6bb0277fd692a8585660e" true "stgs::StationStateTransition"];
   entry_of "received_3" "received" [place_of "../structstgs_1_1app_1_1ground__station_1_1PipelineStats.html#a6bbf8a74c6e79decbbb0a40753524b8c" true "stgs::app::ground_station::PipelineStats"];
   entry_of "recoveryrejectionrate_4" "recoveryRejectionRate" [place_of "../structstgs_1_1StationHealthConfig.html#a215d90fab1a3b094c89447b95931b05c" true "stgs::StationHealthConfig"];
   entry_of "rejected_5" "rejected" [place_of "../structstgs_1_1app_1_1ground__station_1_1PipelineStats.html#af20c52495ea4e9557834bb188761a541" true "stgs::app::ground_station::PipelineStats::rejected"; place_of "../structstgs_1_1StationHealthSnapshot.html#aa162466ca72e25fa9388591a5816191b" true "stgs::StationHealthSnapshot::rejected"];
   entry_of "rejectionrate_6" "rejectionRate" [place_of "../structstgs_1_1StationHealthSnapshot.html#a531393faf1e6b8670a9d458564e20447" true "stgs::StationHealthSnapshot"];
   entry_of "replayfile_7" "replayFile" [place_of "../structstgs_1_1app_1_1ground__station_1_1Options.html#a109bbdd00184c8802f0ce2b084ff35ac" true "stgs::app::ground_station::Options"];
   entry_of "replayrate_8" "replayRate" [place_of "../structstgs_1_1app_1_1ground__station_1_1Options.html#a9f159bf68cd950a84943d26e6dfc7bed" true "stgs::app::ground_station::Options"];
   entry_of "residualnoiserms_9" "residualNoiseRms" [place_of "../structstgs_1_1SignalMetrics.html#ac9d4ed617c5141ac515a160a9dcaaf8e" true "stgs::SignalMetrics"];
   entry_of "result_10" "result" [place_of "../structstgs_1_1app_1_1ground__station_1_1DecodedWorkItem.html#a8cba3f9f7ba930fe5ae722b4d953fce8" true "stgs::app::ground_station::DecodedWorkItem"]].

Definition variables_e : list entry :=
  [entry_of "sampleratehz_0" "sampleratehz" [place_of "../structstgs_1_1SignalBlockPayload.html#ac4c8789330f8ad372a3fca1334bd1c23" true "stgs::SignalBlockPayload::sampleRateHz"; place_of "../structstgs_1_1app_1_1simulator_1_1Options.html#a31f7c4dc336360f800ac4f4b553e00a5" true "stgs::app::simulator::Options::sampleRateHz"];
   entry_of "samples_1" "samples" [place_of "../structstgs_1_1SignalBlockPayload.html#acc005fc6b49bb551b8af112c85fe9a4f" true "stgs::SignalBlockPayload::samples"; place_of "../structstgs_1_1StationHealthSnapshot.html#ac076771cb4b6b4382f3de6640f7ce96d" true "stgs::StationHealthSnapshot::samples"];
   entry_of "satelliteid_2" "satelliteid" [place_of "../structstgs_1_1app_1_1simulator_1_1Options.html#afa7f9572268bc6705bae9331624e9f6c" true "stgs::app::simulator::Options::satelliteId"; place_of "../structstgs_1_1TelemetryFrame.html#a7f471964a23c24e508e48ea1466ac4c9" true "stgs::TelemetryFrame::satelliteId"];
   entry_of "satelliteidoffset_3" "SatelliteIdOffset" [place_of "../namespacestgs.html#aa8866bb9f2fbb06067d64f767c57f05c" true "stgs"];
   entry_of "seed_4" "seed" [place_of "../structstgs_1_1app_1_1simulator_1_1Options.html#a1a94dde0d2e6935b0bc83208e5326993" true "stgs::app::simulator::Options"];
   entry_of "sequence_5" "sequence" [place_of "../structstgs_1_1app_1_1ground__station_1_1RawWorkItem.html#afdd80733f6b0f098459da24c7cd82f81" true "stgs::app::ground_station::RawWorkItem::sequence"; place_of "../structstgs_1_1app_1_1ground__station_1_1DecodedWorkItem.html#acc367717ff78c1d60024cb03205157d4" true "stgs::app::ground_station::DecodedWorkItem::sequence"; place_of "../structstgs_1_1TextMessagePayload.html#a74eb74e7d9d01d2335926dbd227d17f8" true "stgs::TextMessagePayload::sequence"];
   entry_of "signalamplitude_6" "signalAmplitude" [place_of "../structstgs_1_1app_1_1simulator_1_1Options.html#aa3dfb2846769581622dfb17c2f9b0945" true "stgs::app::simulator::Options"];
   entry_of "signalblockfixedwiresize_7" "SignalBlockFixedWireSize" [place_of "../namespacestgs.html#a5be2a744a7b57928b157df2f4b6babc3" true "stgs"];
   entry_of "signalfilter_8" "signalFilter" [place_of "../structstgs_1_1app_1_1ground__station_1_1Options.html#ad5f9bcb7d6564a7b7f3e54e14d0eaf92" true "stgs::app::ground_station::Options"];
   entry_of "signalfrequencyhz_9" "signalFrequencyHz" [place_of "../structstgs_1_1app_1_1simulator_1_1Options.html#a4d3951ffa0baa81bd61f96a269009dd4" true "stgs::app::simulator::Options"];
   entry_of "signalsamples_10" "signalSamples" [place_of "../structstgs_1_1app_1_1simulator_1_1Options.html#a46df4ae2374ceb30b18b559a064fbfcb" true "stgs::app::simulator::Options"];
   entry_of "signalsamplewiresize_11" "SignalSampleWireSize" [place_of "../namespacestgs.html#a254c9e97079925357922b1b95e69d74f" true "stgs"];
   entry_of "sincoefficient_12" "sinCoefficient" [place_of "../SignalProcessing_8cpp.html#ab3e66d17e811e3952f9f74cc9f759bcf" true "SignalProcessing.cpp"];
   entry_of "snapshot_13" "snapshot" [place_of "../structstgs_1_1StationStateTransition.html#a1248dc626d4b84c6867b0325bee95a24" true "stgs::StationStateTransition"];
   entry_of "startsampleindex_14" "startSampleIndex" [place_of "../structstgs_1_1SignalBlockPayload.html#a53686760a63a50567c62cb70bb6fe5d6" true "stgs::SignalBlockPayload"];
   entry_of "state_15" "state" [place_of "../structstgs_1_1TcpPortProbeResult.html#a4ad18ed976e1f6df94ec358f40d32256" true "stgs::TcpPortProbeResult::state"; place_of "../structstgs_1_1StationHealthSnapshot.html#a61fd8b5b83ce472ef2e205931c1b9f83" true "stgs::StationHealthSnapshot::state"];
   entry_of "status_16" "status" [place_of "../structstgs_1_1TelemetryFrame.html#a823f07b9cf54cab10219ca4491c20435" true "stgs::TelemetryFrame"];
   entry_of "statusoffset_17" "StatusOffset" [place_of "../namespacestgs.html#aec51795d1382632f3af398d04dfc7599" true "stgs"]].

Definition variables_f : list entry :=
  [entry_of "temperaturec_0" "temperatureC" [place_of "../structstgs_1_1TelemetryFrame.html#ad9b76aa85f3c942dca16992a0e3359a6" true "stgs::TelemetryFrame"];
   entry_of "temperatureoffset_1" "TemperatureOffset" [place_of "../namespacestgs.html#a6bf948dc56fd22c752bee7833ba8669b" true "stgs"];
   entry_of "text_2" "text" [place_of "../structstgs_1_1TextMessagePayload.html#aeb61a98826eced0f2e3708c7f9f40245" true "stgs::TextMessagePayload"];
   entry_of "textmessagefixedwiresize_3" "TextMessageFixedWireSize" [place_of "../namespacestgs.html#ac10ffae257f2baf0aa6002c88dd1a4dc" true "stgs"];
   entry_of "timestampms_4" "timestampMs" [place_of "../structstgs_1_1TelemetryFrame.html#a6081ce170d96c1e13eaa8c4ca7160dd4" true "stgs::TelemetryFrame"];
   entry_of "timestampoffset_5" "TimestampOffset" [place_of "../namespacestgs.html#a867f27d9ee6a3a3d335df03d00f13cd7" true "stgs"];
   entry_of "to_6" "to" [place_of "../structstgs_1_1StationStateTransition.html#aa9cb317dd2dad860e2abc60e80e5c28f" true "stgs::StationStateTransition"];
   entry_of "transport_7" "transport" [place_of "../structstgs_1_1app_1_1ground__station_1_1Options.html#a8363f2a4b199c5aac9eaee4ea56943c4" true "stgs::app::ground_station::Options::transport"; place_of "../structstgs_1_1app_1_1simulator_1_1Options.html#ab17bc535171a0866e18711806b92c286" true "stgs::app::simulator::Options::transport"; place_of "../structstgs_1_1NetworkConfig.html#aabf99168958ae5f00024382e0e089aff" true "stgs::NetworkConfig::transport"]].

Definition variables_10 : list entry :=
  [entry_of "u16wiresize_0" "U16WireSize" [place_of "../namespacestgs.html#af2586a68e7d836e1815c183ffd22bde5" true "stgs"];
   entry_of "u32wiresize_1" "U32WireSize" [place_of "../namespacestgs.html#a07a576431ae9ee72b588a1f8bcf07b90" true "stgs"];
   entry_of "u64wiresize_2" "U64WireSize" [place_of "../namespacestgs.html#a42fa9eaff75bb80aaa74602e62a4e280" true "stgs"];
   entry_of "u8wiresize_3" "U8WireSize" [place_of "../namespacestgs.html#a417e7de760f578b8de7e6a218852157b" true "stgs"]].

Definition variables_11 : list entry :=
  [entry_of "verbose_0" "verbose" [place_of "../structstgs_1_1app_1_1ground__station_1_1Options.html#a95e20adab063bb991e0c9600a51cdcf6" true "stgs::app::ground_station::Options"];
   entry_of "version_1" "version" [place_of "../structstgs_1_1TelemetryFrame.html#a84fa6dd941a4f0b48aba59cee10db1eb" true "stgs::TelemetryFrame"];
   entry_of "versionoffset_2" "VersionOffset" [place_of "../namespacestgs.html#a240e53eeabfe4e74494c85545996e589" true "stgs"]].

Definition variables_12 : list entry :=
  [entry_of "windowsize_0" "windowSize" [place_of "../structstgs_1_1StationHealthConfig.html#a108f344fdd31a19251f1f61175473aa2" true "stgs::StationHealthConfig"];
   entry_of "written_1" "written" [place_of "../structstgs_1_1app_1_1ground__station_1_1PipelineStats.html#a9f92711ffde274ded4201f9ec3280dc4" true "stgs::app::ground_station::PipelineStats"]].

Definition variables_files : list (list entry) :=
  [variables_0; variables_1; variables_2; variables_3; variables_4; variables_5; variables_6; variables_7; variables_8; variables_9; variables_a; variables_b; variables_c; variables_d; variables_e; variables_f; variables_10; variables_11; variables_12].

(** ** typedefs *)

Definition typedefs_0 : list entry :=
  [entry_of "applicationpayloadparseresult_0" "ApplicationPayloadParseResult" [place_of "../namespacestgs.html#af72d489e108e26381191465a90440b38" true "stgs"]].

Definition typedefs_1 : list entry :=
  [entry_of "bytevector_0" "ByteVector" [place_of "../namespacestgs.html#ad5ffad61c84bc02fa03a4d2c7f7e8305" true "stgs"]].

Definition typedefs_2 : list entry :=
  [entry_of "framecallback_0" "FrameCallback" [place_of "../classstgs_1_1NetworkServer.html#ac504eb1e38628a5ba4cec43d9af0b51e" true "stgs::NetworkServer"];
   entry_of "frameparseresult_1" "FrameParseResult" [place_of "../namespacestgs.html#a6f51df7d9b7e75ff18a4bae663ff262f" true "stgs"]].

Definition typedefs_3 : list entry :=
  [entry_of "testregistry_0" "TestRegistry" [place_of "../namespacestgs_1_1test.html#af97d6ca686906b09206be3256f2dd619" true "stgs::test"]].

Definition typedefs_files : list (list entry) :=
  [typedefs_0; typedefs_1; typedefs_2; typedefs_3].

(** ** enums *)

Definition enums_0 : list entry :=
  [entry_of "applicationpayloaderrorcode_0" "ApplicationPayloadErrorCode" [place_of "../namespacestgs.html#a2aa48089627d210628f45038315de28a" true "stgs"];
   entry_of "applicationpayloadkind_1" "ApplicationPayloadKind" [place_of "../namespacestgs.html#a9bdca5c4652fbfd0ea0d649134cc5e2b" true "stgs"]].

Definition enums_1 : list entry :=
  [entry_of "frameerrorcode_0" "FrameErrorCode" [place_of "../namespacestgs.html#a6c3c97c875363adab257eb270bb20f14" true "stgs"]].

Definition enums_2 : list entry :=
  [entry_of "loglevel_0" "LogLevel" [place_of "../namespacestgs.html#a2b4a335983593d5d8d599d58cd7ee203" true "stgs"]].

Definition enums_3 : list entry :=
  [entry_of "outputformat_0" "OutputFormat" [place_of "../namespacestgs_1_1app_1_1ground__station.html#a674f76aa6255d0fb1ffec19ffc6be19d" true "stgs::app::ground_station"]].

Definition enums_4 : list entry :=
  [entry_of "payloadmode_0" "PayloadMode" [place_of "../namespacestgs_1_1app_1_1simulator.html#a9bc7b0135556745522ad9ee19f291609" true "stgs::app::simulator"];
   entry_of "porttransport_1" "PortTransport" [place_of "../namespacestgs.html#ab99ad0f4a1a1fb197aab95d7286a9a7e" true "stgs"]].

Definition enums_5 : list entry :=
  [entry_of "signalfiltermode_0" "SignalFilterMode" [place_of "../namespacestgs.html#ad6d6eb8010ca5d7fa98b1ab91ee2792c" true "stgs"];
   entry_of "stationstate_1" "StationState" [place_of "../namespacestgs.html#af145a1e8f5e0f55d9178bafa1faacb7e" true "stgs"];
   entry_of "status_2" "Status" [place_of "../namespacestgs.html#a61ca9382bebac8640e15d2338a9eb8af" true "stgs"]].

Definition enums_6 : list entry :=
  [entry_of "tcpportstate_0" "TcpPortState" [place_of "../namespacestgs.html#ab73dc2ebbed2d6799b14a329f2e691cc" true "stgs"];
   entry_of "terminalstatus_1" "TerminalStatus" [place_of "../namespacestgs.html#aed082ae37dc19f30579b2d7981342c1e" true "stgs"];
   entry_of "transport_2" "Transport" [place_of "../namespacestgs.html#adbb66f14d66c3f994511b242f7cdfbe6" true "stgs"]].

Definition enums_files : list (list entry) :=
  [enums_0; enums_1; enums_2; enums_3; enums_4; enums_5; enums_6].

(** ** enumvalues *)

Definition enumvalues_0 : list entry :=
  [entry_of "auto_0" "Auto" [place_of "../namespacestgs_1_1app_1_1ground__station.html#a674f76aa6255d0fb1ffec19ffc6be19da06b9281e396db002010bde1de57262eb" true "stgs::app::ground_station"]].

Definition enumvalues_1 : list entry :=
  [entry_of "badcrc_0" "BadCrc" [place_of "../namespacestgs.html#a6c3c97c875363adab257eb270bb20f14a63afce0aa4ad8e31dbdfc57d15771a1c" true "stgs"];
   entry_of "badmagic_1" "BadMagic" [place_of "../namespacestgs.html#a6c3c97c875363adab257eb270bb20f14ac87c2d41af62cc035e76f90e0f889e4f" true "stgs"]].

Definition enumvalues_2 : list entry :=
  [entry_of "closed_0" "Closed" [place_of "../namespacestgs.html#ab73dc2ebbed2d6799b14a329f2e691cca03f4a47830f97377a35321051685071e" true "stgs"];
   entry_of "critical_1" "Critical" [place_of "../namespacestgs.html#a61ca9382bebac8640e15d2338a9eb8afa278d01e5af56273bae1bb99a98b370cd" true "stgs"];
   entry_of "csv_2" "Csv" [place_of "../namespacestgs_1_1app_1_1ground__station.html#a674f76aa6255d0fb1ffec19ffc6be19dab20daea8bfacec3891fcf5b7be4adca0" true "stgs::app::ground_station"]].

Definition enumvalues_3 : list entry :=
  [entry_of "debug_0" "Debug" [place_of "../namespacestgs.html#a2b4a335983593d5d8d599d58cd7ee203aa603905470e2a5b8c13e96b579ef0dba" true "stgs"];
   entry_of "degraded_1" "Degraded" [place_of "../namespacestgs.html#af145a1e8f5e0f55d9178bafa1faacb7eaaa95669cd5732a57e8f6467705f06642" true "stgs"]].

Definition enumvalues_4 : list entry :=
  [entry_of "error_0" "error" [place_of "../namespacestgs.html#a2b4a335983593d5d8d599d58cd7ee203a902b0d55fddef6f8d651fe1035b7d4bd" true "stgs::Error"; place_of "../namespacestgs.html#ab73dc2ebbed2d6799b14a329f2e691cca902b0d55fddef6f8d651fe1035b7d4bd" true "stgs::Error"; place_of "../namespacestgs.html#aed082ae37dc19f30579b2d7981342c1ea902b0d55fddef6f8d651fe1035b7d4bd" true "stgs::Error"]].

Definition enumvalues_5 : list entry :=
  [entry_of "info_0" "info" [place_of "../namespacestgs.html#a2b4a335983593d5d8d599d58cd7ee203a4059b0251f66a18cb56f544728796875" true "stgs::Info"; place_of "../namespacestgs.html#aed082ae37dc19f30579b2d7981342c1ea4059b0251f66a18cb56f544728796875" true "stgs::Info"];
   entry_of "invalidbattery_1" "InvalidBattery" [place_of "../namespacestgs.html#a6c3c97c875363adab257eb270bb20f14a70f7b6f0a881c8b3bf8d1a45c253fd2f" true "stgs"];
   entry_of "invalidlength_2" "InvalidLength" [place_of "../namespacestgs.html#a2aa48089627d210628f45038315de28aa7410e53743c7518114372aa891b76615" true "stgs"];
   entry_of "invalidsignalmetadata_3" "InvalidSignalMetadata" [place_of "../namespacestgs.html#a2aa48089627d210628f45038315de28aa1dd0acdf372fcd74a2acd532ddc4dac3" true "stgs"];
   entry_of "invalidstatus_4" "InvalidStatus" [place_of "../namespacestgs.html#a6c3c97c875363adab257eb270bb20f14a1afaa3ef1f35311510464f49903aa6ae" true "stgs"];
   entry_of "invalidtemperature_5" "InvalidTemperature" [place_of "../namespacestgs.html#a6c3c97c875363adab257eb270bb20f14ab0044d334987fcc475292bf23af8de41" true "stgs"]].

Definition enumvalues_6 : list entry :=
  [entry_of "json_0" "Json" [place_of "../namespacestgs_1_1app_1_1ground__station.html#a674f76aa6255d0fb1ffec19ffc6be19daeed8d85b888a6c015834240885ee6333" true "stgs::app::ground_station"]].

Definition enumvalues_7 : list entry :=
  [entry_of "lengthmismatch_0" "LengthMismatch" [place_of "../namespacestgs.html#a6c3c97c875363adab257eb270bb20f14aefe3ddb6bb6a51712447485fd452d87d" true "stgs"]].

Definition enumvalues_8 : list entry :=
  [entry_of "movingaverage_0" "MovingAverage" [place_of "../namespacestgs.html#ad6d6eb8010ca5d7fa98b1ab91ee2792cabba5c82c942bc0851f96137de06cac0d" true "stgs"]].

Definition enumvalues_9 : list entry :=
  [entry_of "nominal_0" "nominal" [place_of "../namespacestgs.html#af145a1e8f5e0f55d9178bafa1faacb7ea8c28d7c312116b8a46e2f466cb33d5b4" true "stgs::Nominal"; place_of "../namespacestgs.html#a61ca9382bebac8640e15d2338a9eb8afa8c28d7c312116b8a46e2f466cb33d5b4" true "stgs::Nominal"];
   entry_of "none_1" "None" [place_of "../namespacestgs.html#ad6d6eb8010ca5d7fa98b1ab91ee2792ca6adf97f83acf6453d4a6a4b1070f3754" true "stgs"]].

Definition enumvalues_a : list entry :=
  [entry_of "open_0" "Open" [place_of "../namespacestgs.html#ab73dc2ebbed2d6799b14a329f2e691ccac3bf447eabe632720a3aa1a7ce401274" true "stgs"]].

Definition enumvalues_b : list entry :=
  [entry_of "payloadtoolarge_0" "PayloadTooLarge" [place_of "../namespacestgs.html#a6c3c97c875363adab257eb270bb20f14a0234a767e9c5c06cdaf290cc9b690b34" true "stgs"]].

Definition enumvalues_c : list entry :=
  [entry_of "randombytes_0" "RandomBytes" [place_of "../namespacestgs_1_1app_1_1simulator.html#a9bc7b0135556745522ad9ee19f291609aa2a9f0580597d09e92901548fc0ae105" true "stgs::app::simulator"]].

Definition enumvalues_d : list entry :=
  [entry_of "safemode_0" "SafeMode" [place_of "../namespacestgs.html#a61ca9382bebac8640e15d2338a9eb8afabe9942a71fc5150a76b9f61f281de1b9" true "stgs"];
   entry_of "signal_1" "Signal" [place_of "../namespacestgs_1_1app_1_1simulator.html#a9bc7b0135556745522ad9ee19f291609a085fea7abdc5d904fe69a3081efd7398" true "stgs::app::simulator"];
   entry_of "signalblock_2" "SignalBlock" [place_of "../namespacestgs.html#a9bdca5c4652fbfd0ea0d649134cc5e2ba2c22e731a28aff373ce68863d2628abc" true "stgs"];
   entry_of "sineprojection_3" "SineProjection" [place_of "../namespacestgs.html#ad6d6eb8010ca5d7fa98b1ab91ee2792ca99d4f47a09480d4ead93b264ce3532bb" true "stgs"];
   entry_of "success_4" "Success" [place_of "../namespacestgs.html#aed082ae37dc19f30579b2d7981342c1ea505a83f220c02df2f85c3810cd9ceb38" true "stgs"]].

Definition enumvalues_e : list entry :=
  [entry_of "tcp_0" "tcp" [place_of "../namespacestgs.html#adbb66f14d66c3f994511b242f7cdfbe6a30b7fdeebc36988717d0e274cc2e7520" true "stgs::Tcp"; place_of "../namespacestgs.html#ab99ad0f4a1a1fb197aab95d7286a9a7ea30b7fdeebc36988717d0e274cc2e7520" true "stgs::Tcp"];
   entry_of "textmessage_1" "textmessage" [place_of "../namespacestgs_1_1app_1_1simulator.html#a9bc7b0135556745522ad9ee19f291609a7c6780205e72574bf2c46ce408ad9144" true "stgs::app::simulator::TextMessage"; place_of "../namespacestgs.html#a9bdca5c4652fbfd0ea0d649134cc5e2ba7c6780205e72574bf2c46ce408ad9144" true "stgs::TextMessage"];
   entry_of "timeout_2" "Timeout" [place_of "../namespacestgs.html#ab73dc2ebbed2d6799b14a329f2e691ccac85a251cc457840f1e032f1b733e9398" true "stgs"];
   entry_of "tooshort_3" "TooShort" [place_of "../namespacestgs.html#a6c3c97c875363adab257eb270bb20f14a6eee5d8d5a91916f53b80d55d9f9c83f" true "stgs"];
   entry_of "trace_4" "Trace" [place_of "../namespacestgs.html#a2b4a335983593d5d8d599d58cd7ee203add4ec0ac4e58f7c32a01244ae91150b1" true "stgs"];
   entry_of "truncatedheader_5" "TruncatedHeader" [place_of "../namespacestgs.html#a2aa48089627d210628f45038315de28aa5e63b9f767a2252ca59af743ed2121e0" true "stgs"]].

Definition enumvalues_f : list entry :=
  [entry_of "udp_0" "udp" [place_of "../namespacestgs.html#adbb66f14d66c3f994511b242f7cdfbe6a81baba40274ccb30f9fdfa2c73cf0482" true "stgs::Udp"; place_of "../namespacestgs.html#ab99ad0f4a1a1fb197aab95d7286a9a7ea81baba40274ccb30f9fdfa2c73cf0482" true "stgs::Udp"];
   entry_of "unknownkind_1" "UnknownKind" [place_of "../namespacestgs.html#a2aa48089627d210628f45038315de28aa8da24985f13f84c15af0130f7decf4fd" true "stgs"];
   entry_of "unsupportedversion_2" "unsupportedversion" [place_of "../namespacestgs.html#a2aa48089627d210628f45038315de28aa0f89bc98e9b12bdeda0604e57bdc0518" true "stgs::UnsupportedVersion"; place_of "../namespacestgs.html#a6c3c97c875363adab257eb270bb20f14a0f89bc98e9b12bdeda0604e57bdc0518" true "stgs::UnsupportedVersion"]].

Definition enumvalues_10 : list entry :=
  [entry_of "warning_0" "warning" [place_of "../namespacestgs.html#a2b4a335983593d5d8d599d58cd7ee203a0eaadb4fcb48a0a0ed7bc9868be9fbaa" true "stgs::Warning"; place_of "../namespacestgs.html#a61ca9382bebac8640e15d2338a9eb8afa0eaadb4fcb48a0a0ed7bc9868be9fbaa" true "stgs::Warning"; place_of "../namespacestgs.html#aed082ae37dc19f30579b2d7981342c1ea0eaadb4fcb48a0a0ed7bc9868be9fbaa" true "stgs::Warning"]].

Definition enumvalues_files : list (list entry) :=
  [enumvalues_0; enumvalues_1; enumvalues_2; enumvalues_3; enumvalues_4; enumvalues_5; enumvalues_6; enumvalues_7; enumvalues_8; enumvalues_9; enumvalues_a; enumvalues_b; enumvalues_c; enumvalues_d; enumvalues_e; enumvalues_f; enumvalues_10].

(** ** defines *)

Definition defines_0 : list entry :=
  [entry_of "assert_5feq_0" "ASSERT_EQ" [place_of "../TestSupport_8hpp.html#a9cc34fd87cb865c77439a5d39b3b111b" true "TestSupport.hpp"];
   entry_of "assert_5ftrue_1" "ASSERT_TRUE" [place_of "../TestSupport_8hpp.html#a305a7326a1f4f59bbcafcb3e35a732c7" true "TestSupport.hpp"]].

Definition defines_files : list (list entry) :=
  [defines_0].

(** ** pages *)

Definition pages_0 : list entry :=
  [entry_of "c_20space_20telemetry_20ground_20station_0" "C++ Space Telemetry Ground Station" [place_of "../md_README.html" true ""]].

Definition pages_1 : list entry :=
  [entry_of "d_20execution_0" "STGS - Documentation d&apos;execution" [place_of "../md_docs_2README__DOCUMENTATION.html" true ""];
   entry_of "de_20vérification_20stgs_20—_20version_20vitrine_1" "Rapport de vérification STGS — version vitrine" [place_of "../md_docs_2VERIFICATION__REPORT.html" true ""];
   entry_of "design_3a_20space_20telemetry_20ground_20station_2" "Technical Design: Space Telemetry Ground Station" [place_of "../md_docs_2TECHNICAL__DESIGN.html" true ""];
   entry_of "documentation_20d_20execution_3" "STGS - Documentation d&apos;execution" [place_of "../md_docs_2README__DOCUMENTATION.html" true ""]].

Definition pages_2 : list entry :=
  [entry_of "execution_0" "STGS - Documentation d&apos;execution" [place_of "../md_docs_2README__DOCUMENTATION.html" true ""]].

Definition pages_3 : list entry :=
  [entry_of "ground_20station_0" "ground station" [place_of "../md_README.html" true "C++ Space Telemetry Ground Station"; place_of "../md_docs_2PERFORMANCE__REPORT.html" true "Performance Report: Space Telemetry Ground Station"; place_of "../md_docs_2TECHNICAL__DESIGN.html" true "Technical Design: Space Telemetry Ground Station"];
   entry_of "guide_1" "STGS Showcase Guide" [place_of "../md_docs_2SHOWCASE__GUIDE.html" true ""]].

Definition pages_4 : list entry :=
  [entry_of "performance_20report_3a_20space_20telemetry_20ground_20station_0" "Performance Report: Space Telemetry Ground Station" [place_of "../md_docs_2PERFORMANCE__REPORT.html" true ""]].

Definition pages_5 : list entry :=
  [entry_of "rapport_20de_20vérification_20stgs_20—_20version_20vitrine_0" "Rapport de vérification STGS — version vitrine" [place_of "../md_docs_2VERIFICATION__REPORT.html" true ""];
   entry_of "report_3a_20space_20telemetry_20ground_20station_1" "Performance Report: Space Telemetry Ground Station" [place_of "../md_docs_2PERFORMANCE__REPORT.html" true ""]].

Definition pages_6 : list entry :=
  [entry_of "showcase_20guide_0" "STGS Showcase Guide" [place_of "../md_docs_2SHOWCASE__GUIDE.html" true ""];
   entry_of "space_20telemetry_20ground_20station_1" "space telemetry ground station" [place_of "../md_README.html" true "C++ Space Telemetry Ground Station"; place_of "../md_docs_2PERFORMANCE__REPORT.html" true "Performance Report: Space Telemetry Ground Station"; place_of "../md_docs_2TECHNICAL__DESIGN.html" true "Technical Design: Space Telemetry Ground Station"];
   entry_of "station_2" "station" [place_of "../md_README.html" true "C++ Space Telemetry Ground Station"; place_of "../md_docs_2PERFORMANCE__REPORT.html" true "Performance Report: Space Telemetry Ground Station"; place_of "../md_docs_2TECHNICAL__DESIGN.html" true "Technical Design: Space Telemetry Ground Station"];
   entry_of "stgs_20—_20version_20vitrine_3" "Rapport de vérification STGS — version vitrine" [place_of "../md_docs_2VERIFICATION__REPORT.html" true ""];
   entry_of "stgs_20documentation_20d_20execution_4" "STGS - Documentation d&apos;execution" [place_of "../md_docs_2README__DOCUMENTATION.html" true ""];
   entry_of "stgs_20showcase_20guide_5" "STGS Showcase Guide" [place_of "../md_docs_2SHOWCASE__GUIDE.html" true ""]].

Definition pages_7 : list entry :=
  [entry_of "technical_20design_3a_20space_20telemetry_20ground_20station_0" "Technical Design: Space Telemetry Ground Station" [place_of "../md_docs_2TECHNICAL__DESIGN.html" true ""];
   entry_of "telemetry_20ground_20station_1" "telemetry ground station" [place_of "../md_README.html" true "C++ Space Telemetry Ground Station"; place_of "../md_docs_2PERFORMANCE__REPORT.html" true "Performance Report: Space Telemetry Ground Station"; place_of "../md_docs_2TECHNICAL__DESIGN.html" true "Technical Design: Space Telemetry Ground Station"]].

Definition pages_8 : list entry :=
  [entry_of "vérification_20stgs_20—_20version_20vitrine_0" "Rapport de vérification STGS — version vitrine" [place_of "../md_docs_2VERIFICATION__REPORT.html" true ""];
   entry_of "version_20vitrine_1" "Rapport de vérification STGS — version vitrine" [place_of "../md_docs_2VERIFICATION__REPORT.html" true ""];
   entry_of "vitrine_2" "Rapport de vérification STGS — version vitrine" [place_of "../md_docs_2VERIFICATION__REPORT.html" true ""]].

Definition pages_9 : list entry :=
  [entry_of "—_20version_20vitrine_0" "Rapport de vérification STGS — version vitrine" [place_of "../md_docs_2VERIFICATION__REPORT.html" true ""]].

Definition pages_files : list (list entry) :=
  [pages_0; pages_1; pages_2; pages_3; pages_4; pages_5; pages_6; pages_7; pages_8; pages_9].

(** ** All sections *)

Definition section_files : list (list (list entry)) :=
  [all_files; classes_files; namespaces_files; files_files; functions_files; variables_files; typedefs_files; enums_files; enumvalues_files; defines_files; pages_files].
