(* ===== verification/SearchPanel.v ===== *)
(** The search panel of [search/search.js]: the [SearchBox] object with its handlers, its timers
    and the loading of the index files, the keyboard navigation of [SearchResults], which closes
    it, [init_search], and the events of the browser as a step relation. *)

From S2P Require Import Prelude TextFormat JsCore SearchId Dom Page SearchResultsPane SearchData.

Section Panel.
Context `{B : Browser}.

(** ** State of the search box *)

Definition set_keyTimeout (t : Z) (b : SearchBox) : SearchBox :=
  {| name := name b; resultsPath := resultsPath b; keyTimeout := t;
     keyTimeoutLength := keyTimeoutLength b; closeSelectionTimeout := closeSelectionTimeout b;
     lastSearchValue := lastSearchValue b; lastResultsPage := lastResultsPage b;
     hideTimeout := hideTimeout b; searchIndex := searchIndex b; searchActive := searchActive b;
     extension := extension b |}.
Definition set_hideTimeout (t : Z) (b : SearchBox) : SearchBox :=
  {| name := name b; resultsPath := resultsPath b; keyTimeout := keyTimeout b;
     keyTimeoutLength := keyTimeoutLength b; closeSelectionTimeout := closeSelectionTimeout b;
     lastSearchValue := lastSearchValue b; lastResultsPage := lastResultsPage b;
     hideTimeout := t; searchIndex := searchIndex b; searchActive := searchActive b;
     extension := extension b |}.
Definition set_lastSearchValue (v : jsstring) (b : SearchBox) : SearchBox :=
  {| name := name b; resultsPath := resultsPath b; keyTimeout := keyTimeout b;
     keyTimeoutLength := keyTimeoutLength b; closeSelectionTimeout := closeSelectionTimeout b;
     lastSearchValue := v; lastResultsPage := lastResultsPage b;
     hideTimeout := hideTimeout b; searchIndex := searchIndex b; searchActive := searchActive b;
     extension := extension b |}.
Definition set_searchIndex (i : Z) (b : SearchBox) : SearchBox :=
  {| name := name b; resultsPath := resultsPath b; keyTimeout := keyTimeout b;
     keyTimeoutLength := keyTimeoutLength b; closeSelectionTimeout := closeSelectionTimeout b;
     lastSearchValue := lastSearchValue b; lastResultsPage := lastResultsPage b;
     hideTimeout := hideTimeout b; searchIndex := i; searchActive := searchActive b;
     extension := extension b |}.

(** [this.searchActive = active], with the values that are reset when the panel is closed. *)
Definition set_searchActive (active : bool) (b : SearchBox) : SearchBox :=
  {| name := name b; resultsPath := resultsPath b; keyTimeout := keyTimeout b;
     keyTimeoutLength := keyTimeoutLength b; closeSelectionTimeout := closeSelectionTimeout b;
     lastSearchValue := if active then lastSearchValue b else [];
     lastResultsPage := if active then lastResultsPage b else [];
     hideTimeout := hideTimeout b; searchIndex := searchIndex b; searchActive := active;
     extension := extension b |}.

Definition modify_box (f : SearchBox -> SearchBox) : M unit :=
  modify (fun s => set_box (f (searchBox s)) s).
Definition this : M SearchBox := fun s => (Normal (searchBox s), s).

Lemma this_bind {C} (f : SearchBox -> M C) s : (this ≫= f) s = f (searchBox s) s.
Proof. done. Qed.

(** ** Elements *)

Definition DOMSearchField : M path := element (js "MSearchField").
Definition DOMSearchSelect : M path := element (js "MSearchSelect").
Definition DOMSearchSelectWindow : M path := element (js "MSearchSelectWindow").
Definition DOMPopupSearchResults : M path := element (js "MSearchResults").
Definition DOMPopupSearchResultsWindow : M path := element (js "MSearchResultsWindow").
Definition DOMSearchClose : M path := element (js "MSearchClose").
Definition DOMSearchBox : M path := element (js "MSearchBox").

(** ** Activation and focus *)

Definition Activate (isActive : bool) : M unit :=
  open ← (if isActive then mret true
          else window ← DOMPopupSearchResultsWindow; d ← display_of window;
               mret (bool_decide (d = js "block")));
  box ← DOMSearchBox;
  if open : bool
  then _ ← attr_set "class" (js "MSearchBoxActive") box;
       modify_box (set_searchActive true)
  else _ ← attr_set "class" (js "MSearchBoxInactive") box;
       _ ← modify_box (set_searchActive false);
       field ← DOMSearchField;
       attr_set "value" [] field.

Definition OnSearchFieldFocus (isActive : bool) : M unit := Activate isActive.

(** An exception of a handler goes to the console and not to whoever caused the event. *)
Definition run_handler {A} (m : M A) : M unit := fun s => (Normal tt, snd (m s)).

Definition is_field (d : node) (p : path) : bool :=
  match elem_at d p with
  | Some e => bool_decide (elem_id e = js "MSearchField")
  | None => false
  end.

(** Losing and getting the focus run the handlers of the search field, which [menu.js] sets. *)
Definition leave_focus : M unit :=
  s ← get;
  _ ← modify (set_active None);
  match active s with
  | Some old => when (is_field (doc s) old) (run_handler (OnSearchFieldFocus false))
  | None => mret tt
  end.

(** [element.focus()] and [element.blur()] *)
Definition focus (p : path) : M unit :=
  s ← get;
  if focusable (doc s) p && negb (bool_decide (active s = Some p)) then
    _ ← leave_focus;
    _ ← modify (set_active (Some p));
    s ← get;
    when (is_field (doc s) p) (run_handler (OnSearchFieldFocus true))
  else mret tt.

Definition blur (p : path) : M unit :=
  s ← get;
  when (bool_decide (active s = Some p)) leave_focus.

Definition focus_if (p : option path) : M unit :=
  match p with Some p => focus p | None => mret tt end.

(** ** The filter selection *)

Definition px (n : Z) : jsstring := js_dec n ++ js "px".

Definition OnSearchSelectShow : M unit :=
  searchSelectWindow ← DOMSearchSelectWindow;
  searchField ← DOMSearchSelect;
  s ← get;
  let left := getXPos (doc s) searchField in
  let top := getYPos (doc s) searchField in
  let top := top + offsetHeight (box (doc s) searchField) in
  _ ← display_set "block" searchSelectWindow;
  _ ← style_set "left" (px left) searchSelectWindow;
  _ ← style_set "top" (px top) searchSelectWindow;
  b ← this;
  when (negb (hideTimeout b =? 0))
    (_ ← clearTimeout (hideTimeout b); modify_box (set_hideTimeout 0)).

Definition CloseSelectionWindow : M unit :=
  window ← DOMSearchSelectWindow; display_set "none" window.

Definition OnSearchSelectHide : M unit :=
  b ← this;
  id ← setTimeout CallCloseSelectionWindow (closeSelectionTimeout b);
  modify_box (set_hideTimeout id).

(** The children of the selection window that are filters, by their paths. *)
Definition select_items (d : node) (win : path) : list path :=
  match node_at d win with
  | Some (Element _ kids) =>
      omap (fun '(i, k) => match k with
        | Element e _ => if bool_decide (className e = js "SelectItem") then Some (win ++ [i]) else None
        | Text _ => None
        end) (imap (fun i k => (i, k)) kids)
  | _ => []
  end.

Definition SelectItemCount : M Z :=
  win ← DOMSearchSelectWindow;
  s ← get;
  mret (size (select_items (doc s) win)).

(** The loop of [SelectItemSet] from the item number [j] on. *)
Fixpoint mark_items (id j : Z) (items : list path) : M unit :=
  match items with
  | [] => mret tt
  | child :: items =>
      s ← get;
      node ← unless_null (firstChild (doc s) child);
      let html := if j =? id then js "&#8226;" else js "&#160;" in
      _ ← modify (fun s => set_doc (replace_kids (parseHTML html) (doc s) node) s);
      mark_items id (j + 1) items
  end.

Definition SelectItemSet (id : Z) : M unit :=
  win ← DOMSearchSelectWindow;
  s ← get;
  mark_items id 0 (select_items (doc s) win).

(** ** Searching *)

(** What is done of the rows when the file of the index is there. *)
Definition show_results_window : M unit :=
  window ← DOMPopupSearchResultsWindow;
  d ← display_of window;
  when (negb (bool_decide (d = js "block")))
    (close ← DOMSearchClose;
     _ ← display_set "inline-block" close;
     searchBox ← DOMSearchBox;
     s ← get;
     let left := getXPos (doc s) searchBox + 150 in
     let top := getYPos (doc s) searchBox + 20 in
     _ ← display_set "block" window;
     results ← DOMPopupSearchResults;
     s ← get;
     let left := left - offsetWidth (box (doc s) results) in
     let maxWidth := clientWidth (doc s) in
     let maxHeight := clientHeight (doc s) in
     let left := if left <? 10 then 10 else left in
     let width := if 300 + left + 8 >? maxWidth then maxWidth - left - 8 else 300 in
     let height := if 400 + top + 8 >? maxHeight then maxHeight - top - 8 else 400 in
     _ ← style_set "top" (px top) window;
     _ ← style_set "left" (px left) window;
     _ ← style_set "width" (px width) window;
     style_set "height" (px height) window).

(** [handleResults]; the captured elements are looked up again, the script that was appended to
    the results window does not change where they are found. *)
Definition handleResults (idx : Z) (searchValue : jsstring) : M unit :=
  loading ← element (js "Loading");
  _ ← display_set "none" loading;
  s ← get;
  _ ← match searchData s with
      | Some data =>
          _ ← createResults (resultsPath (searchBox s)) data;
          noMatches ← element (js "NoMatches");
          display_set "none" noMatches
      | None => mret tt
      end;
  _ ← (if negb (idx =? -1) then Search searchValue else Search (js "===="));
  show_results_window.

Definition loadJS (l : load) (loc : path) : M unit :=
  let scriptTag := setAttribute "src" (url l) (createElement "script") in
  modify (fun s => set_loads (loads s ++ [l])
    (set_doc (append_kids [Element scriptTag []] (doc s) loc) s)).

Definition section (l : list jsstring) (i : Z) : option jsstring :=
  if i <? 0 then None else l !! Z.to_nat i.

(** The character the index files are chosen by. *)
Definition index_char (searchValue : jsstring) : jsstring :=
  let surrogate := match head (toLowerCase searchValue) with
    | Some code => (0xD800 <=? code) && (code <=? 0xDBFF) && exceeds_one searchValue
    | None => false (* the code of an empty string is NaN *)
    end in
  if surrogate then substr0 searchValue 2 else toLowerCase (substr0 searchValue 1).

(** [SearchBox.Search] *)
Definition box_Search : M unit :=
  _ ← modify_box (set_keyTimeout 0);
  field ← DOMSearchField;
  value ← value_of field;
  let searchValue := strip_leading value in
  let idxChar := index_char searchValue in
  b ← this;
  contents ← unless_null (section indexSectionsWithContent (searchIndex b));
  let idx := indexOf contents idxChar in
  _ ← (if negb (idx =? -1) then
         let sectionName := default (js "undefined") (section indexSectionNames (searchIndex b)) in
         let jsFile := resultsPath b ++ sectionName ++ js "_" ++ js_hex idx ++ js ".js" in
         window ← DOMPopupSearchResultsWindow;
         loadJS {| url := jsFile; load_idx := idx; load_value := searchValue |} window
       else handleResults idx searchValue);
  modify_box (set_lastSearchValue searchValue).

Definition OnSelectItem (id : Z) : M unit :=
  _ ← modify_box (set_searchIndex id);
  _ ← SelectItemSet id;
  field ← DOMSearchField;
  value ← value_of field;
  let searchValue := strip_spaces value in
  b ← this;
  when (negb (bool_decide (searchValue = [])) && searchActive b) box_Search.

Definition OnSearchSelectKey (e : key_event) : M unit :=
  b ← this;
  down ← (if keyCode e =? 40 then count ← SelectItemCount; mret (searchIndex b <? count) else mret false);
  if down : bool then
    _ ← modify_box (set_searchIndex (searchIndex b + 1));
    OnSelectItem (searchIndex b + 1)
  else if (keyCode e =? 38) && (searchIndex b >? 0) then
    _ ← modify_box (set_searchIndex (searchIndex b - 1));
    OnSelectItem (searchIndex b - 1)
  else if (keyCode e =? 13) || (keyCode e =? 27) then
    _ ← OnSelectItem (searchIndex b);
    _ ← CloseSelectionWindow;
    field ← DOMSearchField;
    focus field
  else mret tt.

Definition CloseResultsWindow : M unit :=
  window ← DOMPopupSearchResultsWindow;
  _ ← display_set "none" window;
  close ← DOMSearchClose;
  _ ← display_set "none" close;
  Activate false.

(** ** The search field *)

(** The end of the handler, after the keys: compare the text with the last search. *)
Definition field_changed : M unit :=
  field ← DOMSearchField;
  value ← value_of field;
  let searchValue := strip_spaces value in
  b ← this;
  if negb (bool_decide (searchValue = lastSearchValue b)) then
    if negb (bool_decide (searchValue = [])) then
      id ← setTimeout CallSearch (keyTimeoutLength b);
      modify_box (set_keyTimeout id)
    else
      window ← DOMPopupSearchResultsWindow;
      _ ← display_set "none" window;
      close ← DOMSearchClose;
      _ ← display_set "none" close;
      modify_box (set_lastSearchValue [])
  else mret tt.

Definition kill_key_timer : M unit :=
  b ← this;
  when (negb (keyTimeout b =? 0))
    (_ ← clearTimeout (keyTimeout b); modify_box (set_keyTimeout 0)).

Definition OnSearchFieldChange (e : key_event) : M unit :=
  _ ← kill_key_timer;
  if (keyCode e =? 40) || (keyCode e =? 13) then
    if shiftKey e then
      _ ← OnSearchSelectShow;
      win ← DOMSearchSelectWindow;
      s ← get;
      focus_if (head (select_items (doc s) win))
    else
      elem ← nav_next 0;
      _ ← focus_if elem;
      field_changed
  else if keyCode e =? 27 then
    field ← DOMSearchField;
    _ ← blur field;
    window ← DOMPopupSearchResultsWindow;
    _ ← display_set "none" window;
    close ← DOMSearchClose;
    _ ← display_set "none" close;
    _ ← modify_box (set_lastSearchValue []);
    Activate false
  else field_changed.

(** ** Keys in the results *)

Definition focus_field : M unit := field ← element (js "MSearchField"); focus field.

Definition child_name (itemIndex childIndex : Z) : jsstring :=
  item_name itemIndex ++ js "_c" ++ js_dec childIndex.

(** The loop of [Nav] that looks for the last child, from the child [n] on. *)
Fixpoint last_child (fuel : nat) (d : node) (itemIndex n : Z) (focusItem : path) : path :=
  match fuel with
  | O => focusItem
  | S fuel =>
      match getElementById d (child_name itemIndex n) with
      | Some tmpElem => last_child fuel d itemIndex (n + 1) tmpElem
      | None => focusItem
      end
  end.

(** [element.parentNode.parentNode.id] *)
Definition row_id (p : path) : M jsstring :=
  s ← get;
  row ← unless_null (parentNode p ≫= parentNode);
  e ← unless_null (elem_at (doc s) row);
  mret (elem_id e).

(** The box of children of the row of an item, when it has one. *)
Definition item_children (p : path) : M (option path) :=
  id ← row_id p; find_child id.

Definition children_shown (child : option path) : M bool :=
  match child with
  | Some child => d ← display_of child; mret (bool_decide (d = js "block"))
  | None => mret false
  end.

Definition Nav_up (itemIndex : Z) : M unit :=
  let newIndex := itemIndex - 1 in
  focusItem ← nav_prev newIndex;
  match focusItem with
  | Some focusItem =>
      child ← item_children focusItem;
      shown ← children_shown child;
      s ← get;
      if shown : bool then focus (last_child (nav_fuel (doc s)) (doc s) newIndex 0 focusItem)
      else focus focusItem
  | None => focus_field
  end.

Definition Nav_down (itemIndex : Z) : M unit :=
  let newIndex := itemIndex + 1 in
  item ← element (item_name itemIndex);
  elem ← item_children item;
  shown ← children_shown elem;
  s ← get;
  let focusItem := if shown : bool then getElementById (doc s) (child_name itemIndex 0) else None in
  match focusItem with
  | Some focusItem => focus focusItem
  | None => focusItem ← nav_next newIndex; focus_if focusItem
  end.

Definition Nav_children (itemIndex : Z) (shown : string) : M unit :=
  item ← element (item_name itemIndex);
  elem ← item_children item;
  match elem with Some elem => display_set shown elem | None => mret tt end.

(** The value says whether the browser goes on with its own action. *)
Definition Nav (e : key_event) (itemIndex : Z) : M bool :=
  if keyCode e =? 13 then mret true else
  go ← ProcessKeys e;
  if negb go then mret false else
  s ← get;
  let key := lastKey (Page.searchResults s) in
  if key =? 38 then _ ← Nav_up itemIndex; mret false
  else if key =? 40 then _ ← Nav_down itemIndex; mret false
  else if key =? 39 then _ ← Nav_children itemIndex "block"; mret false
  else if key =? 37 then _ ← Nav_children itemIndex "none"; mret false
  else if key =? 27 then _ ← CloseResultsWindow; _ ← focus_field; mret false
  else mret (key =? 13).

Definition NavChild (e : key_event) (itemIndex childIndex : Z) : M bool :=
  if keyCode e =? 13 then mret true else
  go ← ProcessKeys e;
  if negb go then mret false else
  s ← get;
  let key := lastKey (Page.searchResults s) in
  if key =? 38 then
    (if childIndex >? 0 then item ← element (child_name itemIndex (childIndex - 1)); _ ← focus item; mret false
     else item ← element (item_name itemIndex); _ ← focus item; mret false)
  else if key =? 40 then
    _ ← match getElementById (doc s) (child_name itemIndex (childIndex + 1)) with
        | Some elem => focus elem
        | None => elem ← nav_next (itemIndex + 1); focus_if elem
        end;
    mret false
  else if key =? 27 then _ ← CloseResultsWindow; _ ← focus_field; mret false
  else mret (key =? 13).

(** ** Initialisation *)

Definition select_link (key : Z) (label : jsstring) : node :=
  let link := createElement "a" in
  let link := setAttribute "class" (js "SelectItem") link in
  let link := setAttribute "onclick" (js "searchBox.OnSelectItem(" ++ js_dec key ++ js ")") link in
  let link := setAttribute "href" (js "javascript:void(0)") link in
  Element link (parseHTML (js "<span class=" ++ [34] ++ js "SelectionMark" ++ [34] ++
                           js ">&#160;</span>" ++ label)).

Definition init_search : M unit :=
  results ← DOMSearchSelectWindow;
  _ ← attr_set "tabindex" (js "0") results;
  _ ← modify (fun s => set_doc (append_kids
        (imap (fun key label => select_link (Z.of_nat key) label) indexSectionLabels)
        (doc s) results) s);
  _ ← OnSelectItem 0;
  input ← DOMSearchSelect;
  attr_set "tabindex" (js "0") input.

(** The listener [init_search] adds to the selector. *)
Definition on_selector_key (e : key_event) : M unit :=
  if (keyCode e =? 13) || (keyCode e =? 40) then
    window ← DOMSearchSelectWindow;
    d ← display_of window;
    if bool_decide (d = js "block") then CloseSelectionWindow
    else _ ← OnSearchSelectShow; window ← DOMSearchSelectWindow; focus window
  else mret tt.

(** ** Events *)

Definition run_timer (c : callback) : M unit :=
  match c with CallSearch => box_Search | CallCloseSelectionWindow => CloseSelectionWindow end.

(** What can happen to the page. *)
Inductive event :=
  | FieldInput (value : jsstring)            (* the text of the field changes *)
  | FieldKey (e : key_event)                 (* onkeyup of the field *)
  | FieldFocus (isActive : bool)
  | SelectorOver | SelectorOut | SelectorKey (e : key_event)
  | SelectKey (e : key_event)                (* onkeydown of the selection window *)
  | SelectClick (id : Z)                     (* onclick of a filter *)
  | CloseClick                               (* the close button, or a result followed *)
  | RowKey (e : key_event) (itemIndex : Z)
  | ChildKey (e : key_event) (itemIndex childIndex : Z)
  | RowClick (id : jsstring)                 (* the link of a row with several places *)
  | TimerFires (t : timer)
  | ScriptLoaded (l : load) (data : list entry).

Definition handle (e : event) : M unit :=
  match e with
  | FieldInput value => field ← DOMSearchField; attr_set "value" value field
  | FieldKey e => OnSearchFieldChange e
  | FieldFocus isActive => OnSearchFieldFocus isActive
  | SelectorOver => OnSearchSelectShow
  | SelectorOut => OnSearchSelectHide
  | SelectorKey e => on_selector_key e
  | SelectKey e => OnSearchSelectKey e
  | SelectClick id => OnSelectItem id
  | CloseClick => CloseResultsWindow
  | RowKey e i => _ ← Nav e i; mret tt
  | ChildKey e i c => _ ← NavChild e i c; mret tt
  | RowClick id => Toggle id
  | TimerFires t =>
      _ ← modify (fun s => set_timers (next_timer s) (filter (fun u => timer_id u <> timer_id t) (timers s)) s);
      run_timer (call t)
  | ScriptLoaded l data =>
      _ ← modify (set_data (Some data));
      handleResults (load_idx l) (load_value l)
  end.

(** When the browser may send them. *)
Definition enabled (e : event) (s : page) : Prop :=
  match e with
  | TimerFires t => t ∈ timers s
  | ScriptLoaded l _ => l ∈ loads s
  | _ => True
  end.

Inductive step : page -> event -> page -> Prop :=
  | step_event s e : enabled e s -> step s e (snd (handle e s)).

Inductive steps : page -> list event -> page -> Prop :=
  | steps_nil s : steps s [] s
  | steps_snoc s es s1 e s2 : steps s es s1 -> step s1 e s2 -> steps s (es ++ [e]) s2.

(** ** What a computation leaves as it is *)

Definition keeps {A V} (f : page -> V) (m : M A) : Prop := forall s, f (snd (m s)) = f s.

Lemma keeps_bind {A C V} (f : page -> V) (m : M A) (k : A -> M C) :
  keeps f m -> (forall a, keeps f (k a)) -> keeps f (m ≫= k).
Proof.
  intros Hm Hk s. unfold mbind, M_bind. specialize (Hm s).
  destruct (m s) as [[a|] s']; cbn [snd] in *; [|done]. by rewrite (Hk a s').
Qed.

Lemma keeps_modify {V} (f : page -> V) g : (forall s, f (g s) = f s) -> keeps f (modify g).
Proof. intros Hg s. apply Hg. Qed.

Lemma keeps_handler {A V} (f : page -> V) (m : M A) : keeps f m -> keeps f (run_handler m).
Proof. intros Hm s. apply Hm. Qed.

Lemma keeps_comp {A V W} (f : page -> V) (g : V -> W) (m : M A) :
  keeps f m -> keeps (fun s => g (f s)) m.
Proof. intros Hm s. by rewrite Hm. Qed.

Lemma keeps_pure {A V} (f : page -> V) (m : page -> completion A) : keeps f (fun s => (m s, s)).
Proof. intros s. done. Qed.

(** What the timers and the filter selection depend on. *)
Definition view (s : page) : Z * list timer * Z * Z * Z :=
  (next_timer s, timers s, keyTimeout (searchBox s), hideTimeout (searchBox s), searchIndex (searchBox s)).

End Panel.

Create HintDb keeps discriminated.

Ltac keeps_step :=
  first
  [ solve [auto with keeps nocore]
  | match goal with
    | |- keeps _ (_ ≫= _) => apply keeps_bind; [|intros ?]
    | |- keeps _ (run_handler _) => apply keeps_handler
    | |- keeps _ (modify _) => apply keeps_modify; intros ?; reflexivity
    | |- keeps _ (if ?c then _ else _) => destruct c
    | |- keeps _ (match ?c with _ => _ end) => destruct c
    | |- keeps _ (when ?c _) => unfold when; destruct c
    | |- keeps _ (unless_null ?o) => unfold unless_null; destruct o
    | |- keeps _ (let _ := _ in _) => cbv zeta
    | |- keeps _ (mret _) => intros ?; reflexivity
    | |- keeps _ throw => intros ?; reflexivity
    | |- keeps _ get => intros ?; reflexivity
    | |- keeps _ this => intros ?; reflexivity
    end
  | progress unfold DOMSearchField, DOMSearchSelect, DOMSearchSelectWindow, DOMPopupSearchResults,
      DOMPopupSearchResultsWindow, DOMSearchClose, DOMSearchBox ].
Ltac keeps_all := repeat keeps_step.

Section Frames.
Context `{B : Browser}.

Lemma keeps_element id : keeps view (element id).
Proof.
  unfold element. keeps_all.
Qed.
Lemma keeps_style k v p : keeps view (style_set k v p).
Proof. unfold style_set. keeps_all. Qed.
Lemma keeps_display v p : keeps view (display_set v p).
Proof. apply keeps_style. Qed.
Lemma keeps_attr k v p : keeps view (attr_set k v p).
Proof. unfold attr_set. keeps_all. Qed.
Lemma keeps_display_of p : keeps view (display_of p).
Proof. unfold display_of. keeps_all. Qed.
Lemma keeps_value_of p : keeps view (value_of p).
Proof. unfold value_of. keeps_all. Qed.
Lemma keeps_searchActive b : keeps view (modify_box (set_searchActive b)).
Proof. unfold modify_box. keeps_all. Qed.
Lemma keeps_lastSearchValue v : keeps view (modify_box (set_lastSearchValue v)).
Proof. unfold modify_box. keeps_all. Qed.
Lemma keeps_find_child id : keeps view (find_child id).
Proof. unfold find_child. apply keeps_pure. Qed.
Lemma keeps_nav_next i : keeps view (nav_next i).
Proof. unfold nav_next. apply keeps_pure. Qed.
Lemma keeps_nav_prev i : keeps view (nav_prev i).
Proof. unfold nav_prev. apply keeps_pure. Qed.
Hint Resolve keeps_element keeps_style keeps_display keeps_attr keeps_display_of keeps_value_of
  keeps_searchActive keeps_lastSearchValue keeps_find_child keeps_nav_next keeps_nav_prev : keeps.

Lemma keeps_Activate b : keeps view (Activate b).
Proof. unfold Activate. keeps_all. Qed.
Hint Resolve keeps_Activate : keeps.

Lemma keeps_leave_focus : keeps view leave_focus.
Proof. unfold leave_focus, OnSearchFieldFocus. keeps_all. Qed.
Hint Resolve keeps_leave_focus : keeps.

Lemma keeps_focus p : keeps view (focus p).
Proof. unfold focus, OnSearchFieldFocus. keeps_all. Qed.
Lemma keeps_blur p : keeps view (blur p).
Proof. unfold blur. keeps_all. Qed.
Hint Resolve keeps_focus keeps_blur : keeps.

Lemma keeps_focus_if p : keeps view (focus_if p).
Proof. unfold focus_if. keeps_all. Qed.
Hint Resolve keeps_focus_if : keeps.

Lemma keeps_CloseSelectionWindow : keeps view CloseSelectionWindow.
Proof. unfold CloseSelectionWindow. keeps_all. Qed.
Lemma keeps_CloseResultsWindow : keeps view CloseResultsWindow.
Proof. unfold CloseResultsWindow. keeps_all. Qed.
Lemma keeps_SelectItemCount : keeps view SelectItemCount.
Proof. unfold SelectItemCount. keeps_all. Qed.

Lemma keeps_mark_items id j items : keeps view (mark_items id j items).
Proof. revert j. induction items as [|i items IH]; intros j; cbn [mark_items]; keeps_all. Qed.
Hint Resolve keeps_CloseSelectionWindow keeps_CloseResultsWindow keeps_SelectItemCount
  keeps_mark_items : keeps.

Lemma keeps_SelectItemSet id : keeps view (SelectItemSet id).
Proof. unfold SelectItemSet. keeps_all. Qed.

Lemma keeps_show_results_window : keeps view show_results_window.
Proof. unfold show_results_window. keeps_all. Qed.

Lemma keeps_Search v : keeps view (Search v).
Proof. unfold Search. keeps_all. Qed.
Lemma keeps_createResults r d : keeps view (createResults r d).
Proof. unfold createResults. keeps_all. Qed.
Hint Resolve keeps_SelectItemSet keeps_show_results_window keeps_Search keeps_createResults : keeps.

Lemma keeps_handleResults i v : keeps view (handleResults i v).
Proof. unfold handleResults. keeps_all. Qed.
Lemma keeps_loadJS l p : keeps view (loadJS l p).
Proof. unfold loadJS. keeps_all. Qed.
Hint Resolve keeps_handleResults keeps_loadJS : keeps.

Lemma keeps_ProcessKeys e : keeps view (ProcessKeys e).
Proof. intros s. unfold ProcessKeys. destruct (ktype e); try done. by destruct (negb _). Qed.
Lemma keeps_Toggle id : keeps view (Toggle id).
Proof. unfold Toggle. keeps_all. Qed.
Lemma keeps_focus_field : keeps view focus_field.
Proof. unfold focus_field. keeps_all. Qed.
Lemma keeps_item_children p : keeps view (item_children p).
Proof. unfold item_children, row_id. keeps_all. Qed.
Lemma keeps_children_shown p : keeps view (children_shown p).
Proof. unfold children_shown. keeps_all. Qed.
Hint Resolve keeps_ProcessKeys keeps_Toggle keeps_focus_field keeps_item_children
  keeps_children_shown : keeps.

Lemma keeps_Nav e i : keeps view (Nav e i).
Proof. unfold Nav, Nav_up, Nav_down, Nav_children. keeps_all. Qed.
Lemma keeps_NavChild e i c : keeps view (NavChild e i c).
Proof. unfold NavChild. keeps_all. Qed.

End Frames.

#[export] Hint Resolve keeps_element keeps_style keeps_display keeps_attr keeps_display_of
  keeps_value_of keeps_searchActive keeps_lastSearchValue keeps_find_child keeps_nav_next
  keeps_nav_prev keeps_Activate keeps_leave_focus keeps_focus keeps_blur keeps_focus_if
  keeps_CloseSelectionWindow keeps_CloseResultsWindow keeps_SelectItemCount keeps_mark_items
  keeps_SelectItemSet keeps_show_results_window keeps_Search keeps_createResults
  keeps_handleResults keeps_loadJS keeps_ProcessKeys keeps_Toggle keeps_focus_field
  keeps_item_children keeps_children_shown keeps_Nav keeps_NavChild : keeps.
