(* ===== verification/SearchPanelSpec.v ===== *)
(** What the search panel of [search/search.js] guarantees: the discipline of its timers over the
    events of the browser, the bounds of the filter index, and how closing resets it. *)

From S2P Require Import Prelude TextFormat JsCore SearchId Dom Page SearchResultsPane SearchData.
From S2P Require Import SearchPanel.

(** ** Triples *)

Definition triple {A} (P : page -> Prop) (m : M A) (Q : page -> Prop) : Prop :=
  forall s, P s -> Q (snd (m s)).

Lemma triple_bind {A C} P Q R (m : M A) (k : A -> M C) :
  triple P m Q -> (forall s, Q s -> R s) -> (forall a, triple Q (k a) R) -> triple P (m ≫= k) R.
Proof.
  intros Hm Hqr Hk s Hs. specialize (Hm s Hs). unfold mbind, M_bind.
  destruct (m s) as [[a|] s']; cbn [snd] in *; [by apply Hk|by apply Hqr].
Qed.

(** A computation that keeps what an assertion depends on keeps the assertion. *)
Lemma triple_keeps {A V} (f : page -> V) (P : V -> Prop) (m : M A) :
  keeps f m -> triple (fun s => P (f s)) m (fun s => P (f s)).
Proof. intros Hm s Hs. by rewrite Hm. Qed.

Lemma triple_weaken {A} P P' Q Q' (m : M A) :
  triple P m Q -> (forall s, P' s -> P s) -> (forall s, Q s -> Q' s) -> triple P' m Q'.
Proof. intros Hm Hp Hq s Hs. by apply Hq, Hm, Hp. Qed.

(** ** The timers *)

Definition searches (ts : list timer) : list timer := filter (fun t => call t = CallSearch) ts.

(** The handles are different, below the next one, the one of the selection window is not that of
    a search, and the pending search, if any, is the one [keyTimeout] stands for. *)
Record timers_ok (next : Z) (ts : list timer) (key hide : Z) : Prop := {
  ok_next : 0 < next;
  ok_ids : Forall (fun t => 0 < timer_id t < next) ts;
  ok_nodup : NoDup (timer_id <$> ts);
  ok_hide : hide < next /\ forall t, t ∈ ts -> timer_id t = hide -> call t = CallCloseSelectionWindow;
  ok_search : (searches ts = [] /\ key = 0) \/ exists t, searches ts = [t] /\ timer_id t = key;
}.

Lemma fmap_filter_NoDup (P : timer -> Prop) `{forall t, Decision (P t)} ts :
  NoDup (timer_id <$> ts) -> NoDup (timer_id <$> filter P ts).
Proof. intros Hn. eapply sublist_NoDup; [done|]. apply fmap_sublist, sublist_filter. Qed.

Lemma searches_In t ts : t ∈ searches ts <-> t ∈ ts /\ call t = CallSearch.
Proof. unfold searches. rewrite list_elem_of_filter. tauto. Qed.

Lemma NoDup_ids t u ts :
  NoDup (timer_id <$> ts) -> t ∈ ts -> u ∈ ts -> timer_id t = timer_id u -> t = u.
Proof.
  intros Hn (i & Hi)%list_elem_of_lookup (j & Hj)%list_elem_of_lookup Heq.
  assert (i = j); [|congruence].
  eapply NoDup_lookup; [done|rewrite list_lookup_fmap, Hi; done|].
  rewrite list_lookup_fmap, Hj. cbn. by rewrite Heq.
Qed.

Lemma add_search next ts hide ms :
  timers_ok next ts 0 hide ->
  timers_ok (next + 1) (ts ++ [{| timer_id := next; delay := ms; call := CallSearch |}]) next hide.
Proof.
  intros [Hn Hids Hnd [Hh Hhc] Hs].
  assert (Hnone : searches ts = []).
  { destruct Hs as [[? _]|(t & Ht & Hid)]; [done|]. exfalso.
    assert (Hin : t ∈ searches ts) by (rewrite Ht; by apply list_elem_of_singleton).
    apply searches_In in Hin as [Hin _]. rewrite Forall_forall in Hids.
    apply Hids in Hin. lia. }
  split; [lia| | | |].
  - apply Forall_app. split; [eapply Forall_impl; [done|]; intros ?; cbn; lia|].
    apply Forall_singleton. cbn. lia.
  - rewrite fmap_app. apply NoDup_app. split; [done|]. split; [|apply NoDup_singleton].
    intros x (t & -> & Ht)%list_elem_of_fmap. cbn. rewrite list_elem_of_singleton. intros Heq.
    rewrite Forall_forall in Hids. apply Hids in Ht. lia.
  - split; [lia|]. intros t [Ht| ->%list_elem_of_singleton]%elem_of_app Hid; [by apply Hhc|].
    cbn in Hid. lia.
  - right. eexists. unfold searches in *. rewrite filter_app, Hnone. done.
Qed.

Lemma add_close next ts key hide ms :
  timers_ok next ts key hide ->
  timers_ok (next + 1) (ts ++ [{| timer_id := next; delay := ms; call := CallCloseSelectionWindow |}])
    key next.
Proof.
  intros [Hn Hids Hnd [Hh Hhc] Hs]. split; [lia| | | |].
  - apply Forall_app. split; [eapply Forall_impl; [done|]; intros ?; cbn; lia|].
    apply Forall_singleton. cbn. lia.
  - rewrite fmap_app. apply NoDup_app. split; [done|]. split; [|apply NoDup_singleton].
    intros x (t & -> & Ht)%list_elem_of_fmap. cbn. rewrite list_elem_of_singleton. intros Heq.
    rewrite Forall_forall in Hids. apply Hids in Ht. lia.
  - split; [lia|]. intros t [Ht| ->%list_elem_of_singleton]%elem_of_app Hid; [|done].
    rewrite Forall_forall in Hids. apply Hids in Ht. lia.
  - unfold searches in *. rewrite filter_app. cbn. by rewrite app_nil_r.
Qed.

(** Removing the timers with one handle. *)
Definition without (id : Z) (ts : list timer) : list timer := filter (fun t => timer_id t <> id) ts.

Lemma without_In id t ts : t ∈ without id ts <-> t ∈ ts /\ timer_id t <> id.
Proof. unfold without. rewrite list_elem_of_filter. tauto. Qed.

Lemma searches_without id ts :
  (forall t, t ∈ ts -> call t = CallSearch -> timer_id t <> id) -> searches (without id ts) = searches ts.
Proof.
  induction ts as [|t ts IH]; intros Hall; [done|]. unfold searches, without in *.
  rewrite (filter_cons _ t ts). destruct (decide (timer_id t <> id)) as [Hid|Hid].
  - rewrite !filter_cons, IH; [done|]. intros u Hu. apply Hall. by right.
  - rewrite (filter_cons_False _ t ts), IH; [done| |].
    + intros u Hu. apply Hall. by right.
    + intros Hc. apply Hid, Hall; [by left|done].
Qed.

Lemma remove_timers next ts key hide id key' hide' :
  timers_ok next ts key hide ->
  hide' = hide \/ hide' = 0 ->
  (searches (without id ts) = [] /\ key' = 0) \/ (searches (without id ts) = searches ts /\ key' = key) ->
  timers_ok next (without id ts) key' hide'.
Proof.
  intros [Hn Hids Hnd [Hh Hhc] Hs] Hh' Hk. split; [done| | | |].
  - apply Forall_forall. intros t [Ht _]%without_In. rewrite Forall_forall in Hids. by apply Hids.
  - by apply fmap_filter_NoDup.
  - split; [destruct Hh'; lia|]. intros t [Ht _]%without_In Heq. apply Hhc; [done|].
    destruct Hh' as [-> | ->]; [done|]. rewrite Forall_forall in Hids. apply Hids in Ht. lia.
  - destruct Hk as [[-> ->]|[-> ->]]; [by left|done].
Qed.

(** The handle of the selection window is not that of a search. *)
Lemma clear_hide next ts key hide :
  timers_ok next ts key hide -> timers_ok next (without hide ts) key 0.
Proof.
  intros H. apply (remove_timers _ _ _ _ _ _ _ H); [by right|]. right. split; [|done].
  apply searches_without. intros t Ht Hc Hid. destruct H as [_ _ _ [_ Hh] _].
  rewrite (Hh t Ht Hid) in Hc. done.
Qed.

Lemma searches_gone next ts key hide t :
  timers_ok next ts key hide -> t ∈ ts -> call t = CallSearch ->
  key = timer_id t /\ searches (without (timer_id t) ts) = [].
Proof.
  intros [Hn Hids Hnd _ Hs] Ht Hc.
  assert (Hin : t ∈ searches ts) by (by apply searches_In).
  destruct Hs as [[Hs _]|(u & Hs & Hu)]; rewrite Hs in Hin; [by apply not_elem_of_nil in Hin|].
  apply list_elem_of_singleton in Hin as <-. split; [done|].
  destruct (searches (without (timer_id t) ts)) as [|v l] eqn:Hv; [done|]. exfalso.
  assert (Hin : v ∈ searches (without (timer_id t) ts)) by (rewrite Hv; by left).
  apply searches_In in Hin as [[Hv1 Hv2]%without_In Hv3].
  assert (Hin : v ∈ searches ts) by (by apply searches_In). rewrite Hs in Hin.
  apply list_elem_of_singleton in Hin as ->. done.
Qed.

Lemma clear_key next ts key hide :
  timers_ok next ts key hide -> key <> 0 -> timers_ok next (without key ts) 0 hide.
Proof.
  intros H Hk. apply (remove_timers _ _ _ _ _ _ _ H); [by left|]. left. split; [|done].
  destruct (ok_search _ _ _ _ H) as [[_ ?]|(t & Hs & <-)]; [done|].
  assert (Hin : t ∈ searches ts) by (rewrite Hs; by apply list_elem_of_singleton).
  apply searches_In in Hin as [Ht Hc]. by apply (searches_gone _ _ _ _ t H).
Qed.

(** A timer that fires is gone; if it was the search, [keyTimeout] is stale until [Search]
    resets it. *)
Lemma fire next ts key hide t :
  timers_ok next ts key hide -> t ∈ ts ->
  timers_ok next (without (timer_id t) ts) (if decide (call t = CallSearch) then 0 else key) hide.
Proof.
  intros H Ht. apply (remove_timers _ _ _ _ _ _ _ H); [by left|]. destruct (decide _) as [Hc|Hc].
  - left. split; [|done]. by apply (searches_gone _ _ _ _ t H).
  - right. split; [|done]. apply searches_without. intros u Hu Huc Hid.
    assert (u = t) as ->; [|done]. eapply NoDup_ids; [apply H|done..].
Qed.

(** ** The handlers *)

Section Handlers.
Context `{B : Browser}.

Definition panel_ok (s : page) : Prop :=
  timers_ok (next_timer s) (timers s) (keyTimeout (searchBox s)) (hideTimeout (searchBox s)).
Definition idle (s : page) : Prop := timers_ok (next_timer s) (timers s) 0 (hideTimeout (searchBox s)).
Definition idle_key (s : page) : Prop := panel_ok s /\ keyTimeout (searchBox s) = 0.

Lemma keeps_triple {A} (P : page -> Prop) (m : M A) :
  (forall s s', view s = view s' -> P s -> P s') -> keeps view m -> triple P m P.
Proof. intros HP Hm s Hs. by eapply HP; [symmetry; apply Hm|]. Qed.

Lemma panel_ok_view s s' : view s = view s' -> panel_ok s -> panel_ok s'.
Proof. unfold view, panel_ok. by intros [= -> -> -> -> _]. Qed.
Lemma idle_view s s' : view s = view s' -> idle s -> idle s'.
Proof. unfold view, idle. by intros [= -> -> _ -> _]. Qed.
Lemma idle_key_view s s' : view s = view s' -> idle_key s -> idle_key s'.
Proof. unfold view, idle_key, panel_ok. by intros [= -> -> -> -> _]. Qed.

Hint Resolve panel_ok_view idle_view idle_key_view keeps_triple : triple.

(** After a first part that keeps the view. *)
Lemma triple_then {A C} (P Q : page -> Prop) (m : M A) (k : A -> M C) :
  (forall s s', view s = view s' -> P s -> P s') -> (forall s, P s -> Q s) ->
  keeps view m -> (forall a, triple P (k a) Q) -> triple P (m ≫= k) Q.
Proof. intros HP HPQ Hm Hk. by eapply triple_bind; [apply keeps_triple|..]. Qed.

Lemma keeps_panel {A} (m : M A) : keeps view m -> triple panel_ok m panel_ok.
Proof. apply keeps_triple, panel_ok_view. Qed.

Lemma idle_key_panel s : idle_key s -> panel_ok s.
Proof. by intros [? _]. Qed.
Hint Resolve idle_key_panel : triple.

Lemma seq_kept {A C} (P Q : page -> Prop) (m : M A) (k : A -> M C) :
  (forall s s', view s = view s' -> P s -> P s') ->
  keeps view m -> (forall a, triple P (k a) Q) -> (forall s, P s -> Q s) -> triple P (m ≫= k) Q.
Proof. intros. by apply triple_then. Qed.

Ltac skip_kept := eapply seq_kept; [solve [eauto with triple nocore]|solve [keeps_all]|intros ?|solve [eauto with triple nocore]].

Lemma show_end :
  triple panel_ok (b ← this; when (negb (hideTimeout b =? 0))
    (_ ← clearTimeout (hideTimeout b); modify_box (set_hideTimeout 0))) panel_ok.
Proof.
  intros s Hs. unfold when, clearTimeout, modify_box, this. simpl mbind.
  unfold mbind, M_bind. destruct (hideTimeout (searchBox s) =? 0); cbn [negb]; [done|].
  cbn. unfold panel_ok in *. cbn. by apply clear_hide.
Qed.

Lemma OnSearchSelectShow_timers : triple panel_ok OnSearchSelectShow panel_ok.
Proof. unfold OnSearchSelectShow. do 3 skip_kept. cbv zeta. do 3 skip_kept. apply show_end. Qed.

Lemma OnSearchSelectHide_timers : triple panel_ok OnSearchSelectHide panel_ok.
Proof. intros s Hs. unfold panel_ok in *. cbn. by eapply add_close. Qed.

Lemma kill_key_timer_timers : triple panel_ok kill_key_timer idle_key.
Proof.
  intros s Hs. unfold kill_key_timer, when, this, clearTimeout, modify_box, mbind, M_bind.
  destruct (Z.eqb_spec (keyTimeout (searchBox s)) 0); cbn [negb]; [done|].
  cbn. split; [|done]. unfold panel_ok in *. cbn. by apply clear_key.
Qed.

Lemma field_changed_timers : triple idle_key field_changed panel_ok.
Proof.
  unfold field_changed. do 2 skip_kept. cbv zeta. skip_kept.
  destruct (negb _); [|by intros s [? _]]. destruct (negb _).
  - intros s [Hs Hk]. unfold setTimeout, modify_box, mbind, M_bind. unfold panel_ok in *. cbn.
    apply add_search. by rewrite Hk in Hs.
  - eapply triple_weaken; [apply keeps_panel; keeps_all|apply idle_key_panel|done].
Qed.

Lemma OnSearchFieldChange_timers e : triple panel_ok (OnSearchFieldChange e) panel_ok.
Proof.
  unfold OnSearchFieldChange. eapply triple_bind; [apply kill_key_timer_timers|apply idle_key_panel|].
  intros _. destruct (_ || _); [destruct (shiftKey e)|destruct (keyCode e =? 27)].
  - eapply triple_bind; [eapply triple_weaken; [apply OnSearchSelectShow_timers|apply idle_key_panel|done]|done|].
    intros _. apply keeps_panel. keeps_all.
  - do 2 skip_kept. apply field_changed_timers.
  - eapply triple_weaken; [apply keeps_panel; keeps_all|apply idle_key_panel|done].
  - apply field_changed_timers.
Qed.

(** [Search] takes a stale [keyTimeout] back. *)
Lemma box_Search_timers : triple idle box_Search panel_ok.
Proof.
  unfold box_Search. eapply (triple_bind _ panel_ok); [|done|].
  { intros s Hs. done. }
  intros _. apply keeps_panel. keeps_all.
Qed.

Lemma on_selector_key_timers e : triple panel_ok (on_selector_key e) panel_ok.
Proof.
  unfold on_selector_key. destruct (_ || _); [|by intros s Hs]. do 2 skip_kept.
  destruct (bool_decide _); [apply keeps_panel; keeps_all|].
  eapply triple_bind; [apply OnSearchSelectShow_timers|done|]. intros _. apply keeps_panel. keeps_all.
Qed.

Lemma TimerFires_timers t s :
  panel_ok s -> t ∈ timers s -> panel_ok (snd (handle (TimerFires t) s)).
Proof.
  intros Hs Ht. cbn [handle]. rewrite modify_bind.
  pose proof (fire _ _ _ _ _ Hs Ht) as Hf. destruct (call t) eqn:Hc; cbn [run_timer].
  - rewrite decide_True in Hf by done. by apply box_Search_timers.
  - rewrite decide_False in Hf by done. by apply (keeps_panel _ keeps_CloseSelectionWindow).
Qed.

(** The events that do not choose a filter, which is what searches at once. *)
Definition no_selection (e : event) : Prop :=
  match e with SelectClick _ | SelectKey _ => False | _ => True end.

Lemma handle_timers e s :
  panel_ok s -> no_selection e -> enabled e s -> panel_ok (snd (handle e s)).
Proof.
  intros Hs Hno Hen. destruct e; try done; cbn [handle].
  - apply keeps_panel; [keeps_all|done].
  - by apply OnSearchFieldChange_timers.
  - unfold OnSearchFieldFocus. by apply (keeps_panel _ (keeps_Activate _)).
  - by apply OnSearchSelectShow_timers.
  - by apply OnSearchSelectHide_timers.
  - by apply on_selector_key_timers.
  - by apply (keeps_panel _ keeps_CloseResultsWindow).
  - apply keeps_panel; [keeps_all|done].
  - apply keeps_panel; [keeps_all|done].
  - by apply (keeps_panel _ (keeps_Toggle _)).
  - by apply TimerFires_timers.
  - apply keeps_panel; [|done]. keeps_all.
Qed.

Lemma steps_timers s es s' :
  steps s es s' -> Forall no_selection es -> panel_ok s -> panel_ok s'.
Proof.
  intros Hs. induction Hs as [|s es s1 e s2 _ IH Hstep]; intros Hall Hok; [done|].
  apply Forall_app in Hall as [Hall [He _]%Forall_cons]. destruct Hstep. by apply handle_timers; [apply IH|..].
Qed.

(** ** Closing the panel *)

(** The page has the element. *)
Definition has (s : page) (id : string) : Prop := is_Some (getElementById (doc s) (js id)).

Definition style_of (s : page) (id : string) : option jsstring :=
  p ← getElementById (doc s) (js id); display <$> elem_at (doc s) p.
Definition class_of (s : page) (id : string) : option jsstring :=
  p ← getElementById (doc s) (js id); className <$> elem_at (doc s) p.
Definition field_value (s : page) : option jsstring :=
  p ← getElementById (doc s) (js "MSearchField");
  e ← elem_at (doc s) p; attrs e !! "value".

Definition finds (id : string) (s : page) : option path := getElementById (doc s) (js id).

Lemma finds_style id k v p : keeps (finds id) (style_set k v p).
Proof. intros s. apply getElementById_setStyle. Qed.

Lemma finds_attr id k v p : k <> "id"%string -> keeps (finds id) (attr_set k v p).
Proof. intros Hk s. by apply getElementById_setAttribute. Qed.

Lemma finds_Activate id b : keeps (finds id) (Activate b).
Proof.
  unfold Activate. apply keeps_bind; [|intros open; apply keeps_bind; [|intros p]].
  - destruct b; [done|]. intros s. unfold DOMPopupSearchResultsWindow. rewrite element_bind.
    by destruct (getElementById _ _).
  - intros s. unfold DOMSearchBox. rewrite element_run. by destruct (getElementById _ _).
  - destruct open; (apply keeps_bind; [by apply finds_attr|intros _]).
    + by intros s.
    + apply keeps_bind; [by intros s|intros _]. apply keeps_bind; [|intros q; by apply finds_attr].
      intros s. unfold DOMSearchField. rewrite element_run. by destruct (getElementById _ _).
Qed.

Lemma finds_blur id p : keeps (finds id) (blur p).
Proof.
  intros s. unfold blur, when. M_run. destruct (bool_decide _); [|done].
  unfold leave_focus. M_run. destruct (active s) as [old|]; [|done]. unfold when.
  destruct (is_field _ _); [|done]. exact (keeps_handler (finds id) (Activate false) (finds_Activate id false) (set_active None s)).
Qed.

(** The panel is closed and holds no search. *)
Definition closed (s : page) : Prop :=
  searchActive (searchBox s) = false /\ lastSearchValue (searchBox s) = [] /\
  style_of s "MSearchResultsWindow" = Some (js "none") /\
  style_of s "MSearchClose" = Some (js "none") /\
  class_of s "MSearchBox" = Some (js "MSearchBoxInactive") /\ field_value s = Some [].

Lemma getElementById_elem d id p : getElementById d id = Some p -> is_Some (elem_at d p).
Proof. intros (e & He & _)%find_elem_Some. by eexists. Qed.

Lemma finds_distinct s i j p q :
  getElementById (doc s) (js i) = Some p -> getElementById (doc s) (js j) = Some q ->
  js i <> js j -> p <> q.
Proof.
  intros (e & He & Hi)%getElementById_has_id (e' & He' & Hj)%getElementById_has_id Hne ->.
  rewrite He in He'. congruence.
Qed.

(** The common end of [CloseResultsWindow] and of the Escape key: both boxes are hidden and the
    panel is deactivated. *)
Lemma deactivate_closed s w c b f :
  getElementById (doc s) (js "MSearchResultsWindow") = Some w ->
  getElementById (doc s) (js "MSearchClose") = Some c ->
  getElementById (doc s) (js "MSearchBox") = Some b ->
  getElementById (doc s) (js "MSearchField") = Some f ->
  forall g, doc (g s) = alter_at (setDisplay "none") (alter_at (setDisplay "none") (doc s) w) c ->
  fst (Activate false (g s)) = Normal tt /\ closed (snd (Activate false (g s))).
Proof.
  intros Hw Hc Hb Hf g Hdoc.
  pose proof (finds_distinct s _ _ _ _ Hw Hc ltac:(done)) as Hwc.
  pose proof (finds_distinct s _ _ _ _ Hw Hb ltac:(done)) as Hwb.
  pose proof (finds_distinct s _ _ _ _ Hw Hf ltac:(done)) as Hwf.
  pose proof (finds_distinct s _ _ _ _ Hc Hb ltac:(done)) as Hcb.
  pose proof (finds_distinct s _ _ _ _ Hc Hf ltac:(done)) as Hcf.
  pose proof (finds_distinct s _ _ _ _ Hb Hf ltac:(done)) as Hbf.
  destruct (getElementById_elem _ _ _ Hw) as [ew Hew], (getElementById_elem _ _ _ Hc) as [ec Hec],
    (getElementById_elem _ _ _ Hb) as [eb Heb], (getElementById_elem _ _ _ Hf) as [ef Hef].
  assert (Hget : forall id, getElementById (doc (g s)) id = getElementById (doc s) id).
  { intros id. rewrite Hdoc. unfold setDisplay. by rewrite !getElementById_setStyle. }
  unfold Activate, DOMPopupSearchResultsWindow, DOMSearchBox, DOMSearchField, display_of. M_run.
  rewrite Hget, Hw. M_run.
  assert (Hdw : elem_at (doc (g s)) w = Some (setDisplay "none" ew)).
  { rewrite Hdoc, !elem_at_alter, decide_False, decide_True, Hew by done. done. }
  rewrite Hdw. cbn [fmap option_fmap option_map default from_option].
  rewrite display_setDisplay, bool_decide_eq_false_2 by done. M_run. rewrite Hget, Hb.
  unfold attr_set, modify_box. M_run. cbn [doc set_doc set_box].
  rewrite getElementById_setAttribute, Hget, Hf by done. split; [done|].
  unfold closed, style_of, class_of, field_value, modify.
  cbn [snd doc set_doc set_box searchBox searchActive set_searchActive lastSearchValue].
  rewrite !getElementById_setAttribute, !Hget, Hw, Hc, Hb, Hf by done. simpl mbind.
  rewrite Hdoc, !elem_at_alter, Hew, Hec, Heb, Hef.
  repeat (destruct (decide _); try congruence).
  cbn [fmap option_fmap option_map mbind option_bind]. rewrite !display_setDisplay.
  unfold className. cbn [setAttribute attrs]. by rewrite !lookup_insert_eq.
Qed.

Lemma CloseResultsWindow_closed s :
  has s "MSearchResultsWindow" -> has s "MSearchClose" -> has s "MSearchBox" -> has s "MSearchField" ->
  fst (CloseResultsWindow s) = Normal tt /\ closed (snd (CloseResultsWindow s)).
Proof.
  intros [w Hw] [c Hc] [b Hb] [t Ht].
  unfold CloseResultsWindow, DOMPopupSearchResultsWindow, DOMSearchClose, display_set. M_run.
  rewrite Hw. M_run. cbn [doc set_doc]. rewrite getElementById_setStyle, Hc. M_run. cbn [doc set_doc].
  match goal with |- fst (_ ?x) = _ /\ _ => apply (deactivate_closed s w c b t Hw Hc Hb Ht (fun _ => x)) end.
  done.
Qed.

(** What Escape does after the focus has left the field. *)
Lemma escape_closed s :
  has s "MSearchResultsWindow" -> has s "MSearchClose" -> has s "MSearchBox" -> has s "MSearchField" ->
  let r := (window ← DOMPopupSearchResultsWindow;
            _ ← display_set "none" window;
            close ← DOMSearchClose;
            _ ← display_set "none" close;
            _ ← modify_box (set_lastSearchValue []);
            Activate false) s in
  fst r = Normal tt /\ closed (snd r).
Proof.
  intros [w Hw] [c Hc] [b Hb] [t Ht] r. subst r.
  unfold DOMPopupSearchResultsWindow, DOMSearchClose, display_set, modify_box. M_run.
  rewrite Hw. M_run. cbn [doc set_doc]. rewrite getElementById_setStyle, Hc. M_run. cbn [doc set_doc].
  match goal with |- fst (_ ?x) = _ /\ _ => apply (deactivate_closed s w c b t Hw Hc Hb Ht (fun _ => x)) end.
  done.
Qed.

Lemma kill_key_timer_doc s : exists s', kill_key_timer s = (Normal tt, s') /\ doc s' = doc s.
Proof.
  unfold kill_key_timer, this, when, mbind, M_bind.
  destruct (negb _); (eexists; split; reflexivity).
Qed.

Lemma keeps_index {A} (m : M A) : keeps view m -> keeps (fun s => searchIndex (searchBox s)) m.
Proof. intros Hm s. specialize (Hm s). unfold view in Hm. congruence. Qed.

(** ** Properties *)

(** C37: whatever the browser sends except the choice of a filter, at most one search is waiting
    for its timer, and it is the one [keyTimeout] can cancel. *)
Theorem search_timer_unique : forall contents es s,
  steps (loaded_page contents) es s -> Forall no_selection es ->
  (searches (timers s) = [] /\ keyTimeout (searchBox s) = 0) \/
  exists t, searches (timers s) = [t] /\ timer_id t = keyTimeout (searchBox s).
Proof.
  intros contents es s Hs Hall. apply (ok_search (next_timer s) _ _ (hideTimeout (searchBox s))).
  eapply (steps_timers _ _ _ Hs Hall). split; [cbn; lia|constructor|constructor| |by left].
  split; [cbn; lia|]. cbn. by intros t ?%not_elem_of_nil.
Qed.

(** The close button and the Escape key end without an exception on every page that has the
    elements of the panel, and leave it hidden, inactive and with no text. *)
Theorem closing_resets : forall s e,
  has s "MSearchResultsWindow" -> has s "MSearchClose" -> has s "MSearchBox" -> has s "MSearchField" ->
  keyCode e = 27 ->
  (fst (CloseResultsWindow s) = Normal tt /\ closed (snd (CloseResultsWindow s))) /\
  (fst (OnSearchFieldChange e s) = Normal tt /\ closed (snd (OnSearchFieldChange e s))).
Proof.
  intros s e Hw Hc Hb Hf He. split; [by apply CloseResultsWindow_closed|].
  unfold OnSearchFieldChange. rewrite He.
  change ((27 =? 40) || (27 =? 13)) with false. change (27 =? 27) with true. cbv iota.
  destruct (kill_key_timer_doc s) as (s1 & Hk & Hd). erewrite bind_run by done.
  unfold DOMSearchField. M_run.
  assert (H1 : forall id, has s id -> has s1 id) by (intros id; unfold has; by rewrite Hd).
  destruct (H1 _ Hf) as [f Hf1]. rewrite Hf1.
  assert (Hblur : exists s2, blur f s1 = (Normal tt, s2)).
  { unfold blur, when. M_run. destruct (bool_decide _); [|by eexists].
    unfold leave_focus, when. M_run. destruct (active s1); [|by eexists].
    destruct (is_field _ _); by eexists. }
  destruct Hblur as [s2 Hs2]. rewrite (bind_run (blur f) _ s1 tt s2 Hs2).
  assert (H2 : forall id, has s id -> has s2 id).
  { intros id Hid. apply H1 in Hid. unfold has in *. pose proof (finds_blur id f s1) as Hfb.
    rewrite Hs2 in Hfb. unfold finds in Hfb. cbn [snd] in Hfb. by rewrite Hfb. }
  apply escape_closed; auto.
Qed.

(** The keys of the selection window move the filter by one and keep it between the first one
    and the number of the filters. *)
Theorem OnSearchSelectKey_bounds : forall s e win,
  getElementById (doc s) (js "MSearchSelectWindow") = Some win ->
  let count := size (select_items (doc s) win) in
  0 <= searchIndex (searchBox s) <= count ->
  let i := searchIndex (searchBox (snd (OnSearchSelectKey e s))) in
  0 <= i <= count /\ -1 <= i - searchIndex (searchBox s) <= 1.
Proof.
  intros s e win Hwin count Hi.
  assert (Hsel : forall id s, searchIndex (searchBox (snd (OnSelectItem id s))) = id).
  { intros id t. unfold OnSelectItem, modify_box. rewrite modify_bind.
    match goal with |- searchIndex (searchBox (snd (?m ?x))) = _ =>
      assert (Hm : keeps (fun s => searchIndex (searchBox s)) m) end.
    { apply keeps_bind; [apply (keeps_index _ (keeps_SelectItemSet id))|intros _].
      apply keeps_bind; [apply (keeps_index _ (keeps_element (js "MSearchField")))|intros f].
      apply keeps_bind; [apply (keeps_index _ (keeps_value_of f))|intros v]. cbv zeta.
      apply keeps_bind; [by intros ?|intros b]. unfold when. destruct (_ && _); [|by intros ?].
      unfold box_Search. apply keeps_bind; [by intros ?|intros _].
      apply keeps_index. keeps_all. }
    by rewrite Hm. }
  unfold OnSearchSelectKey, this. erewrite bind_run by done.
  assert (Hdown : exists d, (if keyCode e =? 40 then count ← SelectItemCount;
      mret (searchIndex (searchBox s) <? count) else mret false) s = (Normal d, s) /\
      (d = true -> searchIndex (searchBox s) < count)).
  { destruct (keyCode e =? 40); [|by exists false].
    unfold SelectItemCount, DOMSearchSelectWindow. M_run. rewrite Hwin. M_run.
    eexists. split; [done|]. fold count. intros ?%Z.ltb_lt. done. }
  destruct Hdown as (d & Hd & Hlt). erewrite bind_run by done. destruct d.
  - specialize (Hlt eq_refl). unfold modify_box. M_run. rewrite Hsel. lia.
  - destruct ((keyCode e =? 38) && (searchIndex (searchBox s) >? 0)) eqn:Hup.
    { reflect_Z. unfold modify_box. M_run. rewrite Hsel. lia. }
    destruct (_ || _); [|cbn; lia].
    match goal with |- context [searchIndex (searchBox (snd (?m s)))] =>
      assert (Hm : searchIndex (searchBox (snd (m s))) = searchIndex (searchBox s)) end; [|rewrite Hm; lia].
    unfold mbind at 1, M_bind at 1.
    pose proof (Hsel (searchIndex (searchBox s)) s) as Hs1.
    destruct (OnSelectItem (searchIndex (searchBox s)) s) as [[[]|] s1]; cbn [snd] in *; [|done].
    rewrite <- Hs1. apply (keeps_index (_ ← CloseSelectionWindow; field ← DOMSearchField; focus field)). keeps_all.
Qed.

End Handlers.

(** ** Witnesses *)

Definition key (k : Z) : key_event := {| ktype := keydown; keyCode := k; shiftKey := false |}.

(** A page after [init_search], and one where something is searched for. *)
Definition ready_page : page := snd (init_search (loaded_page [])).
Definition typing : list event := [FieldFocus true; FieldInput (js "a"); FieldKey (key 65)].
Definition run_events (es : list event) (s : page) : page := foldl (fun s e => snd (handle e s)) s es.

Lemma run_steps es s : Forall (fun e => forall t, enabled e t) es -> steps s es (run_events es s).
Proof.
  induction es as [|e es IH] using rev_ind; intros Hall; [constructor|].
  apply Forall_app in Hall as [Hall [He _]%Forall_cons]. unfold run_events. rewrite foldl_app.
  cbn [foldl]. econstructor; [by apply IH|]. constructor. apply He.
Qed.

Lemma search_timer_unique_witness :
  (searches (timers (run_events typing (loaded_page []))) = [] /\
   keyTimeout (searchBox (run_events typing (loaded_page []))) = 0) \/
  exists t, searches (timers (run_events typing (loaded_page []))) = [t] /\
    timer_id t = keyTimeout (searchBox (run_events typing (loaded_page []))).
Proof.
  apply (search_timer_unique [] typing); [apply run_steps|]; repeat constructor.
Defined.

Lemma closing_resets_witness :
  (fst (CloseResultsWindow ready_page) = Normal tt /\ closed (snd (CloseResultsWindow ready_page))) /\
  (fst (OnSearchFieldChange (key 27) ready_page) = Normal tt /\
   closed (snd (OnSearchFieldChange (key 27) ready_page))).
Proof. apply closing_resets; [vm_compute; eexists; reflexivity..|reflexivity]. Defined.

Lemma OnSearchSelectKey_bounds_witness :
  0 <= searchIndex (searchBox (snd (OnSearchSelectKey (key 40) ready_page))) <= 11 /\
  -1 <= searchIndex (searchBox (snd (OnSearchSelectKey (key 40) ready_page)))
        - searchIndex (searchBox ready_page) <= 1.
Proof.
  apply (OnSearchSelectKey_bounds ready_page (key 40) [1; 1]%nat); [vm_compute; reflexivity|].
  vm_compute. split; intros H; discriminate H.
Defined.

(** ** What the handlers do not guard against *)

(** Eleven times Down select the filter behind the last one; with a text in the active field the
    search then reads a property of [undefined]. *)
Lemma selection_overruns :
  let s := run_events (typing ++ replicate 10 (SelectKey (key 40))) ready_page in
  searchIndex (searchBox s) = 10 /\
  fst (OnSearchSelectKey (key 40) s) = TypeError /\
  searchIndex (searchBox (snd (OnSearchSelectKey (key 40) s))) = 11.
Proof. vm_compute. repeat split. Qed.

(** Choosing a filter while a search waits leaves its timer pending with no handle, and the next
    change of the text starts a second one. *)
Lemma selection_orphans_timer :
  let s := run_events (typing ++ [SelectClick 1; FieldInput (js "ab"); FieldKey (key 66)]) ready_page in
  map timer_id (searches (timers s)) = [1; 2] /\ keyTimeout (searchBox s) = 2.
Proof. vm_compute. repeat split. Qed.

(** A text with a space inside is never equal to the last search, so that every key starts the
    search again. *)
Lemma inner_space_searches_again :
  let s := run_events [FieldFocus true; FieldInput (js "a b"); FieldKey (key 66)] ready_page in
  let fired := run_events (map TimerFires (timers s)) s in
  searches (timers fired) = [] /\ lastSearchValue (searchBox fired) = js "a b" /\
  map timer_id (searches (timers (run_events [FieldKey (key 16)] fired))) = [2].
Proof. vm_compute. repeat split. Qed.

(** The branch for surrogate pairs is not taken by any text that begins with one, since the text
    itself, and not its length, is compared with 1. *)
Lemma surrogate_branch_dead (B : Browser) (laws : BrowserLaws B) searchValue c :
  head searchValue = Some c -> 0xD800 <= c <= 0xDFFF ->
  index_char searchValue = toLowerCase (substr0 searchValue 1).
Proof.
  intros Hh Hc. unfold index_char. rewrite (surrogate_no_number _ _ Hh Hc).
  destruct (head (toLowerCase searchValue)); [|done]. by rewrite andb_false_r.
Qed.
