(* ===== verification/SearchIndex.v ===== *)
(** The index of [SearchData] and [SearchSections] against the code of [search/search.js] that uses
    it: in every section each entry is in the file the first character of its name leads to, and
    typing the beginning of the name loads this file and shows the row of the entry. *)

From S2P Require Import Prelude TextFormat JsCore SearchId Dom Page SearchResultsPane SearchData SearchSections.
From S2P Require Import SearchPanel.

(** ** The names behind the ids *)

(** The inverse of [convertToId]. *)
Fixpoint unconvert (s : jsstring) : option jsstring :=
  match s with
  | [] => Some []
  | 95 :: h :: l :: s => n ← unconvert s; Some (hex_value h * 16 + hex_value l :: n)
  | c :: s => n ← unconvert s; Some (c :: n)
  end.

Definition id_suffix (k : Z) : jsstring := js "_" ++ js_dec k.

(** The name the entry number [k] of a file was given its id for. *)
Definition entry_name (k : Z) (d : entry) : option jsstring :=
  unconvert (take (length (entry_id d) - length (id_suffix k)) (entry_id d)).

(** The name is one that is found by its first character [c], and [toLowerCase] changes neither
    it nor the id. *)
Definition entry_ok (c k : Z) (d : entry) : bool :=
  match entry_name k d with
  | Some (c' :: name) =>
      (c' =? c) && bool_decide (entry_id d = convertToId (c' :: name) ++ id_suffix k) &&
      bool_decide (Forall lower_fixed_unit (c' :: name)) &&
      bool_decide (Forall lower_fixed_unit (entry_id d)) && negb (c =? space)
  | _ => false
  end.

Fixpoint entries_ok (c k : Z) (ds : list entry) : bool :=
  match ds with
  | [] => true
  | d :: ds => entry_ok c k d && entries_ok c (k + 1) ds
  end.

(** The files of a section with the characters [all], from the position [i] on. *)
Fixpoint files_ok (all : jsstring) (i : Z) (contents : jsstring) (files : list (list entry)) : bool :=
  match contents, files with
  | [], [] => true
  | c :: contents, f :: files =>
      (indexOf all [c] =? i) && entries_ok c 0 f && files_ok all (i + 1) contents files
  | _, _ => false
  end.

(** The characters of a section, and its name. *)
Definition section_contents (n : nat) : jsstring :=
  default [] (section indexSectionsWithContent (Z.of_nat n)).
Definition section_name (n : nat) : jsstring :=
  default [] (section indexSectionNames (Z.of_nat n)).

(** In the sections from the number [n] on the file number [i] holds entries for the character
    number [i]. *)
Fixpoint sections_ok (n : nat) (sections : list (list (list entry))) : bool :=
  match sections with
  | [] => true
  | files :: sections =>
      bool_decide (section indexSectionsWithContent (Z.of_nat n) = Some (section_contents n)) &&
      bool_decide (section indexSectionNames (Z.of_nat n) = Some (section_name n)) &&
      files_ok (section_contents n) 0 (section_contents n) files && sections_ok (S n) sections
  end.

(** The check of the data. *)
Lemma index_checked : sections_ok 0 section_files = true.
Proof. vm_compute. reflexivity. Qed.

#[local] Opaque section_contents section_name section_files section.

Lemma entries_ok_lookup c k ds j d :
  entries_ok c k ds = true -> ds !! j = Some d -> entry_ok c (k + Z.of_nat j) d = true.
Proof.
  revert k j. induction ds as [|d' ds IH]; intros k [|j]; cbn [entries_ok]; try done.
  - intros H [= ->]. reflect_Z. by rewrite Z.add_0_r.
  - intros H Hd. reflect_Z. replace (k + Z.of_nat (S j)) with (k + 1 + Z.of_nat j) by lia. by apply IH.
Qed.

Lemma files_ok_lookup all i contents files j f :
  files_ok all i contents files = true -> files !! j = Some f ->
  exists c, indexOf all [c] = i + Z.of_nat j /\
    entries_ok c 0 f = true.
Proof.
  revert i contents j. induction files as [|f' files IH]; intros i contents j H; [done|].
  destruct contents as [|c contents]; cbn [files_ok] in H; [done|]. reflect_Z.
  destruct j as [|j]; cbn [lookup list_lookup].
  - intros [= <-]. exists c. split; [lia|done].
  - intros Hf. destruct (IH (i + 1) contents j) as (c' & Hc' & He); [done|done|].
    exists c'. split; [lia|done].
Qed.

Lemma sections_ok_lookup n sections m files :
  sections_ok n sections = true -> sections !! m = Some files ->
  section indexSectionsWithContent (Z.of_nat (n + m)) = Some (section_contents (n + m)) /\
  section indexSectionNames (Z.of_nat (n + m)) = Some (section_name (n + m)) /\
  files_ok (section_contents (n + m)) 0 (section_contents (n + m)) files = true.
Proof.
  revert n m. induction sections as [|files' sections IH]; intros n [|m]; cbn [sections_ok]; try done.
  - intros H [= ->]. rewrite Nat.add_0_r. reflect_Z.
    repeat match goal with H : bool_decide _ = true |- _ => apply bool_decide_eq_true in H end. done.
  - intros H Hm. reflect_Z. replace (n + S m)%nat with (S n + m)%nat by lia. by apply IH.
Qed.

(** What the check says of one entry. *)
Lemma index_entry n files i f k d :
  section_files !! n = Some files -> files !! i = Some f -> f !! k = Some d ->
  exists c rest,
    indexOf (section_contents n) [c] = Z.of_nat i /\ c <> space /\
    entry_id d = convertToId (c :: rest) ++ id_suffix (Z.of_nat k) /\
    Forall lower_fixed_unit (c :: rest) /\ Forall lower_fixed_unit (entry_id d).
Proof.
  intros Hn Hf Hd. destruct (sections_ok_lookup _ _ _ _ index_checked Hn) as (_ & _ & Hfiles).
  destruct (files_ok_lookup _ _ _ _ _ _ Hfiles Hf) as (c & Hc & He).
  pose proof (entries_ok_lookup _ _ _ _ _ He Hd) as Hok. unfold entry_ok in Hok.
  destruct (entry_name _ d) as [[|c' rest]|]; [done| |done]. reflect_Z.
  repeat match goal with H : bool_decide _ = true |- _ => apply bool_decide_eq_true in H end.
  subst c'. by exists c, rest.
Qed.

(** ** Typing a name *)

#[local] Set Default Proof Using "Type*".

Section Typing.
Context `{B : Browser} `{!BrowserLaws B}.

(** [text] is the beginning of [name], in capitals or not where it is ASCII. *)
Definition types (name text : jsstring) : Prop :=
  text <> [] /\
  (text `prefix_of` name \/
   Forall (fun c => 0 <= c < 128) text /\ (ascii_lower <$> text) `prefix_of` name).

Lemma types_lower name text :
  Forall lower_fixed_unit name -> types name text -> toLowerCase text `prefix_of` name.
Proof.
  intros Hn [_ [Hp|[Ha Hp]]].
  - rewrite lower_fixed; [done|]. destruct Hp as [k ->]. by apply Forall_app in Hn as [? _].
  - by rewrite lower_ascii.
Qed.

Lemma types_prefix name text t : t <> [] -> t `prefix_of` text -> types name text -> types name t.
Proof.
  intros Hne Ht [_ [Hp|[Ha Hp]]]; (split; [done|]).
  - left. by etrans.
  - right. destruct Ht as [k ->]. apply Forall_app in Ha as [Ha _]. split; [done|].
    rewrite fmap_app in Hp. etrans; [|done]. by exists (ascii_lower <$> k).
Qed.

Lemma types_head c rest text : types (c :: rest) text ->
  exists u t, text = u :: t /\ (u = c \/ 0 <= u < 128 /\ ascii_lower u = c).
Proof.
  intros [Hne [Hp|[Ha Hp]]]; destruct text as [|u t]; try done; exists u, t; (split; [done|]).
  - left. by apply prefix_cons_inv_1 in Hp.
  - right. apply Forall_cons in Ha as [? _]. rewrite fmap_cons in Hp.
    by apply prefix_cons_inv_1 in Hp.
Qed.

Lemma typed_not_space c rest text :
  c <> space -> types (c :: rest) text -> exists u t, text = u :: t /\ u <> space.
Proof.
  intros Hc (u & t & -> & Hu)%types_head. exists u, t. split; [done|]. intros ->.
  destruct Hu as [Hu|[_ Hu]]; apply Hc; by rewrite <- Hu.
Qed.

Lemma strip_leading_typed c rest text spaces :
  c <> space -> types (c :: rest) text -> Forall (eq space) spaces ->
  strip_leading (spaces ++ text) = text.
Proof.
  intros Hc Ht Hs. destruct (typed_not_space c rest text Hc Ht) as (u & t & -> & Hu).
  apply drop_while_app; [|by apply Z.eqb_neq].
  eapply Forall_impl; [done|]. intros ? <-. apply Z.eqb_refl.
Qed.

Lemma strip_trailing_prefix text : strip_trailing text `prefix_of` text.
Proof.
  unfold strip_trailing. destruct (drop_while_suffix (Z.eqb space) (rev text)) as (a & Ha & _).
  exists (rev a). rewrite <- rev_app_distr. fold (strip_leading (rev text)) in Ha.
  rewrite <- Ha. by rewrite rev_involutive.
Qed.

Lemma strip_trailing_nonempty u t : u <> space -> strip_trailing (u :: t) <> [].
Proof.
  intros Hu Hs. unfold strip_trailing in Hs. apply (f_equal (@rev Z)) in Hs.
  rewrite rev_involutive in Hs. cbn [rev] in Hs.
  destruct (drop_while_suffix (Z.eqb space) (rev t ++ [u])) as (a & Ha & Hall).
  unfold strip_leading in Hs. rewrite Hs, app_nil_r in Ha. rewrite <- Ha in Hall.
  apply Forall_app in Hall as [_ [Hall _]%Forall_cons]. apply Z.eqb_eq in Hall. congruence.
Qed.

Lemma index_char_typed c rest text :
  Forall lower_fixed_unit (c :: rest) -> types (c :: rest) text -> index_char text = [c].
Proof.
  intros Hn Ht. pose proof (types_lower _ _ Hn Ht) as Hl.
  destruct (types_head _ _ _ Ht) as (u & t & -> & Hu). unfold index_char.
  assert (Hsub : toLowerCase (substr0 (u :: t) 1) = [c]).
  { cbn [substr0 take]. apply Forall_cons in Hn as [Hc _].
    destruct Hu as [-> |[Hu <-]]; [by rewrite lower_fixed by by constructor|].
    by rewrite lower_ascii by by constructor. }
  destruct (toLowerCase (u :: t)) as [|c' l] eqn:Hlow; cbn [head].
  - done.
  - apply prefix_cons_inv_1 in Hl as ->. apply Forall_cons in Hn as [Hc _].
    destruct ((0xD800 <=? c) && (c <=? 0xDBFF) && _) eqn:Hs; [|done].
    reflect_Z. unfold lower_fixed_unit in Hc. lia.
Qed.

(** The request [Search] makes. *)
Lemma box_Search_request s field window text contents idx :
  getElementById (doc s) (js "MSearchField") = Some field ->
  getElementById (doc s) (js "MSearchResultsWindow") = Some window ->
  (elem_at (doc s) field ≫= fun e => attrs e !! "value") = Some text ->
  section indexSectionsWithContent (searchIndex (searchBox s)) = Some contents ->
  indexOf contents (index_char (strip_leading text)) = idx -> idx <> -1 ->
  let s' := snd (box_Search s) in
  fst (box_Search s) = Normal tt /\
  loads s' = loads s ++
    [{| url := resultsPath (searchBox s) ++
          default (js "undefined") (section indexSectionNames (searchIndex (searchBox s))) ++
          js "_" ++ js_hex idx ++ js ".js";
        load_idx := idx; load_value := strip_leading text |}].
Proof.
  intros Hf Hw Hv Hsec Hidx Hne s'. subst s'.
  unfold box_Search, modify_box, DOMSearchField, DOMPopupSearchResultsWindow, value_of, loadJS.
  M_run. cbn [doc set_box]. rewrite Hf. M_run. cbn [doc set_box]. rewrite Hv.
  change (default [] (Some text)) with text. rewrite this_bind. M_run.
  cbn [searchBox set_box set_keyTimeout searchIndex resultsPath]. rewrite Hsec, Hidx.
  rewrite (proj2 (Z.eqb_neq _ _)) by done. cbn [negb]. M_run. cbn [doc set_box]. by rewrite Hw.
Qed.

(** ** Property *)

(** C33: every entry of the shipped index, in each of its sections, is found by typing the beginning
    of its name while the filter is on the section: the search loads the file that holds the entry,
    and the row made of the entry is among the matches. *)
Theorem index_complete : forall n files i f k d,
  section_files !! n = Some files -> files !! i = Some f -> f !! k = Some d ->
  exists name, entry_id d = convertToId name ++ js "_" ++ js_dec (Z.of_nat k) /\
  forall text spaces, types name text -> Forall (eq space) spaces ->
  (forall s field window,
    getElementById (doc s) (js "MSearchField") = Some field ->
    getElementById (doc s) (js "MSearchResultsWindow") = Some window ->
    (elem_at (doc s) field ≫= fun e => attrs e !! "value") = Some (spaces ++ text) ->
    searchIndex (searchBox s) = Z.of_nat n ->
    fst (box_Search s) = Normal tt /\
    loads (snd (box_Search s)) = loads s ++
      [{| url := resultsPath (searchBox s) ++ section_name n ++ js "_" ++ js_hex (Z.of_nat i) ++ js ".js";
          load_idx := Z.of_nat i; load_value := text |}]) /\
  (exists e kids, result_row (js "search/") (Z.of_nat k) d = Element e kids /\
    is_result e = true /\ search_key text `prefix_of` row_match_name e).
Proof.
  intros n files i f k d Hn Hf Hd.
  destruct (index_entry n files i f k d Hn Hf Hd) as (c & rest & Hidx & Hc & Hid & Hlow & Hfix).
  destruct (sections_ok_lookup _ _ _ _ index_checked Hn) as (Hsec & Hname & _).
  change (0 + n)%nat with n in *.
  exists (c :: rest). split; [done|]. intros text spaces Ht Hs. split.
  - intros s field window Hfield Hwin Hval Hi.
    pose proof (box_Search_request s field window (spaces ++ text)
      (section_contents n) (Z.of_nat i) Hfield Hwin Hval) as Hreq.
    rewrite (strip_leading_typed c rest) in Hreq by done.
    rewrite (index_char_typed c rest) in Hreq by done. rewrite Hi in Hreq.
    destruct Hreq as [Hok Hloads]; [exact Hsec|exact Hidx|lia|]. split; [exact Hok|].
    rewrite Hloads, Hname. done.
  - assert (Hrow : exists kids, result_row (js "search/") (Z.of_nat k) d = Element
      (setClassAttr (js "SRResult") (setAttribute "id" (js "SR_" ++ entry_id d) (createElement "div"))) kids).
    { unfold result_row. destruct (places d) as [|? [|? ?]]; by eexists. }
    destruct Hrow as [kids ->]. eexists _, kids. split; [done|]. split; [by vm_compute|].
    rewrite (row_match_name_created _ (entry_id d)) by (done || by apply lower_fixed).
    rewrite Hid. unfold search_key, id_suffix.
    rewrite bool_decide_eq_false_2 by apply Ht.
    pose proof (strip_leading_typed c rest text [] Hc Ht (Forall_nil_2 _)) as Hlead.
    cbn [app] in Hlead. rewrite Hlead.
    destruct (typed_not_space c rest text Hc Ht) as (u & t & Htext & Hu).
    assert (Htr : types (c :: rest) (strip_trailing text)).
    { eapply types_prefix; [|apply strip_trailing_prefix|done].
      rewrite Htext. by apply strip_trailing_nonempty. }
    apply types_lower in Htr as Hpre; [|done].
    assert (Hunits : units_ok (c :: rest)).
    { eapply Forall_impl; [done|]. intros x Hx. unfold lower_fixed_unit in Hx. unfold is_unit. lia. }
    apply convertToId_prefix_app; [|done|by left].
    destruct Hpre as [k' Hk']. rewrite Hk' in Hunits. by apply Forall_app in Hunits as [? _].
Qed.

End Typing.

(** ** Witness *)

(** The entry [close] of the section of the functions. *)
Definition sample_section : list (list entry) := default [] (section_files !! 4%nat).
Definition sample_file : list entry := default [] (sample_section !! 2%nat).
Definition sample_entry : entry :=
  default {| entry_id := []; title := []; places := [] |} (sample_file !! 4%nat).

Lemma index_complete_witness :
  exists name, entry_id sample_entry = convertToId name ++ js "_" ++ js_dec (Z.of_nat 4) /\
  forall text spaces, types name text -> Forall (eq space) spaces ->
  (forall s field window,
    getElementById (doc s) (js "MSearchField") = Some field ->
    getElementById (doc s) (js "MSearchResultsWindow") = Some window ->
    (elem_at (doc s) field ≫= fun e => attrs e !! "value") = Some (spaces ++ text) ->
    searchIndex (searchBox s) = Z.of_nat 4 ->
    fst (box_Search s) = Normal tt /\
    loads (snd (box_Search s)) = loads s ++
      [{| url := resultsPath (searchBox s) ++ section_name 4 ++ js "_" ++ js_hex (Z.of_nat 2) ++ js ".js";
          load_idx := Z.of_nat 2; load_value := text |}]) /\
  (exists e kids, result_row (js "search/") (Z.of_nat 4) sample_entry = Element e kids /\
    is_result e = true /\ search_key text `prefix_of` row_match_name e).
Proof. apply (index_complete 4 sample_section 2 sample_file 4 sample_entry); vm_compute; reflexivity. Defined.

(** ** Sections and the whole *)

(** Every entry of a section is also an entry of the section "all", under the same name and with the
    same addresses. *)
Definition named_entries (files : list (list entry)) : list (jsstring * list jsstring) :=
  concat ((fun f => imap (fun k d =>
    (default [] (entry_name (Z.of_nat k) d), href <$> places d)) f) <$> files).

Definition within (all : list (jsstring * list jsstring)) (e : jsstring * list jsstring) : bool :=
  existsb (fun a => bool_decide (a.1 = e.1) && forallb (fun h => bool_decide (h ∈ a.2)) e.2) all.

Lemma sections_within_all :
  forallb (fun files => forallb (within (named_entries all_files)) (named_entries files)) section_files = true.
Proof. vm_compute. reflexivity. Qed.
