(* ===== verification/DocMenu.v ===== *)
(** [menu.js] and [menudata.js]: the HTML of the navigation menu and of the search box. Where they go
    is in [MenuPage]. *)

From S2P Require Import Prelude TextFormat JsCore.

(** ** The menu *)

(** An entry of [menudata]; an entry without children has no such property. *)
Inductive menu_item := Item (text url : jsstring) (children : option (list menu_item)).

Definition quote : jsstring := [34].

(** The address of an entry: a caret marks the ones that are not relative to the page. *)
Definition resolve (relPath link : jsstring) : jsstring :=
  if bool_decide (substr0 link 1 = js "^") then drop 1 link else relPath ++ link.

Fixpoint item_html (relPath : jsstring) (d : menu_item) : jsstring :=
  match d with
  | Item text url children =>
      js "<li><a href=" ++ quote ++ resolve relPath url ++ quote ++ js ">" ++ text ++ js "</a>" ++
      match children with
      | None => []
      | Some ds => js "<ul>" ++ concat (map (item_html relPath) ds) ++ js "</ul>"
      end ++ js "</li>"
  end.

(** [makeTree(data, relPath)], of an object with these children. *)
Definition makeTree (children : option (list menu_item)) (relPath : jsstring) : jsstring :=
  match children with
  | None => []
  | Some ds => js "<ul>" ++ concat (map (item_html relPath) ds) ++ js "</ul>"
  end.

(** ** The search box *)

Definition attr (name : string) (value : jsstring) : jsstring :=
  js name ++ js "=" ++ quote ++ value ++ quote.

Definition searchBoxHtml (serverSide : bool) (relPath searchPage search : jsstring) : jsstring :=
  if serverSide then
    js "<div " ++ attr "id" (js "MSearchBox") ++ js " " ++ attr "class" (js "MSearchBoxInactive") ++ js ">" ++
    js "<div " ++ attr "class" (js "left") ++ js ">" ++
    js "<form " ++ attr "id" (js "FSearchBox") ++ js " " ++ attr "action" (relPath ++ searchPage) ++ js " " ++
    attr "method" (js "get") ++ js "><span " ++ attr "id" (js "MSearchSelectExt") ++ js ">&#160;</span>" ++
    js "<input " ++ attr "type" (js "text") ++ js " " ++ attr "id" (js "MSearchField") ++ js " " ++
    attr "name" (js "query") ++ js " " ++ attr "value" [] ++ js " " ++ attr "placeholder" search ++ js " " ++
    attr "size" (js "20") ++ js " " ++ attr "accesskey" (js "S") ++ js " " ++
    attr "onfocus" (js "searchBox.OnSearchFieldFocus(true)") ++ js " " ++
    attr "onblur" (js "searchBox.OnSearchFieldFocus(false)") ++ js "/>" ++
    js "</form>" ++ js "</div>" ++ js "<div " ++ attr "class" (js "right") ++ js "></div>" ++ js "</div>"
  else
    js "<div " ++ attr "id" (js "MSearchBox") ++ js " " ++ attr "class" (js "MSearchBoxInactive") ++ js ">" ++
    js "<span " ++ attr "class" (js "left") ++ js ">" ++
    js "<span " ++ attr "id" (js "MSearchSelect") ++ js " " ++
    attr "onmouseover" (js "return searchBox.OnSearchSelectShow()") ++ js " " ++
    attr "onmouseout" (js "return searchBox.OnSearchSelectHide()") ++ js ">&#160;</span>" ++
    js "<input " ++ attr "type" (js "text") ++ js " " ++ attr "id" (js "MSearchField") ++ js " " ++
    attr "value" [] ++ js " " ++ attr "placeholder" search ++ js " " ++ attr "accesskey" (js "S") ++ js " " ++
    attr "onfocus" (js "searchBox.OnSearchFieldFocus(true)") ++ js " " ++
    attr "onblur" (js "searchBox.OnSearchFieldFocus(false)") ++ js " " ++
    attr "onkeyup" (js "searchBox.OnSearchFieldChange(event)") ++ js "/>" ++ js "</span>" ++
    js "<span " ++ attr "class" (js "right") ++ js "><a " ++ attr "id" (js "MSearchClose") ++ js " " ++
    attr "href" (js "javascript:searchBox.CloseResultsWindow()") ++ js ">" ++
    js "<img " ++ attr "id" (js "MSearchCloseImg") ++ js " " ++ attr "border" (js "0") ++ js " " ++
    attr "src" (relPath ++ js "search/close.svg") ++ js " " ++ attr "alt" [] ++ js "/></a>" ++
    js "</span>" ++ js "</div>".

(** ** [menudata.js] *)

Definition menudata : option (list menu_item) :=
  Some [
    Item (js "Main Page") (js "index.html") None;
    Item (js "Related Pages") (js "pages.html") None;
    Item (js "Namespaces") (js "namespaces.html") (Some [
      Item (js "Namespace List") (js "namespaces.html") None;
      Item (js "Namespace Members") (js "namespacemembers.html") (Some [
        Item (js "All") (js "namespacemembers.html") (Some [
          Item (js "a") (js "namespacemembers.html#index_a") None;
          Item (js "b") (js "namespacemembers.html#index_b") None;
          Item (js "c") (js "namespacemembers.html#index_c") None;
          Item (js "d") (js "namespacemembers.html#index_d") None;
          Item (js "e") (js "namespacemembers.html#index_e") None;
          Item (js "f") (js "namespacemembers.html#index_f") None;
          Item (js "h") (js "namespacemembers.html#index_h") None;
          Item (js "i") (js "namespacemembers.html#index_i") None;
          Item (js "l") (js "namespacemembers.html#index_l") None;
          Item (js "m") (js "namespacemembers.html#index_m") None;
          Item (js "n") (js "namespacemembers.html#index_n") None;
          Item (js "o") (js "namespacemembers.html#index_o") None;
          Item (js "p") (js "namespacemembers.html#index_p") None;
          Item (js "r") (js "namespacemembers.html#index_r") None;
          Item (js "s") (js "namespacemembers.html#index_s") None;
          Item (js "t") (js "namespacemembers.html#index_t") None;
          Item (js "u") (js "namespacemembers.html#index_u") None;
          Item (js "v") (js "namespacemembers.html#index_v") None]);
        Item (js "Functions") (js "namespacemembers_func.html") (Some [
          Item (js "a") (js "namespacemembers_func.html#index_a") None;
          Item (js "c") (js "namespacemembers_func.html#index_c") None;
          Item (js "d") (js "namespacemembers_func.html#index_d") None;
          Item (js "e") (js "namespacemembers_func.html#index_e") None;
          Item (js "f") (js "namespacemembers_func.html#index_f") None;
          Item (js "i") (js "namespacemembers_func.html#index_i") None;
          Item (js "l") (js "namespacemembers_func.html#index_l") None;
          Item (js "m") (js "namespacemembers_func.html#index_m") None;
          Item (js "n") (js "namespacemembers_func.html#index_n") None;
          Item (js "p") (js "namespacemembers_func.html#index_p") None;
          Item (js "r") (js "namespacemembers_func.html#index_r") None;
          Item (js "s") (js "namespacemembers_func.html#index_s") None;
          Item (js "t") (js "namespacemembers_func.html#index_t") None]);
        Item (js "Variables") (js "namespacemembers_vars.html") (Some [
          Item (js "a") (js "namespacemembers_vars.html#index_a") None;
          Item (js "b") (js "namespacemembers_vars.html#index_b") None;
          Item (js "c") (js "namespacemembers_vars.html#index_c") None;
          Item (js "d") (js "namespacemembers_vars.html#index_d") None;
          Item (js "f") (js "namespacemembers_vars.html#index_f") None;
          Item (js "h") (js "namespacemembers_vars.html#index_h") None;
          Item (js "m") (js "namespacemembers_vars.html#index_m") None;
          Item (js "p") (js "namespacemembers_vars.html#index_p") None;
          Item (js "s") (js "namespacemembers_vars.html#index_s") None;
          Item (js "t") (js "namespacemembers_vars.html#index_t") None;
          Item (js "u") (js "namespacemembers_vars.html#index_u") None;
          Item (js "v") (js "namespacemembers_vars.html#index_v") None]);
        Item (js "Typedefs") (js "namespacemembers_type.html") None;
        Item (js "Enumerations") (js "namespacemembers_enum.html") None])]);
    Item (js "Classes") (js "annotated.html") (Some [
      Item (js "Class List") (js "annotated.html") None;
      Item (js "Class Index") (js "classes.html") None;
      Item (js "Class Members") (js "functions.html") (Some [
        Item (js "All") (js "functions.html") (Some [
          Item (js "a") (js "functions.html#index_a") None;
          Item (js "b") (js "functions.html#index_b") None;
          Item (js "c") (js "functions.html#index_c") None;
          Item (js "d") (js "functions.html#index_d") None;
          Item (js "e") (js "functions.html#index_e") None;
          Item (js "f") (js "functions.html#index_f") None;
          Item (js "g") (js "functions.html#index_g") None;
          Item (js "h") (js "functions.html#index_h") None;
          Item (js "i") (js "functions.html#index_i") None;
          Item (js "k") (js "functions.html#index_k") None;
          Item (js "l") (js "functions.html#index_l") None;
          Item (js "m") (js "functions.html#index_m") None;
          Item (js "n") (js "functions.html#index_n") None;
          Item (js "o") (js "functions.html#index_o") None;
          Item (js "p") (js "functions.html#index_p") None;
          Item (js "q") (js "functions.html#index_q") None;
          Item (js "r") (js "functions.html#index_r") None;
          Item (js "s") (js "functions.html#index_s") None;
          Item (js "t") (js "functions.html#index_t") None;
          Item (js "v") (js "functions.html#index_v") None;
          Item (js "w") (js "functions.html#index_w") None;
          Item (js "~") (js "functions.html#index__7E") None]);
        Item (js "Functions") (js "functions_func.html") (Some [
          Item (js "b") (js "functions_func.html#index_b") None;
          Item (js "c") (js "functions_func.html#index_c") None;
          Item (js "d") (js "functions_func.html#index_d") None;
          Item (js "e") (js "functions_func.html#index_e") None;
          Item (js "f") (js "functions_func.html#index_f") None;
          Item (js "g") (js "functions_func.html#index_g") None;
          Item (js "i") (js "functions_func.html#index_i") None;
          Item (js "k") (js "functions_func.html#index_k") None;
          Item (js "l") (js "functions_func.html#index_l") None;
          Item (js "n") (js "functions_func.html#index_n") None;
          Item (js "o") (js "functions_func.html#index_o") None;
          Item (js "p") (js "functions_func.html#index_p") None;
          Item (js "r") (js "functions_func.html#index_r") None;
          Item (js "s") (js "functions_func.html#index_s") None;
          Item (js "t") (js "functions_func.html#index_t") None;
          Item (js "v") (js "functions_func.html#index_v") None;
          Item (js "w") (js "functions_func.html#index_w") None;
          Item (js "~") (js "functions_func.html#index__7E") None]);
        Item (js "Variables") (js "functions_vars.html") (Some [
          Item (js "a") (js "functions_vars.html#index_a") None;
          Item (js "b") (js "functions_vars.html#index_b") None;
          Item (js "c") (js "functions_vars.html#index_c") None;
          Item (js "d") (js "functions_vars.html#index_d") None;
          Item (js "e") (js "functions_vars.html#index_e") None;
          Item (js "f") (js "functions_vars.html#index_f") None;
          Item (js "h") (js "functions_vars.html#index_h") None;
          Item (js "l") (js "functions_vars.html#index_l") None;
          Item (js "m") (js "functions_vars.html#index_m") None;
          Item (js "n") (js "functions_vars.html#index_n") None;
          Item (js "o") (js "functions_vars.html#index_o") None;
          Item (js "p") (js "functions_vars.html#index_p") None;
          Item (js "q") (js "functions_vars.html#index_q") None;
          Item (js "r") (js "functions_vars.html#index_r") None;
          Item (js "s") (js "functions_vars.html#index_s") None;
          Item (js "t") (js "functions_vars.html#index_t") None;
          Item (js "v") (js "functions_vars.html#index_v") None;
          Item (js "w") (js "functions_vars.html#index_w") None]);
        Item (js "Typedefs") (js "functions_type.html") None])]);
    Item (js "Files") (js "files.html") (Some [
      Item (js "File List") (js "files.html") None;
      Item (js "File Members") (js "globals.html") (Some [
        Item (js "All") (js "globals.html") None;
        Item (js "Functions") (js "globals_func.html") None;
        Item (js "Variables") (js "globals_vars.html") None;
        Item (js "Macros") (js "globals_defs.html") None])])].

(** ** Reading the menu back *)

(** What a link of the menu is: its address, its text and the links below it. *)
Inductive link := Link (address text : jsstring) (links : option (list link)).

Fixpoint link_of (relPath : jsstring) (d : menu_item) : link :=
  match d with
  | Item text url children =>
      Link (resolve relPath url) text
        (match children with Some ds => Some (map (link_of relPath) ds) | None => None end)
  end.

Definition expect (lit s : jsstring) : option jsstring :=
  if bool_decide (take (length lit) s = lit) then Some (drop (length lit) s) else None.

(** The text up to a character, which stays in front of the rest. *)
Fixpoint until (c : Z) (s : jsstring) : jsstring * jsstring :=
  match s with
  | [] => ([], [])
  | d :: s' => if d =? c then ([], s) else let '(a, r) := until c s' in (d :: a, r)
  end.

(** A reader of the HTML of a menu: a list of links, or nothing where there is no list. *)
Fixpoint read_links (fuel : nat) (s : jsstring) : option (option (list link) * jsstring) :=
  match fuel with
  | O => None
  | S fuel =>
      match expect (js "<ul>") s with
      | None => Some (None, s)
      | Some s =>
          '(ls, s) ← read_items fuel s;
          Some (Some ls, s)
      end
  end
with read_items (fuel : nat) (s : jsstring) : option (list link * jsstring) :=
  match fuel with
  | O => None
  | S fuel =>
      match expect (js "</ul>") s with
      | Some s => Some ([], s)
      | None =>
          s ← expect (js "<li><a href=" ++ quote) s;
          let '(address, s) := until 34 s in
          s ← expect (quote ++ js ">") s;
          let '(text, s) := until 60 s in
          s ← expect (js "</a>") s;
          '(below, s) ← read_links fuel s;
          s ← expect (js "</li>") s;
          '(ls, s) ← read_items fuel s;
          Some (Link address text below :: ls, s)
      end
  end.

Section MenuInd.
Context (P : menu_item -> Prop).
Context (Hitem : forall text url children,
  match children with Some ds => Forall P ds | None => True end -> P (Item text url children)).

Fixpoint menu_ind' (d : menu_item) : P d :=
  match d with
  | Item text url children =>
      Hitem text url children
        match children with
        | Some ds => (fix go (ds : list menu_item) : Forall P ds :=
            match ds with [] => Forall_nil_2 P | d :: ds => Forall_cons_2 P d ds (menu_ind' d) (go ds) end) ds
        | None => I
        end
  end.
End MenuInd.

(** Texts and addresses that do not interfere with the markup. *)
Fixpoint plain (relPath : jsstring) (d : menu_item) : bool :=
  match d with
  | Item text url children =>
      bool_decide (60 ∉ text) && bool_decide (34 ∉ resolve relPath url) &&
      match children with Some ds => forallb (plain relPath) ds | None => true end
  end.

Lemma plain_unfold relPath text url children :
  plain relPath (Item text url children) = true ->
  60 ∉ text /\ 34 ∉ resolve relPath url /\
  match children with Some ds => forallb (plain relPath) ds = true | None => True end.
Proof.
  cbn [plain]. rewrite !andb_true_iff, !bool_decide_eq_true. intros [[? ?] ?]. by destruct children.
Qed.

(** The number of links bounds the depth of the reader. *)
Fixpoint weight (d : menu_item) : nat :=
  match d with
  | Item _ _ children =>
      match children with
      | Some ds => S (S (S (foldr Nat.add 0%nat (map weight ds))))
      | None => 2
      end
  end.
Definition weights (ds : list menu_item) : nat := foldr Nat.add 0%nat (map weight ds).

Lemma expect_app lit s : expect lit (lit ++ s) = Some s.
Proof. unfold expect. rewrite take_app_length, bool_decide_eq_true_2, drop_app_length by done. done. Qed.

Lemma until_app c a s : c ∉ a -> until c (a ++ c :: s) = (a, c :: s).
Proof.
  induction a as [|d a IH]; intros Hc; cbn [until app].
  - by rewrite Z.eqb_refl.
  - apply not_elem_of_cons in Hc as [Hd Ha]. rewrite (proj2 (Z.eqb_neq _ _)) by congruence.
    by rewrite IH.
Qed.

(** ** Round trip *)

(** Reading the links of a list goes on behind it. *)
Definition item_back (relPath : jsstring) (d : menu_item) : Prop :=
  forall f s, plain relPath d = true -> (weight d <= f)%nat ->
  read_items (S f) (item_html relPath d ++ s) =
  ('(ls, s') ← read_items f s; Some (link_of relPath d :: ls, s')).

Lemma items_back relPath ds rest f :
  Forall (item_back relPath) ds -> forallb (plain relPath) ds = true -> (S (weights ds) <= f)%nat ->
  read_items f (concat (map (item_html relPath) ds) ++ js "</ul>" ++ rest) =
  Some (map (link_of relPath) ds, rest).
Proof.
  intros Hds. revert f. induction Hds as [|d ds Hd _ IH]; intros f Hp Hf.
  - destruct f as [|f]; [lia|]. cbn [read_items map concat app]. by rewrite expect_app.
  - cbn [forallb] in Hp. apply andb_true_iff in Hp as [Hpd Hpds]. cbn [weights map foldr] in Hf. fold (weights ds) in Hf.
    destruct f as [|f]; [lia|]. cbn [map concat]. rewrite <- app_assoc.
    rewrite Hd by (done || lia). rewrite IH; [done|done|].
    assert (1 <= weight d)%nat by (destruct d as [? ? [?|]]; cbn [weight]; lia). lia.
Qed.

Lemma tree_back relPath ch rest f :
  match ch with Some ds => Forall (item_back relPath) ds | None => True end ->
  match ch with Some ds => forallb (plain relPath) ds = true | None => True end ->
  (match ch with Some ds => 2 + weights ds | None => 1 end <= f)%nat ->
  (ch = None -> expect (js "<ul>") rest = None) ->
  read_links f (makeTree ch relPath ++ rest) =
  Some (match ch with Some ds => Some (map (link_of relPath) ds) | None => None end, rest).
Proof.
  intros Hds Hp Hf Hrest. destruct f as [|f]; [destruct ch; lia|]. cbn [read_links].
  destruct ch as [ds|]; cbn [makeTree].
  - rewrite <- app_assoc, expect_app. rewrite <- app_assoc, items_back by (done || lia). done.
  - cbn [app]. by rewrite Hrest.
Qed.

Lemma all_items_back relPath d : item_back relPath d.
Proof.
  induction d as [text url ch IH] using menu_ind'. intros f s Hplain Hf.
  apply plain_unfold in Hplain as (Htext & Hurl & Hch).
  assert (Hhtml : item_html relPath (Item text url ch) =
    (js "<li><a href=" ++ quote) ++ resolve relPath url ++ 34 :: js ">" ++ text ++
    js "</a>" ++ makeTree ch relPath ++ js "</li>").
  { cbn [item_html]. unfold quote. rewrite <- !app_assoc. by destruct ch. }
  rewrite Hhtml, <- app_assoc. cbn [read_items].
  match goal with |- context [expect (js "</ul>") ?x] =>
    assert (Hno : expect (js "</ul>") x = None) by reflexivity; rewrite Hno; clear Hno end.
  rewrite expect_app. bind_some.
  rewrite <- (app_assoc (resolve relPath url)). cbn [app]. rewrite until_app by done.
  change (34 :: (js ">" ++ text ++ js "</a>" ++ makeTree ch relPath ++ js "</li>") ++ s)
    with ((quote ++ js ">") ++ (text ++ js "</a>" ++ makeTree ch relPath ++ js "</li>") ++ s).
  rewrite expect_app. bind_some. rewrite <- app_assoc.
  change ((js "</a>" ++ makeTree ch relPath ++ js "</li>") ++ s)
    with (60 :: js "/a>" ++ (makeTree ch relPath ++ js "</li>") ++ s) at 1.
  rewrite until_app by done.
  change (60 :: js "/a>" ++ (makeTree ch relPath ++ js "</li>") ++ s)
    with (js "</a>" ++ (makeTree ch relPath ++ js "</li>") ++ s).
  rewrite expect_app. bind_some. rewrite <- app_assoc.
  rewrite tree_back; [|done|done| |].
  - bind_some. rewrite expect_app. bind_some.
    destruct (read_items f s) as [[ls s']|]; [|done]. simpl mbind. by destruct ch.
  - destruct ch as [ds|]; cbn [weight] in Hf; unfold weights; lia.
  - intros _. reflexivity.
Qed.

(** The HTML of the menu, followed by anything, is read back as the links of the menu: every
    entry appears once, at its place in the hierarchy, with its text and its resolved address. *)
Theorem menu_round_trip : forall relPath ds rest fuel,
  forallb (plain relPath) ds = true -> (2 + weights ds <= fuel)%nat ->
  read_links fuel (makeTree (Some ds) relPath ++ rest) = Some (Some (map (link_of relPath) ds), rest).
Proof.
  intros relPath ds rest fuel Hp Hf. apply (tree_back relPath (Some ds)); [|done|done|done].
  apply Forall_true. intros d. apply all_items_back.
Qed.

Lemma menu_round_trip_witness :
  read_links 400 (makeTree menudata (js "../") ++ js "</div>") =
  Some (Some (map (link_of (js "../")) (default [] menudata)), js "</div>").
Proof.
  apply (menu_round_trip (js "../") (default [] menudata) (js "</div>") 400).
  - vm_compute. reflexivity.
  - vm_compute. repeat constructor.
Defined.
