(* ===== verification/DynSections.v ===== *)
(** [dynsections.js]: the sections and code blocks that fold, and the table of a directory or of
    a class tree, whose rows are shown and hidden by level and by folder.

    A row has the id [row_] followed by the numbers of its ancestors and its own, each with an
    underscore behind it. jQuery's sets are the lists of the rows they select. *)

From S2P Require Import Prelude TextFormat JsCore.

(** ** A section with a summary *)

Record section_state := {
  content_visible : bool;
  summary_visible : bool;
  link_closed : bool;       (* the class of the link: closed or opened *)
  trigger_src : jsstring;   (* the src of the image *)
}.

Definition replace_end (n : nat) (new : jsstring) (src : jsstring) : jsstring :=
  take (length src - n) src ++ new.

Definition toggleVisibility (s : section_state) : section_state :=
  if content_visible s then
    {| content_visible := false; summary_visible := true; link_closed := true;
       trigger_src := replace_end 8 (js "closed.png") (trigger_src s) |}
  else
    {| content_visible := true; summary_visible := false; link_closed := false;
       trigger_src := replace_end 10 (js "open.png") (trigger_src s) |}.

(** The inherited members of a class: the rows and the image of their header. *)
Record inherit_state := { inherit_rows : list bool; inherit_src : jsstring }.

Definition toggleInherit (s : inherit_state) : inherit_state :=
  if default false (head (inherit_rows s)) then
    {| inherit_rows := (fun _ => false) <$> inherit_rows s;
       inherit_src := replace_end 8 (js "closed.png") (inherit_src s) |}
  else
    {| inherit_rows := (fun _ => true) <$> inherit_rows s;
       inherit_src := replace_end 10 (js "open.png") (inherit_src s) |}.

(** ** Code folding *)

(** The open and the closed form of a foldable fragment. *)
Record fold := { fold_id : jsstring; open_visible : bool; closed_visible : bool }.

(** [fold_all] is the image of the toggle of the first line: minus or plus. *)
Record fold_state := { opened : bool; all_minus : bool; folds : list fold }.

(** [init_codefold] puts a hidden closed form behind each open one. *)
Definition init_codefold (ids : list jsstring) : fold_state :=
  {| opened := true; all_minus := true;
     folds := (fun id => {| fold_id := id; open_visible := true; closed_visible := false |}) <$> ids |}.

Definition codefold_toggle_all (s : fold_state) : fold_state :=
  {| opened := negb (opened s);
     all_minus := negb (opened s);
     folds := (fun f => if opened s
                        then {| fold_id := fold_id f; open_visible := false; closed_visible := true |}
                        else {| fold_id := fold_id f; open_visible := true; closed_visible := false |})
              <$> folds s |}.

Definition codefold_toggle (id : jsstring) (s : fold_state) : fold_state :=
  {| opened := opened s; all_minus := all_minus s;
     folds := (fun f => if bool_decide (fold_id f = id)
                        then {| fold_id := fold_id f; open_visible := negb (open_visible f);
                                closed_visible := negb (closed_visible f) |}
                        else f) <$> folds s |}.

(** ** The table of the directory *)

Inductive arrow := Down | Right.               (* &#9660; and &#9658; *)
Inductive icon := IconOpen | IconClosed.       (* iconfopen and iconfclosed *)

#[export] Instance arrow_eq_dec : EqDecision arrow.
Proof. solve_decision. Defined.
#[export] Instance icon_eq_dec : EqDecision icon.
Proof. solve_decision. Defined.

Record row := {
  rid : jsstring;
  visible : bool;
  even : bool; odd : bool;       (* the classes of the stripes *)
  row_icon : option icon;
  row_arrow : option arrow;
}.

Definition show_row (v : bool) (r : row) : row :=
  {| rid := rid r; visible := v; even := even r; odd := odd r; row_icon := row_icon r; row_arrow := row_arrow r |}.
Definition set_marks (i : icon) (a : arrow) (r : row) : row :=
  {| rid := rid r; visible := visible r; even := even r; odd := odd r;
     row_icon := (fun _ => i) <$> row_icon r; row_arrow := (fun _ => a) <$> row_arrow r |}.
Definition set_stripes (e o : bool) (r : row) : row :=
  {| rid := rid r; visible := visible r; even := e; odd := o; row_icon := row_icon r; row_arrow := row_arrow r |}.

(** The rows that are visible are numbered from 0; [:even] and [:odd] look at these numbers. *)
Fixpoint stripes (n : nat) (t : list row) : list row :=
  match t with
  | [] => []
  | r :: t =>
      if visible r then set_stripes (Nat.even n) (Nat.odd n) r :: stripes (S n) t
      else set_stripes false false r :: stripes n t
  end.

Definition updateStripes (t : list row) : list row := stripes 0 t.

(** [this.id.split('_').length-1] *)
Definition underscores (id : jsstring) : Z := size (filter (fun c => c = 95) id).

Definition level_row (level : Z) (r : row) : row :=
  let l := underscores (rid r) in
  if l <? level + 1 then show_row true (set_marks IconOpen Down r)
  else if l =? level + 1 then show_row true (set_marks IconClosed Right r)
  else show_row false r.

Definition toggleLevel (level : Z) (t : list row) : list row := updateStripes (level_row level <$> t).

(** [^row_<id>\d+_$], with the flag for capitals; ids have no character that is special in it. *)
Definition child_re (id : jsstring) (s : jsstring) : bool :=
  let pre := ascii_lower <$> (js "row_" ++ id) in
  bool_decide (take (length pre) (ascii_lower <$> s) = pre) &&
  match drop_while is_digit (drop (length pre) s) with
  | [95] => match drop (length pre) s with c :: _ => is_digit c | [] => false end
  | _ => false
  end.

Definition has_prefix (pre s : jsstring) : bool := bool_decide (take (length pre) s = pre).

(** The effect on the current row and on each row behind it. *)
Definition hide_below (id : jsstring) (r : row) : row :=
  if has_prefix (js "row_" ++ id) (rid r) then show_row false r else r.
Definition show_child (id : jsstring) (r : row) : row :=
  if child_re id (rid r) then show_row true (set_marks IconClosed Right r) else r.

Definition toggleFolder (id : jsstring) (t : list row) : list row :=
  updateStripes
    match list_find (fun r => rid r = js "row_" ++ id) t with
    | None => t
    | Some (i, currentRow) =>
        let rows := drop (S i) t in
        let childRows := filter (fun r => child_re id (rid r) = true) rows in
        if match head childRows with Some r => visible r | None => false end
        then take i t ++ set_marks IconClosed Right currentRow :: (hide_below id <$> rows)
        else take i t ++ set_marks IconOpen Down currentRow :: (show_child id <$> rows)
    end.

(** ** Ids and places in the tree *)

(** The id of the row at a place of the tree. *)
Definition path_id (p : list Z) : jsstring := concat ((fun n => js_dec n ++ js "_") <$> p).
Definition row_name (p : list Z) : jsstring := js "row_" ++ path_id p.

Definition place_ok (p : list Z) : Prop := Forall (Z.le 0) p.

Lemma path_id_cons n p : path_id (n :: p) = js_dec n ++ 95 :: path_id p.
Proof. unfold path_id. cbn [fmap list_fmap concat]. by rewrite <- app_assoc. Qed.

Lemma path_id_app p q : path_id (p ++ q) = path_id p ++ path_id q.
Proof. unfold path_id. by rewrite fmap_app, concat_app. Qed.

Lemma digits_split a b x y :
  Forall (fun c => is_digit c = true) a -> Forall (fun c => is_digit c = true) b ->
  a ++ 95 :: x = b ++ 95 :: y -> a = b /\ x = y.
Proof.
  intros Ha. revert b. induction Ha as [|c a Hc _ IH]; intros b Hb; destruct Hb as [|d b Hd Hb]; cbn.
  - by intros [= ->].
  - intros [= <- _]. done.
  - intros [= -> _]. done.
  - intros [= <- H]. by destruct (IH b Hb H) as [-> ->].
Qed.

(** The ids of the rows below a place are those that begin with its id. *)
Lemma path_id_prefix p q :
  place_ok p -> place_ok q -> (path_id p `prefix_of` path_id q <-> p `prefix_of` q).
Proof.
  intros Hp. revert q. induction Hp as [|n p Hn Hp IH]; intros q Hq.
  { split; intros _; apply prefix_nil. }
  destruct Hq as [|m q Hm Hq].
  { split; [|by intros ?%prefix_nil_inv]. intros H%prefix_nil_inv. rewrite path_id_cons in H.
    by destruct (js_dec n). }
  rewrite !path_id_cons. split.
  - intros [k Hk]. rewrite <- app_assoc in Hk. cbn [app] in Hk.
    apply digits_split in Hk as [Hd Hk]; [|by apply js_dec_digits..].
    apply (inj js_dec) in Hd as <-. apply prefix_cons, IH; [done|]. by exists k.
  - intros H. pose proof (prefix_cons_inv_1 _ _ _ _ H) as <-. apply prefix_cons_inv_2 in H.
    apply prefix_app, prefix_cons. by apply IH.
Qed.

Lemma row_name_inj p q : place_ok p -> place_ok q -> row_name p = row_name q -> p = q.
Proof.
  intros Hp Hq H%app_inv_head. apply (anti_symm prefix); apply path_id_prefix; (done || by rewrite H).
Qed.

Lemma has_prefix_below p q :
  place_ok p -> place_ok q -> has_prefix (row_name p) (row_name q) = bool_decide (p `prefix_of` q).
Proof.
  intros Hp Hq. apply bool_decide_ext. rewrite <- (path_id_prefix p q) by done.
  unfold row_name. split.
  - intros H. exists (drop (length (path_id p)) (path_id q)).
    rewrite length_app, take_app_add in H.
    apply app_inv_head in H. rewrite <- H at 1. by rewrite take_drop.
  - intros [k ->]. rewrite app_assoc. by rewrite take_app_length.
Qed.

Lemma lower_path_id p : place_ok p -> ascii_lower <$> path_id p = path_id p.
Proof.
  induction 1 as [|n p Hn _ IH]; [done|]. rewrite path_id_cons, fmap_app, fmap_cons, IH. f_equal.
  destruct (js_dec_digits n Hn) as [Hd _]. induction Hd as [|c s Hc _ IHs]; [done|].
  cbn. rewrite IHs. f_equal. unfold ascii_lower. unfold is_digit in Hc. reflect_Z.
  destruct ((65 <=? c) && _) eqn:Hu; [|done]. reflect_Z. lia.
Qed.

Lemma lower_row_name p : place_ok p -> ascii_lower <$> row_name p = row_name p.
Proof. intros Hp. unfold row_name. rewrite fmap_app, lower_path_id by done. done. Qed.

(** The expression matches exactly the ids of the children. *)
Lemma child_re_child p q :
  place_ok p -> place_ok q -> (child_re (path_id p) (row_name q) = true <-> exists n, q = p ++ [n]).
Proof.
  intros Hp Hq. unfold child_re. fold (row_name p). rewrite !lower_row_name by done.
  fold (has_prefix (row_name p) (row_name q)). rewrite has_prefix_below by done.
  case_bool_decide as Hpre; cbn [andb]; last first.
  { split; [done|]. intros [n ->]. by destruct Hpre; apply prefix_app_r. }
  destruct Hpre as [r ->]. unfold row_name. rewrite path_id_app, !app_assoc, drop_app_length.
  apply Forall_app in Hq as [_ Hr]. destruct Hr as [|n r Hn Hr].
  { cbn. split; [done|]. intros [n Hn]. apply app_inv_head in Hn. done. }
  rewrite path_id_cons. destruct (js_dec_digits n Hn) as [Hd Hne].
  rewrite drop_while_app by done. destruct Hr as [|m r Hm Hr].
  - cbn [path_id fmap list_fmap concat]. split; [by exists n|]. intros _.
    destruct (js_dec n) as [|c s]; [done|]. by apply Forall_cons in Hd as [? _].
  - rewrite path_id_cons. destruct (js_dec_digits m Hm) as [_ Hne']. split.
    + destruct (js_dec m) as [|c s]; done.
    + intros [k Hk]. apply app_inv_head in Hk. done.
Qed.

(** The number of underscores is the depth. *)
Lemma underscores_row_name p : place_ok p -> underscores (row_name p) = 1 + size p.
Proof.
  intros Hp. unfold row_name, underscores. rewrite filter_app, size_app.
  change (size (filter (fun c => c = 95) (js "row_"))) with 1. f_equal.
  induction Hp as [|n p Hn _ IH]; [done|]. rewrite path_id_cons, filter_app, size_app, filter_cons_True by done.
  rewrite size_cons, IH, size_cons. destruct (js_dec_digits n Hn) as [Hd _].
  assert (Hf : filter (fun c => c = 95) (js_dec n) = []); [|rewrite Hf, size_nil; lia].
  induction Hd as [|c s Hc _ IHs]; [done|]. rewrite filter_cons_False; [done|]. by intros ->.
Qed.

(** ** Tables *)

(** A table holds the rows of the places [ps], each one behind the row above it in the tree. *)
Record table_ok (ps : list (list Z)) (t : list row) : Prop := {
  table_rows : rid <$> t = row_name <$> ps;
  table_places : Forall place_ok ps;
  table_nodup : NoDup ps;
  table_closed : forall p n, p ++ [n] ∈ ps -> p <> [] -> p ∈ ps;
  table_order : forall i j p q, ps !! i = Some p -> ps !! j = Some q ->
    p `prefix_of` q -> (i <= j)%nat;
  table_nonempty : [] ∉ ps;
}.

(** The row at a place. *)
Definition row_at (ps : list (list Z)) (t : list row) (p : list Z) (r : row) : Prop :=
  exists i, ps !! i = Some p /\ t !! i = Some r.

(** What is seen of the table is a tree: the row above a visible row is visible, and the arrow of
    a visible row tells whether its children are. *)
Record tree_shown (ps : list (list Z)) (t : list row) : Prop := {
  shown_parent : forall p n r r', p <> [] -> row_at ps t (p ++ [n]) r -> visible r = true ->
    row_at ps t p r' -> visible r' = true;
  shown_down : forall p n r r', row_at ps t p r -> visible r = true -> row_arrow r = Some Down ->
    row_at ps t (p ++ [n]) r' -> visible r' = true;
  shown_right : forall p n r r', row_at ps t p r -> visible r = true -> row_arrow r = Some Right ->
    row_at ps t (p ++ [n]) r' -> visible r' = false;
}.


(** ** Stripes *)

Lemma stripes_lookup n t i r :
  stripes n t !! i = Some r -> exists e o r', t !! i = Some r' /\ r = set_stripes e o r'.
Proof.
  revert n i. induction t as [|r' t IH]; intros n i; [done|]. cbn [stripes].
  destruct (visible r'); destruct i as [|i]; cbn; (by intros [= <-]; eauto) || apply IH.
Qed.

Lemma stripes_rids n t : rid <$> stripes n t = rid <$> t.
Proof.
  revert n. induction t as [|r t IH]; intros n; [done|]. cbn [stripes].
  destruct (visible r); cbn; by rewrite IH.
Qed.

Lemma row_at_stripes ps t p r :
  row_at ps (updateStripes t) p r -> exists e o r', row_at ps t p r' /\ r = set_stripes e o r'.
Proof.
  intros (i & Hp & Hr). apply stripes_lookup in Hr as (e & o & r' & Hr' & ->).
  exists e, o, r'. split; [by exists i|done].
Qed.

(** The stripes change nothing of the tree. *)
Lemma tree_shown_stripes ps t : tree_shown ps t -> tree_shown ps (updateStripes t).
Proof.
  intros [H1 H2 H3]. split.
  - intros p n r r' Hp (e & o & s & Hs & ->)%row_at_stripes Hv (e' & o' & s' & Hs' & ->)%row_at_stripes.
    by eapply (H1 p n s s').
  - intros p n r r' (e & o & s & Hs & ->)%row_at_stripes Hv Ha (e' & o' & s' & Hs' & ->)%row_at_stripes.
    by eapply (H2 p n s s').
  - intros p n r r' (e & o & s & Hs & ->)%row_at_stripes Hv Ha (e' & o' & s' & Hs' & ->)%row_at_stripes.
    by eapply (H3 p n s s').
Qed.

(** ** The effect of the operations, row by row *)

(** [t'] is [t] with the row number [i], at the place [p], changed by [f i p]. *)
Definition changed (ps : list (list Z)) (t t' : list row) (f : nat -> list Z -> row -> row) : Prop :=
  length t' = length t /\
  forall i p r, ps !! i = Some p -> t !! i = Some r -> t' !! i = Some (f i p r).

Lemma changed_row_at ps t t' f p r :
  changed ps t t' f -> row_at ps t' p r ->
  exists i r', ps !! i = Some p /\ t !! i = Some r' /\ r = f i p r'.
Proof.
  intros [Hl Hc] (i & Hp & Hr).
  assert (Hi : is_Some (t !! i)) by (apply lookup_lt_is_Some; rewrite <- Hl; by eapply lookup_lt_Some).
  destruct Hi as [r' Hr']. exists i, r'. split; [done|]. split; [done|].
  specialize (Hc i p r' Hp Hr'). congruence.
Qed.

Lemma row_at_rid ps t p r : table_ok ps t -> row_at ps t p r -> rid r = row_name p /\ place_ok p.
Proof.
  intros [Hrows Hpl _ _ _ _] (i & Hp & Hr). split.
  - apply (f_equal (lookup i)) in Hrows. rewrite !list_lookup_fmap, Hp, Hr in Hrows.
    by injection Hrows.
  - rewrite Forall_lookup in Hpl. by eapply Hpl.
Qed.

Lemma row_at_fun ps t p r r' : table_ok ps t -> row_at ps t p r -> row_at ps t p r' -> r = r'.
Proof.
  intros Ht (i & Hp & Hr) (j & Hq & Hr').
  assert (i = j) as -> by (eapply NoDup_lookup; [apply Ht|done..]). congruence.
Qed.

Lemma toggleLevel_changed ps t level :
  changed ps t (level_row level <$> t) (fun _ _ => level_row level).
Proof. split; [apply length_fmap|]. intros i p r Hp Hr. by rewrite list_lookup_fmap, Hr. Qed.

(** The row [toggleFolder] finds by its id. *)
Lemma find_row ps t p i r :
  table_ok ps t -> ps !! i = Some p -> t !! i = Some r ->
  list_find (fun r => rid r = js "row_" ++ path_id p) t = Some (i, r).
Proof.
  intros Ht Hp Hr. apply list_find_Some. split; [done|].
  destruct (row_at_rid ps t p r Ht) as [Hrid Hpl]; [by exists i|]. split; [done|].
  intros j r' Hr' Hlt Hrid'.
  assert (Hq : is_Some (ps !! j)).
  { apply lookup_lt_is_Some. apply lookup_lt_Some in Hp. lia. }
  destruct Hq as [q Hq]. destruct (row_at_rid ps t q r' Ht) as [Hrid'' Hpl']; [by exists j|].
  rewrite Hrid' in Hrid''. apply row_name_inj in Hrid'' as <-; [|done|done].
  assert (i = j) as -> by (eapply NoDup_lookup; [apply Ht|done..]). lia.
Qed.

(** The table behind [toggleFolder]: the rows in front stay, the current one is marked, the ones
    behind are changed one by one. *)
Lemma split_changed ps t i r (g h : row -> row) :
  t !! i = Some r ->
  changed ps t (take i t ++ g r :: (h <$> drop (S i) t))
    (fun j _ s => if decide (j = i) then g s else if decide (i < j)%nat then h s else s).
Proof.
  intros Hr. pose proof (lookup_lt_Some _ _ _ Hr) as Hi.
  assert (Ht : length (take i t) = i) by (rewrite length_take; lia). split.
  - rewrite length_app. cbn [length]. rewrite length_fmap, length_drop. lia.
  - intros j q s _ Hs. destruct (decide (j = i)) as [->|Hji].
    + rewrite lookup_app_r by lia. rewrite Ht, Nat.sub_diag. cbn. congruence.
    + destruct (decide (i < j)%nat) as [Hlt|Hge].
      * rewrite lookup_app_r by lia. rewrite Ht. replace (j - i)%nat with (S (j - S i)) by lia.
        trans ((h <$> drop (S i) t) !! (j - S i)%nat); [done|]. rewrite list_lookup_fmap, lookup_drop.
        replace (S i + (j - S i))%nat with j by lia. by rewrite Hs.
      * rewrite lookup_app_l by lia. by rewrite lookup_take_lt by lia.
Qed.

(** The children of the current row among the rows behind it. *)
Lemma child_rows ps t i p r q s :
  table_ok ps t -> ps !! i = Some p -> t !! i = Some r -> row_at ps t q s ->
  (child_re (path_id p) (rid s) = true <-> exists n, q = p ++ [n]).
Proof.
  intros Ht Hp Hr Hs. destruct (row_at_rid ps t q s Ht Hs) as [-> Hq].
  apply child_re_child; [|done]. eapply (row_at_rid ps t p r Ht). by exists i.
Qed.

Lemma below_behind ps t i j p q :
  table_ok ps t -> ps !! i = Some p -> ps !! j = Some q -> p `prefix_of` q -> q <> p -> (i < j)%nat.
Proof.
  intros Ht Hp Hq Hpre Hne. pose proof (table_order _ _ Ht i j p q Hp Hq Hpre).
  destruct (decide (i = j)) as [->|]; [congruence|lia].
Qed.

(** ** Folders *)

Section Folder.
Context (ps : list (list Z)) (t : list row) (i : nat) (p : list Z) (r : row).
Hypothesis Htable : table_ok ps t.
Hypothesis Hshown : tree_shown ps t.
Hypothesis Hp : ps !! i = Some p.
Hypothesis Hr : t !! i = Some r.
Hypothesis Hvisible : visible r = true.

#[local] Set Default Proof Using "Type*".

Lemma current_row : row_at ps t p r.
Proof. by exists i. Qed.

Lemma places_of s j : t !! j = Some s -> exists q, ps !! j = Some q.
Proof.
  intros Hs. apply lookup_lt_is_Some. apply lookup_lt_Some in Hs.
  pose proof (f_equal length (table_rows _ _ Htable)) as Hl. rewrite !length_fmap in Hl. lia.
Qed.

(** The test of the code: with the arrow down there is a first child and it is visible, with the
    arrow right there is none that is. *)
Lemma first_child_visible :
  let childRows := filter (fun s => child_re (path_id p) (rid s) = true) (drop (S i) t) in
  match head childRows with
  | Some s => exists n, row_at ps t (p ++ [n]) s
  | None => forall n s, ~ row_at ps t (p ++ [n]) s
  end.
Proof.
  cbn zeta. destruct (head _) as [s|] eqn:Hh.
  - assert (Hin : s ∈ filter (fun s => child_re (path_id p) (rid s) = true) (drop (S i) t)).
    { destruct (filter _ _); [done|]. injection Hh as <-. by left. }
    apply list_elem_of_filter in Hin as [Hc (j & Hj)%list_elem_of_lookup]. rewrite lookup_drop in Hj.
    destruct (places_of s _ Hj) as [q Hq]. assert (Hs : row_at ps t q s) by (by eexists).
    apply (child_rows ps t i p r q s Htable Hp Hr Hs) in Hc as [n ->]. by exists n.
  - intros n s Hs. pose proof Hs as (j & Hq & Hj).
    assert (Hlt : (i < j)%nat).
    { eapply below_behind; [exact Htable|exact Hp|exact Hq|by apply prefix_app_r|].
      intros H. apply (f_equal length) in H. rewrite length_app in H. cbn in H. lia. }
    assert (Hin : s ∈ filter (fun s => child_re (path_id p) (rid s) = true) (drop (S i) t)).
    { apply list_elem_of_filter. split; [apply (child_rows ps t i p r _ s Htable Hp Hr Hs); by exists n|].
      apply list_elem_of_lookup. exists (j - S i)%nat. rewrite lookup_drop.
      by replace (S i + (j - S i))%nat with j by lia. }
    destruct (filter _ _); [by apply not_elem_of_nil in Hin|done].
Qed.

End Folder.

(** ** What the folder operation does to each row *)

Definition below (p q : list Z) : bool := bool_decide (p `prefix_of` q) && negb (bool_decide (q = p)).
Definition child (p q : list Z) : bool := bool_decide (p `prefix_of` q) && (length q =? S (length p))%nat.

Lemma below_spec p q : below p q = true <-> p `prefix_of` q /\ q <> p.
Proof.
  unfold below. rewrite andb_true_iff, negb_true_iff, bool_decide_eq_true, bool_decide_eq_false. done.
Qed.

Lemma child_spec p q : child p q = true <-> exists n, q = p ++ [n].
Proof.
  unfold child. rewrite andb_true_iff, bool_decide_eq_true, Nat.eqb_eq. split.
  - intros [[k ->] Hl]. rewrite length_app in Hl. destruct k as [|n [|? ?]]; cbn in Hl; [lia| |lia]. by exists n.
  - intros [n ->]. split; [by apply prefix_app_r|]. rewrite length_app. cbn. lia.
Qed.

Lemma prefix_snoc (p q : list Z) n : p `prefix_of` q ++ [n] -> p = q ++ [n] \/ p `prefix_of` q.
Proof.
  intros [k Hk]. destruct k as [|m k _] using rev_ind; [left; by rewrite app_nil_r in Hk|].
  right. rewrite app_assoc in Hk. apply app_inj_tail in Hk as [-> _]. by apply prefix_app_r.
Qed.

(** How the rows of a table are seen after an operation. *)
Definition seen (ps : list (list Z)) (t t' : list row)
    (vis : list Z -> row -> bool) (arr : list Z -> row -> option arrow) : Prop :=
  rid <$> t' = rid <$> t /\
  forall q s', row_at ps t' q s' -> exists s, row_at ps t q s /\
    visible s' = vis q s /\ row_arrow s' = arr q s.

Lemma seen_stripes ps t t' vis arr : seen ps t t' vis arr -> seen ps t (updateStripes t') vis arr.
Proof.
  intros [Hid Hs]. split; [by rewrite <- Hid; apply stripes_rids|].
  intros q s' (e & o & s & Hr & ->)%row_at_stripes. exact (Hs q s Hr).
Qed.

Lemma seen_table ps t t' vis arr : seen ps t t' vis arr -> table_ok ps t -> table_ok ps t'.
Proof. intros [Hid _] [H1 H2 H3 H4 H5 H6]. split; try done. by rewrite Hid. Qed.

Lemma split_rids i t r (g h : row -> row) :
  t !! i = Some r -> (forall s, rid (g s) = rid s) -> (forall s, rid (h s) = rid s) ->
  rid <$> (take i t ++ g r :: (h <$> drop (S i) t)) = rid <$> t.
Proof.
  intros Hr Hg Hh. rewrite <- (take_drop_middle t i r) at 3 by done.
  rewrite !fmap_app, !fmap_cons, Hg, <- list_fmap_compose. do 2 f_equal.
  apply list_fmap_ext. intros ? s _. apply Hh.
Qed.

(** The branch that hides: the rows below are hidden, the arrow turns right. *)
Lemma hide_seen ps t i p r :
  table_ok ps t -> ps !! i = Some p -> t !! i = Some r ->
  seen ps t (take i t ++ set_marks IconClosed Right r :: (hide_below (path_id p) <$> drop (S i) t))
    (fun q s => visible s && negb (below p q))
    (fun q s => if bool_decide (q = p) then (fun _ => Right) <$> row_arrow s else row_arrow s).
Proof.
  intros Ht Hp Hr. split.
  { apply split_rids; [done|done|]. intros s. unfold hide_below. by destruct (has_prefix _ _). }
  intros q s' Hs'. pose proof (split_changed ps t i r (set_marks IconClosed Right) (hide_below (path_id p)) Hr) as Hc.
  destruct (changed_row_at _ _ _ _ _ _ Hc Hs') as (j & s & Hq & Hs & ->). clear Hs' Hc.
  assert (Hqs : row_at ps t q s) by (by exists j). exists s. split; [done|].
  destruct (row_at_rid ps t q s Ht Hqs) as [Hrid Hqp].
  destruct (row_at_rid ps t p r Ht) as [_ Hpp]; [by exists i|].
  destruct (decide (j = i)) as [->|Hji].
  { assert (q = p) as -> by congruence. rewrite bool_decide_eq_true_2 by done.
    unfold below. rewrite (bool_decide_eq_true_2 (p = p)) by done. by rewrite !andb_false_r, andb_true_r. }
  assert (Hne : q <> p) by (intros ->; apply Hji; eapply NoDup_lookup; [apply Ht|done..]).
  rewrite (bool_decide_eq_false_2 (q = p)) by done.
  assert (Hb : below p q = bool_decide (p `prefix_of` q)).
  { unfold below. rewrite (bool_decide_eq_false_2 (q = p)) by done. apply andb_true_r. }
  rewrite Hb. destruct (decide (i < j)%nat) as [Hlt|Hge].
  - unfold hide_below. fold (row_name p). rewrite Hrid, has_prefix_below by done.
    destruct (bool_decide _); cbn; by rewrite ?andb_false_r, ?andb_true_r.
  - rewrite bool_decide_eq_false_2; [by rewrite andb_true_r|].
    intros Hpre. apply Hge. by eapply below_behind.
Qed.

(** The branch that shows: the children appear with their arrow to the right, the arrow of the
    row turns down. *)
Lemma show_seen ps t i p r :
  table_ok ps t -> ps !! i = Some p -> t !! i = Some r ->
  seen ps t (take i t ++ set_marks IconOpen Down r :: (show_child (path_id p) <$> drop (S i) t))
    (fun q s => visible s || child p q)
    (fun q s => if bool_decide (q = p) then (fun _ => Down) <$> row_arrow s
                else if child p q then (fun _ => Right) <$> row_arrow s else row_arrow s).
Proof.
  intros Ht Hp Hr. split.
  { apply split_rids; [done|done|]. intros s. unfold show_child. by destruct (child_re _ _). }
  intros q s' Hs'. pose proof (split_changed ps t i r (set_marks IconOpen Down) (show_child (path_id p)) Hr) as Hc.
  destruct (changed_row_at _ _ _ _ _ _ Hc Hs') as (j & s & Hq & Hs & ->). clear Hs' Hc.
  assert (Hqs : row_at ps t q s) by (by exists j). exists s. split; [done|].
  assert (Hch : child_re (path_id p) (rid s) = child p q).
  { apply eq_true_iff_eq. rewrite child_spec. by eapply child_rows. }
  destruct (decide (j = i)) as [->|Hji].
  { assert (q = p) as -> by congruence. rewrite bool_decide_eq_true_2 by done.
    assert (Hcp : child p p = false).
    { unfold child. rewrite (proj2 (Nat.eqb_neq _ _)) by lia. apply andb_false_r. }
    rewrite Hcp. by rewrite orb_false_r. }
  assert (Hne : q <> p) by (intros ->; apply Hji; eapply NoDup_lookup; [apply Ht|done..]).
  rewrite (bool_decide_eq_false_2 (q = p)) by done.
  destruct (decide (i < j)%nat) as [Hlt|Hge].
  - unfold show_child. rewrite Hch. destruct (child p q); cbn; by rewrite ?orb_true_r, ?orb_false_r.
  - assert (Hcf : child p q = false); [|by rewrite Hcf, orb_false_r].
    destruct (child p q) eqn:Hcq; [|done]. exfalso. apply Hge.
    unfold child in Hcq. apply andb_true_iff in Hcq as [Hpre%bool_decide_eq_true _]. by eapply below_behind.
Qed.

Lemma hide_tree ps t t' p :
  table_ok ps t -> tree_shown ps t ->
  seen ps t t' (fun q s => visible s && negb (below p q))
    (fun q s => if bool_decide (q = p) then (fun _ => Right) <$> row_arrow s else row_arrow s) ->
  tree_shown ps t'.
Proof.
  intros Ht [H1 H2 H3] [_ Hseen]. split.
  - intros a n R R' Ha HR Hv HR'. apply Hseen in HR as (s & Hs & Hvs & _), HR' as (s' & Hs' & Hvs' & _).
    rewrite Hvs in Hv. apply andb_true_iff in Hv as [Hv Hb]. rewrite Hvs', (H1 a n s s') by done.
    apply negb_true_iff in Hb. apply negb_true_iff. apply not_true_is_false. intros [Hpre Hne]%below_spec.
    apply not_true_iff_false in Hb. apply Hb, below_spec. split; [by apply prefix_app_r|].
    intros Heq. destruct Hpre as [k ->]. apply (f_equal length) in Heq. rewrite !length_app in Heq. cbn in Heq. lia.
  - intros a n R R' HR Hv Harr HR'. apply Hseen in HR as (s & Hs & Hvs & Has), HR' as (s' & Hs' & Hvs' & _).
    rewrite Hvs in Hv. apply andb_true_iff in Hv as [Hv Hb]. rewrite Has in Harr.
    case_bool_decide as Hap; [by destruct (row_arrow s)|].
    rewrite Hvs', (H2 a n s s') by done. apply negb_true_iff, not_true_is_false.
    intros [[Heq|Hpre]%prefix_snoc Hne]%below_spec; [done|].
    apply negb_true_iff, not_true_iff_false in Hb. apply Hb, below_spec. done.
  - intros a n R R' HR Hv Harr HR'. apply Hseen in HR as (s & Hs & Hvs & Has), HR' as (s' & Hs' & Hvs' & _).
    rewrite Hvs in Hv. apply andb_true_iff in Hv as [Hv Hb]. rewrite Has in Harr. rewrite Hvs'.
    case_bool_decide as Hap.
    + subst a. apply andb_false_iff. right. apply negb_false_iff, below_spec. split; [by apply prefix_app_r|].
      intros Heq. apply (f_equal length) in Heq. rewrite length_app in Heq. cbn in Heq. lia.
    + by rewrite (H3 a n s s').
Qed.

Lemma show_tree ps t t' p r :
  table_ok ps t -> tree_shown ps t -> row_at ps t p r -> visible r = true ->
  (forall n s, row_at ps t (p ++ [n]) s -> visible s = false) ->
  seen ps t t' (fun q s => visible s || child p q)
    (fun q s => if bool_decide (q = p) then (fun _ => Down) <$> row_arrow s
                else if child p q then (fun _ => Right) <$> row_arrow s else row_arrow s) ->
  tree_shown ps t'.
Proof.
  intros Ht [H1 H2 H3] Hr Hvr Hhid [_ Hseen].
  assert (Hparent : forall a n m, a ++ [n] = p ++ [m] -> a = p) by (intros a n m H; by apply app_inj_tail in H as [-> _]).
  split.
  - intros a n R R' Ha HR Hv HR'. apply Hseen in HR as (s & Hs & Hvs & _), HR' as (s' & Hs' & Hvs' & _).
    rewrite Hvs in Hv. rewrite Hvs'. apply orb_true_iff in Hv as [Hv|[m Hm]%child_spec].
    + by rewrite (H1 a n s s').
    + apply Hparent in Hm as ->. by rewrite (row_at_fun ps t p s' r), Hvr by done.
  - intros a n R R' HR Hv Harr HR'. apply Hseen in HR as (s & Hs & Hvs & Has), HR' as (s' & Hs' & Hvs' & _).
    rewrite Has in Harr. rewrite Hvs'. case_bool_decide as Hap.
    { subst a. apply orb_true_iff. right. apply child_spec. by exists n. }
    destruct (child p a) eqn:Hca; [by destruct (row_arrow s)|].
    rewrite Hvs, orb_false_r in Hv. by rewrite (H2 a n s s').
  - intros a n R R' HR Hv Harr HR'. apply Hseen in HR as (s & Hs & Hvs & Has), HR' as (s' & Hs' & Hvs' & _).
    rewrite Has in Harr. rewrite Hvs'. case_bool_decide as Hap; [by destruct (row_arrow s)|].
    assert (Hcn : child p (a ++ [n]) = false).
    { apply not_true_is_false. intros [m Hm]%child_spec. by apply Hparent in Hm. }
    rewrite Hcn, orb_false_r. destruct (child p a) eqn:Hca.
    + apply child_spec in Hca as [m ->]. destruct (visible s') eqn:Hvs2; [|done].
      rewrite <- (Hhid m s Hs). symmetry. apply (H1 (p ++ [m]) n s' s); (done || by destruct p).
    + rewrite Hvs, orb_false_r in Hv. by apply (H3 a n s s').
Qed.

(** A row below another one comes with a child of it. *)
Lemma below_has_child ps t p q s :
  table_ok ps t -> row_at ps t q s -> below p q = true -> p <> [] -> exists n c, row_at ps t (p ++ [n]) c.
Proof.
  intros Ht (j & Hq & Hs) [[k ->] Hne]%below_spec Hp.
  assert (Hlen : length t = length ps).
  { pose proof (f_equal length (table_rows _ _ Ht)) as Hl. by rewrite !length_fmap in Hl. }
  assert (Hin : forall k n, p ++ n :: k ∈ ps -> p ++ [n] ∈ ps).
  { clear -Ht Hp. intros k. induction k as [|m k IH] using rev_ind; intros n; [done|].
    intros H. apply IH. change (n :: k ++ [m]) with ((n :: k) ++ [m]) in H. rewrite app_assoc in H.
    apply (table_closed _ _ Ht) in H; [done|]. by destruct p. }
  destruct k as [|n k]; [by rewrite app_nil_r in Hne|].
  destruct (proj1 (list_elem_of_lookup _ _) (Hin k n (list_elem_of_lookup_2 _ _ _ Hq))) as [i Hi].
  assert (Hc : is_Some (t !! i)) by (apply lookup_lt_is_Some; rewrite Hlen; by eapply lookup_lt_Some).
  destruct Hc as [c Hc]. exists n, c. by exists i.
Qed.

(** ** Checking a table *)

#[export] Instance place_ok_dec p : Decision (place_ok p).
Proof. unfold place_ok. apply _. Defined.

Fixpoint ordered (ps : list (list Z)) : bool :=
  match ps with
  | [] => true
  | q :: ps => forallb (fun p => negb (bool_decide (p `prefix_of` q))) ps && ordered ps
  end.

Definition table_check (ps : list (list Z)) (t : list row) : bool :=
  bool_decide (rid <$> t = row_name <$> ps) && bool_decide (Forall place_ok ps) &&
  bool_decide (NoDup ps) && ordered ps &&
  forallb (fun q => match reverse q with
                    | [] => false
                    | [_] => true
                    | _ :: rp => bool_decide (reverse rp ∈ ps)
                    end) ps.

Lemma ordered_lookup ps i j p q :
  ordered ps = true -> ps !! i = Some p -> ps !! j = Some q -> p `prefix_of` q -> (i <= j)%nat.
Proof.
  revert i j. induction ps as [|p' ps IH]; intros i j Ho; [done|]. cbn [ordered] in Ho.
  apply andb_true_iff in Ho as [Hall Ho]. destruct i as [|i]; [lia|]. destruct j as [|j]; cbn.
  - intros Hi [= <-] Hpre. rewrite forallb_forall in Hall.
    apply list_elem_of_lookup_2, list_elem_of_In, Hall in Hi.
    by rewrite bool_decide_eq_true_2 in Hi.
  - intros Hi Hj Hpre. specialize (IH i j Ho Hi Hj Hpre). lia.
Qed.

Lemma table_checked ps t : table_check ps t = true -> table_ok ps t.
Proof.
  unfold table_check. rewrite !andb_true_iff, !bool_decide_eq_true. intros ((((H1 & H2) & H3) & H4) & H5).
  rewrite forallb_forall in H5. split; try done.
  - intros p n Hin%list_elem_of_In Hp. apply H5 in Hin. rewrite reverse_snoc in Hin.
    destruct (reverse p) as [|m l] eqn:Hr.
    { apply (f_equal reverse) in Hr. by rewrite reverse_involutive in Hr. }
    rewrite <- Hr, reverse_involutive in Hin. by apply bool_decide_eq_true in Hin.
  - intros i j p q. by apply ordered_lookup.
  - intros Hin%list_elem_of_In. by apply H5 in Hin.
Qed.

(** A table with all its rows visible and no arrow to the right, as the pages have it. *)
Lemma expanded_shown ps t :
  Forall (fun r => visible r = true /\ row_arrow r <> Some Right) t -> tree_shown ps t.
Proof.
  rewrite Forall_forall. intros Hall.
  assert (Hv : forall p r, row_at ps t p r -> visible r = true /\ row_arrow r <> Some Right).
  { intros p r (i & _ & Hr). by eapply Hall, list_elem_of_lookup_2. }
  split.
  - intros p n r r' _ _ _ Hr'. by apply Hv in Hr' as [? _].
  - intros p n r r' _ _ _ Hr'. by apply Hv in Hr' as [? _].
  - intros p n r r' Hr _ Ha. by apply Hv in Hr as [_ ?].
Qed.

(** ** Properties *)

(** C40: on a table seen as a tree, clicking a visible folder keeps it one: an open folder hides
    the rows below it and nothing else, a closed one shows its children and nothing else. *)
Theorem toggleFolder_tree : forall ps t p r,
  table_ok ps t -> tree_shown ps t ->
  row_at ps t p r -> visible r = true -> is_Some (row_arrow r) ->
  let t' := toggleFolder (path_id p) t in
  table_ok ps t' /\ tree_shown ps t' /\
  forall q s', row_at ps t' q s' -> exists s, row_at ps t q s /\
    visible s' = match row_arrow r with
                 | Some Down => visible s && negb (below p q)
                 | _ => visible s || child p q
                 end.
Proof.
  intros ps t p r Ht Hshown (i & Hp & Hr) Hv [a Ha] t'. subst t'.
  unfold toggleFolder. rewrite (find_row ps t p i r) by done.
  pose proof (first_child_visible ps t i p r Ht Hshown Hp Hr Hv) as Hfirst.
  pose proof (hide_seen ps t i p r Ht Hp Hr) as Hhide. pose proof (show_seen ps t i p r Ht Hp Hr) as Hshow.
  cbn zeta in Hfirst |- *. assert (Hrow : row_at ps t p r) by (by exists i).
  assert (Hpne : p <> []) by (intros ->; apply (table_nonempty _ _ Ht); by eapply list_elem_of_lookup_2).
  destruct (head _) as [c|] eqn:Hhead.
  - destruct Hfirst as [n Hc]. destruct (visible c) eqn:Hvc.
    + assert (a = Down) as ->.
      { destruct a; [done|]. by rewrite (shown_right _ _ Hshown p n r c) in Hvc. }
      rewrite Ha. apply seen_stripes in Hhide. split; [by eapply seen_table|].
      split; [by apply (tree_shown_stripes ps (_ ++ _)); eapply hide_tree; [..|by eapply hide_seen]|].
      intros q s' Hs'. apply Hhide in Hs' as (s & Hs & Hvs & _). by exists s.
    + assert (a = Right) as ->.
      { destruct a; [|done]. by rewrite (shown_down _ _ Hshown p n r c) in Hvc. }
      rewrite Ha. apply seen_stripes in Hshow. split; [by eapply seen_table|]. split.
      * eapply (show_tree _ t); [done..| |done]. intros m s Hs. by apply (shown_right _ _ Hshown p m r s).
      * intros q s' Hs'. apply Hshow in Hs' as (s & Hs & Hvs & _). by exists s.
  - rewrite Ha. apply seen_stripes in Hshow. split; [by eapply seen_table|]. split.
    + eapply (show_tree _ t); [done..| |done]. intros m s Hs. by destruct (Hfirst m s).
    + intros q s' Hs'. apply Hshow in Hs' as (s & Hs & Hvs & _). exists s. split; [done|]. rewrite Hvs.
      assert (Hcq : child p q = false).
      { apply not_true_is_false. intros [n ->]%child_spec. by destruct (Hfirst n s). }
      rewrite Hcq, orb_false_r. destruct a; [|done].
      destruct (below p q) eqn:Hb; [|by rewrite andb_true_r].
      destruct (below_has_child ps t p q s Ht Hs Hb Hpne) as (n & c & Hc). by destruct (Hfirst n c).
Qed.

(** Whatever was open, choosing a level shows exactly the rows up to this depth, as a tree. *)
Theorem toggleLevel_tree : forall ps t level,
  table_ok ps t ->
  let t' := toggleLevel level t in
  table_ok ps t' /\ tree_shown ps t' /\
  forall q s', row_at ps t' q s' -> visible s' = (size q <=? level).
Proof.
  intros ps t level Ht t'. subst t'. unfold toggleLevel.
  assert (Hseen : seen ps t (level_row level <$> t) (fun q _ => size q <=? level)
    (fun q s => if size q <? level then (fun _ => Down) <$> row_arrow s
                else if size q =? level then (fun _ => Right) <$> row_arrow s else row_arrow s)).
  { split.
    - rewrite <- list_fmap_compose. apply list_fmap_ext. intros ? s _. cbn. unfold level_row.
      destruct (_ <? _); [done|]. by destruct (_ =? _).
    - intros q s' Hs'. destruct (changed_row_at _ _ _ _ _ _ (toggleLevel_changed ps t level) Hs') as (j & s & Hq & Hs & ->).
      assert (Hqs : row_at ps t q s) by (by exists j). exists s. split; [done|].
      destruct (row_at_rid ps t q s Ht Hqs) as [Hrid Hqp]. unfold level_row.
      rewrite Hrid, underscores_row_name by done.
      destruct (Z.ltb_spec (1 + size q) (level + 1)), (Z.ltb_spec (size q) level); try lia.
      + cbn. split; [symmetry; apply Z.leb_le; lia|done].
      + destruct (Z.eqb_spec (1 + size q) (level + 1)), (Z.eqb_spec (size q) level); try lia; cbn.
        * split; [symmetry; apply Z.leb_le; lia|done].
        * split; [symmetry; apply Z.leb_gt; lia|done]. }
  split; [by eapply seen_table; [apply seen_stripes|]|]. split.
  - apply tree_shown_stripes. destruct Hseen as [_ Hseen]. split.
    + intros p n s s' _ Hs Hv Hs'. apply Hseen in Hs as (_ & _ & Hvs & _), Hs' as (_ & _ & Hvs' & _).
      rewrite Hvs in Hv. rewrite Hvs'. rewrite size_app in Hv. apply Z.leb_le in Hv. apply Z.leb_le. size_lia.
    + intros p n s s' Hs Hv Ha Hs'. apply Hseen in Hs as (u & _ & Hvs & Has), Hs' as (_ & _ & Hvs' & _).
      rewrite Hvs in Hv. rewrite Hvs'. rewrite size_app. apply Z.leb_le in Hv. apply Z.leb_le.
      rewrite Has in Ha. destruct (Z.ltb_spec (size p) level); [size_lia|].
      rewrite (proj2 (Z.eqb_eq _ _)) in Ha by lia. by destruct (row_arrow u).
    + intros p n s s' Hs Hv Ha Hs'. apply Hseen in Hs as (u & _ & Hvs & Has), Hs' as (_ & _ & Hvs' & _).
      rewrite Hvs in Hv. rewrite Hvs'. rewrite size_app. apply Z.leb_le in Hv. apply Z.leb_gt.
      rewrite Has in Ha. destruct (Z.ltb_spec (size p) level); [by destruct (row_arrow u)|size_lia].
  - intros q s' Hs'. apply seen_stripes in Hseen. apply Hseen in Hs' as (s & _ & Hvs & _). done.
Qed.

(** The operations on the folds of a page. *)
Inductive fold_action := ToggleAll | ToggleOne (id : jsstring).
Definition fold_act (s : fold_state) (a : fold_action) : fold_state :=
  match a with ToggleAll => codefold_toggle_all s | ToggleOne id => codefold_toggle id s end.

(** Whatever is clicked, each fragment shows exactly one of its two forms, and the toggle of
    the first line shows a plus exactly when it will open everything. *)
Theorem codefold_exclusive : forall ids acts,
  let s := foldl fold_act (init_codefold ids) acts in
  fold_id <$> folds s = ids /\ all_minus s = opened s /\
  Forall (fun f => open_visible f = negb (closed_visible f)) (folds s) /\
  Forall (fun f => open_visible f = negb (opened s)) (folds (codefold_toggle_all s)).
Proof.
  intros ids acts s. subst s. induction acts as [|a acts IH] using rev_ind.
  - cbn. split; [|split; [done|split]].
    + rewrite <- list_fmap_compose. by apply list_fmap_id.
    + by apply Forall_fmap, Forall_true.
    + by apply Forall_fmap, Forall_fmap, Forall_true.
  - rewrite foldl_app. cbn [foldl]. set (s := foldl fold_act (init_codefold ids) acts) in *.
    destruct IH as (Hids & Hm & Hx & _). split; [|split; [|split]].
    + rewrite <- Hids. destruct a; cbn; rewrite <- list_fmap_compose; apply list_fmap_ext; intros ? f _; cbn.
      * by destruct (opened s).
      * by destruct (bool_decide _).
    + by destruct a; cbn; rewrite ?Hm.
    + destruct a; cbn; apply Forall_fmap.
      * apply Forall_true. intros f. cbn. by destruct (opened s).
      * eapply Forall_impl; [done|]. intros f Hf. cbn in *. destruct (bool_decide _); [|done]. cbn. by rewrite Hf.
    + destruct a; cbn; apply Forall_fmap, Forall_true; intros f; cbn; by destruct (opened s).
Qed.

(** ** Witnesses *)

Definition folder_row (p : list Z) : row :=
  {| rid := row_name p; visible := true; even := false; odd := false;
     row_icon := Some IconOpen; row_arrow := Some Down |}.
Definition file_row (p : list Z) : row :=
  {| rid := row_name p; visible := true; even := false; odd := false; row_icon := None; row_arrow := None |}.

Definition sample_places : list (list Z) := [[0]; [0; 0]; [0; 0; 0]; [0; 1]; [0; 10]; [1]].
Definition sample_table : list row :=
  [folder_row [0]; folder_row [0; 0]; file_row [0; 0; 0]; file_row [0; 1]; file_row [0; 10]; file_row [1]].

Lemma toggleFolder_tree_witness :
  let t' := toggleFolder (path_id [0; 0]) sample_table in
  table_ok sample_places t' /\ tree_shown sample_places t' /\
  forall q s', row_at sample_places t' q s' -> exists s, row_at sample_places sample_table q s /\
    visible s' = visible s && negb (below [0; 0] q).
Proof.
  apply (toggleFolder_tree sample_places sample_table [0; 0] (folder_row [0; 0])).
  - apply table_checked. vm_compute. reflexivity.
  - apply expanded_shown. repeat constructor; discriminate.
  - exists 1%nat. split; reflexivity.
  - reflexivity.
  - eexists. reflexivity.
Defined.

Lemma toggleLevel_tree_witness :
  let t' := toggleLevel 2 sample_table in
  table_ok sample_places t' /\ tree_shown sample_places t' /\
  forall q s', row_at sample_places t' q s' -> visible s' = (size q <=? 2).
Proof.
  apply (toggleLevel_tree sample_places sample_table 2). apply table_checked. vm_compute. reflexivity.
Defined.
