(* ===== verification/CodeFold.v ===== *)
(** The code blocks of [dynsections.js] on the page: [init_codefold] puts a toggle into the first
    line of each foldable fragment and a closed form behind it, [codefold_toggle] and
    [codefold_toggle_all] show and hide them. [DynSections] has what they mean. *)

From S2P Require Import Prelude TextFormat JsCore Dom JQuery DynSections.

(** ** The elements that take part *)

Definition plusImg : list jsstring := [js "var(--fold-plus-image)"; js "var(--fold-plus-image-relpath)"].
Definition minusImg : list jsstring := [js "var(--fold-minus-image)"; js "var(--fold-minus-image-relpath)"].

Definition lineno (e : elem) : bool := class_is "span" "lineno" e.
Definition is_fold (e : elem) : bool := class_is "span" "fold" e.
Definition foldopen (e : elem) : bool := class_is "div" "foldopen" e.

(** A value that is undefined, in a text and as the value of a property. *)
Definition text_of (v : option jsstring) : jsstring := default (js "undefined") v.
Definition set_image (v : option jsstring) (e : elem) : elem :=
  match v with Some v => setStyle "background-image" v e | None => e end.

(** [s.replace(t, '')]: the first occurrence. *)
Fixpoint remove_first (t s : jsstring) : jsstring :=
  if bool_decide (t `prefix_of` s) then drop (length t) s
  else match s with [] => [] | c :: s => c :: remove_first t s end.

Definition image_all (v : option jsstring) : node -> node :=
  map_elems (fun e => if is_fold e then set_image v e else e).

(** A piece of text of a markup that is parsed: nothing when it is empty. *)
Definition text_node (s : jsstring) : list node := match s with [] => [] | _ => [Text s] end.

(** ** The elements [init_codefold] makes *)

Definition lineno_styles : list (string * jsstring) :=
  [("padding-right"%string, js "4px"); ("margin-right"%string, js "2px"); ("display"%string, js "inline-block");
   ("width"%string, js "54px");
   ("background"%string,
    js "linear-gradient(var(--fold-line-color),var(--fold-line-color)) no-repeat 46px/2px 100%")].

Definition fold_span : elem := setAttribute "class" (js "fold") (createElement "span").

Definition all_span (relPath : nat) : elem :=
  setStyle "background-image" (text_of (minusImg !! relPath))
    (setAttribute "onclick" (js "javascript:codefold_toggle_all(" ++ js_dec (Z.of_nat relPath) ++ js ");")
      (setAttribute "id" (js "fold_all") fold_span)).

Definition toggle_span (relPath : nat) (id : jsstring) : elem :=
  setStyle "background-image" (text_of (minusImg !! relPath))
    (setAttribute "onclick" (js "javascript:codefold_toggle('" ++ id ++ js "');") fold_span).

Definition closed_div (id : jsstring) : elem :=
  setStyle "display" (js "none")
    (setAttribute "class" (js "foldclosed")
      (setAttribute "id" (js "foldclosed" ++ id) (createElement "div"))).

Definition ellipsis (id : jsstring) : node :=
  Element (setAttribute "href" (js "javascript:codefold_toggle('" ++ id ++ js "')") (createElement "a"))
    [Text [8230]].

(** ** The closed form of a fragment *)

(** The characters [\s] matches. *)
Definition re_space (c : Z) : bool :=
  bool_decide (c ∈ [9; 10; 11; 12; 13; 32; 160; 5760; 8232; 8233; 8239; 8287; 12288; 65279]) ||
  (8192 <=? c) && (c <=? 8202).

(** The end of a text as [html()] writes it: a no-break space is no space but [&nbsp;]. *)
Definition html_space (c : Z) : bool := re_space c && negb (c =? 160).

(** [replace(/\s*start\s*$/g, '')], with a [start] that has no special character. *)
Definition trim_marker (start s : jsstring) : jsstring :=
  let r := drop_while html_space (rev s) in
  if bool_decide (rev start `prefix_of` r) then rev (drop_while html_space (drop (length start) r)) else s.

(** The markup of a line ends with the marker when its last node is a text that does: an element
    ends with its end tag. *)
Definition trim_line (start : jsstring) (ks : list node) : list node :=
  match last ks with
  | Some (Text d) => take (length ks - 1) ks ++ text_node (trim_marker start d)
  | _ => ks
  end.

(** The line for the closed form, [None] when [html()] of nothing is used. *)
Definition closed_line (relPath : nat) (id : jsstring) (start end_ : option jsstring) (kids : list node)
  : option (list node) :=
  let marked := match start with Some (_ :: _) => true | _ => false end in
  match first_element kids with
  | None => if marked then None else Some []
  | Some (e, ks) =>
      let ks := if marked then trim_line (text_of start) ks else ks in
      let ks := map (image_all (plusImg !! relPath)) ks in
      Some [Element (removeClass (js "glow") e)
              (ks ++ Text (js " " ++ text_of start) :: ellipsis id :: text_node (text_of end_))]
  end.

(** ** [init_codefold] *)

(** The body of [each] for the open fragments below a node, which may hold others: a fragment comes
    before the ones in it. The result stands for the node: [after] puts a second one behind it. The
    closed form is put into the element just made, the only one with its id. [None] is the
    [TypeError] of a fragment without an id, or of one without a first line. *)
Fixpoint fold_node (relPath : nat) (fuel : nat) (n : node) : option (list node) :=
  match fuel, n with
  | _, Text d => Some [Text d]
  | O, _ => None
  | S fuel, Element e kids =>
      if foldopen e then
        name ← attrs e !! "id";
        let id := remove_first (js "foldopen") name in
        let start := attrs e !! "data-start" in
        let end_ := attrs e !! "data-end" in
        let kids := replace_first is_fold (Element (toggle_span relPath id) []) kids in
        line ← closed_line relPath id start end_ kids;
        kids ← mapM (fold_node relPath fuel) kids;
        Some [Element e (concat kids); Element (closed_div id) line]
      else
        kids ← mapM (fold_node relPath fuel) kids;
        Some [Element e (concat kids)]
  end.

Fixpoint height (n : node) : nat :=
  match n with
  | Text _ => 0
  | Element _ kids => S (foldr Nat.max 0%nat (map height kids))
  end.

(** The toggle of the page for the first line, the vertical line for the others. *)
Definition line_span (relPath : nat) (i : nat) : list node :=
  match i with O => [Element (all_span relPath) []] | S _ => [Element fold_span []] end.

Definition add_spans (relPath : nat) (doc : node) : node :=
  snd (append_each lineno (line_span relPath) 0 (css_all lineno lineno_styles doc)).

(** There is nothing behind the root. *)
Definition init_codefold (relPath : nat) (doc : node) : option node :=
  let doc := add_spans relPath doc in
  ns ← fold_node relPath (height doc) doc; head ns.

(** ** The handlers *)

(** The document and the variable [opened]. *)
Record code_page := { doc : node; opened : bool }.

Definition codefold_toggle_all (relPath : nat) (pg : code_page) : code_page :=
  let on_divs (prefix : string) (f : elem -> elem) :=
    map_elems (fun e => if id_begins "div" prefix e then f e else e) in
  {| doc :=
       if opened pg then
         on_divs "foldclosed"%string show (on_divs "foldopen"%string hide
           (alter_id (js "fold_all") (set_image (plusImg !! relPath)) (doc pg)))
       else
         on_divs "foldclosed"%string hide (on_divs "foldopen"%string show
           (alter_id (js "fold_all") (set_image (minusImg !! relPath)) (doc pg)));
     opened := negb (opened pg) |}.

Definition codefold_toggle (id : jsstring) (pg : code_page) : code_page :=
  {| doc := alter_id (js "foldclosed" ++ id) toggle (alter_id (js "foldopen" ++ id) toggle (doc pg));
     opened := opened pg |}.

(** A click on one of the toggles. *)
Definition click (relPath : nat) (pg : code_page) (a : fold_action) : code_page :=
  match a with
  | ToggleAll => codefold_toggle_all relPath pg
  | ToggleOne id => codefold_toggle id pg
  end.

(** ** Pages *)

(** The elements whose ids the toggles use, in document order. *)
Definition foldish (e : elem) : bool :=
  match attrs e !! "id" with Some id => bool_decide (js "fold" `prefix_of` id) | None => false end.
Definition view (n : node) : list elem := filter (fun e => foldish e = true) (elems n).
Definition views (ks : list node) : list elem := concat (map view ks).
Definition kid_view (n : node) : option (list elem) :=
  match n with Text _ => None | Element _ _ => Some (view n) end.
Definition is_all (e : elem) : bool := has_id (js "fold_all") e.

(** A fragment as Doxygen writes it: it has an id and the marker of a block or none, is shown, and
    its first line holds no other fragment. *)
Definition fragment_ok (e : elem) (kids : list node) : bool :=
  match attrs e !! "id" with Some id => bool_decide (js "foldopen" `prefix_of` id) | None => false end &&
  bool_decide (attrs e !! "data-start" ∈ [Some (js "{"); Some []]) && negb (hidden e) &&
  match head (omap kid_view kids) with Some [] => true | _ => false end.

(** Only the fragments have ids of this kind, and there are no toggles yet. *)
Fixpoint node_ok (n : node) : bool :=
  match n with
  | Text _ => true
  | Element e kids =>
      negb (is_fold e) && implb (foldish e) (foldopen e) && implb (foldopen e) (fragment_ok e kids) &&
      forallb node_ok kids
  end.

(** There is a line in front of the first fragment. *)
Fixpoint line_first (es : list elem) : bool :=
  match es with
  | [] => false
  | e :: es => if lineno e then true else if foldopen e then false else line_first es
  end.

Definition id_of (e : elem) : jsstring := remove_first (js "foldopen") (elem_id e).
Definition view_ids (es : list elem) : list jsstring := id_of <$> filter (fun e => foldopen e = true) es.
Definition fold_ids (doc : node) : list jsstring := view_ids (elems doc).

Definition page_ok (doc : node) : bool :=
  node_ok doc && line_first (elems doc) && bool_decide (NoDup (fold_ids doc)).

(** The same with the spans of the lines: of these only the toggle of the page has an id, and it is
    in no fragment. *)
Fixpoint spans_ok (n : node) : bool :=
  match n with
  | Text _ => true
  | Element e kids =>
      implb (is_fold e) (bool_decide (length kids = 0%nat) && (negb (foldish e) || is_all e)) &&
      implb (foldish e) (foldopen e || is_all e) &&
      implb (foldopen e) (fragment_ok e kids && forallb (fun e => negb (is_all e)) (views kids)) &&
      forallb spans_ok kids
  end.

(** ** What the steps change of the elements with these ids *)

Lemma view_unfold e kids : view (Element e kids) = if foldish e then e :: views kids else views kids.
Proof.
  unfold view at 1. cbn [elems]. rewrite filter_cons.
  assert (H : filter (fun e => foldish e = true) (concat (map elems kids)) = views kids).
  { induction kids as [|k ks IH]; [done|]. cbn [map concat]. by rewrite filter_app, IH. }
  rewrite H. by destruct (foldish e).
Qed.

Lemma views_app ks ks' : views (ks ++ ks') = views ks ++ views ks'.
Proof. unfold views. by rewrite map_app, concat_app. Qed.

Lemma views_kids ks : views ks = concat (omap kid_view ks).
Proof.
  induction ks as [|[d|e kids] ks IH]; [done|done|]. cbn [omap list_omap kid_view concat].
  unfold views in *. cbn [map concat]. by rewrite IH.
Qed.

Lemma views_concat nss : views (concat nss) = concat (views <$> nss).
Proof. induction nss as [|ns nss IH]; [done|]. cbn [concat fmap list_fmap]. by rewrite views_app, IH. Qed.

(** The condition on an element looks at its children only through what is seen of them. *)
Lemma spans_ok_kids e kids kids' :
  length kids' = length kids -> omap kid_view kids' = omap kid_view kids -> forallb spans_ok kids' = true ->
  spans_ok (Element e kids) = true -> spans_ok (Element e kids') = true.
Proof.
  intros Hl Hv Hk. cbn [spans_ok]. unfold fragment_ok. rewrite !views_kids, Hv, Hl, Hk.
  rewrite !andb_true_iff. tauto.
Qed.

Lemma alter_split {A} (f : A -> A) (l : list A) i x :
  l !! i = Some x -> exists l1 l2, l = l1 ++ x :: l2 /\ alter f i l = l1 ++ f x :: l2.
Proof.
  intros Hi. exists (take i l), (drop (S i) l). assert (Hlt := lookup_lt_Some _ _ _ Hi).
  pose proof (take_drop_middle l i x Hi) as Hl. split; [done|].
  rewrite <- Hl at 1. rewrite alter_app_r_alt by (rewrite length_take; lia).
  rewrite length_take, Nat.min_l, Nat.sub_diag by lia. done.
Qed.

Lemma height_kids e kids k : k ∈ kids -> (height k < height (Element e kids))%nat.
Proof.
  cbn [height]. induction 1 as [k ks|k k' ks _ IH]; cbn [map foldr]; lia.
Qed.

(** A node gives way to one that looks the same. *)
Lemma replace_at_ok new n p k :
  node_at n p = Some k -> kid_view new = kid_view k -> spans_ok new = true -> (height new <= height k)%nat ->
  spans_ok n = true ->
  kid_view (replace_at new n p) = kid_view n /\ spans_ok (replace_at new n p) = true /\
  (height (replace_at new n p) <= height n)%nat.
Proof.
  intros Hat Hview Hnew Hh. revert n Hat. induction p as [|i p IH]; intros n Hat Hn.
  { cbn in Hat. injection Hat as ->. by destruct k. }
  cbn [node_at] in Hat. destruct n as [d|e kids]; [done|]. cbn [kids_of] in Hat.
  destruct (kids !! i) as [k1|] eqn:Hi; [|done]. cbn [mbind option_bind] in Hat. cbn [replace_at].
  destruct (alter_split (fun k => replace_at new k p) kids i k1 Hi) as (l1 & l2 & -> & ->).
  assert (Hkids := Hn). cbn [spans_ok] in Hkids. apply andb_true_iff in Hkids as [_ Hkids].
  rewrite forallb_app in Hkids. cbn [forallb] in Hkids. apply andb_true_iff in Hkids as [Hk1 Hk2].
  apply andb_true_iff in Hk2 as [Hk Hk2]. destruct (IH k1 Hat Hk) as (Hv & Hok & Hh').
  assert (Hom : omap kid_view (l1 ++ replace_at new k1 p :: l2) = omap kid_view (l1 ++ k1 :: l2)).
  { rewrite !omap_app. cbn [omap list_omap]. by rewrite Hv. }
  split; [|split].
  - cbn [kid_view]. by rewrite !view_unfold, !views_kids, Hom.
  - eapply spans_ok_kids; [|exact Hom| |exact Hn]; [by rewrite !length_app|].
    rewrite forallb_app. cbn [forallb]. by rewrite Hk1, Hok, Hk2.
  - cbn [height]. rewrite !map_app, !foldr_app. cbn [map foldr].
    assert (Hmax : forall a b l, (a <= b)%nat -> (foldr Nat.max a l <= foldr Nat.max b l)%nat).
    { clear. intros a b l Hab. induction l; cbn; lia. }
    apply le_n_S, Hmax. lia.
Qed.

Lemma find_kids_Some p ks i q :
  find_kids p ks i = Some q -> exists j r k, q = (i + j)%nat :: r /\ ks !! j = Some k /\ find_elem p k = Some r.
Proof.
  revert i. induction ks as [|k ks IH]; intros i; cbn [find_kids]; [done|].
  destruct (find_elem p k) as [r|] eqn:Hk.
  - intros [= <-]. exists 0%nat, r, k. by rewrite Nat.add_0_r.
  - intros Hq. destruct (IH _ Hq) as (j & r & k' & -> & Hj & Hr). exists (S j), r, k'. split; [f_equal; lia|done].
Qed.

Lemma spans_ok_at n p k : spans_ok n = true -> node_at n p = Some k -> spans_ok k = true.
Proof.
  revert n. induction p as [|i p IH]; intros n Hn; [by intros [= <-]|]. cbn [node_at].
  destruct n as [d|e kids]; [done|]. cbn [kids_of]. destruct (kids !! i) as [k1|] eqn:Hi; [|done].
  cbn [mbind option_bind]. apply IH. cbn [spans_ok] in Hn. apply andb_true_iff in Hn as [_ Hn].
  rewrite forallb_forall in Hn. apply Hn, list_elem_of_In. by eapply list_elem_of_lookup_2.
Qed.

Lemma views_at ks j k e : ks !! j = Some k -> e ∈ view k -> e ∈ views ks.
Proof.
  intros <-%take_drop_middle He. rewrite views_app. apply elem_of_app. right.
  unfold views. cbn [map concat]. by apply elem_of_app; left.
Qed.

Lemma view_at n p k e : node_at n p = Some k -> e ∈ view k -> e ∈ view n.
Proof.
  revert n. induction p as [|i p IH]; intros n; [by intros [= <-]|]. cbn [node_at].
  destruct n as [d|e' kids]; [done|]. cbn [kids_of]. destruct (kids !! i) as [k1|] eqn:Hi; [|done].
  cbn [mbind option_bind]. intros Hk He. specialize (IH k1 Hk He).
  rewrite view_unfold. apply (views_at _ _ _ _ Hi) in IH. destruct (foldish e'); [by right|done].
Qed.

(** The first span of a fragment becomes its toggle. *)
Lemma replace_first_ok relPath id e kids :
  spans_ok (Element e kids) = true -> forallb (fun e => negb (is_all e)) (views kids) = true ->
  let kids' := replace_first is_fold (Element (toggle_span relPath id) []) kids in
  omap kid_view kids' = omap kid_view kids /\ forallb spans_ok kids' = true /\
  Forall (fun k => height k < height (Element e kids))%nat kids'.
Proof.
  intros Hok Hall. cbn zeta. assert (Hkids := Hok). cbn [spans_ok] in Hkids. apply andb_true_iff in Hkids as [_ Hkids].
  unfold replace_first. destruct (find_kids is_fold kids 0) as [[|j q]|] eqn:Hf.
  1, 3: split; [done|]; split; [done|]; apply Forall_forall; intros k; apply height_kids.
  apply find_kids_Some in Hf as (j' & r & k & [= -> ->] & Hj & Hr). cbn [Nat.add].
  apply find_elem_Some in Hr as (e' & He' & Hfold). unfold elem_at in He'.
  destruct (node_at k r) as [[|e'' kk]|] eqn:Hat; [done| |done]. injection He' as ->.
  assert (Hk : spans_ok k = true).
  { rewrite forallb_forall in Hkids. apply Hkids, list_elem_of_In. by eapply list_elem_of_lookup_2. }
  assert (Hleaf := spans_ok_at k r _ Hk Hat). cbn [spans_ok] in Hleaf. rewrite Hfold in Hleaf. cbn [implb] in Hleaf.
  rewrite !andb_true_iff, bool_decide_eq_true in Hleaf. destruct Hleaf as [[[[Hnil Hnf] _] _] _].
  destruct kk; [|done].
  assert (Hview : kid_view (Element (toggle_span relPath id) []) = kid_view (Element e' [])).
  { cbn [kid_view]. rewrite !view_unfold. destruct (foldish e') eqn:Hfe; [|done]. exfalso.
    cbn [negb orb] in Hnf. rewrite forallb_forall in Hall.
    enough (Hin : e' ∈ views kids) by (apply list_elem_of_In, Hall in Hin; by rewrite Hnf in Hin).
    eapply views_at; [done|]. eapply view_at; [done|]. rewrite view_unfold, Hfe. by left. }
  destruct (alter_split (fun k => replace_at (Element (toggle_span relPath id) []) k r) kids j' k Hj)
    as (l1 & l2 & -> & ->).
  destruct (replace_at_ok (Element (toggle_span relPath id) []) k r _ Hat) as (Hv & Hnew & Hh); [done..|].
  rewrite !omap_app. cbn [omap list_omap]. rewrite Hv. split; [done|].
  rewrite !forallb_app in *. cbn [forallb] in *. rewrite !andb_true_iff in *. split; [tauto|].
  pose proof (height_kids e (l1 ++ k :: l2)) as Hhk.
  apply Forall_app. split; [|apply Forall_cons; split].
  - apply Forall_forall. intros k' Hk'. apply Hhk, elem_of_app. by left.
  - eapply Nat.le_lt_trans; [exact Hh|]. apply Hhk, elem_of_app. right. by left.
  - apply Forall_forall. intros k' Hk'. apply Hhk, elem_of_app. right. by right.
Qed.

(** ** The closed form holds no ids of fragments *)

Lemma foldish_map g e : attrs (g e) !! "id" = attrs e !! "id" -> foldish (g e) = foldish e.
Proof. unfold foldish. by intros ->. Qed.

Lemma attrs_removeClass name e k : k <> "class"%string -> attrs (removeClass name e) !! k = attrs e !! k.
Proof.
  intros Hk. unfold removeClass, set_words. destruct (bool_decide _); [done|]. cbn. by rewrite lookup_insert_ne.
Qed.

Lemma view_map g n :
  (forall e, foldish (g e) = foldish e) -> view (map_elems g n) = g <$> view n.
Proof.
  intros Hg. unfold view. rewrite elems_map. induction (elems n) as [|e es IH]; [done|].
  rewrite fmap_cons, !filter_cons, Hg, IH. by destruct (foldish e).
Qed.

Lemma views_trim start ks : views (trim_line start ks) = views ks.
Proof.
  unfold trim_line. destruct (last ks) as [[d|]|] eqn:Hl; [|done..].
  apply last_Some in Hl as [ks' ->]. rewrite length_app, Nat.add_sub, take_app_length, !views_app.
  by destruct (trim_marker start d).
Qed.

Lemma views_image v ks : views ks = [] -> views (map (image_all v) ks) = [].
Proof.
  unfold views. intros H. induction ks as [|k ks IH]; [done|]. cbn [map concat] in *.
  apply app_nil in H as [Hk Hks]. rewrite IH by done. unfold image_all. rewrite view_map, Hk; [done|].
  intros e. destruct (is_fold e); [|done]. by destruct v.
Qed.

Lemma closed_line_ok relPath id start end_ kids :
  head (omap kid_view kids) = Some [] ->
  exists line, closed_line relPath id start end_ kids = Some line /\ views line = [].
Proof.
  intros Hhead. unfold closed_line.
  assert (Hfirst : exists e ks, first_element kids = Some (e, ks) /\ foldish e = false /\ views ks = []).
  { induction kids as [|[d|e ks] kids IH]; [done|by apply IH|]. assert (Hv : view (Element e ks) = []) by (by injection Hhead).
    rewrite view_unfold in Hv. exists e, ks. destruct (foldish e); [done|]. done. }
  destruct Hfirst as (e & ks & -> & He & Hks). eexists. split; [done|]. unfold views at 1. cbn [map concat].
  rewrite app_nil_r, view_unfold, (foldish_map (removeClass _)), He by (by apply attrs_removeClass).
  rewrite views_app. rewrite views_image; [|by destruct (match start with Some _ => _ | None => _ end); rewrite ?views_trim].
  by destruct (text_of end_).
Qed.

(** ** The fragments *)

Lemma view_ids_app es es' : view_ids (es ++ es') = view_ids es ++ view_ids es'.
Proof. unfold view_ids. by rewrite filter_app, fmap_app. Qed.

Definition folded (es : list elem) : list elem := (closed_div <$> view_ids es) ++ es.

Lemma folded_app es es' : folded (es ++ es') ≡ₚ folded es ++ folded es'.
Proof. unfold folded. rewrite view_ids_app, fmap_app. solve_Permutation. Qed.

Lemma mapM_folded (F : node -> option (list node)) kids :
  Forall (fun k => exists ns, F k = Some ns /\ views ns ≡ₚ folded (view k)) kids ->
  exists nss, mapM F kids = Some nss /\ views (concat nss) ≡ₚ folded (views kids).
Proof.
  induction 1 as [|k kids (ns & HF & Hns) _ (nss & Hm & Hnss)]; [by exists []|].
  exists (ns :: nss). cbn [mapM]. rewrite HF. cbn [mbind option_bind]. rewrite Hm. split; [done|].
  cbn [concat]. rewrite views_app, Hns, Hnss. unfold views at 2. cbn [map concat]. by rewrite folded_app.
Qed.

Lemma remove_first_app t s : remove_first t (t ++ s) = s.
Proof.
  assert (H : forall c, remove_first t c = if bool_decide (t `prefix_of` c) then drop (length t) c
    else match c with [] => [] | d :: c => d :: remove_first t c end) by (by intros []).
  rewrite H, bool_decide_eq_true_2 by (by apply prefix_app_r). by rewrite drop_app_length.
Qed.

(** An element that is a fragment has the id of one. *)
Lemma fragment_id e kids :
  fragment_ok e kids = true -> attrs e !! "id" = Some (js "foldopen" ++ id_of e) /\ foldish e = true.
Proof.
  unfold fragment_ok, id_of, elem_id, foldish. rewrite !andb_true_iff. intros [[[H _] _] _].
  destruct (attrs e !! "id") as [id|]; [|done]. apply bool_decide_eq_true in H as [r ->].
  change (default [] (Some ?x)) with x. rewrite remove_first_app. split; [done|]. apply bool_decide_eq_true.
  change (js "foldopen") with (js "fold" ++ js "open"). rewrite <- app_assoc. by apply prefix_app_r.
Qed.

Lemma foldish_closed id : foldish (closed_div id) = true.
Proof.
  apply bool_decide_eq_true. change (js "foldclosed") with (js "fold" ++ js "closed"). rewrite <- app_assoc.
  by apply prefix_app_r.
Qed.

(** Behind each fragment comes its closed form; nothing else changes. *)
Lemma fold_node_ok relPath fuel n :
  spans_ok n = true -> (height n <= fuel)%nat ->
  exists ns, fold_node relPath fuel n = Some ns /\ views ns ≡ₚ folded (view n).
Proof.
  revert n. induction fuel as [|fuel IH]; intros [d|e kids] Hok Hh; [by exists [Text d]|cbn in Hh; lia|by exists [Text d]|].
  cbn [fold_node].
  assert (Hrec : forall kids', forallb spans_ok kids' = true ->
    Forall (fun k => height k < height (Element e kids))%nat kids' ->
    exists nss, mapM (fold_node relPath fuel) kids' = Some nss /\ views (concat nss) ≡ₚ folded (views kids')).
  { intros kids' Hk Hhk. apply mapM_folded. rewrite forallb_forall in Hk. rewrite Forall_forall in Hhk |- *.
    intros k Hin. apply IH; [by apply Hk, list_elem_of_In|]. specialize (Hhk k Hin). lia. }
  assert (Hok' := Hok). cbn [spans_ok] in Hok'. rewrite !andb_true_iff in Hok'.
  destruct Hok' as [[[_ _] Hfrag] Hkids]. destruct (foldopen e) eqn:Hopen.
  - cbn [implb] in Hfrag. rewrite andb_true_iff in Hfrag. destruct Hfrag as [Hfrag Hall].
    destruct (fragment_id e kids Hfrag) as [Hid Hfe]. rewrite Hid. cbn [mbind option_bind].
    rewrite remove_first_app.
    destruct (replace_first_ok relPath (id_of e) e kids Hok Hall) as (Hv & Hk & Hhk). cbn zeta in *.
    set (kids' := replace_first _ _ _) in *.
    destruct (closed_line_ok relPath (id_of e) (attrs e !! "data-start") (attrs e !! "data-end") kids')
      as (line & -> & Hline).
    { rewrite Hv. unfold fragment_ok in Hfrag. rewrite !andb_true_iff in Hfrag. destruct Hfrag as [_ Hfrag].
      by destruct (head _) as [[]|]. }
    cbn [mbind option_bind]. destruct (Hrec kids' Hk Hhk) as (nss & -> & Hnss). cbn [mbind option_bind].
    eexists. split; [done|]. unfold views at 1. cbn [map concat]. rewrite !view_unfold, Hfe, foldish_closed, Hline, Hnss.
    rewrite views_kids, Hv, <- views_kids. unfold folded, view_ids. rewrite filter_cons_True by done. cbn [fmap list_fmap].
    rewrite app_nil_r. cbn [app]. solve_Permutation.
  - destruct (Hrec kids Hkids) as (nss & -> & Hnss).
    { apply Forall_forall. intros k. apply height_kids. }
    cbn [mbind option_bind]. eexists. split; [done|]. unfold views at 1. cbn [map concat].
    rewrite app_nil_r, !view_unfold. destruct (foldish e); [rewrite Hnss|done].
    unfold folded, view_ids. rewrite filter_cons_False by (by rewrite Hopen). solve_Permutation.
Qed.

(** ** The spans of the lines *)

Lemma append_each_unfold p f i e kids :
  append_each p f i (Element e kids) =
  let '(j, kids') := append_kids_each p f (if p e then S i else i) kids in
  (j, Element e (kids' ++ if p e then f i else [])).
Proof.
  cbn [append_each]. generalize (if p e then f i else []). generalize (if p e then S i else i). intros j new.
  assert (H : forall j,
    (fix go (i : nat) (ks : list node) : nat * list node :=
       match ks with
       | [] => (i, [])
       | k :: ks => let '(i, k) := append_each p f i k in let '(i, ks) := go i ks in (i, k :: ks)
       end) j kids = append_kids_each p f j kids).
  { clear. induction kids as [|k ks IH]; intros j; [done|]. cbn [append_kids_each].
    destruct (append_each p f j k) as [j' k']. by rewrite IH. }
  by rewrite H.
Qed.

Lemma class_is_unique name1 c1 name2 c2 e :
  js c1 <> js c2 -> class_is name1 c1 e = true -> class_is name2 c2 e = false.
Proof.
  unfold class_is, has_attr. rewrite andb_true_iff, !bool_decide_eq_true. intros Hc [_ ->].
  apply andb_false_iff. right. apply bool_decide_eq_false. congruence.
Qed.

(** No fragment has the id of the toggle of the page. *)
Lemma id_not_all e : attrs e !! "id" = Some (js "foldopen" ++ id_of e) -> is_all e = false.
Proof. unfold is_all, has_id. intros ->. by apply bool_decide_eq_false. Qed.

Lemma node_ok_cases e kids :
  node_ok (Element e kids) = true ->
  is_fold e = false /\ forallb node_ok kids = true /\
  (if foldopen e then fragment_ok e kids = true /\ lineno e = false else foldish e = false).
Proof.
  cbn [node_ok]. rewrite !andb_true_iff, negb_true_iff. intros [[[? Hf] Ho] ?]. split; [done|]. split; [done|].
  destruct (foldopen e) eqn:He; [split; [done|]|by destruct (foldish e)].
  eapply class_is_unique; [|exact He]. done.
Qed.

Lemma node_ok_no_all n : node_ok n = true -> forallb (fun e => negb (is_all e)) (view n) = true.
Proof.
  induction n as [d|e kids IH] using node_ind'; [done|]. intros (_ & Hk & Hc)%node_ok_cases.
  assert (Hks : forallb (fun e => negb (is_all e)) (views kids) = true).
  { clear Hc. induction IH as [|k ks Hk1 _ IHks]; [done|]. cbn [forallb] in Hk. apply andb_true_iff in Hk as [? ?].
    unfold views in *. cbn [map concat]. rewrite forallb_app, Hk1, IHks; done. }
  rewrite view_unfold. destruct (foldopen e).
  - destruct Hc as [(Hid & ->)%fragment_id _]. cbn [forallb]. by rewrite (id_not_all e Hid), Hks.
  - by rewrite Hc.
Qed.

Lemma spans_ok_new e kids kids' new :
  is_fold e = false -> (if foldopen e then fragment_ok e kids = true /\ lineno e = false else foldish e = false) ->
  (foldopen e = true -> new = [] /\ omap kid_view kids' = omap kid_view kids /\
    forallb (fun e => negb (is_all e)) (views kids) = true) ->
  forallb spans_ok kids' = true -> forallb spans_ok new = true ->
  spans_ok (Element e (kids' ++ new)) = true.
Proof.
  intros Hf Hc Hsame Hk Hnew. cbn [spans_ok]. rewrite Hf, forallb_app, Hk, Hnew. cbn [implb andb].
  destruct (foldopen e) eqn:Ho; cbn [implb orb andb].
  - destruct (Hsame eq_refl) as (-> & Hv & Hall). destruct Hc as [Hc _]. rewrite app_nil_r.
    rewrite views_kids in Hall |- *. unfold fragment_ok in *. rewrite Hv, Hall, Hc. by destruct (foldish e).
  - by rewrite Hc.
Qed.

(** Behind the first line only spans without an id are added. *)
Definition after_ok (relPath : nat) (n : node) : Prop :=
  node_ok n = true -> forall i j n', append_each lineno (line_span relPath) (S i) n = (j, n') ->
  j <> O /\ spans_ok n' = true /\ kid_view n' = kid_view n.

Lemma kids_after relPath kids i j ks' :
  Forall (after_ok relPath) kids -> forallb node_ok kids = true ->
  append_kids_each lineno (line_span relPath) (S i) kids = (j, ks') ->
  j <> O /\ forallb spans_ok ks' = true /\ omap kid_view ks' = omap kid_view kids.
Proof.
  intros Hall Hk. revert i j ks'. induction Hall as [|k ks Hk1 _ IH]; intros i j ks'; cbn [append_kids_each].
  { by intros [= <- <-]. }
  cbn [forallb] in Hk. apply andb_true_iff in Hk as [Hok Hoks].
  destruct (append_each _ _ _ k) as [j1 k1] eqn:H1. destruct (Hk1 Hok _ _ _ H1) as (Hj1 & Hs1 & Hv1).
  destruct j1 as [|j1]; [done|]. destruct (append_kids_each _ _ _ ks) as [j2 ks2] eqn:H2.
  destruct (IH Hoks _ _ _ H2) as (Hj2 & Hs2 & Hv2). intros [= <- <-]. split; [done|]. cbn [forallb omap list_omap].
  by rewrite Hs1, Hs2, Hv1, Hv2.
Qed.

Lemma kids_no_all kids :
  forallb node_ok kids = true -> forallb (fun e => negb (is_all e)) (views kids) = true.
Proof.
  unfold views. induction kids as [|k ks IH]; [done|]. cbn [forallb map concat]. rewrite andb_true_iff, forallb_app.
  intros [Hk Hks]. by rewrite node_ok_no_all, IH.
Qed.

Lemma lines_after relPath n : after_ok relPath n.
Proof.
  induction n as [d|e kids IH] using node_ind'; [by intros _ i j n' [= <- <-]|].
  intros (Hf & Hk & Hc)%node_ok_cases i j n'. rewrite append_each_unfold.
  replace (if lineno e then S (S i) else S i) with (S (if lineno e then S i else i)) by (by destruct (lineno e)).
  destruct (append_kids_each _ _ _ kids) as [j' kids'] eqn:Hap.
  destruct (kids_after _ _ _ _ _ IH Hk Hap) as (Hj & Hs & Hv). intros [= <- <-]. split; [done|]. split.
  - eapply spans_ok_new; [done|exact Hc| |done|by destruct (lineno e)]. intros Ho. rewrite Ho in Hc.
    destruct Hc as [_ ->]. split; [done|]. split; [done|]. by apply kids_no_all.
  - cbn [kid_view]. rewrite !view_unfold, views_app, !(views_kids kids'), Hv, <- views_kids.
    replace (views (if lineno e then _ else [])) with (@nil elem) by (by destruct (lineno e)). by rewrite app_nil_r.
Qed.

(** The first line gets the toggle of the page, before there is a fragment. *)
Definition first_line (relPath : nat) (j : nat) (rest : list elem) (v v' : list elem) : Prop :=
  match j with O => v' = v /\ line_first rest = true | S _ => v' ≡ₚ all_span relPath :: v end.
Definition first_ok (relPath : nat) (n : node) : Prop :=
  node_ok n = true -> forall rest j n', line_first (elems n ++ rest) = true ->
  append_each lineno (line_span relPath) 0 n = (j, n') ->
  spans_ok n' = true /\ first_line relPath j rest (view n) (view n').

Lemma kids_first relPath kids rest j ks' :
  Forall (first_ok relPath) kids -> forallb node_ok kids = true ->
  line_first (concat (map elems kids) ++ rest) = true ->
  append_kids_each lineno (line_span relPath) 0 kids = (j, ks') ->
  forallb spans_ok ks' = true /\ first_line relPath j rest (views kids) (views ks').
Proof.
  intros Hall Hk. revert rest j ks'. induction Hall as [|k ks Hk1 _ IH]; intros rest j ks'; cbn [append_kids_each].
  { by intros H [= <- <-]. }
  cbn [forallb map concat] in *. apply andb_true_iff in Hk as [Hok Hoks]. rewrite <- app_assoc. intros Hrest.
  destruct (append_each _ _ _ k) as [j1 k1] eqn:H1. destruct (Hk1 Hok _ _ _ Hrest H1) as (Hs1 & Hv1).
  destruct (append_kids_each _ _ j1 ks) as [j2 ks2] eqn:H2. intros [= <- <-]. cbn [forallb]. rewrite Hs1.
  unfold views. cbn [map concat]. fold (views ks) (views ks2). destruct j1 as [|j1]; cbn [first_line] in Hv1.
  - destruct Hv1 as [-> Hr]. destruct (IH Hoks _ _ _ Hr H2) as [-> Hv2]. split; [done|].
    destruct j2 as [|j2]; cbn [first_line] in *; [destruct Hv2 as [-> ?]; done|]. rewrite Hv2. solve_Permutation.
  - destruct (kids_after relPath ks j1 j2 ks2) as (Hj2 & -> & Hv2); [|done|done|].
    { apply Forall_true. intros k'. apply lines_after. }
    split; [done|]. destruct j2 as [|j2]; [done|]. cbn [first_line]. by rewrite Hv1, views_kids, Hv2, <- views_kids.
Qed.

Lemma lines_first relPath n : first_ok relPath n.
Proof.
  induction n as [d|e kids IH] using node_ind'; [by intros _ rest j n' H [= <- <-]|].
  intros (Hf & Hk & Hc)%node_ok_cases rest j n'. cbn [elems app line_first]. rewrite append_each_unfold.
  destruct (lineno e) eqn:Hl.
  - intros _. destruct (append_kids_each _ _ _ kids) as [j' kids'] eqn:Hap. intros [= <- <-].
    destruct (kids_after relPath kids 0 j' kids') as (Hj & Hs & Hv); [|done|done|].
    { apply Forall_true. intros k. apply lines_after. }
    assert (Ho : foldopen e = false) by (eapply class_is_unique; [|exact Hl]; done). rewrite Ho in Hc.
    split; [apply (spans_ok_new e kids); [done|by rewrite Ho; exact Hc|by rewrite Ho|done..]|].
    destruct j' as [|j']; [done|]. cbn [first_line]. rewrite !view_unfold, Hc, views_app, views_kids, Hv, <- views_kids.
    change (views (line_span relPath 0)) with [all_span relPath]. solve_Permutation.
  - destruct (foldopen e) eqn:Ho; [done|]. intros Hrest.
    destruct (append_kids_each _ _ _ kids) as [j' kids'] eqn:Hap. intros [= <- <-].
    destruct (kids_first _ _ _ _ _ IH Hk Hrest Hap) as [Hs Hv].
    split; [apply (spans_ok_new e kids); [done|by rewrite Ho; exact Hc|by rewrite Ho|done..]|].
    by rewrite !view_unfold, Hc, app_nil_r.
Qed.

(** ** The style of the lines *)

Definition line_css (e : elem) : elem := if lineno e then css lineno_styles e else e.

Lemma css_attrs styles e : tag (css styles e) = tag e /\ attrs (css styles e) = attrs e.
Proof.
  unfold css. revert e. induction styles as [|[k v] styles IH]; intros e; [done|]. cbn [foldl].
  by destruct (IH (setStyle k v e)) as [-> ->].
Qed.

Lemma line_css_class name c e : class_is name c (line_css e) = class_is name c e.
Proof.
  unfold line_css, class_is, has_attr. destruct (lineno e); [|done]. by destruct (css_attrs lineno_styles e) as [-> ->].
Qed.

Lemma line_css_foldish e : foldish (line_css e) = foldish e.
Proof.
  apply (foldish_map line_css). unfold line_css. destruct (lineno e); [|done].
  by destruct (css_attrs lineno_styles e) as [_ ->].
Qed.

Definition seen_fragment (e : elem) : Prop :=
  foldopen e = true /\ lineno e = false /\ attrs e !! "id" = Some (js "foldopen" ++ id_of e) /\ hidden e = false.

Lemma node_ok_view n : node_ok n = true -> Forall seen_fragment (view n).
Proof.
  induction n as [d|e kids IH] using node_ind'; [by constructor|]. intros (_ & Hk & Hc)%node_ok_cases.
  assert (Hks : Forall seen_fragment (views kids)).
  { clear Hc. unfold views. induction IH as [|k ks Hk1 _ IHks]; [by constructor|]. cbn [forallb map concat] in *.
    apply andb_true_iff in Hk as [? ?]. apply Forall_app. auto. }
  rewrite view_unfold. destruct (foldopen e) eqn:Ho; [|by rewrite Hc].
  destruct (foldish e); [|done]. constructor; [|done]. destruct Hc as [Hc Hl].
  destruct (fragment_id e kids Hc) as [Hid _]. unfold fragment_ok in Hc. rewrite !andb_true_iff, negb_true_iff in Hc.
  unfold seen_fragment. tauto.
Qed.

Lemma line_css_view n : node_ok n = true -> view (map_elems line_css n) = view n.
Proof.
  intros Hn. rewrite view_map by apply line_css_foldish. apply node_ok_view in Hn.
  induction Hn as [|e es (_ & He & _) _ IH]; [done|]. rewrite fmap_cons, IH. unfold line_css. by rewrite He.
Qed.

Lemma line_css_ok n : node_ok n = true -> node_ok (map_elems line_css n) = true.
Proof.
  induction n as [d|e kids IH] using node_ind'; [done|]. intros Hn.
  destruct (node_ok_cases e kids Hn) as (Hf & Hk & Hc). cbn [map_elems node_ok].
  assert (Hkids : forallb node_ok (map (map_elems line_css) kids) = true /\
    omap kid_view (map (map_elems line_css) kids) = omap kid_view kids).
  { clear Hn Hc. induction IH as [|k ks Hk1 _ IHks]; [done|]. cbn [forallb map] in *.
    apply andb_true_iff in Hk as [Hok Hoks]. destruct (IHks Hoks) as [H1 H2]. rewrite Hk1, H1 by done.
    split; [done|]. cbn [omap list_omap]. rewrite H2.
    replace (kid_view (map_elems line_css k)) with (kid_view k); [done|].
    destruct k as [d|e' kk]; [done|]. cbn [kid_view map_elems]. f_equal. symmetry. by apply (line_css_view (Element e' kk)). }
  destruct Hkids as [-> Hv]. unfold is_fold, foldopen, fragment_ok. rewrite !line_css_class, line_css_foldish, Hv.
  fold (is_fold e) (foldopen e). rewrite Hf. destruct (foldopen e) eqn:Ho; cbn [implb].
  - destruct Hc as [Hc Hl]. unfold line_css. rewrite Hl. unfold fragment_ok in Hc. rewrite Hc. by destruct (foldish e).
  - by rewrite Hc.
Qed.

Lemma line_first_css es rest :
  line_first ((line_css <$> es) ++ rest) = line_first (es ++ rest).
Proof.
  induction es as [|e es IH]; [done|]. rewrite fmap_cons. cbn [app line_first]. unfold lineno at 1, foldopen at 1.
  by rewrite !line_css_class, IH.
Qed.

Lemma add_spans_ok relPath doc :
  page_ok doc = true ->
  spans_ok (add_spans relPath doc) = true /\ view (add_spans relPath doc) ≡ₚ all_span relPath :: view doc.
Proof.
  unfold page_ok. rewrite !andb_true_iff. intros [[Hn Hl] _]. unfold add_spans, css_all. fold line_css.
  destruct (append_each _ _ _ _) as [j n'] eqn:Hap.
  destruct (lines_first relPath _ (line_css_ok doc Hn) [] j n') as [Hs Hv]; [|done|].
  { by rewrite elems_map, line_first_css, app_nil_r. }
  split; [done|]. cbn [snd]. destruct j as [|j]; cbn [first_line] in Hv; [by destruct Hv|].
  by rewrite Hv, line_css_view.
Qed.

(** The fragments are seen by their ids. *)
Lemma view_ids_elems n : node_ok n = true -> view_ids (view n) = fold_ids n.
Proof.
  intros Hn. unfold fold_ids, view_ids. f_equal.
  assert (H : forall n, node_ok n = true -> Forall (fun e => foldopen e = true -> foldish e = true) (elems n)).
  { clear. intros n. induction n as [d|e kids IH] using node_ind'; [constructor|].
    intros (_ & Hk & Hc)%node_ok_cases. cbn [elems]. constructor.
    - intros He. rewrite He in Hc. destruct Hc as [[_ ?]%fragment_id _]. done.
    - clear Hc. induction IH as [|k ks Hk1 _ IHks]; [constructor|]. cbn [forallb map concat] in *.
      apply andb_true_iff in Hk as [? ?]. apply Forall_app. auto. }
  specialize (H n Hn). unfold view. induction H as [|e es He _ IH]; [done|]. rewrite !filter_cons.
  destruct (foldish e) eqn:Hf, (foldopen e) eqn:Ho; rewrite ?decide_True, ?decide_False by done.
  all: rewrite ?filter_cons, ?Ho, ?decide_True, ?decide_False by done; try by rewrite IH.
  by specialize (He eq_refl).
Qed.

Lemma init_codefold_view relPath doc :
  page_ok doc = true ->
  exists doc', init_codefold relPath doc = Some doc' /\
    view doc' ≡ₚ (closed_div <$> fold_ids doc) ++ all_span relPath :: view doc.
Proof.
  intros Hok. destruct (add_spans_ok relPath doc Hok) as [Hs Hv].
  unfold init_codefold. set (d := add_spans relPath doc) in *.
  destruct (fold_node_ok relPath (height d) d Hs) as (ns & Hns & Hvn); [done|]. rewrite Hns. cbn [mbind option_bind].
  assert (Hone : exists d', ns = [d']).
  { unfold page_ok in Hok. rewrite !andb_true_iff in Hok. destruct Hok as [[_ Hl] _]. clear Hvn Hv Hs.
    destruct doc as [t|e kids]; [done|]. subst d. unfold add_spans, css_all in Hns. fold line_css in Hns.
    cbn [map_elems elems line_first] in *. rewrite append_each_unfold in Hns.
    destruct (append_kids_each _ _ _ _) as [j kids']. cbn [snd height fold_node] in Hns.
    assert (Ho : foldopen (line_css e) = false).
    { unfold foldopen. rewrite line_css_class. destruct (lineno e) eqn:Hle.
      - eapply class_is_unique; [|exact Hle]. done.
      - unfold foldopen in Hl. by destruct (class_is "div" "foldopen" e). }
    rewrite Ho in Hns. destruct (mapM _ _); [|done]. injection Hns as <-. by eexists. }
  destruct Hone as [d' ->]. exists d'. split; [done|]. unfold views in Hvn. cbn [map concat] in Hvn.
  rewrite app_nil_r in Hvn. rewrite Hvn. unfold folded, view_ids. rewrite Hv.
  rewrite filter_cons_False by done. change (id_of <$> filter _ (view doc)) with (view_ids (view doc)).
  unfold page_ok in Hok. rewrite !andb_true_iff in Hok. by rewrite view_ids_elems by apply Hok.
Qed.

(** ** What is seen of a page *)

Definition id_in (es : list elem) : list jsstring := elem_id <$> es.

Lemma view_lookup doc e id :
  NoDup (id_in (view doc)) -> e ∈ view doc -> attrs e !! "id" = Some id -> elem_by_id doc id = Some e.
Proof.
  intros Hnd He Hid. unfold view in He. apply list_elem_of_filter in He as [Hf He].
  destruct (elem_by_id_found doc id e He Hid) as [e' He']. rewrite He'. f_equal.
  assert (Hid' := elem_by_id_has_id _ _ _ He'). apply elem_by_id_elems in He'.
  assert (Hin : forall x, x ∈ elems doc -> attrs x !! "id" = Some id -> x ∈ view doc).
  { intros x Hx Hxid. apply list_elem_of_filter. split; [|done]. unfold foldish in *. rewrite Hxid. by rewrite Hid in Hf. }
  apply Hin in He; [|done]. apply Hin in He'; [|done]. unfold id_in in Hnd.
  apply list_elem_of_lookup in He as [i Hi], He' as [j Hj].
  assert (i = j) as ->; [|congruence]. eapply NoDup_lookup; [exact Hnd| |]; rewrite list_lookup_fmap.
  - by rewrite Hi.
  - rewrite Hj. unfold elem_id. cbn. by rewrite Hid, Hid'.
Qed.

(** The elements of a page show what a state of [DynSections] says. *)
Record shows (relPath : nat) (pg : code_page) (s : fold_state) : Prop := {
  shows_opened : opened pg = DynSections.opened s;
  shows_all : exists e, elem_by_id (doc pg) (js "fold_all") = Some e /\ tag e = "span"%string /\
    style e !! "background-image" = (if all_minus s then minusImg else plusImg) !! relPath;
  shows_folds : Forall (fun f => exists eo ec,
    elem_by_id (doc pg) (js "foldopen" ++ fold_id f) = Some eo /\ tag eo = "div"%string /\
    elem_by_id (doc pg) (js "foldclosed" ++ fold_id f) = Some ec /\ tag ec = "div"%string /\
    hidden eo = negb (open_visible f) /\ hidden ec = negb (closed_visible f)) (folds s);
}.

Lemma fold_ids_view doc : node_ok doc = true -> fold_ids doc = id_of <$> view doc.
Proof.
  intros Hn. rewrite <- view_ids_elems by done. unfold view_ids. f_equal. apply node_ok_view in Hn.
  induction Hn as [|e es [He _] _ IH]; [done|]. by rewrite filter_cons_True, IH.
Qed.

Lemma fold_names_NoDup doc :
  page_ok doc = true -> NoDup (id_in ((closed_div <$> fold_ids doc) ++ all_span 0 :: view doc)).
Proof.
  unfold page_ok. rewrite !andb_true_iff, bool_decide_eq_true. intros [[Hn _] Hnd].
  assert (Hids : id_in (view doc) = (app (js "foldopen")) <$> fold_ids doc).
  { rewrite fold_ids_view by done. unfold id_in. rewrite <- list_fmap_compose. apply node_ok_view in Hn.
    induction Hn as [|e es (_ & _ & He & _) _ IH]; [done|]. rewrite !fmap_cons, IH. f_equal.
    unfold elem_id at 1. by rewrite He. }
  assert (Hcl : id_in (closed_div <$> fold_ids doc) = (app (js "foldclosed")) <$> fold_ids doc).
  { unfold id_in. by rewrite <- list_fmap_compose. }
  unfold id_in in *. rewrite fmap_app, fmap_cons, Hids, Hcl. apply NoDup_app.
  split; [by apply (NoDup_fmap_2 _)|]. split.
  - intros x (id & -> & _)%list_elem_of_fmap [H|(id' & H & _)%list_elem_of_fmap]%elem_of_cons; discriminate H.
  - apply NoDup_cons. split; [|by apply (NoDup_fmap_2 _)].
    intros (id & H & _)%list_elem_of_fmap. discriminate H.
Qed.

Lemma init_shows relPath doc :
  page_ok doc = true -> (relPath < 2)%nat ->
  exists doc', init_codefold relPath doc = Some doc' /\
    shows relPath {| doc := doc'; opened := true |} (DynSections.init_codefold (fold_ids doc)).
Proof.
  intros Hok Hrel. destruct (init_codefold_view relPath doc Hok) as (doc' & Hinit & Hview).
  exists doc'. split; [done|]. pose proof (fold_names_NoDup doc Hok) as Hnd.
  unfold page_ok in Hok. rewrite !andb_true_iff in Hok. destruct Hok as [[Hn _] _].
  assert (Hnd' : NoDup (id_in (view doc'))).
  { unfold id_in in *. rewrite Hview. by rewrite fmap_app, fmap_cons in *. }
  pose proof (fun e id => view_lookup doc' e id Hnd') as Hfind. setoid_rewrite Hview in Hfind.
  split; [done| |].
  - exists (all_span relPath). split; [|split; [done|]].
    + apply Hfind; [|done]. apply elem_of_app. right. by left.
    + by destruct relPath as [|[|]]; [| |lia].
  - apply Forall_fmap, Forall_forall. intros id Hid. cbn [compose fold_id open_visible closed_visible].
    assert (He := Hid). rewrite fold_ids_view in He by done. apply list_elem_of_fmap in He as (e & -> & He).
    pose proof (node_ok_view doc Hn) as Hv. rewrite Forall_forall in Hv. destruct (Hv e He) as (Ho & _ & Heid & Hh).
    exists e, (closed_div (id_of e)). split; [|split; [|split; [|split; [done|]]]].
    + apply Hfind; [|done]. apply elem_of_app. right. by right.
    + unfold foldopen, class_is in Ho. rewrite andb_true_iff, bool_decide_eq_true in Ho. apply Ho.
    + apply Hfind; [|done]. apply elem_of_app. left. apply list_elem_of_fmap. by eexists.
    + split; [done|]. by apply bool_decide_eq_true.
Qed.

(** ** Clicks *)

Lemma has_id_image v id e : has_id id (set_image v e) = has_id id e.
Proof. by destruct v. Qed.

(** [show] and [hide] of the elements with a beginning of an id, seen at one of them. *)
Definition on_divs (prefix : string) (f : elem -> elem) : node -> node :=
  map_elems (fun e => if id_begins "div" prefix e then f e else e).

Lemma elem_by_id_divs prefix f doc id e :
  (forall i e, has_id i (f e) = has_id i e) -> elem_by_id doc id = Some e ->
  elem_by_id (on_divs prefix f doc) id =
  Some (if bool_decide (tag e = "div"%string) && bool_decide (js prefix `prefix_of` id) then f e else e).
Proof.
  intros Hf He. unfold on_divs. rewrite elem_by_id_map, He.
  - cbn [fmap option_fmap option_map]. f_equal. unfold id_begins. by rewrite (elem_by_id_has_id doc id e He).
  - intros e'. destruct (id_begins _ _ e'); [apply Hf|done].
Qed.

Lemma image_tag v e : tag (set_image v e) = tag e.
Proof. by destruct v. Qed.
Lemma show_tag e : tag (show e) = tag e.
Proof. unfold show. by destruct (hidden e). Qed.
Lemma hide_tag e : tag (hide e) = tag e.
Proof. unfold hide. by destruct (hidden e). Qed.
Lemma toggle_tag e : tag (toggle e) = tag e.
Proof. unfold toggle. destruct (hidden e); [apply show_tag|apply hide_tag]. Qed.

(** All open forms get [f], all closed ones [g]; the toggle of the page gets the image [v]. *)
Lemma divs_shown v f g doc :
  (forall i e, has_id i (f e) = has_id i e) -> (forall i e, has_id i (g e) = has_id i e) ->
  (forall e, tag (f e) = tag e) -> (forall e, tag (g e) = tag e) ->
  let doc' := on_divs "foldclosed" g (on_divs "foldopen" f (alter_id (js "fold_all") (set_image v) doc)) in
  (forall e, elem_by_id doc (js "fold_all") = Some e -> tag e = "span"%string ->
    elem_by_id doc' (js "fold_all") = Some (set_image v e)) /\
  (forall id e, elem_by_id doc (js "foldopen" ++ id) = Some e -> tag e = "div"%string ->
    elem_by_id doc' (js "foldopen" ++ id) = Some (f e)) /\
  (forall id e, elem_by_id doc (js "foldclosed" ++ id) = Some e -> tag e = "div"%string ->
    elem_by_id doc' (js "foldclosed" ++ id) = Some (g e)).
Proof.
  intros Hf Hg Htf Htg doc'. subst doc'.
  assert (Hall : forall i e, elem_by_id doc i = Some e ->
    let on (prefix : string) (f : elem -> elem) (e : elem) :=
      if bool_decide (tag e = "div"%string) && bool_decide (js prefix `prefix_of` i) then f e else e in
    elem_by_id (on_divs "foldclosed" g (on_divs "foldopen" f (alter_id (js "fold_all") (set_image v) doc))) i
    = Some (on "foldclosed"%string g (on "foldopen"%string f (if decide (i = js "fold_all") then set_image v e else e)))).
  { intros i e He. cbn zeta. apply elem_by_id_divs, elem_by_id_divs; [done..|].
    rewrite elem_by_id_alter, He by (intros; apply has_id_image). by destruct (decide _). }
  cbn zeta in Hall. split; [|split].
  - intros e He Ht. rewrite (Hall _ _ He). rewrite decide_True by done.
    rewrite (bool_decide_eq_false_2 (tag (set_image v e) = "div"%string)) by (by rewrite image_tag, Ht). cbn [andb].
    rewrite (bool_decide_eq_false_2 (tag (set_image v e) = "div"%string)) by (by rewrite image_tag, Ht). done.
  - intros id e He Ht. rewrite (Hall _ _ He). rewrite decide_False by discriminate.
    rewrite Ht, (bool_decide_eq_true_2 (js "foldopen" `prefix_of` _)) by by apply prefix_app_r.
    rewrite (bool_decide_eq_true_2 ("div"%string = _)) by done. cbn [andb]. rewrite Htf.
    rewrite (bool_decide_eq_false_2 (js "foldclosed" `prefix_of` _)); [by rewrite andb_false_r|].
    intros [k Hk]. discriminate Hk.
  - intros id e He Ht. rewrite (Hall _ _ He). rewrite decide_False by discriminate.
    rewrite (bool_decide_eq_false_2 (js "foldopen" `prefix_of` _)) by (intros [k Hk]; discriminate Hk).
    rewrite andb_false_r, Ht, (bool_decide_eq_true_2 (js "foldclosed" `prefix_of` _)) by by apply prefix_app_r. done.
Qed.

Lemma toggle_all_shows relPath pg s :
  (relPath < 2)%nat -> shows relPath pg s -> all_minus s = DynSections.opened s ->
  shows relPath (codefold_toggle_all relPath pg) (DynSections.codefold_toggle_all s).
Proof.
  intros Hrel [Ho (ea & Hea & Hta & _) Hf] Hm. unfold codefold_toggle_all, DynSections.codefold_toggle_all. rewrite Ho.
  pose proof (fun v f g => divs_shown v f g (doc pg)) as Hd. unfold on_divs in Hd.
  assert (Himg : forall v e, set_image (Some v) e = setStyle "background-image" v e) by done.
  destruct (DynSections.opened s); cbn [negb] in *.
  - destruct (Hd (plusImg !! relPath) hide show) as (Ha & Hop & Hcl);
      [apply has_id_hide|apply has_id_show|apply hide_tag|apply show_tag|].
    split; cbn [doc opened DynSections.opened all_minus folds]; [done| |].
    + exists (set_image (plusImg !! relPath) ea). split; [by apply Ha|]. rewrite image_tag. split; [done|].
      destruct relPath as [|[|]]; [| |lia]; cbn; by rewrite lookup_insert_eq.
    + apply Forall_fmap. eapply Forall_impl; [exact Hf|]. intros f (eo & ec & Heo & Hto & Hec & Htc & _).
      cbn [compose fold_id open_visible closed_visible]. exists (hide eo), (show ec).
      rewrite hide_tag, show_tag, hidden_hide, hidden_show. auto 10.
  - destruct (Hd (minusImg !! relPath) show hide) as (Ha & Hop & Hcl);
      [apply has_id_show|apply has_id_hide|apply show_tag|apply hide_tag|].
    split; cbn [doc opened DynSections.opened all_minus folds]; [done| |].
    + exists (set_image (minusImg !! relPath) ea). split; [by apply Ha|]. rewrite image_tag. split; [done|].
      destruct relPath as [|[|]]; [| |lia]; cbn; by rewrite lookup_insert_eq.
    + apply Forall_fmap. eapply Forall_impl; [exact Hf|]. intros f (eo & ec & Heo & Hto & Hec & Htc & _).
      cbn [compose fold_id open_visible closed_visible]. exists (show eo), (hide ec).
      rewrite hide_tag, show_tag, hidden_hide, hidden_show. auto 10.
Qed.

Lemma elem_by_id_toggle doc i j e :
  elem_by_id doc j = Some e ->
  elem_by_id (alter_id i toggle doc) j = Some (if decide (j = i) then toggle e else e).
Proof.
  intros He. rewrite elem_by_id_alter by (intros; apply has_id_toggle). rewrite He. by destruct (decide _).
Qed.

Lemma toggle_shows relPath pg s id :
  shows relPath pg s -> shows relPath (codefold_toggle id pg) (DynSections.codefold_toggle id s).
Proof.
  intros [Ho (ea & Hea & Hta & Him) Hf]. split; cbn [codefold_toggle doc opened DynSections.codefold_toggle
    DynSections.opened all_minus folds]; [done| |].
  - exists ea. split; [|done].
    rewrite (elem_by_id_toggle _ _ _ ea); [by rewrite decide_False by discriminate|].
    rewrite (elem_by_id_toggle _ _ _ ea) by done. by rewrite decide_False by discriminate.
  - apply Forall_fmap. eapply Forall_impl; [exact Hf|].
    intros f (eo & ec & Heo & Hto & Hec & Htc & Hho & Hhc). cbn [compose].
    exists (if decide (fold_id f = id) then toggle eo else eo), (if decide (fold_id f = id) then toggle ec else ec).
    assert (Hid : fold_id (if bool_decide (fold_id f = id)
      then {| fold_id := fold_id f; open_visible := negb (open_visible f); closed_visible := negb (closed_visible f) |}
      else f) = fold_id f) by (by destruct (bool_decide _)).
    rewrite Hid. repeat split.
    + erewrite elem_by_id_toggle; [rewrite decide_False by discriminate; reflexivity|].
      erewrite elem_by_id_toggle by done. destruct (decide (fold_id f = id)) as [->|Hne]; [by rewrite decide_True|].
      rewrite decide_False; [done|]. by intros ?%app_inv_head.
    + destruct (decide _); by rewrite ?toggle_tag.
    + erewrite elem_by_id_toggle; [|erewrite elem_by_id_toggle by done; rewrite decide_False by discriminate; reflexivity].
      destruct (decide (fold_id f = id)) as [->|Hne]; [by rewrite decide_True|].
      rewrite decide_False; [done|]. by intros ?%app_inv_head.
    + destruct (decide _); by rewrite ?toggle_tag.
    + destruct (decide _); [rewrite bool_decide_eq_true_2, hidden_toggle, Hho|rewrite bool_decide_eq_false_2]; done.
    + destruct (decide _); [rewrite bool_decide_eq_true_2, hidden_toggle, Hhc|rewrite bool_decide_eq_false_2]; done.
Qed.

(** ** Properties *)

(** C34: the page [init_codefold] makes of a page of Doxygen, and what any clicks make of it, are
    the states of the abstract folds: each fragment is seen in exactly one of its two forms, and
    the toggle of the page shows the image of what it will do. *)
Theorem codefold_refines : forall relPath page acts,
  page_ok page = true -> (relPath < 2)%nat ->
  exists page', init_codefold relPath page = Some page' /\
    let pg := foldl (click relPath) {| doc := page'; opened := true |} acts in
    shows relPath pg (foldl fold_act (DynSections.init_codefold (fold_ids page)) acts) /\
    forall id, id ∈ fold_ids page -> exists eo ec,
      elem_by_id (doc pg) (js "foldopen" ++ id) = Some eo /\
      elem_by_id (doc pg) (js "foldclosed" ++ id) = Some ec /\ hidden ec = negb (hidden eo).
Proof.
  intros relPath page acts Hok Hrel. destruct (init_shows relPath page Hok Hrel) as (page' & Hinit & Hs).
  exists page'. split; [done|]. cbn zeta.
  assert (H : shows relPath (foldl (click relPath) {| doc := page'; opened := true |} acts)
    (foldl fold_act (DynSections.init_codefold (fold_ids page)) acts)).
  { induction acts as [|a acts IH] using rev_ind; [done|]. rewrite !foldl_app. cbn [foldl].
    destruct a; cbn [click fold_act]; [|by apply toggle_shows].
    apply toggle_all_shows; [done..|]. apply codefold_exclusive. }
  split; [done|]. intros id Hid. destruct (codefold_exclusive (fold_ids page) acts) as (Hids & _ & Hx & _).
  cbn zeta in *. set (s := foldl fold_act _ acts) in *. rewrite <- Hids in Hid.
  apply list_elem_of_fmap in Hid as (f & -> & Hf). destruct H as [_ _ Hfolds].
  rewrite Forall_forall in Hx, Hfolds. destruct (Hfolds f Hf) as (eo & ec & Heo & _ & Hec & _ & Hho & Hhc).
  exists eo, ec. split; [done|]. split; [done|]. rewrite Hhc, Hho, (Hx f Hf). by destruct (closed_visible f).
Qed.

(** ** Witnesses *)


Definition attrs_elem (name : string) (l : list (string * string)) : elem :=
  foldl (fun e '(k, v) => setAttribute k (js v) e) (createElement name) l.

Definition code_line (n text : string) : node :=
  Element (attrs_elem "div" [("class", "line")])
    [Element (attrs_elem "span" [("class", "lineno")]) [Text (js n)]; Text (js text)].

Definition sample_page : node :=
  Element (createElement "html")
    [code_line "1" "// a file";
     Element (attrs_elem "div" [("class", "foldopen"); ("id", "foldopen00002"); ("data-start", "{"); ("data-end", "}")])
       [code_line "2" "namespace stgs {";
        Element (attrs_elem "div" [("class", "foldopen"); ("id", "foldopen00003"); ("data-start", "{"); ("data-end", "};")])
          [code_line "3" "struct Frame"; code_line "4" "{ int id;"; code_line "5" "};"];
        code_line "6" "}"]].

Lemma codefold_refines_witness :
  exists page', init_codefold 0 sample_page = Some page' /\
    let pg := foldl (click 0) {| doc := page'; opened := true |} [ToggleOne (js "00003"); ToggleAll; ToggleOne (js "00002")] in
    shows 0 pg (foldl fold_act (DynSections.init_codefold (fold_ids sample_page))
      [ToggleOne (js "00003"); ToggleAll; ToggleOne (js "00002")]) /\
    forall id, id ∈ fold_ids sample_page -> exists eo ec,
      elem_by_id (doc pg) (js "foldopen" ++ id) = Some eo /\
      elem_by_id (doc pg) (js "foldclosed" ++ id) = Some ec /\ hidden ec = negb (hidden eo).
Proof. apply (codefold_refines 0 sample_page); [vm_compute; reflexivity|lia]. Defined.
