(* ===== verification/Tooltips.v ===== *)
(** The tooltips of the code listings: the handler at the end of [dynsections.js], which gives each
    link to a definition the description that lies hidden in the page. The plug-in that shows it,
    [powerTip], is not part of the model. *)

From S2P Require Import Prelude TextFormat JsCore Dom JQuery.

(** ** The id of a description *)

(** [.] matches no end of a line. *)
Definition line_end (c : Z) : bool := bool_decide (c ∈ [10; 13; 8232; 8233]).
Definition slash : Z := 47.

(** The rest of the line behind its last slash. *)
Fixpoint behind_slash (line : jsstring) : option jsstring :=
  match line with
  | [] => None
  | c :: line =>
      match behind_slash line with
      | Some rest => Some rest
      | None => if c =? slash then Some line else None
      end
  end.

(** [href.replace(/.*\//, '')]: the leftmost match begins the first line that has a slash. [line] is
    what was read of the current line. *)
Fixpoint cut_path (line s : jsstring) : jsstring :=
  match s with
  | [] => default line (behind_slash line)
  | c :: s =>
      if line_end c then
        match behind_slash line with
        | Some rest => rest ++ c :: s
        | None => line ++ c :: cut_path [] s
        end
      else cut_path (line ++ [c]) s
  end.

(** [[a-z_A-Z0-9]] *)
Definition word_char (c : Z) : bool :=
  (97 <=? c) && (c <=? 122) || (c =? 95) || (65 <=? c) && (c <=? 90) || is_digit c.

Definition tooltip_id (href : jsstring) : jsstring :=
  js "a" ++ ((fun c => if word_char c then c else 95) <$> cut_path [] href).

Example tooltip_id_sample :
  tooltip_id (js "../html/classstgs_1_1Logger.html#a0f") = js "aclassstgs_1_1Logger_html_a0f".
Proof. vm_compute. reflexivity. Qed.

(** The id is a name that the selector ['#' + id] reads as this id: no character of it is special. *)
Lemma tooltip_id_name href : Forall (fun c => word_char c = true) (tooltip_id href) /\ head (tooltip_id href) = Some 97.
Proof.
  split; [|done]. apply Forall_app. split; [by constructor|]. apply Forall_fmap, Forall_true. intros c.
  cbn. by destruct (word_char c) eqn:E.
Qed.

(** ** The handler *)

(** What [data('powertip')] is: the contents of the description, undefined when there is none. A link
    without [href] ends the handler with an exception. *)
Definition tooltip (doc : node) (link : elem) : option (option (list node)) :=
  href ← attrs link !! "href";
  Some (p ← getElementById doc (tooltip_id href); kids_of <$> node_at doc p).

Definition is_code (e : elem) : bool :=
  let words := class_words (className e) in
  bool_decide (js "code" ∈ words) || bool_decide (js "codeRef" ∈ words).

(** The links with their tooltips, up to the exception. *)
Definition tooltips (doc : node) : option (list (path * option (list node))) :=
  mapM (fun p => link ← elem_at doc p; t ← tooltip doc link; Some (p, t)) (select is_code doc).
