(* ===== verification/MenuPage.v ===== *)
(** [menu.js] on the page: where [initMenu] puts the menu and the search box, and what [resetState],
    the checkbox of the narrow layout and the ends of its animations do to them, in any order.
    [DocMenu] has the markup and what it means.

    The parser behind the jQuery calls is the one of [Page.Browser]; literals of the script are given
    as the trees they stand for. *)

From S2P Require Import Prelude TextFormat JsCore Dom JQuery Page DocMenu.

(** ** The literals *)

(** The first markup, in front of the menu. *)
Definition pos1_elem : elem :=
  setStyle "position" (js "absolute") (setStyle "right" (js "8px") (setStyle "top" (js "8px")
    (setStyle "height" (js "36px") (setAttribute "id" (js "searchBoxPos1") (createElement "span"))))).
Definition state_div (pos1_kids : list node) : node :=
  Element (setAttribute "class" (js "sm sm-dox") (createElement "div"))
    [Element (setAttribute "type" (js "checkbox") (setAttribute "id" (js "main-menu-state") (createElement "input"))) [];
     Element (setAttribute "for" (js "main-menu-state") (setAttribute "class" (js "main-menu-btn") (createElement "label")))
       [Element (setAttribute "class" (js "main-menu-btn-icon") (createElement "span")) [];
        Text (js " Toggle main menu visibility")];
     Element pos1_elem pos1_kids].

Definition pos2_elem : elem :=
  setStyle "float" (js "right") (setAttribute "id" (js "searchBoxPos2") (createElement "li")).

(** ** [initMenu] *)

(** The document, the variable [prevWidth], the property [checked] of the checkbox, and whether the
    handlers are installed; the animations of the menu, the one that runs first, [true] for
    [slideDown]; [closed] counts the calls of [CloseResultsWindow]. *)
Record menu_page := mkMenuPage {
  document : node;
  page_width : Z;
  checked : bool;
  handled : bool;
  slides : list bool;
  closed : nat;
}.

Definition set_document (d : node) (pg : menu_page) : menu_page :=
  mkMenuPage d (page_width pg) (checked pg) (handled pg) (slides pg) (closed pg).

(** The window gets a width, the box of the narrow layout is checked or not, the animation that runs
    comes to its end. *)
Inductive window_action := Resize (width : Z) | CheckMenu (checked : bool) | SlideEnds.

Section Menu.
Context `{B : Browser}.

(** [children(':first')] with the call on it. *)
Fixpoint alter_first (f : elem -> elem) (ks : list node) : list node :=
  match ks with
  | [] => []
  | Text d :: ks => Text d :: alter_first f ks
  | Element e kids :: ks => Element (f e) kids :: ks
  end.
Fixpoint alter_first_child (f : elem -> elem) (n : node) (p : path) : node :=
  match n, p with
  | Text _, _ => n
  | Element e kids, [] => Element e (alter_first f kids)
  | Element e kids, i :: p => Element e (alter (fun k => alter_first_child f k p) i kids)
  end.

(** The box, undefined without a search. *)
Definition box_markup (searchEnabled serverSide : bool) (relPath searchPage search : jsstring) : option jsstring :=
  if searchEnabled then Some (searchBoxHtml serverSide relPath searchPage search) else None.

(** Up to the installation of the handlers, which is skipped without the checkbox. *)
Definition initMenu (relPath : jsstring) (box : option jsstring) (doc : node) : menu_page :=
  let doc := on_id (js "main-nav") (insert_before [state_div []]) doc in
  let doc := on_id (js "main-nav") (append_kids (parseHTML (makeTree menudata relPath))) doc in
  let doc := on_id (js "main-nav")
    (alter_first_child (fun e => setAttribute "id" (js "main-menu") (addClass [js "sm"; js "sm-dox"] e))) doc in
  let doc := match box with
    | Some _ => on_id (js "main-menu") (append_kids [Element pos2_elem []]) doc
    | None => doc
    end in
  mkMenuPage doc 0 false
    (match getElementById doc (js "main-menu-state") with Some _ => true | None => false end) [] 0.

(** [html(box)] *)
Definition put_html (id : string) (box : option jsstring) (doc : node) : node :=
  match box with Some html => on_id (js id) (replace_kids (parseHTML html)) doc | None => doc end.

Definition resetState (box : option jsstring) (searchBox_defined : bool) (newWidth : Z) (pg : menu_page) : menu_page :=
  if negb (newWidth =? page_width pg) then
    let '(doc, checked) :=
      if newWidth <? 768 then
        (alter_id (js "searchBoxPos2") hide (put_html "searchBoxPos1" box (alter_id (js "main-menu") hide (document pg))), false)
      else
        (alter_id (js "searchBoxPos2") show (put_html "searchBoxPos2" box
          (on_id (js "searchBoxPos1") (replace_kids []) (alter_id (js "main-menu") show (document pg)))), checked pg) in
    mkMenuPage doc newWidth checked (handled pg) (slides pg) (if searchBox_defined then S (closed pg) else closed pg)
  else pg.

(** jQuery runs the animations of an element one after the other. [slideDown] shows the element where
    it begins; the height of the element on the way is left out. *)
Definition start_slide (queue : list bool) (doc : node) : node :=
  match queue with true :: _ => alter_id (js "main-menu") show doc | _ => doc end.

(** The handler of the checkbox: [hide()] or [show()] at once, and an animation behind those there
    are. *)
Definition menu_change (checked : bool) (pg : menu_page) : menu_page :=
  let doc := alter_id (js "main-menu") (if checked then hide else show) (document pg) in
  mkMenuPage (match slides pg with [] => start_slide [checked] doc | _ => doc end)
    (page_width pg) checked (handled pg) (slides pg ++ [checked]) (closed pg).

(** The first animation is over, 250 ms after its beginning: its [options['complete']], whatever was
    done to the menu meanwhile; the next one begins. *)
Definition slide_end (pg : menu_page) : menu_page :=
  match slides pg with
  | [] => pg
  | down :: queue =>
      let doc := alter_id (js "main-menu") (setDisplay (if down then "block" else "none")) (document pg) in
      mkMenuPage (start_slide queue doc) (page_width pg) (checked pg) (handled pg) queue (closed pg)
  end.

(** The events of the window and of the animations, which find the handlers or not. *)
Definition page_act (box : option jsstring) (pg : menu_page) (a : window_action) : menu_page :=
  if handled pg then
    match a with
    | Resize w => resetState box true w pg
    | CheckMenu c => menu_change c pg
    | SlideEnds => slide_end pg
    end
  else pg.

End Menu.

(** ** A page around a node *)

(** An element on the way from the root, with the nodes in front of and behind the way. *)
Record frame := { f_elem : elem; f_front : list node; f_behind : list node }.

Fixpoint plug (C : list frame) (n : node) : node :=
  match C with
  | [] => n
  | F :: C => Element (f_elem F) (f_front F ++ plug C n :: f_behind F)
  end.
Definition way (C : list frame) : path := (length ∘ f_front) <$> C.

Lemma alter_front {A} (f : A -> A) (l : list A) x k :
  alter f (length l) (l ++ x :: k) = l ++ f x :: k.
Proof. rewrite alter_app_r_alt by lia. by rewrite Nat.sub_diag. Qed.

Lemma way_cons F C q : way (F :: C) ++ q = length (f_front F) :: (way C ++ q).
Proof. done. Qed.

Ltac plug_ind C IH :=
  induction C as [|F C IH]; [done|];
  rewrite way_cons; cbn [plug alter_at replace_kids append_kids alter_first_child].

Lemma alter_plug f C n q : alter_at f (plug C n) (way C ++ q) = plug C (alter_at f n q).
Proof. plug_ind C IH. by rewrite alter_front, IH. Qed.
Lemma replace_plug new C n q : replace_kids new (plug C n) (way C ++ q) = plug C (replace_kids new n q).
Proof. plug_ind C IH. by rewrite alter_front, IH. Qed.
Lemma append_plug new C n q : append_kids new (plug C n) (way C ++ q) = plug C (append_kids new n q).
Proof. plug_ind C IH. by rewrite alter_front, IH. Qed.
Lemma alter_first_plug f C n q : alter_first_child f (plug C n) (way C ++ q) = plug C (alter_first_child f n q).
Proof. plug_ind C IH. by rewrite alter_front, IH. Qed.
Lemma insert_plug new C n q : q <> [] -> insert_before new (plug C n) (way C ++ q) = plug C (insert_before new n q).
Proof.
  intros Hq. plug_ind C IH. cbn [insert_before].
  destruct (way C ++ q) as [|i p] eqn:Hp; [by apply app_eq_nil in Hp as [_ ?]|]. by rewrite alter_front, IH.
Qed.

(** No element of these nodes has one of the ids. *)
Definition free (ids : list jsstring) (ks : list node) : Prop :=
  Forall (fun e => Forall (fun id => has_id id e = false) ids) (concat (map elems ks)).
Definition free_way (ids : list jsstring) (C : list frame) : Prop :=
  Forall (fun F => free ids (f_front F) /\ free ids (f_behind F) /\
    Forall (fun id => has_id id (f_elem F) = false) ids /\ hidden (f_elem F) = false) C.

Lemma free_find ids ks id i : free ids ks -> id ∈ ids -> find_kids (has_id id) ks i = None.
Proof.
  intros Hf Hid. apply find_kids_None. eapply Forall_impl; [exact Hf|]. cbn. intros e He.
  rewrite Forall_forall in He. by apply He.
Qed.

Lemma find_front p front x behind i :
  find_kids p front i = None ->
  find_kids p (front ++ x :: behind) i =
  match find_elem p x with Some q => Some ((i + length front)%nat :: q) | None => find_kids p behind (S (i + length front)) end.
Proof. intros H. rewrite find_kids_app, H. cbn [find_kids]. done. Qed.

Lemma find_plug ids C n id q :
  free_way ids C -> id ∈ ids -> find_elem (has_id id) n = Some q ->
  getElementById (plug C n) id = Some (way C ++ q).
Proof.
  intros HC Hid Hq. unfold getElementById. induction HC as [|F C (Hf & _ & He & _) _ IH]; [done|].
  cbn [plug]. rewrite find_elem_unfold. rewrite Forall_forall in He. rewrite (He id Hid).
  rewrite find_front by (by eapply free_find). by rewrite IH.
Qed.

(** ** The page with the menu *)

Definition menu_ids : list jsstring :=
  [js "main-nav"; js "main-menu-state"; js "main-menu"; js "searchBoxPos1"; js "searchBoxPos2"; js "MSearchBox"].
Definition place_ids : list jsstring := [js "main-menu"; js "searchBoxPos1"; js "searchBoxPos2"].

(** The element [#main-nav] is among the children of [top], below the elements of [C]. *)
Record surroundings := { above : list frame; top : frame; nav : elem }.

Record surroundings_ok (S : surroundings) : Prop := {
  ok_above : free_way menu_ids (above S);
  ok_top : free_way menu_ids [top S];
  ok_nav : attrs (nav S) !! "id" = Some (js "main-nav") /\ hidden (nav S) = false;
}.

Definition first_page (S : surroundings) : node :=
  plug (above S) (Element (f_elem (top S)) (f_front (top S) ++ Element (nav S) [] :: f_behind (top S))).

(** The page behind [initMenu]: the contents of the two places, the menu and its entries. *)
Definition inner (S : surroundings) (k1 nav_kids : list node) : node :=
  Element (f_elem (top S)) (f_front (top S) ++ state_div k1 :: Element (nav S) nav_kids :: f_behind (top S)).
Definition menu_doc S k1 menu entries p2 k2 : node :=
  plug (above S) (inner S k1 [Element menu (entries ++ [Element p2 k2])]).

Definition pos1_path (S : surroundings) : path := way (above S) ++ [length (f_front (top S)); 2%nat].
Definition menu_path (S : surroundings) : path := way (above S) ++ [length (f_front (top S) ++ [Text []]); 0%nat].
Definition pos2_path (S : surroundings) (entries : list node) : path := menu_path S ++ [length entries].

Section Inner.
Context (S : surroundings) (HS : surroundings_ok S) (k1 nav_kids : list node).

Lemma inner_find id :
  id ∈ menu_ids ->
  find_elem (has_id id) (inner S k1 nav_kids) =
  match find_elem (has_id id) (state_div k1) with
  | Some q => Some (length (f_front (top S)) :: q)
  | None =>
      match find_elem (has_id id) (Element (nav S) nav_kids) with
      | Some q => Some (length (f_front (top S) ++ [Text []]) :: q)
      | None => None
      end
  end.
Proof using HS.
  intros Hid. destruct HS as [_ Ht _]. apply Forall_cons in Ht as [(Hf & Hb & He & _) _].
  unfold inner. rewrite find_elem_unfold. rewrite Forall_forall in He. rewrite (He id Hid).
  rewrite find_front by (by eapply free_find). destruct (find_elem _ (state_div k1)); [done|]. cbn [find_kids].
  rewrite length_app, Nat.add_1_r. destruct (find_elem _ (Element (nav S) _)); [done|]. by eapply free_find.
Qed.

Lemma doc_find id q :
  id ∈ menu_ids -> find_elem (has_id id) (inner S k1 nav_kids) = Some q ->
  getElementById (plug (above S) (inner S k1 nav_kids)) id = Some (way (above S) ++ q).
Proof using HS. intros Hid Hq. eapply find_plug; [apply HS|exact Hid|exact Hq]. Qed.

End Inner.

Lemma not_id e id id' : attrs e !! "id" = Some id -> id <> id' -> has_id id' e = false.
Proof. unfold has_id. intros -> Hne. apply bool_decide_eq_false. congruence. Qed.
Lemma is_id e id : attrs e !! "id" = Some id -> has_id id e = true.
Proof. unfold has_id. intros ->. by apply bool_decide_eq_true. Qed.
Lemma no_id e id : attrs e !! "id" = None -> has_id id e = false.
Proof. unfold has_id. intros ->. by apply bool_decide_eq_false. Qed.

(** The markup in front of the menu has the ids of the checkbox and of the first place only. *)
Lemma state_div_none id ks :
  id ∉ [js "main-menu-state"; js "searchBoxPos1"] -> free [id] ks -> find_elem (has_id id) (state_div ks) = None.
Proof.
  rewrite !not_elem_of_cons. intros (H1 & H2 & _) Hks. apply find_elem_None. cbn [state_div with_id elems map concat].
  repeat first [apply Forall_cons; split | apply Forall_app; split | apply Forall_nil_2];
    try (apply no_id; vm_compute; reflexivity).
  - eapply not_id; [vm_compute; reflexivity|]. intros <-. by apply H1.
  - eapply not_id; [vm_compute; reflexivity|]. intros <-. by apply H2.
  - eapply Forall_impl; [exact Hks|]. intros e He. by apply Forall_cons in He as [He _].
Qed.

Lemma free_one ids id ks : id ∈ ids -> free ids ks -> free [id] ks.
Proof.
  intros Hid Hf. eapply Forall_impl; [exact Hf|]. cbn. intros e He. rewrite Forall_forall in He.
  constructor; [by apply He|constructor].
Qed.

Section Found.
Context (S : surroundings) (HS : surroundings_ok S).
Context (k1 : list node) (menu : elem) (entries : list node) (p2 : elem) (k2 : list node).
Context (Hk1 : free place_ids k1) (Hk2 : free place_ids k2) (Hentries : free menu_ids entries).
Context (Hmenu : attrs menu !! "id" = Some (js "main-menu")) (Hp2 : attrs p2 !! "id" = Some (js "searchBoxPos2")).

Lemma at_pos1 : getElementById (menu_doc S k1 menu entries p2 k2) (js "searchBoxPos1") = Some (pos1_path S).
Proof using HS.
  unfold menu_doc. apply (doc_find S HS); [decide_now|]. rewrite (inner_find S HS) by decide_now.
  replace (find_elem (has_id (js "searchBoxPos1")) (state_div k1)) with (Some [2%nat]); [done|].
  unfold state_div. rewrite find_elem_unfold. vm_compute. reflexivity.
Qed.

Lemma at_menu kids :
  getElementById (plug (above S) (inner S k1 [Element menu kids])) (js "main-menu") = Some (menu_path S).
Proof using HS Hk1 Hmenu.
  apply (doc_find S HS); [decide_now|]. rewrite (inner_find S HS) by decide_now.
  rewrite state_div_none by ((by eapply free_one; [|exact Hk1]; decide_now) || decide_now).
  rewrite find_elem_unfold, (not_id _ _ _ (proj1 (ok_nav _ HS))) by done. cbn [find_kids].
  by rewrite find_elem_unfold, is_id.
Qed.

Lemma at_menu_doc : getElementById (menu_doc S k1 menu entries p2 k2) (js "main-menu") = Some (menu_path S).
Proof using HS Hk1 Hmenu. apply at_menu. Qed.

Lemma at_pos2 : getElementById (menu_doc S k1 menu entries p2 k2) (js "searchBoxPos2") = Some (pos2_path S entries).
Proof using HS Hk1 Hmenu Hp2 Hentries.
  unfold menu_doc, pos2_path, menu_path. rewrite <- app_assoc. apply (doc_find S HS); [decide_now|]. rewrite (inner_find S HS) by decide_now.
  rewrite state_div_none by ((by eapply free_one; [|exact Hk1]; decide_now) || decide_now).
  rewrite find_elem_unfold, (not_id _ _ _ (proj1 (ok_nav _ HS))) by done. cbn [find_kids].
  rewrite find_elem_unfold, (not_id _ _ _ Hmenu) by done.
  rewrite find_front by (eapply free_find; [exact Hentries|decide_now]).
  rewrite find_elem_unfold, is_id by done. done.
Qed.

(** The box in the first place, or in the second one when the first is empty. *)
Lemma box_in_pos1 q :
  find_kids (has_id (js "MSearchBox")) k1 0 = Some q ->
  getElementById (menu_doc S k1 menu entries p2 k2) (js "MSearchBox") = Some (pos1_path S ++ q).
Proof using HS.
  intros Hq. unfold menu_doc, pos1_path. rewrite <- app_assoc. apply (doc_find S HS); [decide_now|]. rewrite (inner_find S HS) by decide_now.
  replace (find_elem (has_id (js "MSearchBox")) (state_div k1)) with (Some (2%nat :: q)); [done|].
  unfold state_div, with_id. rewrite find_elem_unfold. cbn [find_kids]. rewrite !find_elem_unfold. cbn [find_kids].
  rewrite !find_elem_unfold. cbn [find_kids]. rewrite Hq. reflexivity.
Qed.

Lemma box_in_pos2 q :
  k1 = [] -> find_kids (has_id (js "MSearchBox")) k2 0 = Some q ->
  getElementById (menu_doc S k1 menu entries p2 k2) (js "MSearchBox") = Some (pos2_path S entries ++ q).
Proof using HS Hmenu Hp2 Hentries.
  intros H1 Hq. unfold menu_doc, pos2_path, menu_path. rewrite <- !app_assoc. apply (doc_find S HS); [decide_now|].
  rewrite (inner_find S HS) by decide_now. rewrite state_div_none by ((by rewrite H1; constructor) || decide_now).
  rewrite find_elem_unfold, (not_id _ _ _ (proj1 (ok_nav _ HS))) by done. cbn [find_kids].
  rewrite find_elem_unfold, (not_id _ _ _ Hmenu) by done.
  rewrite find_front by (eapply free_find; [exact Hentries|decide_now]).
  rewrite find_elem_unfold, (not_id _ _ _ Hp2), Hq by done. done.
Qed.

End Found.

(** ** What the operations make of the page *)

Section Operations.
Context (S : surroundings) (HS : surroundings_ok S) (entries : list node) (Hentries : free menu_ids entries).

Lemma alter_front2 (f : node -> node) front a b l x :
  alter f (length (front ++ [x])) (front ++ a :: b :: l) = front ++ a :: f b :: l.
Proof.
  change (front ++ a :: ?l) with (front ++ [a] ++ l). rewrite !app_assoc.
  replace (length (front ++ [x])) with (length (front ++ [a])) by (rewrite !length_app; done).
  apply alter_front.
Qed.

Lemma alter_menu f k1 menu p2 k2 :
  alter_at f (menu_doc S k1 menu entries p2 k2) (menu_path S) = menu_doc S k1 (f menu) entries p2 k2.
Proof.
  unfold menu_doc, menu_path. rewrite alter_plug. f_equal. unfold inner. cbn [alter_at].
  by rewrite alter_front2.
Qed.

Lemma alter_pos2 f k1 menu p2 k2 :
  alter_at f (menu_doc S k1 menu entries p2 k2) (pos2_path S entries) = menu_doc S k1 menu entries (f p2) k2.
Proof.
  unfold menu_doc, pos2_path, menu_path. rewrite <- app_assoc, alter_plug. f_equal. unfold inner. cbn [alter_at app].
  rewrite alter_front2. cbn [alter_at alter list_alter]. by rewrite alter_front.
Qed.

Lemma replace_pos1 new k1 menu p2 k2 :
  replace_kids new (menu_doc S k1 menu entries p2 k2) (pos1_path S) = menu_doc S new menu entries p2 k2.
Proof.
  unfold menu_doc, pos1_path. rewrite replace_plug. f_equal. unfold inner. cbn [replace_kids].
  by rewrite alter_front.
Qed.

Lemma replace_pos2 new k1 menu p2 k2 :
  replace_kids new (menu_doc S k1 menu entries p2 k2) (pos2_path S entries) = menu_doc S k1 menu entries p2 new.
Proof.
  unfold menu_doc, pos2_path, menu_path. rewrite <- app_assoc, replace_plug. f_equal. unfold inner. cbn [replace_kids app].
  rewrite alter_front2. cbn [replace_kids alter list_alter]. by rewrite alter_front.
Qed.

(** A page after [initMenu]: where the box is, by the width of the last call of [resetState]. *)
Definition shown_at (box : list node) (w : Z) (k1 : list node) (menu p2 : elem) (k2 : list node) : Prop :=
  if w =? 0 then k1 = [] /\ k2 = []
  else if w <? 768 then k1 = box /\ (k2 = [] \/ k2 = box)
  else k1 = [] /\ k2 = box /\ hidden p2 = false.

(** [seen] says that the menu of a wide window is displayed. *)
Record laid_out (box : list node) (seen : bool) (pg : menu_page) : Prop := {
  lo_handled : handled pg = true;
  lo_document : exists k1 menu p2 k2,
    document pg = menu_doc S k1 menu entries p2 k2 /\
    attrs menu !! "id" = Some (js "main-menu") /\ attrs p2 !! "id" = Some (js "searchBoxPos2") /\
    shown_at box (page_width pg) k1 menu p2 k2 /\
    (seen = true -> 768 <= page_width pg -> hidden menu = false);
}.

(** The box has none of the ids of the places, and one element [#MSearchBox]. *)
Context `{B : Browser} (html : jsstring) (Hbox : free place_ids (parseHTML html)).

Lemma shown_free w k1 menu p2 k2 :
  shown_at (parseHTML html) w k1 menu p2 k2 -> free place_ids k1 /\ free place_ids k2.
Proof using Hbox.
  assert (Hnil : free place_ids []) by constructor. unfold shown_at. destruct (w =? 0); [by intros [-> ->]|].
  destruct (w <? 768); [by intros [-> [-> | ->]]|]. by intros (-> & -> & _).
Qed.

Lemma id_kept e id v : attrs e !! "id" = Some id ->
  attrs (hide e) !! "id" = Some id /\ attrs (show e) !! "id" = Some id /\ attrs (setDisplay v e) !! "id" = Some id.
Proof. intros He. unfold hide, show. by destruct (hidden e). Qed.

(** A change of the width shows the menu of a wide window. *)
Lemma resize_laid_out seen pg w :
  0 < w -> laid_out (parseHTML html) seen pg ->
  laid_out (parseHTML html) (seen || negb (w =? page_width pg)) (resetState (Some html) true w pg) /\
  page_width (resetState (Some html) true w pg) = w.
Proof using HS Hentries Hbox.
  intros Hw [Hh (k1 & menu & p2 & k2 & Hd & Hm & Hp & Hs & Hv)]. unfold resetState.
  destruct (Z.eqb_spec w (page_width pg)) as [->|Hne]; cbn [negb]; [rewrite orb_false_r; split; [by split; [|eauto 12]|done]|].
  rewrite orb_true_r. destruct (shown_free _ _ _ _ _ Hs) as [Hf1 Hf2].
  assert (Hnil : free place_ids []) by constructor.
  destruct (id_kept menu _ "" Hm) as (Hm1 & Hm2 & _), (id_kept p2 _ "" Hp) as (Hp1 & Hp2 & _).
  unfold alter_id, put_html, on_id. rewrite Hd, at_menu_doc by done. rewrite !alter_menu.
  destruct (Z.ltb_spec w 768) as [Hn|Hn]; (split; [|done]); split; [done| |done|].
  - rewrite at_pos1, replace_pos1 by done. rewrite at_pos2, alter_pos2 by done.
    exists (parseHTML html), (hide menu), (hide p2), k2. split; [done|]. split; [done|]. split; [done|].
    unfold shown_at in *. cbn [page_width]. rewrite (proj2 (Z.eqb_neq w 0)), (proj2 (Z.ltb_lt w 768)) by lia.
    split; [|lia]. split; [done|]. destruct (page_width pg =? 0); [left; tauto|]. destruct (page_width pg <? 768); tauto.
  - rewrite at_pos1, replace_pos1 by done. rewrite at_pos2, replace_pos2 by done. rewrite at_pos2, alter_pos2 by done.
    exists [], (show menu), (show p2), (parseHTML html). split; [done|]. split; [done|]. split; [done|].
    unfold shown_at. cbn [page_width]. rewrite (proj2 (Z.eqb_neq w 0)), (proj2 (Z.ltb_ge w 768)) by lia.
    by rewrite !hidden_show.
Qed.

(** What changes only the menu itself keeps the page laid out. *)
Lemma menu_laid_out seen seen' pg f c q n :
  (forall e, attrs e !! "id" = Some (js "main-menu") -> attrs (f e) !! "id" = Some (js "main-menu")) ->
  (seen' = true -> 768 <= page_width pg -> forall e, (seen = true -> hidden e = false) -> hidden (f e) = false) ->
  laid_out (parseHTML html) seen pg ->
  laid_out (parseHTML html) seen'
    (mkMenuPage (alter_id (js "main-menu") f (document pg)) (page_width pg) c (handled pg) q n).
Proof using HS Hentries Hbox.
  intros Hid Hv' [Hh (k1 & menu & p2 & k2 & Hd & Hm & Hp & Hs & Hv)]. destruct (shown_free _ _ _ _ _ Hs) as [Hf1 Hf2].
  split; [done|]. unfold alter_id, on_id. cbn [document page_width].
  rewrite Hd, at_menu_doc by done. rewrite alter_menu. eexists _, _, _, _. split; [done|]. split; [by apply Hid|].
  split; [done|]. split; [exact Hs|]. intros Hs' Hw. apply Hv'; [done|done|]. intros Hseen. by apply Hv.
Qed.

Lemma start_laid_out seen pg queue :
  laid_out (parseHTML html) seen pg -> laid_out (parseHTML html) seen (set_document (start_slide queue (document pg)) pg).
Proof using HS Hentries Hbox.
  intros Hl. destruct queue as [|[] queue]; cbn [start_slide]; [by destruct pg| |by destruct pg].
  unfold set_document. apply (menu_laid_out seen); [|by intros _ _ e _; apply hidden_show|done].
  intros e He. by apply (id_kept e _ "" He).
Qed.

Lemma check_laid_out seen pg c :
  page_width pg < 768 -> laid_out (parseHTML html) seen pg -> laid_out (parseHTML html) seen (menu_change c pg).
Proof using HS Hentries Hbox.
  intros Hw Hl. pose proof (menu_laid_out seen seen pg (if c then hide else show) c (slides pg ++ [c]) (closed pg)) as H.
  unfold menu_change. destruct (slides pg) as [|b queue].
  - eapply (start_laid_out _ _ [c]) in H; [exact H| |lia|done]. intros e He. destruct c; by apply (id_kept e _ "" He).
  - apply H; [|lia|done]. intros e He. destruct c; by apply (id_kept e _ "" He).
Qed.

(** The end of [slideUp] hides the menu. *)
Lemma slide_laid_out seen pg :
  laid_out (parseHTML html) seen pg ->
  laid_out (parseHTML html) (seen && negb ((768 <=? page_width pg) && bool_decide (head (slides pg) = Some false))) (slide_end pg).
Proof using HS Hentries Hbox.
  intros Hl. unfold slide_end. destruct (slides pg) as [|down queue].
  { cbn [head]. by rewrite bool_decide_eq_false_2, andb_false_r, andb_true_r by done. }
  cbn [head]. set (seen' := seen && _).
  pose proof (menu_laid_out seen seen' pg (setDisplay (if down then "block" else "none")) (checked pg) queue (closed pg)) as H.
  apply (start_laid_out _ _ queue) in H; [exact H| | |done].
  - intros e He. by apply (id_kept e _ _ He).
  - intros [_ Hs']%andb_true_iff Hw e _. rewrite (proj2 (Z.leb_le _ _)) in Hs' by done. destruct down; [unfold hidden; by rewrite display_setDisplay|].
    by rewrite bool_decide_eq_true_2 in Hs'.
Qed.

End Operations.

(** ** The page [initMenu] makes *)

Section Init.
Context (S : surroundings) (HS : surroundings_ok S) `{B : Browser} (relPath html : jsstring).

(** The markup of the menu is parsed to a list; the page has none of these ids. *)
Context (ul : elem) (entries : list node)
  (Hmenu : parseHTML (makeTree menudata relPath) = [Element ul entries])
  (Hentries : free menu_ids entries).

Lemma first_nav : getElementById (first_page S) (js "main-nav") = Some (way (above S) ++ [length (f_front (top S))]).
Proof using HS.
  eapply find_plug; [apply HS|decide_now|]. rewrite find_elem_unfold.
  destruct HS as [_ Ht [Hn _]]. apply Forall_cons in Ht as [(Hf & _ & He & _) _]. rewrite Forall_forall in He.
  rewrite He by decide_now. rewrite find_front by (eapply free_find; [exact Hf|decide_now]).
  by rewrite find_elem_unfold, is_id.
Qed.

Lemma inner_nav k1 kids :
  free [js "main-nav"] k1 ->
  getElementById (plug (above S) (inner S k1 kids)) (js "main-nav") =
  Some (way (above S) ++ [length (f_front (top S) ++ [Text []])]).
Proof using HS.
  intros Hk. apply (doc_find S HS); [decide_now|]. rewrite (inner_find S HS) by decide_now.
  rewrite state_div_none by (done || decide_now). by rewrite find_elem_unfold, is_id by apply HS.
Qed.

Lemma init_laid_out : laid_out S entries (parseHTML html) true (initMenu relPath (Some html) (first_page S)) /\
  page_width (initMenu relPath (Some html) (first_page S)) = 0.
Proof using HS Hmenu Hentries.
  split; [|done]. assert (Hnil : forall ids, free ids []) by (by constructor).
  set (menu := setAttribute "id" (js "main-menu") (addClass [js "sm"; js "sm-dox"] ul)).
  assert (Hm : attrs menu !! "id" = Some (js "main-menu")) by apply lookup_insert_eq.
  assert (Hdoc : document (initMenu relPath (Some html) (first_page S)) = menu_doc S [] menu entries pos2_elem []).
  { unfold initMenu. rewrite Hmenu. unfold on_id at 4. rewrite first_nav. unfold first_page.
    rewrite insert_plug by done. cbn [insert_before]. rewrite take_app_length, drop_app_length.
    change (_ ++ [state_div []] ++ _) with
      (f_front (top S) ++ state_div [] :: Element (nav S) [] :: f_behind (top S)).
    fold (inner S [] []). unfold on_id at 3. rewrite inner_nav by apply Hnil. rewrite append_plug. unfold inner at 1.
    cbn [append_kids]. rewrite alter_front2. cbn [append_kids app]. fold (inner S [] [Element ul entries]).
    unfold on_id at 2. rewrite inner_nav by apply Hnil. rewrite alter_first_plug. unfold inner at 1.
    cbn [alter_first_child]. rewrite alter_front2. cbn [alter_first_child alter_first]. fold menu.
    fold (inner S [] [Element menu entries]). unfold on_id. rewrite at_menu by done. cbn [document].
    unfold menu_path. rewrite append_plug. unfold menu_doc, inner at 1. cbn [append_kids]. by rewrite alter_front2. }
  split.
  - assert (Hh : forall d, getElementById d (js "main-menu-state") <> None ->
      match getElementById d (js "main-menu-state") with Some _ => true | None => false end = true)
      by (by intros d; destruct (getElementById _ _)).
    apply Hh. fold (document (initMenu relPath (Some html) (first_page S))).
    change (getElementById (document (initMenu relPath (Some html) (first_page S))) (js "main-menu-state") <> None).
    rewrite Hdoc. unfold menu_doc.
    rewrite (doc_find S HS _ _ _ [length (f_front (top S)); 0%nat]); [done|decide_now|].
    rewrite (inner_find S HS) by decide_now. vm_compute. reflexivity.
  - rewrite Hdoc. exists [], menu, pos2_elem, []. split; [done|]. split; [done|]. split; [apply lookup_insert_eq|].
    split; [done|]. cbn [page_width initMenu]. lia.
Qed.

End Init.

(** ** What is seen *)

(** The element at a path and those above it are not hidden. *)
Fixpoint shown_along (n : node) (p : path) : bool :=
  match n with
  | Text _ => true
  | Element e kids =>
      negb (hidden e) &&
      match p with
      | [] => true
      | i :: p => match kids !! i with Some k => shown_along k p | None => true end
      end
  end.

Lemma shown_plug ids C n q : free_way ids C -> shown_along (plug C n) (way C ++ q) = shown_along n q.
Proof.
  intros HC. induction HC as [|F C (_ & _ & _ & Hh) _ IH]; [done|]. rewrite way_cons. cbn [plug shown_along].
  rewrite Hh, list_lookup_middle by done. exact IH.
Qed.

Lemma lookup_front2 {A} (front : list A) a b l x : (front ++ a :: b :: l) !! length (front ++ [x]) = Some b.
Proof. rewrite length_app. rewrite lookup_app_r by lia. by rewrite Nat.add_comm, Nat.add_sub. Qed.

Definition widths (acts : list window_action) : list Z :=
  omap (fun a => match a with Resize w => Some w | _ => None end) acts.

(** The checkbox is shown in the narrow layout only. *)
Fixpoint narrow_checks (w : Z) (acts : list window_action) : Prop :=
  match acts with
  | [] => True
  | Resize w :: acts => narrow_checks w acts
  | CheckMenu _ :: acts => w < 768 /\ narrow_checks w acts
  | SlideEnds :: acts => narrow_checks w acts
  end.

Section Runs.
Context (S : surroundings) (HS : surroundings_ok S) (entries : list node) (Hentries : free menu_ids entries).
Context `{B : Browser} (html : jsstring) (Hbox : free place_ids (parseHTML html)).

(** No [slideUp] came to its end in a wide window since its width changed. *)
Definition steady_step (pg : menu_page) (steady : bool) (a : window_action) : bool :=
  match a with
  | Resize w => steady || negb (w =? page_width pg)
  | CheckMenu _ => steady
  | SlideEnds => steady && negb ((768 <=? page_width pg) && bool_decide (head (slides pg) = Some false))
  end.
Fixpoint steady (so_far : bool) (pg : menu_page) (acts : list window_action) : bool :=
  match acts with
  | [] => so_far
  | a :: acts => steady (steady_step pg so_far a) (page_act (Some html) pg a) acts
  end.

Lemma acts_laid_out acts seen pg :
  laid_out S entries (parseHTML html) seen pg -> Forall (fun w => 0 < w) (widths acts) -> narrow_checks (page_width pg) acts ->
  let pg' := foldl (page_act (Some html)) pg acts in
  laid_out S entries (parseHTML html) (steady seen pg acts) pg' /\
  page_width pg' = default (page_width pg) (last (widths acts)).
Proof using HS Hentries Hbox.
  cbn zeta. revert seen pg. induction acts as [|a acts IH]; intros seen pg Hl Hw Hc; [done|]. cbn [foldl steady].
  assert (Hact : page_act (Some html) pg a =
    match a with Resize w => resetState (Some html) true w pg | CheckMenu c => menu_change c pg | SlideEnds => slide_end pg end)
    by (unfold page_act; by rewrite (lo_handled _ _ _ _ _ Hl)).
  rewrite Hact. destruct a as [w|c|]; cbn [steady_step narrow_checks] in *.
  - apply Forall_cons in Hw as [Hw Hws].
    destruct (resize_laid_out S HS entries Hentries html Hbox seen pg w Hw Hl) as [Hl' Hw'].
    destruct (IH _ (resetState (Some html) true w pg) Hl' Hws) as [H1 H2]; [by rewrite Hw'|]. split; [done|].
    rewrite H2, Hw'. change (widths (Resize w :: acts)) with (w :: widths acts). rewrite last_cons. by destruct (last _).
  - destruct Hc as [Hlt Hc]. apply (IH seen (menu_change c pg)); [by apply (check_laid_out S HS entries Hentries html Hbox)|done|done].
  - assert (Hpw : page_width (slide_end pg) = page_width pg) by (unfold slide_end; by destruct (slides pg)).
    destruct (IH _ (slide_end pg) (slide_laid_out S HS entries Hentries html Hbox seen pg Hl) Hw) as [H1 H2];
      [by rewrite Hpw|]. split; [exact H1|]. by rewrite H2, Hpw.
Qed.

(** The place of the box, by the width. *)
Definition place_path (w : Z) : path := if w <? 768 then pos1_path S else pos2_path S entries.
Definition place_id (w : Z) : string := if w <? 768 then "searchBoxPos1" else "searchBoxPos2".

Lemma laid_out_box seen pg w q :
  laid_out S entries (parseHTML html) seen pg -> page_width pg = w -> 0 < w ->
  find_kids (has_id (js "MSearchBox")) (parseHTML html) 0 = Some q ->
  getElementById (document pg) (js (place_id w)) = Some (place_path w) /\
  getElementById (document pg) (js "MSearchBox") = Some (place_path w ++ q) /\
  (w < 768 \/ seen = true -> shown_along (document pg) (place_path w) = true).
Proof using HS Hentries Hbox.
  intros [_ (k1 & menu & p2 & k2 & Hd & Hm & Hp & Hs & Hv)] Hwidth Hw Hq. rewrite Hwidth in Hs, Hv.
  destruct (shown_free html Hbox _ _ _ _ _ Hs) as [Hf1 Hf2]. rewrite Hd. destruct (ok_nav _ HS) as [Hn Hnh].
  assert (Htop := ok_top _ HS). apply Forall_cons in Htop as [(_ & _ & _ & Hth) _].
  unfold shown_at in Hs. rewrite (proj2 (Z.eqb_neq w 0)) in Hs by lia. unfold place_path, place_id.
  destruct (Z.ltb_spec w 768) as [Hlt|Hge].
  - destruct Hs as [-> Hk2]. split; [by apply at_pos1|]. split; [by apply box_in_pos1|]. intros _.
    unfold menu_doc, pos1_path. rewrite (shown_plug menu_ids) by apply HS. unfold inner. cbn [shown_along].
    rewrite Hth, list_lookup_middle by done. reflexivity.
  - destruct Hs as (-> & -> & Hhp). split; [by apply at_pos2|]. split; [by apply box_in_pos2|].
    intros [|Hseen]; [lia|]. specialize (Hv Hseen Hge).
    unfold menu_doc, pos2_path, menu_path. rewrite <- app_assoc, (shown_plug menu_ids) by apply HS.
    unfold inner. cbn [shown_along app]. rewrite Hth, lookup_front2. cbn [shown_along]. rewrite Hnh. cbn [negb andb].
    cbn [lookup list_lookup shown_along]. rewrite Hv, list_lookup_middle by done. cbn [negb andb shown_along].
    by rewrite Hhp.
Qed.

End Runs.

(** ** Properties *)


(** ** A page *)

(** The list a menu is read as. *)
Fixpoint link_node (l : link) : node :=
  match l with
  | Link address text links =>
      Element (createElement "li")
        (Element (setAttribute "href" address (createElement "a")) [Text text] ::
         match links with Some ls => [Element (createElement "ul") (map link_node ls)] | None => [] end)
  end.

Definition sample_box : jsstring := searchBoxHtml false [] (js "search.php") (js "Search").

(** A browser that knows the markup of the menu and of the box. *)
#[local] Instance menu_browser : Browser := {|
  toLowerCase := lower_simple;
  parseHTML := fun s =>
    if bool_decide (s = sample_box) then [search_box_node]
    else match read_links 400 s with
         | Some (Some ls, _) => [Element (createElement "ul") (map link_node ls)]
         | _ => [Text s]
         end;
  box := fun _ _ => {| offsetWidth := 0; offsetHeight := 0; offsetLeft := 0; offsetTop := 0; offsetParent := None |};
  focusable := fun _ _ => true;
  clientWidth := fun _ => 800;
  clientHeight := fun _ => 600;
  exceeds_one := fun _ => false;
  body := [];
  url_query := [];
|}.

Definition page_surroundings : surroundings := {|
  above := [{| f_elem := createElement "html"; f_front := [Element (createElement "head") []]; f_behind := [] |};
            {| f_elem := createElement "body"; f_front := []; f_behind := [with_id "div" "MSearchSelectWindow" []] |}];
  top := {| f_elem := setAttribute "id" (js "top") (createElement "div");
            f_front := [with_id "div" "titlearea" []]; f_behind := [] |};
  nav := setAttribute "id" (js "main-nav") (createElement "div") |}.

Definition page_entries : list node :=
  match parseHTML (makeTree menudata []) with [Element _ kids] => kids | _ => [] end.

(** The window becomes wide and narrow again: the page has two boxes then. The menu is opened, and the
    window made wide before the animation ends. *)
Definition page_acts : list window_action := [Resize 1024; Resize 600; CheckMenu true; Resize 1024; SlideEnds].


(** The narrow page has two boxes, of which the one at the end of the menu is the old one. *)
Lemma two_boxes :
  let pg := foldl (page_act (Some sample_box)) (initMenu [] (Some sample_box) (first_page page_surroundings)) [Resize 1024; Resize 600] in
  size (filter (fun e => elem_id e = js "MSearchBox") (elems (document pg))) = 2.
Proof. vm_compute. reflexivity. Qed.

(** The menu is closed in a narrow window, which becomes wide before the animation ends: the wide
    layout loses its menu and the search box in it. *)
Lemma late_close_hides_box :
  let acts := [Resize 600; CheckMenu true; SlideEnds; CheckMenu false; Resize 1024; SlideEnds] in
  let pg := foldl (page_act (Some sample_box)) (initMenu [] (Some sample_box) (first_page page_surroundings)) acts in
  page_width pg = 1024 /\ slides pg = [] /\
  getElementById (document pg) (js "MSearchBox") = Some (place_path page_surroundings page_entries 1024 ++ [0%nat]) /\
  shown_along (document pg) (place_path page_surroundings page_entries 1024) = false.
Proof. vm_compute. split_and!; reflexivity. Qed.
